(* ===== verification/_CoqProject ===== *)
-Q . S2P
Prelude.v
Numbers.v
Utf8.v
Net.v
Base64.v
Effects.v
Kube.v
Api.v
Pki.v
World.v
Host.v
PkiAuth.v
Templates.v
Generate.v
RuntimeController.v
RuntimeSteps.v
Broker.v
Tunnel.v
Splice.v
Agent.v
Csr.v
Token.v
JoinToken.v
HelmChart.v
HelmController.v
Addons.v
Version.v
Proxy.v
Endpoints.v
Startup.v
Strvals.v
StrvalsProps.v
Provision.v
Procmgr.v
Bootstrap.v
Wire.v
Worker.v
Shutdown.v
Commands.v
MasterAgent.v
Services.v
Lifecycle.v
Cli.v
Clients.v
DeepCopy.v
DeepCopies.v
