(* ===== verification/Prelude.v ===== *)
(** * heir: a verification development

    heir runs the control planes of tenant Kubernetes clusters inside a
    management cluster.  Its parts, and how they work together:

    - the Runtime controller (src/internal/controller/controlplane) turns a
      [Runtime] resource into a PKI Secret, a client kubeconfig, a ConfigMap of
      run scripts and manifests, Deployments and Services.  It calls the
      generators of src/pkg/runtime and the PKI of src/pkg/pki, and reports in
      the status of the resource;
    - the cluster agent (src/internal/controller/clusteragent) works against the
      tenant cluster: it approves serving certificates of nodes, issues worker
      join tokens (with src/pkg/token), and installs Helm charts by Jobs (with
      src/pkg/runtime/helmchart.go), the built-in and user-declared addons among
      them;
    - the plane tunnel (src/pkg/tunnel) lets the API server reach kubelets: agents
      on the nodes hold connections to a server whose broker picks one of them
      for every CONNECT request of the API server's egress selector;
    - the command line (src/pkg/provision) provisions and deletes control planes
      and tokens; values of the form --set a.b=c are read by src/pkg/strvals;
    - a worker (src/pkg/provision/worker) joins with a token: the bootstrap
      kubeconfig in it is saved, a unit is installed, and the started worker asks
      for a client certificate, reads the profile of its node, sets up containerd,
      the kubelet and the CNI plugins and supervises them; a local proxy forwards
      the node's connections to the API servers currently known;
    - the master agent (src/pkg/masteragent) beside the API server answers whether
      the control plane is ready;
    - the binaries (src/cmd) and commands (src/pkg/cmd) read flags and variables,
      build the parts above and start them.

    ** Files

    Base:
    - Prelude.v: Go maps and strings, sorting, hint databases, a text code for
      countable types.
    - Numbers.v, Utf8.v, Net.v, Base64.v: what the program uses of strconv,
      unicode/utf8, net and encoding/base64, with their round trips.
    - Effects.v: programs as trees of calls ([prog], [let!], [for_each]), their
      weakest preconditions against the specification of the calls ([wp]), and
      their execution by a handler ([run]); [wp_run] transports what is proved
      against the specification to every handler that implements it.
      [answers] and [reports] speak of the answers of the calls alone: what follows when
      none of them fails, and what follows once one does.  [embed] runs a program of one set of calls among those of another.
      [Retry] and [RetryLaws] are retry.Do and what is relied on of it.
    - Kube.v: the Kubernetes objects the program reads and writes, with the
      helpers of the client library as the interface [Machinery] and its laws
      [MachineryLaws] (owner references, status conditions, finalizers), and an
      instance of both.
    - World.v: the cluster the controllers act on (one map per kind of object, the
      clock, recorded events), the calls ([op]), and their specification
      [api_spec].  It is given for an environment [env]: [rely] is what other
      actors may do before a call, [allowed] what the program may write, and
      every call may fail at any time.  [mem] is an executable service that
      implements the specification; the witnesses run programs on it.
    - Api.v: the resource types of src/api, the control-plane layout
      (src/pkg/runtime/layout.go) and the worker defaults
      (src/pkg/provision/worker/typ/type.go).
    - Host.v: the machine of a worker: files and directories, the certificate
      store, certificate requests, systemd, the kernel, and the calls of World.v to
      the API server, as calls [hop] with the specification [host_spec] (every call
      may fail, a failed write may leave anything in its file) and the executable
      machine [disk].

    Control plane:
    - Pki.v: src/pkg/pki/validation.go and src/pkg/util/validation.go, over the
      X.509, PEM and kubeconfig libraries as the parameter [X509].
    - PkiAuth.v: src/pkg/pki/pki.go and src/pkg/runtime/pki_auth.go.
    - Templates.v: the manifests of src/pkg/runtime/component.
    - Generate.v: src/pkg/runtime/config.go, deployment.go, service.go,
      plane_tunnel.go, clusteragent.go, and src/pkg/util/hash.go.
    - RuntimeController.v: src/internal/controller/controlplane.  [Reconcile] and
      one definition per setup function, with the names of the source.
    - RuntimeSteps.v: further properties of the steps.

    Tunnel:
    - Broker.v: src/pkg/tunnel/server/broker; the table as a map of tunnel lists
      with their 64-bit round-robin cursor, the goroutines as a step relation.
    - Tunnel.v: src/pkg/tunnel/server (connection handling, replica count) and its
      egress_selector, a client of the interface [brokerDialer].
    - Splice.v: the two goroutines that copy between a hijacked connection and a
      stream (splice in egress_selector.go), with half-closing, as a transition
      system.
    - Agent.v: src/pkg/tunnel/agent as a step relation.
    - Wire.v: src/pkg/util/tls.go, the identity of a server (src/pkg/tunnel/shrd,
      server.go), connect and fetchIdentity of the agent, and src/pkg/cleanup.

    Cluster agent:
    - Csr.v, JoinToken.v, HelmController.v, Addons.v: the controllers of
      src/internal/controller/clusteragent.
    - Token.v: src/pkg/token/create.go.  HelmChart.v: src/pkg/runtime/helmchart.go.
      Addons.v also holds src/pkg/runtime/component/addons.go.
    - Endpoints.v: src/pkg/clusteragent, the endpoint synchroniser and the
      installation of the CRDs.
    - Startup.v: src/cmd/main.go and src/cmd/clusteragent/app.go, from the flags to the
      start of the manager, and the pod of the cluster agent.

    Worker and tools:
    - Proxy.v: src/pkg/provision/worker/proxy.  Upstreams, downstreams and handles
      live in stores and are shared by position; the calls of [Link] in progress
      and the critical sections of the manager are a step relation.
    - Procmgr.v: src/pkg/provision/worker/procmgr as a transition system.
    - Bootstrap.v: src/pkg/provision/worker/bootstrap and the profile file of
      src/pkg/provision/worker/typ.
    - Worker.v: src/pkg/provision/worker (worker.go, join.go, runner.go) with its
      packages component and sys.
    - Shutdown.v: the end of Run in worker.go, the goroutines of the components, the
      select and the teardown, over the supervisors of Procmgr.v.
    - Provision.v: src/pkg/provision/controlplane and src/pkg/provision/token, a
      Module each.
    - Commands.v: src/pkg/cmd, what the commands call, print and save.
    - Strvals.v: src/pkg/strvals; StrvalsProps.v: its properties.
    - MasterAgent.v: src/pkg/masteragent/readyz.go and the flags that the
      environment overrides (src/cmd/masteragent/app.go).
    - Services.v: the flags of src/cmd/tunnel/app.go and src/cmd/masteragent/app.go, the
      configurations they make, and the two servers built from them.
    - Lifecycle.v: Serve of the tunnel server and Run of the master agent: the workers
      each starts, the channel of results and the shutdown, as a transition system.
    - Cli.v: src/cmd/distro.go and the tree of commands of src/pkg/cmd; the command line
      in the unit of a worker.
    - Clients.v: src/pkg/k8s, the clients of the commands, group versions, log levels
      (src/pkg/observability), src/pkg/templatewriter and src/dependency_versions.go.
    - DeepCopy.v: values in a memory, and the statements of generated deep copies;
      DeepCopies.v: zz_generated.deepcopy.go of both groups of src/api.
    - Version.v: src/pkg/version/version.go, which no other part uses.

    ** What the theorems show

    - Safety of the controllers for every behaviour of the API server, other
      actors included where the theorem has a [rely]: the CA of a runtime is
      never lost (C1), writes stay within what the runtime owns and its names, and
      Secrets, ConfigMaps and tunnel Services of others are not adopted (C2), requests are approved only when valid (C5), a chart's Jobs and RBAC
      are created and removed in the right states (C13), addons of others are
      not touched and those created have the specification asked for (C17).
    - What success means: a reconciled runtime is Available (C3), valid requests
      are approved (C4), a minted token is published and revoked with its resource
      (C14, C15), addons converge (C17), the endpoints published in the tenant cluster
      are those of the runtime (C32).
    - The certificate validator accepts exactly what it should (C12).
    - Generated objects fit together: the pods are well-formed (C36); the cluster
      agent in its generated pod finds its files, reaches the API server through the
      generated Service, and starts its controllers only after the definitions they
      watch are installed (C18, a composition of Generate.v, Endpoints.v and
      Startup.v); the tunnel server in its pod loads mounted files and listens where
      the Services point, whatever the environment says (C19).
    - Copies of resources are deep: nothing written to a copy shows in the original and
      the other way round (C37), so that the manifest of a cluster agent can be
      stripped of its status without changing the cached Runtime (C38).
    - The tunnel: the broker refines a set of registrations and leaks nothing
      (C6, C7), connections are registered only for the node that made them and
      requests reach the node they name (C33, C34), no wake-up of the agent is lost
      (C8), connecting leaks nothing and gives the identity of the server (C9), what is
      spliced arrives in order (C10), and the services return the first result and end
      once cancelled (C11).
    - No command injection through a chart (C16): reading the generated shell
      script gives back the commands.
    - A worker, from the token to its processes: what the command prints for a
      published token, given to the join, gives the worker the kubeconfig and the CA
      of that token and the API server to start from (C20, a composition of
      JoinToken.v, Provision.v, Bootstrap.v and Worker.v); its unit runs the right
      command with the arguments it was joined with (C21, Worker.v and Cli.v); the TLS
      bootstrap writes and requests only what it should and ends with a usable
      kubeconfig (C22); the profile read back after a restart is the one obtained
      (C23); the set-up installs the package and the configurations (C24); when the
      worker returns nothing is started any more (C25; the loop takes at most three steps
      per component and one more).
    - Commands: deleting a control plane touches only managed, unprotected objects
      (C26), provisioning creates the runtime the values describe (C27), saved
      credentials are the right ones and stay private (C28).
    - Value strings: the parsers terminate (C30), the lists they build are bounded
      (C31), and written assignments mean what they say (C29).
    - The worker's proxy refines a table of names (C39), and whoever waits for a
      stopped listener is released (C40).
    - One property describes a defect of the source (C35); examples after the
      theorems show other executions a reader may not expect.
    - The specifications are written apart from the program where the program has its
      own word for the same thing: what a valid request is (C4, C5), the parts of the
      cluster agent (C18), the request and kubeconfig of a node (C22), the entries of a
      profile (C23), what may be deleted (C26), the addresses and ports published (C32).
    - Theorems without a number: kubeconfigs are validated exactly and fresh ones are
      accepted, the agent's table is consistent, a splice returns, the supervision of a
      process is bounded, copies of a nil pointer are nil interfaces, published tokens
      are stable, Services keep their ClusterIP, the consolidation of addons, the
      installation of CRDs, that stopping a process is final, readiness, version
      strings, selectors of Deployments, precedence of flags.

    ** Conventions and bounds

    Go strings and byte slices are byte strings; [nil] maps are [None]; times are
    seconds, durations seconds or (where the text form matters) nanoseconds;
    64-bit counters wrap explicitly ([uint64] in Broker.v).  The order in which
    Go ranges over a map is chosen by the environment.  A run-time panic is the
    call [Panic], allowed or not by the environment.  [wp] covers every execution of
    a program, all of which are finite.  Recursion is structural except in the
    parsers of Strvals.v, whose loops have fuel: every iteration reads at least one
    byte, the fuel is the length of the buffer and more than enough (C30), and
    running out is the outer [None].  Error texts are shortened to their constant
    part.

    ** Not modelled

    The parsers and serialisers of libraries (X.509, PEM, YAML, JSON, TOML,
    kubeconfig, systemd units, JSON merge patch, text/template), archives, hash
    functions, random numbers and DNS are parameters or calls.  The TLS protocol, the
    HTTP servers themselves, tcpproxy, the storage library of the master agent,
    controller-runtime's manager, cobra's parsing of command lines and what logging
    writes are third-party code the program calls.  The stubs for platforms that are
    not supported (the darwin files of src/pkg/provision/worker) return at once, and
    the helpers of the end-to-end tests (src/test) are not part of the program. *)

From Stdlib Require Import Ascii.
From stdpp Require Export sorting base gmap strings pretty list.
From stdpp Require Import options.

(** ** Scope and hint databases *)

Declare Scope go_scope.
Delimit Scope go_scope with go.

Create HintDb heir.
Create Rewrite HintDb heir_rw.

(** ** Go maps

    A Go map is a reference that may be [nil]: reading a nil map behaves as
    reading an empty one, writing to it panics.  [None] is the nil map. *)

Abbreviation gomap V := (option (gmap string V)).

Section gomap.
Context {V : Type}.

(** The entries of a map, a nil map having none. *)
Definition entries (m : gomap V) : gmap string V := default ∅ m.

(** [m[k]] in its two-value form. *)
Definition mget (m : gomap V) (k : string) : option V := entries m !! k.

(** [m[k] = v]; [None] is the run-time panic of a write to a nil map. *)
Definition mset (m : gomap V) (k : string) (v : V) : option (gomap V) :=
  match m with
  | Some e => Some (Some (<[k := v]> e))
  | None => None
  end.

(** [equality.Semantic.DeepEqual] on maps: an unset map equals an empty one. *)
Definition sem_eq (m1 m2 : gomap V) : Prop := entries m1 = entries m2.

#[global] Instance sem_eq_equiv : Equivalence sem_eq.
Proof. unfold sem_eq. split; red; intros; congruence. Qed.

#[global] Instance sem_eq_dec `{EqDecision V} : RelDecision sem_eq.
Proof. unfold sem_eq. intros m1 m2. apply _. Defined.

#[global] Instance mget_proper : Proper (sem_eq ==> eq ==> eq) mget.
Proof. intros m1 m2 E k ? <-. unfold mget. by rewrite E. Qed.

Lemma mget_mset m k v m' k' :
  mset m k v = Some m' →
  mget m' k' = if decide (k = k') then Some v else mget m k'.
Proof.
  destruct m as [e|]; simpl; intros [= <-].
  unfold mget, entries; simpl. by rewrite lookup_insert.
Qed.

Lemma mget_mset_eq m k v m' : mset m k v = Some m' → mget m' k = Some v.
Proof. intros H. rewrite (mget_mset _ _ _ _ _ H). by case_decide. Qed.

Lemma mget_mset_ne m k v m' k' :
  mset m k v = Some m' → k ≠ k' → mget m' k' = mget m k'.
Proof. intros H ?. rewrite (mget_mset _ _ _ _ _ H). by case_decide. Qed.
End gomap.

(** ** Byte strings

    A Go string is a sequence of bytes: Rocq's [string].  The functions below
    are those of Go's [strings] package the program calls. *)

Definition HasPrefix (s p : string) : bool := String.prefix p s.

(** [strings.TrimPrefix]: the string unchanged when the prefix is absent. *)
Fixpoint drop_prefix (p s : string) : option string :=
  match p, s with
  | EmptyString, _ => Some s
  | String a p', String b s' => if decide (a = b) then drop_prefix p' s' else None
  | String _ _, EmptyString => None
  end.

Definition TrimPrefix (s p : string) : string := default s (drop_prefix p s).

Fixpoint Join (l : list string) (sep : string) : string :=
  match l with
  | [] => ""
  | [s] => s
  | s :: l' => s +:+ sep +:+ Join l' sep
  end.

(** [strings.Split] on a one-byte separator: never the empty list. *)
Fixpoint Split (c : Ascii.ascii) (s : string) : list string :=
  match s with
  | EmptyString => [EmptyString]
  | String a s' =>
      if decide (a = c) then EmptyString :: Split c s'
      else match Split c s' with
           | [] => [String a EmptyString]
           | h :: t => String a h :: t
           end
  end.

Fixpoint all_chars (p : Ascii.ascii → bool) (s : string) : bool :=
  match s with
  | EmptyString => true
  | String a s' => p a && all_chars p s'
  end.

(** ** Sorting

    [sort.Strings], [slices.Sort] and [slices.Sorted] on byte strings. *)

Definition Sort : list string → list string := merge_sort String.le.

(** [slices.Compact]: runs of equal elements replaced by one copy. *)
Fixpoint Compact (l : list string) : list string :=
  match l with
  | [] => []
  | x :: l' =>
      match l' with
      | [] => [x]
      | y :: _ => if decide (x = y) then Compact l' else x :: Compact l'
      end
  end.

(** ** Decimal numbers and machine integers *)

Definition FormatInt (z : Z) : string := pretty z.

(** Conversion of an [int] to [int32]: the low 32 bits, two's complement. *)
Definition to_int32 (z : Z) : Z := ((z + 2 ^ 31) `mod` 2 ^ 32 - 2 ^ 31)%Z.

(** ** Opaque structures

    A Kubernetes structure that the program copies from one place to another
    without looking inside (tolerations, affinities, resource requirements),
    as the text of its serialised form. *)

Record json := Json { json_text : string }.

#[export] Instance json_eq_dec : EqDecision json.
Proof. solve_decision. Defined.

(** ** A text form for countable data

    Used by the concrete instances of the parameters (serialisers, parsers): a
    value of a countable type as a string, and back. *)

Fixpoint pos_bits (p : positive) : string :=
  match p with
  | xH => "."
  | xO p => String "0"%char (pos_bits p)
  | xI p => String "1"%char (pos_bits p)
  end.

Fixpoint bits_pos (s : string) : option positive :=
  match s with
  | EmptyString => None
  | String c s' =>
      if bool_decide (c = "."%char) then
        match s' with EmptyString => Some xH | _ => None end
      else if bool_decide (c = "0"%char) then xO <$> bits_pos s'
      else if bool_decide (c = "1"%char) then xI <$> bits_pos s'
      else None
  end.

Definition enc {A} `{Countable A} (a : A) : string := pos_bits (encode a).
Definition dec {A} `{Countable A} (s : string) : option A := bits_pos s ≫= decode.

Lemma bits_pos_bits p : bits_pos (pos_bits p) = Some p.
Proof. induction p as [p IH|p IH|]; simpl; rewrite ?IH; done. Qed.

Lemma dec_enc {A} `{Countable A} (a : A) : dec (enc a) = Some a.
Proof. unfold dec, enc. rewrite bits_pos_bits. simpl. apply decode_encode. Qed.

Lemma enc_nonempty {A} `{Countable A} (a : A) : enc a ≠ "".
Proof. unfold enc. by destruct (encode a). Qed.

(** ** Lemmas on strings *)

Lemma string_app_cons x (a b : string) : String x a +:+ b = String x (a +:+ b).
Proof. done. Qed.

Lemma string_app_assoc (a b c : string) : (a +:+ b) +:+ c = a +:+ (b +:+ c).
Proof. induction a as [|x a IH]; [done|]. by rewrite !string_app_cons, IH. Qed.

Lemma string_app_nil_r (a : string) : a +:+ "" = a.
Proof. induction a as [|x a IH]; [done|]. by rewrite !string_app_cons, IH. Qed.

Lemma string_length_app (s t : string) : String.length (s +:+ t) = String.length s + String.length t.
Proof. induction s as [|c s IH]; [done|]. rewrite string_app_cons. simpl. by rewrite IH. Qed.

Lemma drop_prefix_Some p s t : drop_prefix p s = Some t ↔ s = p +:+ t.
Proof.
  revert s. induction p as [|a p IH]; intros s; simpl.
  { change ("" +:+ t) with t. split; congruence. }
  rewrite string_app_cons. destruct s as [|b s]; simpl; [split; congruence|].
  case_decide as E.
  - subst. rewrite IH. split; [by intros ->|congruence].
  - split; congruence.
Qed.

Lemma string_app_inj p (a b : string) : p +:+ a = p +:+ b → a = b.
Proof.
  intros E. assert (drop_prefix p (p +:+ a) = Some a) as Ha by (by apply drop_prefix_Some).
  rewrite E, (proj2 (drop_prefix_Some p (p +:+ b) b)) in Ha by done. congruence.
Qed.

Lemma HasPrefix_true s p : HasPrefix s p = true ↔ ∃ t, s = p +:+ t.
Proof.
  unfold HasPrefix. setoid_rewrite <- drop_prefix_Some. revert s.
  induction p as [|a p IH]; intros s.
  { destruct s; naive_solver. }
  destruct s as [|b s]; simpl; [naive_solver|].
  destruct (Ascii.ascii_dec a b) as [->|]; case_decide; naive_solver.
Qed.

Lemma TrimPrefix_app p t : TrimPrefix (p +:+ t) p = t.
Proof. unfold TrimPrefix. by rewrite (proj2 (drop_prefix_Some p _ t)). Qed.

Lemma Split_nonempty c s : Split c s ≠ [].
Proof. destruct s; simpl; [done|]. repeat case_match; done. Qed.

(** Splitting at [c] and joining with [c] gives the string back. *)
Lemma Join_Split c s : Join (Split c s) (String c "") = s.
Proof.
  induction s as [|a s IH]; simpl; [done|].
  case_decide as E.
  - subst. simpl. destruct (Split c s) eqn:Es; [by destruct (Split_nonempty c s)|].
    rewrite <- Es in *. by rewrite IH.
  - destruct (Split c s) as [|h t] eqn:Es; [by destruct (Split_nonempty c s)|].
    destruct t; simpl in *; by rewrite <- IH.
Qed.

(** Joining parts free of [c] and splitting again gives the parts back. *)
Lemma Split_app c h s :
  all_chars (λ a, negb (bool_decide (a = c))) h = true →
  Split c (h +:+ String c s) = h :: Split c s.
Proof.
  induction h as [|a h IH]; intros H.
  { simpl. by rewrite decide_True. }
  rewrite string_app_cons. simpl in *.
  apply andb_true_iff in H as [Ha Hh].
  rewrite negb_true_iff, bool_decide_eq_false in Ha.
  rewrite decide_False by done. by rewrite IH.
Qed.

Lemma Split_no_sep c h :
  all_chars (λ a, negb (bool_decide (a = c))) h = true → Split c h = [h].
Proof.
  induction h as [|a h IH]; simpl; intros H; [done|].
  apply andb_true_iff in H as [Ha Hh].
  rewrite negb_true_iff, bool_decide_eq_false in Ha.
  rewrite decide_False by done. by rewrite IH.
Qed.

Lemma Split_Join c l :
  l ≠ [] →
  Forall (λ h, all_chars (λ a, negb (bool_decide (a = c))) h = true) l →
  Split c (Join l (String c "")) = l.
Proof.
  intros Hne Hl. destruct l as [|h l]; [done|]. clear Hne.
  revert h Hl. induction l as [|h' l IH]; intros h Hl; inversion_clear Hl.
  { simpl. by apply Split_no_sep. }
  change (Join (h :: h' :: l) (String c "")) with
    (h +:+ String c (Join (h' :: l) (String c ""))).
  rewrite Split_app by done. f_equal. by apply IH.
Qed.

Lemma all_chars_app p a b : all_chars p (a +:+ b) = all_chars p a && all_chars p b.
Proof.
  induction a as [|x a IH]; [done|]. rewrite string_app_cons. simpl.
  by rewrite IH, andb_assoc.
Qed.

Lemma all_chars_impl (p q : Ascii.ascii → bool) s :
  (∀ a, p a = true → q a = true) → all_chars p s = true → all_chars q s = true.
Proof.
  intros Hpq. induction s; simpl; [done|].
  rewrite !andb_true_iff. naive_solver.
Qed.

(** ** Lemmas on sorting *)

Lemma Sort_perm l : Sort l ≡ₚ l.
Proof. apply merge_sort_Permutation. Qed.

Lemma Sort_sorted l : Sorted String.le (Sort l).
Proof. apply Sorted_merge_sort; apply _. Qed.

Lemma Sort_strongly_sorted l : StronglySorted String.le (Sort l).
Proof. apply StronglySorted_merge_sort; apply _. Qed.

(** Two sorted permutations of one list are the same list. *)
Lemma Sort_unique l1 l2 : l1 ≡ₚ l2 → Sort l1 = Sort l2.
Proof.
  intros E. apply (Sorted_unique String.le); [apply Sort_sorted..|].
  by rewrite !Sort_perm.
Qed.

Lemma Sort_eq_iff l1 l2 : Sort l1 = Sort l2 ↔ l1 ≡ₚ l2.
Proof.
  split; [|apply Sort_unique].
  intros E. by rewrite <- (Sort_perm l1), E, Sort_perm.
Qed.

Lemma elem_of_Compact x l : x ∈ Compact l ↔ x ∈ l.
Proof.
  induction l as [|a l IH]; [done|].
  destruct l as [|b l]; [done|].
  change (Compact (a :: b :: l)) with
    (if decide (a = b) then Compact (b :: l) else a :: Compact (b :: l)).
  case_decide; subst; set_solver.
Qed.

Lemma Compact_StronglySorted l :
  StronglySorted String.le l → StronglySorted String.le (Compact l) ∧ NoDup (Compact l).
Proof.
  induction l as [|a l IH]; intros Hs; [repeat constructor|].
  apply StronglySorted_cons in Hs as [Ha Hl].
  destruct (IH Hl) as [IHs IHn]. clear IH.
  destruct l as [|b l].
  { split; [repeat constructor|]. apply NoDup_singleton. }
  change (Compact (a :: b :: l)) with
    (if decide (a = b) then Compact (b :: l) else a :: Compact (b :: l)).
  case_decide as E; [done|].
  assert (∀ x, x ∈ Compact (b :: l) → String.le a x) as Hle.
  { intros x Hx. rewrite elem_of_Compact in Hx. rewrite Forall_forall in Ha. auto. }
  split.
  - apply StronglySorted_cons. split; [by apply Forall_forall|done].
  - constructor; [|done]. intros Hin. rewrite elem_of_Compact in Hin.
    apply StronglySorted_cons in Hl as [Hb _].
    assert (String.le b a) as Hba.
    { rewrite elem_of_cons in Hin. destruct Hin as [->|Hin]; [done|].
      rewrite Forall_forall in Hb. auto. }
    apply E. apply (anti_symm String.le); [|done].
    apply Hle, elem_of_Compact. set_solver.
Qed.

#[export] Hint Resolve Sort_perm Sort_sorted Sort_strongly_sorted : heir.
#[export] Hint Rewrite string_app_assoc string_app_nil_r TrimPrefix_app : heir_rw.

(** ** Tactics *)

(** Case analysis on every [match] and [if] of the goal, closing what is
    trivial. *)
Ltac split_cases :=
  repeat (case_match || case_decide || case_bool_decide); simplify_eq/=; try done.

(** Destruct the scrutinee of the first [match] in a hypothesis. *)
Ltac case_in H :=
  match type of H with
  | context [match ?x with _ => _ end] => destruct x eqn:?; simplify_eq/=
  end.
