(* ===== verification/Numbers.v ===== *)
(** * Numbers as text

    The functions of Go's [strconv] package the program calls, on 64-bit integers:
    [ParseUint], [ParseInt] and [Atoi] in base ten, and that they read back what is
    printed. *)

From Stdlib Require Import Ascii.
From S2P Require Import Prelude.
From stdpp Require Import options.

(** The class [[0-9]]. *)
Definition is_digit (c : Ascii.ascii) : bool :=
  bool_decide (48 ≤ Ascii.nat_of_ascii c ≤ 57).

Definition digit_val (c : Ascii.ascii) : N := N.of_nat (Ascii.nat_of_ascii c - 48).

Fixpoint digits_val (acc : N) (s : string) : option N :=
  match s with
  | EmptyString => Some acc
  | String c s' => if is_digit c then digits_val (10 * acc + digit_val c) s' else None
  end.

(** [strconv.ParseUint(s, 10, 0)] on a 64-bit platform: [None] is the syntax or
    the range error. *)
Definition ParseUint (s : string) : option N :=
  match s with
  | EmptyString => None
  | _ => n ← digits_val 0 s; if bool_decide (n < 2 ^ 64)%N then Some n else None
  end.

Definition zero_prefixed (comp : string) : bool :=
  HasPrefix comp "0" && negb (bool_decide (comp = "0")).

(** [strconv.ParseInt(s, 10, 64)], and [strconv.Atoi] on a 64-bit platform: an
    optional sign, digits, and the range of the type. *)
Definition ParseInt (s : string) : option Z :=
  let '(neg, digits) :=
    match s with
    | String c r =>
        if decide (c = "-"%char) then (true, r)
        else if decide (c = "+"%char) then (false, r) else (false, s)
    | EmptyString => (false, s)
    end in
  match digits with
  | EmptyString => None
  | _ =>
      n ← digits_val 0 digits;
      let z := if neg then (- Z.of_N n)%Z else Z.of_N n in
      if bool_decide (- 2 ^ 63 ≤ z < 2 ^ 63)%Z then Some z else None
  end.

Definition Atoi : string → option Z := ParseInt.

(** ** Numbers printed and read back *)

Lemma pretty_char_digit x :
  (x < 10)%N → is_digit (pretty_N_char x) = true ∧ digit_val (pretty_N_char x) = x.
Proof.
  intros Hx.
  assert (x = 0 ∨ x = 1 ∨ x = 2 ∨ x = 3 ∨ x = 4 ∨ x = 5 ∨ x = 6 ∨ x = 7 ∨ x = 8 ∨ x = 9)%N
    as Hc by lia.
  destruct_or! Hc; subst x; done.
Qed.

(** Every digit is the printed form of its value. *)
Lemma digit_char c : is_digit c = true → (digit_val c < 10)%N ∧ pretty_N_char (digit_val c) = c.
Proof. destruct c as [[] [] [] [] [] [] [] []]; vm_compute; intros H; try discriminate H; done. Qed.

Lemma digits_val_pretty_go x s : digits_val 0 (pretty_N_go x s) = digits_val x s.
Proof.
  revert s. induction (N.lt_wf_0 x) as [x _ IH]; intros s.
  assert (x = 0 ∨ 0 < x)%N as [->|Hx] by lia; [by rewrite pretty_N_go_0|].
  rewrite pretty_N_go_step, IH by (try apply N.div_lt; lia). cbn [digits_val].
  destruct (pretty_char_digit (x `mod` 10)) as [-> ->]; [by apply N.mod_lt|].
  by rewrite <- N.div_mod by done.
Qed.

Lemma pretty_go_digits_val acc s n t :
  digits_val acc s = Some n →
  ((0 < acc)%N ∨ HasPrefix s "0" = false) →
  pretty_N_go n t = pretty_N_go acc (s +:+ t).
Proof.
  revert acc. induction s as [|c s IH]; intros acc; simpl; [by intros [= ->]|].
  case_match eqn:Hc; [|done]. intros Hv Hpos.
  destruct (digit_char c Hc) as [Hlt Hch].
  assert (0 < 10 * acc + digit_val c)%N as Hp.
  { destruct Hpos as [?|Hz]; [lia|]. destruct (decide (digit_val c = 0%N)) as [E|]; [|lia].
    rewrite <- Hch, E in Hz. by destruct s. }
  rewrite (IH _ Hv) by auto. rewrite pretty_N_go_step by done.
  replace ((10 * acc + digit_val c) `div` 10)%N with acc
    by (apply (N.div_unique _ _ _ (digit_val c)); lia).
  replace ((10 * acc + digit_val c) `mod` 10)%N with (digit_val c)
    by (apply (N.mod_unique _ _ acc); lia).
  by rewrite Hch, string_app_cons.
Qed.

Lemma pretty_N_pos (n : N) : (0 < n)%N → pretty n = pretty_N_go n "".
Proof. intros H. unfold pretty, pretty_N. rewrite decide_False by lia. done. Qed.

Lemma digits_val_nonempty s n : digits_val 0 s = Some n → (0 < n)%N → s ≠ "".
Proof. by destruct s; [intros [= <-] ?|]. Qed.

Lemma ParseUint_pretty (n : N) : (n < 2 ^ 64)%N → ParseUint (pretty n) = Some n.
Proof.
  intros Hn. destruct (decide (n = 0%N)) as [->|H0]; [done|].
  assert (digits_val 0 (pretty n) = Some n) as Hd.
  { rewrite pretty_N_pos by lia. by rewrite digits_val_pretty_go. }
  assert (pretty n ≠ "") as Hne by (eapply digits_val_nonempty; [done|lia]).
  unfold ParseUint. rewrite Hd. simpl. rewrite bool_decide_true by done.
  by destruct (pretty n).
Qed.

(** A number read without leading zeroes is its own printed form. *)
Lemma ParseUint_Some s (n : N) :
  ParseUint s = Some n → (n < 2 ^ 64)%N ∧ (zero_prefixed s = false → s = pretty n).
Proof.
  intros H. destruct s as [|c r] eqn:Es; [done|]. rewrite <- Es in *.
  assert (digits_val 0 s = Some n ∧ (n < 2 ^ 64)%N) as [Hd Hn].
  { rewrite Es in *. unfold ParseUint in H. apply bind_Some in H as (m & Hm & H).
    case_bool_decide; by simplify_eq. }
  split; [done|]. unfold zero_prefixed. intros Hz.
  apply andb_false_iff in Hz as [Hz|Hz].
  - pose proof (pretty_go_digits_val 0 s n "" Hd (or_intror Hz)) as Hg.
    rewrite pretty_N_go_0, string_app_nil_r in Hg.
    rewrite pretty_N_pos; [done|].
    destruct (decide (n = 0%N)) as [->|]; [|lia]. by rewrite <- Hg, Es in *.
  - apply negb_false_iff, bool_decide_eq_true in Hz. rewrite Hz in *. by simplify_eq/=.
Qed.

Lemma zero_prefixed_pretty (n : N) : zero_prefixed (pretty n) = false.
Proof.
  destruct (decide (n = 0%N)) as [->|H0]; [done|].
  assert (0 < n)%N as Hn by lia. clear H0.
  rewrite pretty_N_pos by done. unfold zero_prefixed. apply andb_false_iff. left.
  enough (∀ s, HasPrefix (pretty_N_go n s) "0" = false) as He by apply He.
  induction (N.lt_wf_0 n) as [x _ IH]; intros s.
  rewrite pretty_N_go_step by done.
  destruct (decide (x < 10)%N) as [Hx|Hx].
  - rewrite (N.div_small x 10), pretty_N_go_0, N.mod_small by done.
    assert (x = 1 ∨ x = 2 ∨ x = 3 ∨ x = 4 ∨ x = 5 ∨ x = 6 ∨ x = 7 ∨ x = 8 ∨ x = 9)%N as Hc by lia.
    by destruct_or! Hc; subst x.
  - apply IH; [apply N.div_lt; lia|]. apply N.div_str_pos. lia.
Qed.

Lemma pretty_digits (n : N) : all_chars is_digit (pretty n) = true ∧ pretty n ≠ "".
Proof.
  destruct (decide (n = 0%N)) as [->|H0]; [done|].
  assert (digits_val 0 (pretty n) = Some n) as Hd.
  { rewrite pretty_N_pos by lia. by rewrite digits_val_pretty_go. }
  split; [|eapply digits_val_nonempty; [done|lia]].
  revert Hd. generalize 0%N as acc. generalize (pretty n) as s.
  induction s as [|c s IH]; intros acc; simpl; [done|].
  case_match; [|done]. intros Hd. by rewrite (IH _ Hd).
Qed.


(** [strconv.Atoi] undoes [strconv.Itoa], also on a negative number. *)
Lemma Atoi_FormatInt z : (- 2 ^ 63 ≤ z < 2 ^ 63)%Z → Atoi (FormatInt z) = Some z.
Proof.
  intros Hz.
  assert (∀ p, digits_val 0 (pretty (Npos p)) = Some (Npos p) ∧ pretty (Npos p) ≠ "" ∧
    all_chars is_digit (pretty (Npos p)) = true) as Hp.
  { intros p. destruct (pretty_digits (Npos p)) as [Hd Hne]. split; [|done].
    rewrite pretty_N_pos by lia. by rewrite digits_val_pretty_go. }
  unfold Atoi, FormatInt. destruct z as [|p|p]; [done|..]; destruct (Hp p) as (Hv & Hne & Hd);
    unfold pretty, pretty_Z; change (pretty p) with (pretty (Npos p)).
  - destruct (pretty (Npos p)) as [|c r] eqn:E; [done|]. unfold ParseInt.
    rewrite decide_False by (intros ->; discriminate Hd). rewrite decide_False by (intros ->; discriminate Hd).
    rewrite Hv. cbn -[Z.pow]. by rewrite bool_decide_true.
  - change ("-" +:+ pretty (Npos p)) with (String "-" (pretty (Npos p))). unfold ParseInt.
    rewrite decide_True by done.
    destruct (pretty (Npos p)) as [|c r] eqn:E; [done|]. rewrite Hv. cbn -[Z.pow]. by rewrite bool_decide_true.
Qed.
