(* ===== verification/Utf8.v ===== *)
(** * Runes

    Go's [unicode/utf8] as [bytes.Buffer.ReadRune], conversions between strings
    and slices of runes, and [range] over a string use it.  A rune is a code
    point; an ill-formed byte is read as the replacement character and counts one
    byte. *)

From Stdlib Require Import Ascii.
From S2P Require Import Prelude.
From stdpp Require Import options.

Abbreviation rune := N.

Definition RuneError : rune := 65533%N.

Definition byte_of (n : N) : Ascii.ascii := Ascii.ascii_of_N n.

Definition str (l : list N) : string := foldr (λ b s, String (byte_of b) s) "" l.

(** The code points that have an encoding. *)
Definition valid_rune (r : rune) : bool :=
  bool_decide (r < 55296)%N || bool_decide (57343 < r < 1114112)%N.

(** ** Encoding: [utf8.AppendRune] *)

Definition encode_rune (r0 : rune) : string :=
  let r := if valid_rune r0 then r0 else RuneError in
  if bool_decide (r < 128)%N then str [r]
  else if bool_decide (r < 2048)%N then str [192 + r `div` 64; 128 + r `mod` 64]%N
  else if bool_decide (r < 65536)%N then
    str [224 + r `div` 4096; 128 + (r `div` 64) `mod` 64; 128 + r `mod` 64]%N
  else str [240 + r `div` 262144; 128 + (r `div` 4096) `mod` 64; 128 + (r `div` 64) `mod` 64;
            128 + r `mod` 64]%N.

(** [string(rs)]. *)
Definition encode_runes (rs : list rune) : string := foldr (λ r s, encode_rune r +:+ s) "" rs.

(** ** Decoding: [utf8.DecodeRune]

    The number of continuation bytes, the range of the first of them and the bits
    of the leading byte. *)
Definition leading (b : N) : option (nat * N * N * N) :=
  if bool_decide (194 ≤ b < 224)%N then Some (1%nat, 128%N, 191%N, (b - 192)%N)
  else if bool_decide (b = 224)%N then Some (2%nat, 160%N, 191%N, (b - 224)%N)
  else if bool_decide (b = 237)%N then Some (2%nat, 128%N, 159%N, (b - 224)%N)
  else if bool_decide (225 ≤ b < 240)%N then Some (2%nat, 128%N, 191%N, (b - 224)%N)
  else if bool_decide (b = 240)%N then Some (3%nat, 144%N, 191%N, (b - 240)%N)
  else if bool_decide (241 ≤ b < 244)%N then Some (3%nat, 128%N, 191%N, (b - 240)%N)
  else if bool_decide (b = 244)%N then Some (3%nat, 128%N, 143%N, (b - 240)%N)
  else None.

(** [n] continuation bytes, the first within [lo] and [hi]. *)
Fixpoint continuation (n : nat) (lo hi : N) (acc : N) (s : string) : option (N * string) :=
  match n with
  | 0 => Some (acc, s)
  | S n' =>
      match s with
      | EmptyString => None
      | String c s' =>
          let b := Ascii.N_of_ascii c in
          if bool_decide (lo ≤ b ≤ hi)%N
          then continuation n' 128 191 (64 * acc + (b - 128))%N s'
          else None
      end
  end.

(** The first rune of a string and the rest. *)
Definition decode_rune (s : string) : option (rune * string) :=
  match s with
  | EmptyString => None
  | String c s' =>
      let b := Ascii.N_of_ascii c in
      if bool_decide (b < 128)%N then Some (b, s')
      else match leading b with
           | None => Some (RuneError, s')
           | Some (n, lo, hi, acc) =>
               match continuation n lo hi acc s' with
               | None => Some (RuneError, s')
               | Some (r, rest) => Some (r, rest)
               end
           end
  end.

(** Every rune with the bytes it was read from; the fuel is the number of bytes. *)
Fixpoint decode_loop (n : nat) (s : string) : list (rune * string) :=
  match n with
  | 0 => []
  | S n' =>
      match decode_rune s with
      | None => []
      | Some (r, rest) =>
          (r, String.substring 0 (String.length s - String.length rest) s) :: decode_loop n' rest
      end
  end.

Definition decode_runes (s : string) : list (rune * string) := decode_loop (String.length s) s.

(** ** Round trip *)

Lemma N_of_byte n : (n < 256)%N → Ascii.N_of_ascii (byte_of n) = n.
Proof. apply Ascii.N_ascii_embedding. Qed.

Lemma continuation_ok n lo hi acc b s :
  (b < 256)%N → (lo ≤ b ≤ hi)%N →
  continuation (S n) lo hi acc (String (byte_of b) s) = continuation n 128 191 (64 * acc + (b - 128)) s.
Proof. intros Hb Hr. cbn [continuation]. rewrite N_of_byte by done. by rewrite bool_decide_true. Qed.

Lemma decode_leading b s n lo hi acc r rest :
  (128 ≤ b < 256)%N → leading b = Some (n, lo, hi, acc) →
  continuation n lo hi acc s = Some (r, rest) →
  decode_rune (String (byte_of b) s) = Some (r, rest).
Proof.
  intros Hb Hl Hc. unfold decode_rune. rewrite N_of_byte by lia.
  rewrite bool_decide_false by lia. by rewrite Hl, Hc.
Qed.

(** [lia] with quotients and remainders as unknowns. *)
Ltac qlia :=
  repeat match goal with
  | |- context [N.div ?a ?b] => let q := fresh "q" in set (q := N.div a b) in *; clearbody q
  | H : context [N.div ?a ?b] |- _ => let q := fresh "q" in set (q := N.div a b) in *; clearbody q
  | |- context [N.modulo ?a ?b] => let q := fresh "q" in set (q := N.modulo a b) in *; clearbody q
  | H : context [N.modulo ?a ?b] |- _ =>
      let q := fresh "q" in set (q := N.modulo a b) in *; clearbody q
  end; lia.

(** The leading byte of an encoding, by the bits it carries. *)
Lemma leading2 q : (2 ≤ q < 32)%N → leading (192 + q) = Some (1%nat, 128%N, 191%N, q).
Proof.
  intros Hq. unfold leading. rewrite bool_decide_true by lia. do 2 f_equal. lia.
Qed.

Lemma leading3 q :
  (q < 16)%N →
  leading (224 + q) =
    Some (2%nat, (if decide (q = 0) then 160 else 128)%N, (if decide (q = 13) then 159 else 191)%N, q).
Proof.
  intros Hq. unfold leading. rewrite bool_decide_false by lia.
  destruct (decide (q = 0%N)) as [->|H0]; [done|]. rewrite bool_decide_false by lia.
  destruct (decide (q = 13%N)) as [->|H13]; [done|]. rewrite bool_decide_false by lia.
  rewrite bool_decide_true by lia. do 2 f_equal. lia.
Qed.

Lemma leading4 q :
  (q < 5)%N →
  leading (240 + q) =
    Some (3%nat, (if decide (q = 0) then 144 else 128)%N, (if decide (q = 4) then 143 else 191)%N, q).
Proof.
  intros Hq. assert (q = 0 ∨ q = 1 ∨ q = 2 ∨ q = 3 ∨ q = 4)%N as Hc by lia.
  by destruct_or! Hc; subst q.
Qed.

Lemma str_app b l s : str (b :: l) +:+ s = String (byte_of b) (str l +:+ s).
Proof. done. Qed.

(** A well-formed encoding is read back, whatever follows. *)
Lemma decode_encode_rune r s :
  valid_rune r = true → decode_rune (encode_rune r +:+ s) = Some (r, s).
Proof.
  intros Hv. unfold encode_rune. rewrite Hv.
  unfold valid_rune in Hv. rewrite orb_true_iff, !bool_decide_eq_true in Hv.
  destruct (decide (r < 128)%N) as [H1|H1].
  { rewrite bool_decide_true by done. rewrite str_app. unfold decode_rune.
    rewrite N_of_byte by lia. by rewrite bool_decide_true. }
  rewrite bool_decide_false by done.
  pose proof (N.mod_lt r 64 ltac:(done)) as Hm. pose proof (N.div_mod r 64 ltac:(done)) as Hd.
  destruct (decide (r < 2048)%N) as [H2|H2].
  { rewrite bool_decide_true by done. rewrite !str_app.
    eapply (decode_leading _ _ 1 128 191 (r `div` 64)).
    - qlia.
    - apply leading2. qlia.
    - rewrite continuation_ok by qlia. cbn [continuation]. do 2 f_equal. qlia. }
  rewrite bool_decide_false by done.
  pose proof (N.mod_lt (r `div` 64) 64 ltac:(done)) as Hm2.
  pose proof (N.div_mod (r `div` 64) 64 ltac:(done)) as Hd2.
  rewrite N.Div0.div_div in Hd2. change (64 * 64)%N with 4096%N in Hd2.
  destruct (decide (r < 65536)%N) as [H3|H3].
  { rewrite bool_decide_true by done. rewrite !str_app.
    eapply (decode_leading _ _ 2 (if decide (r `div` 4096 = 0)%N then 160 else 128)
      (if decide (r `div` 4096 = 13)%N then 159 else 191) (r `div` 4096)).
    - qlia.
    - apply leading3. qlia.
    - rewrite continuation_ok by (repeat case_decide; qlia).
      rewrite continuation_ok by qlia. cbn [continuation]. do 2 f_equal. qlia. }
  rewrite bool_decide_false by done. rewrite !str_app.
  pose proof (N.mod_lt (r `div` 4096) 64 ltac:(done)) as Hm3.
  pose proof (N.div_mod (r `div` 4096) 64 ltac:(done)) as Hd3.
  rewrite N.Div0.div_div in Hd3. change (4096 * 64)%N with 262144%N in Hd3.
  eapply (decode_leading _ _ 3 (if decide (r `div` 262144 = 0)%N then 144 else 128)
    (if decide (r `div` 262144 = 4)%N then 143 else 191) (r `div` 262144)).
  - qlia.
  - apply leading4. qlia.
  - rewrite continuation_ok by (repeat case_decide; qlia).
    rewrite !continuation_ok by qlia. cbn [continuation]. do 2 f_equal. qlia.
Qed.

Lemma continuation_shorter n lo hi acc s r rest :
  continuation n lo hi acc s = Some (r, rest) → String.length rest ≤ String.length s.
Proof.
  revert lo hi acc s. induction n as [|n IH]; intros lo hi acc s; cbn [continuation].
  { by intros [= _ <-]. }
  destruct s as [|c s]; [done|]. case_bool_decide; [|done]. intros H1%IH. simpl. lia.
Qed.

(** Every rune takes at least one byte. *)
Lemma decode_rune_shorter s r rest :
  decode_rune s = Some (r, rest) → String.length rest < String.length s.
Proof.
  destruct s as [|c s]; [done|]. unfold decode_rune. case_bool_decide; [intros [= _ <-]; simpl; lia|].
  destruct (leading _) as [[[[n lo] hi] acc]|]; [|intros [= _ <-]; simpl; lia].
  destruct (continuation n lo hi acc s) as [[r' rest']|] eqn:E; intros [= _ <-]; simpl; [|lia].
  apply continuation_shorter in E. lia.
Qed.

Lemma decode_loop_enough n m s :
  String.length s ≤ n → String.length s ≤ m → decode_loop n s = decode_loop m s.
Proof.
  revert m s. induction n as [|n IH]; intros m s Hn Hm.
  { destruct s; [by destruct m|simpl in Hn; lia]. }
  destruct m as [|m]; [destruct s; [done|simpl in Hm; lia]|]. cbn [decode_loop].
  destruct (decode_rune s) as [[r rest]|] eqn:E; [|done].
  apply decode_rune_shorter in E. f_equal. apply IH; lia.
Qed.

Lemma substring_app a b : String.substring 0 (String.length a) (a +:+ b) = a.
Proof. induction a as [|c a IH]; [by destruct b|]. rewrite string_app_cons. simpl. by rewrite IH. Qed.

Lemma decode_runes_cons r s :
  valid_rune r = true →
  decode_runes (encode_rune r +:+ s) = (r, encode_rune r) :: decode_runes s.
Proof.
  intros Hv. unfold decode_runes.
  pose proof (decode_encode_rune r s Hv) as Hd. pose proof (decode_rune_shorter _ _ _ Hd) as Hl.
  destruct (String.length (encode_rune r +:+ s)) as [|n] eqn:En; [lia|].
  cbn [decode_loop]. rewrite Hd. rewrite string_length_app in *.
  replace (String.length (encode_rune r) + String.length s - String.length s)
    with (String.length (encode_rune r)) by lia.
  rewrite substring_app. f_equal. apply decode_loop_enough; lia.
Qed.

Lemma decode_runes_nil : decode_runes "" = [].
Proof. done. Qed.

(** A slice of encodable runes is read back from its string. *)
Lemma decode_encode_runes rs s :
  Forall (λ r, valid_rune r = true) rs →
  decode_runes (encode_runes rs +:+ s) = ((λ r, (r, encode_rune r)) <$> rs) ++ decode_runes s.
Proof.
  induction 1 as [|r rs Hr _ IH]; [done|].
  cbn [encode_runes foldr]. fold (encode_runes rs). rewrite string_app_assoc.
  rewrite decode_runes_cons by done. by rewrite IH.
Qed.

Lemma encode_runes_app a b : encode_runes (a ++ b) = encode_runes a +:+ encode_runes b.
Proof.
  induction a as [|r a IH]; [done|]. cbn [encode_runes foldr app].
  fold (encode_runes (a ++ b)) (encode_runes a). by rewrite IH, string_app_assoc.
Qed.

(** Encoding is injective on encodable runes. *)
Lemma encode_runes_inj a b :
  Forall (λ r, valid_rune r = true) a → Forall (λ r, valid_rune r = true) b →
  encode_runes a = encode_runes b → a = b.
Proof.
  intros Ha Hb E. pose proof (decode_encode_runes a "" Ha) as H1.
  pose proof (decode_encode_runes b "" Hb) as H2. rewrite E, H2, !decode_runes_nil, !app_nil_r in H1.
  apply (f_equal (fmap fst)) in H1. rewrite <- !list_fmap_compose in H1.
  rewrite !list_fmap_id in H1 || (unfold compose in H1; simpl in H1; rewrite !list_fmap_id in H1). done.
Qed.
