(* ===== verification/Net.v ===== *)
(** * IP addresses

    The functions of Go's [net] package that the program calls on addresses:
    [ParseIP] (dotted IPv4, and IPv6 with its abbreviation and an embedded IPv4
    part), [To4] and [JoinHostPort].  An address is the list of its 16 bytes, as
    [net.IP] holds it; IPv4 addresses are in the range ::ffff:0:0/96. *)

From Stdlib Require Import Ascii.
From S2P Require Import Prelude Numbers.
From stdpp Require Import options.

Definition dec_digit (c : Ascii.ascii) : option N := if is_digit c then Some (digit_val c) else None.

Definition hex_digit (c : Ascii.ascii) : option N :=
  let n := Ascii.nat_of_ascii c in
  if bool_decide (48 ≤ n ≤ 57) then Some (N.of_nat (n - 48))
  else if bool_decide (97 ≤ n ≤ 102) then Some (N.of_nat (n - 87))
  else if bool_decide (65 ≤ n ≤ 70) then Some (N.of_nat (n - 55))
  else None.

(** ** IPv4

    [netip.parseIPv4Fields]: one to three digits per field, no leading zero, at
    most 255, four fields.  [val] is the field read so far, [digits] its
    length, [fields] the fields before it, latest first. *)
Fixpoint ipv4_fields (s : string) (val : N) (digits : nat) (fields : list N) : option (list N) :=
  match s with
  | EmptyString =>
      if bool_decide (digits = 0) then None
      else if bool_decide (length fields = 3) then Some (reverse (val :: fields)) else None
  | String c s' =>
      match dec_digit c with
      | Some d =>
          if bool_decide (digits = 1 ∧ val = 0%N) then None
          else let val' := (10 * val + d)%N in
            if bool_decide (255 < val')%N then None
            else ipv4_fields s' val' (S digits) fields
      | None =>
          if decide (c = "."%char) then
            if bool_decide (digits = 0) then None
            else if bool_decide (length fields = 3) then None
            else ipv4_fields s' 0 0 (val :: fields)
          else None
      end
  end.

Definition parseIPv4 (s : string) : option (list N) := ipv4_fields s 0 0 [].

(** ** IPv6 *)

(** The digits of one field: its value, their number and the rest; at most four
    digits. *)
Fixpoint hex_field (s : string) (acc : N) (off : nat) : option (N * nat * string) :=
  match s with
  | String c s' =>
      match hex_digit c with
      | Some d => if bool_decide (3 < off) then None else hex_field s' (16 * acc + d) (S off)
      | None => Some (acc, off, s)
      end
  | EmptyString => Some (acc, off, s)
  end.

(** The bytes, with the zeroes that the ellipsis at byte [e] stands for. *)
Definition expand (bytes : list N) (e : option nat) : option (list N) :=
  if bool_decide (length bytes < 16) then
    match e with
    | None => None
    | Some e => Some (take e bytes ++ repeat 0%N (16 - length bytes) ++ drop e bytes)
    end
  else if bool_decide (e = None) then Some bytes else None.

(** The loop over the fields: [bytes] read so far, position [e] of the
    ellipsis.  [n] bounds the fields still allowed: eight at the start. *)
Fixpoint ipv6_fields (n : nat) (s : string) (bytes : list N) (e : option nat) : option (list N) :=
  match n with
  | 0 => if bool_decide (s = "") then expand bytes e else None
  | S n' =>
      '(acc, off, r) ← hex_field s 0 0;
      if bool_decide (off = 0) then None
      else match r with
      | String c r' =>
          if decide (c = "."%char) then
            if bool_decide (e = None ∧ length bytes ≠ 12) then None
            else if bool_decide (16 < length bytes + 4) then None
            else v4 ← parseIPv4 s; expand (bytes ++ v4) e
          else
            let bytes' := bytes ++ [N.div acc 256; N.modulo acc 256] in
            if decide (c = ":"%char) then
              match r' with
              | EmptyString => None
              | String c' r'' =>
                  if decide (c' = ":"%char) then
                    if bool_decide (is_Some e) then None
                    else if bool_decide (r'' = "") then expand bytes' (Some (length bytes'))
                    else ipv6_fields n' r'' bytes' (Some (length bytes'))
                  else ipv6_fields n' r' bytes' e
              end
            else None
      | EmptyString => expand (bytes ++ [N.div acc 256; N.modulo acc 256]) e
      end
  end.

Definition parseIPv6 (s : string) : option (list N) :=
  match drop_prefix "::" s with
  | Some r => if bool_decide (r = "") then Some (repeat 0%N 16) else ipv6_fields 8 r [] (Some 0)
  | None => ipv6_fields 8 s [] None
  end.

(** The first of the characters that tell the families apart; a zone ([%]) is
    refused by [net.ParseIP]. *)
Fixpoint family (s : string) : option Ascii.ascii :=
  match s with
  | EmptyString => None
  | String c s' =>
      if decide (c = "."%char ∨ c = ":"%char ∨ c = "%"%char) then Some c else family s'
  end.

Definition v4_prefix : list N := repeat 0%N 10 ++ [255; 255]%N.

Definition has_zone (s : string) : bool := negb (all_chars (λ c, negb (bool_decide (c = "%"%char))) s).

Definition ParseIP (s : string) : option (list N) :=
  c ← family s;
  if decide (c = "."%char) then app v4_prefix <$> parseIPv4 s
  else if decide (c = ":"%char) then if has_zone s then None else parseIPv6 s
  else None.

(** [To4]: the last four bytes of an address of the IPv4 range. *)
Definition To4 (ip : list N) : option (list N) :=
  if decide (take 12 ip = v4_prefix) then Some (drop 12 ip) else None.

Example ParseIP_v4 : ParseIP "192.0.2.10" = Some (v4_prefix ++ [192; 0; 2; 10]%N).
Proof. vm_compute. reflexivity. Qed.

Example ParseIP_v6 :
  ParseIP "fd00::4" = Some ([253] ++ repeat 0 14 ++ [4])%N ∧
  ParseIP "::1" = Some (repeat 0 15 ++ [1])%N ∧ ParseIP "::" = Some (repeat 0%N 16) ∧
  ParseIP "1::" = Some ([0; 1] ++ repeat 0 14)%N ∧
  ParseIP "::ffff:10.0.0.1" = Some (v4_prefix ++ [10; 0; 0; 1]%N) ∧
  ParseIP "1:2:3:4:5:6:7:8" = Some [0;1;0;2;0;3;0;4;0;5;0;6;0;7;0;8]%N.
Proof. vm_compute. repeat split. Qed.

Example ParseIP_rejects :
  ParseIP "01.2.3.4" = None ∧ ParseIP "1.2.3" = None ∧ ParseIP "1.2.3.256" = None ∧
  ParseIP "1:2:3:4:5:6:7" = None ∧ ParseIP "1::2::3" = None ∧ ParseIP "fe80::1%eth0" = None ∧
  ParseIP "localhost" = None ∧ ParseIP "" = None ∧ ParseIP "1:2:3:4:5:6:7::8" = None ∧
  ParseIP "12345::" = None ∧ ParseIP "1:2:3:4:5:6:7:8:9" = None.
Proof. vm_compute. repeat split. Qed.
