(* ===== verification/Base64.v ===== *)
(** * Base64

    [encoding/base64.StdEncoding] of the Go standard library, which carries the
    values of charts and the bootstrap kubeconfig of a worker: the encoder, the
    decoder, and that the decoder gives back what was encoded.  [RawURLEncoding],
    which the name of a certificate request is made from, and that it keeps
    different data apart. *)

From Stdlib Require Import Ascii ZifyNat.
From S2P Require Import Prelude Utf8.
From stdpp Require Import options.

(** ** Encoding *)

(** [base64.StdEncoding.EncodeToString]. *)
Definition b64_alphabet : string :=
  "ABCDEFGHIJKLMNOPQRSTUVWXYZabcdefghijklmnopqrstuvwxyz0123456789+/".

Definition b64_char (n : nat) : Ascii.ascii :=
  default (Ascii.ascii_of_nat 61) (String.get n b64_alphabet).

Definition b64_pad : string := String (Ascii.ascii_of_nat 61) "".

Fixpoint base64 (s : string) : string :=
  match s with
  | EmptyString => EmptyString
  | String a EmptyString =>
      let x := Ascii.nat_of_ascii a in
      String (b64_char (x / 4)) (String (b64_char (x `mod` 4 * 16)) (b64_pad +:+ b64_pad))
  | String a (String b EmptyString) =>
      let x := Ascii.nat_of_ascii a in let y := Ascii.nat_of_ascii b in
      String (b64_char (x / 4)) (String (b64_char (x `mod` 4 * 16 + y / 16))
        (String (b64_char (y `mod` 16 * 4)) b64_pad))
  | String a (String b (String c s')) =>
      let x := Ascii.nat_of_ascii a in let y := Ascii.nat_of_ascii b in
      let z := Ascii.nat_of_ascii c in
      String (b64_char (x / 4)) (String (b64_char (x `mod` 4 * 16 + y / 16))
        (String (b64_char (y `mod` 16 * 4 + z / 64)) (String (b64_char (z `mod` 64)) (base64 s'))))
  end.

(** ** Decoding: [base64.StdEncoding.DecodeString] *)

Fixpoint index_of (c : Ascii.ascii) (s : string) : option nat :=
  match s with
  | EmptyString => None
  | String d s' => if decide (c = d) then Some 0 else S <$> index_of c s'
  end.

Definition b64_value (c : Ascii.ascii) : option nat := index_of c b64_alphabet.

Definition is_pad (c : Ascii.ascii) : bool := bool_decide (c = Ascii.ascii_of_nat 61).

(** Line feeds and carriage returns are skipped. *)
Fixpoint drop_newlines (s : string) : string :=
  match s with
  | EmptyString => EmptyString
  | String c s' =>
      if decide (c = Ascii.ascii_of_nat 10 ∨ c = Ascii.ascii_of_nat 13) then drop_newlines s'
      else String c (drop_newlines s')
  end.

Definition byte (n : nat) : Ascii.ascii := Ascii.ascii_of_nat n.

(** Four characters at a time; only the last four may be padded, and the bits that
    are left over in them are ignored. *)
Fixpoint decode_quads (s : string) : option string :=
  match s with
  | EmptyString => Some EmptyString
  | String a (String b (String c (String d s'))) =>
      match b64_value a, b64_value b with
      | Some x, Some y =>
          let first := byte (x * 4 + y / 16) in
          match b64_value c with
          | None =>
              if is_pad c && is_pad d && bool_decide (s' = EmptyString)
              then Some (String first EmptyString) else None
          | Some z =>
              let second := byte (y `mod` 16 * 16 + z / 4) in
              match b64_value d with
              | None =>
                  if is_pad d && bool_decide (s' = EmptyString)
                  then Some (String first (String second EmptyString)) else None
              | Some w =>
                  (λ rest, String first (String second (String (byte (z `mod` 4 * 64 + w)) rest)))
                    <$> decode_quads s'
              end
          end
      | _, _ => None
      end
  | _ => None
  end.

Definition DecodeString (s : string) : option string := decode_quads (drop_newlines s).

(** ** Round trip *)

Lemma b64_value_char n : n < 64 → b64_value (b64_char n) = Some n.
Proof.
  intros Hn. assert (forallb (λ n, bool_decide (b64_value (b64_char n) = Some n)) (seq 0 64) = true) as H
    by (vm_compute; reflexivity).
  rewrite forallb_forall in H. specialize (H n). rewrite bool_decide_eq_true in H.
  apply H, in_seq. lia.
Qed.

Lemma b64_value_pad : b64_value (Ascii.ascii_of_nat 61) = None.
Proof. vm_compute. reflexivity. Qed.

Lemma b64_char_line n : n < 64 → b64_char n ≠ Ascii.ascii_of_nat 10 ∧ b64_char n ≠ Ascii.ascii_of_nat 13.
Proof.
  intros Hn%b64_value_char. split; intros E; rewrite E in Hn; by vm_compute in Hn.
Qed.

Lemma drop_newlines_char n s :
  n < 64 → drop_newlines (String (b64_char n) s) = String (b64_char n) (drop_newlines s).
Proof.
  intros [? ?]%b64_char_line. cbn [drop_newlines]. by rewrite decide_False by naive_solver.
Qed.

Lemma nat_ascii_bound a : Ascii.nat_of_ascii a < 256.
Proof. apply Ascii.nat_ascii_bounded. Qed.

Lemma byte_nat a n : n = Ascii.nat_of_ascii a → byte n = a.
Proof. intros ->. apply Ascii.ascii_nat_embedding. Qed.

(** Induction three bytes at a time. *)
Lemma string_ind3 (P : string → Prop) :
  P "" → (∀ a, P (String a "")) → (∀ a b, P (String a (String b ""))) →
  (∀ a b c s, P s → P (String a (String b (String c s)))) → ∀ s, P s.
Proof.
  intros H0 H1 H2 H3.
  assert (∀ s, P s ∧ (∀ a, P (String a s)) ∧ ∀ a b, P (String a (String b s))) as H; [|intros s; apply H].
  induction s as [|c s (IH0 & IH1 & IH2)]; [auto|]. split_and!; auto.
Qed.

Section arithmetic.
#[local] Ltac Zify.zify_post_hook ::= Z.to_euclidean_division_equations.

Lemma sextets x y z :
  x < 256 → y < 256 → z < 256 →
  x / 4 < 64 ∧ x `mod` 4 * 16 + y / 16 < 64 ∧ y `mod` 16 * 4 + z / 64 < 64 ∧ z `mod` 64 < 64.
Proof. lia. Qed.

Lemma high_digit q b r : r < b → (q * b + r) / b = q.
Proof. intros. rewrite Nat.div_add_l by lia. rewrite Nat.div_small by done. lia. Qed.

Lemma low_digit q b r : r < b → (q * b + r) `mod` b = r.
Proof. intros. rewrite Nat.add_comm, Nat.Div0.mod_add. by apply Nat.mod_small. Qed.

Lemma octets x y z :
  x < 256 → y < 256 → z < 256 →
  x / 4 * 4 + (x `mod` 4 * 16 + y / 16) / 16 = x ∧
  (x `mod` 4 * 16 + y / 16) `mod` 16 * 16 + (y `mod` 16 * 4 + z / 64) / 4 = y ∧
  (y `mod` 16 * 4 + z / 64) `mod` 4 * 64 + z `mod` 64 = z.
Proof.
  intros Hx Hy Hz. assert (y / 16 < 16 ∧ z / 64 < 4) as [H1 H2] by lia.
  rewrite !high_digit, !low_digit by done. repeat split; lia.
Qed.
End arithmetic.

Lemma drop_newlines_base64 s : drop_newlines (base64 s) = base64 s.
Proof.
  induction s as [|a|a b|a b c s IH] using string_ind3; cbn [base64]; [done|..].
  - destruct (sextets (Ascii.nat_of_ascii a) 0 0) as (? & ? & ? & ?); [apply nat_ascii_bound|lia..|].
    rewrite !drop_newlines_char by (rewrite ?Nat.add_0_r in *; done). done.
  - destruct (sextets (Ascii.nat_of_ascii a) (Ascii.nat_of_ascii b) 0) as (? & ? & ? & ?);
      [apply nat_ascii_bound..|lia|].
    rewrite !drop_newlines_char by (rewrite ?Nat.add_0_r in *; done). done.
  - destruct (sextets (Ascii.nat_of_ascii a) (Ascii.nat_of_ascii b) (Ascii.nat_of_ascii c))
      as (? & ? & ? & ?); [apply nat_ascii_bound..|].
    rewrite !drop_newlines_char by done. by rewrite IH.
Qed.

Lemma decode_quads_base64 s : decode_quads (base64 s) = Some s.
Proof.
  induction s as [|a|a b|a b c s IH] using string_ind3; cbn [base64]; [done|..].
  - set (x := Ascii.nat_of_ascii a). assert (x < 256) as Hx by apply nat_ascii_bound.
    destruct (sextets x 0 0) as (? & ? & ? & ?); [lia..|]. destruct (octets x 0 0) as (Ho & ? & ?); [lia..|].
    rewrite Nat.add_0_r in *. change (b64_pad +:+ b64_pad) with (String (Ascii.ascii_of_nat 61) b64_pad).
    unfold b64_pad. cbn [decode_quads]. rewrite !b64_value_char, b64_value_pad by done. by rewrite (byte_nat a _ Ho).
  - set (x := Ascii.nat_of_ascii a). assert (x < 256) as Hx by apply nat_ascii_bound.
    set (y := Ascii.nat_of_ascii b). assert (y < 256) as Hy by apply nat_ascii_bound.
    destruct (sextets x y 0) as (? & ? & ? & ?); [lia..|]. destruct (octets x y 0) as (Ho1 & Ho2 & ?); [lia..|].
    rewrite Nat.add_0_r in *. unfold b64_pad. cbn [decode_quads].
    rewrite !b64_value_char, b64_value_pad by done. by rewrite (byte_nat a _ Ho1), (byte_nat b _ Ho2).
  - set (x := Ascii.nat_of_ascii a). assert (x < 256) as Hx by apply nat_ascii_bound.
    set (y := Ascii.nat_of_ascii b). assert (y < 256) as Hy by apply nat_ascii_bound.
    set (z := Ascii.nat_of_ascii c). assert (z < 256) as Hz by apply nat_ascii_bound.
    destruct (sextets x y z) as (? & ? & ? & ?); [lia..|]. destruct (octets x y z) as (Ho1 & Ho2 & Ho3); [lia..|].
    cbn [decode_quads]. rewrite !b64_value_char by done.
    by rewrite IH, (byte_nat a _ Ho1), (byte_nat b _ Ho2), (byte_nat c _ Ho3).
Qed.

Lemma DecodeString_base64 s : DecodeString (base64 s) = Some s.
Proof. unfold DecodeString. by rewrite drop_newlines_base64, decode_quads_base64. Qed.

Example decode_padded :
  DecodeString "aGVpcg==" = Some "heir" ∧ DecodeString "aGVpcg=" = None ∧ DecodeString "aGV*cg==" = None.
Proof. vm_compute. done. Qed.

(** ** [base64.RawURLEncoding]: another alphabet, no padding *)

Definition url_alphabet : string :=
  "ABCDEFGHIJKLMNOPQRSTUVWXYZabcdefghijklmnopqrstuvwxyz0123456789-_".

Definition url_char (n : nat) : Ascii.ascii :=
  default (Ascii.ascii_of_nat 61) (String.get n url_alphabet).

(** The groups of six bits. *)
Fixpoint sixes (s : string) : list nat :=
  match s with
  | EmptyString => []
  | String a EmptyString =>
      let x := Ascii.nat_of_ascii a in [x / 4; x `mod` 4 * 16]
  | String a (String b EmptyString) =>
      let x := Ascii.nat_of_ascii a in let y := Ascii.nat_of_ascii b in
      [x / 4; x `mod` 4 * 16 + y / 16; y `mod` 16 * 4]
  | String a (String b (String c s')) =>
      let x := Ascii.nat_of_ascii a in let y := Ascii.nat_of_ascii b in
      let z := Ascii.nat_of_ascii c in
      x / 4 :: x `mod` 4 * 16 + y / 16 :: y `mod` 16 * 4 + z / 64 :: z `mod` 64 :: sixes s'
  end.

Definition raw_url (s : string) : string :=
  foldr (λ n t, String (url_char n) t) "" (sixes s).

Fixpoint unsixes (l : list nat) : string :=
  match l with
  | x :: y :: z :: w :: l' =>
      String (byte (x * 4 + y / 16)) (String (byte (y `mod` 16 * 16 + z / 4))
        (String (byte (z `mod` 4 * 64 + w)) (unsixes l')))
  | [x; y; z] => String (byte (x * 4 + y / 16)) (String (byte (y `mod` 16 * 16 + z / 4)) "")
  | [x; y] => String (byte (x * 4 + y / 16)) ""
  | _ => ""
  end.

Lemma sixes_bound s : Forall (λ n, n < 64) (sixes s).
Proof.
  induction s as [|a|a b|a b c s IH] using string_ind3; cbn [sixes].
  - constructor.
  - destruct (sextets (Ascii.nat_of_ascii a) 0 0) as (? & ? & ? & ?); [apply nat_ascii_bound|lia..|].
    rewrite Nat.add_0_r in *. repeat (apply Forall_cons_2; [done|]); first [constructor|done].
  - destruct (sextets (Ascii.nat_of_ascii a) (Ascii.nat_of_ascii b) 0) as (? & ? & ? & ?);
      [apply nat_ascii_bound..|lia|]. rewrite Nat.add_0_r in *. repeat (apply Forall_cons_2; [done|]); first [constructor|done].
  - destruct (sextets (Ascii.nat_of_ascii a) (Ascii.nat_of_ascii b) (Ascii.nat_of_ascii c))
      as (? & ? & ? & ?); [apply nat_ascii_bound..|]. repeat (apply Forall_cons_2; [done|]); first [constructor|done].
Qed.

Lemma unsixes_sixes s : unsixes (sixes s) = s.
Proof.
  induction s as [|a|a b|a b c s IH] using string_ind3; cbn [sixes unsixes]; [done|..].
  - destruct (octets (Ascii.nat_of_ascii a) 0 0) as (Ho & _ & _); [apply nat_ascii_bound|lia..|].
    rewrite Nat.add_0_r in Ho. by rewrite (byte_nat a _ Ho).
  - destruct (octets (Ascii.nat_of_ascii a) (Ascii.nat_of_ascii b) 0) as (Ho1 & Ho2 & _);
      [apply nat_ascii_bound..|lia|]. rewrite Nat.add_0_r in Ho2.
    by rewrite (byte_nat a _ Ho1), (byte_nat b _ Ho2).
  - destruct (octets (Ascii.nat_of_ascii a) (Ascii.nat_of_ascii b) (Ascii.nat_of_ascii c))
      as (Ho1 & Ho2 & Ho3); [apply nat_ascii_bound..|].
    by rewrite IH, (byte_nat a _ Ho1), (byte_nat b _ Ho2), (byte_nat c _ Ho3).
Qed.

Lemma url_char_value n : n < 64 → index_of (url_char n) url_alphabet = Some n.
Proof.
  intros Hn. assert (forallb (λ n, bool_decide (index_of (url_char n) url_alphabet = Some n)) (seq 0 64) = true)
    as H by (vm_compute; reflexivity).
  rewrite forallb_forall in H. specialize (H n). rewrite bool_decide_eq_true in H.
  apply H, in_seq. lia.
Qed.

Lemma url_chars_inj l1 l2 :
  Forall (λ n, n < 64) l1 → Forall (λ n, n < 64) l2 →
  foldr (λ n t, String (url_char n) t) "" l1 = foldr (λ n t, String (url_char n) t) "" l2 → l1 = l2.
Proof.
  intros H1. revert l2. induction H1 as [|n l1 Hn _ IH]; intros l2 H2; destruct H2 as [|m l2 Hm H2]; try done.
  cbn [foldr]. intros [= Ec Et]. f_equal; [|by apply IH].
  apply url_char_value in Hn, Hm. congruence.
Qed.

Lemma raw_url_inj a b : raw_url a = raw_url b → a = b.
Proof.
  intros H%url_chars_inj; [|apply sixes_bound..].
  rewrite <-(unsixes_sixes a), H. apply unsixes_sixes.
Qed.

(** A character that is not of the alphabet is not in the text. *)
Lemma raw_url_chars c s : index_of c url_alphabet = None → all_chars (λ d, negb (bool_decide (d = c))) (raw_url s) = true.
Proof.
  intros Hc. unfold raw_url. induction (sixes_bound s) as [|n l Hn _ IH]; [done|].
  cbn [foldr all_chars]. rewrite IH, andb_true_r. rewrite bool_decide_eq_false_2; [done|].
  intros E. apply url_char_value in Hn. congruence.
Qed.
