(* ===== verification/Effects.v ===== *)
(** * Programs with effects

    A handler of the program calls code that is not part of it: the Kubernetes
    API server, the certificate signer, the clock, the random generator, the
    network.  Such a handler is a [prog]: it either returns or performs one
    operation of a signature [E] and goes on with the answer.  Two readings:

    - [wp spec p s Q]: whatever answers a service that obeys [spec] gives,
      starting from its state [s], the program ends in a result and a state
      that satisfy [Q], and never performs an operation [spec] forbids.  This
      is the interface the handlers are verified against.
    - [run h p s]: the result under one executable service [h].

    [answers] and [reports] are about the answers of the calls alone.  [wp_run] transports what is proved against the interface to every
    implementation of it. *)

From S2P Require Import Prelude.
From stdpp Require Import options.

Inductive prog (E : Type → Type) (A : Type) : Type :=
| Ret (a : A)
| Vis (R : Type) (e : E R) (k : R → prog E A).
Arguments Ret {E A} a.
Arguments Vis {E A R} e k.

Fixpoint bind {E A B} (p : prog E A) (f : A → prog E B) : prog E B :=
  match p with
  | Ret a => f a
  | Vis e k => Vis e (λ r, bind (k r) f)
  end.

Definition trigger {E R} (e : E R) : prog E R := Vis e Ret.

Notation "'let!' x := p 'in' q" := (bind p (λ x, q))
  (at level 10, x strict pattern, p at level 200, q at level 200,
   format "'[v' 'let!'  x  :=  p  'in' '/' q ']'") : go_scope.
Open Scope go_scope.

(** A [for] loop over a slice whose body may stop the iteration: the body
    returns [inl b] to leave the function with [b], [inr tt] to go on. *)
Fixpoint for_each {E A B} (l : list A) (body : A → prog E (B + unit)) : prog E (B + unit) :=
  match l with
  | [] => Ret (inr tt)
  | x :: l' => bind (body x) (λ r,
      match r with
      | inl b => Ret (inl b)
      | inr _ => for_each l' body
      end)
  end.

(** ** Specifications of a signature *)

Definition op_spec (E : Type → Type) (S : Type) :=
  ∀ R, E R → S → (R → S → Prop) → Prop.

Fixpoint wp {E S A} (spec : op_spec E S) (p : prog E A) (s : S) (Q : A → S → Prop) : Prop :=
  match p with
  | Ret a => Q a s
  | Vis e k => spec _ e s (λ r s', wp spec (k r) s' Q)
  end.

(** What is needed of a specification: more permissive postconditions are
    easier. *)
Class Monotone {E S} (spec : op_spec E S) :=
  spec_mono R (e : E R) s (Q Q' : R → S → Prop) :
    (∀ r s', Q r s' → Q' r s') → spec R e s Q → spec R e s Q'.

(** ** Executable services *)

(** A service answers, or the process dies ([None]). *)
Definition handler (E : Type → Type) (S : Type) := ∀ R, E R → S → option (R * S).

Fixpoint run {E S A} (h : handler E S) (p : prog E A) (s : S) : option (A * S) :=
  match p with
  | Ret a => Some (a, s)
  | Vis e k =>
      match h _ e s with
      | None => None
      | Some (r, s') => run h (k r) s'
      end
  end.

(** The service [h] is one of those the specification describes; it dies only
    where [crash] allows it. *)
Class Implements {E S} (h : handler E S) (spec : op_spec E S) (crash : Prop) :=
  implements R (e : E R) s Q :
    spec R e s Q → match h R e s with Some (r, s') => Q r s' | None => crash end.

Lemma run_bind {E S A B} (h : handler E S) (p : prog E A) (f : A → prog E B) s :
  run h (bind p f) s =
    match run h p s with None => None | Some (a, s') => run h (f a) s' end.
Proof.
  revert s. induction p as [a|R e k IH]; intros s; simpl; [done|].
  destruct (h R e s) as [[r s']|]; [apply IH|done].
Qed.

(** ** Answers alone

    Claims that depend on the answers of the calls and not on a state. *)

(** When every call is answered as [ok] says, the result is one of [Φ]. *)
Fixpoint answers {E A} (ok : ∀ R, E R → R → Prop) (p : prog E A) (Φ : A → Prop) : Prop :=
  match p with
  | Ret a => Φ a
  | Vis e k => ∀ r, ok _ e r → answers ok (k r) Φ
  end.

(** Once a call is answered as [bad] says, the result is one of [Φ], whatever follows. *)
Fixpoint reports {E A} (bad : ∀ R, E R → R → Prop) (p : prog E A) (Φ : A → Prop) : Prop :=
  match p with
  | Ret a => True
  | Vis e k => ∀ r, (bad _ e r → answers (λ _ _ _, True) (k r) Φ) ∧ reports bad (k r) Φ
  end.

Lemma answers_mono {E A} (ok : ∀ R, E R → R → Prop) (p : prog E A) (Φ Ψ : A → Prop) :
  (∀ a, Φ a → Ψ a) → answers ok p Φ → answers ok p Ψ.
Proof. intros HΦ. induction p as [a|R e k IH]; simpl; eauto. Qed.

Lemma answers_bind {E A B} (ok : ∀ R, E R → R → Prop) (p : prog E A) (f : A → prog E B) Φ :
  answers ok p (λ a, answers ok (f a) Φ) → answers ok (bind p f) Φ.
Proof. induction p as [a|R e k IH]; simpl; eauto. Qed.

Lemma answers_all {E A} (ok : ∀ R, E R → R → Prop) (p : prog E A) (Φ : A → Prop) :
  (∀ a, Φ a) → answers ok p Φ.
Proof. intros HΦ. induction p as [a|R e k IH]; simpl; eauto. Qed.

Lemma answers_for_each {E A B} (ok : ∀ R, E R → R → Prop) (l : list A) (body : A → prog E (B + unit)) :
  (∀ x, answers ok (body x) (λ r, r = inr tt)) → answers ok (for_each l body) (λ r, r = inr tt).
Proof.
  intros Hb. induction l as [|x l IH]; simpl; [done|]. apply answers_bind.
  eapply answers_mono; [|apply Hb]. by intros ? ->.
Qed.

(** A failure before or after [p] is reported. *)
Lemma reports_bind {E A B} (bad : ∀ R, E R → R → Prop) (p : prog E A) (f : A → prog E B) Ψ Φ :
  reports bad p Ψ → (∀ a, Ψ a → answers (λ _ _ _, True) (f a) Φ) → (∀ a, reports bad (f a) Φ) →
  reports bad (bind p f) Φ.
Proof.
  intros Hp Ha Hf. induction p as [a|R e k IH]; simpl in *; [apply Hf|]. intros r.
  destruct (Hp r) as [H1 H2]. split; [|by apply IH]. intros Hb. apply answers_bind.
  eapply answers_mono; [|by apply H1]. done.
Qed.

(** On a service whose answers are all as [ok] says. *)
Lemma answers_run {E S A} (ok : ∀ R, E R → R → Prop) (h : handler E S) (p : prog E A) Φ s a s' :
  (∀ R (e : E R) s r s', h R e s = Some (r, s') → ok R e r) →
  answers ok p Φ → run h p s = Some (a, s') → Φ a.
Proof.
  intros Hh. revert s. induction p as [b|R e k IH]; intros s; simpl; [by intros ? [= -> _]|].
  intros Hp. destruct (h R e s) as [[r s1]|] eqn:E1; [|done]. apply IH, Hp. by eapply Hh.
Qed.

Section wp.
Context {E : Type → Type} {S : Type} (spec : op_spec E S).

Lemma wp_bind `{!Monotone spec} {A B} (p : prog E A) (f : A → prog E B) s Q :
  wp spec (bind p f) s Q ↔ wp spec p s (λ a s', wp spec (f a) s' Q).
Proof.
  revert s. induction p as [a|R e k IH]; intros s; simpl; [done|].
  split; apply spec_mono; intros r s' H; by apply IH.
Qed.

Lemma wp_mono `{!Monotone spec} {A} (p : prog E A) s (Q Q' : A → S → Prop) :
  wp spec p s Q → (∀ a s', Q a s' → Q' a s') → wp spec p s Q'.
Proof.
  intros H HQ. revert s H. induction p as [a|R e k IH]; intros s; simpl; [auto|].
  apply spec_mono. auto.
Qed.

Lemma wp_ret {A} (a : A) s (Q : A → S → Prop) : Q a s → wp spec (Ret a) s Q.
Proof. done. Qed.

(** Sequencing from a known postcondition of the first part. *)
Lemma wp_seq `{!Monotone spec} {A B} (p : prog E A) (f : A → prog E B) s P Q :
  wp spec p s P → (∀ a s', P a s' → wp spec (f a) s' Q) → wp spec (bind p f) s Q.
Proof. intros Hp Hf. apply wp_bind. by eapply wp_mono. Qed.

(** Loop rule: an invariant kept by every iteration that goes on. *)
Lemma wp_for_each `{!Monotone spec} {A B} (l : list A) (body : A → prog E (B + unit))
    (I : S → Prop) (Q : (B + unit) → S → Prop) s :
  I s →
  (∀ x s, x ∈ l → I s →
     wp spec (body x) s (λ r s', match r with inl b => Q (inl b) s' | inr _ => I s' end)) →
  (∀ s, I s → Q (inr tt) s) →
  wp spec (for_each l body) s Q.
Proof.
  intros HI Hb HQ. revert s HI. induction l as [|x l IH]; intros s HI; simpl; [auto|].
  eapply wp_seq; [apply Hb; [set_solver|done]|].
  intros [b|[]] s'; simpl; [done|]. intros HI'.
  apply IH; [|done]. intros y s0 Hy. apply Hb. set_solver.
Qed.

(** The same with an invariant that knows what was visited. *)
Lemma wp_for_each_prefix `{!Monotone spec} {A B} (l : list A) (body : A → prog E (B + unit))
    (I : list A → S → Prop) (Q : (B + unit) → S → Prop) s :
  I [] s →
  (∀ before x s, x ∈ l → I before s →
     wp spec (body x) s (λ r s', match r with inl b => Q (inl b) s' | inr _ => I (before ++ [x]) s' end)) →
  (∀ s, I l s → Q (inr tt) s) →
  wp spec (for_each l body) s Q.
Proof.
  intros HI Hb HQ. change l with ([] ++ l) in HQ. revert s HI HQ. generalize (@nil A).
  induction l as [|x l IH]; intros before s HI HQ; simpl.
  { apply HQ. by rewrite app_nil_r. }
  eapply wp_seq; [apply Hb; [set_solver|done]|].
  intros [b|[]] s'; simpl; [done|]. intros HI'.
  apply (IH ltac:(set_solver) (before ++ [x])); [done|]. intros s0. rewrite <- app_assoc. apply HQ.
Qed.

(** Whatever holds of a program against the interface holds of its run on
    every implementation. *)
Theorem wp_run (h : handler E S) crash `{!Implements h spec crash} {A} (p : prog E A) s Q :
  wp spec p s Q → match run h p s with Some (a, s') => Q a s' | None => crash end.
Proof.
  revert s. induction p as [a|R e k IH]; intros s; simpl; [done|].
  intros H. apply (implements (h := h) (crash := crash)) in H.
  destruct (h R e s) as [[r s']|]; [by apply IH|done].
Qed.
End wp.

(** ** Programs of a part of the calls

    A program of one signature run among the calls of another. *)

Fixpoint embed {E F : Type → Type} {A} (f : ∀ R, E R → F R) (p : prog E A) : prog F A :=
  match p with
  | Ret a => Ret a
  | Vis o k => Vis (f _ o) (λ r, embed f (k r))
  end.

(** The state of the first signature is a part ([part], [put]) of that of the second;
    [ok] is what the calls of the second need besides. *)
Lemma wp_embed {E F : Type → Type} {S T : Type} (spec : op_spec E S) (spec' : op_spec F T) (f : ∀ R, E R → F R)
    (part : T → S) (put : S → T → T) (ok : T → Prop) {A} (p : prog E A) t (Q : A → T → Prop) :
  Monotone spec →
  (∀ t, put (part t) t = t) → (∀ s t, part (put s t) = s) → (∀ s s' t, put s' (put s t) = put s' t) →
  (∀ s t, ok t → ok (put s t)) →
  (∀ R (o : E R) t (Q : R → T → Prop), ok t → spec R o (part t) (λ r s, Q r (put s t)) → spec' R (f R o) t Q) →
  ok t → wp spec p (part t) (λ a s, Q a (put s t)) → wp spec' (embed f p) t Q.
Proof.
  intros Hmono Hget Hput Hputs Hkeep Hspec. revert t. induction p as [a|R o k IH]; intros t Hok H; simpl in *.
  { by rewrite Hget in H. }
  apply Hspec; [done|]. eapply spec_mono; [|exact H]. intros r s Hs. apply IH; [by apply Hkeep|].
  rewrite Hput. eapply (wp_mono spec (k r)); [exact Hs|]. intros a s'. by rewrite Hputs.
Qed.

(** ** Retrying

    [retry.Do] of github.com/avast/retry-go: a body is attempted until it
    succeeds, fails for good ([retry.Unrecoverable]), the attempts are used up
    or the context ends. *)

Inductive attempt (A : Type) :=
| Succeeded (a : A)
| Failed (err : string)
| Unrecoverable (err : string).
Arguments Succeeded {A} a.
Arguments Failed {A} err.
Arguments Unrecoverable {A} err.

Class Retry := {
  (** The value is what the attempt that succeeded stored; the error is that of
      the library, made from those of the attempts. *)
  retry_do {E : Type → Type} {A : Type} : nat → prog E (attempt A) → prog E (A + string);
}.

(** What its documentation promises, as a rule: an invariant [I] that failed
    attempts keep holds when it gives up, and it reports success only after an
    attempt that succeeded. *)
Class RetryLaws `{Retry} : Prop := {
  wp_retry {E S A} (spec : op_spec E S) `{!Monotone spec} n (body : prog E (attempt A))
      (I : S → Prop) (Q : A + string → S → Prop) s :
    I s →
    (∀ s, I s → wp spec body s (λ r s',
       match r with
       | Succeeded a => Q (inl a) s'
       | Failed _ => I s'
       | Unrecoverable _ => ∀ m, Q (inr m) s'
       end)) →
    (∀ s m, I s → Q (inr m) s) →
    wp spec (retry_do n body) s Q;
}.

(** One such loop, without delays or a context. *)
Fixpoint retry_loop {E : Type → Type} {A} (n : nat) (last : string) (body : prog E (attempt A)) :
    prog E (A + string) :=
  match n with
  | 0 => Ret (inr last)
  | S n' => bind body (λ r,
      match r with
      | Succeeded a => Ret (inl a)
      | Failed err => retry_loop n' err body
      | Unrecoverable err => Ret (inr err)
      end)
  end.

Definition ref_retry : Retry := {| retry_do E A n body := retry_loop n "" body |}.

Lemma ref_retry_laws : @RetryLaws ref_retry.
Proof.
  split. intros E S A spec Hm n body I Q s HI Hb HQ. cbn [retry_do ref_retry].
  generalize "" as last. revert s HI. induction n as [|n IH]; intros s HI last; simpl; [by apply HQ|].
  eapply (wp_seq spec body); [exact (Hb s HI)|]. intros [a|err|err] s1; simpl; auto.
Qed.

(** Symbolic execution: expose the next operation and its answers. *)
Ltac wp_step := simpl; repeat (split || intros); try done.

#[export] Hint Resolve wp_mono : heir.
