(* ===== verification/Kube.v ===== *)
(** * Kubernetes objects

    The structures of the Kubernetes API the program reads and writes
    ([k8s.io/api] and [k8s.io/apimachinery], not part of the repository),
    restricted to the fields the program uses, and the helpers of
    [apimachinery] and [controller-runtime] it calls, as a class of parameters
    ([Machinery]) with their documented behaviour ([MachineryLaws]) and one
    concrete instance.

    [map[string]string] fields of object metadata and [Data] maps keep the
    nil/empty distinction ([gomap]), since a write to a nil map panics.  Inside
    a pod template or a selector the program only builds maps, so these are
    plain finite maps; slices are lists. *)

From S2P Require Import Prelude.
From stdpp Require Import options.

(** ** Metadata *)

Record OwnerReference := {
  or_uid : string;
  or_controller : bool;
}.

Record ObjectMeta := {
  om_name : string;
  om_namespace : string;
  om_uid : string;
  om_generation : Z;
  om_labels : gomap string;
  om_annotations : gomap string;
  om_owners : list OwnerReference;
  om_finalizers : list string;
  (** [DeletionTimestamp]: seconds since the epoch, [None] when unset. *)
  om_deletion : option Z;
}.

(** Metadata literal with only the fields the generators set. *)
Definition new_meta (name namespace : string) (labels annotations : gomap string) : ObjectMeta :=
  {| om_name := name; om_namespace := namespace; om_uid := ""; om_generation := 0;
     om_labels := labels; om_annotations := annotations; om_owners := [];
     om_finalizers := []; om_deletion := None |}.

Record NamespacedName := NN { nn_namespace : string; nn_name : string }.

Definition meta_key (m : ObjectMeta) : NamespacedName := NN (om_namespace m) (om_name m).

Inductive ConditionStatus := ConditionTrue | ConditionFalse | ConditionUnknown.

(** [metav1.Condition]; the transition time is left out, no code of the
    program reads it. *)
Record Condition := {
  cond_type : string;
  cond_status : ConditionStatus;
  cond_reason : string;
  cond_message : string;
  cond_generation : Z;
}.

(** ** Core objects *)

Record Secret := {
  sec_meta : ObjectMeta;
  sec_type : string;
  sec_data : gomap string;
  sec_stringData : gomap string;
}.

Record ConfigMap := {
  cm_meta : ObjectMeta;
  cm_data : gomap string;
}.

Inductive IntOrString := FromInt (z : Z) | FromString (s : string).

Record ServicePort := {
  sp_name : string;
  sp_port : Z;
  sp_targetPort : IntOrString;
  sp_protocol : string;
  sp_nodePort : Z;
  sp_appProtocol : option string;
}.

Record KServiceSpec := {
  ss_type : string;
  ss_selector : gmap string string;
  ss_ports : list ServicePort;
  ss_clusterIP : string;
}.

Record Service := {
  svc_meta : ObjectMeta;
  svc_spec : KServiceSpec;
}.

Inductive VolumeSource :=
| VSecret (secretName : string)
| VConfigMap (name : string) (defaultMode : Z).

Record Volume := { vol_name : string; vol_source : VolumeSource }.

Record VolumeMount := {
  vm_name : string;
  vm_mountPath : string;
  vm_subPath : string;
  vm_readOnly : bool;
}.

Inductive EnvSource :=
| EnvValue (v : string)
| EnvSecretKey (name key : string).

Record EnvVar := { ev_name : string; ev_source : EnvSource }.

Record ContainerPort := {
  cp_name : string;
  cp_port : Z;
  cp_protocol : string;
}.

Record Container := {
  ct_name : string;
  ct_image : string;
  ct_command : list string;
  ct_args : list string;
  ct_ports : list ContainerPort;
  ct_env : list EnvVar;
  ct_mounts : list VolumeMount;
  ct_resources : option json;
}.

Record PodSpec := {
  ps_serviceAccountName : string;
  ps_runtimeClassName : option string;
  ps_tolerations : list json;
  ps_affinity : option json;
  ps_containers : list Container;
  ps_volumes : list Volume;
}.

Record PodTemplate := {
  pt_labels : gmap string string;
  pt_annotations : gmap string string;
  pt_spec : PodSpec;
}.

Record KDeploymentSpec := {
  ds_replicas : option Z;
  ds_selector : gmap string string;
  ds_template : PodTemplate;
}.

Record Deployment := {
  dep_meta : ObjectMeta;
  dep_spec : KDeploymentSpec;
}.

(** ** Batch and RBAC objects *)

Record JobCondition := { jc_type : string; jc_status : ConditionStatus }.

Record Toleration := { tol_operator : string; tol_effect : string }.

(** The fields of [batchv1.JobSpec] and of its pod template the program sets. *)
Record JobSpec := {
  js_backoffLimit : option Z;
  js_completions : option Z;
  js_completionMode : string;
  js_parallelism : option Z;
  js_labels : gmap string string;
  js_restartPolicy : string;
  js_serviceAccountName : string;
  js_securityContext : option json;
  js_hostNetwork : bool;
  js_tolerations : list Toleration;
  js_containers : list Container;
}.

Record Job := {
  job_meta : ObjectMeta;
  job_spec : JobSpec;
  job_conditions : list JobCondition;
}.

Record ServiceAccount := { sa_meta : ObjectMeta }.

Record Subject := { sub_kind : string; sub_name : string; sub_namespace : string }.

Record ClusterRoleBinding := {
  crb_meta : ObjectMeta;
  crb_roleGroup : string;
  crb_roleKind : string;
  crb_roleName : string;
  crb_subjects : list Subject;
}.

(** ** Certificate signing requests and nodes *)

Record CSRCondition := {
  cc_type : string;
  cc_status : ConditionStatus;
  cc_reason : string;
  cc_message : string;
}.

Record CertificateSigningRequest := {
  ksr_meta : ObjectMeta;
  ksr_username : string;
  ksr_signerName : string;
  ksr_request : string;
  ksr_conditions : list CSRCondition;
}.

Record Node := {
  node_meta : ObjectMeta;
  (** [Status.Addresses], the [Address] of each. *)
  node_addresses : list string;
}.

(** [discoveryv1.Endpoint]: its addresses and the ready condition. *)
Record SliceEndpoint := { se_addresses : list string; se_ready : option bool }.

Record SlicePort := {
  slp_name : option string;
  slp_protocol : option string;
  slp_port : option Z;
}.

Record EndpointSlice := {
  es_meta : ObjectMeta;
  es_addressType : string;
  es_endpoints : list SliceEndpoint;
  es_ports : list SlicePort;
}.

(** The specification of a definition is compared and copied as a whole. *)
Record CustomResourceDefinition := {
  crd_meta : ObjectMeta;
  crd_spec : json;
}.

(** ** Decidable equality *)

#[export] Instance OwnerReference_eq_dec : EqDecision OwnerReference.
Proof. solve_decision. Defined.
#[export] Instance ObjectMeta_eq_dec : EqDecision ObjectMeta.
Proof. solve_decision. Defined.
#[export] Instance NamespacedName_eq_dec : EqDecision NamespacedName.
Proof. solve_decision. Defined.
#[export] Instance NamespacedName_countable : Countable NamespacedName.
Proof.
  refine (inj_countable' (λ n, (nn_namespace n, nn_name n)) (λ p, NN p.1 p.2) _).
  by intros [].
Defined.
#[export] Instance ConditionStatus_eq_dec : EqDecision ConditionStatus.
Proof. solve_decision. Defined.
#[export] Instance Condition_eq_dec : EqDecision Condition.
Proof. solve_decision. Defined.
#[export] Instance Secret_eq_dec : EqDecision Secret.
Proof. solve_decision. Defined.
#[export] Instance ConfigMap_eq_dec : EqDecision ConfigMap.
Proof. solve_decision. Defined.
#[export] Instance IntOrString_eq_dec : EqDecision IntOrString.
Proof. solve_decision. Defined.
#[export] Instance ServicePort_eq_dec : EqDecision ServicePort.
Proof. solve_decision. Defined.
#[export] Instance KServiceSpec_eq_dec : EqDecision KServiceSpec.
Proof. solve_decision. Defined.
#[export] Instance VolumeSource_eq_dec : EqDecision VolumeSource.
Proof. solve_decision. Defined.
#[export] Instance Volume_eq_dec : EqDecision Volume.
Proof. solve_decision. Defined.
#[export] Instance VolumeMount_eq_dec : EqDecision VolumeMount.
Proof. solve_decision. Defined.
#[export] Instance EnvSource_eq_dec : EqDecision EnvSource.
Proof. solve_decision. Defined.
#[export] Instance EnvVar_eq_dec : EqDecision EnvVar.
Proof. solve_decision. Defined.
#[export] Instance ContainerPort_eq_dec : EqDecision ContainerPort.
Proof. solve_decision. Defined.
#[export] Instance Container_eq_dec : EqDecision Container.
Proof. solve_decision. Defined.
#[export] Instance PodSpec_eq_dec : EqDecision PodSpec.
Proof. solve_decision. Defined.
#[export] Instance PodTemplate_eq_dec : EqDecision PodTemplate.
Proof. solve_decision. Defined.
#[export] Instance KDeploymentSpec_eq_dec : EqDecision KDeploymentSpec.
Proof. solve_decision. Defined.

(** ** Errors of the API server *)

Inductive api_error :=
| NotFound
| AlreadyExists
| OtherError (msg : string).

Definition IsNotFound (e : api_error) : bool :=
  match e with NotFound => true | _ => false end.
Definition IsAlreadyExists (e : api_error) : bool :=
  match e with AlreadyExists => true | _ => false end.

(** ** Helpers of apimachinery and controller-runtime *)

Definition with_finalizers (m : ObjectMeta) (fs : list string) : ObjectMeta :=
  {| om_name := om_name m; om_namespace := om_namespace m; om_uid := om_uid m;
     om_generation := om_generation m; om_labels := om_labels m;
     om_annotations := om_annotations m; om_owners := om_owners m; om_finalizers := fs;
     om_deletion := om_deletion m |}.

Class Machinery := {
  (** [metav1.IsControlledBy(obj, owner)]. *)
  IsControlledBy : ObjectMeta → ObjectMeta → bool;
  (** [ctrl.SetControllerReference(owner, obj, scheme)]: the metadata with the
      owner recorded, or the error. *)
  SetControllerReference : ObjectMeta → ObjectMeta → ObjectMeta + string;
  (** [meta.SetStatusCondition]: the updated list, and whether it changed. *)
  SetStatusCondition : list Condition → Condition → list Condition * bool;
  (** [meta.FindStatusCondition]. *)
  FindStatusCondition : list Condition → string → option Condition;
  (** [controllerutil.ContainsFinalizer], [AddFinalizer], [RemoveFinalizer]. *)
  ContainsFinalizer : ObjectMeta → string → bool;
  AddFinalizer : ObjectMeta → string → ObjectMeta;
  RemoveFinalizer : ObjectMeta → string → ObjectMeta;
}.

(** What their documentation promises. *)
Class MachineryLaws `{Machinery} : Prop := {
  (** A successful [SetControllerReference] makes the owner the controller and
      touches nothing else. *)
  scr_controls owner o o' :
    SetControllerReference owner o = inl o' → IsControlledBy o' owner = true;
  scr_frame owner o o' :
    SetControllerReference owner o = inl o' →
    om_name o' = om_name o ∧ om_namespace o' = om_namespace o ∧ om_uid o' = om_uid o ∧
    om_labels o' = om_labels o ∧ om_annotations o' = om_annotations o ∧
    om_finalizers o' = om_finalizers o ∧ om_deletion o' = om_deletion o;
  (** Control is decided by the owner references of the object alone. *)
  controlled_by_owners o o' owner :
    om_owners o = om_owners o' → IsControlledBy o owner = IsControlledBy o' owner;
  (** ... and by the UID of the owner. *)
  controlled_by_uid o owner owner' :
    om_uid owner = om_uid owner' → IsControlledBy o owner = IsControlledBy o owner';
  (** After setting a condition, looking its type up gives it. *)
  find_set cs c :
    FindStatusCondition (SetStatusCondition cs c).1 (cond_type c) = Some c;
  (** Conditions of other types are untouched. *)
  find_set_ne cs c t :
    t ≠ cond_type c →
    FindStatusCondition (SetStatusCondition cs c).1 t = FindStatusCondition cs t;
  (** A condition that is already there is reported as unchanged. *)
  set_unchanged cs c :
    (SetStatusCondition cs c).2 = false → (SetStatusCondition cs c).1 = cs;
  contains_finalizer m f : ContainsFinalizer m f = bool_decide (f ∈ om_finalizers m);
  (** The two updates touch the finalizers only. *)
  add_finalizer m f :
    AddFinalizer m f = with_finalizers m (om_finalizers (AddFinalizer m f)) ∧
    ∀ g, g ∈ om_finalizers (AddFinalizer m f) ↔ g = f ∨ g ∈ om_finalizers m;
  remove_finalizer m f :
    RemoveFinalizer m f = with_finalizers m (filter (λ g, g ≠ f) (om_finalizers m));
}.

(** ** A concrete instance *)

Section concrete.
Definition is_controller_of (owner : ObjectMeta) (r : OwnerReference) : bool :=
  or_controller r && bool_decide (or_uid r = om_uid owner).

Definition ref_IsControlledBy (o owner : ObjectMeta) : bool :=
  existsb (is_controller_of owner) (om_owners o).

Definition ref_SetControllerReference (owner o : ObjectMeta) : ObjectMeta + string :=
  if bool_decide (Exists (λ r, or_controller r = true ∧ or_uid r ≠ om_uid owner) (om_owners o))
  then inr "already owned by another controller"
  else inl {| om_name := om_name o; om_namespace := om_namespace o; om_uid := om_uid o;
              om_generation := om_generation o; om_labels := om_labels o;
              om_annotations := om_annotations o;
              om_owners := om_owners o ++
                [{| or_uid := om_uid owner; or_controller := true |}];
              om_finalizers := om_finalizers o; om_deletion := om_deletion o |}.

Fixpoint ref_SetStatusCondition (cs : list Condition) (c : Condition) : list Condition * bool :=
  match cs with
  | [] => ([c], true)
  | c' :: cs' =>
      if decide (cond_type c' = cond_type c)
      then (c :: cs', negb (bool_decide (c' = c)))
      else let '(r, b) := ref_SetStatusCondition cs' c in (c' :: r, b)
  end.

Definition ref_FindStatusCondition (cs : list Condition) (t : string) : option Condition :=
  List.find (λ c, bool_decide (cond_type c = t)) cs.

Definition ref_AddFinalizer (m : ObjectMeta) (f : string) : ObjectMeta :=
  if bool_decide (f ∈ om_finalizers m) then m else with_finalizers m (om_finalizers m ++ [f]).
End concrete.

Definition ref_machinery : Machinery := {|
  IsControlledBy := ref_IsControlledBy;
  SetControllerReference := ref_SetControllerReference;
  SetStatusCondition := ref_SetStatusCondition;
  FindStatusCondition := ref_FindStatusCondition;
  ContainsFinalizer := λ m f, bool_decide (f ∈ om_finalizers m);
  AddFinalizer := ref_AddFinalizer;
  RemoveFinalizer := λ m f, with_finalizers m (filter (λ g, g ≠ f) (om_finalizers m));
|}.

Lemma ref_find_set cs c :
  ref_FindStatusCondition (ref_SetStatusCondition cs c).1 (cond_type c) = Some c.
Proof.
  unfold ref_FindStatusCondition. induction cs as [|c' cs IH]; simpl.
  { by rewrite bool_decide_true. }
  case_decide as E; simpl; [by rewrite bool_decide_true|].
  destruct (ref_SetStatusCondition cs c) as [r b]. simpl in *.
  by rewrite bool_decide_false.
Qed.

Lemma ref_find_set_ne cs c t :
  t ≠ cond_type c →
  ref_FindStatusCondition (ref_SetStatusCondition cs c).1 t = ref_FindStatusCondition cs t.
Proof.
  unfold ref_FindStatusCondition. intros Ht. induction cs as [|c' cs IH]; simpl.
  { by rewrite bool_decide_false. }
  case_decide as E; simpl.
  { by rewrite !bool_decide_false by congruence. }
  destruct (ref_SetStatusCondition cs c) as [r b]. simpl in *.
  case_bool_decide; auto.
Qed.

Lemma ref_set_unchanged cs c :
  (ref_SetStatusCondition cs c).2 = false → (ref_SetStatusCondition cs c).1 = cs.
Proof.
  induction cs as [|c' cs IH]; simpl; [done|]. case_decide; simpl.
  - intros E%negb_false_iff%bool_decide_eq_true. by subst.
  - destruct (ref_SetStatusCondition cs c) as [r b]. simpl in *. intros E. f_equal. auto.
Qed.

Lemma ref_machinery_laws : @MachineryLaws ref_machinery.
Proof.
  split; simpl.
  - intros owner o o'. unfold ref_SetControllerReference. case_bool_decide; intros [= <-].
    unfold ref_IsControlledBy; simpl. apply existsb_exists.
    eexists. split; [apply in_or_app; right; by left|].
    unfold is_controller_of; simpl. by rewrite bool_decide_true.
  - intros owner o o'. unfold ref_SetControllerReference.
    case_bool_decide; intros [= <-]. done.
  - intros o o' owner E. unfold ref_IsControlledBy. by rewrite E.
  - intros o owner owner' E. unfold ref_IsControlledBy, is_controller_of. by rewrite E.
  - apply ref_find_set.
  - apply ref_find_set_ne.
  - apply ref_set_unchanged.
  - done.
  - intros m f. unfold ref_AddFinalizer. case_bool_decide.
    + split; [by destruct m|]. intros g. naive_solver.
    + split; [done|]. intros g. simpl. rewrite elem_of_app, list_elem_of_singleton. naive_solver.
  - done.
Qed.
