(* ===== verification/Api.v ===== *)
(** * The custom resources of heir and its fixed layout

    The types of [api/controlplane/v1alpha1] and [api/clusteragent/v1alpha1],
    the layout of files in a control-plane container ([pkg/runtime/layout.go])
    and the worker defaults ([pkg/provision/worker/typ]).  Kubernetes
    structures that are only copied (tolerations, affinity, resources, security
    context) are opaque ([json]); durations and times are integers
    (nanoseconds, seconds). *)

From S2P Require Import Prelude Kube.
From stdpp Require Import options.

(** ** HelmChart and WorkerJoinToken *)

Record ChartSpec := {
  cs_name : string;
  cs_targetNamespace : string;
  cs_createNamespace : bool;
  cs_version : string;
  cs_repo : string;
}.

Record HelmOptions := {
  ho_version : string;
  ho_insecureSkipTLSVerify : bool;
  ho_atomic : bool;
  ho_backOffLimit : option Z;
  (** [Timeout.Duration], in nanoseconds. *)
  ho_timeout : Z;
}.

Record RuntimeOptions := {
  ro_bootstrap : bool;
  ro_image : string;
  ro_securityContext : option json;
}.

Record ValuesSpec := {
  vs_set : gmap string string;
  vs_content : string;
}.

Record HelmChartSpec := {
  hcs_chart : ChartSpec;
  hcs_helm : HelmOptions;
  hcs_runtime : RuntimeOptions;
  hcs_values : ValuesSpec;
}.

Record HelmChart := {
  hc_meta : ObjectMeta;
  hc_spec : HelmChartSpec;
  hc_conditions : list Condition;
}.

Record WorkerJoinTokenStatus := {
  wjs_conditions : list Condition;
  wjs_tokenID : string;
  (** [ExpiresAt], seconds since the epoch. *)
  wjs_expiresAt : option Z;
  wjs_secretRef : option string;
  wjs_secretChecksum : string;
}.

Record WorkerJoinToken := {
  wj_meta : ObjectMeta;
  (** [Spec.TTL.Duration], in seconds. *)
  wj_ttl : Z;
  wj_status : WorkerJoinTokenStatus;
}.

(** ** Runtime *)

Record ComponentEndpoint := { ce_host : string; ce_port : Z }.

Record ControlPlaneExternalEndpointSpec := {
  cpe_apiServer : ComponentEndpoint;
  cpe_planeTunnel : ComponentEndpoint;
}.

Record APIServerSpec := { as_sans : list string; as_extraArgs : gomap string }.
Record ControllerManagerSpec := { cms_extraArgs : gomap string }.
Record SchedulerSpec := { sch_extraArgs : gomap string }.
Record KubeletSpec := { ks_extraArgs : gomap string; ks_configPatches : string }.

Record RegistrySettings := {
  rs_registry : string;
  rs_image : string;
  rs_pullPolicy : string;
}.

(** The three proxier configurations are only serialised. *)
Record KubeProxySpec := {
  kp_disabled : bool;
  kp_registry : RegistrySettings;
  kp_mode : string;
  kp_metricsBindAddress : string;
  kp_iptables : json;
  kp_ipvs : json;
  kp_nftables : json;
  kp_nodePortAddresses : list string;
  kp_extraArgs : gomap string;
}.

Record NetworkSpec := {
  net_podCIDR : string;
  net_serviceCIDR : string;
  net_dnsDomain : string;
  net_kubeProxy : KubeProxySpec;
}.

Record SecretKeySelector := { sks_name : string; sks_key : string }.
Record KineSpec := { kine_dataSourceRef : option SecretKeySelector }.
Record StorageSpec := { sto_type : string; sto_kine : option KineSpec }.

Record AddonOverrideSpec := { ao_values : ValuesSpec }.

Record AddonChartSpec := {
  ac_name : string;
  ac_enabled : option bool;
  ac_install : option HelmChartSpec;
  ac_override : option AddonOverrideSpec;
}.

Record HelmAddonsSpec := {
  ha_runtimeImage : string;
  ha_charts : list AddonChartSpec;
}.

Record ClusterSpec := {
  cl_endpoint : ControlPlaneExternalEndpointSpec;
  cl_apiServer : APIServerSpec;
  cl_controllerManager : ControllerManagerSpec;
  cl_scheduler : SchedulerSpec;
  cl_network : NetworkSpec;
  cl_storage : StorageSpec;
  cl_kubelet : KubeletSpec;
  cl_addons : HelmAddonsSpec;
}.

Record AdditionalMetadata := { am_labels : gomap string; am_annotations : gomap string }.

Record AdditionalPort := {
  ap_name : string;
  ap_protocol : string;
  ap_appProtocol : option string;
  ap_port : Z;
  ap_targetPort : IntOrString;
}.

Record DeploymentSpec := {
  dps_metadata : AdditionalMetadata;
  dps_replicas : option Z;
  dps_runtimeClassName : string;
  dps_tolerations : list json;
  dps_affinity : option json;
  dps_serviceAccountName : string;
  dps_resources : option json;
}.

Record ServiceSpec := {
  sv_metadata : AdditionalMetadata;
  sv_additionalPorts : list AdditionalPort;
  sv_serviceType : string;
  sv_apiServerNodePort : option Z;
}.

Record PlaneTunnelServiceSpec := {
  pts_metadata : AdditionalMetadata;
  pts_serviceType : string;
  pts_nodePort : option Z;
}.

Record PlaneTunnelSpec := {
  pt_image : string;
  pt_deployment : DeploymentSpec;
  pt_service : PlaneTunnelServiceSpec;
}.

Record ControlPlaneSpec := {
  cp_heirImage : string;
  cp_clusterAgentImage : string;
  cp_deployment : DeploymentSpec;
  cp_service : ServiceSpec;
  cp_planeTunnel : PlaneTunnelSpec;
}.

Record RuntimeSpec := { rts_controlPlane : ControlPlaneSpec; rts_cluster : ClusterSpec }.

Record CertificateStatus := { crt_name : string; crt_expiresAt : Z }.

Record RuntimeStatus := {
  rst_conditions : list Condition;
  rst_observedGeneration : Z;
  rst_certificates : list CertificateStatus;
}.

Record TypeMeta := { tm_apiVersion : string; tm_kind : string }.

Record Runtime := {
  rt_type : TypeMeta;
  rt_meta : ObjectMeta;
  rt_spec : RuntimeSpec;
  rt_status : RuntimeStatus;
}.

Definition rt_name (r : Runtime) : string := om_name (rt_meta r).
Definition rt_namespace (r : Runtime) : string := om_namespace (rt_meta r).
Definition rt_cluster (r : Runtime) : ClusterSpec := rts_cluster (rt_spec r).
Definition rt_controlPlane (r : Runtime) : ControlPlaneSpec := rts_controlPlane (rt_spec r).

(** The runtime with another status. *)
Definition with_status (r : Runtime) (st : RuntimeStatus) : Runtime :=
  {| rt_type := rt_type r; rt_meta := rt_meta r; rt_spec := rt_spec r; rt_status := st |}.

(** ** Control-plane layout *)

Record MountEntry := { SecretKey : string; MountPath : string }.

Record PKILayout := {
  CACert : MountEntry;
  CAKey : MountEntry;
  APIServerCert : MountEntry;
  APIServerKey : MountEntry;
  ServiceAccountCert : MountEntry;
  ServiceAccountKey : MountEntry;
  PlaneTunnelKey : MountEntry;
  PlaneTunnelCert : MountEntry;
  ApiServerPlaneTunnelKey : MountEntry;
  ApiServerPlaneTunnelCert : MountEntry;
}.

Record AuthLayout := {
  AdminConf : MountEntry;
  ControllerManagerConf : MountEntry;
  SchedulerConf : MountEntry;
  ClientKubeconfig : MountEntry;
}.

Record StaticManifest := {
  KubeProxy : MountEntry;
  Bootstrap : MountEntry;
  NodeProfileManifest : MountEntry;
}.

Record ConfigLayout := {
  APIServer : MountEntry;
  ControllerManager : MountEntry;
  Scheduler : MountEntry;
  EgressSelector : MountEntry;
}.

Record ControlPlaneLayout := {
  lay_pki : PKILayout;
  lay_auth : AuthLayout;
  lay_config : ConfigLayout;
  lay_static : StaticManifest;
  lay_runtimeManifest : MountEntry;
}.

Definition NewControlPlaneLayout : ControlPlaneLayout := {|
  lay_runtimeManifest :=
    {| SecretKey := "runtime.yaml"; MountPath := "/etc/kubernetes/manifests/runtime.yaml" |};
  lay_pki := {|
    CACert := {| SecretKey := "ca.crt"; MountPath := "/etc/kubernetes/pki/ca.crt" |};
    CAKey := {| SecretKey := "ca.key"; MountPath := "/etc/kubernetes/pki/ca.key" |};
    APIServerCert :=
      {| SecretKey := "apiserver.crt"; MountPath := "/etc/kubernetes/pki/apiserver.crt" |};
    APIServerKey :=
      {| SecretKey := "apiserver.key"; MountPath := "/etc/kubernetes/pki/apiserver.key" |};
    ServiceAccountCert := {| SecretKey := "sa.crt"; MountPath := "/etc/kubernetes/pki/sa.crt" |};
    ServiceAccountKey := {| SecretKey := "sa.key"; MountPath := "/etc/kubernetes/pki/sa.key" |};
    PlaneTunnelKey :=
      {| SecretKey := "plane-tunnel.key"; MountPath := "/etc/kubernetes/pki/plane-tunnel.key" |};
    PlaneTunnelCert :=
      {| SecretKey := "plane-tunnel.crt"; MountPath := "/etc/kubernetes/pki/plane-tunnel.crt" |};
    ApiServerPlaneTunnelKey :=
      {| SecretKey := "apiserver-plane-tunnel.key";
         MountPath := "/etc/kubernetes/pki/apiserver-plane-tunnel.key" |};
    ApiServerPlaneTunnelCert :=
      {| SecretKey := "apiserver-plane-tunnel.crt";
         MountPath := "/etc/kubernetes/pki/apiserver-plane-tunnel.crt" |};
  |};
  lay_auth := {|
    AdminConf := {| SecretKey := "admin.conf"; MountPath := "/etc/kubernetes/admin.conf" |};
    ClientKubeconfig := {| SecretKey := "kubeconfig"; MountPath := "/etc/kubernetes/kubeconfig" |};
    ControllerManagerConf :=
      {| SecretKey := "kube-controller-manager.conf";
         MountPath := "/etc/kubernetes/kube-controller-manager.conf" |};
    SchedulerConf :=
      {| SecretKey := "kube-scheduler.conf";
         MountPath := "/etc/kubernetes/kube-scheduler.conf" |};
  |};
  lay_static := {|
    KubeProxy :=
      {| SecretKey := "kubeproxy.yaml";
         MountPath := "/etc/kubernetes/manifests/manifests.d/kubeproxy.yaml" |};
    Bootstrap :=
      {| SecretKey := "tlsbootstrap.yaml";
         MountPath := "/etc/kubernetes/manifests/manifests.d/tlsbootstrap.yaml" |};
    NodeProfileManifest :=
      {| SecretKey := "nodeprofile.yaml";
         MountPath := "/etc/kubernetes/manifests/manifests.d/nodeprofile.yaml" |};
  |};
  lay_config := {|
    APIServer :=
      {| SecretKey := "kube-apiserver.sh";
         MountPath := "/etc/kubernetes/manifests/kube-apiserver.sh" |};
    ControllerManager :=
      {| SecretKey := "kube-controller-manager.sh";
         MountPath := "/etc/kubernetes/manifests/kube-controller-manager.sh" |};
    Scheduler :=
      {| SecretKey := "kube-scheduler.sh";
         MountPath := "/etc/kubernetes/manifests/kube-scheduler.sh" |};
    EgressSelector :=
      {| SecretKey := "egress-selector-configuration.yaml";
         MountPath := "/etc/kubernetes/manifests/egress-selector-configuration.yaml" |};
  |};
|}.

(** ** Worker defaults *)

(** [WorkerContext], without its log level; [JoinToken] is its [Token].
    Durations are in nanoseconds. *)
Record WorkerContext := {
  JoinToken : string;
  WorkerProfileConfigMapName : string;
  BinDir : string;
  HeirRuntimeBin : string;
  KubeletStateDir : string;
  KubeletBootstrapKubeconfigPath : string;
  KubeletKubeConfigPath : string;
  KubeletPKIPath : string;
  KubeletPKICaCertPath : string;
  KubeletExtraArgs : gomap string;
  KubeletConfigFile : string;
  KubeletLogFile : string;
  KubeletStaticPodPath : string;
  ContainerdAddress : string;
  ContainerdState : string;
  ContainerdRoot : string;
  ContainerdConfig : string;
  ContainerdDropInConfiguration : string;
  ContainerdLogFile : string;
  ContainerdStartupTimeout : Z;
  ApiServerLocalAddress : string;
  ControlPlaneEndpointNodeProfileConfigmapKey : string;
  KubeletExtraArgsNodeProfileConfigmapKey : string;
  KubeletConfigurationNodeProfileConfigmapKey : string;
  NodeProfileLocalFilePath : string;
  CNIEnableProviderNodeProfileConfigmapKey : string;
  CNIBinFolderPath : string;
  ApiServerWorkerProxyServerAddress : string;
  PlaneTunnelServerEgressSelectorPort : Z;
  PlaneTunnelServerServer : Z;
}.

(** The [default] tags, copied by reflection; fields without one keep their zero
    value. *)
Definition NewWorkerContextWithDefaults : WorkerContext := {|
  JoinToken := "";
  WorkerProfileConfigMapName := "worker-profile";
  BinDir := "/var/lib/heir/bin/";
  HeirRuntimeBin := "/var/lib/heir/bin/heir";
  KubeletStateDir := "/etc/heir/kubelet";
  KubeletBootstrapKubeconfigPath := "/etc/heir/kubelet/bootstrap-kubeconfig.conf";
  KubeletKubeConfigPath := "/etc/heir/kubelet/config.yaml";
  KubeletPKIPath := "/etc/heir/kubelet/pki";
  KubeletPKICaCertPath := "/etc/heir/pki/ca.crt";
  KubeletExtraArgs := None;
  KubeletConfigFile := "/var/lib/heir/kubelet/config.yaml";
  KubeletLogFile := "/var/log/heir/kubelet.log";
  KubeletStaticPodPath := "/etc/heir/manifests";
  ContainerdAddress := "/run/heir/containerd.sock";
  ContainerdState := "/run/heir/containerd";
  ContainerdRoot := "/var/lib/heir/containerd";
  ContainerdConfig := "/etc/lib/heir/containerd/config.toml";
  ContainerdDropInConfiguration := "/etc/lib/heir/containerd/conf.d";
  ContainerdLogFile := "/var/log/heir/containerd.log";
  ContainerdStartupTimeout := 90 * 1000000000;
  ApiServerLocalAddress := "https://127.0.0.1:6443";
  ControlPlaneEndpointNodeProfileConfigmapKey := "control.plane.endpoint";
  KubeletExtraArgsNodeProfileConfigmapKey := "kubelet.extraArgs";
  KubeletConfigurationNodeProfileConfigmapKey := "kubelet.configuration";
  NodeProfileLocalFilePath := "/etc/heir/node-profile.json";
  CNIEnableProviderNodeProfileConfigmapKey := "cni.provider";
  CNIBinFolderPath := "/opt/cni/bin";
  ApiServerWorkerProxyServerAddress := "0.0.0.0:6443";
  PlaneTunnelServerEgressSelectorPort := 9443;
  PlaneTunnelServerServer := 9445;
|}.
