(* ===== verification/Pki.v ===== *)
(** * Certificates

    [pkg/pki] (validation of a PEM certificate against a CA) and
    [pkg/util/validation.go] (validation of a kubeconfig).  The parsers and
    verifiers of [crypto/x509], [encoding/pem], cfssl and [clientcmd] are the
    parameters of the class [X509]; the definitions below are the checks the
    program performs with them, in its order. *)

From S2P Require Import Prelude.
From stdpp Require Import options.

(** ** Data *)

(** [pki.Certificate]: a PEM pair. *)
Record Certificate := { crt_key : string; crt_cert : string }.

(** [pki.CSR]. *)
Record CSR := {
  csr_name : string;
  csr_cn : string;
  csr_o : string;
  csr_hostnames : list string;
}.

(** The fields of [x509.Certificate] the program reads.  A public key is
    [None] when its type has no [Equal] method. *)
Record x509_cert := {
  xc_organization : list string;
  xc_commonName : string;
  xc_dnsNames : list string;
  (** [ip.String()] of every [IPAddresses] entry. *)
  xc_ips : list string;
  xc_notBefore : Z;
  xc_notAfter : Z;
  xc_publicKey : option string;
}.

Inductive ExtKeyUsage := ExtKeyUsageClientAuth | ExtKeyUsageServerAuth | OtherUsage (n : Z).

#[export] Instance x509_cert_eq_dec : EqDecision x509_cert.
Proof. solve_decision. Defined.
#[export] Instance ExtKeyUsage_eq_dec : EqDecision ExtKeyUsage.
Proof. solve_decision. Defined.

(** The fields of a [clientcmdapi.Config] the program reads. *)
Record Cluster := { kcl_server : string; kcl_caData : string }.
Record AuthInfo := { ka_certData : string; ka_keyData : string; ka_token : string }.
Record Context := { kx_cluster : string; kx_authInfo : string }.
Record KubeConfig := {
  kc_clusters : gmap string Cluster;
  kc_authInfos : gmap string AuthInfo;
  kc_contexts : gmap string Context;
  kc_currentContext : string;
}.

(** ** Parameters: the parsers and the chain verifier *)

Class X509 := {
  (** [pem.Decode]: block type and bytes of the first block. *)
  pem_decode : string → option (string * string);
  (** [x509.ParseCertificate]. *)
  ParseCertificate : string → option x509_cert;
  (** [helpers.ParseCertificatePEM] of cfssl: whether it succeeds. *)
  ParsesCertificatePEM : string → bool;
  (** [helpers.ParsePrivateKeyPEM], then [key.Public()]. *)
  ParsePrivateKeyPEM : string → option string;
  (** [x509.NewCertPool] and [AppendCertsFromPEM]: [None] when it adds none. *)
  CertPool : Type;
  AppendCertsFromPEM : string → option CertPool;
  (** [cert.Verify] with the given roots and usages at the given time. *)
  Verify : x509_cert → CertPool → list ExtKeyUsage → Z → bool;
  (** The request and the public key a PEM signing request carries
      ([x509.ParseCertificateRequest]). *)
  csr_info : string → option (CSR * string);
  (** [x509.ParseCertificateRequest]: the DNS names and the IP addresses (as
      text) the request asks for. *)
  ParseCertificateRequest : string → option (list string * list string);
  (** [clientcmd.Load] and [clientcmd.Write]. *)
  LoadKubeconfig : string → option KubeConfig;
  WriteKubeconfig : KubeConfig → option string;
}.

(** ** Errors (the sentinels of the two packages) *)

Inductive pki_error :=
| ErrInvalidPEM
| ErrKeyMismatch
| ErrSubjectMismatch
| ErrSANMismatch
| ErrUntrusted
| ErrExpired.

Inductive kubeconfig_error :=
| ErrInvalidKubeconfig
| ErrMissingContext (ctx : string)
| ErrMissingCluster (cluster : string)
| ErrMissingAuthInfo (user : string)
| ErrMissingClientCert (user : string)
| ErrServerMismatch (got want : string)
| ErrInvalidClientCert (e : pki_error).

Section pki.
Context `{X : X509}.

(** ** Options *)

Record verifyOptions := {
  vo_keyPEM : string;
  vo_org : option string;
  vo_commonName : option string;
  vo_sans : option (list string);
  vo_keyUsages : option (list ExtKeyUsage);
  vo_now : option Z;
}.

Definition no_options : verifyOptions :=
  {| vo_keyPEM := ""; vo_org := None; vo_commonName := None; vo_sans := None;
     vo_keyUsages := None; vo_now := None |}.

Definition VerifyOption := verifyOptions → verifyOptions.

(** [defaults]: the clock and the client-auth usage when unset. *)
Definition defaults (clock : Z) (o : verifyOptions) : verifyOptions :=
  {| vo_keyPEM := vo_keyPEM o; vo_org := vo_org o; vo_commonName := vo_commonName o;
     vo_sans := vo_sans o;
     vo_keyUsages :=
       match vo_keyUsages o with
       | None => Some [ExtKeyUsageClientAuth]
       | u => u
       end;
     vo_now := match vo_now o with None => Some clock | t => t end |}.

Definition WithKeyValidation (k : string) : VerifyOption := λ o,
  {| vo_keyPEM := k; vo_org := vo_org o; vo_commonName := vo_commonName o;
     vo_sans := vo_sans o; vo_keyUsages := vo_keyUsages o; vo_now := vo_now o |}.
Definition WithOValidation (org : string) : VerifyOption := λ o,
  {| vo_keyPEM := vo_keyPEM o; vo_org := Some org; vo_commonName := vo_commonName o;
     vo_sans := vo_sans o; vo_keyUsages := vo_keyUsages o; vo_now := vo_now o |}.
Definition WithCNValidation (cn : string) : VerifyOption := λ o,
  {| vo_keyPEM := vo_keyPEM o; vo_org := vo_org o; vo_commonName := Some cn;
     vo_sans := vo_sans o; vo_keyUsages := vo_keyUsages o; vo_now := vo_now o |}.
(** A nil slice leaves the check off. *)
Definition WithSANsValidation (sans : option (list string)) : VerifyOption := λ o,
  {| vo_keyPEM := vo_keyPEM o; vo_org := vo_org o; vo_commonName := vo_commonName o;
     vo_sans := sans; vo_keyUsages := vo_keyUsages o; vo_now := vo_now o |}.
Definition WithKeyUsages (us : option (list ExtKeyUsage)) : VerifyOption := λ o,
  {| vo_keyPEM := vo_keyPEM o; vo_org := vo_org o; vo_commonName := vo_commonName o;
     vo_sans := vo_sans o; vo_keyUsages := us; vo_now := vo_now o |}.
Definition WithClock (now : Z) : VerifyOption := λ o,
  {| vo_keyPEM := vo_keyPEM o; vo_org := vo_org o; vo_commonName := vo_commonName o;
     vo_sans := vo_sans o; vo_keyUsages := vo_keyUsages o; vo_now := Some now |}.

(** ** Checks *)

Definition parseCertificatePEM (certPEM : string) : x509_cert + pki_error :=
  match pem_decode certPEM with
  | None => inr ErrInvalidPEM
  | Some (ty, bytes) =>
      if bool_decide (ty ≠ "" ∧ ty ≠ "CERTIFICATE") then inr ErrInvalidPEM
      else match ParseCertificate bytes with
           | None => inr ErrInvalidPEM
           | Some c => inl c
           end
  end.

Definition verifySubject (c : x509_cert) (o : verifyOptions) : option pki_error :=
  if match vo_org o with
     | Some org => bool_decide (org ∉ xc_organization c)
     | None => false
     end
  then Some ErrSubjectMismatch
  else if match vo_commonName o with
          | Some cn => bool_decide (xc_commonName c ≠ cn)
          | None => false
          end
  then Some ErrSubjectMismatch
  else None.

Definition certSANs (c : x509_cert) : list string := xc_dnsNames c ++ xc_ips c.

Definition verifySANs (c : x509_cert) (o : verifyOptions) : option pki_error :=
  match vo_sans o with
  | None => None
  | Some sans =>
      if bool_decide (Sort (certSANs c) = Sort sans) then None else Some ErrSANMismatch
  end.

Definition verifyKeyPair (c : x509_cert) (keyPEM : string) : option pki_error :=
  if bool_decide (keyPEM = "") then None
  else match ParsePrivateKeyPEM keyPEM with
       | None => Some ErrKeyMismatch
       | Some pub' =>
           match xc_publicKey c with
           | None => Some ErrKeyMismatch
           | Some pub => if bool_decide (pub = pub') then None else Some ErrKeyMismatch
           end
       end.

Definition verifyValidity (c : x509_cert) (now : Z) : option pki_error :=
  if bool_decide (now < xc_notBefore c)%Z then Some ErrExpired
  else if bool_decide (now > xc_notAfter c)%Z then Some ErrExpired
  else None.

(** The chain is verified at the wall-clock time: [x509.VerifyOptions] is
    built without [CurrentTime]. *)
Definition verifyChain (c : x509_cert) (ca : Certificate) (us : list ExtKeyUsage)
    (clock : Z) : option pki_error :=
  match AppendCertsFromPEM (crt_cert ca) with
  | None => Some ErrUntrusted
  | Some pool => if Verify c pool us clock then None else Some ErrUntrusted
  end.

Definition ParseAndVerifyCertificate (clock : Z) (certPEM : string) (ca : Certificate)
    (opts : list VerifyOption) : x509_cert + pki_error :=
  let options := defaults clock (foldl (λ o f, f o) no_options opts) in
  match parseCertificatePEM certPEM with
  | inr e => inr e
  | inl cert =>
      match verifySubject cert options with
      | Some e => inr e
      | None =>
      match verifySANs cert options with
      | Some e => inr e
      | None =>
      match verifyKeyPair cert (vo_keyPEM options) with
      | Some e => inr e
      | None =>
      match verifyValidity cert (default clock (vo_now options)) with
      | Some e => inr e
      | None =>
      match verifyChain cert ca (default [] (vo_keyUsages options)) clock with
      | Some e => inr e
      | None => inl cert
      end end end end end
  end.

Definition ParseCertificateExpiry (certPEM : string) : Z + pki_error :=
  match parseCertificatePEM certPEM with
  | inr e => inr e
  | inl c => inl (xc_notAfter c)
  end.

(** ** Kubeconfigs *)

Record Kubeconfig := {
  kcv_config : KubeConfig;
  kcv_cluster : Cluster;
  kcv_authInfo : AuthInfo;
}.

Definition KcOption := Kubeconfig → option kubeconfig_error.

Definition WithServerValidation (want : string) : KcOption := λ kc,
  if bool_decide (kcl_server (kcv_cluster kc) ≠ want)
  then Some (ErrServerMismatch (kcl_server (kcv_cluster kc)) want)
  else None.

Definition WithClientCertificateValidation (clock : Z) (ca : Certificate)
    (opts : list VerifyOption) : KcOption := λ kc,
  match ParseAndVerifyCertificate clock (ka_certData (kcv_authInfo kc)) ca
          (WithKeyValidation (ka_keyData (kcv_authInfo kc)) :: opts) with
  | inr e => Some (ErrInvalidClientCert e)
  | inl _ => None
  end.

(** The first option that fails decides. *)
Fixpoint apply_options (opts : list KcOption) (kc : Kubeconfig) : option kubeconfig_error :=
  match opts with
  | [] => None
  | o :: opts' => match o kc with Some e => Some e | None => apply_options opts' kc end
  end.

Definition ParseAndVerifyKubeconfig (raw : string) (opts : list KcOption)
    : Kubeconfig + kubeconfig_error :=
  match LoadKubeconfig raw with
  | None => inr ErrInvalidKubeconfig
  | Some config =>
  match kc_contexts config !! kc_currentContext config with
  | None => inr (ErrMissingContext (kc_currentContext config))
  | Some kctx =>
  match kc_clusters config !! kx_cluster kctx with
  | None => inr (ErrMissingCluster (kx_cluster kctx))
  | Some cluster =>
  match kc_authInfos config !! kx_authInfo kctx with
  | None => inr (ErrMissingAuthInfo (kx_authInfo kctx))
  | Some authInfo =>
      if bool_decide (ka_certData authInfo = "")
      then inr (ErrMissingClientCert (kx_authInfo kctx))
      else
        let kc := {| kcv_config := config; kcv_cluster := cluster; kcv_authInfo := authInfo |} in
        match apply_options opts kc with
        | Some e => inr e
        | None => inl kc
        end
  end end end end.
End pki.

(** ** Specification *)

Section spec.
Context `{X : X509}.

(** What a certificate accepted under options [o] satisfies. *)
Record cert_ok (clock : Z) (o : verifyOptions) (ca : Certificate) (c : x509_cert) : Prop := {
  ok_org org : vo_org o = Some org → org ∈ xc_organization c;
  ok_cn cn : vo_commonName o = Some cn → xc_commonName c = cn;
  ok_sans sans : vo_sans o = Some sans → certSANs c ≡ₚ sans;
  ok_key : vo_keyPEM o ≠ "" →
    ∃ pub, ParsePrivateKeyPEM (vo_keyPEM o) = Some pub ∧ xc_publicKey c = Some pub;
  ok_validity :
    (xc_notBefore c ≤ default clock (vo_now o) ≤ xc_notAfter c)%Z;
  ok_chain : ∃ pool,
    AppendCertsFromPEM (crt_cert ca) = Some pool ∧
    Verify c pool (default [ExtKeyUsageClientAuth] (vo_keyUsages o)) clock = true;
}.

Lemma verifySubject_None c o :
  verifySubject c o = None ↔
  (∀ org, vo_org o = Some org → org ∈ xc_organization c) ∧
  (∀ cn, vo_commonName o = Some cn → xc_commonName c = cn).
Proof.
  unfold verifySubject.
  destruct (vo_org o) as [org|], (vo_commonName o) as [cn|];
    repeat case_bool_decide; naive_solver.
Qed.

(** SANs are compared as multisets. *)
Lemma verifySANs_None c o :
  verifySANs c o = None ↔ ∀ sans, vo_sans o = Some sans → certSANs c ≡ₚ sans.
Proof.
  unfold verifySANs. destruct (vo_sans o) as [sans|]; [|naive_solver].
  case_bool_decide as E; rewrite Sort_eq_iff in E; naive_solver.
Qed.

Lemma verifyKeyPair_None c k :
  verifyKeyPair c k = None ↔
  (k ≠ "" → ∃ pub, ParsePrivateKeyPEM k = Some pub ∧ xc_publicKey c = Some pub).
Proof.
  unfold verifyKeyPair. case_bool_decide; [naive_solver|].
  destruct (ParsePrivateKeyPEM k) as [p|]; [|naive_solver].
  destruct (xc_publicKey c) as [q|]; [|naive_solver].
  case_bool_decide; naive_solver.
Qed.

Lemma verifyValidity_None c now :
  verifyValidity c now = None ↔ (xc_notBefore c ≤ now ≤ xc_notAfter c)%Z.
Proof. unfold verifyValidity. repeat case_bool_decide; naive_solver lia. Qed.

Lemma verifyChain_None c ca us clock :
  verifyChain c ca us clock = None ↔
  ∃ pool, AppendCertsFromPEM (crt_cert ca) = Some pool ∧ Verify c pool us clock = true.
Proof.
  unfold verifyChain. destruct (AppendCertsFromPEM _) as [pool|].
  - destruct (Verify c pool us clock) eqn:E; split; eauto; [done|].
    intros (? & [= <-] & ?). congruence.
  - split; [done|]. by intros (? & ? & _).
Qed.

Lemma certificate_accepted_iff clock certPEM ca (opts : list VerifyOption) c :
  ParseAndVerifyCertificate clock certPEM ca opts = inl c ↔
  parseCertificatePEM certPEM = inl c ∧
  cert_ok clock (foldl (λ o f, f o) no_options opts) ca c.
Proof.
  unfold ParseAndVerifyCertificate.
  set (o := foldl _ _ _). unfold defaults; simpl.
  destruct (parseCertificatePEM certPEM) as [c'|e]; [|naive_solver].
  assert (∀ us, default [] (match vo_keyUsages o with
            | None => Some [ExtKeyUsageClientAuth] | Some u => Some u end) = us →
            us = default [ExtKeyUsageClientAuth] (vo_keyUsages o)) as Hus.
  { intros us <-. by destruct (vo_keyUsages o). }
  rewrite (Hus _ eq_refl).
  assert (default clock (match vo_now o with None => Some clock | Some t => Some t end)
          = default clock (vo_now o)) as -> by (by destruct (vo_now o)).
  split.
  - intros H.
    destruct (verifySubject _ _) eqn:H1; [done|]. destruct (verifySANs _ _) eqn:H2; [done|].
    destruct (verifyKeyPair _ _) eqn:H3; [done|]. destruct (verifyValidity _ _) eqn:H4; [done|].
    destruct (verifyChain _ _ _ _) eqn:H5; [done|]. simplify_eq.
    apply verifySubject_None in H1 as [??]. rewrite verifySANs_None in H2.
    rewrite verifyKeyPair_None in H3. apply verifyValidity_None in H4.
    apply verifyChain_None in H5. split; [done|]. by split.
  - intros [[= ->] [? ? ? ? ? ?]].
    rewrite (proj2 (verifySubject_None _ _)) by done.
    rewrite (proj2 (verifySANs_None _ _)) by done.
    rewrite (proj2 (verifyKeyPair_None _ _)) by done.
    rewrite (proj2 (verifyValidity_None _ _)) by done.
    by rewrite (proj2 (verifyChain_None _ _ _ _)).
Qed.

(** C12.  A certificate is accepted exactly when it parses and passes every
    configured check: organisation, common name, SANs equal as multisets, a
    matching private key, validity at the configured time, and a chain to
    the CA for the configured usages (client authentication by default). *)
Theorem ParseAndVerifyCertificate_ok_iff clock certPEM ca (opts : list VerifyOption) c :
  ParseAndVerifyCertificate clock certPEM ca opts = inl c ↔
  parseCertificatePEM certPEM = inl c ∧
  cert_ok clock (foldl (λ o f, f o) no_options opts) ca c.
Proof. apply certificate_accepted_iff. Qed.

Lemma apply_options_None opts kc :
  apply_options opts kc = None ↔ Forall (λ o : KcOption, o kc = None) opts.
Proof.
  induction opts as [|o opts IH]; simpl; [naive_solver|].
  rewrite Forall_cons, <- IH. destruct (o kc); naive_solver.
Qed.

Lemma kubeconfig_accepted_iff raw (opts : list KcOption) kc :
  ParseAndVerifyKubeconfig raw opts = inl kc ↔
  ∃ kctx,
    LoadKubeconfig raw = Some (kcv_config kc) ∧
    kc_contexts (kcv_config kc) !! kc_currentContext (kcv_config kc) = Some kctx ∧
    kc_clusters (kcv_config kc) !! kx_cluster kctx = Some (kcv_cluster kc) ∧
    kc_authInfos (kcv_config kc) !! kx_authInfo kctx = Some (kcv_authInfo kc) ∧
    ka_certData (kcv_authInfo kc) ≠ "" ∧
    Forall (λ o : KcOption, o kc = None) opts.
Proof.
  unfold ParseAndVerifyKubeconfig. setoid_rewrite <- apply_options_None. split.
  - intros H. repeat case_match; simplify_eq/=. 
    match goal with H : bool_decide _ = false |- _ => apply bool_decide_eq_false in H end.
    naive_solver.
  - intros (kctx & -> & -> & -> & -> & ? & H). rewrite bool_decide_false by done.
    destruct kc; simpl in *. by rewrite H.
Qed.

Lemma WithServerValidation_None want kc :
  WithServerValidation want kc = None ↔ kcl_server (kcv_cluster kc) = want.
Proof. unfold WithServerValidation. case_bool_decide; naive_solver. Qed.

Lemma WithClientCertificateValidation_None clock ca (opts : list VerifyOption) kc :
  WithClientCertificateValidation clock ca opts kc = None ↔
  ∃ x, parseCertificatePEM (ka_certData (kcv_authInfo kc)) = inl x ∧
    cert_ok clock
      (foldl (λ o f, f o) (WithKeyValidation (ka_keyData (kcv_authInfo kc)) no_options) opts)
      ca x.
Proof.
  unfold WithClientCertificateValidation.
  setoid_rewrite <- (certificate_accepted_iff clock _ ca (WithKeyValidation _ :: opts)).
  destruct (ParseAndVerifyCertificate _ _ _ _); naive_solver.
Qed.

(** What a validated kubeconfig guarantees.  With the two checks the
    controllers use, a kubeconfig is accepted exactly when it loads, its current
    context names a cluster that targets the wanted server and a user, and that
    user's client certificate parses and satisfies the certificate checks
    against the CA, its own private key among them.  (With no private key in the
    kubeconfig the key check is skipped: [ok_key] only speaks of a key that is
    there.) *)
Theorem ParseAndVerifyKubeconfig_ok_iff raw want clock ca (opts : list VerifyOption) kc :
  ParseAndVerifyKubeconfig raw
    [WithServerValidation want; WithClientCertificateValidation clock ca opts] = inl kc ↔
  LoadKubeconfig raw = Some (kcv_config kc) ∧
  (∃ kctx,
    kc_contexts (kcv_config kc) !! kc_currentContext (kcv_config kc) = Some kctx ∧
    kc_clusters (kcv_config kc) !! kx_cluster kctx = Some (kcv_cluster kc) ∧
    kc_authInfos (kcv_config kc) !! kx_authInfo kctx = Some (kcv_authInfo kc)) ∧
  kcl_server (kcv_cluster kc) = want ∧
  ka_certData (kcv_authInfo kc) ≠ "" ∧
  ∃ x, parseCertificatePEM (ka_certData (kcv_authInfo kc)) = inl x ∧
    cert_ok clock
      (foldl (λ o f, f o) (WithKeyValidation (ka_keyData (kcv_authInfo kc)) no_options) opts)
      ca x.
Proof.
  rewrite kubeconfig_accepted_iff. setoid_rewrite Forall_cons. setoid_rewrite Forall_singleton.
  setoid_rewrite WithServerValidation_None. setoid_rewrite WithClientCertificateValidation_None.
  naive_solver.
Qed.
End spec.

(** ** A concrete instance of the parameters

    PEM texts and kubeconfigs are the text form of their contents (a signing
    request after the letter r), a private
    key is its own public key, and every certificate within its validity
    window chains to every non-empty CA. *)

(** Records as lists of encoded fields: the size of the code stays linear. *)
Ltac decode_fields :=
  cbv beta iota; repeat (rewrite decode_encode; cbn [mbind option_bind]); reflexivity.

#[export] Instance x509_cert_countable : Countable x509_cert.
Proof.
  refine (inj_countable
    (λ c, [encode (xc_organization c); encode (xc_commonName c); encode (xc_dnsNames c);
           encode (xc_ips c); encode (xc_notBefore c); encode (xc_notAfter c);
           encode (xc_publicKey c)])
    (λ l, match l with
          | [a; b; c; d; e; f; g] =>
              a ← decode a; b ← decode b; c ← decode c; d ← decode d; e ← decode e;
              f ← decode f; g ← decode g; Some (Build_x509_cert a b c d e f g)
          | _ => None
          end) _).
  intros []; decode_fields.
Defined.
#[export] Instance CSR_eq_dec : EqDecision CSR.
Proof. solve_decision. Defined.
#[export] Instance CSR_countable : Countable CSR.
Proof.
  refine (inj_countable
    (λ c, [encode (csr_name c); encode (csr_cn c); encode (csr_o c); encode (csr_hostnames c)])
    (λ l, match l with
          | [a; b; c; d] =>
              a ← decode a; b ← decode b; c ← decode c; d ← decode d; Some (Build_CSR a b c d)
          | _ => None
          end) _).
  intros []; decode_fields.
Defined.
#[export] Instance Cluster_eq_dec : EqDecision Cluster.
Proof. solve_decision. Defined.
#[export] Instance Cluster_countable : Countable Cluster.
Proof.
  refine (inj_countable' (λ c, (kcl_server c, kcl_caData c)) (λ '(a, b), Build_Cluster a b) _).
  by intros [].
Defined.
#[export] Instance AuthInfo_eq_dec : EqDecision AuthInfo.
Proof. solve_decision. Defined.
#[export] Instance AuthInfo_countable : Countable AuthInfo.
Proof.
  refine (inj_countable' (λ c, (ka_certData c, ka_keyData c, ka_token c))
    (λ '(a, b, c), Build_AuthInfo a b c) _).
  by intros [].
Defined.
#[export] Instance Context_eq_dec : EqDecision Context.
Proof. solve_decision. Defined.
#[export] Instance Context_countable : Countable Context.
Proof.
  refine (inj_countable' (λ c, (kx_cluster c, kx_authInfo c)) (λ '(a, b), Build_Context a b) _).
  by intros [].
Defined.
#[export] Instance KubeConfig_eq_dec : EqDecision KubeConfig.
Proof. solve_decision. Defined.
#[export] Instance KubeConfig_countable : Countable KubeConfig.
Proof.
  refine (inj_countable
    (λ c, [encode (kc_clusters c); encode (kc_authInfos c); encode (kc_contexts c);
           encode (kc_currentContext c)])
    (λ l, match l with
          | [a; b; c; d] =>
              a ← decode a; b ← decode b; c ← decode c; d ← decode d; Some (Build_KubeConfig a b c d)
          | _ => None
          end) _).
  intros []; decode_fields.
Defined.

Definition ref_x509 : X509 := {|
  pem_decode s :=
    match s with
    | EmptyString => None
    | String c s' =>
        if bool_decide (c = Ascii.ascii_of_nat 114) then Some ("CERTIFICATE REQUEST", s')
        else Some ("CERTIFICATE", s)
    end;
  ParseCertificate := dec;
  ParsesCertificatePEM s := bool_decide (s ≠ "");
  ParsePrivateKeyPEM s := if bool_decide (s = "") then None else Some s;
  CertPool := string;
  AppendCertsFromPEM s := if bool_decide (s = "") then None else Some s;
  Verify c _ _ t := bool_decide (xc_notBefore c ≤ t ≤ xc_notAfter c)%Z;
  csr_info := dec;
  ParseCertificateRequest := dec;
  LoadKubeconfig := dec;
  WriteKubeconfig c := Some (enc c);
|}.

(** A kubeconfig whose user has a certificate but no private key passes the
    checks. *)
Example kubeconfig_without_key_accepted :
  let cert := {| xc_organization := ["system:masters"]; xc_commonName := "admin";
    xc_dnsNames := []; xc_ips := []; xc_notBefore := 0; xc_notAfter := 10;
    xc_publicKey := Some "k" |} in
  let kc := {| kc_clusters := {[ "c" := {| kcl_server := "https://s"; kcl_caData := "ca" |} ]};
    kc_authInfos := {[ "u" := {| ka_certData := enc cert; ka_keyData := ""; ka_token := "" |} ]};
    kc_contexts := {[ "x" := {| kx_cluster := "c"; kx_authInfo := "u" |} ]};
    kc_currentContext := "x" |} in
  match ParseAndVerifyKubeconfig (X := ref_x509) (enc kc)
          [WithServerValidation "https://s";
           WithClientCertificateValidation (X := ref_x509) 5
             {| crt_key := "k"; crt_cert := "ca" |} []] with
  | inl _ => True
  | inr _ => False
  end.
Proof. vm_compute. exact I. Qed.
