(* ===== verification/World.v ===== *)
(** * The outside world

    What the handlers call: the Kubernetes API server, the certificate
    authority library, the clock, the random source and the event recorder.
    [op] is the signature of these calls, [api_spec] the interface the
    handlers are verified against, [mem] an executable in-memory service.

    The interface is permissive: every call may fail with an unspecified error,
    the cluster may change between two calls as far as the [rely] of the
    environment says, and the server may complete an object it stores
    ([kadmit]).  The environment also says which writes are allowed at which
    state, so that a proof against it shows that no other write is performed. *)

From S2P Require Import Prelude Effects Kube Api Pki.
From stdpp Require Import options.

(** ** The cluster *)

Record cluster := {
  c_runtimes : gmap NamespacedName Runtime;
  c_secrets : gmap NamespacedName Secret;
  c_configMaps : gmap NamespacedName ConfigMap;
  c_services : gmap NamespacedName Service;
  c_deployments : gmap NamespacedName Deployment;
  c_tokens : gmap NamespacedName WorkerJoinToken;
  c_charts : gmap NamespacedName HelmChart;
  c_jobs : gmap NamespacedName Job;
  c_accounts : gmap NamespacedName ServiceAccount;
  c_bindings : gmap NamespacedName ClusterRoleBinding;
  c_csrs : gmap NamespacedName CertificateSigningRequest;
  c_nodes : gmap NamespacedName Node;
  c_slices : gmap NamespacedName EndpointSlice;
  c_crds : gmap NamespacedName CustomResourceDefinition;
  (** Wall clock, in seconds. *)
  c_now : Z;
  (** Reasons of the events recorded so far, latest first. *)
  c_events : list string;
}.

Definition empty_cluster : cluster := {|
  c_runtimes := ∅; c_secrets := ∅; c_configMaps := ∅; c_services := ∅; c_deployments := ∅;
  c_tokens := ∅; c_charts := ∅; c_jobs := ∅; c_accounts := ∅; c_bindings := ∅; c_csrs := ∅;
  c_nodes := ∅; c_slices := ∅; c_crds := ∅; c_now := 0; c_events := [] |}.

(** Metadata as stored: the server owns the UID and the generation. *)
Definition meta_admit (m m' : ObjectMeta) : Prop :=
  om_name m' = om_name m ∧ om_namespace m' = om_namespace m ∧
  om_labels m' = om_labels m ∧ om_annotations m' = om_annotations m ∧
  om_owners m' = om_owners m ∧ om_finalizers m' = om_finalizers m ∧
  om_deletion m' = om_deletion m.

Lemma meta_admit_refl m : meta_admit m m.
Proof. by unfold meta_admit. Qed.

(** A kind of object: where the cluster keeps it and how the server stores it. *)
Class Kind (O : Type) := {
  kmap : cluster → gmap NamespacedName O;
  kset : gmap NamespacedName O → cluster → cluster;
  kmeta : O → ObjectMeta;
  (** [kadmit o o']: the server may store [o'] when it is sent [o]. *)
  kadmit : O → O → Prop;
  (** One object the server may store when it is sent [o]. *)
  kstore : O → O;
  (** The object [o'] with the status subresource of [o]. *)
  kstatus : O → O → O;
  kadmit_kstore o : kadmit o (kstore o);
  kmap_kset m s : kmap (kset m s) = m;
}.

#[export] Instance kind_Runtime : Kind Runtime.
Proof.
  refine {|
  kmap := c_runtimes;
  kset := λ m s, {|
    c_runtimes := m; c_secrets := c_secrets s; c_configMaps := c_configMaps s;
    c_services := c_services s; c_deployments := c_deployments s; c_tokens := c_tokens s;
    c_charts := c_charts s; c_jobs := c_jobs s; c_accounts := c_accounts s;
    c_bindings := c_bindings s; c_csrs := c_csrs s; c_nodes := c_nodes s; c_slices := c_slices s; c_crds := c_crds s; c_now := c_now s;
    c_events := c_events s |};
  kmeta := rt_meta;
  kadmit := λ o o', meta_admit (rt_meta o) (rt_meta o') ∧
    rt_spec o' = rt_spec o ∧ rt_status o' = rt_status o;
  kstore := λ o, o;
  kstatus := λ o o', with_status o' (rt_status o);
  |}; [|done].
  intros o. repeat split; try apply meta_admit_refl.
Defined.

#[export] Instance kind_Secret : Kind Secret.
Proof.
  refine {|
  kmap := c_secrets;
  kset := λ m s, {|
    c_runtimes := c_runtimes s; c_secrets := m; c_configMaps := c_configMaps s;
    c_services := c_services s; c_deployments := c_deployments s; c_tokens := c_tokens s;
    c_charts := c_charts s; c_jobs := c_jobs s; c_accounts := c_accounts s;
    c_bindings := c_bindings s; c_csrs := c_csrs s; c_nodes := c_nodes s; c_slices := c_slices s; c_crds := c_crds s; c_now := c_now s;
    c_events := c_events s |};
  kmeta := sec_meta;
  kadmit := λ o o', meta_admit (sec_meta o) (sec_meta o') ∧
    sec_type o' = sec_type o ∧ sec_stringData o' = None ∧
    (* [StringData] is write-only: the server merges it into [Data]. *)
    sem_eq (sec_data o') (Some (entries (sec_stringData o) ∪ entries (sec_data o)));
  kstore := λ o, {| sec_meta := sec_meta o; sec_type := sec_type o;
    sec_data := Some (entries (sec_stringData o) ∪ entries (sec_data o));
    sec_stringData := None |};
  kstatus := λ o o', o';
  |}; [|done].
  intros o. repeat split; try apply meta_admit_refl.
Defined.

#[export] Instance kind_ConfigMap : Kind ConfigMap.
Proof.
  refine {|
  kmap := c_configMaps;
  kset := λ m s, {|
    c_runtimes := c_runtimes s; c_secrets := c_secrets s; c_configMaps := m;
    c_services := c_services s; c_deployments := c_deployments s; c_tokens := c_tokens s;
    c_charts := c_charts s; c_jobs := c_jobs s; c_accounts := c_accounts s;
    c_bindings := c_bindings s; c_csrs := c_csrs s; c_nodes := c_nodes s; c_slices := c_slices s; c_crds := c_crds s; c_now := c_now s;
    c_events := c_events s |};
  kmeta := cm_meta;
  kadmit := λ o o', meta_admit (cm_meta o) (cm_meta o') ∧
    sem_eq (cm_data o') (cm_data o);
  kstore := λ o, o;
  kstatus := λ o o', o';
  |}; [|done].
  intros o. repeat split; try apply meta_admit_refl.
Defined.

#[export] Instance kind_Service : Kind Service.
Proof.
  refine {|
  kmap := c_services;
  kset := λ m s, {|
    c_runtimes := c_runtimes s; c_secrets := c_secrets s; c_configMaps := c_configMaps s;
    c_services := m; c_deployments := c_deployments s; c_tokens := c_tokens s;
    c_charts := c_charts s; c_jobs := c_jobs s; c_accounts := c_accounts s;
    c_bindings := c_bindings s; c_csrs := c_csrs s; c_nodes := c_nodes s; c_slices := c_slices s; c_crds := c_crds s; c_now := c_now s;
    c_events := c_events s |};
  kmeta := svc_meta;
  kadmit := λ o o', meta_admit (svc_meta o) (svc_meta o') ∧
    ss_selector (svc_spec o') = ss_selector (svc_spec o);
  kstore := λ o, o;
  kstatus := λ o o', o';
  |}; [|done].
  intros o. repeat split; try apply meta_admit_refl.
Defined.

#[export] Instance kind_Deployment : Kind Deployment.
Proof.
  refine {|
  kmap := c_deployments;
  kset := λ m s, {|
    c_runtimes := c_runtimes s; c_secrets := c_secrets s; c_configMaps := c_configMaps s;
    c_services := c_services s; c_deployments := m; c_tokens := c_tokens s;
    c_charts := c_charts s; c_jobs := c_jobs s; c_accounts := c_accounts s;
    c_bindings := c_bindings s; c_csrs := c_csrs s; c_nodes := c_nodes s; c_slices := c_slices s; c_crds := c_crds s; c_now := c_now s;
    c_events := c_events s |};
  kmeta := dep_meta;
  kadmit := λ o o', meta_admit (dep_meta o) (dep_meta o') ∧
    ds_selector (dep_spec o') = ds_selector (dep_spec o);
  kstore := λ o, o;
  kstatus := λ o o', o';
  |}; [|done].
  intros o. repeat split; try apply meta_admit_refl.
Defined.

#[export] Instance kind_WorkerJoinToken : Kind WorkerJoinToken.
Proof.
  refine {|
  kmap := c_tokens;
  kset := λ m s, {|
    c_runtimes := c_runtimes s; c_secrets := c_secrets s; c_configMaps := c_configMaps s;
    c_services := c_services s; c_deployments := c_deployments s; c_tokens := m;
    c_charts := c_charts s; c_jobs := c_jobs s; c_accounts := c_accounts s;
    c_bindings := c_bindings s; c_csrs := c_csrs s; c_nodes := c_nodes s; c_slices := c_slices s; c_crds := c_crds s; c_now := c_now s;
    c_events := c_events s |};
  kmeta := wj_meta;
  kadmit := λ o o', meta_admit (wj_meta o) (wj_meta o') ∧
    wj_ttl o' = wj_ttl o ∧ wj_status o' = wj_status o;
  kstore := λ o, o;
  kstatus := λ o o', {| wj_meta := wj_meta o'; wj_ttl := wj_ttl o'; wj_status := wj_status o |};
  |}; [|done].
  intros o. repeat split; try apply meta_admit_refl.
Defined.

#[export] Instance kind_HelmChart : Kind HelmChart.
Proof.
  refine {|
  kmap := c_charts;
  kset := λ m s, {|
    c_runtimes := c_runtimes s; c_secrets := c_secrets s; c_configMaps := c_configMaps s;
    c_services := c_services s; c_deployments := c_deployments s; c_tokens := c_tokens s;
    c_charts := m; c_jobs := c_jobs s; c_accounts := c_accounts s; c_bindings := c_bindings s;
    c_csrs := c_csrs s; c_nodes := c_nodes s; c_slices := c_slices s; c_crds := c_crds s; c_now := c_now s; c_events := c_events s |};
  kmeta := hc_meta;
  kadmit := λ o o', meta_admit (hc_meta o) (hc_meta o') ∧
    hc_spec o' = hc_spec o ∧ hc_conditions o' = hc_conditions o;
  kstore := λ o, o;
  kstatus := λ o o', {| hc_meta := hc_meta o'; hc_spec := hc_spec o'; hc_conditions := hc_conditions o |};
  |}; [|done].
  intros o. repeat split; try apply meta_admit_refl.
Defined.

#[export] Instance kind_Job : Kind Job.
Proof.
  refine {|
  kmap := c_jobs;
  kset := λ m s, {|
    c_runtimes := c_runtimes s; c_secrets := c_secrets s; c_configMaps := c_configMaps s;
    c_services := c_services s; c_deployments := c_deployments s; c_tokens := c_tokens s;
    c_charts := c_charts s; c_jobs := m; c_accounts := c_accounts s;
    c_bindings := c_bindings s; c_csrs := c_csrs s; c_nodes := c_nodes s; c_slices := c_slices s; c_crds := c_crds s; c_now := c_now s;
    c_events := c_events s |};
  kmeta := job_meta;
  kadmit := λ o o', meta_admit (job_meta o) (job_meta o') ∧
    job_spec o' = job_spec o ∧ job_conditions o' = job_conditions o;
  kstore := λ o, o;
  kstatus := λ o o', o';
  |}; [|done].
  intros o. repeat split; try apply meta_admit_refl.
Defined.

#[export] Instance kind_ServiceAccount : Kind ServiceAccount.
Proof.
  refine {|
  kmap := c_accounts;
  kset := λ m s, {|
    c_runtimes := c_runtimes s; c_secrets := c_secrets s; c_configMaps := c_configMaps s;
    c_services := c_services s; c_deployments := c_deployments s; c_tokens := c_tokens s;
    c_charts := c_charts s; c_jobs := c_jobs s; c_accounts := m; c_bindings := c_bindings s;
    c_csrs := c_csrs s; c_nodes := c_nodes s; c_slices := c_slices s; c_crds := c_crds s; c_now := c_now s; c_events := c_events s |};
  kmeta := sa_meta;
  kadmit := λ o o', meta_admit (sa_meta o) (sa_meta o');
  kstore := λ o, o;
  kstatus := λ o o', o';
  |}; [|done].
  intros o. repeat split; try apply meta_admit_refl.
Defined.

#[export] Instance kind_ClusterRoleBinding : Kind ClusterRoleBinding.
Proof.
  refine {|
  kmap := c_bindings;
  kset := λ m s, {|
    c_runtimes := c_runtimes s; c_secrets := c_secrets s; c_configMaps := c_configMaps s;
    c_services := c_services s; c_deployments := c_deployments s; c_tokens := c_tokens s;
    c_charts := c_charts s; c_jobs := c_jobs s; c_accounts := c_accounts s; c_bindings := m;
    c_csrs := c_csrs s; c_nodes := c_nodes s; c_slices := c_slices s; c_crds := c_crds s; c_now := c_now s; c_events := c_events s |};
  kmeta := crb_meta;
  kadmit := λ o o', meta_admit (crb_meta o) (crb_meta o') ∧
    crb_roleName o' = crb_roleName o ∧ crb_subjects o' = crb_subjects o;
  kstore := λ o, o;
  kstatus := λ o o', o';
  |}; [|done].
  intros o. repeat split; try apply meta_admit_refl.
Defined.

#[export] Instance kind_CertificateSigningRequest : Kind CertificateSigningRequest.
Proof.
  refine {|
  kmap := c_csrs;
  kset := λ m s, {|
    c_runtimes := c_runtimes s; c_secrets := c_secrets s; c_configMaps := c_configMaps s;
    c_services := c_services s; c_deployments := c_deployments s; c_tokens := c_tokens s;
    c_charts := c_charts s; c_jobs := c_jobs s; c_accounts := c_accounts s;
    c_bindings := c_bindings s; c_csrs := m; c_nodes := c_nodes s; c_slices := c_slices s; c_crds := c_crds s; c_now := c_now s;
    c_events := c_events s |};
  kmeta := ksr_meta;
  kadmit := λ o o', meta_admit (ksr_meta o) (ksr_meta o') ∧
    ksr_username o' = ksr_username o ∧ ksr_request o' = ksr_request o ∧
    ksr_conditions o' = ksr_conditions o;
  kstore := λ o, o;
  kstatus := λ o o', {| ksr_meta := ksr_meta o'; ksr_username := ksr_username o';
    ksr_signerName := ksr_signerName o'; ksr_request := ksr_request o';
    ksr_conditions := ksr_conditions o |};
  |}; [|done].
  intros o. repeat split; try apply meta_admit_refl.
Defined.

#[export] Instance kind_Node : Kind Node.
Proof.
  refine {|
  kmap := c_nodes;
  kset := λ m s, {|
    c_runtimes := c_runtimes s; c_secrets := c_secrets s; c_configMaps := c_configMaps s;
    c_services := c_services s; c_deployments := c_deployments s; c_tokens := c_tokens s;
    c_charts := c_charts s; c_jobs := c_jobs s; c_accounts := c_accounts s;
    c_bindings := c_bindings s; c_csrs := c_csrs s; c_nodes := m; c_slices := c_slices s; c_crds := c_crds s; c_now := c_now s;
    c_events := c_events s |};
  kmeta := node_meta;
  kadmit := λ o o', meta_admit (node_meta o) (node_meta o') ∧
    node_addresses o' = node_addresses o;
  kstore := λ o, o;
  kstatus := λ o o', o';
  |}; [|done].
  intros o. repeat split; try apply meta_admit_refl.
Defined.

#[export] Instance kind_EndpointSlice : Kind EndpointSlice.
Proof.
  refine {|
  kmap := c_slices;
  kset := λ m s, {|
    c_runtimes := c_runtimes s; c_secrets := c_secrets s; c_configMaps := c_configMaps s;
    c_services := c_services s; c_deployments := c_deployments s; c_tokens := c_tokens s;
    c_charts := c_charts s; c_jobs := c_jobs s; c_accounts := c_accounts s;
    c_bindings := c_bindings s; c_csrs := c_csrs s; c_nodes := c_nodes s; c_slices := m; c_crds := c_crds s; c_now := c_now s;
    c_events := c_events s |};
  kmeta := es_meta;
  kadmit := λ o o', meta_admit (es_meta o) (es_meta o') ∧
    es_addressType o' = es_addressType o ∧ es_endpoints o' = es_endpoints o ∧
    es_ports o' = es_ports o;
  kstore := λ o, o;
  kstatus := λ o o', o';
  |}; [|done].
  intros o. repeat split; try apply meta_admit_refl.
Defined.

#[export] Instance kind_CustomResourceDefinition : Kind CustomResourceDefinition.
Proof.
  refine {|
  kmap := c_crds;
  kset := λ m s, {|
    c_runtimes := c_runtimes s; c_secrets := c_secrets s; c_configMaps := c_configMaps s;
    c_services := c_services s; c_deployments := c_deployments s; c_tokens := c_tokens s;
    c_charts := c_charts s; c_jobs := c_jobs s; c_accounts := c_accounts s;
    c_bindings := c_bindings s; c_csrs := c_csrs s; c_nodes := c_nodes s; c_slices := c_slices s; c_crds := m; c_now := c_now s;
    c_events := c_events s |};
  kmeta := crd_meta;
  kadmit := λ o o', meta_admit (crd_meta o) (crd_meta o') ∧
    crd_spec o' = crd_spec o;
  kstore := λ o, o;
  kstatus := λ o o', o';
  |}; [|done].
  intros o. repeat split; try apply meta_admit_refl.
Defined.

(** What a list request selects. *)
Definition selected (ns : option string) (sel : option (string * string)) (m : ObjectMeta) : Prop :=
  from_option (λ n, om_namespace m = n) True ns ∧
  from_option (λ lv, mget (om_labels m) lv.1 = Some lv.2) True sel.

#[export] Instance selected_dec ns sel m : Decision (selected ns sel m).
Proof. unfold selected. destruct ns, sel; simpl; apply _. Defined.

(** What a listing holds. *)
Lemma elem_of_listed {O} {K : Kind O} ns sel (os : list O) (o : O) s :
  os ≡ₚ filter (λ o, selected ns sel (kmeta o)) (map_to_list (kmap s)).*2 →
  o ∈ os ↔ selected ns sel (kmeta o) ∧ ∃ n, kmap s !! n = Some o.
Proof.
  intros ->. rewrite list_elem_of_filter, list_elem_of_fmap. f_equiv. split.
  - intros ([n o'] & -> & Hin%elem_of_map_to_list). by exists n.
  - intros [n Hn]. exists (n, o). split; [done|]. by apply elem_of_map_to_list.
Qed.

(** ** Calls *)

Inductive op : Type → Type :=
| Get {O} (K : Kind O) (n : NamespacedName) : op (O + api_error)
| Create {O} (K : Kind O) (o : O) : op (O + api_error)
| Update {O} (K : Kind O) (o : O) : op (O + api_error)
| UpdateStatus {O} (K : Kind O) (o : O) : op (O + api_error)
| Delete {O} (K : Kind O) (n : NamespacedName) : op (option api_error)
(** [List], in one namespace or in all, with a label selector or without. *)
| ListObjects {O} (K : Kind O) (ns : option string) (sel : option (string * string)) :
    op (list O + api_error)
(** [controllerutil.CreateOrUpdate] of a Secret with the mutation [f]. *)
| CreateOrUpdate (n : NamespacedName) (f : Secret → Secret + string) : op (Secret + api_error)
(** cfssl: [initca.New], [csr.Generator.ProcessRequest] (the request and the
    new private key), and [local.NewSigner] followed by [Sign]. *)
| InitCA : op (Certificate + string)
| ProcessRequest (r : CSR) : op (string * string + string)
| Sign (ca : Certificate) (csr : string) (hosts : list string) (expiry : Z) : op (string + string)
| Now : op Z
(** [rand.Read] of the given number of bytes, in hexadecimal. *)
| RandomHex (n : nat) : op (string + string)
(** The order in which a [range] visits the entries of a map. *)
| MapOrder (m : gmap string string) : op (list (string * string))
(** [Recorder.Eventf], by its reason. *)
| Event (reason : string) : op unit
(** A run-time panic: nothing follows. *)
| Panic : op Empty_set.

Definition panic {A} : prog op A := Vis Panic (λ e : Empty_set, match e with end).

Definition get {O} {K : Kind O} (n : NamespacedName) : prog op (O + api_error) := trigger (Get K n).
Definition create {O} {K : Kind O} (o : O) : prog op (O + api_error) := trigger (Create K o).
Definition update {O} {K : Kind O} (o : O) : prog op (O + api_error) := trigger (Update K o).
Definition update_status {O} {K : Kind O} (o : O) : prog op (O + api_error) :=
  trigger (UpdateStatus K o).
Definition delete_obj (O : Type) {K : Kind O} (n : NamespacedName) : prog op (option api_error) :=
  trigger (Delete K n).
Definition event (reason : string) : prog op unit := trigger (Event reason).

(** ** The interface *)

Inductive write :=
| WCreate {O} (K : Kind O) (o : O)
| WUpdate {O} (K : Kind O) (o : O)
| WStatus {O} (K : Kind O) (o : O)
| WDelete {O} (K : Kind O) (n : NamespacedName).

(** The environment a handler runs in. *)
Record env := {
  (** How the cluster may change between two calls. *)
  rely : cluster → cluster → Prop;
  (** The writes the handler may perform. *)
  allowed : write → cluster → Prop;
  (** Whether the handler may panic. *)
  may_panic : Prop;
}.

Definition kput {O} {K : Kind O} (o : O) (s : cluster) : cluster :=
  kset (<[meta_key (kmeta o) := o]> (kmap s)) s.
Definition kdel (O : Type) {K : Kind O} (n : NamespacedName) (s : cluster) : cluster :=
  kset (delete n (kmap s)) s.

Definition record_event (r : string) (s : cluster) : cluster := {|
  c_runtimes := c_runtimes s; c_secrets := c_secrets s; c_configMaps := c_configMaps s;
  c_services := c_services s; c_deployments := c_deployments s; c_tokens := c_tokens s;
  c_charts := c_charts s; c_jobs := c_jobs s; c_accounts := c_accounts s;
  c_bindings := c_bindings s; c_csrs := c_csrs s; c_nodes := c_nodes s; c_slices := c_slices s; c_crds := c_crds s; c_now := c_now s;
  c_events := r :: c_events s |}.

(** An object whose deletion was requested disappears with its last finalizer. *)
Definition gone (m : ObjectMeta) : bool :=
  bool_decide (is_Some (om_deletion m)) && bool_decide (om_finalizers m = []).

(** The object literal [CreateOrUpdate] is given. *)
Definition empty_secret (n : NamespacedName) : Secret :=
  {| sec_meta := new_meta (nn_name n) (nn_namespace n) None None; sec_type := "";
     sec_data := None; sec_stringData := None |}.

Section interface.
Context `{X : X509} (e : env).

(** The signer dates a certificate back by five minutes from the current minute. *)
Definition signing_backdate : Z := 330.

(** [x] is a certificate for [r] and key [pub], valid at [now]: an empty organization is
    left out, the validity starts and ends up to [signing_backdate] seconds early,
    and the certificate chains to [ca] for client authentication as long as both are valid. *)
Definition issued (ca : Certificate) (r : CSR) (pub : string) (hosts : list string)
    (now expiry : Z) (x : x509_cert) : Prop :=
  xc_commonName x = csr_cn r ∧
  xc_organization x = (if bool_decide (csr_o r = "") then [] else [csr_o r]) ∧
  xc_publicKey x = Some pub ∧ (hosts = [] → certSANs x = []) ∧
  (now - signing_backdate ≤ xc_notBefore x ≤ now)%Z ∧
  (now + expiry - signing_backdate ≤ xc_notAfter x ≤ now + expiry)%Z ∧
  ∃ pool, AppendCertsFromPEM (crt_cert ca) = Some pool ∧
    ∀ t, (xc_notBefore x ≤ t ≤ xc_notAfter x)%Z →
      (∀ y, parseCertificatePEM (crt_cert ca) = inl y → xc_notBefore y ≤ t ≤ xc_notAfter y)%Z →
      Verify x pool [ExtKeyUsageClientAuth] t = true.

Definition api_spec : op_spec op cluster := λ R o,
  match o in op R return cluster → (R → cluster → Prop) → Prop with
  | Get K n => λ s Q, ∀ s1, rely e s s1 →
      (∀ m, Q (inr (OtherError m)) s1) ∧
      match kmap s1 !! n with
      | Some o => Q (inl o) s1
      | None => Q (inr NotFound) s1
      end
  | Create K o => λ s Q, ∀ s1, rely e s s1 →
      allowed e (WCreate K o) s1 ∧
      (∀ m, Q (inr (OtherError m)) s1) ∧
      match kmap s1 !! meta_key (kmeta o) with
      | Some _ => Q (inr AlreadyExists) s1
      | None => ∀ o', kadmit o o' → Q (inl o') (kput o' s1)
      end
  | @Update T K o => λ s Q, ∀ s1, rely e s s1 →
      allowed e (WUpdate K o) s1 ∧
      (∀ m, Q (inr (OtherError m)) s1) ∧
      match kmap s1 !! meta_key (kmeta o) with
      | None => Q (inr NotFound) s1
      | Some _ => ∀ o', kadmit o o' →
          Q (inl o') (if gone (kmeta o') then kdel T (meta_key (kmeta o')) s1 else kput o' s1)
      end
  | UpdateStatus K o => λ s Q, ∀ s1, rely e s s1 →
      allowed e (WStatus K o) s1 ∧
      (∀ m, Q (inr (OtherError m)) s1) ∧
      match kmap s1 !! meta_key (kmeta o) with
      | None => Q (inr NotFound) s1
      | Some o0 => Q (inl (kstatus o o0)) (kput (kstatus o o0) s1)
      end
  | @Delete T K n => λ s Q, ∀ s1, rely e s s1 →
      allowed e (WDelete K n) s1 ∧
      (∀ m, Q (Some (OtherError m)) s1) ∧
      match kmap s1 !! n with
      | None => Q (Some NotFound) s1
      | Some o =>
          if bool_decide (om_finalizers (kmeta o) = []) then Q None (kdel T n s1)
          else ∀ o', om_deletion (kmeta o') ≠ None →
               meta_key (kmeta o') = n → Q None (kput o' s1)
      end
  | ListObjects K ns sel => λ s Q, ∀ s1, rely e s s1 →
      (∀ m, Q (inr (OtherError m)) s1) ∧
      ∀ os, os ≡ₚ filter (λ o, selected ns sel (kmeta o)) (map_to_list (kmap s1)).*2 →
        Q (inl os) s1
  | CreateOrUpdate n f => λ s Q, ∀ s1, rely e s s1 →
      (∀ m, Q (inr (OtherError m)) s1) ∧
      match c_secrets s1 !! n with
      | None => ∀ o, f (empty_secret n) = inl o →
          allowed e (WCreate kind_Secret o) s1 ∧
          ∀ o', kadmit o o' → Q (inl o') (kput o' s1)
      | Some old => ∀ o, f old = inl o →
          (o = old → Q (inl o) s1) ∧
          (o ≠ old → allowed e (WUpdate kind_Secret o) s1 ∧
             ∀ o', kadmit o o' →
               Q (inl o') (if gone (sec_meta o') then kdel Secret (meta_key (sec_meta o')) s1
                           else kput o' s1))
      end
  | InitCA => λ s Q, (∀ m, Q (inr m) s) ∧
      ∀ ca, is_Some (AppendCertsFromPEM (crt_cert ca)) → Q (inl ca) s
  | ProcessRequest r => λ s Q, (∀ m, Q (inr m) s) ∧
      ∀ csr key pub, csr_info csr = Some (r, pub) → ParsePrivateKeyPEM key = Some pub →
        Q (inl (csr, key)) s
  | Sign ca csr hosts expiry => λ s Q, (∀ m, Q (inr m) s) ∧
      ∀ r pub cert x, csr_info csr = Some (r, pub) → cert ≠ "" →
        parseCertificatePEM cert = inl x → issued ca r pub hosts (c_now s) expiry x →
        Q (inl cert) s
  | Now => λ s Q, ∀ s1, rely e s s1 → Q (c_now s1) s1
  | RandomHex n => λ s Q, (∀ m, Q (inr m) s) ∧ ∀ h, String.length h = 2 * n → Q (inl h) s
  | MapOrder m => λ s Q, ∀ l, l ≡ₚ map_to_list m → Q l s
  | Event r => λ s Q, Q tt (record_event r s)
  | Panic => λ s Q, may_panic e
  end.

#[global] Instance api_spec_mono : Monotone api_spec.
Proof.
  intros R o s Q Q' HQ H.
  destruct o; simpl in *; try (intros s1 Hs; specialize (H s1 Hs)); try tauto; auto;
    repeat match goal with
    | |- _ ∧ _ => split
    | H : _ ∧ _ |- _ => destruct H
    | |- context [match ?x with _ => _ end] => destruct x
    end; try (intros o Ho; destruct (H0 o Ho)); repeat (split || intros);
    try match goal with H : ?P → _ ∧ _, H' : ?P |- _ => destruct (H H') end; eauto.
Qed.
End interface.

(** ** Rules for the calls

    [Inv] holds now and the environment keeps it; then it holds after every
    call, with what the answer says. *)

Section rules.
Context `{X : X509} (e : env) (Inv : cluster → Prop).
Context (Hrely : ∀ s s', rely e s s' → Inv s → Inv s').

Lemma wp_get {O A} {K : Kind O} n s (k : O + api_error → prog op A) Q :
  Inv s →
  (∀ s1 m, Inv s1 → wp (api_spec e) (k (inr (OtherError m))) s1 Q) →
  (∀ s1, Inv s1 → kmap s1 !! n = None → wp (api_spec e) (k (inr NotFound)) s1 Q) →
  (∀ s1 o, Inv s1 → kmap s1 !! n = Some o → wp (api_spec e) (k (inl o)) s1 Q) →
  wp (api_spec e) (bind (get n) k) s Q.
Proof using All.
  intros Hs He Hn Ho s1 Hr. split; [eauto|].
  destruct (kmap s1 !! n) eqn:E; eauto.
Qed.

Lemma wp_create {O A} {K : Kind O} o s (k : O + api_error → prog op A) Q :
  Inv s →
  (∀ s1, Inv s1 → allowed e (WCreate K o) s1) →
  (∀ s1 m, Inv s1 → wp (api_spec e) (k (inr (OtherError m))) s1 Q) →
  (∀ s1, Inv s1 → wp (api_spec e) (k (inr AlreadyExists)) s1 Q) →
  (∀ s1 o', Inv s1 → kmap s1 !! meta_key (kmeta o) = None → kadmit o o' →
     wp (api_spec e) (k (inl o')) (kput o' s1) Q) →
  wp (api_spec e) (bind (create o) k) s Q.
Proof using All.
  intros Hs Ha He Hx Ho s1 Hr. split; [eauto|]. split; [eauto|].
  destruct (kmap s1 !! _) eqn:E; eauto.
Qed.

Lemma wp_update {O A} {K : Kind O} o s (k : O + api_error → prog op A) Q :
  Inv s →
  (∀ s1, Inv s1 → allowed e (WUpdate K o) s1) →
  (∀ s1 m, Inv s1 → wp (api_spec e) (k (inr (OtherError m))) s1 Q) →
  (∀ s1, Inv s1 → wp (api_spec e) (k (inr NotFound)) s1 Q) →
  (∀ s1 o0 o', Inv s1 → kmap s1 !! meta_key (kmeta o) = Some o0 → kadmit o o' →
     wp (api_spec e) (k (inl o'))
       (if gone (kmeta o') then kdel O (meta_key (kmeta o')) s1 else kput o' s1) Q) →
  wp (api_spec e) (bind (update o) k) s Q.
Proof using All.
  intros Hs Ha He Hx Ho s1 Hr. split; [eauto|]. split; [eauto|].
  destruct (kmap s1 !! _) eqn:E; eauto.
Qed.

Lemma wp_update_status {O A} {K : Kind O} o s (k : O + api_error → prog op A) Q :
  Inv s →
  (∀ s1, Inv s1 → allowed e (WStatus K o) s1) →
  (∀ s1 m, Inv s1 → wp (api_spec e) (k (inr (OtherError m))) s1 Q) →
  (∀ s1, Inv s1 → wp (api_spec e) (k (inr NotFound)) s1 Q) →
  (∀ s1 o0, Inv s1 → kmap s1 !! meta_key (kmeta o) = Some o0 →
     wp (api_spec e) (k (inl (kstatus o o0))) (kput (kstatus o o0) s1) Q) →
  wp (api_spec e) (bind (update_status o) k) s Q.
Proof using All.
  intros Hs Ha He Hx Ho s1 Hr. split; [eauto|]. split; [eauto|].
  destruct (kmap s1 !! _) eqn:E; eauto.
Qed.

Lemma wp_delete {O A} {K : Kind O} n s (k : option api_error → prog op A) Q :
  Inv s →
  (∀ s1, Inv s1 → allowed e (WDelete K n) s1) →
  (∀ s1 m, Inv s1 → wp (api_spec e) (k (Some (OtherError m))) s1 Q) →
  (∀ s1, Inv s1 → kmap s1 !! n = None → wp (api_spec e) (k (Some NotFound)) s1 Q) →
  (∀ s1 o, Inv s1 → kmap s1 !! n = Some o → om_finalizers (kmeta o) = [] →
     wp (api_spec e) (k None) (kdel O n s1) Q) →
  (∀ s1 o o', Inv s1 → kmap s1 !! n = Some o → om_deletion (kmeta o') ≠ None →
     meta_key (kmeta o') = n → wp (api_spec e) (k None) (kput o' s1) Q) →
  wp (api_spec e) (bind (delete_obj O n) k) s Q.
Proof using All.
  intros Hs Ha He Hn Hd Hf s1 Hr. split; [eauto|]. split; [eauto|].
  destruct (kmap s1 !! n) eqn:E; [|eauto]. case_bool_decide; eauto.
Qed.

Lemma wp_list {O A} {K : Kind O} ns sel s (k : list O + api_error → prog op A) Q :
  Inv s →
  (∀ s1 m, Inv s1 → wp (api_spec e) (k (inr (OtherError m))) s1 Q) →
  (∀ s1 os, Inv s1 →
     os ≡ₚ filter (λ o, selected ns sel (kmeta o)) (map_to_list (kmap s1)).*2 →
     wp (api_spec e) (k (inl os)) s1 Q) →
  wp (api_spec e) (bind (trigger (ListObjects K ns sel)) k) s Q.
Proof using All. intros Hs He Ho s1 Hr. split; eauto. Qed.

Lemma wp_create_or_update {A} n f s (k : Secret + api_error → prog op A) Q :
  Inv s →
  (∀ s1 m, Inv s1 → wp (api_spec e) (k (inr (OtherError m))) s1 Q) →
  (∀ s1 o, Inv s1 → c_secrets s1 !! n = None → f (empty_secret n) = inl o →
     allowed e (WCreate kind_Secret o) s1 ∧
     ∀ o', kadmit o o' → wp (api_spec e) (k (inl o')) (kput o' s1) Q) →
  (∀ s1 old, Inv s1 → c_secrets s1 !! n = Some old → f old = inl old →
     wp (api_spec e) (k (inl old)) s1 Q) →
  (∀ s1 old o, Inv s1 → c_secrets s1 !! n = Some old → f old = inl o → o ≠ old →
     allowed e (WUpdate kind_Secret o) s1 ∧
     ∀ o', kadmit o o' → wp (api_spec e) (k (inl o'))
       (if gone (sec_meta o') then kdel Secret (meta_key (sec_meta o')) s1 else kput o' s1) Q) →
  wp (api_spec e) (bind (trigger (CreateOrUpdate n f)) k) s Q.
Proof using All.
  intros Hs He Hn Hsame Hupd s1 Hr. split; [eauto|].
  destruct (c_secrets s1 !! n) as [old|] eqn:E; [|eauto].
  intros o Ho. split; [intros ->; eauto|eauto].
Qed.

Lemma wp_event {A} r s (k : unit → prog op A) Q :
  wp (api_spec e) (k tt) (record_event r s) Q → wp (api_spec e) (bind (event r) k) s Q.
Proof. done. Qed.

Lemma wp_now {A} s (k : Z → prog op A) Q :
  Inv s → (∀ s1, Inv s1 → wp (api_spec e) (k (c_now s1)) s1 Q) →
  wp (api_spec e) (bind (trigger Now) k) s Q.
Proof using All. intros Hs Hk s1 Hr. eauto. Qed.
End rules.

(** Symbolic execution: the next call, event, test or return, under the
    invariant [Inv] that the environment [e] keeps ([Hr]); [tac] proves the
    invariant of the current state. *)
Ltac wp_call e Inv Hr tac :=
  cbv beta iota;
  lazymatch goal with
  | |- wp _ (bind (get _) _) _ _ =>
      apply (wp_get e Inv Hr);
        [tac|intros ?s1 ?m ?Hs|intros ?s1 ?Hs ?Hn|intros ?s1 ?o ?Hs ?Ho]
  | |- wp _ (bind (create _) _) _ _ =>
      apply (wp_create e Inv Hr);
        [tac|intros ?s1 ?Hs|intros ?s1 ?m ?Hs|intros ?s1 ?Hs|intros ?s1 ?o' ?Hs ?Hn ?Ha]
  | |- wp _ (bind (update _) _) _ _ =>
      apply (wp_update e Inv Hr);
        [tac|intros ?s1 ?Hs|intros ?s1 ?m ?Hs|intros ?s1 ?Hs|intros ?s1 ?o0 ?o' ?Hs ?Ho ?Ha]
  | |- wp _ (bind (update_status _) _) _ _ =>
      apply (wp_update_status e Inv Hr);
        [tac|intros ?s1 ?Hs|intros ?s1 ?m ?Hs|intros ?s1 ?Hs|intros ?s1 ?o0 ?Hs ?Ho]
  | |- wp _ (bind (delete_obj _ _) _) _ _ =>
      apply (wp_delete e Inv Hr);
        [tac|intros ?s1 ?Hs|intros ?s1 ?m ?Hs|intros ?s1 ?Hs ?Hn|intros ?s1 ?o ?Hs ?Ho ?Hf
        |intros ?s1 ?o ?o' ?Hs ?Ho ?Hd ?Hk]
  | |- wp _ (bind (trigger (ListObjects _ _ _)) _) _ _ =>
      apply (wp_list e Inv Hr); [tac|intros ?s1 ?m ?Hs|intros ?s1 ?os ?Hs ?Hl]
  | |- wp _ (bind (event _) _) _ _ => apply wp_event
  | |- wp _ (bind (trigger Now) _) _ _ => apply (wp_now e Inv Hr); [tac|intros ?s1 ?Hs]
  | |- wp _ (Ret _) _ _ => apply wp_ret
  | |- wp _ (if negb (IsControlledBy ?m ?o) then _ else _) _ _ =>
      let E := fresh "Hctl" in destruct (IsControlledBy m o) eqn:E; cbn [negb]
  | |- wp _ (match ?x with _ => _ end) _ _ => let E := fresh "E" in destruct x eqn:E
  end.

(** ** An in-memory service

    One service of the interface: nothing else runs, no call fails, objects are
    stored as [kstore] says, and the certificate library is [ref_x509] with a
    fixed key. *)

Definition ref_issue (r : CSR) (pub : string) (hosts : list string) (now expiry : Z) : x509_cert :=
  {| xc_organization := if bool_decide (csr_o r = "") then [] else [csr_o r];
     xc_commonName := csr_cn r; xc_dnsNames := hosts; xc_ips := [];
     xc_notBefore := now - 300; xc_notAfter := now - 300 + expiry; xc_publicKey := Some pub |}%Z.

Definition ref_ca : CSR :=
  {| csr_name := "ca"; csr_cn := "kubernetes"; csr_o := "kubernetes"; csr_hostnames := [] |}.

Definition with_deletion (m : ObjectMeta) (t : Z) : ObjectMeta :=
  {| om_name := om_name m; om_namespace := om_namespace m; om_uid := om_uid m;
     om_generation := om_generation m; om_labels := om_labels m;
     om_annotations := om_annotations m; om_owners := om_owners m;
     om_finalizers := om_finalizers m; om_deletion := Some t |}.

Definition mem : handler op cluster := λ R o,
  match o in op R return cluster → option (R * cluster) with
  | Get K n => λ s,
      Some (match kmap s !! n with Some o => inl o | None => inr NotFound end, s)
  | Create K o => λ s,
      match kmap s !! meta_key (kmeta o) with
      | Some _ => Some (inr AlreadyExists, s)
      | None => Some (inl (kstore o), kput (kstore o) s)
      end
  | @Update T K o => λ s,
      match kmap s !! meta_key (kmeta o) with
      | None => Some (inr NotFound, s)
      | Some _ =>
          let o' := kstore o in
          Some (inl o', if gone (kmeta o') then kdel T (meta_key (kmeta o')) s else kput o' s)
      end
  | UpdateStatus K o => λ s,
      match kmap s !! meta_key (kmeta o) with
      | None => Some (inr NotFound, s)
      | Some o0 => Some (inl (kstatus o o0), kput (kstatus o o0) s)
      end
  | @Delete T K n => λ s,
      match kmap s !! n with
      | None => Some (Some NotFound, s)
      | Some o =>
          if bool_decide (om_finalizers (kmeta o) = []) then Some (None, kdel T n s)
          else Some (Some (OtherError "finalizers"), s)
      end
  | ListObjects K ns sel => λ s,
      Some (inl (filter (λ o, selected ns sel (kmeta o)) (map_to_list (kmap s)).*2), s)
  | CreateOrUpdate n f => λ s,
      match c_secrets s !! n with
      | None =>
          match f (empty_secret n) with
          | inr m => Some (inr (OtherError m), s)
          | inl o => Some (inl (kstore o), kput (kstore o) s)
          end
      | Some old =>
          match f old with
          | inr m => Some (inr (OtherError m), s)
          | inl o =>
              if decide (o = old) then Some (inl o, s)
              else let o' := kstore o in
                Some (inl o', if gone (sec_meta o') then kdel Secret (meta_key (sec_meta o')) s
                              else kput o' s)
          end
      end
  | InitCA => λ s, Some (inl {| crt_cert := enc (ref_issue ref_ca "CAKEY" [] (c_now s) 157680000);
                                crt_key := "CAKEY" |}, s)
  | ProcessRequest r => λ s, Some (inl (enc (r, "KEY"), "KEY"), s)
  | Sign ca csr hosts expiry => λ s,
      match dec csr, crt_cert ca with
      | Some (r, pub), String _ _ => Some (inl (enc (ref_issue r pub hosts (c_now s) expiry)), s)
      | _, _ => Some (inr "sign", s)
      end
  | Now => λ s, Some (c_now s, s)
  | RandomHex n => λ s, Some (inl (String.concat "" (repeat "5a" n)), s)
  | MapOrder m => λ s, Some (map_to_list m, s)
  | Event r => λ s, Some (tt, record_event r s)
  | Panic => λ s, None
  end.

Lemma ref_parse_issued (x : x509_cert) :
  parseCertificatePEM (X := ref_x509) (enc x) = inl x ∧ enc x ≠ "".
Proof.
  pose proof (enc_nonempty x) as Hne. split; [|done].
  unfold parseCertificatePEM. cbn [pem_decode ParseCertificate ref_x509].
  destruct (enc x) as [|c s'] eqn:E; [done|].
  assert (c ≠ Ascii.ascii_of_nat 114) as Hc.
  { intros ->. unfold enc in E. by destruct (encode x). }
  rewrite bool_decide_false by done. rewrite <- E, dec_enc. by rewrite bool_decide_false by tauto.
Qed.

Lemma ref_issued ca r pub hosts now expiry :
  crt_cert ca ≠ "" → issued (X := ref_x509) ca r pub hosts now expiry (ref_issue r pub hosts now expiry).
Proof.
  intros Hca. repeat split; simpl; unfold signing_backdate; try lia.
  - intros ->. done.
  - exists (crt_cert ca). simpl. rewrite bool_decide_false by done. split; [done|].
    intros t Ht _. by apply bool_decide_true.
Qed.

Lemma length_hex_zeros n : String.length (String.concat "" (repeat "5a" n)) = 2 * n.
Proof.
  induction n as [|[|n] IH]; [done..|].
  change (String.concat "" (repeat "5a" (S (S n))))
    with ("5a" +:+ "" +:+ String.concat "" (repeat "5a" (S n))).
  rewrite !string_length_app, IH. simpl String.length. lia.
Qed.

(** The interface is not empty: the in-memory service obeys it whatever the
    environment allows, provided the environment may stay put. *)
#[export] Instance mem_implements (e : env) (Hr : Reflexive (rely e)) :
  Implements mem (api_spec (X := ref_x509) e) (may_panic e).
Proof.
  intros R o s Q. destruct o; cbn [api_spec mem].
  - intros Hs. destruct (Hs s) as [_ Hs']; [done|]. by case_match.
  - intros Hs. destruct (Hs s) as (_ & _ & Hs'); [done|]. case_match; [done|]. apply Hs', kadmit_kstore.
  - intros Hs. destruct (Hs s) as (_ & _ & Hs'); [done|]. case_match; [|done]. apply Hs', kadmit_kstore.
  - intros Hs. destruct (Hs s) as (_ & _ & Hs'); [done|]. by case_match.
  - intros Hs. destruct (Hs s) as (_ & He & Hs'); [done|]. case_match; [|done]. by case_bool_decide.
  - intros Hs. destruct (Hs s) as (_ & Hs'); [done|]. by apply Hs'.
  - intros Hs. destruct (Hs s) as (He & Hs'); [done|].
    clear Hs. destruct (c_secrets s !! n) as [old|];
      [destruct (f old) as [o|m] eqn:Ef|destruct (f (empty_secret n)) as [o|m] eqn:Ef]; try done.
    + destruct (Hs' _ eq_refl) as [H1 H2]. case_decide; [by apply H1|].
      destruct (H2 ltac:(done)) as [_ H3]. apply H3, (kadmit_kstore (Kind := kind_Secret)).
    + apply (Hs' _ eq_refl), (kadmit_kstore (Kind := kind_Secret)).
  - intros [_ Hs]. apply Hs. cbn [AppendCertsFromPEM ref_x509 crt_cert].
    rewrite bool_decide_false by apply enc_nonempty. by eexists.
  - intros [_ Hs]. eapply Hs; [apply dec_enc|done].
  - intros [He Hs]. destruct (dec csr) as [[r pub]|] eqn:Ed; [|done].
    destruct (crt_cert ca) eqn:Ec; [done|]. destruct (ref_parse_issued (ref_issue r pub hosts (c_now s) expiry)).
    eapply Hs; [done|done|done|]. apply ref_issued. by rewrite Ec.
  - intros Hs. by apply Hs.
  - intros [_ Hs]. apply Hs, length_hex_zeros.
  - intros Hs. by apply Hs.
  - done.
  - done.
Qed.

Lemma mem_run (e : env) {A} (p : prog op A) s Q :
  Reflexive (rely e) → wp (api_spec (X := ref_x509) e) p s Q →
  match run mem p s with Some (a, s') => Q a s' | None => may_panic e end.
Proof. intros Hr. exact (wp_run _ mem (may_panic e) p s Q). Qed.
