(* ===== verification/Host.v ===== *)
(** * The worker's host

    What the provisioning of a worker calls: the file system, the certificate store
    of the kubelet, the certificate requests, systemd, the kernel, and the API server
    of the tenant cluster (the calls of World.v).  [hop] is the signature of these
    calls, [host_spec] the interface the worker is verified against, [disk] an
    executable host.

    The interface is permissive: every call may fail, and a write that fails may
    leave anything in the file it writes. *)

From stdpp Require Import gmap.
From S2P Require Import Prelude Effects Kube Api Pki World.
From stdpp Require Import options.

(** ** Paths: path/filepath *)

Definition slash : Ascii.ascii := Ascii.ascii_of_nat 47.

(** The elements of a path in reverse, without [.], and without [..] where there is
    something to leave. *)
Definition clean_element (rooted : bool) (stack : list string) (e : string) : list string :=
  if bool_decide (e = "" ∨ e = ".") then stack
  else if bool_decide (e = "..") then
    match stack with
    | [] => if rooted then [] else [".."]
    | top :: rest => if bool_decide (top = "..") then ".." :: stack else rest
    end
  else e :: stack.

Definition Clean (p : string) : string :=
  if bool_decide (p = "") then "."
  else
    let rooted := HasPrefix p "/" in
    let es := rev (foldl (clean_element rooted) [] (Split slash p)) in
    if rooted then "/" +:+ Join es "/"
    else match es with [] => "." | _ => Join es "/" end.

(** [filepath.Dir] and [filepath.Base]: what is before and after the last slash. *)
Definition Dir (p : string) : string :=
  match rev (Split slash p) with
  | [] | [_] => "."
  | _ :: before => Clean (Join (rev before) "/" +:+ "/")
  end.

Definition Base (p : string) : string :=
  if bool_decide (p = "") then "."
  else match filter (λ e, e ≠ "") (rev (Split slash p)) with
       | [] => "/"
       | e :: _ => e
       end.

(** [filepath.Join] (and [path.Join]). *)
Definition JoinPath (es : list string) : string :=
  match filter (λ e, e ≠ "") es with
  | [] => ""
  | es' => Clean (Join es' "/")
  end.

Example clean_paths :
  Clean "/a//b/./c/../d/" = "/a/b/d" ∧ Clean "../a/.." = ".." ∧ Clean "/.." = "/" ∧ Clean "a/.." = "." ∧
  Dir "/etc/heir/pki/ca.crt" = "/etc/heir/pki" ∧ Dir "x" = "." ∧ Dir "/x" = "/" ∧ Dir "/a/b/" = "/a/b" ∧
  Base "/a/b/" = "b" ∧ Base "bridge" = "bridge" ∧ Base "/" = "/" ∧
  JoinPath ["/var/lib/heir/bin/"; "kubelet"] = "/var/lib/heir/bin/kubelet" ∧ JoinPath [""; ""] = "".
Proof. vm_compute. done. Qed.

(** A directory and those above it. *)
Fixpoint prefixes (acc : string) (es : list string) : list string :=
  match es with
  | [] => []
  | e :: es' => let d := acc +:+ "/" +:+ e in d :: prefixes d es'
  end.

Definition ancestors (p : string) : gset string :=
  list_to_set ("/" :: prefixes "" (filter (λ e, e ≠ "") (Split slash (Clean p)))).

(** ** The host *)

Record host := {
  (** Regular files. *)
  h_files : gmap string string;
  h_dirs : gset string;
  (** The current pair of the kubelet's certificate store. *)
  h_pair : option (string * string);
  (** Whether the unit is enabled and started. *)
  h_running : bool;
  h_cluster : cluster;
}.

Inductive stat := IsFile | IsDir | NotExist | StatError (err : string).

Record CertificateRequest := {
  cr_csr : string;
  cr_name : string;
  cr_signer : string;
  cr_usages : list string;
}.

(** ** Calls *)

Inductive hop : Type → Type :=
| Stat (p : string) : hop stat
| MkdirAll (p : string) : hop (option string)
(** [os.WriteFile], and creating a file and copying into it. *)
| WriteFile (p data : string) : hop (option string)
(** Opening with [O_CREATE|O_WRONLY] and copying: what is there is overwritten from
    its beginning, not cut off. *)
| CopyToFile (p data : string) : hop (option string)
| ReadFile (p : string) : hop (string + string)
(** [os.Executable], with its symbolic links resolved. *)
| Executable : hop (string + string)
| Remove (p : string) : hop (option string)
(** [clientcmd.WriteToFile], which makes the directory. *)
| WriteToFile (p data : string) : hop (option string)
(** [certificate.NewFileStore]; the key of the current pair, in PEM, and the update
    of the pair. *)
| NewFileStore (dir : string) : hop (option string)
| StoreCurrentKey : hop (option string)
| StoreUpdate (cert key : string) : hop (option string)
(** [keyutil.LoadOrGenerateKeyFile]. *)
| LoadOrGenerateKeyFile (p : string) : hop (string + string)
(** [csr.RequestCertificateWithContext] and [csr.WaitForCertificate]. *)
| RequestCertificate (r : CertificateRequest) : hop (string + string)
| WaitForCertificate (req : string) : hop (string + string)
(** systemd, over D-Bus: reload, enable, start. *)
| Reload : hop (option string)
| EnableUnit (p : string) : hop (option string)
| StartUnit (name : string) : hop (string + string)
(** The kernel. *)
| Modprobe (name : string) : hop (option string)
| GetSysctl (name : string) : hop Z
| SetSysctl (name : string) (v : Z) : hop (option string)
(** A run-time panic. *)
| HPanic : hop Empty_set
| KubeCall {R} (o : op R) : hop R.

Definition hpanic {A} : prog hop A := Vis HPanic (λ e : Empty_set, match e with end).

(** A program of the API server run by the worker. *)
Definition on_cluster {A} (p : prog op A) : prog hop A := embed (@KubeCall) p.

(** ** The interface *)

Definition with_files (f : gmap string string) (s : host) : host := {|
  h_files := f; h_dirs := h_dirs s; h_pair := h_pair s; h_running := h_running s;
  h_cluster := h_cluster s |}.
Definition with_dirs (d : gset string) (s : host) : host := {|
  h_files := h_files s; h_dirs := d; h_pair := h_pair s; h_running := h_running s;
  h_cluster := h_cluster s |}.
Definition with_pair (p : option (string * string)) (s : host) : host := {|
  h_files := h_files s; h_dirs := h_dirs s; h_pair := p; h_running := h_running s;
  h_cluster := h_cluster s |}.
Definition with_running (b : bool) (s : host) : host := {|
  h_files := h_files s; h_dirs := h_dirs s; h_pair := h_pair s; h_running := b;
  h_cluster := h_cluster s |}.
Definition with_cluster (c : cluster) (s : host) : host := {|
  h_files := h_files s; h_dirs := h_dirs s; h_pair := h_pair s; h_running := h_running s;
  h_cluster := c |}.

(** [data] written over [old]. *)
Definition overwrite (data old : string) : string :=
  data +:+ String.substring (String.length data) (String.length old - String.length data) old.

(** Nothing of what was there is left when it is not longer. *)
Lemma overwrite_all data old : String.length old ≤ String.length data → overwrite data old = data.
Proof.
  intros Hlen. unfold overwrite. replace (String.length old - String.length data) with 0 by lia.
  enough (∀ n, String.substring n 0 old = "") as -> by apply string_app_nil_r.
  clear. induction old as [|c s IH]; intros [|n]; simpl; auto.
Qed.

(** What the worker may do besides reading. *)
Record host_env := {
  he_cluster : env;
  (** The files it may write or remove. *)
  he_writes : string → Prop;
  (** The certificates it may ask for. *)
  he_requests : CertificateRequest → Prop;
  he_panic : Prop;
}.

Section interface.
Context `{X : X509} (e : host_env).

Definition host_spec : op_spec hop host := λ R o,
  match o in hop R return host → (R → host → Prop) → Prop with
  | Stat p => λ s Q,
      (∀ m, Q (StatError m) s) ∧
      (is_Some (h_files s !! p) → Q IsFile s) ∧
      (h_files s !! p = None → p ∈ h_dirs s → Q IsDir s) ∧
      (h_files s !! p = None → p ∉ h_dirs s → Q NotExist s)
  | MkdirAll p => λ s Q,
      (∀ m d, h_dirs s ⊆ d → Q (Some m) (with_dirs d s)) ∧
      Q None (with_dirs (h_dirs s ∪ ancestors p) s)
  | WriteFile p data => λ s Q, he_writes e p ∧
      (∀ m x, Q (Some m) (with_files (partial_alter (λ _, x) p (h_files s)) s)) ∧
      (Dir p ∈ h_dirs s → Q None (with_files (<[p := data]> (h_files s)) s))
  | CopyToFile p data => λ s Q, he_writes e p ∧
      (∀ m x, Q (Some m) (with_files (partial_alter (λ _, x) p (h_files s)) s)) ∧
      (Dir p ∈ h_dirs s →
       Q None (with_files (<[p := overwrite data (default "" (h_files s !! p))]> (h_files s)) s))
  | Executable => λ s Q, (∀ m, Q (inr m) s) ∧ ∀ p, Q (inl p) s
  | WriteToFile p data => λ s Q, he_writes e p ∧
      (∀ m x, Q (Some m) (with_files (partial_alter (λ _, x) p (h_files s)) s)) ∧
      Q None (with_dirs (h_dirs s ∪ ancestors (Dir p)) (with_files (<[p := data]> (h_files s)) s))
  | NewFileStore dir => λ s Q, (∀ m, Q (Some m) s) ∧ Q None s
  | ReadFile p => λ s Q,
      (∀ m, Q (inr m) s) ∧ (∀ data, h_files s !! p = Some data → Q (inl data) s)
  | Remove p => λ s Q, he_writes e p ∧
      (∀ m, Q (Some m) s) ∧ Q None (with_files (delete p (h_files s)) s)
  | StoreCurrentKey => λ s Q, Q None s ∧ ∀ cert key, h_pair s = Some (cert, key) → Q (Some key) s
  | StoreUpdate cert key => λ s Q, (∀ m, Q (Some m) s) ∧ Q None (with_pair (Some (cert, key)) s)
  | LoadOrGenerateKeyFile p => λ s Q, he_writes e p ∧ (∀ m, Q (inr m) s) ∧
      (∀ key, h_files s !! p = Some key → Q (inl key) s) ∧
      (h_files s !! p = None → ∀ key, Q (inl key) (with_files (<[p := key]> (h_files s)) s))
  | RequestCertificate r => λ s Q, he_requests e r ∧ (∀ m, Q (inr m) s) ∧ ∀ req, Q (inl req) s
  | WaitForCertificate req => λ s Q, (∀ m, Q (inr m) s) ∧ ∀ cert, Q (inl cert) s
  | Reload => λ s Q, (∀ m, Q (Some m) s) ∧ Q None s
  | EnableUnit p => λ s Q, (∀ m, Q (Some m) s) ∧ (is_Some (h_files s !! p) → Q None s)
  | StartUnit name => λ s Q, (∀ m, Q (inr m) s) ∧
      (∀ r, r ≠ "done" → Q (inl r) s) ∧ Q (inl "done") (with_running true s)
  | Modprobe name => λ s Q, (∀ m, Q (Some m) s) ∧ Q None s
  | GetSysctl name => λ s Q, ∀ v, Q v s
  | SetSysctl name v => λ s Q, (∀ m, Q (Some m) s) ∧ Q None s
  | HPanic => λ s Q, he_panic e
  | @KubeCall R o => λ s Q, api_spec (he_cluster e) R o (h_cluster s) (λ r c, Q r (with_cluster c s))
  end.

#[global] Instance host_spec_mono : Monotone host_spec.
Proof.
  intros R o s Q Q' HQ H. destruct o; simpl in *; try (eapply api_spec_mono; [|exact H]); naive_solver.
Qed.

(** A program of the API server keeps the host. *)
Lemma wp_on_cluster {A} (p : prog op A) s (Q : A → host → Prop) :
  wp (api_spec (he_cluster e)) p (h_cluster s) (λ a c, Q a (with_cluster c s)) →
  wp host_spec (on_cluster p) s Q.
Proof.
  apply (wp_embed _ _ _ h_cluster with_cluster (λ _, True)); try done; [apply _|by intros []].
Qed.
End interface.

(** The calls of the host that report no error. *)
Definition host_up : ∀ R, hop R → R → Prop := λ R o,
  match o in hop R return R → Prop with
  | Stat _ => λ r, match r with StatError _ => False | _ => True end
  | MkdirAll _ | WriteFile _ _ | CopyToFile _ _ | Remove _ | WriteToFile _ _ | NewFileStore _
  | StoreUpdate _ _ | Reload | EnableUnit _ | Modprobe _ | SetSysctl _ _ => λ r, r = None
  | ReadFile _ | Executable | LoadOrGenerateKeyFile _ | RequestCertificate _
  | WaitForCertificate _ => λ r, match r with inl _ => True | inr _ => False end
  | StartUnit _ => λ r, r = inl "done"
  | _ => λ _, True
  end.

(** ** An executable host

    Calls succeed, except that a write to a path chosen by [fails] breaks off after
    half of the data. *)

Definition half (s : string) : string := String.substring 0 (Nat.div2 (String.length s)) s.

Definition disk (fails : string → bool) : handler hop host := λ R o,
  match o in hop R return host → option (R * host) with
  | Stat p => λ s,
      Some (match h_files s !! p with
            | Some _ => IsFile
            | None => if decide (p ∈ h_dirs s) then IsDir else NotExist
            end, s)
  | MkdirAll p => λ s, Some (None, with_dirs (h_dirs s ∪ ancestors p) s)
  | WriteFile p data => λ s,
      if fails p then Some (Some "write error", with_files (<[p := half data]> (h_files s)) s)
      else if decide (Dir p ∈ h_dirs s) then Some (None, with_files (<[p := data]> (h_files s)) s)
      else Some (Some "no such directory", with_files (partial_alter (λ _, h_files s !! p) p (h_files s)) s)
  | CopyToFile p data => λ s,
      if fails p then Some (Some "write error", with_files (<[p := half data]> (h_files s)) s)
      else if decide (Dir p ∈ h_dirs s)
      then Some (None, with_files (<[p := overwrite data (default "" (h_files s !! p))]> (h_files s)) s)
      else Some (Some "no such directory", with_files (partial_alter (λ _, h_files s !! p) p (h_files s)) s)
  | Executable => λ s, Some (inl "/usr/local/bin/heir", s)
  | WriteToFile p data => λ s,
      Some (None, with_dirs (h_dirs s ∪ ancestors (Dir p)) (with_files (<[p := data]> (h_files s)) s))
  | NewFileStore dir => λ s, Some (None, s)
  | ReadFile p => λ s,
      Some (match h_files s !! p with Some data => inl data | None => inr "no such file" end, s)
  | Remove p => λ s, Some (None, with_files (delete p (h_files s)) s)
  | StoreCurrentKey => λ s, Some (match h_pair s with Some (_, key) => Some key | None => None end, s)
  | StoreUpdate cert key => λ s, Some (None, with_pair (Some (cert, key)) s)
  | LoadOrGenerateKeyFile p => λ s,
      match h_files s !! p with
      | Some key => Some (inl key, s)
      | None => Some (inl "key", with_files (<[p := "key"]> (h_files s)) s)
      end
  | RequestCertificate r => λ s, Some (inl (cr_name r), s)
  | WaitForCertificate req => λ s, Some (inl ("certificate of " +:+ req), s)
  | Reload => λ s, Some (None, s)
  | EnableUnit p => λ s,
      Some (match h_files s !! p with Some _ => None | None => Some "no such unit" end, s)
  | StartUnit name => λ s, Some (inl "done", with_running true s)
  | Modprobe name => λ s, Some (None, s)
  | GetSysctl name => λ s, Some (0%Z, s)
  | SetSysctl name v => λ s, Some (None, s)
  | HPanic => λ s, None
  | @KubeCall R o => λ s,
      match mem R o (h_cluster s) with Some (r, c) => Some (r, with_cluster c s) | None => None end
  end.

(** The host obeys the interface. *)
Lemma disk_implements (fails : string → bool) (he : host_env) :
  (∀ s, rely (he_cluster he) s s) →
  @Implements hop host (disk fails) (host_spec (X := ref_x509) he) (he_panic he ∨ may_panic (he_cluster he)).
Proof.
  intros Hr R o s Q H. destruct o; simpl in *.
  - destruct H as (_ & Hf & Hd & Hn). destruct (h_files s !! p) eqn:E; [eauto|]. case_decide; eauto.
  - by destruct H.
  - destruct H as (_ & He & Hok). destruct (fails p); [by apply (He _ (Some (half data)))|].
    case_decide; [by apply Hok|by apply He].
  - destruct H as (_ & He & Hok). destruct (fails p); [by apply (He _ (Some (half data)))|].
    case_decide; [by apply Hok|by apply He].
  - destruct H. destruct (h_files s !! p) eqn:E; eauto.
  - by destruct H.
  - by destruct H as (_ & _ & ?).
  - by destruct H as (_ & _ & ?).
  - by destruct H.
  - destruct H. destruct (h_pair s) as [[cert key]|] eqn:E; eauto.
  - by destruct H.
  - destruct H as (_ & _ & H1 & H2). destruct (h_files s !! p) eqn:E; eauto.
  - by destruct H as (_ & _ & ?).
  - by destruct H.
  - by destruct H.
  - destruct H. destruct (h_files s !! p) eqn:E; eauto.
  - by destruct H as (_ & _ & ?).
  - by destruct H.
  - done.
  - by destruct H.
  - by left.
  - pose proof (mem_implements (he_cluster he) Hr) as Hm.
    apply Hm in H. destruct (mem R o (h_cluster s)) as [[r c]|]; [done|by right].
Qed.
