(* ===== verification/PkiAuth.v ===== *)
(** * PKI material of a control plane

    [pkg/pki/pki.go] (CA generation and signing) and [pkg/runtime/pki_auth.go]:
    the Secret with the CA, the component certificates and the kubeconfigs, its
    rotation when the SANs change, and the client kubeconfig Secret. *)

From S2P Require Import Prelude Effects Kube Api Pki World.
From stdpp Require Import options.

(** [sha256.Sum256] followed by [hex.EncodeToString]. *)
Class Hashing := { sha256_hex : string → string }.

(** An instance without collisions. *)
Definition ref_hashing : Hashing := {| sha256_hex := id |}.

Definition PKIAPIServerHashAnnotation : string :=
  "controlplane.tardigrade.runtime.io/pki-apiserver-hash".
Definition PKIPlaneTunnelHashAnnotation : string :=
  "controlplane.tardigrade.runtime.io/pki-planetunnel-hash".
Definition DeletionProtectionAnnotation : string :=
  "controlplane.tardigrade.runtime.io/deletion-protection".

(** 8760 hours, in seconds. *)
Definition CertificateDuration : Z := 8760 * 3600.

Definition PlaneTunnelName (n : string) : string := n +:+ "-tunnel".
Definition PlaneTunnelHeadlessName (n : string) : string := n +:+ "-tunnel-headless".
Definition PlaneTunnelEgressName (n : string) : string := n +:+ "-tunnel-egress".

Section pki_auth.
Context `{X : X509} `{H : Hashing}.

(** ** [pkg/pki/pki.go] *)

Definition GenerateSelfSignedCert : prog op (Certificate + string) :=
  let! r := trigger InitCA in
  match r with
  | inr _ => Ret (inr "failed to generate kubernetes CA")
  | inl ca => Ret (inl ca)
  end.

Definition SignCSR (ca : Certificate) (request : CSR) (expire : Z)
    : prog op (Certificate + string) :=
  let! r := trigger (ProcessRequest request) in
  match r with
  | inr e => Ret (inr e)
  | inl (csrPEM, keyPEM) =>
      if negb (ParsesCertificatePEM (crt_cert ca))
      then Ret (inr "failed to parse CA certificate")
      else match ParsePrivateKeyPEM (crt_key ca) with
      | None => Ret (inr "failed to parse CA private key")
      | Some _ =>
          let! c := trigger (Sign ca csrPEM (csr_hostnames request) expire) in
          match c with
          | inr _ => Ret (inr "failed to sign CSR")
          | inl certPEM => Ret (inl {| crt_key := keyPEM; crt_cert := certPEM |})
          end
      end
  end.

(** A key and a signing request for it; nothing in the program submits one yet. *)
Record CertificateRequest := { cr_key : string; cr_csr : string; cr_expiry : Z }.

Definition GenerateCSR (request : CSR) (expiry : Z) : prog op (CertificateRequest + string) :=
  let! r := trigger (ProcessRequest request) in
  match r with
  | inr e => Ret (inr ("failed to generate CSR: " +:+ e))
  | inl (csrPEM, keyPEM) => Ret (inl {| cr_key := keyPEM; cr_csr := csrPEM; cr_expiry := expiry |})
  end.

(** ** [pkg/runtime/pki_auth.go] *)

Definition planeTunnelAltNames (host : string) : list string :=
  if bool_decide (host = "") then [] else [host].

Definition sansHash (sans : list string) : string := sha256_hex (Join sans ",").

Definition APIServerAltNames (r : Runtime) : list string :=
  let host := ce_host (cpe_apiServer (cl_endpoint (rt_cluster r))) in
  let sans := as_sans (cl_apiServer (rt_cluster r)) ++
    ["127.0.0.1"; "10.96.0.1"; "0.0.0.0"; "kubernetes"; "kubernetes.default";
     "kubernetes.default.svc"; "kubernetes.default.cluster"; "server.kubernetes.local";
     "api-server.kubernetes.local";
     rt_name r +:+ "." +:+ rt_namespace r +:+ ".svc.cluster.local"] ++
    (if bool_decide (host = "") then [] else [host]) in
  Compact (Sort (filter (λ s, s ≠ "") sans)).

Definition apiServerCSR (sans : list string) : CSR :=
  {| csr_name := "kubernetes"; csr_o := "kubernetes"; csr_cn := "kube-apiserver";
     csr_hostnames := sans |}.
Definition planeTunnelCSR (sans : list string) : CSR :=
  {| csr_name := "plane-tunnel"; csr_o := "system:plane-tunnel"; csr_cn := "";
     csr_hostnames := sans |}.

(** The mutable fields of the secret that [RegeneratePKILeafCerts] writes. *)
Definition with_data (s : Secret) (d : gomap string) : Secret :=
  {| sec_meta := sec_meta s; sec_type := sec_type s; sec_data := d;
     sec_stringData := sec_stringData s |}.
Definition with_annotations (m : ObjectMeta) (a : gomap string) : ObjectMeta :=
  {| om_name := om_name m; om_namespace := om_namespace m; om_uid := om_uid m;
     om_generation := om_generation m; om_labels := om_labels m; om_annotations := a;
     om_owners := om_owners m; om_finalizers := om_finalizers m;
     om_deletion := om_deletion m |}.
Definition with_sec_meta (s : Secret) (m : ObjectMeta) : Secret :=
  {| sec_meta := m; sec_type := sec_type s; sec_data := sec_data s;
     sec_stringData := sec_stringData s |}.

(** [secret.Data[k] = v], [secret.Annotations[k] = v]. *)
Definition set_data (s : Secret) (k v : string) : prog op Secret :=
  match mset (sec_data s) k v with
  | Some d => Ret (with_data s d)
  | None => panic
  end.
Definition set_annotation (s : Secret) (k v : string) : prog op Secret :=
  match mset (om_annotations (sec_meta s)) k v with
  | Some a => Ret (with_sec_meta s (with_annotations (sec_meta s) a))
  | None => panic
  end.

(** One of the two [if wantHash := ...] blocks: re-sign the pair stored under
    the given entries when the recorded hash differs. *)
Definition regenerate_leaf (ca : Certificate) (secret : Secret) (annotation : string)
    (csr : CSR) (cert key : MountEntry) (failure : string)
    : prog op ((bool * Secret) + string) :=
  let wantHash := sansHash (csr_hostnames csr) in
  if bool_decide (default "" (mget (om_annotations (sec_meta secret)) annotation) = wantHash)
  then Ret (inl (false, secret))
  else
    let! r := SignCSR ca csr CertificateDuration in
    match r with
    | inr _ => Ret (inr failure)
    | inl c =>
        let! s1 := set_data secret (SecretKey cert) (crt_cert c) in
        let! s2 := set_data s1 (SecretKey key) (crt_key c) in
        let! s3 := set_annotation s2 annotation wantHash in
        Ret (inl (true, s3))
    end.

Definition RegeneratePKILeafCerts (secret : Secret) (r : Runtime) (layout : ControlPlaneLayout)
    : prog op ((bool * Secret) + string) :=
  let pki := lay_pki layout in
  let secret :=
    match om_annotations (sec_meta secret) with
    | None => with_sec_meta secret (with_annotations (sec_meta secret) (Some ∅))
    | Some _ => secret
    end in
  let ca := {| crt_cert := default "" (mget (sec_data secret) (SecretKey (CACert pki)));
               crt_key := default "" (mget (sec_data secret) (SecretKey (CAKey pki))) |} in
  let! r1 := regenerate_leaf ca secret PKIAPIServerHashAnnotation
               (apiServerCSR (APIServerAltNames r)) (APIServerCert pki) (APIServerKey pki)
               "failed to re-sign API server cert" in
  match r1 with
  | inr e => Ret (inr e)
  | inl (u1, s1) =>
      let host := ce_host (cpe_planeTunnel (cl_endpoint (rt_cluster r))) in
      let! r2 := regenerate_leaf ca s1 PKIPlaneTunnelHashAnnotation
                   (planeTunnelCSR (planeTunnelAltNames host))
                   (PlaneTunnelCert pki) (PlaneTunnelKey pki)
                   "failed to re-sign plane tunnel cert" in
      match r2 with
      | inr e => Ret (inr e)
      | inl (u2, s2) => Ret (inl (u1 || u2, s2))
      end
  end.

(** [generateKubeconfig]; the server URL is the [WithServerUrl] option when
    given. *)
Definition generateKubeconfig (username caCert : string) (cert : Certificate)
    (serverUrl : option string) : option string :=
  let contextName := username +:+ "@heir" in
  WriteKubeconfig {|
    kc_clusters := {[ username := {| kcl_server := default "https://127.0.0.1:6443" serverUrl;
                                     kcl_caData := caCert |} ]};
    kc_authInfos := {[ username := {| ka_certData := crt_cert cert;
                                      ka_keyData := crt_key cert; ka_token := "" |} ]};
    kc_contexts := {[ contextName := {| kx_cluster := username; kx_authInfo := username |} ]};
    kc_currentContext := contextName |}.

Definition heir_labels (name : string) : gmap string string :=
  {[ "app.kubernetes.io/name" := name; "app.kubernetes.io/managed-by" := "heir" ]}.

Definition apiServerURL (r : Runtime) : string :=
  let ep := cpe_apiServer (cl_endpoint (rt_cluster r)) in
  "https://" +:+ ce_host ep +:+ ":" +:+ FormatInt (ce_port ep).

(** Sign several requests in order, stopping at the first failure. *)
Fixpoint sign_all (ca : Certificate) (l : list CSR) : prog op (list Certificate + string) :=
  match l with
  | [] => Ret (inl [])
  | q :: l' =>
      let! r := SignCSR ca q CertificateDuration in
      match r with
      | inr e => Ret (inr e)
      | inl c =>
          let! rs := sign_all ca l' in
          match rs with
          | inr e => Ret (inr e)
          | inl cs => Ret (inl (c :: cs))
          end
      end
  end.

(** The certificates of [GeneratePKIAuthSecret], in the order it signs them. *)
Definition component_CSRs (r : Runtime) : list CSR :=
  let host := ce_host (cpe_planeTunnel (cl_endpoint (rt_cluster r))) in
  [ planeTunnelCSR (planeTunnelAltNames host);
    {| csr_name := "plane-tunnel"; csr_o := "system:apiserver:plane-tunnel"; csr_cn := "";
       csr_hostnames := [PlaneTunnelEgressName (rt_name r)] |};
    apiServerCSR (APIServerAltNames r);
    {| csr_name := ""; csr_o := ""; csr_cn := "service-accounts"; csr_hostnames := [] |};
    {| csr_name := ""; csr_o := "system:masters"; csr_cn := "kubernetes-admin";
       csr_hostnames := [] |};
    {| csr_name := ""; csr_o := "system:kube-controller-manager";
       csr_cn := "system:kube-controller-manager"; csr_hostnames := [] |};
    {| csr_name := ""; csr_o := "system:kube-scheduler"; csr_cn := "system:kube-scheduler";
       csr_hostnames := [] |} ].

Definition pki_secret_data (layout : ControlPlaneLayout) (ca tunnel egress api sa : Certificate)
    (adminConf cmConf schedConf : string) : gmap string string :=
  let pki := lay_pki layout in
  let auth := lay_auth layout in
  {[ SecretKey (CACert pki) := crt_cert ca;
     SecretKey (CAKey pki) := crt_key ca;
     SecretKey (APIServerCert pki) := crt_cert api;
     SecretKey (APIServerKey pki) := crt_key api;
     SecretKey (ServiceAccountCert pki) := crt_cert sa;
     SecretKey (ServiceAccountKey pki) := crt_key sa;
     SecretKey (PlaneTunnelKey pki) := crt_key tunnel;
     SecretKey (PlaneTunnelCert pki) := crt_cert tunnel;
     SecretKey (ApiServerPlaneTunnelKey pki) := crt_key egress;
     SecretKey (ApiServerPlaneTunnelCert pki) := crt_cert egress;
     SecretKey (AdminConf auth) := adminConf;
     SecretKey (ControllerManagerConf auth) := cmConf;
     SecretKey (SchedulerConf auth) := schedConf ]}.

Definition GeneratePKIAuthSecret (r : Runtime) (layout : ControlPlaneLayout)
    : prog op (Secret + string) :=
  let! rca := GenerateSelfSignedCert in
  match rca with
  | inr e => Ret (inr e)
  | inl ca =>
      let! rcs := sign_all ca (component_CSRs r) in
      match rcs with
      | inr e => Ret (inr e)
      | inl [tunnel; egress; api; sa; admin; cm; sched] =>
          match generateKubeconfig (rt_name r) (crt_cert ca) admin None,
                generateKubeconfig "system:kube-controller-manager" (crt_cert ca) cm None,
                generateKubeconfig "system:kube-scheduler" (crt_cert ca) sched None with
          | Some adminConf, Some cmConf, Some schedConf =>
              let host := ce_host (cpe_planeTunnel (cl_endpoint (rt_cluster r))) in
              Ret (inl {|
                sec_meta := new_meta (rt_name r) (rt_namespace r)
                  (Some (heir_labels (rt_name r)))
                  (Some {[ DeletionProtectionAnnotation := "false";
                           PKIAPIServerHashAnnotation := sansHash (APIServerAltNames r);
                           PKIPlaneTunnelHashAnnotation := sansHash (planeTunnelAltNames host) ]});
                sec_type := "";
                sec_data := Some (pki_secret_data layout ca tunnel egress api sa
                                    adminConf cmConf schedConf);
                sec_stringData := None |})
          | _, _, _ => Ret (inr "failed to write kubeconfig")
          end
      | inl _ => Ret (inr "unreachable: one certificate per request")
      end
  end.

Definition clientAdminCSR : CSR :=
  {| csr_name := ""; csr_cn := "kubernetes-client-admin"; csr_o := "system:masters";
     csr_hostnames := [] |}.

(** The error of [generateKubeconfig] is not looked at: on failure the
    kubeconfig entry is empty. *)
Definition GenerateClientKubeconfigAuthSecret (ca : Certificate) (r : Runtime)
    (layout : ControlPlaneLayout) : prog op (Secret + string) :=
  let! rc := SignCSR ca clientAdminCSR CertificateDuration in
  match rc with
  | inr e => Ret (inr e)
  | inl cert =>
      let adminConf := generateKubeconfig (rt_name r) (crt_cert ca) cert (Some (apiServerURL r)) in
      Ret (inl {|
        sec_meta := new_meta (rt_name r +:+ "-kubeconfig") (rt_namespace r)
          (Some (heir_labels (rt_name r))) (Some ∅);
        sec_type := "";
        sec_data := Some {[ SecretKey (ClientKubeconfig (lay_auth layout)) := default "" adminConf ]};
        sec_stringData := None |})
  end.
End pki_auth.

(** ** Properties *)

Section facts.
Context `{X : X509} `{H : Hashing}.

(** The names every API-server certificate carries. *)
Definition required_sans (r : Runtime) : list string :=
  ["127.0.0.1"; "10.96.0.1"; "0.0.0.0"; "kubernetes"; "kubernetes.default";
   "kubernetes.default.svc"; "kubernetes.default.cluster"; "server.kubernetes.local";
   "api-server.kubernetes.local";
   rt_name r +:+ "." +:+ rt_namespace r +:+ ".svc.cluster.local"].

Lemma elem_of_APIServerAltNames r n :
  n ∈ APIServerAltNames r ↔
  n ≠ "" ∧ (n ∈ as_sans (cl_apiServer (rt_cluster r)) ∨ n ∈ required_sans r ∨
            n = ce_host (cpe_apiServer (cl_endpoint (rt_cluster r)))).
Proof.
  unfold APIServerAltNames. rewrite elem_of_Compact, Sort_perm, list_elem_of_filter.
  rewrite !elem_of_app. fold (required_sans r).
  case_bool_decide as E; rewrite ?elem_of_nil, ?list_elem_of_singleton; naive_solver.
Qed.

(** The SANs of the API-server certificate: sorted without duplicates or
    empty names, and exactly the user's names, the required names and the
    external host. *)
Theorem APIServerAltNames_correct r :
  StronglySorted String.le (APIServerAltNames r) ∧ NoDup (APIServerAltNames r) ∧
  ∀ n, n ∈ APIServerAltNames r ↔
    n ≠ "" ∧ (n ∈ as_sans (cl_apiServer (rt_cluster r)) ∨ n ∈ required_sans r ∨
              n = ce_host (cpe_apiServer (cl_endpoint (rt_cluster r)))).
Proof.
  destruct (Compact_StronglySorted (Sort (filter (λ s, s ≠ "")
    (as_sans (cl_apiServer (rt_cluster r)) ++ required_sans r ++
     (if bool_decide (ce_host (cpe_apiServer (cl_endpoint (rt_cluster r))) = "") then []
      else [ce_host (cpe_apiServer (cl_endpoint (rt_cluster r)))])))))
    as [Hs Hn]; [apply Sort_strongly_sorted|].
  split; [exact Hs|]. split; [exact Hn|]. intros n. apply elem_of_APIServerAltNames.
Qed.

Context (e : env).

(** A generated request asks for what it was given, with the duration wanted, under the
    public half of the key that comes with it. *)
Lemma wp_GenerateCSR q d s (Q : CertificateRequest + string → cluster → Prop) :
  (∀ m, Q (inr m) s) →
  (∀ c pub, csr_info (cr_csr c) = Some (q, pub) → ParsePrivateKeyPEM (cr_key c) = Some pub → cr_expiry c = d → Q (inl c) s) →
  wp (api_spec e) (GenerateCSR q d) s Q.
Proof using.
  intros He Hok. unfold GenerateCSR, trigger. simpl. split; [by intros m; apply He|].
  intros csr key pub Hi Hk. by apply (Hok {| cr_key := key; cr_csr := csr; cr_expiry := d |} pub).
Qed.

Lemma wp_SignCSR ca q d s (Q : Certificate + string → cluster → Prop) :
  (∀ m, Q (inr m) s) →
  (∀ c x pub, ParsePrivateKeyPEM (crt_key c) = Some pub →
     crt_cert c ≠ "" → parseCertificatePEM (crt_cert c) = inl x →
     issued ca q pub (csr_hostnames q) (c_now s) d x → Q (inl c) s) →
  wp (api_spec e) (SignCSR ca q d) s Q.
Proof.
  intros He Hok. unfold SignCSR, trigger. simpl. split; [done|].
  intros csr key pub Hcsr Hkey.
  destruct (negb _); [simpl; done|].
  destruct (ParsePrivateKeyPEM (crt_key ca)); [|simpl; done].
  simpl. split; [done|]. intros r' pub' cert x Hcsr' Hne Hx Hi.
  rewrite Hcsr in Hcsr'. simplify_eq. by eapply Hok.
Qed.

(** What a rotation leaves in place: everything but the pair of the entries
    [cert] and [key]. *)
Definition same_but (ks : list string) (s s' : Secret) : Prop :=
  (∀ k, k ∉ ks → mget (sec_data s') k = mget (sec_data s) k) ∧
  is_Some (sec_data s') ∧ is_Some (om_annotations (sec_meta s')) ∧
  om_name (sec_meta s') = om_name (sec_meta s) ∧
  om_namespace (sec_meta s') = om_namespace (sec_meta s) ∧
  om_owners (sec_meta s') = om_owners (sec_meta s) ∧
  om_labels (sec_meta s') = om_labels (sec_meta s) ∧
  om_finalizers (sec_meta s') = om_finalizers (sec_meta s) ∧
  om_deletion (sec_meta s') = om_deletion (sec_meta s) ∧
  sec_stringData s' = sec_stringData s.

Definition annotation (s : Secret) (a : string) : string :=
  default "" (mget (om_annotations (sec_meta s)) a).

Lemma wp_regenerate_leaf ca sec a csr cert key msg s
    (Q : (bool * Secret) + string → cluster → Prop) :
  is_Some (sec_data sec) → is_Some (om_annotations (sec_meta sec)) →
  (∀ m, Q (inr m) s) →
  (∀ u sec', same_but [SecretKey cert; SecretKey key] sec sec' →
     annotation sec' a = sansHash (csr_hostnames csr) →
     (∀ b, b ≠ a → annotation sec' b = annotation sec b) →
     (u = false ↔ annotation sec a = sansHash (csr_hostnames csr)) →
     (u = false → sec' = sec) →
     Q (inl (u, sec')) s) →
  wp (api_spec e) (regenerate_leaf ca sec a csr cert key msg) s Q.
Proof.
  intros [d Hd] [an Ha] He Hok. unfold regenerate_leaf.
  fold (annotation sec a). case_bool_decide as E.
  { simpl. apply Hok; [|done..]. repeat split; eauto; congruence. }
  apply wp_bind; [apply _|]. apply wp_SignCSR; [intros m; apply He|].
  intros c x pub _ _ _ _. unfold set_data, set_annotation. rewrite Hd. simpl.
  rewrite Ha. simpl. apply Hok.
  - repeat split; simpl; eauto. intros k Hk. rewrite Hd.
    unfold mget, entries; simpl. by rewrite !lookup_insert_ne by set_solver.
  - unfold annotation, mget, entries; simpl. by rewrite lookup_insert_eq.
  - intros b Hb. unfold annotation, mget, entries; simpl. rewrite Ha. simpl.
    by rewrite lookup_insert_ne.
  - naive_solver.
  - done.
Qed.

(** The entries [RegeneratePKILeafCerts] may replace. *)
Definition leaf_keys (layout : ControlPlaneLayout) : list string :=
  let pki := lay_pki layout in
  [SecretKey (APIServerCert pki); SecretKey (APIServerKey pki);
   SecretKey (PlaneTunnelCert pki); SecretKey (PlaneTunnelKey pki)].

(** The two recorded hashes agree with the SANs the spec asks for. *)
Definition hashes_current (sec : Secret) (r : Runtime) : Prop :=
  annotation sec PKIAPIServerHashAnnotation = sansHash (APIServerAltNames r) ∧
  annotation sec PKIPlaneTunnelHashAnnotation =
    sansHash (planeTunnelAltNames (ce_host (cpe_planeTunnel (cl_endpoint (rt_cluster r))))).

Lemma wp_RegeneratePKILeafCerts sec r layout s (Q : (bool * Secret) + string → cluster → Prop) :
  is_Some (sec_data sec) →
  (∀ m, Q (inr m) s) →
  (∀ u sec', same_but (leaf_keys layout) sec sec' → hashes_current sec' r →
     (u = false ↔ hashes_current sec r) →
     Q (inl (u, sec')) s) →
  wp (api_spec e) (RegeneratePKILeafCerts sec r layout) s Q.
Proof.
  intros Hd He Hok. unfold RegeneratePKILeafCerts.
  set (sec0 := match om_annotations (sec_meta sec) with None => _ | Some _ => _ end).
  assert (sec_data sec0 = sec_data sec ∧ is_Some (om_annotations (sec_meta sec0)) ∧
          (∀ b, annotation sec0 b = annotation sec b) ∧ same_but [] sec sec0)
    as (Hd0 & Ha0 & Hb0 & Hs0).
  { subst sec0. unfold same_but, annotation.
    destruct (om_annotations (sec_meta sec)) eqn:Ea; simpl; rewrite ?Ea; repeat split; eauto. }
  clearbody sec0. apply wp_bind; [apply _|].
  apply wp_regenerate_leaf; [by rewrite Hd0|done|intros m; apply He|].
  intros u1 s1 Hs1 Hh1 Ho1 Hu1 _. apply wp_bind; [apply _|].
  apply wp_regenerate_leaf; [apply Hs1|apply Hs1|intros m; apply He|].
  intros u2 s2 Hs2 Hh2 Ho2 Hu2 _. simpl. apply Hok.
  - destruct Hs0 as (K0 & ? & ? & ? & ? & ? & ? & ? & ? & ?),
             Hs1 as (K1 & ? & ? & ? & ? & ? & ? & ? & ? & ?),
             Hs2 as (K2 & ? & ? & ? & ? & ? & ? & ? & ? & ?).
    repeat split; try congruence. intros k Hk. unfold leaf_keys in Hk.
    rewrite !not_elem_of_cons in Hk. rewrite K2, K1, K0 by (rewrite ?not_elem_of_cons; tauto). done.
  - split; [|done]. by rewrite Ho2.
  - unfold hashes_current. rewrite <- !Hb0. simpl in *.
    rewrite Ho1 in Hu2 by done. destruct u1, u2; naive_solver.
Qed.
End facts.

(** Rotation keeps the CA.  Whatever the signer answers, a successful
    [RegeneratePKILeafCerts] leaves every entry of the secret but the API-server
    and plane-tunnel pairs as it was (the CA certificate and key among them),
    records the hashes of the SANs the spec asks for, and reports a change
    exactly when one of the recorded hashes was stale; it never panics on a
    secret that has data, and it performs no API call. *)
Theorem RegeneratePKILeafCerts_keeps_CA `{X : X509} `{H : Hashing} rely_ ok sec r s :
  is_Some (sec_data sec) →
  wp (api_spec {| rely := rely_; allowed := ok; may_panic := False |})
     (RegeneratePKILeafCerts sec r NewControlPlaneLayout) s
     (λ res s', s' = s ∧
        match res with
        | inl (updated, sec') =>
            (∀ k, k ∉ leaf_keys NewControlPlaneLayout →
               mget (sec_data sec') k = mget (sec_data sec) k) ∧
            mget (sec_data sec') "ca.crt" = mget (sec_data sec) "ca.crt" ∧
            mget (sec_data sec') "ca.key" = mget (sec_data sec) "ca.key" ∧
            hashes_current sec' r ∧
            (updated = false ↔ hashes_current sec r)
        | inr _ => True
        end).
Proof.
  intros Hd. apply wp_RegeneratePKILeafCerts; [done|done|].
  intros u sec' (Hk & _) Hh Hu. split; [done|].
  split; [done|]. split; [by apply Hk; vm_compute; set_solver|].
  split; [by apply Hk; vm_compute; set_solver|]. done.
Qed.

(** A secret with a CA and no recorded hash. *)
Definition example_pki_secret : Secret := {|
  sec_meta := new_meta "demo" "default" None None; sec_type := "";
  sec_data := Some {[ "ca.crt" := "CA"; "ca.key" := "KEY" ]}; sec_stringData := None |}.

Definition example_meta : AdditionalMetadata := {| am_labels := None; am_annotations := None |}.
Definition example_deployment : DeploymentSpec :=
  {| dps_metadata := example_meta; dps_replicas := Some 2%Z; dps_runtimeClassName := "";
     dps_tolerations := []; dps_affinity := None; dps_serviceAccountName := "heir";
     dps_resources := None |}.

(** A small runtime used by the witnesses. *)
Definition example_runtime : Runtime := {|
  rt_type := {| tm_apiVersion := ""; tm_kind := "" |};
  rt_meta :=
    {| om_name := "demo"; om_namespace := "default"; om_uid := "uid-1"; om_generation := 3;
       om_labels := None; om_annotations := None; om_owners := []; om_finalizers := [];
       om_deletion := None |};
  rt_spec := {|
    rts_controlPlane := {|
      cp_heirImage := "heir:1"; cp_clusterAgentImage := "agent:1";
      cp_deployment := example_deployment;
      cp_service := {| sv_metadata := example_meta; sv_additionalPorts := [];
                       sv_serviceType := "ClusterIP"; sv_apiServerNodePort := None |};
      cp_planeTunnel := {| pt_image := "tunnel:1"; pt_deployment := example_deployment;
        pt_service := {| pts_metadata := example_meta; pts_serviceType := "NodePort";
                         pts_nodePort := Some 30001%Z |} |} |};
    rts_cluster := {|
      cl_endpoint := {| cpe_apiServer := {| ce_host := "api.example.com"; ce_port := 6443 |};
                        cpe_planeTunnel := {| ce_host := "tun.example.com"; ce_port := 9445 |} |};
      cl_apiServer := {| as_sans := ["10.0.0.7"]; as_extraArgs := None |};
      cl_controllerManager := {| cms_extraArgs := None |};
      cl_scheduler := {| sch_extraArgs := None |};
      cl_network := {| net_podCIDR := "10.244.0.0/16"; net_serviceCIDR := "10.96.0.0/16";
        net_dnsDomain := "cluster.local";
        net_kubeProxy := {| kp_disabled := false;
          kp_registry := {| rs_registry := "registry.k8s.io"; rs_image := "kube-proxy:v1";
                            rs_pullPolicy := "IfNotPresent" |};
          kp_mode := "iptables"; kp_metricsBindAddress := "0.0.0.0:10249";
          kp_iptables := Json "{}"; kp_ipvs := Json "{}"; kp_nftables := Json "{}";
          kp_nodePortAddresses := []; kp_extraArgs := None |} |};
      cl_storage := {| sto_type := "kine"; sto_kine := None |};
      cl_kubelet := {| ks_extraArgs := None; ks_configPatches := "" |};
      cl_addons := {| ha_runtimeImage := ""; ha_charts := [] |} |} |};
  rt_status := {| rst_conditions := []; rst_observedGeneration := 0; rst_certificates := [] |} |}.

Lemma RegeneratePKILeafCerts_keeps_CA_witness :
  is_Some (sec_data example_pki_secret) ∧
  wp (api_spec (X := ref_x509) {| rely := eq; allowed := λ _ _, False; may_panic := False |})
     (RegeneratePKILeafCerts (X := ref_x509) (H := ref_hashing)
        example_pki_secret example_runtime NewControlPlaneLayout) empty_cluster
     (λ res s', s' = empty_cluster ∧
        match res with
        | inl (_, sec') => mget (sec_data sec') "ca.crt" = Some "CA"
        | inr _ => True
        end).
Proof.
  split; [by eexists|].
  eapply wp_mono; [apply api_spec_mono|
    apply (RegeneratePKILeafCerts_keeps_CA (X := ref_x509) (H := ref_hashing)
      eq (λ _ _, False) example_pki_secret example_runtime empty_cluster); by eexists|].
  intros [[u sec']|m] s'; [|by intros [-> _]].
  intros (-> & _ & E & _). by split.
Defined.
