(* ===== verification/Templates.v ===== *)
(** * Manifests of the control plane

    The texts of [pkg/runtime/component] the control plane applies to the tenant
    cluster: the RBAC rules for joining nodes ([bootstrap.go]), the kube-proxy
    manifest ([kube-proxy.go]) and the node profile ([node_profile.go],
    [patch.go]).  A template of the source is the text it expands to, as a
    function of the data: [text/template] copies the text and substitutes the
    fields ([pkg/templatewriter] only runs it, and a buffer accepts every write,
    so that expansion does not fail).

    The serialisers and the YAML and patch libraries are parameters
    ([Render]). *)

From S2P Require Import Prelude Effects Kube Api Pki World PkiAuth.
From stdpp Require Import options.

Definition nl : string := String (Ascii.ascii_of_nat 10) "".
Definition qt : string := String (Ascii.ascii_of_nat 34) "".

(** ** Libraries *)

(** A decoded YAML document: what the code distinguishes is maps and strings. *)
Inductive yaml :=
| YString (s : string)
| YMap (m : list (string * yaml))
| YOther (text : string).

(** Serialisers and YAML tools (not part of the repository). *)
Class Render := {
  (** [json.Marshal] of a string slice, of an opaque structure, of a map (its
      keys sorted by the library), of the endpoints. *)
  json_strings : list string → option string;
  json_opaque : json → option string;
  json_map : gomap string → option string;
  json_endpoint : ControlPlaneExternalEndpointSpec → option string;
  (** [yaml.Marshal] of a Runtime, of a map. *)
  yaml_runtime : Runtime → option string;
  yaml_map : gmap string string → option string;
  (** [yaml.Unmarshal] into a [map[string]interface{}] and [yaml.Marshal] of
      one. *)
  yaml_decode : string → option (list (string * yaml));
  yaml_encode : list (string * yaml) → option string;
  (** [yaml.YAMLToJSON], [jsonpatch.MergePatch], [yaml.JSONToYAML]. *)
  YAMLToJSON : string → option string;
  MergePatch : string → string → option string;
  JSONToYAML : string → option string;
  (** [indent] of the template function library. *)
  indent : nat → string → string;
}.

(** ** Joining nodes *)

(** [bootstrapManifest]. *)
Definition CreateBootstrapManifest : string := "
apiVersion: rbac.authorization.k8s.io/v1
kind: Role
metadata:
  name: heir:worker-profile-reader
  namespace: kube-system
  labels:
    managed-by: bootstrap
rules:
  - apiGroups: [" +:+ qt +:+ qt +:+ "]
    resources: [" +:+ qt +:+ "configmaps" +:+ qt +:+ "]
    resourceNames: [" +:+ qt +:+ "worker-profile" +:+ qt +:+ "]
    verbs: [" +:+ qt +:+ "get" +:+ qt +:+ ", " +:+ qt +:+ "watch" +:+ qt +:+ ", " +:+ qt +:+ "list" +:+ qt +:+ "]
---
apiVersion: rbac.authorization.k8s.io/v1
kind: RoleBinding
metadata:
  name: heir:worker-profile-reader
  namespace: kube-system
  labels:
    managed-by: bootstrap
subjects:
  - kind: Group
    name: system:nodes
    apiGroup: rbac.authorization.k8s.io
roleRef:
  kind: Role
  name: heir:worker-profile-reader
  apiGroup: rbac.authorization.k8s.io
---
apiVersion: rbac.authorization.k8s.io/v1
kind: ClusterRoleBinding
metadata:
  name: heir:kubelet-bootstrap
  labels:
    managed-by: bootstrap
subjects:
  - kind: Group
    name: system:bootstrappers:worker
    apiGroup: rbac.authorization.k8s.io
roleRef:
  kind: ClusterRole
  name: system:node-bootstrapper
  apiGroup: rbac.authorization.k8s.io
---
apiVersion: rbac.authorization.k8s.io/v1
kind: ClusterRoleBinding
metadata:
  name: heir:kubelet-bootstrap-auto-approve-csrs
  labels:
    managed-by: bootstrap
subjects:
  - kind: Group
    name: system:bootstrappers:worker
    apiGroup: rbac.authorization.k8s.io
roleRef:
  kind: ClusterRole
  name: system:certificates.k8s.io:certificatesigningrequests:nodeclient
  apiGroup: rbac.authorization.k8s.io
---
apiVersion: rbac.authorization.k8s.io/v1
kind: ClusterRoleBinding
metadata:
  name: heir:kubelet-cert-renew
  labels:
    managed-by: bootstrap
subjects:
  - kind: Group
    name: system:nodes
    apiGroup: rbac.authorization.k8s.io
roleRef:
  kind: ClusterRole
  name: system:certificates.k8s.io:certificatesigningrequests:selfnodeclient
  apiGroup: rbac.authorization.k8s.io
---
apiVersion: rbac.authorization.k8s.io/v1
kind: ClusterRoleBinding
metadata:
  name: system:kube-apiserver-to-kubelet
  labels:
    managed-by: bootstrap
roleRef:
  apiGroup: rbac.authorization.k8s.io
  kind: ClusterRole
  name: system:kubelet-api-admin
subjects:
- kind: User
  name: kube-apiserver
".

(** ** kube-proxy *)

Record proxyConfig := {
  px_enabled : bool;
  px_dualStack : bool;
  px_controlPlaneEndpoint : string;
  px_clusterCIDR : string;
  px_image : string;
  px_pullPolicy : string;
  px_mode : string;
  px_metricsBindAddress : string;
  px_iptables : string;
  px_ipvs : string;
  px_nftables : string;
  px_nodePortAddresses : string;
  px_args : list string;
}.

(** The [range .Args] of the template. *)
Definition proxy_args (args : list string) : string :=
  Join ((λ a, "
        - " +:+ a +:+ "
        ") <$> args) "".

(** [proxyTemplate] executed on [cfg]. *)
Definition proxyTemplate (cfg : proxyConfig) : string :=
  "
apiVersion: v1
kind: ServiceAccount
metadata:
  name: kube-proxy
  namespace: kube-system
  labels:
    managed-by: bootstrap
---
apiVersion: rbac.authorization.k8s.io/v1
kind: Role
metadata:
  labels:
    kubernetes.io/bootstrapping: rbac-defaults
    managed-by: bootstrap
  name: kube-proxy
  namespace: kube-system
rules:
  - apiGroups: [" +:+ qt +:+ qt +:+ "]
    verbs: [" +:+ qt +:+ "get" +:+ qt +:+ "]
    resources: [" +:+ qt +:+ "configmaps" +:+ qt +:+ "]
    resourceNames: [" +:+ qt +:+ "kube-proxy" +:+ qt +:+ "]
---
apiVersion: rbac.authorization.k8s.io/v1
kind: ClusterRoleBinding
metadata:
  annotations:
    rbac.authorization.kubernetes.io/autoupdate: " +:+ qt +:+ "true" +:+ qt +:+ "
  labels:
    kubernetes.io/bootstrapping: rbac-defaults
    managed-by: bootstrap
  name: node-proxier
roleRef:
  apiGroup: rbac.authorization.k8s.io
  kind: ClusterRole
  name: system:node-proxier
subjects:
- kind: ServiceAccount
  name: kube-proxy
  namespace: kube-system
---
apiVersion: rbac.authorization.k8s.io/v1
kind: RoleBinding
metadata:
  annotations:
    rbac.authorization.kubernetes.io/autoupdate: " +:+ qt +:+ "true" +:+ qt +:+ "
  labels:
    kubernetes.io/bootstrapping: rbac-defaults
    managed-by: bootstrap
  name: kube-proxy
  namespace: kube-system
roleRef:
  apiGroup: rbac.authorization.k8s.io
  kind: Role
  name: kube-proxy
subjects:
- kind: Group
  name: system:bootstrappers:worker
  apiGroup: rbac.authorization.k8s.io

---
kind: ConfigMap
apiVersion: v1
metadata:
  name: kube-proxy
  namespace: kube-system
  labels:
    app: kube-proxy
    managed-by: bootstrap
data:
  kubeconfig.conf: |-
    apiVersion: v1
    kind: Config
    clusters:
    - cluster:
        certificate-authority: /var/run/secrets/kubernetes.io/serviceaccount/ca.crt
        server: " +:+ px_controlPlaneEndpoint cfg +:+ "
      name: default
    contexts:
    - context:
        cluster: default
        namespace: default
        user: default
      name: default
    current-context: default
    users:
    - name: default
      user:
        tokenFile: /var/run/secrets/kubernetes.io/serviceaccount/token
  config.conf: |-
    apiVersion: kubeproxy.config.k8s.io/v1alpha1
    bindAddress: 0.0.0.0
    clientConnection:
      acceptContentTypes: " +:+ qt +:+ qt +:+ "
      burst: 0
      contentType: " +:+ qt +:+ qt +:+ "
      kubeconfig: /var/lib/kube-proxy/kubeconfig.conf
      qps: 0
    clusterCIDR: " +:+ px_clusterCIDR cfg +:+ "
    configSyncPeriod: 0s
    mode: " +:+ qt +:+ px_mode cfg +:+ qt +:+ "
    conntrack:
      maxPerCore: 0
      min: null
      tcpCloseWaitTimeout: null
      tcpEstablishedTimeout: null
    detectLocalMode: " +:+ qt +:+ qt +:+ "
    enableProfiling: false
    healthzBindAddress: " +:+ qt +:+ qt +:+ "
    hostnameOverride: " +:+ qt +:+ qt +:+ "
    iptables: " +:+ px_iptables cfg +:+ "
    ipvs: " +:+ px_ipvs cfg +:+ "
    nftables: " +:+ px_nftables cfg +:+ "
    kind: KubeProxyConfiguration
    metricsBindAddress: " +:+ px_metricsBindAddress cfg +:+ "
    nodePortAddresses: " +:+ px_nodePortAddresses cfg +:+ "
    oomScoreAdj: null
    portRange: " +:+ qt +:+ qt +:+ "
    showHiddenMetricsForVersion: " +:+ qt +:+ qt +:+ "
    udpIdleTimeout: 0s
    winkernel:
      enableDSR: false
      networkName: " +:+ qt +:+ qt +:+ "
      sourceVip: " +:+ qt +:+ qt +:+ "
---
apiVersion: apps/v1
kind: DaemonSet
metadata:
  labels:
    k8s-app: kube-proxy
    managed-by: bootstrap
  name: kube-proxy
  namespace: kube-system
spec:
  selector:
    matchLabels:
      k8s-app: kube-proxy
  updateStrategy:
    type: RollingUpdate
  template:
    metadata:
      labels:
        k8s-app: kube-proxy
      annotations:
        prometheus.io/scrape: 'true'
        prometheus.io/port: '10249'
    spec:
      priorityClassName: system-node-critical
      containers:
      - name: kube-proxy
        image: " +:+ px_image cfg +:+ "
        imagePullPolicy: " +:+ px_pullPolicy cfg +:+ "
        command:
        - /usr/local/bin/kube-proxy
        args:
        " +:+
  proxy_args (px_args cfg) +:+
  "
        securityContext:
          privileged: true
        volumeMounts:
        - mountPath: /var/lib/kube-proxy
          name: kube-proxy
        - mountPath: /run/xtables.lock
          name: xtables-lock
          readOnly: false
        - mountPath: /lib/modules
          name: lib-modules
          readOnly: true
        env:
          - name: NODE_NAME
            valueFrom:
              fieldRef:
                fieldPath: spec.nodeName
      hostNetwork: true
      serviceAccountName: kube-proxy
      volumes:
      - name: kube-proxy
        configMap:
          name: kube-proxy
      - name: xtables-lock
        hostPath:
          path: /run/xtables.lock
          type: FileOrCreate
      - name: lib-modules
        hostPath:
          path: /lib/modules
      tolerations:
      - operator: Exists
        effect: NoExecute
      - operator: Exists
        effect: NoSchedule
      nodeSelector:
        kubernetes.io/os: linux
".

(** ** Node profile *)

Definition clusterDNSIP : string := "10.96.0.10".

Record NodeProfileConfig := {
  npc_configMapName : string;
  npc_clientCAFile : string;
  npc_clusterDNS : string;
  npc_containerRuntimeEndpoint : string;
  npc_kubeletStaticPodPath : string;
  npc_kubeletConfigurationKey : string;
  npc_kubeletExtraArgsKey : string;
  npc_kubeletExtraArgs : string;
  npc_controlPlaneEndpointKey : string;
  npc_controlPlaneEndpoint : string;
  npc_cniProviderKey : string;
  npc_cniProvider : string;
}.

Definition cniProvider (r : Runtime) : string :=
  if existsb (λ c, bool_decide (ac_name c = "flannel") && bool_decide (ac_enabled c = Some false))
       (ha_charts (cl_addons (rt_cluster r)))
  then "custom" else "flannel".

Section node_profile.
Context `{R : Render}.

(** [NodeProfileTemplate] executed on [cfg]. *)
Definition NodeProfileTemplate (cfg : NodeProfileConfig) : string :=
  "apiVersion: v1
kind: ConfigMap
metadata:
  name: " +:+ npc_configMapName cfg +:+ "
  namespace: kube-system
  labels:
    managed-by: bootstrap
data:
  " +:+ npc_cniProviderKey cfg +:+ ": " +:+ npc_cniProvider cfg +:+ "
  " +:+ npc_controlPlaneEndpointKey cfg +:+ ": |
" +:+ indent 4 (npc_controlPlaneEndpoint cfg) +:+ "
  " +:+ npc_kubeletConfigurationKey cfg +:+ ": |
    apiVersion: kubelet.config.k8s.io/v1beta1
    authentication:
      anonymous:
        enabled: false
      webhook:
        cacheTTL: 0s
        enabled: true
      x509:
        clientCAFile: " +:+ npc_clientCAFile cfg +:+ "
    authorization:
      mode: Webhook
      webhook:
        cacheAuthorizedTTL: 0s
        cacheUnauthorizedTTL: 0s
    resolvConf: /run/systemd/resolve/resolv.conf
    cgroupDriver: systemd
    enforceNodeAllocatable: []
    clusterDNS:
    - " +:+ npc_clusterDNS cfg +:+ "
    clusterDomain: cluster.local
    containerRuntimeEndpoint: " +:+ npc_containerRuntimeEndpoint cfg +:+ "
    evictionHard:
      imagefs.available: 0%
      nodefs.available: 0%
      nodefs.inodesFree: 0%
    failSwapOn: false
    healthzBindAddress: 0.0.0.0
    healthzPort: 10248
    imageGCHighThresholdPercent: 100
    kind: KubeletConfiguration
    serverTLSBootstrap: true
    rotateCertificates: true
    staticPodPath: " +:+ npc_kubeletStaticPodPath cfg +:+ "
  " +:+ npc_kubeletExtraArgsKey cfg +:+ ": |
" +:+ indent 4 (npc_kubeletExtraArgs cfg).

Definition getNodeProfileConfig (w : WorkerContext) (r : Runtime) : NodeProfileConfig + string :=
  match json_endpoint (cl_endpoint (rt_cluster r)) with
  | None => inr "failed to marshal API server external addresses"
  | Some endpoint =>
      match yaml_map (entries (ks_extraArgs (cl_kubelet (rt_cluster r)))) with
      | None => inr "failed to marshal kubelet extra args"
      | Some extraArgs =>
          inl {| npc_configMapName := WorkerProfileConfigMapName w;
                 npc_clientCAFile := KubeletPKICaCertPath w;
                 npc_clusterDNS := clusterDNSIP;
                 npc_containerRuntimeEndpoint := ContainerdAddress w;
                 npc_kubeletStaticPodPath := KubeletStaticPodPath w;
                 npc_kubeletConfigurationKey := KubeletConfigurationNodeProfileConfigmapKey w;
                 npc_kubeletExtraArgsKey := KubeletExtraArgsNodeProfileConfigmapKey w;
                 npc_kubeletExtraArgs := extraArgs;
                 npc_controlPlaneEndpointKey := ControlPlaneEndpointNodeProfileConfigmapKey w;
                 npc_controlPlaneEndpoint := endpoint;
                 npc_cniProviderKey := CNIEnableProviderNodeProfileConfigmapKey w;
                 npc_cniProvider := cniProvider r |}
      end
  end.

Definition configPatch (baseYAML patches : string) : option string :=
  match YAMLToJSON baseYAML with
  | None => None
  | Some baseJSON =>
      match YAMLToJSON patches with
      | None => None
      | Some patchJSON =>
          match MergePatch baseJSON patchJSON with
          | None => None
          | Some current => JSONToYAML current
          end
      end
  end.

(** [m[k]] and [m[k] = v] on a decoded map. *)
Fixpoint ymap_get (m : list (string * yaml)) (k : string) : option yaml :=
  match m with
  | [] => None
  | (k', v) :: m' => if bool_decide (k' = k) then Some v else ymap_get m' k
  end.

Fixpoint ymap_set (m : list (string * yaml)) (k : string) (v : yaml) : list (string * yaml) :=
  match m with
  | [] => [(k, v)]
  | (k', v') :: m' => if bool_decide (k' = k) then (k, v) :: m' else (k', v') :: ymap_set m' k v
  end.

(** [CreateNodeProfileManifest].  The two type assertions panic when the
    decoded document has another shape; [data] is part of [cm], so that
    writing to it changes [cm]. *)
Definition CreateNodeProfileManifest (w : WorkerContext) (r : Runtime)
    : prog op (string + string) :=
  let encode cm := match yaml_encode cm with
                   | None => inr "failed to marshal the node profile"
                   | Some b => inl b
                   end in
  match getNodeProfileConfig w r with
  | inr e => Ret (inr e)
  | inl cfg =>
      match yaml_decode (NodeProfileTemplate cfg) with
      | None => Ret (inr "failed to unmarshal the node profile")
      | Some cm =>
          match ymap_get cm "data" with
          | Some (YMap data) =>
              let patches := ks_configPatches (cl_kubelet (rt_cluster r)) in
              let key := KubeletConfigurationNodeProfileConfigmapKey w in
              if bool_decide (patches = "") then Ret (encode cm)
              else
                match ymap_get data key with
                | Some (YString kubeletCfg) =>
                    match configPatch kubeletCfg patches with
                    | None => Ret (inr "failed to apply kubelet config patch")
                    | Some patched =>
                        Ret (encode (ymap_set cm "data" (YMap (ymap_set data key (YString patched)))))
                    end
                | _ => panic
                end
          | _ => panic
          end
      end
  end.
End node_profile.
