(* ===== verification/Generate.v ===== *)
(** * Generated objects

    The generators of [pkg/runtime]: the ConfigMap with the run scripts and
    manifests of the control plane ([config.go]), the Deployments and Services
    ([deployment.go], [service.go], [plane_tunnel.go], [clusteragent.go]), and
    the parts of [pkg/runtime/component] they are made of (kube-proxy flags, the
    egress-selector configuration).

    Go visits the entries of a map in an unspecified order.  Where a generator
    ranges over a map, the order is an answer of the environment ([MapOrder]),
    or an explicit argument ([RenderRunScript]).

    The section [generators] has what the Runtime controller uses of them. *)

From S2P Require Import Prelude Effects Kube Api Pki World PkiAuth Templates.
From stdpp Require Import options.

Definition ControlPlaneConfigHashAnnotation : string :=
  "controlplane.tardigrade.runtime.io/control-plane-hash".
Definition ConfigHashAnnotation : string := "heir.tardigrade.runtime.io/config-hash".
Definition ClusterAgentRuntimeHashAnnotation : string :=
  "heir.tardigrade.runtime.io/cluster-agent-runtime-hash".

(** [MergeArgs] and [mergeMaps]: the entries of [base], overridden by [extra]. *)
Definition MergeArgs (base extra : gomap string) : gmap string string :=
  entries extra ∪ entries base.

(** ** Run scripts *)

(** The loop over the sorted keys: a continuation on every line but the last. *)
Fixpoint script_lines (args : gmap string string) (keys : list string) : string :=
  match keys with
  | [] => ""
  | k :: ks =>
      let line := "  --" +:+ k +:+ "=" +:+ default "" (args !! k) in
      match ks with
      | [] => line
      | _ => line +:+ " \" +:+ nl +:+ script_lines args ks
      end
  end.

(** [RenderRunScript] when the range over [args] yields the keys as [order]. *)
Definition RenderRunScript (order : list string) (binary : string) (args : gmap string string)
    : string :=
  "#!/bin/sh" +:+ nl +:+
  (if bool_decide (args = ∅) then "exec " +:+ binary
   else "exec " +:+ binary +:+ " \" +:+ nl +:+ script_lines args (Sort order)).

(** The keys of a map in one of the orders a range may use. *)
Definition keys_of (m : gmap string string) : list string := (map_to_list m).*1.

(** ** kube-proxy flags *)

Section generate.
Context `{X : X509} `{H : Hashing} `{R : Render}.

Definition dashed (p : string * string) : string := "--" +:+ p.1 +:+ "=" +:+ p.2.

(** [getConfig]: [None] when kube-proxy is disabled.  The flags come in the
    order of the range over the argument map. *)
Definition getConfig (r : Runtime) : prog op (option proxyConfig + string) :=
  let network := cl_network (rt_cluster r) in
  let kp := net_kubeProxy network in
  if kp_disabled kp then Ret (inl None)
  else
    let args := MergeArgs
      (Some {[ "config" := "/var/lib/kube-proxy/config.conf";
               "hostname-override" := "$(NODE_NAME)" ]})
      (kp_extraArgs kp) in
    let! order := trigger (MapOrder args) in
    match json_strings (kp_nodePortAddresses kp), json_opaque (kp_iptables kp),
          json_opaque (kp_ipvs kp), json_opaque (kp_nftables kp) with
    | Some npa, Some ipt, Some ipvs, Some nft =>
        Ret (inl (Some {|
          px_enabled := true;
          px_dualStack := false;
          px_controlPlaneEndpoint := "https://127.0.0.1:6443";
          px_clusterCIDR := net_podCIDR network;
          px_image := rs_registry (kp_registry kp) +:+ "/" +:+ rs_image (kp_registry kp);
          px_pullPolicy := rs_pullPolicy (kp_registry kp);
          px_mode := kp_mode kp;
          px_metricsBindAddress := kp_metricsBindAddress kp;
          px_iptables := ipt;
          px_ipvs := ipvs;
          px_nftables := nft;
          px_nodePortAddresses := npa;
          px_args := dashed <$> order |}))
    | _, _, _, _ => Ret (inr "json")
    end.

Definition CreateKubeProxyManifest (r : Runtime) : prog op (option string + string) :=
  let! c := getConfig r in
  match c with
  | inr _ => Ret (inr "failed to create kube-proxy template configuration")
  | inl None => Ret (inl None)
  | inl (Some cfg) => Ret (inl (Some (proxyTemplate cfg)))
  end.

(** ** Egress selector *)

Record EgressSelectorConfig := {
  es_url : string;
  es_caCertPath : string;
  es_clientCertPath : string;
  es_clientKeyPath : string;
}.

(** [egressSelectorTemplate] executed on [cfg]. *)
Definition CreateEgressSelectorConfiguration (cfg : EgressSelectorConfig) : string :=
  "apiVersion: apiserver.k8s.io/v1beta1" +:+ nl +:+
  "kind: EgressSelectorConfiguration" +:+ nl +:+
  "egressSelections:" +:+ nl +:+
  "- name: cluster" +:+ nl +:+
  "  connection:" +:+ nl +:+
  "    proxyProtocol: HTTPConnect" +:+ nl +:+
  "    transport:" +:+ nl +:+
  "      tcp:" +:+ nl +:+
  "        url: " +:+ es_url cfg +:+ nl +:+
  "        tlsConfig:" +:+ nl +:+
  "          caBundle: " +:+ es_caCertPath cfg +:+ nl +:+
  "          clientCert: " +:+ es_clientCertPath cfg +:+ nl +:+
  "          clientKey: " +:+ es_clientKeyPath cfg +:+ nl.

(** ** The control-plane ConfigMap *)

Definition HashConfigData (data : gomap string) : string + string :=
  match json_map data with
  | None => inr "json"
  | Some b => inl (sha256_hex b)
  end.

Definition egress_config (r : Runtime) (layout : ControlPlaneLayout) : EgressSelectorConfig :=
  let port := to_int32 (PlaneTunnelServerEgressSelectorPort NewWorkerContextWithDefaults) in
  {| es_url := "https://" +:+ PlaneTunnelEgressName (rt_name r) +:+ ":" +:+ FormatInt port;
     es_caCertPath := MountPath (CACert (lay_pki layout));
     es_clientCertPath := MountPath (ApiServerPlaneTunnelCert (lay_pki layout));
     es_clientKeyPath := MountPath (ApiServerPlaneTunnelKey (lay_pki layout)) |}.

Definition apiServerParameters (r : Runtime) (layout : ControlPlaneLayout) : gmap string string :=
  let pki := lay_pki layout in
  list_to_map [ ("kubelet-preferred-address-types", "Hostname");
     ("egress-selector-config-file", MountPath (EgressSelector (lay_config layout)));
     ("advertise-address", "");
     ("allow-privileged", "true");
     ("endpoint-reconciler-type", "none");
     ("authorization-mode", "Node,RBAC");
     ("bind-address", "0.0.0.0");
     ("client-ca-file", MountPath (CACert pki));
     ("enable-admission-plugins",
       "NamespaceLifecycle,NodeRestriction,LimitRanger,ServiceAccount,DefaultStorageClass,ResourceQuota");
     ("etcd-servers", "http://127.0.0.1:2379");
     ("enable-bootstrap-token-auth", "true");
     ("event-ttl", "1h");
     ("kubelet-certificate-authority", MountPath (CACert pki));
     ("kubelet-client-certificate", MountPath (APIServerCert pki));
     ("kubelet-client-key", MountPath (APIServerKey pki));
     ("runtime-config", "api/all=true");
     ("service-account-issuer", "https://kubernetes.default.svc.cluster.local");
     ("service-account-key-file", MountPath (ServiceAccountCert pki));
     ("service-account-signing-key-file", MountPath (ServiceAccountKey pki));
     ("service-cluster-ip-range", net_serviceCIDR (cl_network (rt_cluster r)));
     ("service-node-port-range", "30000-32767");
     ("tls-cert-file", MountPath (APIServerCert pki));
     ("tls-private-key-file", MountPath (APIServerKey pki));
     ("v", "2") ].

Definition controllerManagerParameters (r : Runtime) (layout : ControlPlaneLayout)
    : gmap string string :=
  let pki := lay_pki layout in
  {[ "allocate-node-cidrs" := "true";
     "bind-address" := "0.0.0.0";
     "cluster-cidr" := net_podCIDR (cl_network (rt_cluster r));
     "cluster-name" := "tardigrade";
     "cluster-signing-cert-file" := MountPath (CACert pki);
     "cluster-signing-key-file" := MountPath (CAKey pki);
     "kubeconfig" := MountPath (ControllerManagerConf (lay_auth layout));
     "root-ca-file" := MountPath (CACert pki);
     "service-account-private-key-file" := MountPath (ServiceAccountKey pki);
     "service-cluster-ip-range" := net_serviceCIDR (cl_network (rt_cluster r));
     "use-service-account-credentials" := "true";
     "controllers" := "*,tokencleaner";
     "v" := "2" ]}.

Definition schedulerParameters (layout : ControlPlaneLayout) : gmap string string :=
  let conf := MountPath (SchedulerConf (lay_auth layout)) in
  {[ "authentication-kubeconfig" := conf;
     "authorization-kubeconfig" := conf;
     "bind-address" := "127.0.0.1";
     "kubeconfig" := conf;
     "leader-elect" := "true" ]}.

(** [RenderRunScript(binary, MergeArgs(defaults, extra))]. *)
Definition run_script (binary : string) (defaults : gmap string string) (extra : gomap string)
    : prog op string :=
  let args := MergeArgs (Some defaults) extra in
  let! order := trigger (MapOrder args) in
  Ret (RenderRunScript order.*1 binary args).

Definition GenerateControlPlaneConfig (r : Runtime) (layout : ControlPlaneLayout)
    : prog op ((ConfigMap * string) + string) :=
  let! kpm := CreateKubeProxyManifest r in
  match kpm with
  | inr e => Ret (inr e)
  | inl kubeProxyManifest =>
  let! np := CreateNodeProfileManifest NewWorkerContextWithDefaults r in
  match np with
  | inr e => Ret (inr e)
  | inl nodeProfile =>
      let cl := rt_cluster r in
      let! apiServerScript := run_script "/usr/local/bin/kube-apiserver"
             (apiServerParameters r layout) (as_extraArgs (cl_apiServer cl)) in
      let! controllerManagerScript := run_script "/usr/local/bin/kube-controller-manager"
             (controllerManagerParameters r layout)
             (cms_extraArgs (cl_controllerManager cl)) in
      let! schedulerScript := run_script "/usr/local/bin/kube-scheduler"
             (schedulerParameters layout) (sch_extraArgs (cl_scheduler cl)) in
      let data : gmap string string := {[
        SecretKey (APIServer (lay_config layout)) := apiServerScript;
        SecretKey (ControllerManager (lay_config layout)) := controllerManagerScript;
        SecretKey (Scheduler (lay_config layout)) := schedulerScript;
        SecretKey (EgressSelector (lay_config layout)) :=
          CreateEgressSelectorConfiguration (egress_config r layout);
        SecretKey (Bootstrap (lay_static layout)) := CreateBootstrapManifest;
        SecretKey (NodeProfileManifest (lay_static layout)) := nodeProfile;
        SecretKey (KubeProxy (lay_static layout)) := default "" kubeProxyManifest ]} in
      match HashConfigData (Some data) with
      | inr e => Ret (inr e)
      | inl desiredHash =>
          Ret (inl ({|
            cm_meta := new_meta (rt_name r) (rt_namespace r)
              (Some (heir_labels (rt_name r)))
              (Some {[ DeletionProtectionAnnotation := "false";
                       ControlPlaneConfigHashAnnotation := desiredHash ]});
            cm_data := Some data |}, desiredHash))
      end
  end end.

(** ** Deployments *)

(** The [WithAnnotation] options, applied in order. *)
Definition deploy_annotations (opts : list (string * string)) : gmap string string :=
  foldl (λ m '(k, v), <[k := v]> m) ∅ opts.

Definition runtimeClass (d : DeploymentSpec) : option string :=
  if bool_decide (dps_runtimeClassName d = "") then None else Some (dps_runtimeClassName d).

Definition mount (vol : string) (m : MountEntry) : VolumeMount :=
  {| vm_name := vol; vm_mountPath := MountPath m; vm_subPath := SecretKey m;
     vm_readOnly := true |}.

Definition deploymentPorts (ports : list AdditionalPort) : list ContainerPort :=
  ((λ p, {| cp_name := ap_name p; cp_port := ap_port p; cp_protocol := ap_protocol p |})
     <$> ports) ++
  [{| cp_name := "apiserver"; cp_port := 6443; cp_protocol := "TCP" |}].

(** The storage endpoint variable.  [storage.Kine.DataSourceRef.Name] is read
    without a nil check on [DataSourceRef]. *)
Definition storage_env (st : StorageSpec) : prog op (list EnvVar) :=
  if bool_decide (sto_type st = "kine") then
    match sto_kine st with
    | None => Ret []
    | Some k =>
        match kine_dataSourceRef k with
        | None => panic
        | Some ref =>
            if bool_decide (sks_name ref = "") then Ret []
            else Ret [{| ev_name := "HEIR_STORAGE_ENDPOINT";
                         ev_source := EnvSecretKey (sks_name ref) (sks_key ref) |}]
        end
    end
  else Ret [].

Definition control_plane_mounts (layout : ControlPlaneLayout) : list VolumeMount :=
  [ {| vm_name := "pki-auth"; vm_mountPath := "/etc/kubernetes/pki"; vm_subPath := "";
       vm_readOnly := true |};
    mount "pki-auth" (AdminConf (lay_auth layout));
    mount "pki-auth" (ControllerManagerConf (lay_auth layout));
    mount "pki-auth" (SchedulerConf (lay_auth layout));
    mount "config" (APIServer (lay_config layout));
    mount "config" (ControllerManager (lay_config layout));
    mount "config" (Scheduler (lay_config layout));
    mount "config" (EgressSelector (lay_config layout));
    mount "static-config" (Bootstrap (lay_static layout));
    mount "static-config" (KubeProxy (lay_static layout));
    mount "static-config" (NodeProfileManifest (lay_static layout)) ].

Definition GenerateDeployment (r : Runtime) (layout : ControlPlaneLayout)
    (opts : list (string * string)) : prog op (Deployment + string) :=
  let ds := cp_deployment (rt_controlPlane r) in
  let labels := heir_labels (rt_name r) in
  let! env := storage_env (cl_storage (rt_cluster r)) in
  Ret (inl {|
    dep_meta := new_meta (rt_name r) (rt_namespace r) (Some labels)
      (Some {[ DeletionProtectionAnnotation := "false" ]});
    dep_spec := {|
      ds_replicas := dps_replicas ds;
      ds_selector := labels;
      ds_template := {|
        pt_labels := MergeArgs (Some labels) (am_labels (dps_metadata ds));
        pt_annotations := MergeArgs (Some (deploy_annotations opts))
                            (am_annotations (dps_metadata ds));
        pt_spec := {|
          ps_serviceAccountName := dps_serviceAccountName ds;
          ps_runtimeClassName := runtimeClass ds;
          ps_tolerations := dps_tolerations ds;
          ps_affinity := dps_affinity ds;
          ps_containers := [ {|
            ct_name := "heir"; ct_image := cp_heirImage (rt_controlPlane r);
            ct_command := []; ct_args := [];
            ct_ports := deploymentPorts (sv_additionalPorts (cp_service (rt_controlPlane r)));
            ct_env := env; ct_mounts := control_plane_mounts layout;
            ct_resources := None |} ];
          ps_volumes := [
            {| vol_name := "pki-auth"; vol_source := VSecret (rt_name r) |};
            {| vol_name := "config"; vol_source := VConfigMap (rt_name r) 493 |};
            {| vol_name := "static-config"; vol_source := VConfigMap (rt_name r) 493 |} ] |} |} |} |}).

Definition ClusterAgentRuntimeSecretName (n : string) : string :=
  n +:+ "-cluster-agent-runtime".

Definition GenerateClusterAgentDeployment (r : Runtime) (layout : ControlPlaneLayout)
    (opts : list (string * string)) : Deployment :=
  let ds := cp_deployment (rt_controlPlane r) in
  let name := rt_name r +:+ "-cluster-agent" in
  let labels := heir_labels name in
  {| dep_meta := new_meta name (rt_namespace r) (Some labels) None;
     dep_spec := {|
       ds_replicas := Some 1%Z;
       ds_selector := labels;
       ds_template := {|
         pt_labels := MergeArgs (Some labels) (am_labels (dps_metadata ds));
         pt_annotations := MergeArgs (Some (deploy_annotations opts))
                             (am_annotations (dps_metadata ds));
         pt_spec := {|
           ps_serviceAccountName := dps_serviceAccountName ds;
           ps_runtimeClassName := runtimeClass ds;
           ps_tolerations := dps_tolerations ds;
           ps_affinity := dps_affinity ds;
           ps_containers := [ {|
             ct_name := "clusteragent";
             ct_image := cp_clusterAgentImage (rt_controlPlane r);
             ct_command := ["/clusteragent"]; ct_args := []; ct_ports := [];
             ct_env := [{| ev_name := "KUBECONFIG";
                           ev_source := EnvValue (MountPath (AdminConf (lay_auth layout))) |}];
             ct_mounts := [ mount "pki-auth" (AdminConf (lay_auth layout));
                            mount "pki-auth" (CACert (lay_pki layout));
                            mount "runtime-manifest" (lay_runtimeManifest layout) ];
             ct_resources := None |} ];
           ps_volumes := [
             {| vol_name := "pki-auth"; vol_source := VSecret (rt_name r) |};
             {| vol_name := "runtime-manifest";
                vol_source := VSecret (ClusterAgentRuntimeSecretName (rt_name r)) |} ] |} |} |} |}.

(** The manifest mounted into the cluster agent: the Runtime without status. *)
Definition cluster_agent_manifest (r : Runtime) : Runtime :=
  {| rt_type := {| tm_apiVersion := "controlplane.tardigrade.runtime.io/v1alpha1";
                   tm_kind := "Runtime" |};
     rt_meta := rt_meta r; rt_spec := rt_spec r;
     rt_status := {| rst_conditions := []; rst_observedGeneration := 0;
                     rst_certificates := [] |} |}.

Definition GenerateClusterAgentRuntimeSecret (r : Runtime) (layout : ControlPlaneLayout)
    : Secret + string :=
  match yaml_runtime (cluster_agent_manifest r) with
  | None => inr "failed to marshal runtime manifest"
  | Some data =>
      inl {| sec_meta := new_meta (ClusterAgentRuntimeSecretName (rt_name r)) (rt_namespace r)
               (Some (heir_labels (rt_name r +:+ "-cluster-agent"))) None;
             sec_type := "";
             sec_data := Some {[ SecretKey (lay_runtimeManifest layout) := data ]};
             sec_stringData := None |}
  end.

(** The arguments of the tunnel server. *)
Definition plane_tunnel_args (w : WorkerContext) (r : Runtime) (layout : ControlPlaneLayout)
    : list string :=
  let pki := lay_pki layout in
  [ "server";
    "--tunnel-cert"; MountPath (PlaneTunnelCert pki);
    "--tunnel-key"; MountPath (PlaneTunnelKey pki);
    "--tunnel-ca-cert"; MountPath (CACert pki);
    "--tunnel-addr"; ":" +:+ FormatInt (PlaneTunnelServerServer w);
    "--egress-cert"; MountPath (ApiServerPlaneTunnelCert pki);
    "--egress-key"; MountPath (ApiServerPlaneTunnelKey pki);
    "--egress-ca-cert"; MountPath (CACert pki);
    "--egress-addr"; ":" +:+ FormatInt (PlaneTunnelServerEgressSelectorPort w);
    "--replica-discovery-dns";
    PlaneTunnelHeadlessName (rt_name r) +:+ "." +:+ rt_namespace r +:+ ".svc.cluster.local" ].

Definition GeneratePlaneTunnelDeployment (w : WorkerContext) (r : Runtime)
    (layout : ControlPlaneLayout) (opts : list (string * string)) : Deployment :=
  let spec := cp_planeTunnel (rt_controlPlane r) in
  let ds := pt_deployment spec in
  let labels := heir_labels (PlaneTunnelName (rt_name r)) in
  let pki := lay_pki layout in
  {| dep_meta := new_meta (PlaneTunnelName (rt_name r)) (rt_namespace r) (Some labels) None;
     dep_spec := {|
       ds_replicas := dps_replicas ds;
       ds_selector := labels;
       ds_template := {|
         pt_labels := MergeArgs (Some labels) (am_labels (dps_metadata ds));
         pt_annotations := MergeArgs (Some (deploy_annotations opts))
                             (am_annotations (dps_metadata ds));
         pt_spec := {|
           ps_serviceAccountName := dps_serviceAccountName ds;
           ps_runtimeClassName := runtimeClass ds;
           ps_tolerations := dps_tolerations ds;
           ps_affinity := dps_affinity ds;
           ps_volumes := [ {| vol_name := "pki"; vol_source := VSecret (rt_name r) |} ];
           ps_containers := [ {|
             ct_name := "tunnel-server"; ct_image := pt_image spec; ct_command := [];
             ct_args := plane_tunnel_args w r layout;
             ct_ports := [
               {| cp_name := "tunnel"; cp_port := to_int32 (PlaneTunnelServerServer w);
                  cp_protocol := "TCP" |};
               {| cp_name := "egress-selector";
                  cp_port := to_int32 (PlaneTunnelServerEgressSelectorPort w);
                  cp_protocol := "TCP" |} ];
             ct_env := [];
             ct_mounts := [ mount "pki" (CACert pki); mount "pki" (PlaneTunnelCert pki);
                            mount "pki" (PlaneTunnelKey pki);
                            mount "pki" (ApiServerPlaneTunnelCert pki);
                            mount "pki" (ApiServerPlaneTunnelKey pki) ];
             ct_resources := dps_resources ds |} ] |} |} |} |}.

(** ** Services *)

Definition GenerateService (r : Runtime) : Service :=
  let sv := cp_service (rt_controlPlane r) in
  let selectorLabels := heir_labels (rt_name r) in
  {| svc_meta := new_meta (rt_name r) (rt_namespace r)
       (Some (MergeArgs (Some selectorLabels) (am_labels (sv_metadata sv))))
       (Some (MergeArgs (Some {[ DeletionProtectionAnnotation := "false" ]})
                        (am_annotations (sv_metadata sv))));
     svc_spec := {|
       ss_type := sv_serviceType sv;
       ss_selector := selectorLabels;
       ss_clusterIP := "";
       ss_ports :=
         {| sp_name := "apiserver"; sp_port := 6443; sp_targetPort := FromInt 6443;
            sp_protocol := "TCP"; sp_nodePort := default 0%Z (sv_apiServerNodePort sv);
            sp_appProtocol := None |} ::
         ((λ p, {| sp_name := ap_name p; sp_port := ap_port p; sp_targetPort := ap_targetPort p;
                   sp_protocol := ap_protocol p; sp_nodePort := 0;
                   sp_appProtocol := ap_appProtocol p |}) <$> sv_additionalPorts sv) |} |}.

Definition GeneratePlaneTunnelService (w : WorkerContext) (r : Runtime) : list Service :=
  let selectorLabels := heir_labels (PlaneTunnelName (rt_name r)) in
  let sv := pt_service (cp_planeTunnel (rt_controlPlane r)) in
  let tunnelPort := to_int32 (PlaneTunnelServerServer w) in
  let egressPort := to_int32 (PlaneTunnelServerEgressSelectorPort w) in
  let port name p target nodePort :=
    {| sp_name := name; sp_port := p; sp_targetPort := FromInt target; sp_protocol := "TCP";
       sp_nodePort := nodePort; sp_appProtocol := None |} in
  [ {| svc_meta := new_meta (PlaneTunnelHeadlessName (rt_name r)) (rt_namespace r)
         (Some selectorLabels) None;
       svc_spec := {| ss_type := ""; ss_clusterIP := "None"; ss_selector := selectorLabels;
                      ss_ports := [port "tunnel" tunnelPort 8443%Z 0%Z] |} |};
    {| svc_meta := new_meta (PlaneTunnelName (rt_name r)) (rt_namespace r)
         (Some selectorLabels) None;
       svc_spec := {| ss_type := pts_serviceType sv; ss_clusterIP := "";
                      ss_selector := selectorLabels;
                      ss_ports := [port "tunnel" tunnelPort tunnelPort
                                     (default 0%Z (pts_nodePort sv))] |} |};
    {| svc_meta := new_meta (PlaneTunnelEgressName (rt_name r)) (rt_namespace r)
         (Some selectorLabels) None;
       svc_spec := {| ss_type := "ClusterIP"; ss_clusterIP := "";
                      ss_selector := selectorLabels;
                      ss_ports := [port "egress-selector" egressPort egressPort 0%Z] |} |} ].

(** ** Hash of secret data ([pkg/util/hash.go]) *)

(** Keys sorted; key and value bytes are written one after the other. *)
Definition HashSecretData (order : list string) (data : gmap string string) : string :=
  sha256_hex (Join ((λ k, k +:+ default "" (data !! k)) <$> Sort order) "").
End generate.

(** ** Properties *)

Section scripts.
Definition flag_line (args : gmap string string) (k : string) : string :=
  "  --" +:+ k +:+ "=" +:+ default "" (args !! k).

Lemma script_lines_Join args ks :
  script_lines args ks = Join (flag_line args <$> ks) (" \" +:+ nl).
Proof.
  induction ks as [|k ks IH]; [done|].
  destruct ks as [|k' ks]; [done|].
  change (script_lines args (k :: k' :: ks)) with
    (flag_line args k +:+ " \" +:+ nl +:+ script_lines args (k' :: ks)).
  rewrite IH. simpl. by rewrite !string_app_assoc.
Qed.

Lemma RenderRunScript_order binary args o1 o2 :
  o1 ≡ₚ o2 → RenderRunScript o1 binary args = RenderRunScript o2 binary args.
Proof. intros E. unfold RenderRunScript. by rewrite (Sort_unique o1 o2 E). Qed.
End scripts.

(** A run script depends on the arguments only: in whatever order the
    range over the merged map yields them, the script is the same text, one
    [--key=value] line per merged argument in increasing key order, and a
    user's extra argument replaces the default of the same name. *)
Theorem run_script_deterministic `{X : X509} (e : env) binary defaults extra s :
  defaults ≠ ∅ →
  let args := entries extra ∪ defaults in
  wp (api_spec e) (run_script binary defaults extra) s
     (λ script s', s' = s ∧
        script = "#!/bin/sh" +:+ nl +:+ "exec " +:+ binary +:+ " \" +:+ nl +:+
          Join (flag_line args <$> Sort (keys_of args)) (" \" +:+ nl)).
Proof.
  intros Hne args. unfold run_script, trigger. simpl. intros l Hl. split; [done|].
  change (MergeArgs (Some defaults) extra) with args in *.
  rewrite (RenderRunScript_order _ _ _ (keys_of args)); [|by apply fmap_Permutation].
  unfold RenderRunScript. rewrite bool_decide_false; [by rewrite script_lines_Join|].
  unfold args. intros E. apply Hne. apply map_eq. intros k.
  apply (f_equal (.!! k)) in E. rewrite lookup_empty, lookup_union_None in E.
  rewrite lookup_empty. apply E.
Qed.

Definition example_env : env :=
  {| rely := eq; allowed := λ _ _, True; may_panic := False |}.

Lemma run_script_deterministic_witness :
  let m : gmap string string := {[ "v" := "2" ]} in
  (m ≠ ∅) ∧
  wp (api_spec (X := ref_x509) example_env)
     (run_script "/bin/x" m (Some {[ "v" := "3" ]})) empty_cluster
     (λ script s', s' = empty_cluster ∧
        script = "#!/bin/sh" +:+ nl +:+ "exec /bin/x \" +:+ nl +:+ "  --v=3").
Proof.
  intros m. split; [done|].
  eapply wp_mono; [apply api_spec_mono|
    apply (run_script_deterministic (X := ref_x509) example_env "/bin/x" {["v" := "2"]}
       (Some {["v" := "3"]}) empty_cluster); done|].
  intros a s' [-> ->]. split; [done|]. vm_compute. reflexivity.
Defined.

Section kube_proxy.
Context `{X : X509} `{R : Render}.

Lemma kube_proxy_orders (extra : gomap string) :
  let args := MergeArgs (Some {[ "config" := "/var/lib/kube-proxy/config.conf";
                                 "hostname-override" := "$(NODE_NAME)" ]}) extra in
  ∃ v1 v2 l1 l2, ("config", v1) :: l1 ≡ₚ map_to_list args ∧
    ("hostname-override", v2) :: l2 ≡ₚ map_to_list args.
Proof.
  intros args.
  assert (is_Some (args !! "config") ∧ is_Some (args !! "hostname-override")) as [[v1 H1] [v2 H2]].
  { unfold args, MergeArgs. rewrite !lookup_union. simpl.
    destruct (entries extra !! "config"), (entries extra !! "hostname-override");
      simpl; eauto. }
  exists v1, v2, (map_to_list (delete "config" args)),
    (map_to_list (delete "hostname-override" args)).
  split; symmetry; by rewrite <- map_to_list_delete.
Qed.
End kube_proxy.

(** The kube-proxy flags are not determined by the Runtime: as soon as
    kube-proxy is enabled, no configuration is the one every execution of
    [getConfig] returns, because the flags follow the unspecified order of the
    range over the argument map.  The rendered manifest is part of the hashed
    ConfigMap data. *)
Theorem getConfig_not_deterministic `{X : X509} `{R : Render} (e : env) r s :
  kp_disabled (net_kubeProxy (cl_network (rt_cluster r))) = false →
  (∀ l, is_Some (json_strings l)) → (∀ j, is_Some (json_opaque j)) →
  ∀ c, ¬ wp (api_spec e) (getConfig r) s (λ res _, res = c).
Proof.
  intros Hd Hs Hj c. unfold getConfig, trigger. rewrite Hd. simpl. intros Hall.
  destruct (kube_proxy_orders (kp_extraArgs (net_kubeProxy (cl_network (rt_cluster r)))))
    as (v1 & v2 & l1 & l2 & P1 & P2).
  pose proof (Hall _ P1) as A1. pose proof (Hall _ P2) as A2. clear Hall P1 P2.
  destruct (Hs (kp_nodePortAddresses (net_kubeProxy (cl_network (rt_cluster r))))) as [? E1].
  destruct (Hj (kp_iptables (net_kubeProxy (cl_network (rt_cluster r))))) as [? E2].
  destruct (Hj (kp_ipvs (net_kubeProxy (cl_network (rt_cluster r))))) as [? E3].
  destruct (Hj (kp_nftables (net_kubeProxy (cl_network (rt_cluster r))))) as [? E4].
  rewrite E1, E2, E3, E4 in A1, A2. simpl in A1, A2. rewrite <- A2 in A1.
  injection A1 as A _. discriminate A.
Qed.

(** A concrete instance of the serialisers. *)
Definition ref_render : Render := {|
  json_strings l := Some (Join l ",");
  json_opaque j := Some (json_text j);
  json_map m := Some (Join ((λ p, p.1 +:+ p.2) <$> map_to_list (entries m)) ",");
  json_endpoint e := Some (ce_host (cpe_apiServer e));
  yaml_runtime r := Some (rt_name r);
  yaml_map m := Some (enc m);
  yaml_decode text := Some [("kind", YString text); ("data", YMap [])];
  yaml_encode m := match ymap_get m "kind" with Some (YString s) => Some s | _ => None end;
  YAMLToJSON := Some;
  MergePatch base patch := Some (base +:+ patch);
  JSONToYAML := Some;
  indent n s := Join (repeat " " n) "" +:+ s;
|}.

Lemma getConfig_not_deterministic_witness :
  kp_disabled (net_kubeProxy (cl_network (rt_cluster example_runtime))) = false ∧
  ∀ c, ¬ wp (api_spec (X := ref_x509) example_env) (getConfig (R := ref_render) example_runtime)
             empty_cluster (λ res _, res = c).
Proof.
  split; [reflexivity|].
  apply (getConfig_not_deterministic (X := ref_x509) (R := ref_render) example_env
           example_runtime empty_cluster).
  - reflexivity.
  - intros l. by eexists.
  - intros j. by eexists.
Defined.

(** The storage stanza that has no data source. *)
Definition kine_without_source (st : StorageSpec) : Prop :=
  sto_type st = "kine" ∧ ∃ k, sto_kine st = Some k ∧ kine_dataSourceRef k = None.

(** C35.  [GenerateDeployment] completes exactly when the storage stanza is not
    a kine one without data source; with such a stanza it panics, although the
    field is optional and documented as defaulting to SQLite. *)
Theorem GenerateDeployment_panics_iff `{X : X509} rely_ ok r layout opts s :
  wp (api_spec {| rely := rely_; allowed := ok; may_panic := False |})
     (GenerateDeployment r layout opts) s (λ _ _, True) ↔
  ¬ kine_without_source (cl_storage (rt_cluster r)).
Proof.
  unfold GenerateDeployment, storage_env, kine_without_source.
  case_bool_decide as Et; [|simpl; tauto].
  destruct (sto_kine _) as [k|]; [|simpl; naive_solver].
  destruct (kine_dataSourceRef k) as [ref|] eqn:Er.
  - case_bool_decide; simpl; naive_solver.
  - simpl. naive_solver.
Qed.

(** ** Consistency of the generated objects *)

(** The container [c] of a pod finds at [path] the entry [key] of the Secret
    [secret]. *)
Definition sees_secret_file (p : PodSpec) (c : Container) (secret path key : string) : Prop :=
  ∃ m v, m ∈ ct_mounts c ∧ v ∈ ps_volumes p ∧
    vm_name m = vol_name v ∧ vol_source v = VSecret secret ∧
    vm_mountPath m = path ∧ vm_subPath m = key.

(** The value of a [--flag value] argument pair. *)
Fixpoint flag_value (f : string) (args : list string) : option string :=
  match args with
  | a :: ((v :: _) as rest) => if bool_decide (a = f) then Some v else flag_value f rest
  | _ => None
  end.

(** Every certificate, key and CA path passed to the tunnel server is a
    file its container mounts from the PKI Secret of the runtime, and the entry
    it mounts is one that [GeneratePKIAuthSecret] fills. *)
Theorem plane_tunnel_paths_mounted w r opts f path :
  let d := GeneratePlaneTunnelDeployment w r NewControlPlaneLayout opts in
  let p := pt_spec (ds_template (dep_spec d)) in
  f ∈ ["--tunnel-cert"; "--tunnel-key"; "--tunnel-ca-cert";
       "--egress-cert"; "--egress-key"; "--egress-ca-cert"] →
  flag_value f (plane_tunnel_args w r NewControlPlaneLayout) = Some path →
  ∃ c key, ps_containers p = [c] ∧ ct_args c = plane_tunnel_args w r NewControlPlaneLayout ∧
    sees_secret_file p c (rt_name r) path key ∧
    ∀ ca tunnel egress api sa ac cc sc,
      is_Some (pki_secret_data NewControlPlaneLayout ca tunnel egress api sa ac cc sc !! key).
Proof.
  intros d p Hf Hv.
  assert (path ∈ MountPath <$> [CACert (lay_pki NewControlPlaneLayout);
            PlaneTunnelCert (lay_pki NewControlPlaneLayout);
            PlaneTunnelKey (lay_pki NewControlPlaneLayout);
            ApiServerPlaneTunnelCert (lay_pki NewControlPlaneLayout);
            ApiServerPlaneTunnelKey (lay_pki NewControlPlaneLayout)]) as Hp.
  { rewrite !elem_of_cons, elem_of_nil in Hf.
    destruct Hf as [->|[->|[->|[->|[->|[->|[]]]]]]]; simpl in Hv; injection Hv as <-;
      vm_compute; set_solver. }
  apply list_elem_of_fmap in Hp as (m & -> & Hm).
  eexists _, (SecretKey m). split; [reflexivity|]. split; [reflexivity|]. split.
  - exists (mount "pki" m), {| vol_name := "pki"; vol_source := VSecret (rt_name r) |}.
    repeat split; [|set_solver]. simpl.
    rewrite !elem_of_cons, elem_of_nil in Hm. set_solver.
  - intros. rewrite !elem_of_cons, elem_of_nil in Hm.
    destruct Hm as [->|[->|[->|[->|[->|[]]]]]]; by eexists.
Qed.

Lemma plane_tunnel_paths_mounted_witness :
  let w := NewWorkerContextWithDefaults in
  let r := example_runtime in
  flag_value "--egress-key" (plane_tunnel_args w r NewControlPlaneLayout) =
    Some "/etc/kubernetes/pki/apiserver-plane-tunnel.key" ∧
  ∃ c key, ps_containers (pt_spec (ds_template (dep_spec
               (GeneratePlaneTunnelDeployment w r NewControlPlaneLayout [])))) = [c] ∧
    key = "apiserver-plane-tunnel.key" ∧ ct_name c = "tunnel-server".
Proof.
  intros w r. split; [reflexivity|].
  destruct (plane_tunnel_paths_mounted w r [] "--egress-key"
              "/etc/kubernetes/pki/apiserver-plane-tunnel.key") as (c & key & Hc & _).
  - set_solver.
  - reflexivity.
  - exists c, "apiserver-plane-tunnel.key". split; [exact Hc|]. split; [reflexivity|].
    injection Hc as <-. reflexivity.
Defined.

(** The API server reaches the tunnel: the host of the egress-selector URL
    is the name of one of the generated Services and the only SAN of the
    certificate served there, its port is the Service's port, the Service's
    target port is the port the tunnel server is told to listen on, and the
    Service selects the labels the tunnel Deployment selects. *)
Theorem egress_path_consistent r opts :
  let w := NewWorkerContextWithDefaults in
  let d := GeneratePlaneTunnelDeployment w r NewControlPlaneLayout opts in
  ∃ svc port q,
    svc ∈ GeneratePlaneTunnelService w r ∧
    es_url (egress_config r NewControlPlaneLayout) =
      "https://" +:+ om_name (svc_meta svc) +:+ ":" +:+ FormatInt (sp_port port) ∧
    ss_ports (svc_spec svc) = [port] ∧
    sp_targetPort port = FromInt (PlaneTunnelServerEgressSelectorPort w) ∧
    flag_value "--egress-addr" (plane_tunnel_args w r NewControlPlaneLayout) =
      Some (":" +:+ FormatInt (PlaneTunnelServerEgressSelectorPort w)) ∧
    ss_selector (svc_spec svc) = ds_selector (dep_spec d) ∧
    q ∈ component_CSRs r ∧ csr_o q = "system:apiserver:plane-tunnel" ∧
    csr_hostnames q = [om_name (svc_meta svc)].
Proof.
  intros w d. do 3 eexists.
  split; [right; right; left|].
  split; cycle 1.
  { split; [reflexivity|]. do 3 (split; [reflexivity|]). split; [right; left|]. done. }
  reflexivity.
Qed.

Section selectors.
(** User labels that do not rebind a label of the selector. *)
Definition labels_compatible (labels : gmap string string) (extra : gomap string) : Prop :=
  ∀ k v, labels !! k = Some v → mget extra k = None ∨ mget extra k = Some v.

Lemma MergeArgs_subseteq labels extra :
  labels ⊆ MergeArgs (Some labels) extra ↔ labels_compatible labels extra.
Proof.
  unfold labels_compatible, MergeArgs, mget. rewrite map_subseteq_spec. simpl.
  setoid_rewrite lookup_union. split; intros Hl k v Hk; specialize (Hl k v Hk);
    rewrite Hk in *; destruct (entries extra !! k); simpl in *; naive_solver.
Qed.

Definition selects_own_pods (d : Deployment) : Prop :=
  ds_selector (dep_spec d) ⊆ pt_labels (ds_template (dep_spec d)).
End selectors.

(** A generated Deployment selects the pods it creates (otherwise the API
    server refuses it) exactly when the user's additional labels do not rebind
    the two labels of the selector; this holds for the tunnel, the cluster-agent
    and the control-plane Deployment. *)
Theorem selectors_match_iff `{X : X509} w r opts e s :
  let own n extra := labels_compatible (heir_labels n) extra in
  let user := am_labels (dps_metadata (cp_deployment (rt_controlPlane r))) in
  let tuser := am_labels (dps_metadata (pt_deployment (cp_planeTunnel (rt_controlPlane r)))) in
  (selects_own_pods (GeneratePlaneTunnelDeployment w r NewControlPlaneLayout opts) ↔
     own (PlaneTunnelName (rt_name r)) tuser) ∧
  (selects_own_pods (GenerateClusterAgentDeployment r NewControlPlaneLayout opts) ↔
     own (rt_name r +:+ "-cluster-agent") user) ∧
  (¬ kine_without_source (cl_storage (rt_cluster r)) →
   wp (api_spec e) (GenerateDeployment r NewControlPlaneLayout opts) s
     (λ res _, ∃ d, res = inl d ∧ (selects_own_pods d ↔ own (rt_name r) user))).
Proof.
  intros own user tuser. split; [apply MergeArgs_subseteq|]. split; [apply MergeArgs_subseteq|].
  intros Hk. unfold GenerateDeployment, storage_env.
  apply wp_bind; [apply _|]. case_bool_decide as Et;
    [destruct (sto_kine _) as [k|] eqn:Ek; [destruct (kine_dataSourceRef k) as [ref|] eqn:Er;
      [case_bool_decide|]|]|]; simpl;
    try (eexists; split; [reflexivity|]; apply MergeArgs_subseteq).
  destruct Hk. split; [done|]. eauto.
Qed.

Lemma selectors_match_iff_witness :
  let r := example_runtime in
  ¬ kine_without_source (cl_storage (rt_cluster r)) ∧
  selects_own_pods (GeneratePlaneTunnelDeployment NewWorkerContextWithDefaults r
                      NewControlPlaneLayout []) ∧
  wp (api_spec (X := ref_x509) example_env) (GenerateDeployment r NewControlPlaneLayout [])
    empty_cluster (λ res _, ∃ d, res = inl d ∧ selects_own_pods d).
Proof.
  intros r. assert (¬ kine_without_source (cl_storage (rt_cluster r))) as Hk.
  { intros (_ & k & ? & _). discriminate. }
  split; [exact Hk|].
  destruct (selectors_match_iff (X := ref_x509) NewWorkerContextWithDefaults r [] example_env
              empty_cluster) as (H1 & _ & H3).
  split; [apply H1; intros ???; by left|].
  eapply wp_mono; [apply api_spec_mono|exact (H3 Hk)|].
  intros res s' (d & -> & Hd). exists d. split; [reflexivity|]. apply Hd. intros ???; by left.
Defined.

(** ** The generators against the interface

    They perform no call that changes the cluster. *)

Section generators.
Context `{X : X509} `{H : Hashing} `{R : Render} (e : env).

Lemma wp_GenerateDeployment r lay opts s (Q : Deployment + string → cluster → Prop) :
  may_panic e →
  (∀ d, meta_key (dep_meta d) = NN (rt_namespace r) (rt_name r) → Q (inl d) s) →
  wp (api_spec e) (GenerateDeployment r lay opts) s Q.
Proof.
  intros Hp HQ. unfold GenerateDeployment, storage_env.
  apply wp_bind; [apply _|]. repeat case_match; simpl; auto.
Qed.

Lemma wp_CreateKubeProxyManifest r s (Q : option string + string → cluster → Prop) :
  (∀ x, Q x s) → wp (api_spec e) (CreateKubeProxyManifest r) s Q.
Proof.
  intros HQ. unfold CreateKubeProxyManifest, getConfig.
  apply wp_bind; [apply _|]. case_match; simpl; [auto|]. intros l _.
  repeat case_match; simpl; repeat case_match; simpl; auto.
Qed.

Lemma wp_run_script binary defaults extra s (Q : string → cluster → Prop) :
  (∀ x, Q x s) → wp (api_spec e) (run_script binary defaults extra) s Q.
Proof. intros HQ l _. apply HQ. Qed.

Lemma wp_CreateNodeProfileManifest w r s (Q : string + string → cluster → Prop) :
  may_panic e → (∀ x, Q x s) → wp (api_spec e) (CreateNodeProfileManifest w r) s Q.
Proof.
  intros Hp HQ. unfold CreateNodeProfileManifest. repeat case_match; simpl; auto.
Qed.

Lemma wp_GenerateControlPlaneConfig r lay s (Q : (ConfigMap * string) + string → cluster → Prop) :
  may_panic e →
  (∀ m, Q (inr m) s) →
  (∀ cm h, meta_key (cm_meta cm) = NN (rt_namespace r) (rt_name r) →
     HashConfigData (cm_data cm) = inl h → Q (inl (cm, h)) s) →
  wp (api_spec e) (GenerateControlPlaneConfig r lay) s Q.
Proof.
  intros Hp He HQ. unfold GenerateControlPlaneConfig.
  apply wp_bind; [apply _|]. apply wp_CreateKubeProxyManifest. intros [kp|m]; [|apply He].
  apply wp_bind; [apply _|]. apply wp_CreateNodeProfileManifest; [done|].
  intros [np|m]; [|apply He].
  do 3 (apply wp_bind; [apply _|]; apply wp_run_script; intros ?).
  match goal with |- context [HashConfigData ?d] => destruct (HashConfigData d) eqn:Eh end;
    [|apply He]. by apply HQ.
Qed.

Lemma wp_sign_all ca l s (Q : list Certificate + string → cluster → Prop) :
  (∀ x, Q x s) → wp (api_spec e) (sign_all ca l) s Q.
Proof.
  revert Q. induction l as [|q l IH]; intros Q HQ; [apply HQ|]. cbn [sign_all].
  apply wp_bind; [apply _|]. apply wp_SignCSR; [intros m; apply HQ|]. intros c _ _ _ _ _ _.
  apply wp_bind; [apply _|]. apply IH. intros [cs|m]; apply HQ.
Qed.

Lemma wp_GenerateSelfSignedCert s (Q : Certificate + string → cluster → Prop) :
  (∀ m, Q (inr m) s) → (∀ ca, Q (inl ca) s) → wp (api_spec e) GenerateSelfSignedCert s Q.
Proof. intros He Hok. split; intros; [apply He|apply Hok]. Qed.

Lemma wp_GeneratePKIAuthSecret r lay s (Q : Secret + string → cluster → Prop) :
  (∀ m, Q (inr m) s) →
  (∀ o, meta_key (sec_meta o) = NN (rt_namespace r) (rt_name r) → Q (inl o) s) →
  wp (api_spec e) (GeneratePKIAuthSecret r lay) s Q.
Proof.
  intros He HQ. unfold GeneratePKIAuthSecret.
  apply wp_bind; [apply _|]. apply wp_GenerateSelfSignedCert; [intros; apply He|]. intros ca.
  apply wp_bind; [apply _|]. apply wp_sign_all.
  intros [cs|m]; [|apply He]. repeat case_match; simpl; auto.
Qed.

Lemma wp_GenerateClientKubeconfigAuthSecret ca r lay s (Q : Secret + string → cluster → Prop) :
  (∀ m, Q (inr m) s) →
  (∀ o cert x pub,
     ParsePrivateKeyPEM (crt_key cert) = Some pub → crt_cert cert ≠ "" →
     parseCertificatePEM (crt_cert cert) = inl x →
     issued ca clientAdminCSR pub [] (c_now s) CertificateDuration x →
     meta_key (sec_meta o) = NN (rt_namespace r) (rt_name r +:+ "-kubeconfig") →
     sec_data o = Some {[ SecretKey (ClientKubeconfig (lay_auth lay)) :=
        default "" (generateKubeconfig (rt_name r) (crt_cert ca) cert (Some (apiServerURL r))) ]} →
     sec_stringData o = None → Q (inl o) s) →
  wp (api_spec e) (GenerateClientKubeconfigAuthSecret ca r lay) s Q.
Proof.
  intros He HQ. unfold GenerateClientKubeconfigAuthSecret.
  apply wp_bind; [apply _|]. apply wp_SignCSR; [intros m; apply He|].
  intros c x pub ? ? ? ?. simpl. by eapply HQ.
Qed.

(** Without a data map, a leaf is kept or the assignment panics. *)
Lemma wp_regenerate_leaf_nil ca sec a csr cert key msg s
    (Q : (bool * Secret) + string → cluster → Prop) :
  may_panic e → sec_data sec = None → (∀ m, Q (inr m) s) → Q (inl (false, sec)) s →
  wp (api_spec e) (regenerate_leaf ca sec a csr cert key msg) s Q.
Proof.
  intros Hp Hd He HQ. unfold regenerate_leaf. case_bool_decide; [done|].
  apply wp_bind; [apply _|]. apply wp_SignCSR; [intros m; apply He|].
  intros c x pub _ _ _ _. unfold set_data. by rewrite Hd.
Qed.

(** Whatever the data of the secret, rotation keeps its identity. *)
Lemma wp_RegeneratePKILeafCerts_meta sec r lay s (Q : (bool * Secret) + string → cluster → Prop) :
  may_panic e →
  (∀ m, Q (inr m) s) →
  (∀ u sec', om_owners (sec_meta sec') = om_owners (sec_meta sec) →
     meta_key (sec_meta sec') = meta_key (sec_meta sec) →
     om_deletion (sec_meta sec') = om_deletion (sec_meta sec) →
     sec_stringData sec' = sec_stringData sec →
     (is_Some (sec_data sec) → ∀ k, k ∉ leaf_keys lay →
        mget (sec_data sec') k = mget (sec_data sec) k) →
     Q (inl (u, sec')) s) →
  wp (api_spec e) (RegeneratePKILeafCerts sec r lay) s Q.
Proof.
  intros Hp He HQ. destruct (sec_data sec) as [d|] eqn:Ed.
  - apply wp_RegeneratePKILeafCerts; [by rewrite Ed|done|].
    intros u sec' (Hk & _ & _ & Hn & Hns & Ho & _ & _ & Hd & Hsd) _ _.
    apply HQ; [done|unfold meta_key; congruence|done|done|]. intros _ k. rewrite <- Ed. auto.
  - unfold RegeneratePKILeafCerts.
    set (sec0 := match om_annotations (sec_meta sec) with None => _ | Some _ => _ end).
    assert (sec_data sec0 = None) as Hd0 by (subst sec0; by case_match).
    do 2 (apply wp_bind; [apply _|]; apply wp_regenerate_leaf_nil; [done|done|intros; apply He|]).
    apply HQ; subst sec0; by case_match.
Qed.
End generators.

(** ** Well-formed pods *)

(** What the API server asks of a pod template: names are unique, every mount is of a
    declared volume and at its own path. *)
Record pod_wf (p : PodSpec) : Prop := {
  pw_containers : ps_containers p ≠ [] ∧ NoDup (ct_name <$> ps_containers p);
  pw_volumes : NoDup (vol_name <$> ps_volumes p);
  pw_mounts : ∀ c, c ∈ ps_containers p →
    NoDup (vm_mountPath <$> ct_mounts c) ∧ ∀ m, m ∈ ct_mounts c → vm_name m ∈ vol_name <$> ps_volumes p;
}.

(** With one container: closed lists of names, decided by computation. *)
Lemma pod_wf_single p c :
  ps_containers p = [c] →
  bool_decide (NoDup (vol_name <$> ps_volumes p)) = true →
  bool_decide (NoDup (vm_mountPath <$> ct_mounts c)) = true →
  forallb (λ m, bool_decide (vm_name m ∈ vol_name <$> ps_volumes p)) (ct_mounts c) = true →
  pod_wf p.
Proof.
  intros Hc Hv Hp Hm. split; rewrite ?Hc.
  - split; [done|]. apply NoDup_singleton.
  - by apply bool_decide_eq_true in Hv.
  - intros c' ->%list_elem_of_singleton. split; [by apply bool_decide_eq_true in Hp|].
    intros m Hin. rewrite forallb_forall in Hm. apply list_elem_of_In in Hin. by apply Hm, bool_decide_eq_true in Hin.
Qed.

Section sources.
Context `{X : X509} `{H : Hashing} `{R : Render} (r : Runtime).

(** [m] is the metadata of an object called [n] in the namespace of the runtime. *)
Definition named (n : string) (m : ObjectMeta) : Prop := meta_key m = NN (rt_namespace r) n.

(** The Secrets and the ConfigMap that the controller generates for the runtime carry the
    name [n]: the one with the PKI, the one with the manifest for the cluster
    agent, the one with the configuration of the control plane. *)
Definition pki_secret_named (n : string) : Prop :=
  ∀ e s, wp (api_spec e) (GeneratePKIAuthSecret r NewControlPlaneLayout) s
    (λ res _, ∀ o, res = inl o → named n (sec_meta o)).

Definition runtime_secret_named (n : string) : Prop :=
  ∀ o, GenerateClusterAgentRuntimeSecret r NewControlPlaneLayout = inl o → named n (sec_meta o).

Definition config_named (n : string) : Prop :=
  ∀ e s, may_panic e → wp (api_spec e) (GenerateControlPlaneConfig r NewControlPlaneLayout) s
    (λ res _, ∀ cm h, res = inl (cm, h) → named n (cm_meta cm)).

(** A Secret or ConfigMap that is mounted is one the runtime controller makes: the
    names are those of the generated objects. *)
Definition own_source (v : Volume) : Prop :=
  match vol_source v with
  | VSecret n =>
      (n = rt_name r ∧ pki_secret_named n) ∨
      (n = rt_name r +:+ "-cluster-agent-runtime" ∧ runtime_secret_named n)
  | VConfigMap n _ => n = rt_name r ∧ config_named n
  end.

Lemma pki_secret_name : pki_secret_named (rt_name r).
Proof.
  intros e s. apply wp_GeneratePKIAuthSecret; [done|]. by intros o Ho ? [= <-].
Qed.

Lemma runtime_secret_name : runtime_secret_named (ClusterAgentRuntimeSecretName (rt_name r)).
Proof. unfold runtime_secret_named, GenerateClusterAgentRuntimeSecret. case_match; [|done]. by intros o [= <-]. Qed.

Lemma config_name : config_named (rt_name r).
Proof.
  intros e s Hp. apply wp_GenerateControlPlaneConfig; [done..|]. by intros cm h Hk _ ? ? [= <- _].
Qed.
End sources.

#[local] Hint Resolve pki_secret_name runtime_secret_name config_name : core.

(** C36.  The Deployments generated for a Runtime have well-formed pods, whatever the
    Runtime asks for: unique container, volume and mount path names, every mount of a
    volume that the pod declares, and every volume from a Secret or ConfigMap that the
    controller makes for this Runtime: its name is the name the generated Secret or
    ConfigMap carries. *)
Theorem generated_pods_wf `{X : X509} `{H : Hashing} `{R : Render} w r opts e s :
  let tmpl d := pt_spec (ds_template (dep_spec d)) in
  let wf d := pod_wf (tmpl d) ∧ ∀ v, v ∈ ps_volumes (tmpl d) → own_source r v in
  wf (GeneratePlaneTunnelDeployment w r NewControlPlaneLayout opts) ∧
  wf (GenerateClusterAgentDeployment r NewControlPlaneLayout opts) ∧
  (¬ kine_without_source (cl_storage (rt_cluster r)) →
   wp (api_spec e) (GenerateDeployment r NewControlPlaneLayout opts) s (λ res _, ∃ d, res = inl d ∧ wf d)).
Proof.
  intros tmpl wf.
  assert (∀ p c, ps_containers p = [c] → bool_decide (NoDup (vol_name <$> ps_volumes p)) = true →
    bool_decide (NoDup (vm_mountPath <$> ct_mounts c)) = true →
    forallb (λ m, bool_decide (vm_name m ∈ vol_name <$> ps_volumes p)) (ct_mounts c) = true →
    Forall (own_source r) (ps_volumes p) → pod_wf p ∧ ∀ v, v ∈ ps_volumes p → own_source r v) as Hwf.
  { intros p c ???? Hf. split; [by eapply pod_wf_single|]. by apply Forall_forall. }
  split_and!.
  - eapply Hwf; [reflexivity..|]. repeat (apply Forall_nil_2 || apply Forall_cons_2); cbn; auto.
  - eapply Hwf; [reflexivity..|]. repeat (apply Forall_nil_2 || apply Forall_cons_2); cbn; auto.
  - intros Hk. unfold GenerateDeployment, storage_env. apply wp_bind; [apply _|].
    case_bool_decide as Et;
      [destruct (sto_kine _) as [k|] eqn:Ek; [destruct (kine_dataSourceRef k) as [ref|] eqn:Er;
        [case_bool_decide|]|]|]; simpl;
      try (eexists; split; [reflexivity|]; eapply Hwf; [reflexivity..|repeat (apply Forall_nil_2 || apply Forall_cons_2); cbn; auto]).
    destruct Hk. split; [done|]. eauto.
Qed.

Lemma generated_pods_wf_witness :
  let r := example_runtime in
  ¬ kine_without_source (cl_storage (rt_cluster r)) ∧
  pod_wf (pt_spec (ds_template (dep_spec (GenerateClusterAgentDeployment r NewControlPlaneLayout [])))) ∧
  wp (api_spec (X := ref_x509) example_env) (GenerateDeployment r NewControlPlaneLayout []) empty_cluster
    (λ res _, ∃ d, res = inl d ∧ pod_wf (pt_spec (ds_template (dep_spec d)))).
Proof.
  intros r. assert (¬ kine_without_source (cl_storage (rt_cluster r))) as Hk.
  { intros (_ & k & ? & _). discriminate. }
  split; [exact Hk|].
  destruct (generated_pods_wf (X := ref_x509) (H := ref_hashing) (R := ref_render) NewWorkerContextWithDefaults r [] example_env empty_cluster)
    as (_ & [H2 _] & H3).
  split; [exact H2|]. eapply wp_mono; [apply api_spec_mono|exact (H3 Hk)|].
  intros res s' (d & -> & [Hd _]). exists d. split; [reflexivity|exact Hd].
Defined.
