(* ===== verification/RuntimeController.v ===== *)
(** * The Runtime controller

    [internal/controller/controlplane/runtime_controller.go]: one reconciliation
    of a [Runtime] and its nine steps, as programs over the calls of [World].
    Every step returns its result or an error text; log lines are left out,
    events are recorded by their reason.  [r.Create], [r.Update] and
    [r.Status().Update] decode the answer of the server into the object they are
    given, hence the object the program goes on with is the answer. *)

From S2P Require Import Prelude Effects Kube Api Pki World PkiAuth Templates Generate.
From stdpp Require Import options.

Definition typeAvailableRuntime : string := "Available".

#[local] Abbreviation layout := NewControlPlaneLayout.

(** The text of an API error. *)
Definition err_text (e : api_error) : string :=
  match e with
  | NotFound => "not found"
  | AlreadyExists => "already exists"
  | OtherError m => m
  end.

Definition refuse (what : string) (m : ObjectMeta) : string :=
  what +:+ " " +:+ om_namespace m +:+ "/" +:+ om_name m +:+
  " exists but is not owned by Heir Runtime; refusing to adopt".

(** ** Field updates *)

Definition with_labels (m : ObjectMeta) (l : gomap string) : ObjectMeta :=
  {| om_name := om_name m; om_namespace := om_namespace m; om_uid := om_uid m;
     om_generation := om_generation m; om_labels := l; om_annotations := om_annotations m;
     om_owners := om_owners m; om_finalizers := om_finalizers m; om_deletion := om_deletion m |}.

Definition with_clusterIP (s : KServiceSpec) (ip : string) : KServiceSpec :=
  {| ss_type := ss_type s; ss_selector := ss_selector s; ss_ports := ss_ports s;
     ss_clusterIP := ip |}.

(** [existing.Spec = desired.Spec; existing.Labels = desired.Labels]. *)
Definition adopt_deployment (existing desired : Deployment) : Deployment :=
  {| dep_meta := with_labels (dep_meta existing) (om_labels (dep_meta desired));
     dep_spec := dep_spec desired |}.

(** The same with annotations, the ClusterIP of [existing] kept. *)
Definition adopt_service (existing desired : Service) : Service :=
  {| svc_meta := with_annotations (with_labels (svc_meta existing) (om_labels (svc_meta desired)))
                   (om_annotations (svc_meta desired));
     svc_spec := with_clusterIP (svc_spec desired) (ss_clusterIP (svc_spec existing)) |}.

(** The condition under which a Service is left alone. *)
Definition service_in_sync (existing desired : Service) : bool :=
  bool_decide (ss_type (svc_spec existing) = ss_type (svc_spec desired)) &&
  bool_decide (ss_ports (svc_spec existing) = ss_ports (svc_spec desired)) &&
  bool_decide (sem_eq (om_labels (svc_meta existing)) (om_labels (svc_meta desired))) &&
  bool_decide (sem_eq (om_annotations (svc_meta existing)) (om_annotations (svc_meta desired))).

Definition deployment_in_sync (existing desired : Deployment) : bool :=
  bool_decide (dep_spec existing = dep_spec desired) &&
  bool_decide (sem_eq (om_labels (dep_meta existing)) (om_labels (dep_meta desired))).

Section controller.
Context `{M : Machinery} `{X : X509} `{H : Hashing} `{R : Render}.
(** [RuntimeReconciler.WrkCtx]. *)
Context (w : WorkerContext).

(** ** Services *)

Definition setupService (r : Runtime) : prog op (unit + string) :=
  let desired := GenerateService r in
  match SetControllerReference (rt_meta r) (svc_meta desired) with
  | inr e => Ret (inr e)
  | inl m =>
      let desired := {| svc_meta := m; svc_spec := svc_spec desired |} in
      let! got := get (O := Service) (meta_key m) in
      match got with
      | inr NotFound =>
          let! c := create desired in
          match c with
          | inr e => let! _ := event "ServiceCreateFailed" in Ret (inr (err_text e))
          | inl _ => let! _ := event "ServiceCreated" in Ret (inl tt)
          end
      | inr e => Ret (inr (err_text e))
      | inl existing =>
          if service_in_sync existing desired then Ret (inl tt)
          else
            let! u := update (adopt_service existing desired) in
            match u with
            | inr e => let! _ := event "ServiceUpdateFailed" in Ret (inr (err_text e))
            | inl _ => Ret (inl tt)
            end
      end
  end.

(** One iteration of the loop of [setupPlaneTunnelService]. *)
Definition setup_tunnel_service (r : Runtime) (svc : Service) : prog op (string + unit) :=
  match SetControllerReference (rt_meta r) (svc_meta svc) with
  | inr e => Ret (inl e)
  | inl m =>
      let svc := {| svc_meta := m; svc_spec := svc_spec svc |} in
      let! got := get (O := Service) (meta_key m) in
      match got with
      | inr NotFound =>
          let! c := create svc in
          match c with
          | inr e => let! _ := event "PlaneTunnelServiceCreateFailed" in Ret (inl (err_text e))
          | inl _ => let! _ := event "PlaneTunnelServiceCreated" in Ret (inr tt)
          end
      | inr e => Ret (inl (err_text e))
      | inl existing =>
          if negb (IsControlledBy (svc_meta existing) (rt_meta r)) then
            let! _ := event "PlaneTunnelServiceOwnership" in
            Ret (inl (refuse "plane tunnel service" (svc_meta existing)))
          else if service_in_sync existing svc then Ret (inr tt)
          else
            let! u := update (adopt_service existing svc) in
            match u with
            | inr e => let! _ := event "PlaneTunnelServiceUpdateFailed" in Ret (inl (err_text e))
            | inl _ => Ret (inr tt)
            end
      end
  end.

Definition setupPlaneTunnelService (r : Runtime) : prog op (unit + string) :=
  let! res := for_each (GeneratePlaneTunnelService w r) (setup_tunnel_service r) in
  match res with
  | inl e => Ret (inr e)
  | inr _ => Ret (inl tt)
  end.

(** ** Deployments *)

(** The common tail of the three [setup*Deployment]: [kind] prefixes the
    reasons of the events. *)
Definition reconcile_deployment (r : Runtime) (kind : string) (desired : Deployment)
    : prog op (unit + string) :=
  match SetControllerReference (rt_meta r) (dep_meta desired) with
  | inr e => Ret (inr e)
  | inl m =>
      let desired := {| dep_meta := m; dep_spec := dep_spec desired |} in
      let! got := get (O := Deployment) (meta_key m) in
      match got with
      | inr NotFound =>
          let! c := create desired in
          match c with
          | inr e => let! _ := event (kind +:+ "CreateFailed") in Ret (inr (err_text e))
          | inl _ => let! _ := event (kind +:+ "Created") in Ret (inl tt)
          end
      | inr e => Ret (inr (err_text e))
      | inl existing =>
          if deployment_in_sync existing desired then Ret (inl tt)
          else
            let! u := update (adopt_deployment existing desired) in
            match u with
            | inr e => let! _ := event (kind +:+ "UpdateFailed") in Ret (inr (err_text e))
            | inl _ => Ret (inl tt)
            end
      end
  end.

Definition setupDeployment (r : Runtime) (opts : list (string * string))
    : prog op (unit + string) :=
  let! d := GenerateDeployment r layout opts in
  match d with
  | inr e => let! _ := event "DeploymentGenerationFailed" in Ret (inr e)
  | inl desired => reconcile_deployment r "Deployment" desired
  end.

Definition setupClusterAgentDeployment (r : Runtime) (opts : list (string * string))
    : prog op (unit + string) :=
  reconcile_deployment r "ClusterAgentDeployment" (GenerateClusterAgentDeployment r layout opts).

Definition setupPlaneTunnelDeployment (r : Runtime) (opts : list (string * string))
    : prog op (unit + string) :=
  reconcile_deployment r "PlaneTunnelDeployment" (GeneratePlaneTunnelDeployment w r layout opts).

(** ** Configuration *)

(** [existing.Annotations[k] = v]: a panic when the object has none. *)
Definition annotate_config (cm : ConfigMap) (data : gomap string) (k v : string)
    : prog op ConfigMap :=
  match mset (om_annotations (cm_meta cm)) k v with
  | None => panic
  | Some a => Ret {| cm_meta := with_annotations (cm_meta cm) a; cm_data := data |}
  end.

Definition setupControlPlaneConfiguration (r : Runtime) : prog op (string + string) :=
  let! g := GenerateControlPlaneConfig r layout in
  match g with
  | inr e => let! _ := event "ConfigGenerationFailed" in Ret (inr e)
  | inl (desired, desiredHash) =>
      let! got := get (O := ConfigMap) (meta_key (cm_meta desired)) in
      match got with
      | inr NotFound =>
          match SetControllerReference (rt_meta r) (cm_meta desired) with
          | inr e => Ret (inr e)
          | inl m =>
              let! c := create {| cm_meta := m; cm_data := cm_data desired |} in
              match c with
              | inr e => let! _ := event "ConfigMapCreateFailed" in Ret (inr (err_text e))
              | inl _ => let! _ := event "ConfigMapCreated" in Ret (inl desiredHash)
              end
          end
      | inr e => Ret (inr (err_text e))
      | inl existing =>
          if negb (IsControlledBy (cm_meta existing) (rt_meta r)) then
            let! _ := event "ConfigMapExists" in
            Ret (inr (refuse "secret" (cm_meta existing)))
          else
            match HashConfigData (cm_data existing) with
            | inr e => Ret (inr e)
            | inl existingHash =>
                if bool_decide (existingHash = desiredHash) then Ret (inl existingHash)
                else
                  let! existing := annotate_config existing (cm_data desired)
                                     ControlPlaneConfigHashAnnotation desiredHash in
                  let! u := update existing in
                  match u with
                  | inr e => let! _ := event "ConfigMapUpdateFailed" in Ret (inr (err_text e))
                  | inl _ => Ret (inl desiredHash)
                  end
            end
      end
  end.

(** ** Secrets *)

Definition setupPKIAuthConfiguration (r : Runtime) : prog op (Secret + string) :=
  let! got := get (O := Secret) (NN (rt_namespace r) (rt_name r)) in
  match got with
  | inr NotFound =>
      let! g := GeneratePKIAuthSecret r layout in
      match g with
      | inr e => let! _ := event "PKIGenerationFailed" in Ret (inr e)
      | inl secret =>
          match SetControllerReference (rt_meta r) (sec_meta secret) with
          | inr e => Ret (inr e)
          | inl m =>
              let secret := with_sec_meta secret m in
              let! c := create secret in
              match c with
              | inr AlreadyExists => Ret (inl secret)
              | inr e => let! _ := event "PKISecretCreateFailed" in Ret (inr (err_text e))
              | inl stored => let! _ := event "PKISecretCreated" in Ret (inl stored)
              end
          end
      end
  | inr e => Ret (inr (err_text e))
  | inl existing =>
      if negb (IsControlledBy (sec_meta existing) (rt_meta r)) then
        let! _ := event "PKISecret" in Ret (inr (refuse "secret" (sec_meta existing)))
      else
        let! g := RegeneratePKILeafCerts existing r layout in
        match g with
        | inr e =>
            let! _ := event "PKICertRegenerationFailed" in
            Ret (inr ("failed to regenerate PKI leaf certs: " +:+ e))
        | inl (updated, existing) =>
            if negb updated then Ret (inl existing)
            else
              let! u := update existing in
              match u with
              | inr e => let! _ := event "PKISecretUpdateFailed" in Ret (inr (err_text e))
              | inl stored => let! _ := event "PKICertRotated" in Ret (inl stored)
              end
        end
  end.

(** [None] when the stored kubeconfig is still good at time [now]. *)
Definition validateClientKubeconfigSecret (now : Z) (secret : Secret) (ca : Certificate)
    (r : Runtime) (lay : ControlPlaneLayout) : option string :=
  let raw := default "" (mget (sec_data secret) (SecretKey (ClientKubeconfig (lay_auth lay)))) in
  if bool_decide (raw = "") then Some "kubeconfig key missing from secret"
  else
    match ParseAndVerifyKubeconfig raw
            [WithServerValidation (apiServerURL r);
             WithClientCertificateValidation now ca []] with
    | inr _ => Some "client kubeconfig is invalid"
    | inl _ => None
    end.

Definition setupClientKubeconfig (r : Runtime) : prog op (unit + string) :=
  let! p := get (O := Secret) (NN (rt_namespace r) (rt_name r)) in
  match p with
  | inr e => Ret (inr ("failed to get PKI secret for client kubeconfig: " +:+ err_text e))
  | inl pkiSecret =>
      let ca := {| crt_cert := default "" (mget (sec_data pkiSecret) (SecretKey (CACert (lay_pki layout))));
                   crt_key := default "" (mget (sec_data pkiSecret) (SecretKey (CAKey (lay_pki layout)))) |} in
      let! g := GenerateClientKubeconfigAuthSecret ca r layout in
      match g with
      | inr e => let! _ := event "ClientKubeconfigSecretCreateFailed" in Ret (inr e)
      | inl fresh =>
          let! got := get (O := Secret) (NN (rt_namespace r) (rt_name r +:+ "-kubeconfig")) in
          match got with
          | inr NotFound =>
              match SetControllerReference (rt_meta r) (sec_meta fresh) with
              | inr e => Ret (inr e)
              | inl m =>
                  let! c := create (with_sec_meta fresh m) in
                  match c with
                  | inr AlreadyExists => Ret (inl tt)
                  | inr e =>
                      let! _ := event "ClientKubeconfigSecretCreateFailed" in
                      Ret (inr (err_text e))
                  | inl _ => let! _ := event "ClientKubeconfigSecretCreated" in Ret (inl tt)
                  end
              end
          | inr e => Ret (inr (err_text e))
          | inl existing =>
              if negb (IsControlledBy (sec_meta existing) (rt_meta r)) then
                let! _ := event "ClientKubeconfigSecret" in
                Ret (inr (refuse "secret" (sec_meta existing)))
              else
                let! now := trigger Now in
                match validateClientKubeconfigSecret now existing ca r layout with
                | None => Ret (inl tt)
                | Some _ =>
                    let! u := update (with_data existing (sec_data fresh)) in
                    match u with
                    | inr e =>
                        let! _ := event "ClientKubeconfigSecretUpdateFailed" in
                        Ret (inr (err_text e))
                    | inl _ => let! _ := event "ClientKubeconfigSecretRotated" in Ret (inl tt)
                    end
                end
          end
      end
  end.

Definition setupClusterAgentRuntimeSecret (r : Runtime) : prog op (string + string) :=
  match GenerateClusterAgentRuntimeSecret r layout with
  | inr e => let! _ := event "ClusterAgentRuntimeSecretGenerationFailed" in Ret (inr e)
  | inl desired =>
      let! order := trigger (MapOrder (entries (sec_data desired))) in
      let hash := HashSecretData order.*1 (entries (sec_data desired)) in
      match SetControllerReference (rt_meta r) (sec_meta desired) with
      | inr e => Ret (inr e)
      | inl m =>
          let desired := with_sec_meta desired m in
          let! got := get (O := Secret) (meta_key m) in
          match got with
          | inr NotFound =>
              let! c := create desired in
              match c with
              | inr AlreadyExists => Ret (inl hash)
              | inr e =>
                  let! _ := event "ClusterAgentRuntimeSecretCreateFailed" in Ret (inr (err_text e))
              | inl _ => let! _ := event "ClusterAgentRuntimeSecretCreated" in Ret (inl hash)
              end
          | inr e => Ret (inr (err_text e))
          | inl existing =>
              if negb (IsControlledBy (sec_meta existing) (rt_meta r)) then
                let! _ := event "ClusterAgentRuntimeSecret" in
                Ret (inr (refuse "secret" (sec_meta existing)))
              else if bool_decide (sem_eq (sec_data existing) (sec_data desired)) &&
                      bool_decide (sem_eq (om_labels (sec_meta existing)) (om_labels m))
              then Ret (inl hash)
              else
                let! u := update (with_data
                            (with_sec_meta existing (with_labels (sec_meta existing) (om_labels m)))
                            (sec_data desired)) in
                match u with
                | inr e =>
                    let! _ := event "ClusterAgentRuntimeSecretUpdateFailed" in
                    Ret (inr (err_text e))
                | inl _ => let! _ := event "ClusterAgentRuntimeSecretUpdated" in Ret (inl hash)
                end
          end
      end
  end.

(** ** Status *)

(** The loop over the certificate entries of [certificateStatuses]. *)
Fixpoint cert_entries (data : gomap string) (l : list (string * string))
    : list CertificateStatus + string :=
  match l with
  | [] => inl []
  | (name, key) :: l' =>
      let pem := default "" (mget data key) in
      if bool_decide (pem = "") then cert_entries data l'
      else match ParseCertificateExpiry pem with
      | inr _ => inr ("failed to parse " +:+ name +:+ " certificate")
      | inl t =>
          match cert_entries data l' with
          | inr e => inr e
          | inl rest => inl ({| crt_name := name; crt_expiresAt := t |} :: rest)
          end
      end
  end.

(** The loop over the kubeconfig entries. *)
Fixpoint kubeconfig_entries (data : gomap string) (l : list (string * string))
    : list CertificateStatus + string :=
  match l with
  | [] => inl []
  | (name, key) :: l' =>
      let raw := default "" (mget data key) in
      if bool_decide (raw = "") then kubeconfig_entries data l'
      else match ParseAndVerifyKubeconfig raw [] with
      | inr _ => inr ("failed to parse " +:+ name +:+ " kubeconfig")
      | inl kc =>
          match ParseCertificateExpiry (ka_certData (kcv_authInfo kc)) with
          | inr _ => inr ("failed to parse " +:+ name +:+ " certificate")
          | inl t =>
              match kubeconfig_entries data l' with
              | inr e => inr e
              | inl rest => inl ({| crt_name := name; crt_expiresAt := t |} :: rest)
              end
          end
      end
  end.

Definition status_certs : list (string * string) :=
  let pki := lay_pki layout in
  [ ("ca", SecretKey (CACert pki)); ("apiServer", SecretKey (APIServerCert pki));
    ("serviceAccount", SecretKey (ServiceAccountCert pki));
    ("planeTunnelServer", SecretKey (PlaneTunnelCert pki));
    ("egressSelector", SecretKey (ApiServerPlaneTunnelCert pki)) ].

Definition status_kubeconfigs : list (string * string) :=
  let auth := lay_auth layout in
  [ ("controllerManager", SecretKey (ControllerManagerConf auth));
    ("scheduler", SecretKey (SchedulerConf auth)) ].

Definition certificateStatuses (secret : Secret) : list CertificateStatus + string :=
  match cert_entries (sec_data secret) status_certs with
  | inr e => inr e
  | inl l1 =>
      match kubeconfig_entries (sec_data secret) status_kubeconfigs with
      | inr e => inr e
      | inl l2 => inl (l1 ++ l2)
      end
  end.

Definition condition (st : ConditionStatus) (reason message : string) : Condition :=
  {| cond_type := typeAvailableRuntime; cond_status := st; cond_reason := reason;
     cond_message := message; cond_generation := 0 |}.

Definition with_condition (r : Runtime) (c : Condition) : Runtime :=
  with_status r {| rst_conditions := (SetStatusCondition (rst_conditions (rt_status r)) c).1;
                   rst_observedGeneration := rst_observedGeneration (rt_status r);
                   rst_certificates := rst_certificates (rt_status r) |}.

(** [Status.ObservedGeneration = Generation]. *)
Definition observe (r : Runtime) : Runtime :=
  with_status r {| rst_conditions := rst_conditions (rt_status r);
                   rst_observedGeneration := om_generation (rt_meta r);
                   rst_certificates := rst_certificates (rt_status r) |}.

Definition with_certificates (r : Runtime) (l : list CertificateStatus) : Runtime :=
  with_status r {| rst_conditions := rst_conditions (rt_status r);
                   rst_observedGeneration := rst_observedGeneration (rt_status r);
                   rst_certificates := l |}.

Definition setDegraded (r : Runtime) (reason message : string) : prog op (unit + string) :=
  let! _ := update_status (with_condition (observe r) (condition ConditionFalse reason message)) in
  Ret (inr (reason +:+ ": " +:+ message)).

(** ** Reconcile *)

(** One step: on an error the resource is marked degraded. *)
Definition step {A} (r : Runtime) (reason : string) (p : prog op (A + string))
    (k : A → prog op (unit + string)) : prog op (unit + string) :=
  let! x := p in
  match x with
  | inr e => setDegraded r reason e
  | inl a => k a
  end.

(** First status of a resource that has none, then a re-read. *)
Definition ensure_conditions (req : NamespacedName) (r : Runtime) : prog op (Runtime + string) :=
  match rst_conditions (rt_status r) with
  | [] =>
      let! u := update_status
        (with_condition r (condition ConditionUnknown "Reconciling" "Starting reconciliation")) in
      match u with
      | inr e => Ret (inr (err_text e))
      | inl _ =>
          let! got := get (O := Runtime) req in
          match got with
          | inr e => Ret (inr (err_text e))
          | inl r' => Ret (inl r')
          end
      end
  | _ => Ret (inl r)
  end.

(** The final status update. *)
Definition set_available (req : NamespacedName) (pkiSecret : Secret) : prog op (unit + string) :=
  let! got := get (O := Runtime) req in
  match got with
  | inr e => Ret (inr (err_text e))
  | inl r =>
      match certificateStatuses pkiSecret with
      | inr e => Ret (inr e)
      | inl certs =>
          let! u := update_status (with_condition (observe (with_certificates r certs))
                      (condition ConditionTrue "Reconciled"
                         "All control-plane resources are in sync")) in
          match u with
          | inr e => Ret (inr (err_text e))
          | inl _ => Ret (inl tt)
          end
      end
  end.

Definition pki_annotation (s : Secret) (k : string) : string :=
  default "" (mget (om_annotations (sec_meta s)) k).

Definition reconcile_steps (req : NamespacedName) (r : Runtime) : prog op (unit + string) :=
  step r "PKIAuthSetupFailed" (setupPKIAuthConfiguration r) (λ pkiSecret,
  step r "ClientKubeconfigFailed" (setupClientKubeconfig r) (λ _,
  step r "ClusterAgentRuntimeSecretFailed" (setupClusterAgentRuntimeSecret r) (λ agentHash,
  step r "ClusterAgentDeploymentFailed"
    (setupClusterAgentDeployment r [(ClusterAgentRuntimeHashAnnotation, agentHash)]) (λ _,
  step r "ControlPlaneConfigFailed" (setupControlPlaneConfiguration r) (λ configHash,
  step r "DeploymentFailed"
    (setupDeployment r
       [(ConfigHashAnnotation, configHash);
        (PKIAPIServerHashAnnotation, pki_annotation pkiSecret PKIAPIServerHashAnnotation)]) (λ _,
  step r "ServiceFailed" (setupService r) (λ _,
  step r "PlaneTunnelServiceSyncFailed" (setupPlaneTunnelService r) (λ _,
  step r "PlaneTunnelDeploymentSyncFailed"
    (setupPlaneTunnelDeployment r
       [(PKIPlaneTunnelHashAnnotation, pki_annotation pkiSecret PKIPlaneTunnelHashAnnotation)])
    (λ _, set_available req pkiSecret))))))))).

Definition Reconcile (req : NamespacedName) : prog op (unit + string) :=
  let! got := get (O := Runtime) req in
  match got with
  | inr NotFound => Ret (inl tt)
  | inr e => Ret (inr (err_text e))
  | inl r =>
      let! r' := ensure_conditions req r in
      match r' with
      | inr e => Ret (inr e)
      | inl r => reconcile_steps req r
      end
  end.
End controller.

(** ** What a reconciliation may write *)

Section safety.
Context `{M : Machinery} `{L : !MachineryLaws} `{X : X509} `{H : Hashing} `{R : Render}.
Context (w : WorkerContext) (req : NamespacedName) (uid : string).

(** Controlled by the runtime with the UID [uid]. *)
Definition controlled (m : ObjectMeta) : Prop :=
  ∀ owner, om_uid owner = uid → IsControlledBy m owner = true.

Definition sibling (suffix : string) : NamespacedName :=
  NN (nn_namespace req) (nn_name req +:+ suffix).

(** Keys under which an object of somebody else is stored. *)
Record foreign_keys := {
  fk_secrets : NamespacedName → Prop;
  fk_configMaps : NamespacedName → Prop;
  fk_services : NamespacedName → Prop
}.

Context (fk : foreign_keys).

(** The writes of a reconciliation of [req]: it creates only objects it
    controls, in its own namespace, updates three Secrets, the ConfigMap and
    the tunnel Services only when it controls them and never one of somebody else,
    updates one Service and three Deployments by name, and the status of the
    runtime; it deletes nothing. *)
Inductive owned_write : write → Prop :=
| own_create {O} (K : Kind O) (o : O) :
    controlled (kmeta o) → om_namespace (kmeta o) = nn_namespace req →
    owned_write (WCreate K o)
| own_secret (o : Secret) :
    controlled (sec_meta o) → ¬ fk_secrets fk (meta_key (sec_meta o)) →
    meta_key (sec_meta o) ∈ [req; sibling "-kubeconfig"; sibling "-cluster-agent-runtime"] →
    owned_write (WUpdate kind_Secret o)
| own_config (o : ConfigMap) :
    controlled (cm_meta o) → ¬ fk_configMaps fk (meta_key (cm_meta o)) → meta_key (cm_meta o) = req →
    owned_write (WUpdate kind_ConfigMap o)
| own_tunnel_service (o : Service) :
    controlled (svc_meta o) → ¬ fk_services fk (meta_key (svc_meta o)) →
    meta_key (svc_meta o) ∈ [sibling "-tunnel"; sibling "-tunnel-headless"; sibling "-tunnel-egress"] →
    owned_write (WUpdate kind_Service o)
| own_service (o : Service) :
    meta_key (svc_meta o) = req → owned_write (WUpdate kind_Service o)
| own_deployment (o : Deployment) :
    meta_key (dep_meta o) ∈ [req; sibling "-cluster-agent"; sibling "-tunnel"] →
    owned_write (WUpdate kind_Deployment o)
| own_status (o : Runtime) :
    meta_key (rt_meta o) = req → owned_write (WStatus kind_Runtime o).

(** The CA the PKI Secret holds, when the claim is about it. *)
Context (ca : option (string * string)).

Definition holds_ca (o : Secret) (c : string * string) : Prop :=
  mget (sec_data o) "ca.crt" = Some c.1 ∧ mget (sec_data o) "ca.key" = Some c.2 ∧
  sec_stringData o = None ∧ om_deletion (sec_meta o) = None.

(** Objects are stored under their name, the runtime keeps its UID, the PKI Secret
    keeps its CA, and under the foreign keys there is an object that the runtime does
    not control (the Service that carries the name of the runtime apart). *)
Record cluster_inv (s : cluster) : Prop := {
  inv_runtime r : c_runtimes s !! req = Some r → meta_key (rt_meta r) = req ∧ om_uid (rt_meta r) = uid;
  inv_secrets : map_Forall (λ n o, meta_key (sec_meta o) = n) (c_secrets s);
  inv_configMaps : map_Forall (λ n o, meta_key (cm_meta o) = n) (c_configMaps s);
  inv_services : map_Forall (λ n o, meta_key (svc_meta o) = n) (c_services s);
  inv_deployments : map_Forall (λ n o, meta_key (dep_meta o) = n) (c_deployments s);
  inv_ca c : ca = Some c → ∃ o, c_secrets s !! req = Some o ∧ holds_ca o c;
  inv_foreign_secrets n : fk_secrets fk n → ∃ o, c_secrets s !! n = Some o ∧ ¬ controlled (sec_meta o);
  inv_foreign_configMaps n : fk_configMaps fk n → ∃ o, c_configMaps s !! n = Some o ∧ ¬ controlled (cm_meta o);
  inv_foreign_services n : fk_services fk n → n ≠ req → ∃ o, c_services s !! n = Some o ∧ ¬ controlled (svc_meta o);
}.

Lemma inv_event r s : cluster_inv s → cluster_inv (record_event r s).
Proof. by intros []. Qed.

(** Keys that may be written: nobody else's. *)
Definition free_service (n : NamespacedName) : Prop := fk_services fk n → n = req.

Lemma inv_put_service (o : Service) s :
  free_service (meta_key (svc_meta o)) → cluster_inv s → cluster_inv (kput o s).
Proof.
  intros Hf []; split; simpl; try done; [by apply map_Forall_insert_2|].
  intros n Hn Hne. rewrite lookup_insert_ne by (intros <-; by destruct Hne, Hf). auto.
Qed.
Lemma inv_put_deployment (o : Deployment) s : cluster_inv s → cluster_inv (kput o s).
Proof. intros []; split; simpl; try done. by apply map_Forall_insert_2. Qed.
Lemma inv_put_configMap (o : ConfigMap) s :
  ¬ fk_configMaps fk (meta_key (cm_meta o)) → cluster_inv s → cluster_inv (kput o s).
Proof.
  intros Hf []; split; simpl; try done; [by apply map_Forall_insert_2|].
  intros n Hn. rewrite lookup_insert_ne by (by intros <-). auto.
Qed.
Lemma inv_put_secret (o : Secret) s :
  ¬ fk_secrets fk (meta_key (sec_meta o)) →
  (∀ c, ca = Some c → meta_key (sec_meta o) = req → holds_ca o c) →
  cluster_inv s → cluster_inv (kput o s).
Proof.
  intros Hf Hc []; split; simpl; try done; [by apply map_Forall_insert_2| |].
  - intros c Hca. destruct (decide (meta_key (sec_meta o) = req)) as [E|E].
    + exists o. rewrite E, lookup_insert_eq. auto.
    + rewrite lookup_insert_ne by done. auto.
  - intros n Hn. rewrite lookup_insert_ne by (by intros <-). auto.
Qed.

Lemma inv_del_service n s : free_service n → cluster_inv s → cluster_inv (kdel Service n s).
Proof.
  intros Hf []; split; simpl; try done; [by apply map_Forall_delete|].
  intros n' Hn Hne. rewrite lookup_delete_ne by (intros <-; by destruct Hne, Hf). auto.
Qed.
Lemma inv_del_deployment n s : cluster_inv s → cluster_inv (kdel Deployment n s).
Proof. intros []; split; simpl; try done. by apply map_Forall_delete. Qed.
Lemma inv_del_configMap n s : ¬ fk_configMaps fk n → cluster_inv s → cluster_inv (kdel ConfigMap n s).
Proof.
  intros Hf []; split; simpl; try done; [by apply map_Forall_delete|].
  intros n' Hn. rewrite lookup_delete_ne by (by intros <-). auto.
Qed.
Lemma inv_del_secret n s :
  ¬ fk_secrets fk n → (ca ≠ None → n ≠ req) → cluster_inv s → cluster_inv (kdel Secret n s).
Proof.
  intros Hf Hc []; split; simpl; try done; [by apply map_Forall_delete| |].
  - intros c Hca. rewrite lookup_delete_ne by (apply Hc; congruence). auto.
  - intros n' Hn. rewrite lookup_delete_ne by (by intros <-). auto.
Qed.

(** Nothing is stored under a key: it is nobody else's. *)
Lemma absent_service n s : cluster_inv s → c_services s !! n = None → free_service n.
Proof.
  intros Hs Hn Hf. destruct (decide (n = req)) as [|Hne]; [done|].
  destruct (inv_foreign_services _ Hs n Hf Hne) as (o & Ho & _). congruence.
Qed.
Lemma absent_configMap n s : cluster_inv s → c_configMaps s !! n = None → ¬ fk_configMaps fk n.
Proof. intros Hs Hn Hf. destruct (inv_foreign_configMaps _ Hs n Hf) as (o & Ho & _). congruence. Qed.
Lemma absent_secret n s : cluster_inv s → c_secrets s !! n = None → ¬ fk_secrets fk n.
Proof. intros Hs Hn Hf. destruct (inv_foreign_secrets _ Hs n Hf) as (o & Ho & _). congruence. Qed.

(** A new object is stored under a key where there was none. *)
Lemma inv_created_service (o o' : Service) s :
  c_services s !! meta_key (svc_meta o) = None → kadmit o o' → cluster_inv s → cluster_inv (kput o' s).
Proof.
  intros Hn [(E1 & E2 & _) _] Hs. apply inv_put_service; [|done]. apply (absent_service _ s Hs).
  unfold meta_key in *. by rewrite E1, E2.
Qed.
Lemma inv_created_configMap (o o' : ConfigMap) s :
  c_configMaps s !! meta_key (cm_meta o) = None → kadmit o o' → cluster_inv s → cluster_inv (kput o' s).
Proof.
  intros Hn [(E1 & E2 & _) _] Hs. apply inv_put_configMap; [|done]. apply (absent_configMap _ s Hs).
  unfold meta_key in *. by rewrite E1, E2.
Qed.
Lemma inv_created_secret (o o' : Secret) s :
  c_secrets s !! meta_key (sec_meta o) = None → kadmit o o' → cluster_inv s → cluster_inv (kput o' s).
Proof.
  intros Hn [(E1 & E2 & _) _] Hs.
  assert (c_secrets s !! meta_key (sec_meta o') = None) as Hn'.
  { unfold meta_key in *. by rewrite E1, E2. }
  apply inv_put_secret; [by apply (absent_secret _ s Hs)| |done].
  intros c Hc E. destruct (inv_ca _ Hs c Hc) as (o1 & Ho1 & _). congruence.
Qed.

(** A status update stores the metadata that was there. *)
Lemma inv_put_status (o o0 : Runtime) s :
  meta_key (rt_meta o) = req → c_runtimes s !! req = Some o0 →
  cluster_inv s → cluster_inv (kput (kstatus o o0) s).
Proof.
  intros Ho E []; split; simpl; try done. intros r.
  destruct (inv_runtime0 _ E) as [Hk Hu]. rewrite Hk, lookup_insert_eq. intros [= <-]. done.
Qed.

(** Any environment whose other actors keep the invariant. *)
Context (rely_ : cluster → cluster → Prop).
Context (Hrely : ∀ s s', rely_ s s' → cluster_inv s → cluster_inv s').

Definition reconcile_env : env :=
  {| rely := rely_; allowed := λ wr _, owned_write wr; may_panic := True |}.

#[local] Abbreviation spec := (api_spec reconcile_env).
#[local] Abbreviation Inv := cluster_inv.

(** Symbolic execution of a step: one call at a time. *)
Ltac go1 := wp_call reconcile_env Inv Hrely ltac:(solve [eauto using inv_event]).
Ltac go := repeat (go1; try (solve [eauto using inv_event])).

Section step.
Context (r : Runtime) (Hkey : meta_key (rt_meta r) = req) (Huid : om_uid (rt_meta r) = uid).

Lemma scr_controlled o m :
  SetControllerReference (rt_meta r) o = inl m → controlled m.
Proof using All.
  intros E owner Hu. rewrite (controlled_by_uid _ owner (rt_meta r)) by congruence.
  by eapply scr_controls.
Qed.

Lemma scr_key o m : SetControllerReference (rt_meta r) o = inl m → meta_key m = meta_key o.
Proof using All. intros E. apply scr_frame in E as (E1 & E2 & _). unfold meta_key. congruence. Qed.

Lemma read_controlled o o' :
  IsControlledBy o (rt_meta r) = true → om_owners o' = om_owners o → controlled o'.
Proof using All.
  intros E Eo owner Hu. rewrite (controlled_by_uid _ owner (rt_meta r)) by congruence.
  by rewrite (controlled_by_owners _ o).
Qed.

Lemma create_allowed {O} (K : Kind O) (o : O) m :
  SetControllerReference (rt_meta r) m = inl (kmeta o) → om_namespace m = rt_namespace r →
  owned_write (WCreate K o).
Proof using All.
  intros E En. constructor; [by eapply scr_controlled|].
  apply scr_key in E. injection E as -> _. rewrite En. by rewrite <- Hkey.
Qed.

(** What the server keeps after an update of an object that is not the PKI
    Secret. *)
Lemma inv_stored_service (o : Service) s :
  free_service (meta_key (svc_meta o)) → Inv s → Inv (if gone (kmeta o) then kdel Service (meta_key (kmeta o)) s else kput o s).
Proof using All. destruct (gone _); auto using inv_put_service, inv_del_service. Qed.
Lemma inv_stored_deployment (o : Deployment) s :
  Inv s → Inv (if gone (kmeta o) then kdel Deployment (meta_key (kmeta o)) s else kput o s).
Proof using All. destruct (gone _); auto using inv_put_deployment, inv_del_deployment. Qed.
Lemma inv_stored_configMap (o : ConfigMap) s :
  ¬ fk_configMaps fk (meta_key (cm_meta o)) → Inv s → Inv (if gone (kmeta o) then kdel ConfigMap (meta_key (kmeta o)) s else kput o s).
Proof using All. destruct (gone _); auto using inv_put_configMap, inv_del_configMap. Qed.

Ltac fin :=
  try (eapply create_allowed; [eassumption|done]);
  try (by eauto using inv_event, inv_created_service, inv_put_deployment, inv_created_configMap,
         inv_created_secret, inv_stored_deployment).

(** An object read under the key of a generated one. *)
Lemma read_key {m d n} : SetControllerReference (rt_meta r) d = inl m → n = meta_key m → n = meta_key d.
Proof using All. intros E ->. by apply scr_key in E. Qed.

Lemma sibling_key suffix : NN (rt_namespace r) (rt_name r +:+ suffix) = sibling suffix.
Proof using All. unfold sibling. by rewrite <- Hkey. Qed.

Lemma own_key : NN (rt_namespace r) (rt_name r) = req.
Proof using All. by rewrite <- Hkey. Qed.

(** The key of an object that the runtime controls is nobody else's. *)
Lemma own_read_service n o s :
  Inv s → c_services s !! n = Some o → IsControlledBy (svc_meta o) (rt_meta r) = true → ¬ (fk_services fk n ∧ n ≠ req).
Proof using All.
  intros Hs Ho Hc [Hn Hne]. destruct (inv_foreign_services _ Hs n Hn Hne) as (o1 & Ho1 & Hnc).
  simplify_eq. by eapply Hnc, read_controlled.
Qed.
Lemma own_read_configMap n o s :
  Inv s → c_configMaps s !! n = Some o → IsControlledBy (cm_meta o) (rt_meta r) = true → ¬ fk_configMaps fk n.
Proof using All.
  intros Hs Ho Hc Hn. destruct (inv_foreign_configMaps _ Hs n Hn) as (o1 & Ho1 & Hnc).
  simplify_eq. by eapply Hnc, read_controlled.
Qed.
Lemma own_read_secret n o s :
  Inv s → c_secrets s !! n = Some o → IsControlledBy (sec_meta o) (rt_meta r) = true → ¬ fk_secrets fk n.
Proof using All.
  intros Hs Ho Hc Hn. destruct (inv_foreign_secrets _ Hs n Hn) as (o1 & Ho1 & Hnc).
  simplify_eq. by eapply Hnc, read_controlled.
Qed.

Lemma admitted_key m m' : meta_admit m m' → meta_key m' = meta_key m.
Proof using All. intros (E1 & E2 & _). unfold meta_key. congruence. Qed.

Lemma wp_setupService s : Inv s → wp spec (setupService r) s (λ _ s', Inv s').
Proof using All.
  intros Hs. unfold setupService. go; fin.
  - apply own_service. etrans; [exact (read_key E (inv_services _ Hs0 _ _ Ho))|apply own_key].
  - apply inv_stored_service; [|done]. destruct Ha as [Ha _]. intros _.
    etrans; [exact (admitted_key _ _ Ha)|].
    etrans; [exact (read_key E (inv_services _ Hs0 _ _ Ho))|apply own_key].
Qed.

Lemma sibling_ne suffix : suffix ≠ "" → sibling suffix ≠ req.
Proof using All.
  intros Hs E. apply (f_equal (String.length ∘ nn_name)) in E. simpl in E.
  rewrite string_length_app in E. destruct suffix; [done|]. simpl in E. lia.
Qed.

Lemma tunnel_service_keys svc :
  svc ∈ GeneratePlaneTunnelService w r →
  om_namespace (svc_meta svc) = rt_namespace r ∧
  meta_key (svc_meta svc) ∈ [sibling "-tunnel"; sibling "-tunnel-headless"; sibling "-tunnel-egress"].
Proof using All.
  unfold GeneratePlaneTunnelService. rewrite !elem_of_cons, elem_of_nil.
  rewrite <- !sibling_key. intros [->|[->|[->|[]]]]; (split; [done|]); set_solver.
Qed.

Lemma wp_setupPlaneTunnelService s :
  Inv s → wp spec (setupPlaneTunnelService w r) s (λ _ s', Inv s').
Proof using All.
  intros Hs. unfold setupPlaneTunnelService.
  eapply (wp_seq _ _ _ _ (λ _ s', Inv s')); [|intros; go].
  apply (wp_for_each _ _ _ Inv); [done| |done].
  intros svc s0 [Hns Hsvc]%tunnel_service_keys Hs0. unfold setup_tunnel_service.
  assert (meta_key (svc_meta svc) ≠ req) as Hne.
  { intros Er. rewrite Er, !elem_of_cons, elem_of_nil in Hsvc.
    destruct Hsvc as [E|[E|[E|[]]]]; by eapply sibling_ne, eq_sym, E. }
  go; fin.
  all: pose proof (read_key E (inv_services _ Hs1 _ _ Ho)) as Hko.
  all: assert (¬ fk_services fk (meta_key (svc_meta svc))) as Hfk
    by (intros Hfk; eapply (own_read_service _ _ _ Hs1 Ho); [done|];
        pose proof (inv_services _ Hs1 _ _ Ho) as <-; by rewrite Hko).
  - apply own_tunnel_service; [by eapply read_controlled|by rewrite <- Hko in Hfk|].
    by rewrite <- Hko in Hsvc.
  - apply inv_stored_service; [|done]. destruct Ha as [Ha _]. apply admitted_key in Ha.
    intros Hf. destruct Hfk. rewrite <- Hko. by rewrite Ha in Hf.
Qed.

Lemma wp_reconcile_deployment kind d s :
  om_namespace (dep_meta d) = rt_namespace r →
  meta_key (dep_meta d) ∈ [req; sibling "-cluster-agent"; sibling "-tunnel"] →
  Inv s → wp spec (reconcile_deployment r kind d) s (λ _ s', Inv s').
Proof using All.
  intros Hns Hd Hs. unfold reconcile_deployment. go; fin.
  apply own_deployment. by rewrite <- (read_key E (inv_deployments _ Hs0 _ _ Ho)) in Hd.
Qed.

Lemma wp_setupDeployment opts s :
  Inv s → wp spec (setupDeployment r opts) s (λ _ s', Inv s').
Proof using All.
  intros Hs. unfold setupDeployment. apply wp_bind; [apply _|].
  apply wp_GenerateDeployment; [done|]. intros d Hd. pose proof Hd as [= Hns _].
  apply wp_reconcile_deployment; [done| |done]. rewrite Hd, own_key. set_solver.
Qed.

Lemma wp_setupClusterAgentDeployment opts s :
  Inv s → wp spec (setupClusterAgentDeployment r opts) s (λ _ s', Inv s').
Proof using All.
  apply wp_reconcile_deployment; [done|]. rewrite <- !sibling_key. set_solver.
Qed.

Lemma wp_setupPlaneTunnelDeployment opts s :
  Inv s → wp spec (setupPlaneTunnelDeployment w r opts) s (λ _ s', Inv s').
Proof using All.
  apply wp_reconcile_deployment; [done|]. rewrite <- !sibling_key. set_solver.
Qed.

Lemma wp_setupControlPlaneConfiguration s :
  Inv s → wp spec (setupControlPlaneConfiguration r) s (λ _ s', Inv s').
Proof using All.
  intros Hs. unfold setupControlPlaneConfiguration. apply wp_bind; [apply _|].
  apply wp_GenerateControlPlaneConfig; [done|intros; go|]. intros cm h Hk _.
  pose proof Hk as [= Hns _]. unfold annotate_config.
  go; fin.
  destruct (mset _ _ _) as [a|]; [|done]. change (bind (Ret ?x) ?f) with (f x).
  pose proof (inv_configMaps _ Hs0 _ _ Ho) as Hko.
  pose proof (own_read_configMap _ _ _ Hs0 Ho Hctl) as Hfk. rewrite <- Hko in Hfk.
  go; fin.
  - apply own_config; [by eapply read_controlled|done|]. etrans; [exact Hko|]. by rewrite Hk, own_key.
  - apply inv_stored_configMap; [|done]. destruct Ha as [Ha _]. apply admitted_key in Ha. by rewrite Ha.
Qed.

(** An updated Secret that is not the PKI Secret, or keeps its CA. *)
Lemma inv_stored_secret (o : Secret) s :
  ¬ fk_secrets fk (meta_key (sec_meta o)) →
  (∀ c, ca = Some c → meta_key (sec_meta o) = req → holds_ca o c) →
  Inv s → Inv (if gone (kmeta o) then kdel Secret (meta_key (kmeta o)) s else kput o s).
Proof using All.
  intros Hf Hc Hs. destruct (gone _) eqn:E; [|by apply inv_put_secret].
  apply inv_del_secret; [done| |done]. intros Hca Hk. destruct ca as [c|] eqn:Eca; [|done].
  destruct (Hc c eq_refl Hk) as (_ & _ & _ & Hd). simpl in E. unfold gone in E.
  rewrite Hd in E. rewrite bool_decide_false in E; [done|]. by intros [].
Qed.

Lemma admitted_ca (o o' : Secret) c : holds_ca o c → kadmit o o' → holds_ca o' c.
Proof using All.
  intros (H1 & H2 & H3 & H4) (Hm & _ & Hsd & He). unfold holds_ca.
  rewrite !He. rewrite H3. destruct Hm as (_ & _ & _ & _ & _ & _ & ->).
  unfold mget, entries in *; simpl in *. by rewrite !(left_id_L ∅ (∪)).
Qed.

Lemma wp_setupPKIAuthConfiguration s :
  Inv s → wp spec (setupPKIAuthConfiguration r) s (λ _ s', Inv s').
Proof using All.
  intros Hs. unfold setupPKIAuthConfiguration. rewrite own_key.
  go1; [go| |].
  - cbv beta iota. apply wp_bind; [apply _|]. apply wp_GeneratePKIAuthSecret; [intros; go|].
    intros o Hk. pose proof Hk as [= Hns _].
    go; fin.
  - go1; [|go]. apply wp_bind; [apply _|].
    apply wp_RegeneratePKILeafCerts_meta; [done|intros; go|].
    pose proof (own_read_secret _ _ _ Hs0 Ho Hctl) as Hfk.
    pose proof (inv_secrets _ Hs0 _ _ Ho) as Hko. simpl in Hko.
    intros u o' Hown Hk Hd Hsd Hdata. go; fin.
    + apply own_secret; [by eapply read_controlled|by rewrite Hk, Hko|].
      rewrite Hk, Hko. set_solver.
    + apply inv_event, inv_stored_secret; [|intros c Hc _|done].
      { destruct Ha as [Ha _]. apply admitted_key in Ha. by rewrite Ha, Hk, Hko. }
      destruct (inv_ca _ Hs0 _ Hc) as (o2 & Ho2 & Hca). simpl in Ho.
      rewrite Ho2 in Ho. injection Ho as ->. eapply admitted_ca; [|done].
      destruct Hca as (H1 & H2 & H3 & H4).
      assert (is_Some (sec_data o)) as Hsome.
      { destruct (sec_data o); [done|]. discriminate. }
      unfold holds_ca. rewrite !(Hdata Hsome) by (vm_compute; set_solver).
      by rewrite Hsd, Hd.
Qed.

(** A Secret stored under a sibling key leaves the CA alone. *)
Lemma sibling_secret (o o' : Secret) suffix c :
  suffix ≠ "" → meta_key (sec_meta o) = sibling suffix → kadmit o o' →
  ca = Some c → meta_key (sec_meta o') = req → holds_ca o' c.
Proof using All.
  intros Hs Hk (Ha & _) _ E. apply admitted_key in Ha.
  destruct (sibling_ne suffix Hs). congruence.
Qed.

Lemma wp_setupClientKubeconfig s :
  Inv s → wp spec (setupClientKubeconfig r) s (λ _ s', Inv s').
Proof using All.
  intros Hs. unfold setupClientKubeconfig. rewrite own_key, sibling_key.
  go1; [go|go|]. cbv beta iota zeta.
  apply wp_bind; [apply _|]. apply wp_GenerateClientKubeconfigAuthSecret; [intros; go|].
  intros f _ _ _ _ _ _ _ Hk _ _. rewrite sibling_key in Hk.
  pose proof Hk as [= Hns _]. assert (om_namespace (sec_meta f) = rt_namespace r) as Hns'.
  { rewrite Hns. by rewrite <- Hkey. }
  go; fin.
  all: pose proof (own_read_secret _ _ _ Hs1 Ho0 Hctl) as Hfk.
  all: pose proof (inv_secrets _ Hs1 _ _ Ho0) as Hko; simpl in Hko.
  - apply own_secret; simpl; [by eapply read_controlled|by rewrite Hko|]. rewrite Hko. set_solver.
  - apply inv_event, inv_stored_secret; [|intros c|done].
    + destruct Ha as [Ha _]. apply admitted_key in Ha. rewrite Ha. simpl. by rewrite Hko.
    + eapply (sibling_secret _ _ "-kubeconfig"); [done| |done]; exact Hko.
Qed.

Lemma wp_setupClusterAgentRuntimeSecret s :
  Inv s → wp spec (setupClusterAgentRuntimeSecret r) s (λ _ s', Inv s').
Proof using All.
  intros Hs. unfold setupClusterAgentRuntimeSecret.
  destruct (GenerateClusterAgentRuntimeSecret r layout) as [d|m] eqn:Ed; [|go].
  assert (om_namespace (sec_meta d) = rt_namespace r ∧
          meta_key (sec_meta d) = sibling "-cluster-agent-runtime") as [Hns Hk].
  { unfold GenerateClusterAgentRuntimeSecret in Ed. case_match; simplify_eq/=.
    split; [done|]. apply sibling_key. }
  intros order _. change (bind (Ret ?x) ?f) with (f x).
  go; fin.
  all: pose proof (own_read_secret _ _ _ Hs0 Ho Hctl) as Hfk.
  all: rewrite <- (inv_secrets _ Hs0 _ _ Ho) in Hfk; simpl in Hfk.
  all: pose proof (read_key E (inv_secrets _ Hs0 _ _ Ho)) as Hko; simpl in Hko; rewrite Hk in Hko.
  - apply own_secret; [by eapply read_controlled|exact Hfk|].
    change (meta_key (sec_meta o0) ∈ [req; sibling "-kubeconfig"; sibling "-cluster-agent-runtime"]).
    rewrite Hko. set_solver.
  - apply inv_event, inv_stored_secret; [|intros c|done].
    + destruct Ha as [Ha _]. apply admitted_key in Ha. rewrite Ha. exact Hfk.
    + eapply (sibling_secret _ _ "-cluster-agent-runtime"); [done| |done]; exact Hko.
Qed.

Lemma wp_setDegraded reason msg s :
  Inv s → wp spec (setDegraded r reason msg) s (λ res s', Inv s' ∧ res = inr (reason +:+ ": " +:+ msg)).
Proof using All.
  intros Hs. unfold setDegraded. go.
  - by apply own_status.
  - split; [|done]. apply inv_put_status; [done| |done]. simpl in *. by rewrite <- Hkey.
Qed.

Lemma wp_step {A} reason (p : prog op (A + string)) k s (Q : unit + string → cluster → Prop) :
  Inv s → (Inv s → wp spec p s (λ _ s', Inv s')) →
  (∀ m s', Inv s' → Q (inr m) s') →
  (∀ a s', Inv s' → wp spec (k a) s' Q) →
  wp spec (step r reason p k) s Q.
Proof using All.
  intros Hs Hp He Hk. eapply wp_seq; [apply _|by apply Hp|].
  intros [a|m] s' Hs'; cbv beta iota in *; [by apply Hk|].
  eapply wp_mono; [apply _|by apply wp_setDegraded|]. intros res s1 [? ->]. by apply He.
Qed.
End step.

(** The runtime is stored with the condition of a finished reconciliation. *)
Definition reconciled (s : cluster) : Prop :=
  ∃ r, c_runtimes s !! req = Some r ∧
    FindStatusCondition (rst_conditions (rt_status r)) typeAvailableRuntime =
      Some (condition ConditionTrue "Reconciled" "All control-plane resources are in sync").

(** The end of a reconciliation that reports no error. *)
Definition finished (res : unit + string) (s : cluster) : Prop :=
  match res with
  | inl _ => c_runtimes s !! req = None ∨ reconciled s
  | inr _ => True
  end.

Lemma wp_set_available o s :
  Inv s → wp spec (set_available req o) s (λ res s', Inv s' ∧ finished res s').
Proof using All.
  intros Hs. unfold set_available. go; try (split; done);
    simpl in Ho; destruct (inv_runtime _ Hs0 _ Ho) as [Hk _].
  - by apply own_status.
  - simpl in Ho0. rewrite Hk in Ho0. destruct (inv_runtime _ Hs1 _ Ho0) as [Hk' _].
    split; [by apply inv_put_status|]. right. eexists.
    split; [simpl; rewrite Hk'; apply lookup_insert_eq|]. apply find_set.
Qed.

Lemma wp_ensure_conditions r s :
  meta_key (rt_meta r) = req → om_uid (rt_meta r) = uid → Inv s →
  wp spec (ensure_conditions req r) s (λ res s', Inv s' ∧
    match res with
    | inl r' => meta_key (rt_meta r') = req ∧ om_uid (rt_meta r') = uid
    | inr _ => True
    end).
Proof using All.
  intros Hk Hu Hs. unfold ensure_conditions. go1; [|by go1].
  go1; try (go; fail); [by apply own_status|]. simpl in Ho. rewrite Hk in Ho.
  assert (Inv (kput (kstatus (with_condition r (condition ConditionUnknown "Reconciling"
            "Starting reconciliation")) o0) s1)) as Hs1 by (by apply inv_put_status).
  go. destruct (inv_runtime _ Hs2 _ Ho0). auto.
Qed.

Lemma wp_reconcile_steps r s :
  meta_key (rt_meta r) = req → om_uid (rt_meta r) = uid → Inv s →
  wp spec (reconcile_steps w req r) s (λ res s', Inv s' ∧ finished res s').
Proof using All.
  intros Hk Hu Hs. unfold reconcile_steps.
  repeat (apply wp_step;
    [done|done|done|
     auto using wp_setupPKIAuthConfiguration, wp_setupClientKubeconfig,
       wp_setupClusterAgentRuntimeSecret, wp_setupClusterAgentDeployment,
       wp_setupControlPlaneConfiguration, wp_setupDeployment, wp_setupService,
       wp_setupPlaneTunnelService, wp_setupPlaneTunnelDeployment
    |by split|intros ? ? ?]).
  by apply wp_set_available.
Qed.

Lemma wp_Reconcile s :
  Inv s → wp spec (Reconcile w req) s (λ res s', Inv s' ∧ finished res s').
Proof using All.
  intros Hs. unfold Reconcile. go1; [go; by split|go; split; [done|by left]|].
  destruct (inv_runtime _ Hs0 _ Ho) as [Hk Hu]. cbv beta iota.
  eapply wp_seq; [apply _|by apply wp_ensure_conditions|].
  intros [r'|m] s' [Hs' Hr]; cbv beta iota in *; [|by split].
  destruct Hr. by apply wp_reconcile_steps.
Qed.
End safety.

(** Nothing of somebody else is stored. *)
Definition no_foreign : foreign_keys :=
  {| fk_secrets _ := False; fk_configMaps _ := False; fk_services _ := False |}.

(** C2.  Ownership.  Let [fk] be any keys under which a Secret, a ConfigMap or a
    Service is stored that the runtime does not control.  Whatever the server answers
    and whatever other actors do between two calls (as long as objects stay under
    their names, the runtime keeps its UID and the objects under [fk] stay there
    without becoming the runtime's), a reconciliation performs no write but
    those of [owned_write]: it creates only objects it controls, in its own
    namespace; it updates a Secret, the ConfigMap or a tunnel Service only when it
    controls it, under the names of the runtime, and never one of the
    objects under [fk]: an object of somebody else is neither adopted nor
    overwritten and is still stored, not controlled by the runtime, in the
    end; apart from these it updates only the Service and the three
    Deployments that carry its names, which it takes over whoever owns them, and its own
    status; it deletes nothing. *)
Theorem Reconcile_writes_owned `{M : Machinery} `{L : !MachineryLaws} `{X : X509} `{H : Hashing}
    `{R : Render} w req uid (fk : foreign_keys) (rely_ : cluster → cluster → Prop) s :
  (∀ s s', rely_ s s' → cluster_inv req uid fk None s → cluster_inv req uid fk None s') →
  cluster_inv req uid fk None s →
  wp (api_spec {| rely := rely_; allowed := λ wr _, owned_write req uid fk wr; may_panic := True |})
     (Reconcile w req) s (λ _ s', cluster_inv req uid fk None s').
Proof.
  intros Hr Hs. eapply wp_mono; [apply _|by apply (wp_Reconcile w req uid fk None rely_)|].
  by intros ? ? [? _].
Qed.

(** C1.  The CA survives.  If the PKI Secret of a runtime holds a CA pair, then
    after a reconciliation, whichever way it ends, the Secret is still there
    with the same CA certificate and key; this includes reconciliations that
    rotate leaf certificates, fail half-way or meet server errors. *)
Theorem Reconcile_keeps_CA `{M : Machinery} `{L : !MachineryLaws} `{X : X509} `{H : Hashing}
    `{R : Render} w req uid cert key (rely_ : cluster → cluster → Prop) s :
  (∀ s s', rely_ s s' →
     cluster_inv req uid no_foreign (Some (cert, key)) s → cluster_inv req uid no_foreign (Some (cert, key)) s') →
  cluster_inv req uid no_foreign (Some (cert, key)) s →
  wp (api_spec {| rely := rely_; allowed := λ wr _, owned_write req uid no_foreign wr; may_panic := True |})
     (Reconcile w req) s
     (λ _ s', ∃ o, c_secrets s' !! req = Some o ∧
        mget (sec_data o) "ca.crt" = Some cert ∧ mget (sec_data o) "ca.key" = Some key).
Proof.
  intros Hr Hs. eapply wp_mono; [apply _|by apply (wp_Reconcile w req uid no_foreign (Some (cert, key)) rely_)|].
  intros res s' [Hs' _]. destruct (inv_ca _ _ _ _ _ Hs' _ eq_refl) as (o & Ho & H1 & H2 & _). eauto.
Qed.

(** C3.  Success means available.  A reconciliation that returns no error found
    no runtime under its name, or leaves the runtime stored with the condition
    [Available=True], reason [Reconciled]. *)
Theorem Reconcile_success_available `{M : Machinery} `{L : !MachineryLaws} `{X : X509}
    `{H : Hashing} `{R : Render} w req uid (rely_ : cluster → cluster → Prop) s :
  (∀ s s', rely_ s s' → cluster_inv req uid no_foreign None s → cluster_inv req uid no_foreign None s') →
  cluster_inv req uid no_foreign None s →
  wp (api_spec {| rely := rely_; allowed := λ wr _, owned_write req uid no_foreign wr; may_panic := True |})
     (Reconcile w req) s
     (λ res s', res = inl tt →
        c_runtimes s' !! req = None ∨
        ∃ r, c_runtimes s' !! req = Some r ∧
          FindStatusCondition (rst_conditions (rt_status r)) "Available" =
            Some (condition ConditionTrue "Reconciled" "All control-plane resources are in sync")).
Proof.
  intros Hr Hs. eapply wp_mono; [apply _|by apply (wp_Reconcile w req uid no_foreign None rely_)|].
  intros res s' [_ Hf] ->. exact Hf.
Qed.

(** A cluster with the example runtime and its PKI Secret. *)
Definition example_key : NamespacedName := NN "default" "demo".

Definition example_owned_secret : Secret := {|
  sec_meta := {| om_name := "demo"; om_namespace := "default"; om_uid := "uid-2";
    om_generation := 1; om_labels := None; om_annotations := None;
    om_owners := [{| or_uid := "uid-1"; or_controller := true |}];
    om_finalizers := []; om_deletion := None |};
  sec_type := "";
  sec_data := Some {[ "ca.crt" := "CA"; "ca.key" := "KEY" ]}; sec_stringData := None |}.

Definition example_cluster (secrets : gmap NamespacedName Secret)
    (deployments : gmap NamespacedName Deployment) : cluster := {|
  c_runtimes := {[ example_key := example_runtime ]}; c_secrets := secrets;
  c_configMaps := ∅; c_services := ∅; c_deployments := deployments; c_tokens := ∅;
  c_charts := ∅; c_jobs := ∅; c_accounts := ∅; c_bindings := ∅; c_csrs := ∅; c_nodes := ∅; c_slices := ∅; c_crds := ∅;
  c_now := 0; c_events := [] |}.

Lemma example_inv_empty :
  cluster_inv (M := ref_machinery) example_key "uid-1" no_foreign None (example_cluster ∅ ∅).
Proof.
  split; simpl; try apply map_Forall_empty; try done.
  intros r. rewrite lookup_singleton_eq. by intros [= <-].
Qed.

Lemma example_inv_ca :
  cluster_inv (M := ref_machinery) example_key "uid-1" no_foreign (Some ("CA", "KEY"))
    (example_cluster {[ example_key := example_owned_secret ]} ∅).
Proof.
  split; simpl; try apply map_Forall_empty; try done.
  - intros r. rewrite lookup_singleton_eq. by intros [= <-].
  - by apply map_Forall_singleton.
  - intros c [= <-]. exists example_owned_secret. rewrite lookup_singleton_eq. done.
Qed.

(** A cluster in which somebody else has a ConfigMap with the name of the runtime. *)
Definition example_foreign_config : ConfigMap := {|
  cm_meta := {| om_name := "demo"; om_namespace := "default"; om_uid := "uid-9";
    om_generation := 1; om_labels := None; om_annotations := None; om_owners := [];
    om_finalizers := []; om_deletion := None |};
  cm_data := Some {[ "key" := "value" ]} |}.

Definition example_foreign_cluster : cluster :=
  kput example_foreign_config (example_cluster ∅ ∅).

Definition example_foreign : foreign_keys :=
  {| fk_secrets _ := False; fk_configMaps n := n = example_key; fk_services _ := False |}.

Lemma example_inv_foreign :
  cluster_inv (M := ref_machinery) example_key "uid-1" example_foreign None example_foreign_cluster.
Proof.
  split; simpl; try apply map_Forall_empty; try done.
  - intros r. rewrite lookup_singleton_eq. by intros [= <-].
  - apply map_Forall_insert_2; [done|apply map_Forall_empty].
  - intros n ->. exists example_foreign_config. split; [done|]. intros Hc.
    by specialize (Hc (rt_meta example_runtime) eq_refl).
Qed.

(** The reconciliation of the witnesses, executed by the in-memory service. *)
Definition example_Reconcile : prog op (unit + string) :=
  Reconcile (M := ref_machinery) (X := ref_x509) (H := ref_hashing) (R := ref_render)
    NewWorkerContextWithDefaults example_key.

(** In that cluster the executed reconciliation stops at the ConfigMap, which is stored
    unchanged, with an error. *)
Lemma Reconcile_writes_owned_witness :
  wp (api_spec (X := ref_x509) {| rely := eq;
        allowed := λ wr _, owned_write (M := ref_machinery) example_key "uid-1" example_foreign wr;
        may_panic := True |})
     example_Reconcile example_foreign_cluster
     (λ _ s', cluster_inv (M := ref_machinery) example_key "uid-1" example_foreign None s') ∧
  match run mem example_Reconcile example_foreign_cluster with
  | Some (inr _, s') => c_configMaps s' !! example_key = Some example_foreign_config
  | _ => False
  end.
Proof.
  split; [|vm_compute; reflexivity].
  apply (Reconcile_writes_owned (M := ref_machinery) (L := ref_machinery_laws) (X := ref_x509)
    (H := ref_hashing) (R := ref_render)).
  - by intros s s' <-.
  - exact example_inv_foreign.
Defined.

(** The rotation of the leaf certificates of the example is executed, and the
    Secret still holds the CA. *)
Lemma Reconcile_keeps_CA_witness :
  match run mem example_Reconcile
          (example_cluster {[ example_key := example_owned_secret ]} ∅) with
  | Some (_, s') => ∃ o, c_secrets s' !! example_key = Some o ∧
      mget (sec_data o) "ca.crt" = Some "CA" ∧ mget (sec_data o) "ca.key" = Some "KEY"
  | None => True
  end.
Proof.
  pose proof (Reconcile_keeps_CA (M := ref_machinery) (L := ref_machinery_laws) (X := ref_x509)
    (H := ref_hashing) (R := ref_render) NewWorkerContextWithDefaults example_key "uid-1"
    "CA" "KEY" eq (example_cluster {[ example_key := example_owned_secret ]} ∅)) as Hca.
  specialize (Hca ltac:(by intros s s' <-) example_inv_ca).
  apply mem_run in Hca; [exact Hca|by intros s].
Defined.

(** From a cluster that holds only the runtime, the reconciliation returns
    without an error and the runtime is available. *)
Lemma Reconcile_success_available_witness :
  match run mem example_Reconcile (example_cluster ∅ ∅) with
  | Some (res, s') => res = inl tt ∧
      (c_runtimes s' !! example_key = None ∨
       ∃ r, c_runtimes s' !! example_key = Some r ∧
          ref_FindStatusCondition (rst_conditions (rt_status r)) "Available" =
            Some (condition ConditionTrue "Reconciled" "All control-plane resources are in sync"))
  | None => False
  end.
Proof.
  pose proof (Reconcile_success_available (M := ref_machinery) (L := ref_machinery_laws)
    (X := ref_x509) (H := ref_hashing) (R := ref_render) NewWorkerContextWithDefaults example_key
    "uid-1" eq (example_cluster ∅ ∅)) as Hok.
  specialize (Hok ltac:(by intros s s' <-) example_inv_empty).
  apply mem_run in Hok as Hrun; [|by intros s].
  assert (match run mem example_Reconcile (example_cluster ∅ ∅) with
          | Some (inl _, _) => true | _ => false end = true) as E by (vm_compute; reflexivity).
  change (Reconcile NewWorkerContextWithDefaults example_key) with example_Reconcile in Hrun.
  destruct (run mem example_Reconcile (example_cluster ∅ ∅)) as [[[[]|] s']|]; [|done..].
  split; [done|]. by apply Hrun.
Defined.
