(* ===== verification/RuntimeSteps.v ===== *)
(** * Steps of the Runtime controller

    Properties of single steps of [RuntimeController]: the client kubeconfig that
    was just issued is accepted, updates keep the ClusterIP, a second run of a
    step changes nothing, and two concrete runs that show what the steps do with
    objects somebody else made. *)

From S2P Require Import Prelude Effects Kube Api Pki World PkiAuth Templates Generate RuntimeController.
From stdpp Require Import options.

#[local] Abbreviation layout := NewControlPlaneLayout.

(** ** The client kubeconfig *)

(** A client kubeconfig that was just issued is accepted.  When
    [clientcmd.Load] reads back what [clientcmd.Write] wrote, the Secret built by
    [GenerateClientKubeconfigAuthSecret], as the server stores it, passes
    [validateClientKubeconfigSecret] from the moment it is issued until its
    certificate expires a year later (less the few minutes by which the signer dates it
    back), as long as the CA itself is valid, so no reconciliation in that year
    rotates it for another reason than a change of the CA or of the endpoint. *)
Theorem fresh_kubeconfig_accepted `{X : X509} e ca r s :
  (∀ c, ∃ raw, WriteKubeconfig c = Some raw ∧ raw ≠ "" ∧ LoadKubeconfig raw = Some c) →
  wp (api_spec e) (GenerateClientKubeconfigAuthSecret ca r layout) s
    (λ res s', s' = s ∧
       ∀ sec stored t, res = inl sec → kadmit sec stored →
         (c_now s ≤ t ≤ c_now s + CertificateDuration - signing_backdate)%Z →
         (∀ y, parseCertificatePEM (crt_cert ca) = inl y → xc_notBefore y ≤ t ≤ xc_notAfter y)%Z →
         validateClientKubeconfigSecret t stored ca r layout = None).
Proof.
  intros Hkc. apply wp_GenerateClientKubeconfigAuthSecret; [done|].
  intros o cert x pub Hkey Hne Hx Hi Hk Hd Hsd. split; [done|].
  intros sec stored t [= <-] (_ & _ & _ & Hst) Ht Hca. unfold validateClientKubeconfigSecret.
  assert (mget (sec_data stored) (SecretKey (ClientKubeconfig (lay_auth layout))) =
    Some (default "" (generateKubeconfig (rt_name r) (crt_cert ca) cert (Some (apiServerURL r))))) as ->.
  { rewrite Hst, Hsd, Hd. unfold mget, entries. simpl.
    by rewrite (left_id_L ∅ (∪)), lookup_singleton_eq. }
  unfold generateKubeconfig. set (kc := {| kc_clusters := _ |}).
  destruct (Hkc kc) as (raw & -> & Hraw & Hload). simpl. rewrite bool_decide_false by done.
  match goal with |- match ?p with _ => _ end = _ => assert (∃ v, p = inl v) as [v ->]; [|done] end.
  eexists {| kcv_config := kc |}. apply kubeconfig_accepted_iff.
  exists {| kx_cluster := rt_name r; kx_authInfo := rt_name r |}. simpl.
  rewrite Hload, !lookup_singleton_eq. do 4 (split; [done|]). split; [done|].
  destruct Hi as (_ & _ & Hpub & _ & Hnb & Hna & pool & Hp & Hv).
  repeat constructor.
  - unfold WithServerValidation. simpl. by rewrite bool_decide_false by tauto.
  - unfold WithClientCertificateValidation. simpl.
    rewrite (proj2 (certificate_accepted_iff t (crt_cert cert) ca _ x)); [done|].
    split; [done|]. split; simpl; try done; [by exists pub|lia|].
    exists pool. split; [done|]. apply Hv; [lia|done].
Qed.

Lemma fresh_kubeconfig_accepted_witness :
  let ca := {| crt_cert := "CA"; crt_key := "KEY" |} in
  match run mem (GenerateClientKubeconfigAuthSecret (X := ref_x509) ca example_runtime layout)
          empty_cluster with
  | Some (inl sec, _) =>
      validateClientKubeconfigSecret (X := ref_x509) 1000 (kstore sec) ca example_runtime layout = None
  | _ => False
  end.
Proof.
  intros ca.
  assert (∀ c, ∃ raw, WriteKubeconfig (X509 := ref_x509) c = Some raw ∧ raw ≠ "" ∧
            LoadKubeconfig (X509 := ref_x509) raw = Some c) as Hkc.
  { intros c. exists (enc c). split; [reflexivity|]. split; [apply enc_nonempty|apply dec_enc]. }
  pose proof (fresh_kubeconfig_accepted (X := ref_x509) example_env ca example_runtime
                empty_cluster Hkc) as Hok.
  apply mem_run in Hok; [|by intros s].
  assert (match run mem (GenerateClientKubeconfigAuthSecret (X := ref_x509) ca example_runtime layout)
                  empty_cluster with Some (inl _, _) => true | _ => false end = true) as E
    by (vm_compute; reflexivity).
  destruct (run mem _ _) as [[[sec|] s']|]; [|done..].
  destruct Hok as [_ Hok]. apply (Hok sec); [done|apply kadmit_kstore| |].
  - split; vm_compute; discriminate.
  - intros y Hy. by vm_compute in Hy.
Defined.

(** ** ClusterIP *)

(** Creations, and updates of a Service that keep the ClusterIP and the owners
    of the stored object. *)
Inductive keeps_clusterIP : write → cluster → Prop :=
| keeps_create (o : Service) s : keeps_clusterIP (WCreate kind_Service o) s
| keeps_update (o old : Service) s :
    c_services s !! meta_key (svc_meta o) = Some old →
    ss_clusterIP (svc_spec o) = ss_clusterIP (svc_spec old) →
    om_owners (svc_meta o) = om_owners (svc_meta old) →
    keeps_clusterIP (WUpdate kind_Service o) s.

(** Services are stored under their name. *)
Definition services_keyed (s : cluster) : Prop :=
  map_Forall (λ n o, meta_key (svc_meta o) = n) (c_services s).

Section clusterIP.
Context `{M : Machinery} `{L : !MachineryLaws} `{X : X509} (w : WorkerContext) (r : Runtime).

Definition quiet_env : env :=
  {| rely := eq; allowed := keeps_clusterIP; may_panic := False |}.

Lemma keyed_put (o : Service) s : services_keyed s → services_keyed (kput o s).
Proof. intros Hs. by apply map_Forall_insert_2. Qed.

Lemma keyed_event m s : services_keyed s → services_keyed (record_event m s).
Proof. done. Qed.

Lemma keyed_stored (o : Service) s :
  services_keyed s →
  services_keyed (if gone (kmeta o) then kdel Service (meta_key (kmeta o)) s else kput o s).
Proof.
  intros Hs. destruct (gone _); [by apply map_Forall_delete|by apply keyed_put].
Qed.

Lemma adopted_allowed (old desired : Service) n s :
  services_keyed s → c_services s !! n = Some old →
  keeps_clusterIP (WUpdate kind_Service (adopt_service old desired)) s.
Proof.
  intros Hs Ho. apply (keeps_update _ old); [|done..].
  change (c_services s !! meta_key (svc_meta old) = Some old). by rewrite (Hs _ _ Ho).
Qed.

Lemma quiet_rely s0 s s' : rely quiet_env s s' → s = s0 → s' = s0.
Proof. by intros ->. Qed.

Ltac go s0 := repeat (wp_call quiet_env (λ s, s = s0) (quiet_rely s0) ltac:(done));
  subst; cbn [allowed quiet_env];
  try (solve [eauto using keyed_put, keyed_stored, keyed_event, keeps_create, adopted_allowed]).

Lemma wp_setupService_quiet s :
  services_keyed s → wp (api_spec quiet_env) (setupService r) s (λ _, services_keyed).
Proof. intros Hs. unfold setupService. go s. Qed.

Lemma wp_setup_tunnel_service_quiet svc s :
  services_keyed s →
  wp (api_spec quiet_env) (setup_tunnel_service r svc) s (λ _, services_keyed).
Proof. intros Hs. unfold setup_tunnel_service. go s. Qed.

Lemma wp_setupPlaneTunnelService_quiet s :
  services_keyed s → wp (api_spec quiet_env) (setupPlaneTunnelService w r) s (λ _, services_keyed).
Proof.
  intros Hs. unfold setupPlaneTunnelService.
  eapply (wp_seq _ _ _ _ (λ _, services_keyed)).
  - apply (wp_for_each _ _ _ services_keyed); [done| |done]. intros svc s0 _ Hs0.
    eapply wp_mono; [apply _|by apply wp_setup_tunnel_service_quiet|]. by intros [] ?.
  - intros [] s' Hs'; exact Hs'.
Qed.
End clusterIP.

(** The ClusterIP is preserved.  When no other actor interferes, every
    update the two Service steps send keeps the ClusterIP and the owner
    references of the stored Service, which the server would refuse to change;
    the steps never panic and write nothing but Services. *)
Theorem services_keep_clusterIP `{M : Machinery} `{X : X509} w r s :
  services_keyed s →
  let e := {| rely := eq; allowed := keeps_clusterIP; may_panic := False |} in
  wp (api_spec e) (setupService r) s (λ _, services_keyed) ∧
  wp (api_spec e) (setupPlaneTunnelService w r) s (λ _, services_keyed).
Proof.
  intros Hs e. split; [by apply wp_setupService_quiet|by apply wp_setupPlaneTunnelService_quiet].
Qed.

Lemma services_keep_clusterIP_witness :
  services_keyed (example_cluster ∅ ∅) ∧
  wp (api_spec (X := ref_x509) {| rely := eq; allowed := keeps_clusterIP; may_panic := False |})
    (setupService (M := ref_machinery) example_runtime) (example_cluster ∅ ∅) (λ _, services_keyed).
Proof.
  assert (services_keyed (example_cluster ∅ ∅)) as Hs by apply map_Forall_empty.
  split; [exact Hs|].
  apply (services_keep_clusterIP (M := ref_machinery) (X := ref_x509)
           NewWorkerContextWithDefaults example_runtime (example_cluster ∅ ∅)). exact Hs.
Defined.

(** ** Running a step again *)

Section idempotent.
Context `{M : Machinery} `{L : !MachineryLaws}.

Lemma run_reconcile_deployment r kind d m s :
  SetControllerReference (rt_meta r) (dep_meta d) = inl m →
  run mem (reconcile_deployment r kind d) s =
    let desired := {| dep_meta := m; dep_spec := dep_spec d |} in
    match c_deployments s !! meta_key m with
    | None => Some (inl tt, record_event (kind +:+ "Created") (kput desired s))
    | Some old =>
        if deployment_in_sync old desired then Some (inl tt, s)
        else
          let new := adopt_deployment old desired in
          match c_deployments s !! meta_key (dep_meta old) with
          | None => Some (inr "not found", record_event (kind +:+ "UpdateFailed") s)
          | Some _ =>
              Some (inl tt, if gone (dep_meta old) then kdel Deployment (meta_key (dep_meta old)) s
                            else kput new s)
          end
    end.
Proof.
  intros E. unfold reconcile_deployment. rewrite E. cbn -[kput kdel deployment_in_sync].
  destruct (c_deployments s !! meta_key m) as [old|] eqn:Eo; cbn -[kput kdel deployment_in_sync].
  - destruct (deployment_in_sync old _); cbn -[kput kdel]; [done|].
    change (meta_key (with_labels (dep_meta old) (om_labels m))) with (meta_key (dep_meta old)).
    by destruct (c_deployments s !! meta_key (dep_meta old)).
  - by rewrite Eo.
Qed.

Lemma deployment_in_sync_adopt old d : deployment_in_sync (adopt_deployment old d) d = true.
Proof.
  unfold deployment_in_sync, adopt_deployment, sem_eq. simpl. by rewrite !bool_decide_true.
Qed.
End idempotent.

(** A Deployment step is idempotent.  Run on the in-memory service, when
    it succeeds, a second run with the same desired Deployment succeeds and
    leaves the cluster as it is, whatever was stored before (unless the stored
    Deployment was being deleted). *)
Theorem reconcile_deployment_idempotent `{M : Machinery} `{L : !MachineryLaws} r kind d s s1 :
  (∀ o, c_deployments s !! meta_key (dep_meta d) = Some o →
     meta_key (dep_meta o) = meta_key (dep_meta d) ∧ om_deletion (dep_meta o) = None) →
  run mem (reconcile_deployment r kind d) s = Some (inl tt, s1) →
  run mem (reconcile_deployment r kind d) s1 = Some (inl tt, s1).
Proof.
  intros Hst. destruct (SetControllerReference (rt_meta r) (dep_meta d)) as [m|err] eqn:E;
    [|unfold reconcile_deployment; rewrite E; done].
  assert (meta_key m = meta_key (dep_meta d)) as Hk.
  { apply scr_frame in E as (E1 & E2 & _). unfold meta_key. congruence. }
  rewrite !(run_reconcile_deployment r kind d m) by done. rewrite Hk. cbv zeta.
  destruct (c_deployments s !! meta_key (dep_meta d)) as [old|] eqn:Eo.
  - destruct (Hst _ eq_refl) as [Hko Hd]. destruct (deployment_in_sync old _) eqn:Es.
    { intros [= <-]. by rewrite Eo, Es. }
    assert (gone (dep_meta old) = false) as ->.
    { unfold gone. rewrite Hd, bool_decide_false; [done|]. by intros []. }
    rewrite Hko, Eo. intros [= <-]. simpl c_deployments.
    change (meta_key (with_labels (dep_meta old) (om_labels m))) with (meta_key (dep_meta old)).
    rewrite Hko, lookup_insert_eq. by rewrite deployment_in_sync_adopt.
  - intros [= <-]. simpl c_deployments. rewrite Hk, lookup_insert_eq.
    unfold deployment_in_sync, sem_eq. simpl. by rewrite !bool_decide_true.
Qed.

(** A Deployment somebody else made under the name of the example runtime. *)
Definition foreign_deployment : Deployment := {|
  dep_meta := new_meta "demo" "default" None None;
  dep_spec := {| ds_replicas := Some 7%Z; ds_selector := ∅;
    ds_template := {| pt_labels := ∅; pt_annotations := ∅;
      pt_spec := {| ps_serviceAccountName := ""; ps_runtimeClassName := None;
        ps_tolerations := []; ps_affinity := None; ps_containers := []; ps_volumes := [] |} |} |} |}.

Lemma reconcile_deployment_idempotent_witness :
  let s := example_cluster ∅ {[ example_key := foreign_deployment ]} in
  let d := GeneratePlaneTunnelDeployment NewWorkerContextWithDefaults example_runtime layout [] in
  ∃ s1, run mem (reconcile_deployment (M := ref_machinery) example_runtime "Tunnel" d) s =
          Some (inl tt, s1) ∧
        run mem (reconcile_deployment (M := ref_machinery) example_runtime "Tunnel" d) s1 =
          Some (inl tt, s1).
Proof.
  intros s d. eexists. split; [reflexivity|].
  apply (reconcile_deployment_idempotent (M := ref_machinery) (L := ref_machinery_laws) _ _ _ s).
  - intros o. simpl. rewrite lookup_singleton_ne by done. discriminate.
  - reflexivity.
Defined.

(** ** Objects of others *)

(** The Deployment steps do not look at ownership: a Deployment of somebody
    else that carries the name is overwritten, while the PKI Secret in the same
    situation is refused. *)
Example setupDeployment_overwrites_foreign :
  match run mem (setupDeployment (M := ref_machinery) example_runtime [])
          (example_cluster {[ example_key := example_pki_secret ]}
                           {[ example_key := foreign_deployment ]}) with
  | Some (inl _, s) =>
      option_map (λ d, (ds_replicas (dep_spec d), om_owners (dep_meta d)))
        (c_deployments s !! example_key) = Some (Some 2%Z, [])
  | _ => False
  end ∧
  match run mem (setupPKIAuthConfiguration (M := ref_machinery) (X := ref_x509) (H := ref_hashing)
                   example_runtime)
          (example_cluster {[ example_key := example_pki_secret ]}
                           {[ example_key := foreign_deployment ]}) with
  | Some (inr _, s) => c_secrets s !! example_key = Some example_pki_secret
  | _ => False
  end.
Proof. split; vm_compute; reflexivity. Qed.

(** A ConfigMap the runtime owns but that carries no annotations. *)
Definition bare_configMap : ConfigMap := {|
  cm_meta := {| om_name := "demo"; om_namespace := "default"; om_uid := "uid-3";
    om_generation := 1; om_labels := None; om_annotations := None;
    om_owners := [{| or_uid := "uid-1"; or_controller := true |}];
    om_finalizers := []; om_deletion := None |};
  cm_data := None |}.

(** [existing.Annotations[...] = desiredHash] panics on such a ConfigMap. *)
Example setupControlPlaneConfiguration_panics :
  run mem (setupControlPlaneConfiguration (M := ref_machinery) (H := ref_hashing)
             (R := ref_render) example_runtime)
    (kput bare_configMap (example_cluster ∅ ∅)) = None.
Proof. vm_compute. reflexivity. Qed.

(** A second reconciliation of the example records no event and changes nothing
    but, possibly, the status. *)
Example second_Reconcile_quiet :
  match run mem example_Reconcile (example_cluster ∅ ∅) with
  | Some (_, s1) =>
      match run mem example_Reconcile s1 with
      | Some (res, s2) =>
          bool_decide (res = inl tt ∧ c_events s2 = c_events s1 ∧
                       length (c_events s1) = 11%nat) = true
      | None => False
      end
  | None => False
  end.
Proof. vm_compute. reflexivity. Qed.
