(* ===== verification/Broker.v ===== *)
(** * The tunnel broker

    [pkg/tunnel/server/broker/broker.go]: the table of the tunnels each node has
    open, guarded by a mutex.  [Register], [Unregister] and [Pick] are the
    critical sections, as functions on the table; the round-robin cursor is a
    64-bit counter that wraps.  Whether the session of a tunnel is closed is
    known to the [outbound] library only: [closed] is a parameter of the
    operations that ask.

    The second half is the broker as a concurrent system: every registered
    tunnel is owned by a goroutine that serves it and unregisters it once its
    session is closed. *)

From S2P Require Import Prelude.
From stdpp Require Import options.

(** ** State *)

(** [Tunnel]: the id, and the identity of its session. *)
Record Tunnel := { t_id : string; t_session : nat }.

#[export] Instance Tunnel_eq_dec : EqDecision Tunnel.
Proof. solve_decision. Defined.

Record tunnelSet := {
  conns : list Tunnel;
  (** Round-robin cursor, a [uint64]. *)
  rr : Z;
}.

(** [Broker.nodes]; the other fields are constants. *)
Abbreviation Broker := (gmap string tunnelSet).

Definition New : Broker := ∅.

Definition uint64 (z : Z) : Z := z `mod` 2 ^ 64.

(** ** Operations *)

(** The critical section of [Register]: append, creating the set of a node that
    has none. *)
Definition register_conn (b : Broker) (nodeName : string) (t : Tunnel) : Broker :=
  let set := default {| conns := []; rr := 0 |} (b !! nodeName) in
  <[nodeName := {| conns := conns set ++ [t]; rr := rr set |}]> b.

(** [Register]: [session] is the outcome of [outbound.Server] on the connection,
    [id] the fresh uuid.  The result says whether the connection was closed. *)
Inductive register_result :=
| Registered (id : string)
| SessionFailed (conn_closed : bool).

Definition Register (b : Broker) (nodeName id : string) (session : option nat)
    : register_result * Broker :=
  match session with
  | None => (SessionFailed true, b)
  | Some s => (Registered id, register_conn b nodeName {| t_id := id; t_session := s |})
  end.

(** The loop of [Unregister]: the first tunnel with the id is replaced by the
    last one and the slice is cut. *)
Definition remove_conn (id : string) (l : list Tunnel) : list Tunnel :=
  match list_find (λ t, t_id t = id) l with
  | None => l
  | Some (i, _) =>
      match list.last l with
      | None => l
      | Some t => take (length l - 1) (<[i := t]> l)
      end
  end.

Definition Unregister (b : Broker) (nodeName id : string) : Broker :=
  match b !! nodeName with
  | None => b
  | Some set =>
      let set' := {| conns := remove_conn id (conns set); rr := rr set |} in
      match conns set' with
      | [] => delete nodeName b
      | _ => <[nodeName := set']> b
      end
  end.

(** The [for] loop of [Pick] over the offsets [offs]; an index out of range would
    panic ([None]). *)
Fixpoint pick_from (closed : Tunnel → bool) (l : list Tunnel) (start : Z) (offs : list nat)
    : option (option Tunnel) :=
  match offs with
  | [] => Some None
  | i :: offs' =>
      match l !! Z.to_nat (uint64 (start + Z.of_nat i) `mod` Z.of_nat (length l)) with
      | None => None
      | Some t => if closed t then pick_from closed l start offs' else Some (Some t)
      end
  end.

Definition Pick (closed : Tunnel → bool) (b : Broker) (nodeName : string)
    : option (option Tunnel) * Broker :=
  match b !! nodeName with
  | None => (Some None, b)
  | Some set =>
      match conns set with
      | [] => (Some None, b)
      | _ =>
          let start := uint64 (rr set + 1) in
          (pick_from closed (conns set) start (seq 0 (length (conns set))),
           <[nodeName := {| conns := conns set; rr := start |}]> b)
      end
  end.

(** [Dial]: [dial] opens a stream on the picked tunnel. *)
Definition Dial {C} (dial : Tunnel → C + string) (closed : Tunnel → bool) (b : Broker)
    (nodeName : string) : option (C + string) * Broker :=
  match Pick closed b nodeName with
  | (None, b') => (None, b')
  | (Some None, b') => (Some (inr ("no tunnel registered for node " +:+ nodeName)), b')
  | (Some (Some t), b') => (Some (dial t), b')
  end.

(** ** Invariant *)

(** The tunnels of a node. *)
Definition tunnels (b : Broker) (n : string) : list Tunnel :=
  match b !! n with None => [] | Some set => conns set end.

(** No empty sets, cursors in range, distinct ids per node. *)
Definition set_ok (set : tunnelSet) : Prop :=
  conns set ≠ [] ∧ (0 ≤ rr set < 2 ^ 64)%Z ∧ NoDup (t_id <$> conns set).

Definition broker_ok (b : Broker) : Prop := map_Forall (λ _, set_ok) b.

Lemma broker_ok_New : broker_ok New.
Proof. apply map_Forall_empty. Qed.

Lemma uint64_range z : (0 ≤ uint64 z < 2 ^ 64)%Z.
Proof. apply Z.mod_pos_bound. lia. Qed.

Lemma tunnels_insert b n set m :
  tunnels (<[n := set]> b) m = if decide (n = m) then conns set else tunnels b m.
Proof.
  unfold tunnels. case_decide; subst; [by rewrite lookup_insert_eq|by rewrite lookup_insert_ne].
Qed.

Lemma tunnels_delete b n m :
  tunnels (delete n b) m = if decide (n = m) then [] else tunnels b m.
Proof.
  unfold tunnels. case_decide; subst; [by rewrite lookup_delete_eq|by rewrite lookup_delete_ne].
Qed.

Lemma tunnels_register b n t m :
  tunnels (register_conn b n t) m = if decide (n = m) then tunnels b n ++ [t] else tunnels b m.
Proof.
  unfold register_conn. rewrite tunnels_insert. case_decide; [|done].
  unfold tunnels. by destruct (b !! n).
Qed.

(** Swap-with-last removes exactly the found element, up to order. *)
Lemma remove_conn_perm id l i t :
  list_find (λ t, t_id t = id) l = Some (i, t) → l ≡ₚ t :: remove_conn id l.
Proof.
  intros Hf. unfold remove_conn. rewrite Hf. apply list_find_Some in Hf as (Hi & _ & _).
  destruct l as [|z l0 _] using rev_ind; [done|].
  rewrite list.last_snoc, length_app. simpl. replace (length l0 + 1 - 1) with (length l0) by lia.
  destruct (decide (i < length l0)) as [Hlt|Hge].
  - rewrite insert_app_l, take_app_length' by (rewrite ?length_insert; lia).
    rewrite lookup_app_l in Hi by done.
    rewrite insert_take_drop by done. rewrite <- (take_drop_middle l0 i t Hi) at 1.
    solve_Permutation.
  - assert (i = length l0) as -> by (apply lookup_lt_Some in Hi; rewrite length_app in Hi; simpl in Hi; lia).
    rewrite insert_app_r_alt, take_app_length' by (rewrite ?length_take; lia).
    rewrite list_lookup_middle in Hi by done. injection Hi as ->. solve_Permutation.
Qed.

Lemma elem_of_remove_conn id l x :
  NoDup (t_id <$> l) → x ∈ t_id <$> remove_conn id l ↔ x ∈ t_id <$> l ∧ x ≠ id.
Proof.
  intros Hnd. destruct (list_find (λ t, t_id t = id) l) as [[i t]|] eqn:Hf.
  - pose proof (remove_conn_perm id l i t Hf) as Hp. apply list_find_Some in Hf as (_ & Hid & _).
    generalize dependent (remove_conn id l). intros l' Hp.
    rewrite Hp in Hnd |- *. rewrite fmap_cons in *. apply NoDup_cons in Hnd as [Hni _].
    rewrite elem_of_cons. rewrite Hid in *. naive_solver.
  - unfold remove_conn. rewrite Hf. apply list_find_None in Hf. split; [|naive_solver].
    intros Hx. split; [done|]. intros ->. apply list_elem_of_fmap in Hx as (t & Ht & Hin).
    rewrite Forall_forall in Hf. by eapply Hf.
Qed.

Lemma NoDup_remove_conn id l : NoDup (t_id <$> l) → NoDup (t_id <$> remove_conn id l).
Proof.
  intros Hnd. destruct (list_find (λ t, t_id t = id) l) as [[i t]|] eqn:Hf.
  - rewrite (remove_conn_perm id l i t Hf), fmap_cons in Hnd. by apply NoDup_cons in Hnd as [_ ?].
  - unfold remove_conn. by rewrite Hf.
Qed.

Lemma tunnels_Unregister b n id m :
  tunnels (Unregister b n id) m = if decide (n = m) then remove_conn id (tunnels b n) else tunnels b m.
Proof.
  unfold Unregister. destruct (b !! n) as [set|] eqn:E.
  - assert (tunnels b n = conns set) as -> by (unfold tunnels; by rewrite E).
    cbn [conns]. destruct (remove_conn id (conns set)) eqn:Er.
    + apply tunnels_delete.
    + by rewrite tunnels_insert.
  - case_decide; [|done]. subst. unfold tunnels. by rewrite E.
Qed.

Lemma tunnels_Pick closed b n m : tunnels (Pick closed b n).2 m = tunnels b m.
Proof.
  unfold Pick. destruct (b !! n) as [set|] eqn:E; [|done].
  destruct (conns set) eqn:Ec; [done|]. simpl. rewrite tunnels_insert. simpl.
  case_decide; [|done]. subst. unfold tunnels. by rewrite E.
Qed.

Lemma broker_ok_lookup b n :
  broker_ok b → NoDup (t_id <$> tunnels b n).
Proof.
  intros Hb. unfold tunnels. destruct (b !! n) as [set|] eqn:E; [|constructor].
  apply (Hb _ _ E).
Qed.

Lemma broker_ok_register b n t :
  broker_ok b → t_id t ∉ t_id <$> tunnels b n → broker_ok (register_conn b n t).
Proof.
  intros Hb Hf. apply map_Forall_insert_2; [|done]. unfold tunnels in Hf.
  destruct (b !! n) as [set|] eqn:E; simpl; [destruct (Hb _ _ E) as (_ & Hr & Hn)|].
  - split; [by destruct (conns set)|]. split; [done|]. simpl. rewrite fmap_app.
    apply NoDup_app. split; [done|]. split; [|apply NoDup_singleton].
    intros x Hx. simpl. rewrite list_elem_of_singleton. by intros ->.
  - split; [done|]. split; [done|]. apply NoDup_singleton.
Qed.

Lemma broker_ok_Unregister b n id : broker_ok b → broker_ok (Unregister b n id).
Proof.
  intros Hb. unfold Unregister. destruct (b !! n) as [set|] eqn:E; [|done]. cbn [conns].
  destruct (Hb _ _ E) as (_ & Hr & Hn). destruct (remove_conn id (conns set)) eqn:Er.
  - by apply map_Forall_delete.
  - apply map_Forall_insert_2; [|done]. split; [simpl; congruence|]. split; [done|].
    apply (NoDup_remove_conn id) in Hn. by rewrite Er in Hn.
Qed.

Lemma broker_ok_Pick closed b n : broker_ok b → broker_ok (Pick closed b n).2.
Proof.
  intros Hb. unfold Pick. destruct (b !! n) as [set|] eqn:E; [|done].
  destruct (Hb _ _ E) as (He & Hr & Hn).
  destruct (conns set) eqn:Ec; [done|]. simpl. apply map_Forall_insert_2; [|done].
  split; [done|]. split; [apply uint64_range|]. done.
Qed.

(** ** Refinement of a set of registrations *)

(** The abstract broker: which (node, tunnel id) pairs are registered. *)
Definition registrations := gset (string * string).

Definition refines (b : Broker) (a : registrations) : Prop :=
  broker_ok b ∧ ∀ n id, (n, id) ∈ a ↔ id ∈ t_id <$> tunnels b n.

(** C6.  The broker implements a set of registrations: [Register] with a fresh
    id adds its pair, a failed [Register] adds nothing, [Unregister] removes
    exactly its pair (the slot is filled with the last tunnel, no other tunnel
    is lost), [Pick] changes nothing; and every operation keeps the invariant
    that nodes without tunnels have no entry, ids are distinct and the cursor is
    a 64-bit number. *)
Theorem broker_refines_registrations b a n id s closed :
  refines b a →
  ((n, id) ∉ a → refines (Register b n id (Some s)).2 ({[(n, id)]} ∪ a)) ∧
  refines (Register b n id None).2 a ∧
  refines (Unregister b n id) (a ∖ {[(n, id)]}) ∧
  refines (Pick closed b n).2 a.
Proof.
  intros [Hb Ha]. split; [|split; [done|split]].
  - intros Hn. rewrite Ha in Hn. split; [by apply broker_ok_register|]. simpl.
    intros m i. rewrite tunnels_register, elem_of_union, elem_of_singleton, Ha.
    case_decide; subst; rewrite ?fmap_app, ?elem_of_app; simpl; rewrite ?list_elem_of_singleton;
      naive_solver.
  - split; [by apply broker_ok_Unregister|]. intros m i.
    rewrite tunnels_Unregister, elem_of_difference, elem_of_singleton, Ha.
    case_decide; subst; [rewrite elem_of_remove_conn by by apply broker_ok_lookup|]; naive_solver.
  - split; [by apply broker_ok_Pick|]. intros m i. by rewrite tunnels_Pick.
Qed.

Definition example_tunnel (i : nat) : Tunnel := {| t_id := "t" +:+ pretty i; t_session := i |}.
Definition example_broker : Broker :=
  foldl (λ b i, register_conn b "node-a" (example_tunnel i)) New (seq 0 3).

Lemma broker_refines_registrations_witness :
  refines New ∅ ∧ refines (Register New "node-a" "t9" (Some 9)).2 ({[("node-a", "t9")]} ∪ ∅).
Proof.
  assert (refines New ∅) as Hr.
  { split; [apply broker_ok_New|]. intros n id. unfold tunnels, New. rewrite lookup_empty. set_solver. }
  split; [exact Hr|].
  apply (broker_refines_registrations New ∅ "node-a" "t9" 9 (λ _, false) Hr). set_solver.
Defined.

(** ** Round robin *)

(** The index a cursor value designates. *)
Definition slot (start : Z) (i n : nat) : nat := rotate_nat_add (Z.to_nat start) i n.

Lemma slot_index start i n :
  (0 ≤ start)%Z → (start + Z.of_nat i < 2 ^ 64)%Z →
  Z.to_nat (uint64 (start + Z.of_nat i) `mod` Z.of_nat n) = slot start i n.
Proof.
  intros H1 H2. unfold slot, rotate_nat_add, uint64.
  rewrite (Z.mod_small (start + Z.of_nat i) (2 ^ 64)) by lia. by rewrite Z2Nat.id.
Qed.

(** As long as the cursor does not wrap within the scan, the scan visits the
    rotated slice in order. *)
Lemma pick_from_rotate closed l start k j :
  (0 ≤ start)%Z → (start + Z.of_nat (length l) ≤ 2 ^ 64)%Z → j + k = length l →
  pick_from closed l start (seq j k) =
    Some (snd <$> list_find (λ t, closed t = false) (drop j (rotate (Z.to_nat start) l))).
Proof.
  intros Hs Hw. revert j. induction k as [|k IH]; intros j Hj.
  - rewrite drop_ge by (rewrite length_rotate; lia). done.
  - cbn [seq pick_from]. rewrite slot_index by lia. unfold slot.
    assert (∃ t, rotate (Z.to_nat start) l !! j = Some t) as [t Ht].
    { apply lookup_lt_is_Some_2. rewrite length_rotate. lia. }
    rewrite <- lookup_rotate_r by lia. rewrite Ht.
    rewrite (drop_S _ t j Ht). simpl. destruct (closed t) eqn:Ec.
    + rewrite decide_False by done. rewrite IH by lia. by rewrite <- option_fmap_compose.
    + by rewrite decide_True.
Qed.

Lemma rotate_perm {A} n (l : list A) : rotate n l ≡ₚ l.
Proof. unfold rotate. rewrite Permutation_app_comm. by rewrite take_drop. Qed.

Lemma Pick_rotate closed b n set :
  b !! n = Some set → conns set ≠ [] → (0 ≤ rr set)%Z →
  (rr set + 1 + Z.of_nat (length (conns set)) ≤ 2 ^ 64)%Z →
  (Pick closed b n).1 =
    Some (snd <$> list_find (λ t, closed t = false) (rotate (Z.to_nat (rr set + 1)) (conns set))).
Proof.
  intros E He Hr Hw. unfold Pick. rewrite E. destruct (conns set) as [|t0 l0] eqn:Ec; [done|].
  assert (uint64 (rr set + 1) = rr set + 1)%Z as ->.
  { unfold uint64. rewrite Z.mod_small; [done|]. simpl in Hw. lia. }
  cbn [fst]. rewrite pick_from_rotate; [done|lia|simpl in *; lia|done].
Qed.

Lemma Pick_scan closed b n :
  broker_ok b →
  (∀ set, b !! n = Some set → (rr set + 1 + Z.of_nat (length (conns set)) ≤ 2 ^ 64)%Z) →
  ∃ res, (Pick closed b n).1 = Some res ∧
    match res with
    | Some t => t ∈ tunnels b n ∧ closed t = false
    | None => Forall (λ t, closed t = true) (tunnels b n)
    end.
Proof.
  intros Hb Hw. unfold tunnels. destruct (b !! n) as [set|] eqn:E.
  2: { exists None. unfold Pick. by rewrite E. }
  destruct (Hb _ _ E) as (He & [Hr _] & _).
  rewrite (Pick_rotate closed b n set) by auto. eexists. split; [done|].
  destruct (list_find _ _) as [[i t]|] eqn:Ef; simpl.
  - apply list_find_Some in Ef as (Hi & Hc & _). split; [|done].
    rewrite <- (rotate_perm (Z.to_nat (rr set + 1))). by eapply list_elem_of_lookup_2.
  - apply list_find_None in Ef. rewrite (rotate_perm _ (conns set)) in Ef.
    eapply Forall_impl; [exact Ef|]. simpl. intros t. by destruct (closed t).
Qed.

(** [Pick] finds an open tunnel whenever the node has one: below the wrap
    of the 64-bit cursor, it never indexes out of range, a tunnel it returns
    belongs to the node and is open, and it returns none only when the node has
    no tunnel or all of them are closed. *)
Theorem Pick_correct closed b n :
  broker_ok b →
  (∀ set, b !! n = Some set → (rr set + 1 + Z.of_nat (length (conns set)) ≤ 2 ^ 64)%Z) →
  ∃ res, (Pick closed b n).1 = Some res ∧
    match res with
    | Some t => t ∈ tunnels b n ∧ closed t = false
    | None => Forall (λ t, closed t = true) (tunnels b n)
    end.
Proof. apply Pick_scan. Qed.

Lemma Pick_correct_witness :
  broker_ok example_broker ∧ (Pick (λ t, bool_decide (t_id t = "t1")) example_broker "node-a").1 =
    Some (Some (example_tunnel 2)).
Proof.
  assert (broker_ok example_broker) as Hb.
  { repeat (apply broker_ok_register; [|vm_compute; set_solver]). apply broker_ok_New. }
  destruct (Pick_correct (λ t, bool_decide (t_id t = "t1")) example_broker "node-a" Hb)
    as (res & Hres & Hsp).
  - intros set [= <-]. vm_compute. discriminate.
  - split; [exact Hb|]. rewrite Hres. vm_compute in Hres. injection Hres as <-. reflexivity.
Defined.

(** At the wrap of the cursor the scan repeats a slot and misses another: the
    only open tunnel is not found. *)
Example Pick_misses_at_wrap :
  let b : Broker := <["node-a" := {| conns := example_tunnel <$> seq 0 3; rr := 2 ^ 64 - 2 |}]> ∅ in
  (Pick (λ t, bool_decide (t_id t ≠ "t2")) b "node-a").1 = Some None.
Proof. vm_compute. reflexivity. Qed.

(** [k] successive calls of [Pick]. *)
Fixpoint picks (closed : Tunnel → bool) (b : Broker) (n : string) (k : nat)
    : list (option (option Tunnel)) :=
  match k with
  | O => []
  | S k' => let '(r, b') := Pick closed b n in r :: picks closed b' n k'
  end.

Lemma picks_open b n l c k :
  l ≠ [] → b !! n = Some {| conns := l; rr := c |} →
  (0 ≤ c)%Z → (c + Z.of_nat k + Z.of_nat (length l) ≤ 2 ^ 64)%Z →
  picks (λ _, false) b n k =
    (λ i, Some (l !! slot (c + 1) i (length l))) <$> seq 0 k.
Proof.
  revert b c. induction k as [|k IH]; intros b c Hl E Hc Hw; [done|].
  cbn [picks]. pose proof (Pick_rotate (λ _, false) b n _ E Hl Hc) as Hp. simpl in Hp.
  rewrite (surjective_pairing (Pick _ b n)). rewrite Hp by lia.
  assert (0 < length l) as Hlen by (destruct l; simpl; [done|lia]).
  cbn [seq]. rewrite fmap_cons. f_equal.
  - f_equal. unfold slot. rewrite <- lookup_rotate_r by lia.
    destruct (rotate (Z.to_nat (c + 1)) l) as [|t l'] eqn:Er; done.
  - assert ((Pick (λ _, false) b n).2 !! n = Some {| conns := l; rr := (c + 1)%Z |}) as E'.
    { unfold Pick. rewrite E. simpl. destruct l; [done|]. simpl. rewrite lookup_insert_eq.
      unfold uint64. rewrite Z.mod_small; [done|]. simpl in Hw. lia. }
    rewrite (IH _ (c + 1)%Z); [|done..|lia|lia].
    rewrite <- fmap_S_seq, <- list_fmap_compose. apply list_fmap_ext. intros i x Hx. simpl.
    do 2 f_equal. unfold slot, rotate_nat_add. f_equal. f_equal. lia.
Qed.

(** Round robin is fair: when all tunnels of a node are open, as many
    successive picks as it has tunnels return each of them exactly once, from
    any cursor value that does not wrap on the way. *)
Theorem Pick_round_robin b n l c :
  l ≠ [] → b !! n = Some {| conns := l; rr := c |} →
  (0 ≤ c)%Z → (c + 2 * Z.of_nat (length l) ≤ 2 ^ 64)%Z →
  picks (λ _, false) b n (length l) ≡ₚ (Some ∘ Some) <$> l.
Proof.
  intros Hl E Hc Hw. rewrite (picks_open b n l c) by (done || lia).
  rewrite <- (rotate_perm (Z.to_nat (c + 1)) l) at 2. apply eq_subrelation; [apply _|].
  apply list_eq. intros i. rewrite !list_lookup_fmap.
  destruct (decide (i < length l)) as [Hi|Hi].
  - rewrite lookup_seq_lt by done. simpl.
    destruct (lookup_lt_is_Some_2 (rotate (Z.to_nat (c + 1)) l) i) as [t Ht];
      [by rewrite length_rotate|].
    rewrite Ht. unfold slot. rewrite <- lookup_rotate_r by done. by rewrite Ht.
  - rewrite lookup_seq_ge by lia. rewrite lookup_ge_None_2; [done|]. rewrite length_rotate. lia.
Qed.

Lemma Pick_round_robin_witness :
  let l := example_tunnel <$> seq 0 3 in
  picks (λ _, false) example_broker "node-a" (length l) ≡ₚ (Some ∘ Some) <$> l.
Proof.
  intros l.
  apply (Pick_round_robin example_broker "node-a" l 0);
    [discriminate|vm_compute; reflexivity|lia|vm_compute; discriminate].
Defined.

(** ** The broker under concurrency *)

(** The broker, the goroutines that serve a tunnel, those past their
    [Unregister] that still have to close it, the sessions that are closed, and
    the uuids used so far. *)
Record sys := {
  sy_broker : Broker;
  sy_serving : list (string * Tunnel);
  sy_closing : list (string * Tunnel);
  sy_closed : gset nat;
  sy_used : gset string;
}.

Definition sys_init : sys :=
  {| sy_broker := New; sy_serving := []; sy_closing := []; sy_closed := ∅; sy_used := ∅ |}.

Definition is_closed (st : sys) (t : Tunnel) : bool := bool_decide (t_session t ∈ sy_closed st).

Inductive sys_step (cancelled : Prop) : sys → sys → Prop :=
(** A connection is registered under a new uuid and its goroutine starts. *)
| sys_register st n id s :
    id ∉ sy_used st →
    sys_step cancelled st {|
      sy_broker := (Register (sy_broker st) n id (Some s)).2;
      sy_serving := (n, {| t_id := id; t_session := s |}) :: sy_serving st;
      sy_closing := sy_closing st; sy_closed := sy_closed st;
      sy_used := {[id]} ∪ sy_used st |}
(** [outbound.Server] fails: nothing is registered, no goroutine starts. *)
| sys_register_failed st n id :
    sys_step cancelled st {|
      sy_broker := (Register (sy_broker st) n id None).2;
      sy_serving := sy_serving st; sy_closing := sy_closing st; sy_closed := sy_closed st;
      sy_used := {[id]} ∪ sy_used st |}
| sys_pick st n :
    sys_step cancelled st {|
      sy_broker := (Pick (is_closed st) (sy_broker st) n).2;
      sy_serving := sy_serving st; sy_closing := sy_closing st; sy_closed := sy_closed st;
      sy_used := sy_used st |}
(** The peer goes away. *)
| sys_lost st s :
    sys_step cancelled st {|
      sy_broker := sy_broker st; sy_serving := sy_serving st; sy_closing := sy_closing st;
      sy_closed := {[s]} ∪ sy_closed st; sy_used := sy_used st |}
(** [Serve] returned and the session is closed or the context is done: the
    deferred function unregisters the tunnel. *)
| sys_leave st n t l :
    sy_serving st ≡ₚ (n, t) :: l → is_closed st t = true ∨ cancelled →
    sys_step cancelled st {|
      sy_broker := Unregister (sy_broker st) n (t_id t);
      sy_serving := l; sy_closing := (n, t) :: sy_closing st;
      sy_closed := sy_closed st; sy_used := sy_used st |}
(** ... and closes it. *)
| sys_close st n t l :
    sy_closing st ≡ₚ (n, t) :: l →
    sys_step cancelled st {|
      sy_broker := sy_broker st; sy_serving := sy_serving st; sy_closing := l;
      sy_closed := {[t_session t]} ∪ sy_closed st; sy_used := sy_used st |}.

(** The tunnels the goroutines in [l] serve for [n]. *)
Definition served (l : list (string * Tunnel)) (n : string) : list Tunnel :=
  (filter (λ p, p.1 = n) l).*2.

Record sys_inv (st : sys) : Prop := {
  si_ok : broker_ok (sy_broker st);
  si_owned n : tunnels (sy_broker st) n ≡ₚ served (sy_serving st) n;
  si_used p : p ∈ sy_serving st → t_id p.2 ∈ sy_used st;
}.

Lemma served_cons n t l m :
  served ((n, t) :: l) m = if decide (n = m) then t :: served l m else served l m.
Proof. unfold served. rewrite filter_cons. simpl. by case_decide. Qed.

#[export] Instance served_proper : Proper ((≡ₚ) ==> eq ==> (≡ₚ)) served.
Proof. intros l1 l2 Hl n ? <-. unfold served. by rewrite Hl. Qed.

(** Removing by id the tunnel a goroutine owns removes that tunnel. *)
Lemma remove_owned l t rest :
  NoDup (t_id <$> l) → l ≡ₚ t :: rest → remove_conn (t_id t) l ≡ₚ rest.
Proof.
  intros Hnd Hl. destruct (list_find (λ u, t_id u = t_id t) l) as [[i u]|] eqn:Hf.
  - pose proof (remove_conn_perm _ _ _ _ Hf) as Hp. apply list_find_Some in Hf as (Hi & Hid & _).
    assert (u = t) as ->.
    { apply list_elem_of_lookup_2 in Hi. rewrite Hl, elem_of_cons in Hi.
      destruct Hi as [->|Hi]; [done|]. exfalso.
      rewrite Hl, fmap_cons in Hnd. apply NoDup_cons in Hnd as [Hni _].
      apply Hni. rewrite <- Hid. by apply list_elem_of_fmap_2. }
    rewrite Hp in Hl at 1.
    by apply Permutation_cons_inv in Hl.
  - exfalso. apply list_find_None in Hf. rewrite Hl in Hf. by apply Forall_cons in Hf as [? _].
Qed.

Lemma sys_inv_step c st st' : sys_inv st → sys_step c st st' → sys_inv st'.
Proof.
  intros [Hok Hown Hused] Hstep.
  destruct Hstep as [st n id s Hid|st n id|st n|st s|st n t l Hl _|st n t l Hl]; simpl in *.
  - assert (id ∉ t_id <$> tunnels (sy_broker st) n) as Hfresh.
    { intros (t & -> & Ht)%list_elem_of_fmap. rewrite Hown in Ht.
      apply list_elem_of_fmap in Ht as ([n' t'] & -> & Ht).
      apply list_elem_of_filter in Ht as [_ Ht]. by apply Hid, (Hused (n', t')). }
    split; simpl.
    + by apply broker_ok_register.
    + intros m. rewrite tunnels_register, served_cons. case_decide; [|done]. subst.
      rewrite Hown. symmetry. apply Permutation_cons_append.
    + intros p [->|Hp]%elem_of_cons; set_solver.
  - split; simpl; [done|done|]. intros p Hp. set_solver.
  - split; simpl; [by apply broker_ok_Pick| |done]. intros m. by rewrite tunnels_Pick.
  - by split.
  - split; simpl.
    + by apply broker_ok_Unregister.
    + intros m. rewrite tunnels_Unregister. specialize (Hown m) as Hm.
      rewrite Hl, served_cons in Hm. case_decide; [|done]. subst.
      apply remove_owned; [by apply broker_ok_lookup|done].
    + intros p Hp. apply Hused. rewrite Hl. set_solver.
  - by split.
Qed.

(** C7.  No tunnel leaks.  In every state the broker can reach, under any
    interleaving of registrations, picks, lost sessions and goroutine exits, the
    tunnels registered for a node are exactly those whose goroutine is still
    serving; once no goroutine serves, the table is empty. *)
Theorem broker_no_leak cancelled st :
  rtc (sys_step cancelled) sys_init st →
  broker_ok (sy_broker st) ∧
  (∀ n, tunnels (sy_broker st) n ≡ₚ served (sy_serving st) n) ∧
  (sy_serving st = [] → sy_broker st = ∅).
Proof.
  intros Hr. assert (sys_inv st) as [Hok Hown _].
  { assert (sys_inv sys_init) as Hi.
    { split; [apply broker_ok_New|done|]. intros p Hp. by apply elem_of_nil in Hp. }
    clear -Hr Hi. induction Hr as [|st st1 st2 Hs _ IH]; [done|].
    apply IH. by eapply sys_inv_step. }
  split; [done|]. split; [done|]. intros Hnil. apply map_eq. intros n. rewrite lookup_empty.
  destruct (sy_broker st !! n) as [set|] eqn:E; [|done]. exfalso.
  destruct (Hok _ _ E) as (Hne & _ & _). apply Hne. specialize (Hown n).
  unfold tunnels in Hown. rewrite E, Hnil in Hown. by apply Permutation_nil_r in Hown.
Qed.

(** One tunnel comes and goes. *)
Lemma broker_no_leak_witness :
  ∃ st, rtc (sys_step False) sys_init st ∧ sy_used st ≠ ∅ ∧ sy_broker st = ∅.
Proof.
  eexists. split.
  - eapply rtc_l; [apply (sys_register False sys_init "n" "t" 0); set_solver|].
    eapply rtc_l; [apply (sys_lost False _ 0)|].
    eapply rtc_l; [eapply (sys_leave False _ "n" {| t_id := "t"; t_session := 0 |} []);
      [reflexivity|left; reflexivity]|]. apply rtc_refl.
  - split; [set_solver|]. eapply (broker_no_leak False); [|reflexivity].
    eapply rtc_l; [apply (sys_register False sys_init "n" "t" 0); set_solver|].
    eapply rtc_l; [apply (sys_lost False _ 0)|].
    eapply rtc_l; [eapply (sys_leave False _ "n" {| t_id := "t"; t_session := 0 |} []);
      [reflexivity|left; reflexivity]|]. apply rtc_refl.
Defined.
