(* ===== verification/Tunnel.v ===== *)
(** * The plane-tunnel server

    [pkg/tunnel/server/tunnel.go] (a node connects), [server.go] (the identity the
    server reports) and [pkg/tunnel/server/egress_selector/egress_selector.go]
    (the API server connects to a node).  TLS, HTTP and the [outbound] library
    appear as the answers they give; [net.SplitHostPort] is modelled. *)

From S2P Require Import Prelude Broker.
From stdpp Require Import options.

(** ** Accepting a node *)

Definition node_prefix : string := "system:node:".

Definition extractNodeName (cn : string) : string + string :=
  if negb (HasPrefix cn node_prefix)
  then inr "common name on client certificate does not match expected system:node:<node-name> format"
  else
    let nodeName := TrimPrefix cn node_prefix in
    if bool_decide (nodeName = "") then inr "node name is empty" else inl nodeName.

(** What the listener hands over: whether it is a TLS connection, whether the
    handshake (which verifies the client certificate) succeeds, and the common
    names of the peer certificates. *)
Record connection := {
  cn_tls : bool;
  cn_handshake : bool;
  cn_peerCNs : list string;
}.

(** How [handle] leaves the connection: closed or not, and the tunnel that was
    registered for it. *)
Record outcome := {
  oc_closed : bool;
  oc_tunnel : option (string * string);
}.

Definition dropped : outcome := {| oc_closed := true; oc_tunnel := None |}.

(** [handle]: every early return runs the cleaner, which closes the
    connection; after [Register] the cleaner is released, also when [Register]
    failed (it closes the connection itself). *)
Definition handle (b : Broker) (c : connection) (id : string) (session : option nat)
    : outcome * Broker :=
  if negb (cn_tls c) then (dropped, b)
  else if negb (cn_handshake c) then (dropped, b)
  else match cn_peerCNs c with
  | [] => (dropped, b)
  | clientCN :: _ =>
      match extractNodeName clientCN with
      | inr _ => (dropped, b)
      | inl nodeName =>
          match Register b nodeName id session with
          | (Registered id, b') => ({| oc_closed := false; oc_tunnel := Some (nodeName, id) |}, b')
          | (SessionFailed closed, b') => ({| oc_closed := closed; oc_tunnel := None |}, b')
          end
      end
  end.

(** [resolveReplicaCount]: [lookup] is the resolver. *)
Definition resolveReplicaCount (lookup : string → option (list string)) (dnsName : string) : Z :=
  if bool_decide (dnsName = "") then 1
  else match lookup dnsName with
  | None => 1
  | Some addrs => if bool_decide (length addrs = 0) then 1 else Z.of_nat (length addrs)
  end.

(** ** Host and port *)

Definition contains (c : Ascii.ascii) (s : string) : bool :=
  negb (all_chars (λ a, negb (bool_decide (a = c))) s).

Definition colon : Ascii.ascii := Ascii.ascii_of_nat 58.
Definition lbrack : Ascii.ascii := Ascii.ascii_of_nat 91.
Definition rbrack : Ascii.ascii := Ascii.ascii_of_nat 93.

(** [net.SplitHostPort]: the text before and after the last colon; the host may
    be bracketed, otherwise it has no colon; no stray brackets. *)
Definition SplitHostPort (s : string) : option (string * string) :=
  let parts := Split colon s in
  match list.last parts with
  | None => None
  | Some port =>
      if bool_decide (length parts = 1) then None
      else
        let host := Join (take (length parts - 1) parts) (String colon "") in
        match host with
        | String c rest =>
            if decide (c = lbrack) then
              match Split rbrack rest with
              | [h; e] =>
                  if bool_decide (e = "") && negb (contains lbrack h) &&
                     negb (contains lbrack port) && negb (contains rbrack port)
                  then Some (h, port) else None
              | _ => None
              end
            else if contains colon host || contains lbrack s || contains rbrack s then None
            else Some (host, port)
        | EmptyString =>
            if contains lbrack s || contains rbrack s then None else Some ("", port)
        end
  end.

(** ** The egress selector *)

(** The interface of the broker the handler uses. *)
Class brokerDialer (B C : Type) := {
  dial_node : B → string → option (C + string) * B;
}.

(** A request, with the answers of the response writer. *)
Record request := {
  rq_method : string;
  rq_host : string;
  rq_hijacker : bool;
  rq_hijack : bool;
  rq_write : bool;
  rq_flush : bool;
}.

Inductive response {C : Type} :=
| MethodNotAllowed
| InternalServerError
(** 502, the connection closed. *)
| BadGateway
(** The 200 line could not be written: both ends closed. *)
| Aborted (stream : C)
(** 200, then bytes are copied both ways. *)
| Spliced (stream : C)
| Panicked.
Arguments response : clear implicits.

Definition request_node (rq : request) : string :=
  match SplitHostPort (rq_host rq) with
  | Some (h, _) => h
  | None => rq_host rq
  end.

Definition egress_handle {B C} `{brokerDialer B C} (b : B) (rq : request) : response C * B :=
  if negb (bool_decide (rq_method rq = "CONNECT")) then (MethodNotAllowed, b)
  else if negb (rq_hijacker rq) then (InternalServerError, b)
  else if negb (rq_hijack rq) then (InternalServerError, b)
  else match dial_node b (request_node rq) with
  | (None, b') => (Panicked, b')
  | (Some (inr _), b') => (BadGateway, b')
  | (Some (inl stream), b') =>
      if negb (rq_write rq) then (Aborted stream, b')
      else if negb (rq_flush rq) then (Aborted stream, b')
      else (Spliced stream, b')
  end.

(** The broker as the handler's dialer: a stream is opened on the session of
    the picked tunnel, for the kubelet upstream. *)
Definition broker_dialer (dial : Tunnel → nat + string) (closed : Tunnel → bool)
    : brokerDialer Broker nat := {| dial_node := Dial dial closed |}.

(** ** Properties *)

Lemma extractNodeName_iff cn n :
  extractNodeName cn = inl n ↔ cn = node_prefix +:+ n ∧ n ≠ "".
Proof.
  unfold extractNodeName. destruct (HasPrefix cn node_prefix) eqn:E; simpl.
  - apply HasPrefix_true in E as [t ->]. rewrite TrimPrefix_app. case_bool_decide as Et.
    + split; [done|]. intros [Hn Hne]. subst t. rewrite string_app_nil_r in Hn.
      apply (f_equal String.length) in Hn. rewrite string_length_app in Hn.
      destruct n; [done|]. simpl in Hn. lia.
    + split; [by intros [= ->]|]. intros [Hn _].
      apply string_app_inj in Hn. by subst.
  - split; [done|]. intros [-> _]. exfalso.
    assert (HasPrefix (node_prefix +:+ n) node_prefix = true); [|congruence].
    apply HasPrefix_true. eauto.
Qed.

(** C33.  Only a node can register as itself, and no connection is lost: [handle]
    registers a tunnel for node [n] exactly when the connection completed the
    handshake with a client certificate whose common name is [system:node:n]
    ([n] not empty) and the session started; in every other case the connection
    is closed and the broker unchanged. *)
Theorem handle_registers_iff b c id session :
  let '(o, b') := handle b c id session in
  (∀ n, oc_tunnel o = Some (n, id) ↔
     cn_tls c = true ∧ cn_handshake c = true ∧ is_Some session ∧ n ≠ "" ∧
     head (cn_peerCNs c) = Some (node_prefix +:+ n)) ∧
  (oc_tunnel o = None → oc_closed o = true ∧ b' = b) ∧
  (∀ n i, oc_tunnel o = Some (n, i) →
     i = id ∧ oc_closed o = false ∧
     ∃ s, session = Some s ∧ b' = register_conn b n {| t_id := id; t_session := s |}).
Proof.
  unfold handle. destruct (cn_tls c), (cn_handshake c); simpl; try naive_solver.
  destruct (cn_peerCNs c) as [|cn cns]; simpl; [naive_solver|].
  destruct (extractNodeName cn) as [n|e] eqn:E.
  - apply extractNodeName_iff in E as [-> Hn]. destruct session as [s|]; simpl; [|naive_solver].
    split; [|naive_solver]. intros m. split.
    + intros [= ->]. naive_solver.
    + intros (_ & _ & _ & Hm & Hp). apply (inj Some), string_app_inj in Hp. by subst.
  - split; [|naive_solver]. intros m. split; [done|].
    intros (_ & _ & _ & Hm & Hp). apply (inj Some) in Hp as ->. rewrite (proj2 (extractNodeName_iff _ m)) in E by done. done.
Qed.

Lemma contains_false c s :
  contains c s = false ↔ all_chars (λ a, negb (bool_decide (a = c))) s = true.
Proof. unfold contains. apply negb_false_iff. Qed.

Lemma contains_app c s t : contains c (s +:+ t) = contains c s || contains c t.
Proof. unfold contains. rewrite all_chars_app. apply negb_andb. Qed.

(** [net.SplitHostPort] undoes [net.JoinHostPort] on plain hosts. *)
Lemma SplitHostPort_join h port :
  (∀ c, c ∈ [colon; lbrack; rbrack] → contains c h = false ∧ contains c port = false) →
  SplitHostPort (h +:+ ":" +:+ port) = Some (h, port).
Proof.
  intros Hc. destruct (Hc colon) as [H1 H2]; [set_solver|].
  destruct (Hc lbrack) as [H3 H4]; [set_solver|]. destruct (Hc rbrack) as [H5 H6]; [set_solver|].
  unfold SplitHostPort. change (":" +:+ port) with (String colon port).
  rewrite Split_app by by apply contains_false.
  rewrite (Split_no_sep _ port) by by apply contains_false. simpl.
  change (String colon port) with (":" +:+ port). rewrite !contains_app, H3, H4, H5, H6.
  destruct h as [|c h]; simpl; [done|].
  rewrite decide_False.
  - by rewrite H1.
  - intros ->. unfold contains in H3. by simpl in H3.
Qed.

(** C34.  The API server reaches the node it asks for: on a broker in a reachable
    state (below the wrap of the cursor), a CONNECT to [<node>:<port>] is
    spliced to a stream opened on an open tunnel that was registered for that
    very node, and it is answered 502 only when the node has no open tunnel or
    the tunnel refuses the stream; the handler never panics. *)
Theorem egress_reaches_node dial closed (b : Broker) n port rq :
  broker_ok b →
  (∀ set, b !! n = Some set → (rr set + 1 + Z.of_nat (length (conns set)) ≤ 2 ^ 64)%Z) →
  (∀ c, c ∈ [colon; lbrack; rbrack] → contains c n = false ∧ contains c port = false) →
  rq_method rq = "CONNECT" → rq_host rq = n +:+ ":" +:+ port →
  rq_hijacker rq = true → rq_hijack rq = true → rq_write rq = true → rq_flush rq = true →
  match (egress_handle (H := broker_dialer dial closed) b rq).1 with
  | Spliced stream => ∃ t, t ∈ tunnels b n ∧ closed t = false ∧ dial t = inl stream
  | BadGateway => Forall (λ t, closed t = true) (tunnels b n) ∨
      ∃ t m, t ∈ tunnels b n ∧ closed t = false ∧ dial t = inr m
  | _ => False
  end.
Proof.
  intros Hb Hw Hc Hm Hh H1 H2 H3 H4. unfold egress_handle, request_node.
  rewrite Hm, Hh, H1, H2, H3, H4, SplitHostPort_join by done. simpl. unfold Dial.
  destruct (Pick_scan closed b n Hb Hw) as (res & Hres & Hsp).
  rewrite (surjective_pairing (Pick closed b n)), Hres.
  destruct res as [t|]; simpl; [|by left]. destruct Hsp as [Ht Ho].
  destruct (dial t) as [st|m] eqn:Ed; simpl; [by exists t|right; by exists t, m].
Qed.

Lemma egress_reaches_node_witness :
  (egress_handle (H := broker_dialer (λ t, inl (t_session t)) (λ _, false)) example_broker
     {| rq_method := "CONNECT"; rq_host := "node-a:10250"; rq_hijacker := true; rq_hijack := true;
        rq_write := true; rq_flush := true |}).1 = Spliced 1 ∧
  example_tunnel 1 ∈ tunnels example_broker "node-a".
Proof.
  split; [vm_compute; reflexivity|].
  pose proof (egress_reaches_node (λ t, inl (t_session t)) (λ _, false) example_broker "node-a" "10250"
    {| rq_method := "CONNECT"; rq_host := "node-a:10250"; rq_hijacker := true; rq_hijack := true;
        rq_write := true; rq_flush := true |}) as Hreach.
  assert (broker_ok example_broker) as Hb.
  { repeat (apply broker_ok_register; [|vm_compute; set_solver]). apply broker_ok_New. }
  destruct Hreach as (t & Ht & _ & Hd); try reflexivity; [exact Hb| | |].
  - intros set [= <-]. vm_compute. discriminate.
  - intros c Hc. rewrite !elem_of_cons, elem_of_nil in Hc.
    destruct Hc as [->|[->|[->|[]]]]; split; reflexivity.
  - unfold tunnels in *. vm_compute in Ht. vm_compute. set_solver.
Defined.
