(* ===== verification/Splice.v ===== *)
(** * Copying between the API server and a kubelet

    [splice] and [hijackedConn] of src/pkg/tunnel/server/egress_selector: after the
    200 line, one goroutine copies from the connection of the API server to the stream
    of the tunnel, another one back, and the handler waits for both.

    The two goroutines, the handler and the peers at both ends are interleaved:
    [step] is one call of [Read], [Write], [CloseWrite] or [Close] that returns, or
    something a peer or the network does.  Reading takes first what the HTTP server
    had left in its buffer.  A write that does not return is not followed by a step of
    its goroutine. *)

From Stdlib Require Import Init.Byte.
From S2P Require Import Prelude.
From stdpp Require Import options.

(** ** The state *)

Inductive side := Conn | Tun.
(** From the connection to the tunnel, and back. *)
Inductive dir := Up | Down.

Definition src (d : dir) : side := match d with Up => Conn | Down => Tun end.
Definition dst (d : dir) : side := match d with Up => Tun | Down => Conn end.

(** One end: what the peer sent, what of it was read, what was written to it. *)
Record endpoint := {
  (** Left in the reader of the HTTP server. *)
  buffered : list byte;
  (** Arrived and not read. *)
  incoming : list byte;
  (** The peer has finished sending. *)
  peer_closed : bool;
  written : list byte;
  write_closed : bool;
  closed : bool;
  (** Ghost: everything the peer has sent. *)
  sent : list byte;
}.

Inductive phase :=
| Reading
| Holding (chunk : list byte)
(** [io.Copy] returned without an error; [closeWrite] is next. *)
| AtEOF
(** [io.Copy] returned an error; [tunnel.Close] is next, then [conn.Close]. *)
| Failing
| FailingConn
| Finished (clean : bool).

(** The handler: waiting for both, then closing the tunnel and the connection. *)
Inductive handler := WaitingBoth | ClosingTunnel | ClosingConn | Returned.

Record splicing := {
  conn_end : endpoint;
  tun_end : endpoint;
  up : phase;
  down : phase;
  main : handler;
}.

Definition ends (st : splicing) (s : side) : endpoint := match s with Conn => conn_end st | Tun => tun_end st end.
Definition phases (st : splicing) (d : dir) : phase := match d with Up => up st | Down => down st end.

Definition set_end (s : side) (e : endpoint) (st : splicing) : splicing :=
  match s with
  | Conn => {| conn_end := e; tun_end := tun_end st; up := up st; down := down st; main := main st |}
  | Tun => {| conn_end := conn_end st; tun_end := e; up := up st; down := down st; main := main st |}
  end.
Definition set_phase (d : dir) (p : phase) (st : splicing) : splicing :=
  match d with
  | Up => {| conn_end := conn_end st; tun_end := tun_end st; up := p; down := down st; main := main st |}
  | Down => {| conn_end := conn_end st; tun_end := tun_end st; up := up st; down := p; main := main st |}
  end.
Definition set_main (h : handler) (st : splicing) : splicing := {|
  conn_end := conn_end st; tun_end := tun_end st; up := up st; down := down st; main := h |}.

Definition with_unread (buf inc : list byte) (e : endpoint) : endpoint := {|
  buffered := buf; incoming := inc; peer_closed := peer_closed e; written := written e;
  write_closed := write_closed e; closed := closed e; sent := sent e |}.
Definition with_written (w : list byte) (e : endpoint) : endpoint := {|
  buffered := buffered e; incoming := incoming e; peer_closed := peer_closed e; written := w;
  write_closed := write_closed e; closed := closed e; sent := sent e |}.
Definition Close (e : endpoint) : endpoint := {|
  buffered := buffered e; incoming := incoming e; peer_closed := peer_closed e; written := written e;
  write_closed := write_closed e; closed := true; sent := sent e |}.
Definition CloseWrite (e : endpoint) : endpoint := {|
  buffered := buffered e; incoming := incoming e; peer_closed := peer_closed e; written := written e;
  write_closed := true; closed := closed e; sent := sent e |}.

(** The connection with what the HTTP server has read ahead, and a new stream. *)
Definition splice (ahead : list byte) : splicing :=
  let opened b := {| buffered := b; incoming := []; peer_closed := false; written := []; write_closed := false;
                     closed := false; sent := b |} in
  {| conn_end := opened ahead; tun_end := opened []; up := Reading; down := Reading; main := WaitingBoth |}.

Section steps.
(** Whether the stream of the tunnel has [CloseWrite].  [hijackedConn] has not: it
    embeds the interface [net.Conn]. *)
Context (stream_CloseWrite : bool).

Definition has_CloseWrite (s : side) : bool := match s with Conn => false | Tun => stream_CloseWrite end.

Definition closeWrite (s : side) (e : endpoint) : endpoint :=
  if has_CloseWrite s then CloseWrite e else Close e.

(** ** Steps *)

Inductive event :=
(** The peers. *)
| PeerSends (s : side) (data : list byte)
| PeerCloses (s : side)
(** The network: a read that fails, a write that breaks off after [n] bytes. *)
| ReadReset (d : dir)
| WriteBreaks (d : dir) (n : nat)
(** The goroutines. *)
| Read (d : dir) (n : nat)
| ReadEOF (d : dir)
| ReadClosed (d : dir)
| Write (d : dir)
| WriteClosed (d : dir)
| Next (d : dir)
(** The handler. *)
| Main.

(** The buffer of [io.Copy]. *)
Definition copy_buffer : N := 32 * 1024.

(** [Read] of [n] bytes: from the buffer while there is something in it. *)
Definition read (n : nat) (e : endpoint) : option (list byte * endpoint) :=
  if bool_decide (n = 0 ∨ (copy_buffer < N.of_nat n)%N) then None
  else match buffered e with
       | [] => if closed e || bool_decide (length (incoming e) < n) then None
               else Some (take n (incoming e), with_unread [] (drop n (incoming e)) e)
       | buf => if bool_decide (length buf < n) then None
                else Some (take n buf, with_unread (drop n buf) (incoming e) e)
       end.

Definition writable (e : endpoint) : bool := negb (closed e) && negb (write_closed e).

Definition step (st : splicing) (e : event) : option splicing :=
  match e with
  | PeerSends s data =>
      let x := ends st s in
      if peer_closed x then None
      else Some (set_end s {| buffered := buffered x; incoming := incoming x ++ data; peer_closed := false;
             written := written x; write_closed := write_closed x; closed := closed x; sent := sent x ++ data |} st)
  | PeerCloses s =>
      let x := ends st s in
      Some (set_end s {| buffered := buffered x; incoming := incoming x; peer_closed := true;
             written := written x; write_closed := write_closed x; closed := closed x; sent := sent x |} st)
  | ReadReset d =>
      match phases st d, buffered (ends st (src d)) with
      | Reading, [] => Some (set_phase d Failing st)
      | _, _ => None
      end
  | WriteBreaks d n =>
      match phases st d with
      | Holding chunk =>
          let x := ends st (dst d) in
          if writable x && bool_decide (n < length chunk)
          then Some (set_phase d Failing (set_end (dst d) (with_written (written x ++ take n chunk) x) st)) else None
      | _ => None
      end
  | Read d n =>
      match phases st d, read n (ends st (src d)) with
      | Reading, Some (chunk, x) => Some (set_phase d (Holding chunk) (set_end (src d) x st))
      | _, _ => None
      end
  | ReadEOF d =>
      let x := ends st (src d) in
      match phases st d, buffered x, incoming x with
      | Reading, [], [] => if peer_closed x && negb (closed x) then Some (set_phase d AtEOF st) else None
      | _, _, _ => None
      end
  | ReadClosed d =>
      match phases st d, buffered (ends st (src d)) with
      | Reading, [] => if closed (ends st (src d)) then Some (set_phase d Failing st) else None
      | _, _ => None
      end
  | Write d =>
      match phases st d with
      | Holding chunk =>
          let x := ends st (dst d) in
          if writable x then Some (set_phase d Reading (set_end (dst d) (with_written (written x ++ chunk) x) st))
          else None
      | _ => None
      end
  | WriteClosed d =>
      match phases st d with
      | Holding chunk => if writable (ends st (dst d)) then None else Some (set_phase d Failing st)
      | _ => None
      end
  | Next d =>
      match phases st d with
      | AtEOF => Some (set_phase d (Finished true) (set_end (dst d) (closeWrite (dst d) (ends st (dst d))) st))
      | Failing => Some (set_phase d FailingConn (set_end Tun (Close (ends st Tun)) st))
      | FailingConn => Some (set_phase d (Finished false) (set_end Conn (Close (ends st Conn)) st))
      | _ => None
      end
  | Main =>
      match main st with
      | WaitingBoth =>
          match phases st Up, phases st Down with
          | Finished _, Finished _ => Some (set_main ClosingTunnel st)
          | _, _ => None
          end
      | ClosingTunnel => Some (set_main ClosingConn (set_end Tun (Close (ends st Tun)) st))
      | ClosingConn => Some (set_main Returned (set_end Conn (Close (ends st Conn)) st))
      | Returned => None
      end
  end.

Fixpoint steps (st : splicing) (es : list event) : option splicing :=
  match es with
  | [] => Some st
  | e :: es' => match step st e with Some st' => steps st' es' | None => None end
  end.
End steps.

(** ** Streams *)

(** What a goroutine has in hand. *)
Definition held (p : phase) : list byte := match p with Holding chunk => chunk | _ => [] end.

(** One direction: nothing is lost, repeated or reordered between the two ends; after
    a failure what was written is a beginning of what was sent. *)
Definition stream_ok (d : dir) (st : splicing) : Prop :=
  let x := ends st (src d) in
  let w := written (ends st (dst d)) in
  match phases st d with
  | Reading | Holding _ => w ++ held (phases st d) ++ buffered x ++ incoming x = sent x
  | AtEOF | Finished true => w = sent x ∧ peer_closed x = true
  | _ => w `prefix_of` sent x
  end.

(** What is closed, and by whom. *)
Record closing_ok (cw : bool) (st : splicing) : Prop := {
  tun_closed : closed (tun_end st) = true →
     closed (conn_end st) = true ∨ up st = FailingConn ∨ down st = FailingConn ∨
     up st = Finished true ∨ main st = ClosingConn;
  conn_closed : closed (conn_end st) = true → closed (tun_end st) = true ∨ down st = Finished true;
  main_waits : main st = WaitingBoth ∨ ∃ c1 c2, up st = Finished c1 ∧ down st = Finished c2;
  main_closes : main st = Returned → closed (conn_end st) = true;
  main_closed : main st = ClosingConn ∨ main st = Returned → closed (tun_end st) = true;
  failing_closed : up st = FailingConn ∨ down st = FailingConn → closed (tun_end st) = true;
  failed_closed : up st = Finished false ∨ down st = Finished false →
    closed (tun_end st) = true ∧ closed (conn_end st) = true;
  up_half_closed : write_closed (tun_end st) = true → up st = Finished true;
  down_half_closed : write_closed (conn_end st) = false;
  up_finished : up st = Finished true → write_closed (tun_end st) = true ∨ closed (tun_end st) = true;
  down_finished : down st = Finished true → closed (conn_end st) = true;
  no_half_close : cw = false → write_closed (tun_end st) = false;
}.

Definition inv (cw : bool) (st : splicing) : Prop := stream_ok Up st ∧ stream_ok Down st ∧ closing_ok cw st.

(** Case analysis of a step. *)
Ltac splice_cases H :=
  repeat match type of H with
    | context [match ?x with _ => _ end] => destruct x eqn:?; try discriminate H
    end;
  simplify_eq.

Lemma inv_splice cw ahead : inv cw (splice ahead).
Proof.
  unfold inv, stream_ok. cbn. rewrite app_nil_r. split_and!; [done..|].
  split; cbn; try done; naive_solver.
Qed.

Lemma read_spec n e chunk x :
  read n e = Some (chunk, x) →
  buffered e ++ incoming e = chunk ++ buffered x ++ incoming x ∧ chunk ≠ [] ∧ (N.of_nat (length chunk) ≤ copy_buffer)%N ∧
  x = with_unread (buffered x) (incoming x) e ∧ (closed e = true → buffered e ≠ []).
Proof.
  unfold read. case_bool_decide as Hn; [done|]. destruct (buffered e) as [|b buf] eqn:Eb.
  - destruct (closed e) eqn:Ec; [done|]. cbn [orb]. case_bool_decide as Hl; [done|]. intros [= <- <-].
    cbn [buffered incoming with_unread app]. rewrite take_drop. split_and!; try done.
    + intros E%(f_equal length). rewrite length_take in E. cbn in E. lia.
    + rewrite length_take. lia.
  - case_bool_decide as Hl; [done|]. intros [= <- <-]. cbn [buffered incoming with_unread].
    rewrite app_assoc, take_drop. split_and!; try done.
    + intros E%(f_equal length). rewrite length_take in E. cbn in *. lia.
    + rewrite length_take. lia.
Qed.

Lemma stream_step cw st e st' d :
  stream_ok d st → step cw st e = Some st' → stream_ok d st'.
Proof.
  intros H Hs. unfold stream_ok in *. destruct e as [s data|s|d'|d' n|d' n|d'|d'|d'|d'|d'|];
    cbn [step] in Hs.
  all: try destruct s; destruct d; try destruct d'; cbn [src dst] in *.
  all: splice_cases Hs; cbn in *; try done.
  all: try match goal with E : read _ _ = Some _ |- _ => apply read_spec in E as (? & ? & ? & -> & ?); cbn in * end.
  all: unfold closeWrite; try destruct (has_CloseWrite cw _); cbn.
  all: repeat case_match; simplify_eq; cbn in *; destruct_and?.
  all: rewrite <- ?app_assoc in *; simplify_list_eq.
  all: try done; try (by split; congruence).
  all: try (by apply prefix_app_r); try (by eexists).
  all: try match goal with
    | H : ?w ++ _ = sent ?x |- ?w ++ _ = sent ?x ++ _ => by rewrite <- H, <- ?app_assoc
    | H : ?w ++ _ = sent ?x, E : _ ++ _ = _ ++ _ |- ?w ++ _ = sent ?x => by rewrite <- H, <- E
    | H : ?w ++ ?c ++ _ = sent ?x |- ?w ++ take ?n ?c `prefix_of` sent ?x =>
        rewrite <- H; apply prefix_app, prefix_app_r, prefix_take
    end.
  all: match goal with E : _ && _ = true |- _ => apply andb_true_iff in E as [? _] end; by split.
Qed.

Lemma closing_step cw st e st' :
  closing_ok cw st → step cw st e = Some st' → closing_ok cw st'.
Proof.
  intros [H1 H2 H3 H4 H5 H6 H7 H8 H9 H10 H11 H12] Hs. destruct st as [ce te u dn mn].
  destruct e as [s data|s|d'|d' n|d' n|d'|d'|d'|d'|d'|]; cbn [step] in Hs.
  all: try destruct s; try destruct d'; cbn in *; splice_cases Hs.
  all: try match goal with E : read _ _ = Some _ |- _ => apply read_spec in E as (_ & _ & _ & -> & _) end.
  all: unfold closeWrite, has_CloseWrite; try destruct cw.
  all: split; cbn in *; try first [done | assumption].
  all: try (intros; destruct_or?; simplify_eq; solve [intuition congruence | naive_solver]).
Qed.

Lemma splice_inv_steps cw st es st' : inv cw st → steps cw st es = Some st' → inv cw st'.
Proof.
  revert st. induction es as [|e es IH]; intros st Hi Hs; cbn [steps] in Hs; [by simplify_eq|].
  destruct (step cw st e) as [st1|] eqn:E; [|done]. apply (IH st1); [|done].
  destruct Hi as (H1 & H2 & H3). split_and!; [by eapply stream_step..|by eapply closing_step].
Qed.

(** The peers only add to what they sent. *)
Lemma sent_grows cw st es st' s : steps cw st es = Some st' → sent (ends st s) `prefix_of` sent (ends st' s).
Proof.
  revert st. induction es as [|e es IH]; intros st Hs; cbn [steps] in Hs; [by simplify_eq|].
  destruct (step cw st e) as [st1|] eqn:E; [|done]. trans (sent (ends st1 s)); [|by apply IH].
  clear IH Hs. destruct e as [s' data|s'|d'|d' n|d' n|d'|d'|d'|d'|d'|]; cbn [step] in E.
  all: try destruct s'; try destruct d'; destruct s; cbn in *; splice_cases E; cbn; try done.
  all: try match goal with E : read _ _ = Some _ |- _ => apply read_spec in E as (_ & _ & _ & -> & _) end; try done.
  all: try (by apply prefix_app_r); unfold closeWrite; by destruct (has_CloseWrite cw _).
Qed.

(** C10.  Copying is faithful.  However the goroutines, the handler, the peers and the
    network are interleaved, what either peer receives is a beginning of what the other
    one sent, in order, starting with what the HTTP server had read ahead; a
    goroutine that ends without an error has delivered all of it; and when [splice]
    returns both connections are closed. *)
Theorem splice_faithful cw ahead es st :
  steps cw (splice ahead) es = Some st →
  (∀ d, written (ends st (dst d)) `prefix_of` sent (ends st (src d))) ∧
  ahead `prefix_of` sent (ends st Conn) ∧
  (∀ d, phases st d = Finished true → written (ends st (dst d)) = sent (ends st (src d))) ∧
  (main st = Returned → ∀ s, closed (ends st s) = true).
Proof.
  intros Hs. pose proof (splice_inv_steps _ _ _ _ (inv_splice cw ahead) Hs) as (Hu & Hd & Hc).
  assert (∀ d, stream_ok d st) as Hst by by intros []. split_and!.
  - intros d. specialize (Hst d). unfold stream_ok in Hst.
    destruct (phases st d) as [|c| | | |[]]; cbn in Hst;
      [by exists (buffered (ends st (src d)) ++ incoming (ends st (src d)))
      |by exists (c ++ buffered (ends st (src d)) ++ incoming (ends st (src d)))
      |by destruct Hst as [-> _]|done|done|by destruct Hst as [-> _]|done].
  - apply (sent_grows _ _ _ _ Conn) in Hs. exact Hs.
  - intros d Hf. specialize (Hst d). unfold stream_ok in Hst. rewrite Hf in Hst. apply Hst.
  - intros Hm []; [by apply (main_closes cw)|]. apply (main_closed cw); [done|by right].
Qed.

(** ** Returning *)

(** A step of a goroutine or of the handler. *)
Definition own (e : event) : bool :=
  match e with PeerSends _ _ | PeerCloses _ => false | _ => true end.

Definition unread (e : endpoint) : nat := length (buffered e) + length (incoming e).

Definition weight (e : endpoint) (p : phase) : nat :=
  match p with
  | Reading => 2 * unread e + 4
  | Holding _ => 2 * unread e + 5
  | AtEOF | FailingConn => 1
  | Failing => 2
  | Finished _ => 0
  end.

Definition main_weight (h : handler) : nat :=
  match h with WaitingBoth => 3 | ClosingTunnel => 2 | ClosingConn => 1 | Returned => 0 end.

Definition total (st : splicing) : nat :=
  weight (conn_end st) (up st) + weight (tun_end st) (down st) + main_weight (main st).

Definition received (st : splicing) : nat := length (sent (conn_end st)) + length (sent (tun_end st)).

Lemma weight_step cw st e st' :
  step cw st e = Some st' →
  (if own e then 1 else 0) + total st' + 2 * received st ≤ total st + 2 * received st'.
Proof.
  intros Hs. destruct st as [ce te u dn mn]. unfold total, received.
  destruct e as [s data|s|d'|d' n|d' n|d'|d'|d'|d'|d'|]; cbn [step] in Hs.
  all: try destruct s; try destruct d'; cbn in *; splice_cases Hs.
  all: try match goal with E : read _ _ = Some _ |- _ =>
      apply read_spec in E as (E1 & E2 & _ & -> & _); apply (f_equal length) in E1;
      rewrite !length_app in E1; assert (length l ≠ 0) by (by destruct l) end.
  all: unfold closeWrite; try destruct (has_CloseWrite cw _); cbn.
  all: unfold weight, unread; cbn -[Nat.mul]; rewrite ?length_app; try lia.
  all: repeat case_match; cbn -[Nat.mul]; rewrite ?length_app; lia.
Qed.

Lemma weight_steps cw st es st' :
  steps cw st es = Some st' →
  length (filter (λ e, own e = true) es) + total st' + 2 * received st ≤ total st + 2 * received st'.
Proof.
  revert st. induction es as [|e es IH]; intros st Hs; cbn [steps] in Hs; [simplify_eq; cbn; lia|].
  destruct (step cw st e) as [st1|] eqn:E; [|done]. apply weight_step in E. apply IH in Hs.
  rewrite filter_cons. destruct (own e); case_decide; try done; cbn [length] in *; lia.
Qed.

(** The handler can go on: once a connection was closed, or the kubelet has finished
    sending, or the API server has and the stream has no [CloseWrite], there is always
    a step of a goroutine or of the handler that needs no peer, until [splice] has
    returned. *)
Lemma splice_progress cw st :
  inv cw st → main st ≠ Returned →
  (∃ s, closed (ends st s) = true) ∨ peer_closed (ends st Tun) = true ∨
    (peer_closed (ends st Conn) = true ∧ cw = false) →
  ∃ e st', own e = true ∧ step cw st e = Some st'.
Proof.
  intros (_ & _ & [H1 H2 H3 H4 H5 H6 H7 H8 H9 H10 H11 H12]) Hm Hend.
  assert (∀ d, phases st d ≠ Reading → (∀ c, phases st d ≠ Finished c) →
    ∃ e st', own e = true ∧ step cw st e = Some st') as Hmove.
  { intros d Hr Hf. destruct (phases st d) as [|c| | | |c] eqn:E; try done; try (exists (Next d); cbn; rewrite E; by eauto).
    - destruct (writable (ends st (dst d))) eqn:Ew; [exists (Write d)|exists (WriteClosed d)]; cbn; rewrite E, Ew; by eauto.
    - by destruct (Hf c). }
  assert (∀ d, phases st d = Reading → closed (ends st (src d)) = true ∨ peer_closed (ends st (src d)) = true →
    ∃ e st', own e = true ∧ step cw st e = Some st') as Hread.
  { intros d Hr Hc. destruct (buffered (ends st (src d))) as [|b buf] eqn:Eb.
    - destruct (closed (ends st (src d))) eqn:Ec; [exists (ReadClosed d); cbn; rewrite Hr, Eb, Ec; by eauto|].
      destruct Hc as [?|Hc]; [done|]. destruct (incoming (ends st (src d))) as [|b inc] eqn:Ei.
      + exists (ReadEOF d). cbn. rewrite Hr, Eb, Ei, Ec, Hc. by eauto.
      + exists (Read d 1). cbn. rewrite Hr. unfold read. rewrite Eb, Ei, Ec. by eauto.
    - exists (Read d 1). cbn. rewrite Hr. unfold read. rewrite Eb. by eauto. }
  destruct (main st) eqn:Em; try done; try (exists Main; cbn; rewrite Em; by eauto).
  destruct (up st) as [|c| | | |c1] eqn:Eu; try (apply (Hmove Up); cbn; by rewrite Eu);
    destruct (down st) as [|c| | | |c2] eqn:Ed; try (apply (Hmove Down); cbn; by rewrite Ed).
  - destruct Hend as [[[] Hs]|[Hp|[Hp _]]]; cbn in *.
    + apply (Hread Up); cbn; auto.
    + destruct (H1 Hs) as [?|?]; [apply (Hread Up); cbn; auto|naive_solver].
    + apply (Hread Down); cbn; auto.
    + apply (Hread Up); cbn; auto.
  - apply (Hread Up); [done|]. left. cbn. destruct c2; [by apply H11|by apply H7; auto].
  - destruct c1; [|apply (Hread Down); [done|]; left; by apply H7; auto].
    apply (Hread Down); [done|]. cbn. destruct Hend as [[[] Hs]|[Hp|[_ ->]]]; cbn in *; auto.
    + by destruct (H2 Hs); [left|].
    + left. destruct (H10 eq_refl); [|done]. by rewrite H12 in *.
  - exists Main. cbn. rewrite Em, Eu, Ed. by eauto.
Qed.

(** [splice] returns.  Apart from what the peers send, an execution has at most
    two steps for each byte sent and eleven more; and once a connection was closed, by
    a failure on either side, or the kubelet has finished sending, a step is possible
    until the handler has returned: no goroutine waits for ever for the other one. *)
Theorem splice_returns cw ahead es st :
  steps cw (splice ahead) es = Some st →
  length (filter (λ e, own e = true) es) ≤
    2 * (length (sent (ends st Conn)) + length (sent (ends st Tun))) + 11 ∧
  (main st ≠ Returned →
   (∃ s, closed (ends st s) = true) ∨ peer_closed (ends st Tun) = true ∨
     (peer_closed (ends st Conn) = true ∧ cw = false) →
   ∃ e st', own e = true ∧ step cw st e = Some st').
Proof.
  intros Hs. split.
  - apply weight_steps in Hs. unfold total, received in Hs. cbn -[Nat.mul] in *. unfold unread in Hs.
    cbn -[Nat.mul] in Hs. lia.
  - apply splice_progress. exact (splice_inv_steps cw _ es st (inv_splice cw ahead) Hs).
Qed.

(** ** Executions *)

Definition bytes_of (s : string) : list byte := String.list_byte_of_string s.

(** A request that was read ahead, an answer, and both peers finish. *)
Definition exchange : list event :=
  [Read Up 3; Write Up; PeerSends Tun (bytes_of "OK"); PeerSends Conn (bytes_of "?"); Read Down 2; Read Up 1;
   Write Down; Write Up; PeerCloses Conn; ReadEOF Up; Next Up; PeerCloses Tun; ReadEOF Down; Next Down;
   Main; Main; Main].

Lemma splice_faithful_witness :
  ∃ st, steps true (splice (bytes_of "GET")) exchange = Some st ∧ main st = Returned ∧
    written (ends st Tun) = bytes_of "GET?" ∧ written (ends st Conn) = bytes_of "OK" ∧
    ∀ s, closed (ends st s) = true.
Proof.
  eexists. split; [vm_compute; reflexivity|].
  match goal with |- main ?x = _ ∧ _ => set (st := x) end.
  assert (steps true (splice (bytes_of "GET")) exchange = Some st) as Hs by (vm_compute; reflexivity).
  destruct (splice_faithful true (bytes_of "GET") exchange st Hs) as (_ & _ & Hall & Hc).
  split; [reflexivity|]. split; [exact (Hall Up eq_refl)|]. split; [exact (Hall Down eq_refl)|].
  exact (Hc eq_refl).
Defined.

Lemma splice_returns_witness :
  ∃ st, steps true (splice (bytes_of "GET")) [Read Up 3; WriteBreaks Up 1; Next Up] = Some st ∧
    ∃ e st', own e = true ∧ step true st e = Some st'.
Proof.
  eexists. split; [vm_compute; reflexivity|].
  eapply (splice_returns true (bytes_of "GET") [Read Up 3; WriteBreaks Up 1; Next Up]);
    [vm_compute; reflexivity|discriminate|left; by exists Tun].
Defined.

(** The connection of the API server is closed as a whole when the kubelet finishes
    sending, since [hijackedConn] has no [CloseWrite]: what the API server goes on
    sending is lost, although the kubelet would read it. *)
Example half_close_cuts_off :
  (λ st, (written (ends st Tun), sent (ends st Conn), main st)) <$>
    steps true (splice []) [PeerCloses Tun; ReadEOF Down; Next Down; PeerSends Conn (bytes_of "input");
      ReadClosed Up; Next Up; Next Up; Main; Main; Main] =
  Some ([], bytes_of "input", Returned).
Proof. vm_compute. reflexivity. Qed.
