(* ===== verification/Agent.v ===== *)
(** * The tunnel agent of a worker node

    [pkg/tunnel/agent/agent.go]: the connection manager, which keeps tunnels to
    the replicas of the plane-tunnel server, and one goroutine per tunnel, as a
    step relation on their shared state ([connState]).  Each step is one
    critical section, channel operation or call that returns; what the server
    and the network answer is chosen by the step.

    The manager's loop is [Checking] (comparing the number of connections with
    the target), [Waiting] (in the [select]), [Refreshing] (in [refreshTarget],
    asking the connection it picked) or [Connecting k] ([retry.Do] with [k]
    attempts left); a goroutine serves its tunnel, then deletes its entry
    ([st_serving] to [st_removed]), then notifies the manager. *)

From S2P Require Import Prelude.
From stdpp Require Import options.

(** ** State *)

Inductive manager :=
| Checking
| Waiting
| Refreshing
| Connecting (attempts : nat)
| Stopped.

(** The capacity of [disconnected]. *)
Definition disconnected_cap : nat := 16.

Record agent := {
  (** [conn.tracker]: the session of each tracked server instance. *)
  tracker : gmap string nat;
  (** [conn.target]. *)
  target : Z;
  (** [conn.disconnected], oldest first. *)
  disconnected : list string;
  (** Goroutines in the serve loop: instance id and session. *)
  st_serving : list (string * nat);
  (** Goroutines between the deletion of their entry and the notification. *)
  st_removed : list string;
  (** Sessions that are closed. *)
  st_closed : gset nat;
  st_manager : manager;
  (** Ghost: the largest target so far. *)
  st_peak : Z;
}.

(** [New], then [Start]. *)
Definition agent_init : agent :=
  {| tracker := ∅; target := 1; disconnected := []; st_serving := []; st_removed := [];
     st_closed := ∅; st_manager := Checking; st_peak := 1 |}.

(** ** Operations *)

Definition with_manager (st : agent) (m : manager) : agent :=
  {| tracker := tracker st; target := target st; disconnected := disconnected st;
     st_serving := st_serving st; st_removed := st_removed st; st_closed := st_closed st;
     st_manager := m; st_peak := st_peak st |}.

Definition with_target (st : agent) (n : Z) : agent :=
  {| tracker := tracker st; target := n; disconnected := disconnected st;
     st_serving := st_serving st; st_removed := st_removed st; st_closed := st_closed st;
     st_manager := st_manager st; st_peak := Z.max (st_peak st) n |}.

Definition with_disconnected (st : agent) (q : list string) : agent :=
  {| tracker := tracker st; target := target st; disconnected := q;
     st_serving := st_serving st; st_removed := st_removed st; st_closed := st_closed st;
     st_manager := st_manager st; st_peak := st_peak st |}.

(** The head of the loop of [connectionManager]. *)
Definition check (st : agent) : agent :=
  if bool_decide (Z.of_nat (size (tracker st)) >= target st)%Z
  then with_manager st Waiting else with_manager st (Connecting 4).

(** After a failed attempt: the next one, or the [continue] of the loop. *)
Definition attempt_failed (st : agent) (k : nat) : agent :=
  with_manager st (match k with O => Checking | S k' => Connecting (S k') end).

(** [refreshTarget], first critical section: with no connection to ask it
    returns. *)
Definition refresh_pick (st : agent) : agent :=
  with_manager st (if bool_decide (tracker st = ∅) then Checking else Refreshing).

(** [refreshTarget], second critical section: [answer] is what [fetchIdentity]
    returned on the connection it picked, [None] for an error. *)
Definition refreshTarget (st : agent) (answer : option Z) : agent :=
  match answer with
  | None => st
  | Some n => if bool_decide (n = target st) then st else with_target st n
  end.

(** The critical section of [establishNewConnection] once the identity
    [(id, n)] of a new tunnel with session [s] is known. *)
Definition track (st : agent) (id : string) (n : Z) (s k : nat) : agent :=
  match tracker st !! id with
  | Some _ =>
      (* already connected: the new tunnel is closed *)
      let st' := attempt_failed st k in
      {| tracker := tracker st'; target := target st'; disconnected := disconnected st';
         st_serving := st_serving st'; st_removed := st_removed st';
         st_closed := {[s]} ∪ st_closed st'; st_manager := st_manager st';
         st_peak := st_peak st' |}
  | None =>
      {| tracker := <[id := s]> (tracker st); target := n; disconnected := disconnected st;
         st_serving := (id, s) :: st_serving st; st_removed := st_removed st;
         st_closed := st_closed st; st_manager := Checking; st_peak := Z.max (st_peak st) n |}
  end.

(** A goroutine leaves its loop: [tunnel.Close], then the entry is deleted. *)
Definition leave (st : agent) (id : string) (s : nat) (rest : list (string * nat)) : agent :=
  {| tracker := delete id (tracker st); target := target st; disconnected := disconnected st;
     st_serving := rest; st_removed := id :: st_removed st;
     st_closed := {[s]} ∪ st_closed st; st_manager := st_manager st; st_peak := st_peak st |}.

(** The [select] with a [default]: a full channel drops the notification. *)
Definition notify (st : agent) (id : string) (rest : list string) : agent :=
  {| tracker := tracker st; target := target st;
     disconnected := if bool_decide (length (disconnected st) < disconnected_cap)
                     then disconnected st ++ [id] else disconnected st;
     st_serving := st_serving st; st_removed := rest; st_closed := st_closed st;
     st_manager := st_manager st; st_peak := st_peak st |}.

(** ** Steps *)

Inductive agent_step (cancelled : bool) : agent → agent → Prop :=
| ag_check st :
    st_manager st = Checking → agent_step cancelled st (check st)
| ag_done st :
    st_manager st = Waiting → cancelled = true →
    agent_step cancelled st (with_manager st Stopped)
| ag_wake st id q :
    st_manager st = Waiting → disconnected st = id :: q →
    agent_step cancelled st (with_manager (with_disconnected st q) Checking)
| ag_tick st :
    st_manager st = Waiting → agent_step cancelled st (refresh_pick st)
| ag_refreshed st answer :
    st_manager st = Refreshing →
    agent_step cancelled st (with_manager (refreshTarget st answer) Checking)
| ag_connect_failed st k :
    st_manager st = Connecting (S k) → agent_step cancelled st (attempt_failed st k)
| ag_cancelled st k :
    st_manager st = Connecting k → cancelled = true →
    agent_step cancelled st (with_manager st Stopped)
| ag_connected st id n s k :
    st_manager st = Connecting (S k) → agent_step cancelled st (track st id n s k)
| ag_lost st s :
    agent_step cancelled st
      {| tracker := tracker st; target := target st; disconnected := disconnected st;
         st_serving := st_serving st; st_removed := st_removed st;
         st_closed := {[s]} ∪ st_closed st; st_manager := st_manager st; st_peak := st_peak st |}
| ag_leave st id s rest :
    st_serving st ≡ₚ (id, s) :: rest → s ∈ st_closed st ∨ cancelled = true →
    agent_step cancelled st (leave st id s rest)
| ag_notify st id rest :
    st_removed st ≡ₚ id :: rest → agent_step cancelled st (notify st id rest).

(** ** Invariant *)

Record agent_inv (st : agent) : Prop := {
  (** The tracked instances are those with a serving goroutine, each once. *)
  ai_nodup : NoDup (st_serving st).*1;
  ai_tracked : tracker st = list_to_map (st_serving st);
  ai_queue : length (disconnected st) ≤ disconnected_cap;
  (** No lost wake-up. *)
  ai_wake : st_manager st = Waiting → (Z.of_nat (size (tracker st)) < target st)%Z →
    disconnected st ≠ [] ∨ st_removed st ≠ [];
  ai_connecting k : st_manager st = Connecting k →
    (Z.of_nat (size (tracker st)) < target st)%Z;
  ai_peak : (target st ≤ st_peak st)%Z ∧ (Z.of_nat (size (tracker st)) ≤ st_peak st)%Z;
}.

Lemma agent_inv_init : agent_inv agent_init.
Proof.
  split; simpl; try done; [apply NoDup_nil_2|unfold disconnected_cap; lia].
Qed.

Lemma tracked_delete (l : list (string * nat)) id s rest :
  NoDup l.*1 → l ≡ₚ (id, s) :: rest →
  delete id (list_to_map l : gmap string nat) = list_to_map rest ∧ NoDup rest.*1.
Proof.
  intros Hnd Hl. rewrite (list_to_map_proper _ _ Hnd Hl). rewrite Hl in Hnd. simpl in *.
  apply NoDup_cons in Hnd as [Hni Hnd]. split; [|done].
  rewrite delete_insert_id; [done|]. by apply not_elem_of_list_to_map_1.
Qed.

Lemma size_leave (m : gmap string nat) id : size (delete id m) ≤ size m.
Proof. rewrite map_size_delete. destruct (m !! id); simpl; lia. Qed.

Lemma attempt_failed_inv st k :
  agent_inv st → (Z.of_nat (size (tracker st)) < target st)%Z → agent_inv (attempt_failed st k).
Proof. intros [] Hlt. split; simpl; try done. intros Hw. by destruct k. Qed.

Lemma check_inv st : agent_inv st → agent_inv (check st).
Proof.
  intros []. unfold check. case_bool_decide; split; simpl; try done; intros; lia.
Qed.

Lemma refresh_pick_inv st : agent_inv st → agent_inv (refresh_pick st).
Proof. intros []. unfold refresh_pick. case_bool_decide; by split. Qed.

Lemma refresh_inv st answer : agent_inv st → agent_inv (with_manager (refreshTarget st answer) Checking).
Proof.
  intros []. unfold refreshTarget. destruct answer as [n|]; [|by split].
  case_bool_decide; split; simpl; try done. lia.
Qed.

Lemma track_inv st id n s k :
  agent_inv st → st_manager st = Connecting (S k) → agent_inv (track st id n s k).
Proof.
  intros Hi Hm. pose proof (ai_connecting _ Hi _ Hm) as Hlt. unfold track.
  destruct (tracker st !! id) as [s'|] eqn:E.
  - by destruct (attempt_failed_inv st k Hi Hlt).
  - destruct Hi as [Hnd Ht Hq _ _ [Hp1 Hp2]]. split; simpl; try done.
    + constructor; [|done]. rewrite Ht in E. by apply not_elem_of_list_to_map_2.
    + by rewrite Ht.
    + rewrite map_size_insert_None by done. lia.
Qed.

Lemma leave_inv st id s rest :
  agent_inv st → st_serving st ≡ₚ (id, s) :: rest → agent_inv (leave st id s rest).
Proof.
  intros [Hnd Ht Hq Hw Hc [Hp1 Hp2]] Hl. pose proof (size_leave (tracker st) id) as Hsz.
  destruct (tracked_delete _ _ _ _ Hnd Hl) as [Hd Hnd']. split; simpl; try done.
  - by rewrite Ht.
  - by right.
  - intros k Hk. specialize (Hc k Hk). lia.
  - lia.
Qed.

Lemma notify_inv st id rest : agent_inv st → agent_inv (notify st id rest).
Proof.
  intros [Hnd Ht Hq Hw Hc Hp]. split; simpl; try done.
  - case_bool_decide; [rewrite length_app; simpl; lia|done].
  - intros _ _. left. case_bool_decide as E; [by destruct (disconnected st)|].
    intros Hnil. rewrite Hnil in E. unfold disconnected_cap in E. simpl in E. lia.
Qed.

Lemma agent_inv_step c st st' : agent_inv st → agent_step c st st' → agent_inv st'.
Proof.
  intros Hi Hstep. destruct Hstep as [st Hm|st Hm _|st id q Hm Hd|st Hm|st a Hm|st k Hm|st k Hm _
    |st id n s k Hm|st s|st id s rest Hl _|st id rest Hl].
  - by apply check_inv.
  - by destruct Hi.
  - destruct Hi as [? ? Hq ? ? ?]. split; simpl; try done. rewrite Hd in Hq. simpl in Hq. lia.
  - by apply refresh_pick_inv.
  - by apply refresh_inv.
  - eapply attempt_failed_inv; [done|by eapply ai_connecting].
  - by destruct Hi.
  - by apply track_inv.
  - by destruct Hi.
  - by apply leave_inv.
  - by apply notify_inv.
Qed.

Lemma agent_inv_reachable c st : rtc (agent_step c) agent_init st → agent_inv st.
Proof.
  intros Hr. pose proof agent_inv_init as Hi. revert Hi.
  induction Hr as [|st st1 st2 Hs _ IH]; intros Hi; [done|].
  apply IH. by eapply agent_inv_step.
Qed.

(** The connection table is consistent: in every reachable state the
    tracked server instances are exactly those with a serving goroutine, each
    instance once, the notification channel is within its capacity, and there
    are never more connections than the largest replica count ever reported. *)
Theorem agent_table_consistent c st :
  rtc (agent_step c) agent_init st →
  NoDup (st_serving st).*1 ∧ tracker st = list_to_map (st_serving st) ∧
  size (tracker st) = length (st_serving st) ∧
  length (disconnected st) ≤ 16 ∧
  (Z.of_nat (size (tracker st)) ≤ st_peak st)%Z.
Proof.
  intros [Hnd Ht Hq _ _ [_ Hp]]%agent_inv_reachable. repeat split; try done.
  rewrite Ht. rewrite <- length_map_to_list. by rewrite map_to_list_to_map.
Qed.

(** The steps by which a lost connection wakes the manager: a serving goroutine that has
    left sends its notification, the manager that waits takes one from the
    channel, and the manager looks at the table.  The refresh timer, a new connection
    and the loss of one are none of them. *)
Definition wake_step (c : bool) (st st' : agent) : Prop :=
  agent_step c st st' ∧
  ((∃ id, st_removed st ≡ₚ id :: st_removed st' ∧ st_manager st' = st_manager st) ∨
   (∃ id, st_manager st = Waiting ∧ disconnected st = id :: disconnected st') ∨
   st_manager st = Checking).

Lemma wake_taken c st :
  st_manager st = Waiting → (Z.of_nat (size (tracker st)) < target st)%Z → disconnected st ≠ [] →
  ∃ st', nsteps (wake_step c) 2 st st' ∧ st_manager st' = Connecting 4 ∧
    tracker st' = tracker st ∧ target st' = target st.
Proof.
  intros Hm Hlt Hd. destruct (disconnected st) as [|id q] eqn:Eq; [done|].
  exists (check (with_manager (with_disconnected st q) Checking)). split.
  - eapply nsteps_l; [split; [by eapply ag_wake|right; left; by exists id]|].
    apply nsteps_once. split; [by apply ag_check|]. by right; right.
  - unfold check. rewrite bool_decide_false; [done|]. simpl. lia.
Qed.

(** C8.  No wake-up is lost.  Whenever the manager waits although it has fewer
    connections than it should, at most three steps of the goroutines that already run make it
    connect, and the refresh timer and the network are none of them ([wake_step]): a
    notification is in the channel, or a goroutine is about to send one and the channel
    has room for it, the manager takes it and sees that a connection is missing.
    Dropping notifications on a full channel is therefore harmless. *)
Theorem agent_no_lost_wakeup c st :
  rtc (agent_step c) agent_init st →
  st_manager st = Waiting → (Z.of_nat (size (tracker st)) < target st)%Z →
  ∃ n st', n ≤ 3 ∧ nsteps (wake_step c) n st st' ∧ st_manager st' = Connecting 4 ∧
    tracker st' = tracker st ∧ target st' = target st.
Proof.
  intros Hr Hm Hlt. apply agent_inv_reachable in Hr as Hi.
  destruct (decide (disconnected st = [])) as [Eq|Hd].
  - destruct (ai_wake _ Hi Hm Hlt) as [Hd|Hr']; [done|].
    destruct (st_removed st) as [|id rest] eqn:Er; [done|].
    destruct (wake_taken c (notify st id rest)) as (st' & Hs & H1 & H2 & H3); [done..| |].
    { simpl. by rewrite Eq. }
    exists 3, st'. split; [done|]. split; [|done]. eapply nsteps_l; [|exact Hs].
    split; [apply ag_notify; by rewrite Er|]. left. exists id. by rewrite Er.
  - destruct (wake_taken c st) as (st' & Hs & ?); [done..|]. exists 2, st'. split; [lia|done].
Qed.

(** One connection is made and lost. *)
Definition agent_waiting : agent := check (track (check agent_init) "srv-1" 1 7 3).
Definition agent_lost : agent :=
  leave {| tracker := tracker agent_waiting; target := target agent_waiting;
           disconnected := []; st_serving := st_serving agent_waiting; st_removed := [];
           st_closed := {[7]} ∪ st_closed agent_waiting; st_manager := Waiting;
           st_peak := st_peak agent_waiting |} "srv-1" 7 [].

Lemma agent_lost_reachable : rtc (agent_step false) agent_init agent_lost.
Proof.
  eapply rtc_l; [by apply ag_check|].
  eapply rtc_l; [by eapply (ag_connected _ _ "srv-1" 1 7 3)|].
  eapply rtc_l; [by apply ag_check|].
  eapply rtc_l; [apply (ag_lost _ _ 7)|].
  apply rtc_once. apply ag_leave; [done|]. left. simpl. set_solver.
Qed.

Lemma agent_table_consistent_witness :
  rtc (agent_step false) agent_init agent_lost ∧ tracker agent_lost = ∅ ∧
  size (tracker agent_lost) = 0.
Proof.
  split; [exact agent_lost_reachable|]. split; [reflexivity|].
  destruct (agent_table_consistent false agent_lost agent_lost_reachable) as (_ & _ & Hs & _).
  rewrite Hs. reflexivity.
Defined.

Lemma agent_no_lost_wakeup_witness :
  st_manager agent_lost = Waiting ∧
  ∃ n st', n ≤ 3 ∧ nsteps (wake_step false) n agent_lost st' ∧ st_manager st' = Connecting 4.
Proof.
  split; [reflexivity|].
  destruct (agent_no_lost_wakeup false agent_lost agent_lost_reachable) as (n & st' & H1 & H2 & H3 & _);
    [reflexivity|vm_compute; reflexivity|]. exists n, st'. auto.
Defined.

(** The manager does not close connections when the server scales down: with
    two connections and one replica left it waits. *)
Example agent_keeps_surplus :
  ∃ st, rtc (agent_step false) agent_init st ∧ st_manager st = Waiting ∧
    size (tracker st) = 2 ∧ target st = 1%Z.
Proof.
  eexists. split.
  - eapply rtc_l; [by apply ag_check|].
    eapply rtc_l; [by eapply (ag_connected _ _ "srv-1" 2 7 3)|].
    eapply rtc_l; [by apply ag_check|].
    eapply rtc_l; [by eapply (ag_connected _ _ "srv-2" 1 8 3)|].
    apply rtc_once. by apply ag_check.
  - repeat split; vm_compute; reflexivity.
Qed.
