(* ===== verification/Csr.v ===== *)
(** * The CSR approver

    [internal/controller/clusteragent/csr_controller.go]: a kubelet serving
    certificate request is approved when its requestor is a node and every name
    it asks for is an address of that node.  CertificateSigningRequests and
    Nodes are cluster-scoped: their key has an empty namespace. *)

From S2P Require Import Prelude Effects Kube Api Pki World.
From stdpp Require Import options.

Definition CertificateApproved : string := "Approved".
Definition CertificateDenied : string := "Denied".

Fixpoint csrIsPending_loop (cs : list CSRCondition) : bool :=
  match cs with
  | [] => true
  | c :: cs' =>
      if bool_decide (cc_type c = CertificateApproved) || bool_decide (cc_type c = CertificateDenied)
      then false else csrIsPending_loop cs'
  end.

Definition csrIsPending (csr : CertificateSigningRequest) : bool :=
  csrIsPending_loop (ksr_conditions csr).

(** The keys of the map the function builds. *)
Definition buildNodeAddressSet (node : Node) : gset string := list_to_set (node_addresses node).

(** The condition that [validateAndApprove] appends. *)
Definition approval : CSRCondition :=
  {| cc_type := CertificateApproved; cc_status := ConditionTrue; cc_reason := "AutoApproved";
     cc_message := "approved by heir clusteragent: all SANs validated against node addresses" |}.

Definition with_approval (csr : CertificateSigningRequest) : CertificateSigningRequest :=
  {| ksr_meta := ksr_meta csr; ksr_username := ksr_username csr;
     ksr_signerName := ksr_signerName csr; ksr_request := ksr_request csr;
     ksr_conditions := ksr_conditions csr ++ [approval] |}.

(** The predicate of [SetupWithManager]: only such requests are queued. *)
Definition isKubeletServingCSR (csr : CertificateSigningRequest) : bool :=
  bool_decide (ksr_signerName csr = "kubernetes.io/kubelet-serving").

Section csr.
Context `{X : X509}.

Definition parseCSRBytes (pemBytes : string) : option (list string * list string) :=
  match pem_decode pemBytes with
  | None => None
  | Some (ty, bytes) =>
      if bool_decide (ty ≠ "CERTIFICATE REQUEST") then None else ParseCertificateRequest bytes
  end.

(** One of the two loops over the requested names. *)
Fixpoint check_sans (kind nodeName : string) (addrs : gset string) (l : list string)
    : option string :=
  match l with
  | [] => None
  | x :: l' =>
      if bool_decide (x ∈ addrs) then check_sans kind nodeName addrs l'
      else Some (kind +:+ " SAN " +:+ x +:+ " not present in node " +:+ nodeName)
  end.

(** [None] when the request was approved, otherwise why it was not. *)
Definition validateAndApprove (csr : CertificateSigningRequest) : prog op (option string) :=
  if negb (HasPrefix (ksr_username csr) "system:node:")
  then Ret (Some "requestor is not a node identity (expected system:node:<name>)")
  else
    let nodeName := TrimPrefix (ksr_username csr) "system:node:" in
    let! got := get (O := Node) (NN "" nodeName) in
    match got with
    | inr _ => Ret (Some ("get node " +:+ nodeName))
    | inl node =>
        match parseCSRBytes (ksr_request csr) with
        | None => Ret (Some "parse CSR request bytes")
        | Some (dnsNames, ips) =>
            let nodeAddrs := buildNodeAddressSet node in
            match check_sans "DNS" nodeName nodeAddrs dnsNames with
            | Some e => Ret (Some e)
            | None =>
            match check_sans "IP" nodeName nodeAddrs ips with
            | Some e => Ret (Some e)
            | None =>
                (* UpdateApproval writes the conditions of the request *)
                let! u := update_status (with_approval csr) in
                match u with
                | inr _ => Ret (Some "failed to approve csr after successful csr validation")
                | inl _ => Ret None
                end
            end end
        end
    end.

(** [Reconcile]: a request that is not approved is skipped without an error,
    also when a call failed; [recorder] says whether there is one. *)
Definition csr_Reconcile (recorder : bool) (req : NamespacedName) : prog op (unit + api_error) :=
  let! got := get (O := CertificateSigningRequest) req in
  match got with
  | inr e => if IsNotFound e then Ret (inl tt) else Ret (inr e)
  | inl csr =>
      if negb (csrIsPending csr) then Ret (inl tt)
      else
        let! r := validateAndApprove csr in
        match r with
        | Some _ =>
            if recorder then let! _ := event "CSRApprovalSkipped" in Ret (inl tt) else Ret (inl tt)
        | None =>
            if recorder then let! _ := event "CSRApproved" in Ret (inl tt) else Ret (inl tt)
        end
  end.

(** ** Specification *)

(** The request may be approved: a node asks for itself, for addresses the
    cluster knows it by. *)
Definition csr_valid (s : cluster) (csr : CertificateSigningRequest) : Prop :=
  ∃ n node der dns ips,
    ksr_username csr = "system:node:" +:+ n ∧
    c_nodes s !! NN "" n = Some node ∧
    pem_decode (ksr_request csr) = Some ("CERTIFICATE REQUEST", der) ∧
    ParseCertificateRequest der = Some (dns, ips) ∧
    (∀ x, x ∈ dns ++ ips → x ∈ node_addresses node).

(** Nobody has approved or denied the request. *)
Definition undecided (csr : CertificateSigningRequest) : Prop :=
  ∀ c, c ∈ ksr_conditions csr → cc_type c ≠ "Approved" ∧ cc_type c ≠ "Denied".

(** [csr'] is [csr] with one more condition, the approval. *)
Record approved_from (csr csr' : CertificateSigningRequest) : Prop := {
  approved_meta : ksr_meta csr' = ksr_meta csr;
  approved_username : ksr_username csr' = ksr_username csr;
  approved_signerName : ksr_signerName csr' = ksr_signerName csr;
  approved_request : ksr_request csr' = ksr_request csr;
  approved_conditions : ∃ c, ksr_conditions csr' = ksr_conditions csr ++ [c] ∧
    cc_type c = "Approved" ∧ cc_status c = ConditionTrue
}.

Lemma with_approval_from csr : approved_from csr (with_approval csr).
Proof. split; try done. by eexists. Qed.

(** The only write: the approval of a valid, undecided request that is stored
    under the key being reconciled. *)
Inductive approves (req : NamespacedName) : write → cluster → Prop :=
| approves_valid csr csr' s :
    c_csrs s !! req = Some csr → undecided csr → csr_valid s csr → approved_from csr csr' →
    approves req (WStatus kind_CertificateSigningRequest csr') s.

Lemma parseCSRBytes_Some pemBytes r :
  parseCSRBytes pemBytes = Some r ↔
  ∃ der, pem_decode pemBytes = Some ("CERTIFICATE REQUEST", der) ∧ ParseCertificateRequest der = Some r.
Proof.
  unfold parseCSRBytes. destruct (pem_decode pemBytes) as [[ty der]|]; [|naive_solver].
  case_bool_decide; naive_solver.
Qed.

Lemma check_sans_None kind n addrs l :
  check_sans kind n addrs l = None ↔ ∀ x, x ∈ l → x ∈ addrs.
Proof.
  induction l as [|x l IH]; simpl; [set_solver|]. case_bool_decide; [rewrite IH|]; set_solver.
Qed.

Lemma csrIsPending_iff csr : csrIsPending csr = true ↔ undecided csr.
Proof.
  unfold csrIsPending, undecided. rewrite <- Forall_forall.
  induction (ksr_conditions csr) as [|c cs IH]; simpl; [by split|].
  rewrite Forall_cons, <- IH. unfold CertificateApproved, CertificateDenied.
  repeat case_bool_decide; simpl; intuition congruence.
Qed.

(** Other actors may do anything but write this request or the nodes. *)
Definition leaves_inputs (req : NamespacedName) (rely_ : cluster → cluster → Prop) : Prop :=
  ∀ s s', rely_ s s' → c_csrs s' !! req = c_csrs s !! req ∧ c_nodes s' = c_nodes s.

Definition csr_env (req : NamespacedName) (rely_ : cluster → cluster → Prop) : env :=
  {| rely := rely_; allowed := approves req; may_panic := False |}.

(** The request and the nodes are those of [s0]. *)
Definition same_inputs (req : NamespacedName) (s0 s : cluster) : Prop :=
  c_csrs s !! req = c_csrs s0 !! req ∧ c_nodes s = c_nodes s0.

Lemma csr_rely req rely_ s0 s s' :
  leaves_inputs req rely_ → rely (csr_env req rely_) s s' → same_inputs req s0 s → same_inputs req s0 s'.
Proof. intros Hl Hr [H1 H2]. destruct (Hl _ _ Hr) as [E1 E2]. split; congruence. Qed.

Lemma wp_csr_Reconcile recorder req rely_ s :
  leaves_inputs req rely_ →
  wp (api_spec (csr_env req rely_)) (csr_Reconcile recorder req) s (λ _ _, True).
Proof.
  intros Hl. unfold csr_Reconcile, validateAndApprove.
  assert (same_inputs req s s) as Hs by done.
  wp_call (csr_env req rely_) (same_inputs req s) (λ s1 s2, csr_rely req rely_ s s1 s2 Hl) ltac:(done);
    [by repeat case_match..|]. cbv beta iota.
  destruct (csrIsPending o) eqn:Ep; [|done]. cbn [negb]. apply wp_bind; [apply _|].
  eapply (wp_mono _ _ _ (λ _ _, True)); [|by intros [] ? _; destruct recorder].
  destruct (HasPrefix (ksr_username o) "system:node:") eqn:Eu; [|done]. cbn [negb].
  apply HasPrefix_true in Eu as [n Eu].
  repeat wp_call (csr_env req rely_) (same_inputs req s) (λ s1 s2, csr_rely req rely_ s s1 s2 Hl)
    ltac:(done); try done.
  rewrite Eu, TrimPrefix_app in *. apply csrIsPending_iff in Ep.
  destruct Hs0 as [H0 _], Hs1 as [_ H1], Hs2 as [H2 H2']. simpl in Ho, Ho0.
  apply parseCSRBytes_Some in E as (der & Hpem & Hparse).
  apply (approves_valid req o (with_approval o)); [congruence|done| |apply with_approval_from].
  exists n, o0, der, l, l0. split; [done|]. split; [congruence|]. do 2 (split; [done|]).
  intros x Hx. apply (elem_of_list_to_set (C := gset string)).
  rewrite check_sans_None in *. apply elem_of_app in Hx as [Hx|Hx]; auto.
Qed.
End csr.

(** C5.  Only valid requests are approved.  Whatever calls fail, and whatever other
    actors do besides writing this request and the nodes while it is being looked at, the
    approver performs no write but the approval of an undecided request (one without a
    condition Approved or Denied) of a node whose requested DNS names and IP addresses
    are all addresses the cluster has recorded for that node; the write is the request
    as it was with one condition more.  Decided requests and requests of other users are
    left alone. *)
Theorem csr_approves_only_valid `{X : X509} recorder req (rely_ : cluster → cluster → Prop) s :
  (∀ s s', rely_ s s' → c_csrs s' !! req = c_csrs s !! req ∧ c_nodes s' = c_nodes s) →
  wp (api_spec {| rely := rely_; allowed := approves req; may_panic := False |})
    (csr_Reconcile recorder req) s (λ _ _, True).
Proof. apply wp_csr_Reconcile. Qed.

Section exact.
Context `{X : X509}.

Lemma run_validateAndApprove s csr req :
  c_csrs s !! req = Some csr → meta_key (ksr_meta csr) = req →
  (csr_valid s csr ∧ run mem (validateAndApprove csr) s = Some (None, kput (with_approval csr) s)) ∨
  (¬ csr_valid s csr ∧ ∃ m, run mem (validateAndApprove csr) s = Some (Some m, s)).
Proof.
  intros Hs Hk. unfold validateAndApprove, csr_valid.
  destruct (HasPrefix (ksr_username csr) "system:node:") eqn:Eu; cbn [negb].
  2: { right. split; [|by eexists]. intros (n & _ & _ & _ & _ & Hu & _). rewrite Hu in Eu.
       assert (HasPrefix ("system:node:" +:+ n) "system:node:" = true); [|congruence].
       apply HasPrefix_true. eauto. }
  apply HasPrefix_true in Eu as [n Eu]. rewrite Eu, TrimPrefix_app. cbn -[kput check_sans].
  destruct (c_nodes s !! NN "" n) as [node|] eqn:En; cbn -[kput check_sans].
  2: { right. split; [|by eexists]. intros (n' & node & _ & _ & _ & Hu & Hn & _).
       apply string_app_inj in Hu as <-. congruence. }
  destruct (parseCSRBytes (ksr_request csr)) as [[dns ips]|] eqn:Ep; cbn -[kput check_sans].
  2: { right. split; [|by eexists]. intros (? & ? & der & dns & ips & ? & ? & Hpem & Hparse & _).
       assert (parseCSRBytes (ksr_request csr) = Some (dns, ips)); [|congruence]. apply parseCSRBytes_Some. eauto. }
  set (bad := check_sans "DNS" n (buildNodeAddressSet node) dns).
  set (bad' := check_sans "IP" n (buildNodeAddressSet node) ips).
  assert (bad = None ∧ bad' = None ↔
    ∃ n0 node0 der dns0 ips0, "system:node:" +:+ n = "system:node:" +:+ n0 ∧
      c_nodes s !! NN "" n0 = Some node0 ∧ pem_decode (ksr_request csr) = Some ("CERTIFICATE REQUEST", der) ∧
      ParseCertificateRequest der = Some (dns0, ips0) ∧
      (∀ x, x ∈ dns0 ++ ips0 → x ∈ node_addresses node0)) as Hiff.
  { subst bad bad'. rewrite !check_sans_None. unfold buildNodeAddressSet.
    setoid_rewrite (elem_of_list_to_set (C := gset string)). split.
    - intros [H1 H2]. apply parseCSRBytes_Some in Ep as (der & Hpem & Hparse).
      exists n, node, der, dns, ips. do 4 (split; [done|]). intros x [Hx|Hx]%elem_of_app; auto.
    - intros (n' & node' & der & dns' & ips' & Hu & Hn & Hpem & Hparse & Hx).
      assert (parseCSRBytes (ksr_request csr) = Some (dns', ips')) as Ep' by (apply parseCSRBytes_Some; eauto).
      rewrite Ep in Ep'. injection Ep' as <- <-. apply string_app_inj in Hu as <-.
      rewrite En in Hn. injection Hn as <-. split; intros; apply Hx; set_solver. }
  rewrite <- Hiff. destruct bad; [right; split; [naive_solver|by eexists]|].
  destruct bad'; [right; split; [naive_solver|by eexists]|]. left. split; [done|].
  cbn -[kput]. rewrite Hk, Hs. done.
Qed.
End exact.

(** What the recorder, if there is one, adds. *)
Definition recorded (recorder : bool) (reason : string) (s : cluster) : cluster :=
  if recorder then record_event reason s else s.

Lemma run_csr_Reconcile `{X : X509} recorder s req csr :
  c_csrs s !! req = Some csr → run mem (csr_Reconcile recorder req) s =
  if csrIsPending csr then
    match run mem (validateAndApprove csr) s with
    | Some (Some _, s1) => Some (inl tt, recorded recorder "CSRApprovalSkipped" s1)
    | Some (None, s1) => Some (inl tt, recorded recorder "CSRApproved" s1)
    | None => None
    end
  else Some (inl tt, s).
Proof.
  intros H0. unfold csr_Reconcile. rewrite run_bind. cbn -[kput validateAndApprove csrIsPending record_event]. rewrite H0.
  destruct (csrIsPending csr); cbn -[kput validateAndApprove record_event]; [|done].
  rewrite run_bind. by destruct (run mem (validateAndApprove csr) s) as [[[] ?]|], recorder.
Qed.

(** C4.  Every valid request is approved, exactly.  When the calls succeed, and with or
    without a recorder of events, an undecided request that is valid ends up with the
    approval after its earlier conditions and otherwise as it was, no other request
    changes, and a second reconciliation changes nothing; a request that is not valid
    leaves everything as it was but for the event that it was skipped, also when it is
    looked at again. *)
Theorem csr_approves_exactly_valid `{X : X509} recorder s req csr :
  c_csrs s !! req = Some csr → meta_key (ksr_meta csr) = req →
  (∀ c, c ∈ ksr_conditions csr → cc_type c ≠ "Approved" ∧ cc_type c ≠ "Denied") →
  ∃ s', run mem (csr_Reconcile recorder req) s = Some (inl tt, s') ∧
    (csr_valid s csr ∨ ¬ csr_valid s csr) ∧
    (csr_valid s csr →
       (∃ csr', approved_from csr csr' ∧ c_csrs s' = <[req := csr']> (c_csrs s)) ∧
       run mem (csr_Reconcile recorder req) s' = Some (inl tt, s')) ∧
    (¬ csr_valid s csr →
       s' = (if recorder then record_event "CSRApprovalSkipped" s else s) ∧
       run mem (csr_Reconcile recorder req) s' =
         Some (inl tt, if recorder then record_event "CSRApprovalSkipped" s' else s')).
Proof.
  intros Hs Hk Hu. pose proof (proj2 (csrIsPending_iff csr) Hu) as Hp.
  rewrite (run_csr_Reconcile recorder s req csr Hs), Hp.
  destruct (run_validateAndApprove s csr req Hs Hk) as [[Hv ->]|[Hv [m Hm]]].
  - eexists. split; [done|]. split; [by left|]. split; [|done]. intros _.
    assert (c_csrs (recorded recorder "CSRApproved" (kput (with_approval csr) s)) =
      <[req := with_approval csr]> (c_csrs s)) as Hs' by (destruct recorder; simpl; by rewrite Hk).
    split; [exists (with_approval csr); split; [apply with_approval_from|done]|].
    rewrite (run_csr_Reconcile recorder _ req (with_approval csr)) by (rewrite Hs'; apply lookup_insert_eq).
    assert (csrIsPending (with_approval csr) = false) as ->; [|done].
    apply not_true_iff_false. rewrite csrIsPending_iff. intros Hc.
    destruct (Hc approval) as [[] _]; [|done]. simpl. set_solver.
  - rewrite Hm. eexists. split; [done|]. split; [by right|]. split; [done|]. intros _. split; [done|].
    assert (c_csrs (recorded recorder "CSRApprovalSkipped" s) !! req = Some csr) as Hs' by (by destruct recorder).
    rewrite (run_csr_Reconcile recorder _ req csr Hs'), Hp.
    destruct (run_validateAndApprove _ csr req Hs' Hk) as [[Hv' _]|[_ [m' ->]]]; [|done].
    destruct Hv. by destruct recorder.
Qed.

(** A node and its request. *)
Definition example_csr : CertificateSigningRequest :=
  {| ksr_meta := new_meta "csr-1" "" None None; ksr_username := "system:node:w1";
     ksr_signerName := "kubernetes.io/kubelet-serving";
     ksr_request := String (Ascii.ascii_of_nat 114) (enc (["w1"], ["10.0.0.4"]));
     ksr_conditions := [] |}.

Definition example_csr_cluster : cluster :=
  kput example_csr (kput {| node_meta := new_meta "w1" "" None None;
                            node_addresses := ["10.0.0.4"; "w1"] |} empty_cluster).

Lemma example_csr_valid : csr_valid (X := ref_x509) example_csr_cluster example_csr.
Proof.
  exists "w1", {| node_meta := new_meta "w1" "" None None; node_addresses := ["10.0.0.4"; "w1"] |},
    (enc (["w1"], ["10.0.0.4"])), ["w1"], ["10.0.0.4"].
  do 4 (split; [vm_compute; reflexivity|]). simpl. set_solver.
Qed.

Lemma csr_approves_exactly_valid_witness :
  ∃ s' csr', run mem (csr_Reconcile (X := ref_x509) true (NN "" "csr-1")) example_csr_cluster =
          Some (inl tt, s') ∧ approved_from example_csr csr' ∧ c_csrs s' !! NN "" "csr-1" = Some csr'.
Proof.
  destruct (csr_approves_exactly_valid (X := ref_x509) true example_csr_cluster (NN "" "csr-1") example_csr)
    as (s' & Hr & _ & Hv & _); [vm_compute; reflexivity|reflexivity|by intros c ?%elem_of_nil|].
  destruct (Hv example_csr_valid) as [(csr' & Ha & Hc) _]. exists s', csr'. split; [exact Hr|].
  split; [exact Ha|]. rewrite Hc. apply lookup_insert_eq.
Defined.

Lemma csr_approves_only_valid_witness :
  wp (api_spec (X := ref_x509) {| rely := eq; allowed := approves (X := ref_x509) (NN "" "csr-1"); may_panic := False |})
    (csr_Reconcile (X := ref_x509) true (NN "" "csr-1")) example_csr_cluster (λ _ _, True).
Proof. apply (csr_approves_only_valid (X := ref_x509)). by intros s s' <-. Defined.
