(* ===== verification/Token.v ===== *)
(** * Bootstrap tokens

    [pkg/token/create.go]: a bootstrap token is a Secret of kube-system that the
    API server accepts as a credential until it expires, and a kubeconfig that
    carries it to the worker. *)

From S2P Require Import Prelude Base64 Effects Kube Api Pki World.
From stdpp Require Import options.

(** [time.RFC3339] formatting and [json.Unmarshal] of the endpoint. *)
Class Codec := {
  RFC3339 : Z → string;
  json_unmarshal_endpoint : string → option ControlPlaneExternalEndpointSpec;
}.

Definition NamespaceSystem : string := "kube-system".

Record Token := { tok_ID : string; tok_Secret : string }.

Definition Token_String (t : Token) : string := tok_ID t +:+ "." +:+ tok_Secret t.

Section token.
Context `{X : X509} `{C : Codec}.

Definition randomHex (n : nat) : prog op (string + string) := trigger (RandomHex n).

Definition Generate : prog op (Token + string) :=
  let! id := randomHex 3 in
  match id with
  | inr e => Ret (inr ("failed to generate token id: " +:+ e))
  | inl id =>
      let! secret := randomHex 8 in
      match secret with
      | inr e => Ret (inr ("failed to generate token secret: " +:+ e))
      | inl secret => Ret (inl {| tok_ID := id; tok_Secret := secret |})
      end
  end.

Definition token_secret_name (id : string) : string := "bootstrap-token-" +:+ id.

Definition NewSecret (now : Z) (t : Token) (expiry : Z) : Secret :=
  {| sec_meta := new_meta (token_secret_name (tok_ID t)) NamespaceSystem (Some ∅) None;
     sec_type := "bootstrap.kubernetes.io/token";
     sec_data := None;
     sec_stringData := Some {[
       "token-id" := tok_ID t;
       "token-secret" := tok_Secret t;
       "expiration" := RFC3339 (now + expiry)%Z;
       "usage-bootstrap-authentication" := "true";
       "usage-bootstrap-signing" := "true";
       "auth-extra-groups" := "system:bootstrappers:worker" ]} |}.

Definition bootstrap_kubeconfig (t : Token) (caData apiServerAddress : string) : KubeConfig :=
  {| kc_clusters := {[ "bootstrap" := {| kcl_server := apiServerAddress; kcl_caData := caData |} ]};
     kc_authInfos := {[ "tls-bootstrap-token-user" :=
       {| ka_certData := ""; ka_keyData := ""; ka_token := Token_String t |} ]};
     kc_contexts := {[ "bootstrap" :=
       {| kx_cluster := "bootstrap"; kx_authInfo := "tls-bootstrap-token-user" |} ]};
     kc_currentContext := "bootstrap" |}.

Definition buildBootstrapKubeconfig (t : Token) (caData apiServerAddress : string)
    : option string := WriteKubeconfig (bootstrap_kubeconfig t caData apiServerAddress).

(** [for k, v := range labels]: assignments to the non-nil map of [NewSecret]. *)
Definition with_token_labels (s : Secret) (labels : gmap string string) : Secret :=
  {| sec_meta := {| om_name := om_name (sec_meta s); om_namespace := om_namespace (sec_meta s);
       om_uid := om_uid (sec_meta s); om_generation := om_generation (sec_meta s);
       om_labels := Some (labels ∪ entries (om_labels (sec_meta s)));
       om_annotations := om_annotations (sec_meta s); om_owners := om_owners (sec_meta s);
       om_finalizers := om_finalizers (sec_meta s); om_deletion := om_deletion (sec_meta s) |};
     sec_type := sec_type s; sec_data := sec_data s; sec_stringData := sec_stringData s |}.

Definition IssueBootstrapToken (caData apiServerAddress : string) (expiry : Z)
    (labels : gmap string string) : prog op ((Token * string) + string) :=
  let! g := Generate in
  match g with
  | inr e => Ret (inr e)
  | inl t =>
      let! now := trigger Now in
      let! c := create (with_token_labels (NewSecret now t expiry) labels) in
      match c with
      | inr _ => Ret (inr "failed to create bootstrap token secret")
      | inl _ =>
          match buildBootstrapKubeconfig t caData apiServerAddress with
          | None => Ret (inr "failed to build bootstrap kubeconfig")
          | Some kubeconfig => Ret (inl (t, kubeconfig))
          end
      end
  end.

Definition endpoint_url (e : ComponentEndpoint) : string :=
  "https://" +:+ ce_host e +:+ ":" +:+ FormatInt (ce_port e).

Definition ReadAPIServerAddressFromNodeProfileConfigMap : prog op (string + string) :=
  let wrkDefaults := NewWorkerContextWithDefaults in
  let! got := get (O := ConfigMap) (NN NamespaceSystem (WorkerProfileConfigMapName wrkDefaults)) in
  match got with
  | inr _ => Ret (inr "failed to get node profile configmap")
  | inl cm =>
      match mget (cm_data cm) (ControlPlaneEndpointNodeProfileConfigmapKey wrkDefaults) with
      | None => Ret (inr "node profile configmap does not contain api server external address")
      | Some raw =>
          match json_unmarshal_endpoint raw with
          | None => Ret (inr "failed to unmarshal external address")
          | Some ep => Ret (inl (endpoint_url (cpe_apiServer ep)))
          end
      end
  end.

Definition extractClusterInfo (rawConfig : KubeConfig) (contextName : string)
    : (string * string) + string :=
  let activeContext :=
    if bool_decide (contextName = "") then kc_currentContext rawConfig else contextName in
  match kc_contexts rawConfig !! activeContext with
  | None => inr ("context " +:+ activeContext +:+ " not found in kubeconfig")
  | Some ctx =>
      match kc_clusters rawConfig !! kx_cluster ctx with
      | None => inr ("cluster " +:+ kx_cluster ctx +:+ " not found in kubeconfig")
      | Some cluster =>
          if bool_decide (kcl_server cluster = "")
          then inr ("cluster " +:+ kx_cluster ctx +:+ " has no server URL")
          else if bool_decide (kcl_caData cluster = "")
          then inr ("cluster " +:+ kx_cluster ctx +:+ " has no embedded CA data")
          else inl (kcl_server cluster, kcl_caData cluster)
      end
  end.

(** [CreateBootstrapToken] on the kubeconfig [BuildClientConfig] loaded. *)
Definition CreateBootstrapToken (rawConfig : KubeConfig) (contextName : string) (expiry : Z)
    : prog op (string + string) :=
  match extractClusterInfo rawConfig contextName with
  | inr e => Ret (inr e)
  | inl (_, caData) =>
      let! addr := ReadAPIServerAddressFromNodeProfileConfigMap in
      match addr with
      | inr e => Ret (inr ("failed to read external address from node profile configmap: " +:+ e))
      | inl apiServerAddress =>
          let! r := IssueBootstrapToken caData apiServerAddress expiry ∅ in
          match r with
          | inr e => Ret (inr e)
          | inl (_, kubeconfig) => Ret (inl (base64 kubeconfig))
          end
      end
  end.
End token.

(** ** Properties *)

Section facts.
Context `{X : X509} `{C : Codec} (e : env) (Inv : cluster → Prop).
Context (Hrely : ∀ s s', rely e s s' → Inv s → Inv s').

(** The Secret the API server authenticates the token with. *)
Definition token_stored (s : cluster) (t : Token) : Prop :=
  ∃ o, c_secrets s !! NN NamespaceSystem (token_secret_name (tok_ID t)) = Some o ∧
    sec_type o = "bootstrap.kubernetes.io/token" ∧
    mget (sec_data o) "token-id" = Some (tok_ID t) ∧
    mget (sec_data o) "token-secret" = Some (tok_Secret t) ∧
    mget (sec_data o) "usage-bootstrap-authentication" = Some "true".

Lemma admitted_token now t expiry labels o s :
  kadmit (with_token_labels (NewSecret now t expiry) labels) o → token_stored (kput o s) t.
Proof.
  intros ((Hn & Hns & _) & Hty & _ & Hd). exists o. split.
  { simpl. unfold meta_key. rewrite Hn, Hns. apply lookup_insert_eq. }
  split; [done|]. rewrite !Hd. unfold mget, entries; simpl. rewrite (right_id_L ∅ (∪)).
  split; [reflexivity|]. split; reflexivity.
Qed.

Lemma wp_Generate s (Q : Token + string → cluster → Prop) :
  (∀ m, Q (inr m) s) →
  (∀ t, String.length (tok_ID t) = 6 → String.length (tok_Secret t) = 16 → Q (inl t) s) →
  wp (api_spec e) Generate s Q.
Proof.
  intros He Hok. split; [intros m; apply He|]. intros id Hid.
  split; [intros m; apply He|]. intros secret Hsec. by apply Hok.
Qed.

(** What [IssueBootstrapToken] hands to its caller. *)
Lemma wp_IssueBootstrapToken caData addr expiry labels s
    (Q : (Token * string) + string → cluster → Prop) :
  Inv s →
  (∀ s1 now t, Inv s1 → String.length (tok_ID t) = 6 → String.length (tok_Secret t) = 16 →
     allowed e (WCreate kind_Secret (with_token_labels (NewSecret now t expiry) labels)) s1) →
  (∀ m s1, Inv s1 → Q (inr m) s1) →
  (∀ s1 t o now, Inv s1 →
     kadmit (with_token_labels (NewSecret now t expiry) labels) o →
     c_secrets s1 !! NN NamespaceSystem (token_secret_name (tok_ID t)) = None →
     String.length (tok_ID t) = 6 → String.length (tok_Secret t) = 16 →
     ∀ res, match res with
            | inl (t', kc) => t' = t ∧
                WriteKubeconfig (bootstrap_kubeconfig t caData addr) = Some kc
            | inr _ => True
            end → Q res (kput o s1)) →
  wp (api_spec e) (IssueBootstrapToken caData addr expiry labels) s Q.
Proof using Hrely.
  intros Hs Ha He Hok. unfold IssueBootstrapToken. apply wp_bind; [apply _|].
  apply wp_Generate; [intros m; by apply He|]. intros t Hid Hsec. cbv beta iota.
  wp_call e Inv Hrely ltac:(done). set (now := c_now s1). cbv beta.
  wp_call e Inv Hrely ltac:(done).
  - by apply Ha.
  - by apply He.
  - by apply He.
  - cbv beta iota. assert (∀ res, match res with
            | inl (t', kc) => t' = t ∧
                WriteKubeconfig (bootstrap_kubeconfig t caData addr) = Some kc
            | inr _ => True
            end → Q res (kput o' s0)) as HQ.
    { intros res. by apply (Hok s0 t o' now). }
    unfold buildBootstrapKubeconfig. destruct (WriteKubeconfig _); apply wp_ret, HQ; done.
Qed.
End facts.

(** A bootstrap token is usable.  When [IssueBootstrapToken] succeeds, the
    token has an id of 6 and a secret of 16 characters, its Secret is stored in
    kube-system under the name the API server looks for with the same id and
    secret, and the kubeconfig it returns, read back, points its current context
    at the given server and CA with exactly this token; the only write is the
    creation of a Secret in kube-system. *)
Theorem IssueBootstrapToken_usable `{X : X509} `{C : Codec} rely_ caData addr expiry labels s :
  (∀ c raw, WriteKubeconfig c = Some raw → LoadKubeconfig raw = Some c) →
  wp (api_spec {| rely := rely_; may_panic := False;
                  allowed := λ wr _, ∃ o : Secret, wr = WCreate kind_Secret o ∧
                    om_namespace (sec_meta o) = NamespaceSystem |})
     (IssueBootstrapToken caData addr expiry labels) s
     (λ res s', ∀ t kc, res = inl (t, kc) →
        String.length (tok_ID t) = 6 ∧ String.length (tok_Secret t) = 16 ∧
        token_stored s' t ∧
        ∃ cfg ctx u, LoadKubeconfig kc = Some cfg ∧
          kc_contexts cfg !! kc_currentContext cfg = Some ctx ∧
          kc_clusters cfg !! kx_cluster ctx = Some {| kcl_server := addr; kcl_caData := caData |} ∧
          kc_authInfos cfg !! kx_authInfo ctx = Some u ∧ ka_token u = Token_String t).
Proof.
  intros Hload. apply (wp_IssueBootstrapToken _ (λ _, True)); [done|done| |done|].
  { intros. eexists. split; done. }
  intros s1 t o now _ Hadm _ Hid Hsec res Hres t' kc ->. destruct Hres as [-> Hkc].
  do 2 (split; [done|]). split; [by eapply admitted_token|].
  eexists _, _, _. split; [by apply Hload|]. repeat split.
Qed.

Definition ref_codec : Codec := {| RFC3339 := pretty; json_unmarshal_endpoint := λ _, None |}.

Lemma IssueBootstrapToken_usable_witness :
  match run mem (IssueBootstrapToken (X := ref_x509) (C := ref_codec) "CA" "https://h:6443" 3600 ∅)
          empty_cluster with
  | Some (inl (t, kc), s') => String.length (tok_ID t) = 6 ∧ token_stored s' t
  | _ => False
  end.
Proof.
  pose proof (IssueBootstrapToken_usable (X := ref_x509) (C := ref_codec) eq "CA" "https://h:6443"
    3600 ∅ empty_cluster) as Hok.
  assert (∀ c raw, WriteKubeconfig (X509 := ref_x509) c = Some raw →
    LoadKubeconfig (X509 := ref_x509) raw = Some c) as Hl.
  { intros c raw [= <-]. apply dec_enc. }
  specialize (Hok Hl). apply mem_run in Hok; [|by intros s].
  assert (match run mem (IssueBootstrapToken (X := ref_x509) (C := ref_codec) "CA" "https://h:6443"
                           3600 ∅) empty_cluster with
          | Some (inl _, _) => true | _ => false end = true) as E by (vm_compute; reflexivity).
  destruct (run mem _ _) as [[[[t kc]|] s']|]; [|done..].
  destruct (Hok t kc eq_refl) as (H1 & _ & H2 & _). split; [exact H1|exact H2].
Defined.
