(* ===== verification/JoinToken.v ===== *)
(** * Worker join tokens

    [internal/controller/clusteragent/workerjointoken_controller.go]: a
    [WorkerJoinToken] is turned into a bootstrap token and a Secret with the
    kubeconfig a worker joins with; drift of that Secret mints a replacement,
    expiry is recorded, deletion revokes the token.  The resource is
    cluster-scoped (empty namespace); both Secrets live in kube-system. *)

From S2P Require Import Prelude Effects Kube Api Pki World PkiAuth Token.
From stdpp Require Import options.

Definition typeReadyWorkerJoinToken : string := "Ready".
Definition workerJoinTokenFinalizer : string :=
  "clusteragent.tardigrade.runtime.io/worker-join-token".
Definition workerJoinTokenClusterKey : string :=
  "clusteragent.tardigrade.runtime.io/jointoken-ref".

Definition with_wj_meta (jt : WorkerJoinToken) (m : ObjectMeta) : WorkerJoinToken :=
  {| wj_meta := m; wj_ttl := wj_ttl jt; wj_status := wj_status jt |}.
Definition with_wj_status (jt : WorkerJoinToken) (st : WorkerJoinTokenStatus) : WorkerJoinToken :=
  {| wj_meta := wj_meta jt; wj_ttl := wj_ttl jt; wj_status := st |}.

Definition join_secret_name (name : string) : string := name +:+ "-jointoken".

Section jointoken.
Context `{M : Machinery} `{X : X509} `{H : Hashing} `{C : Codec}.
(** The fields [CA] and [Runtime] of the reconciler, whether it has a
    recorder, and the format of the expiry in messages. *)
Context (CA : string) (rt : Runtime) (recorder : bool) (micro : Z → string).

Definition secretChecksum (kubeconfig : string) : string := sha256_hex kubeconfig.

Definition wj_condition (st : ConditionStatus) (reason message : string) : Condition :=
  {| cond_type := typeReadyWorkerJoinToken; cond_status := st; cond_reason := reason;
     cond_message := message; cond_generation := 0 |}.

Definition set_wj_condition (jt : WorkerJoinToken) (c : Condition) : WorkerJoinToken :=
  let st := wj_status jt in
  with_wj_status jt {| wjs_conditions := (SetStatusCondition (wjs_conditions st) c).1;
    wjs_tokenID := wjs_tokenID st; wjs_expiresAt := wjs_expiresAt st;
    wjs_secretRef := wjs_secretRef st; wjs_secretChecksum := wjs_secretChecksum st |}.

Definition setDegraded (jt : WorkerJoinToken) (reason message : string) : prog op (Z + string) :=
  let! _ := update_status (set_wj_condition jt (wj_condition ConditionFalse reason message)) in
  Ret (inr (reason +:+ ": " +:+ message)).

(** "Already gone" is a success. *)
Definition deleteBootstrapTokenSecret (tokenID : string) : prog op (option string) :=
  let! r := delete_obj Secret (NN NamespaceSystem (token_secret_name tokenID)) in
  match r with
  | Some e => if IsNotFound e then Ret None
              else Ret (Some "failed to delete bootstrap token secret")
  | None => Ret None
  end.

Definition secretDrifted (jt : WorkerJoinToken) : prog op (bool + string) :=
  match wjs_secretRef (wj_status jt) with
  | None => Ret (inl true)
  | Some name =>
      let! got := get (O := Secret) (NN NamespaceSystem name) in
      match got with
      | inr e => if IsNotFound e then Ret (inl true) else Ret (inr "get secret")
      | inl secret =>
          Ret (inl (bool_decide (secretChecksum (default "" (mget (sec_data secret) "jointoken")) ≠
                                 wjs_secretChecksum (wj_status jt))))
      end
  end.

(** The mutation given to [CreateOrUpdate]. *)
Definition publish (jt : WorkerJoinToken) (kubeconfig : string) (sec : Secret) : Secret + string :=
  match SetControllerReference (wj_meta jt) (sec_meta sec) with
  | inr e => inr e
  | inl m =>
      inl {| sec_meta := m; sec_type := sec_type sec;
             sec_data := Some (<["jointoken" := kubeconfig]> (entries (sec_data sec)));
             sec_stringData := sec_stringData sec |}
  end.

(** The status after a token was issued. *)
Definition issued_status (jt : WorkerJoinToken) (tok : Token) (secret : Secret) (now : Z)
    : WorkerJoinToken :=
  let expiresAt := (now + wj_ttl jt)%Z in
  set_wj_condition
    (with_wj_status jt {| wjs_conditions := wjs_conditions (wj_status jt);
       wjs_tokenID := tok_ID tok; wjs_expiresAt := Some expiresAt;
       wjs_secretRef := Some (join_secret_name (om_name (wj_meta jt)));
       wjs_secretChecksum :=
         secretChecksum (default "" (mget (sec_data secret) "jointoken")) |})
    (wj_condition ConditionTrue "TokenIssued"
       ("bootstrap token issued, expires at " +:+ micro expiresAt)).

Definition mint (jt : WorkerJoinToken) : prog op (Z + string) :=
  let previousTokenID := wjs_tokenID (wj_status jt) in
  let! issue := IssueBootstrapToken CA (endpoint_url (cpe_apiServer (cl_endpoint (rt_cluster rt))))
                  (wj_ttl jt) {[ workerJoinTokenClusterKey := om_name (wj_meta jt) ]} in
  match issue with
  | inr e => setDegraded jt "TokenIssuanceFailed" ("failed to mint bootstrap token: " +:+ e)
  | inl (tok, kubeconfigBytes) =>
      let secretName := join_secret_name (om_name (wj_meta jt)) in
      let! w := trigger (CreateOrUpdate (NN NamespaceSystem secretName)
                           (publish jt kubeconfigBytes)) in
      match w with
      | inr _ => setDegraded jt "SecretWriteFailed" ("failed to write join token secret " +:+ secretName)
      | inl joinSecret =>
          (* a failed revocation of the previous token is only logged *)
          let! _ := (if bool_decide (previousTokenID = "") then Ret None
                     else deleteBootstrapTokenSecret previousTokenID) in
          let! now := trigger Now in
          let! u := update_status (issued_status jt tok joinSecret now) in
          match u with
          | inr _ => Ret (inr "failed to update status after minting token")
          | inl _ =>
              let! _ := (if recorder then event "TokenIssued" else Ret tt) in
              Ret (inl (now + wj_ttl jt - now)%Z)
          end
      end
  end.

Definition markExpired (jt : WorkerJoinToken) : prog op (Z + string) :=
  if match FindStatusCondition (wjs_conditions (wj_status jt)) typeReadyWorkerJoinToken with
     | Some c => bool_decide (cond_status c = ConditionFalse) && bool_decide (cond_reason c = "Expired")
     | None => false
     end
  then Ret (inl 0%Z)
  else
    let! u := update_status (set_wj_condition jt (wj_condition ConditionFalse "Expired"
      "token has expired; ttl is immutable, so delete and recreate this object to mint a new one")) in
    match u with
    | inr _ => Ret (inr "update status")
    | inl _ => Ret (inl 0%Z)
    end.

Definition reconcileDelete (jt : WorkerJoinToken) : prog op (Z + string) :=
  if negb (ContainsFinalizer (wj_meta jt) workerJoinTokenFinalizer) then Ret (inl 0%Z)
  else
    (* a failed revocation is only logged *)
    let! _ := (if bool_decide (wjs_tokenID (wj_status jt) = "") then Ret None
               else deleteBootstrapTokenSecret (wjs_tokenID (wj_status jt))) in
    let! u := update (with_wj_meta jt (RemoveFinalizer (wj_meta jt) workerJoinTokenFinalizer)) in
    match u with
    | inr _ => Ret (inr "failed to remove finalizer")
    | inl _ => Ret (inl 0%Z)
    end.

(** The result is [RequeueAfter] (0 when unset). *)
Definition token_Reconcile (req : NamespacedName) : prog op (Z + string) :=
  let! got := get (O := WorkerJoinToken) req in
  match got with
  | inr e => if IsNotFound e then Ret (inl 0%Z) else Ret (inr "get")
  | inl jt =>
      if bool_decide (is_Some (om_deletion (wj_meta jt))) then reconcileDelete jt
      else if negb (ContainsFinalizer (wj_meta jt) workerJoinTokenFinalizer) then
        let! u := update (with_wj_meta jt (AddFinalizer (wj_meta jt) workerJoinTokenFinalizer)) in
        match u with
        | inr _ => Ret (inr "failed to add finalizer")
        | inl _ => Ret (inl 0%Z)
        end
      else
        let! drifted :=
          (match wjs_expiresAt (wj_status jt) with
           | None => Ret (inl true)
           | Some _ => secretDrifted jt
           end) in
        match drifted with
        | inr e => Ret (inr e)
        | inl true => mint jt
        | inl false =>
            let! now := trigger Now in
            match wjs_expiresAt (wj_status jt) with
            | None => panic
            | Some expiresAt =>
                if bool_decide (now < expiresAt)%Z then Ret (inl (expiresAt - now)%Z)
                else markExpired jt
            end
        end
  end.
End jointoken.

(** ** Properties *)

(** The Secret of a bootstrap token and the Secret that publishes it never
    share a name. *)
Lemma token_name_ne id name :
  String.length id = 6 → token_secret_name id ≠ join_secret_name name.
Proof.
  intros Hl E. unfold token_secret_name, join_secret_name in E.
  pose proof (f_equal String.length E) as El. rewrite !string_length_app, Hl in El. simpl in El.
  do 12 (destruct name as [|? name]; [simpl in El; lia|]).
  destruct name as [|? name]; [|simpl in El; lia].
  rewrite !string_app_cons in E. simplify_eq.
Qed.

Section mint.
Context `{M : Machinery} `{L : !MachineryLaws} `{X : X509} `{H : Hashing} `{C : Codec}.
Context (CA : string) (rt : Runtime) (recorder : bool) (micro : Z → string).

(** A token is published: the resource records the id, the expiry and the
    Secret with the checksum of its contents; the Secret holds a kubeconfig of
    this token, and the API server knows the token. *)
Definition published (s : cluster) (req : NamespacedName) (t : Token) (expiresAt : Z) : Prop :=
  ∃ jt sec kc,
    c_tokens s !! req = Some jt ∧
    wjs_tokenID (wj_status jt) = tok_ID t ∧
    wjs_expiresAt (wj_status jt) = Some expiresAt ∧
    wjs_secretRef (wj_status jt) = Some (join_secret_name (nn_name req)) ∧
    c_secrets s !! NN NamespaceSystem (join_secret_name (nn_name req)) = Some sec ∧
    mget (sec_data sec) "jointoken" = Some kc ∧
    wjs_secretChecksum (wj_status jt) = sha256_hex kc ∧
    WriteKubeconfig (bootstrap_kubeconfig t CA
      (endpoint_url (cpe_apiServer (cl_endpoint (rt_cluster rt))))) = Some kc.

(** What the controller relies on: the resource is stored under its key with
    the controller's finalizer, its recorded token id is empty or one it
    issued, and a Secret that already publishes a token is not on its way
    out. *)
Record mintable (s : cluster) (req : NamespacedName) (jt : WorkerJoinToken) : Prop := {
  mt_stored : c_tokens s !! req = Some jt;
  mt_key : meta_key (wj_meta jt) = req;
  mt_previous : wjs_tokenID (wj_status jt) = "" ∨ String.length (wjs_tokenID (wj_status jt)) = 6;
  mt_secret old :
    c_secrets s !! NN NamespaceSystem (join_secret_name (nn_name req)) = Some old →
    meta_key (sec_meta old) = NN NamespaceSystem (join_secret_name (nn_name req)) ∧
    om_deletion (sec_meta old) = None ∧ sec_stringData old = None;
}.

Definition calm : env := {| rely := eq; allowed := λ _ _, True; may_panic := False |}.

Lemma calm_rely s0 s s' : rely calm s s' → s = s0 → s' = s0.
Proof. by intros ->. Qed.

Ltac next s0 :=
  wp_call calm (λ s', s' = s0) (calm_rely s0) ltac:(done);
  repeat match goal with H : ?a = s0 |- _ => is_var a; subst a end.

Lemma wp_setDegraded_err jt reason m s (Q : Z + string → cluster → Prop) :
  (∀ m s', Q (inr m) s') → wp (api_spec calm) (setDegraded jt reason m) s Q.
Proof. intros HQ. unfold setDegraded. next s; try done; apply HQ. Qed.

(** Revocation touches one key. *)
Lemma wp_delete_token id s (Q : option string → cluster → Prop) :
  (∀ r s', (∀ n, n ≠ NN NamespaceSystem (token_secret_name id) →
              c_secrets s' !! n = c_secrets s !! n) →
           c_tokens s' = c_tokens s → c_now s' = c_now s → Q r s') →
  wp (api_spec calm) (deleteBootstrapTokenSecret id) s Q.
Proof.
  intros HQ. unfold deleteBootstrapTokenSecret. next s; subst; try done; try (by apply HQ);
    cbv beta iota; apply HQ; try done; intros n Hn; simpl.
  - by rewrite lookup_delete_ne.
  - rewrite lookup_insert_ne; [done|]. simpl in *. congruence.
Qed.

(** The published Secret as the server stores it. *)
Lemma publish_stored jt kc old o o' n :
  publish jt kc old = inl o → kadmit o o' → meta_key (sec_meta old) = n →
  om_deletion (sec_meta old) = None → sec_stringData old = None →
  meta_key (sec_meta o') = n ∧ gone (sec_meta o') = false ∧
  mget (sec_data o') "jointoken" = Some kc.
Proof using L.
  unfold publish. intros Hp (Hm & _ & _ & Hd) Hk Hdel Hsd.
  destruct (SetControllerReference _ _) as [m|] eqn:E; simplify_eq/=.
  apply scr_frame in E as (E1 & E2 & _ & _ & _ & _ & E3).
  destruct Hm as (M1 & M2 & _ & _ & _ & _ & M3). simpl in *.
  split; [unfold meta_key; congruence|]. split.
  - unfold gone. rewrite M3, E3, Hdel, bool_decide_false; [done|]. by intros [].
  - rewrite Hd, Hsd. unfold mget, entries; simpl. by rewrite (left_id_L ∅ (∪)), lookup_insert_eq.
Qed.

Definition join_key (req : NamespacedName) : NamespacedName :=
  NN NamespaceSystem (join_secret_name (nn_name req)).

(** The end of [mint]: revocation, then the status. *)
Lemma wp_mint_finish req jt t kc sec s0 s (Q : Z + string → cluster → Prop) :
  mintable s0 req jt → String.length (tok_ID t) = 6 →
  c_tokens s = c_tokens s0 → c_now s = c_now s0 → c_secrets s !! join_key req = Some sec →
  mget (sec_data sec) "jointoken" = Some kc →
  WriteKubeconfig (bootstrap_kubeconfig t CA
    (endpoint_url (cpe_apiServer (cl_endpoint (rt_cluster rt))))) = Some kc →
  (wjs_tokenID (wj_status jt) ≠ tok_ID t → token_stored s t) →
  (∀ m s', Q (inr m) s') →
  (∀ s', published s' req t (c_now s0 + wj_ttl jt) →
     (wjs_tokenID (wj_status jt) ≠ tok_ID t → token_stored s' t) →
     Q (inl (c_now s0 + wj_ttl jt - c_now s0)%Z) s') →
  wp (api_spec calm)
    (let! _ := (if bool_decide (wjs_tokenID (wj_status jt) = "") then Ret None
                else deleteBootstrapTokenSecret (wjs_tokenID (wj_status jt))) in
     let! now := trigger Now in
     let! u := update_status (issued_status micro jt t sec now) in
     match u with
     | inr _ => Ret (inr "failed to update status after minting token")
     | inl _ =>
         let! _ := (if recorder then event "TokenIssued" else Ret tt) in
         Ret (inl (now + wj_ttl jt - now)%Z)
     end) s Q.
Proof using L.
  intros [Hst Hk Hprev _] Hid Ht Hnow Hsec Hkc Hw Htok He Hok.
  eapply (wp_seq _ _ _ _ (λ _ s1, c_tokens s1 = c_tokens s0 ∧ c_now s1 = c_now s0 ∧
    c_secrets s1 !! join_key req = Some sec ∧
    (wjs_tokenID (wj_status jt) ≠ tok_ID t → token_stored s1 t))).
  - case_bool_decide as Ep; [done|]. destruct Hprev as [|Hprev]; [done|].
    apply wp_delete_token. intros _ s1 Hs1 Ht1 Hn1.
    split; [congruence|]. split; [congruence|]. split.
    + rewrite Hs1; [done|]. intros [= E]. by apply (token_name_ne _ (nn_name req)) in Hprev.
    + intros Hne. destruct (Htok Hne) as (o & Ho & Hrest). exists o. split; [|done].
      rewrite Hs1; [done|]. intros E%(f_equal nn_name). cbn [nn_name] in E.
      unfold token_secret_name in E. apply string_app_inj in E. congruence.
  - intros _ s1 (Ht1 & Hn1 & Hs1 & Htok1). next s1. next s1; [exact I|apply He..|].
    simpl in *. rewrite Hk, Ht1, Hst in Ho. injection Ho as <-.
    assert (∀ s', c_tokens s' = <[req := issued_status micro jt t sec (c_now s1)]> (c_tokens s1) →
      c_secrets s' = c_secrets s1 → Q (inl (c_now s1 + wj_ttl jt - c_now s1)%Z) s') as HQ.
    { intros s' Ets Ess. rewrite Hn1. apply Hok.
      - exists (issued_status micro jt t sec (c_now s1)), sec, kc.
        split; [rewrite Ets; apply lookup_insert_eq|]. split; [done|].
        split; [simpl; by rewrite Hn1|]. split; [simpl; by rewrite <- Hk|].
        split; [by rewrite Ess|]. split; [done|]. split; [|done].
        simpl. unfold secretChecksum. by rewrite Hkc.
      - intros Hne. destruct (Htok1 Hne) as (o & ? & ?). exists o. by rewrite Ess. }
    rewrite <- Hk in HQ. destruct recorder; apply HQ; try done.
Qed.

Lemma wp_mint req jt s (Q : Z + string → cluster → Prop) :
  mintable s req jt →
  (∀ m s', Q (inr m) s') →
  (∀ s' t, String.length (tok_ID t) = 6 → published s' req t (c_now s + wj_ttl jt) →
     (wjs_tokenID (wj_status jt) ≠ tok_ID t → token_stored s' t) →
     Q (inl (c_now s + wj_ttl jt - c_now s)%Z) s') →
  wp (api_spec calm) (mint CA rt recorder micro jt) s Q.
Proof using L.
  intros Hm He Hok. unfold mint. apply wp_bind; [apply _|].
  apply (wp_IssueBootstrapToken calm (λ s', s' = s) (calm_rely s)); [done|done| |].
  { intros m s1 _. cbv beta iota. by apply wp_setDegraded_err. }
  intros s1 t o now -> Ha Hnone Hid _ [[t' kc]|m] Hres; cbv beta iota; [|by apply wp_setDegraded_err].
  destruct Hres as [-> Hw].
  assert (join_secret_name (om_name (wj_meta jt)) = join_secret_name (nn_name req)) as ->.
  { by rewrite <- (mt_key _ _ _ Hm). }
  fold (join_key req). set (s1 := kput o s).
  assert (c_secrets s1 !! join_key req = c_secrets s !! join_key req) as Hj.
  { simpl. rewrite lookup_insert_ne; [done|]. destruct Ha as ((Hn & Hns & _) & _).
    unfold meta_key. rewrite Hn, Hns. intros E%(f_equal nn_name). cbn in E.
    by eapply token_name_ne. }
  assert (token_stored s1 t) as Htok by (by eapply admitted_token).
  assert (∀ sec s2, c_tokens s2 = c_tokens s → c_now s2 = c_now s →
    c_secrets s2 = <[join_key req := sec]> (c_secrets s1) → token_stored s2 t) as Hkeep.
  { intros sec s2 _ _ E. destruct Htok as (o1 & Ho1 & Hrest). exists o1. split; [|done].
    rewrite E, lookup_insert_ne; [done|]. intros E'%(f_equal nn_name). cbn in E'.
    symmetry in E'. by eapply token_name_ne. }
  apply (wp_create_or_update calm (λ s', s' = s1) (calm_rely s1)); [done|..].
  - intros ? m ->. by apply wp_setDegraded_err.
  - intros ? sec -> Hn Hp. split; [done|]. intros sec' Ha'.
    destruct (publish_stored _ _ _ _ _ (join_key req) Hp Ha') as (Hk & _ & Hkc); [done..|].
    eapply (wp_mint_finish req jt t kc sec' s); eauto; simpl; rewrite ?Hk; [apply lookup_insert_eq|].
    intros _. by eapply (Hkeep sec'); simpl; rewrite ?Hk.
  - intros ? old -> Ho Hp. rewrite Hj in Ho. destruct (mt_secret _ _ _ Hm _ Ho) as (Hk & Hd & Hsd).
    assert (mget (sec_data old) "jointoken" = Some kc) as Hkc.
    { unfold publish in Hp. destruct (SetControllerReference _ _); [|done]. simplify_eq/=.
      rewrite <- Hp at 1. unfold mget, entries; simpl. by rewrite lookup_insert_eq. }
    eapply (wp_mint_finish req jt t kc old s); eauto. by rewrite Hj.
  - intros ? old sec -> Ho Hp _. split; [done|]. intros sec' Ha'. rewrite Hj in Ho.
    destruct (mt_secret _ _ _ Hm _ Ho) as (Hk & Hd & Hsd).
    destruct (publish_stored _ _ _ _ _ (join_key req) Hp Ha') as (Hk' & -> & Hkc); [done..|].
    eapply (wp_mint_finish req jt t kc sec' s); eauto; simpl; rewrite ?Hk'; [apply lookup_insert_eq|].
    intros _. by eapply (Hkeep sec'); simpl; rewrite ?Hk'.
Qed.
End mint.

(** C15.  Minting publishes.  When [mint] reports success (and nobody interferes
    meanwhile), the resource records a token, its expiry one TTL from now and
    the checksum of the published Secret; that Secret holds a kubeconfig of this
    very token; the API server knows the token (unless the random id repeats the
    previous one, which is revoked); and the next visit is scheduled for the
    expiry. *)
Theorem mint_publishes `{M : Machinery} `{L : !MachineryLaws} `{X : X509} `{H : Hashing} `{C : Codec}
    CA rt recorder micro req jt s :
  mintable s req jt →
  wp (api_spec {| rely := eq; allowed := λ _ _, True; may_panic := False |})
    (mint CA rt recorder micro jt) s
    (λ res s', ∀ after, res = inl after → after = wj_ttl jt ∧
       ∃ t, String.length (tok_ID t) = 6 ∧ published CA rt s' req t (c_now s + wj_ttl jt) ∧
         (wjs_tokenID (wj_status jt) ≠ tok_ID t → token_stored s' t)).
Proof.
  intros Hm. apply (wp_mint CA rt recorder micro req jt s); [done|done|].
  intros s' t Hid Hp Ht after [= <-]. split; [lia|]. eauto.
Qed.

(** A published token is left alone.  Until its expiry, reconciling a
    resource whose token is published writes nothing and, unless a read fails,
    asks to be called again exactly at the expiry: no token is minted twice. *)
Theorem published_token_stable `{M : Machinery} `{L : !MachineryLaws} `{X : X509} `{H : Hashing}
    `{C : Codec} CA rt recorder micro req jt t expiresAt s :
  published CA rt s req t expiresAt → c_tokens s !! req = Some jt →
  om_deletion (wj_meta jt) = None → workerJoinTokenFinalizer ∈ om_finalizers (wj_meta jt) →
  (c_now s < expiresAt)%Z →
  wp (api_spec {| rely := eq; allowed := λ _ _, False; may_panic := False |})
    (token_Reconcile CA rt recorder micro req) s
    (λ res s', s' = s ∧ ∀ after, res = inl after → after = (expiresAt - c_now s)%Z).
Proof.
  intros (jt' & sec & kc & Hj & _ & He & Href & Hsec & Hkc & Hsum & _) Hjt Hd Hf Hnow.
  rewrite Hjt in Hj. injection Hj as <-. unfold token_Reconcile, secretDrifted.
  set (e := {| rely := _ |}).
  assert (∀ s0 s s', rely e s s' → s = s0 → s' = s0) as Hr by (by intros ??? <-).
  wp_call e (λ s', s' = s) (Hr s) ltac:(done); subst; [done|simpl in Hn; congruence|].
  simpl in Ho. rewrite Hjt in Ho. injection Ho as <-. cbv beta iota.
  rewrite Hd, bool_decide_false by (by intros []).
  rewrite contains_finalizer, bool_decide_true by done. cbn [negb]. rewrite He, Href.
  apply wp_bind; [apply _|].
  wp_call e (λ s', s' = s) (Hr s) ltac:(done); subst; [done|simpl in Hn; congruence|].
  simpl in Ho. rewrite Hsec in Ho. injection Ho as <-. cbv beta iota. apply wp_ret.
  rewrite Hkc. change (default "" (Some kc)) with kc. unfold secretChecksum. rewrite <- Hsum, bool_decide_false by tauto.
  wp_call e (λ s', s' = s) (Hr s) ltac:(done). subst. cbv beta iota.
  rewrite bool_decide_true by done. apply wp_ret. split; [done|]. by intros ? [= <-].
Qed.

(** C14.  Deleting the resource revokes the token.  When the calls succeed,
    reconciling a [WorkerJoinToken] that is being deleted (and that only this
    controller holds back) removes the Secret of its current bootstrap token
    and then the resource. *)
Theorem deleted_token_revoked `{M : Machinery} `{L : !MachineryLaws} `{X : X509} `{H : Hashing}
    `{C : Codec} CA rt recorder micro req jt s :
  let key := NN NamespaceSystem (token_secret_name (wjs_tokenID (wj_status jt))) in
  c_tokens s !! req = Some jt → meta_key (wj_meta jt) = req →
  is_Some (om_deletion (wj_meta jt)) → om_finalizers (wj_meta jt) = [workerJoinTokenFinalizer] →
  wjs_tokenID (wj_status jt) ≠ "" →
  (∀ o, c_secrets s !! key = Some o → om_finalizers (sec_meta o) = []) →
  ∃ s', run mem (token_Reconcile CA rt recorder micro req) s = Some (inl 0%Z, s') ∧
    c_tokens s' !! req = None ∧ c_secrets s' !! key = None ∧
    (∀ k, k ≠ key → c_secrets s' !! k = c_secrets s !! k).
Proof.
  intros key Hs Hk Hd Hf Hid Hsec. unfold token_Reconcile, reconcileDelete.
  cbn -[kput kdel deleteBootstrapTokenSecret mint]. rewrite Hs. cbn -[kput kdel deleteBootstrapTokenSecret mint].
  rewrite bool_decide_true by done.
  rewrite contains_finalizer, Hf, bool_decide_true by set_solver. cbn [negb].
  rewrite bool_decide_false by done. rewrite remove_finalizer, Hf.
  assert (filter (λ g, g ≠ workerJoinTokenFinalizer) [workerJoinTokenFinalizer] = []) as -> by done.
  set (jt' := with_wj_meta jt _).
  assert (∀ s0, c_tokens s0 = c_tokens s → run mem (let! u := update jt' in
      match u with inr _ => Ret (inr "failed to remove finalizer") | inl _ => Ret (inl 0%Z) end) s0 =
      Some (inl 0%Z, kdel WorkerJoinToken req s0)) as Hupd.
  { intros s0 E. cbn -[kput kdel gone meta_key jt']. change (meta_key (wj_meta jt')) with (meta_key (wj_meta jt)).
    rewrite E, Hk, Hs. cbn -[kput kdel gone meta_key jt'].
    assert (gone (wj_meta jt') = true) as ->; [|done].
    unfold gone. simpl. by rewrite (bool_decide_true (is_Some _)). }
  assert (run mem (deleteBootstrapTokenSecret (wjs_tokenID (wj_status jt))) s =
    Some (None, match c_secrets s !! key with Some _ => kdel Secret key s | None => s end)) as Hdel.
  { unfold deleteBootstrapTokenSecret. cbn -[kdel]. fold key.
    destruct (c_secrets s !! key) as [o|] eqn:Eo; cbn -[kdel]; [|done].
    by rewrite (Hsec o eq_refl), bool_decide_true. }
  rewrite run_bind, Hdel. destruct (c_secrets s !! key) as [o|] eqn:Eo.
  - eexists. split; [by apply Hupd|]. simpl.
    split; [apply lookup_delete_eq|]. split; [apply lookup_delete_eq|].
    intros k Hne. by rewrite lookup_delete_ne.
  - eexists. split; [by apply Hupd|]. simpl. split; [apply lookup_delete_eq|]. done.
Qed.

(** ** Witnesses *)

Definition example_token_meta (deletion : option Z) : ObjectMeta :=
  {| om_name := "join"; om_namespace := ""; om_uid := "uid-7"; om_generation := 1;
     om_labels := None; om_annotations := None; om_owners := [];
     om_finalizers := [workerJoinTokenFinalizer]; om_deletion := deletion |}.

Definition example_join (deletion expiresAt : option Z) (id : string) : WorkerJoinToken :=
  {| wj_meta := example_token_meta deletion; wj_ttl := 10800;
     wj_status := {| wjs_conditions := []; wjs_tokenID := id; wjs_expiresAt := expiresAt;
       wjs_secretRef := None; wjs_secretChecksum := "" |} |}.

Definition join_req : NamespacedName := NN "" "join".

Definition example_token_Reconcile : prog op (Z + string) :=
  token_Reconcile (M := ref_machinery) (X := ref_x509) (H := ref_hashing) (C := ref_codec)
    "CA" example_runtime false pretty join_req.

Lemma example_mintable :
  mintable (kput (example_join None None "") empty_cluster) join_req (example_join None None "").
Proof.
  split; [reflexivity|reflexivity|by left|]. intros old. simpl. by rewrite lookup_empty.
Qed.

Lemma mint_publishes_witness :
  match run mem (mint (M := ref_machinery) (X := ref_x509) (H := ref_hashing) (C := ref_codec)
                   "CA" example_runtime false pretty (example_join None None ""))
          (kput (example_join None None "") empty_cluster) with
  | Some (inl after, s') => after = 10800%Z ∧
      ∃ t, published (X := ref_x509) (H := ref_hashing) "CA" example_runtime s' join_req t 10800
  | _ => False
  end.
Proof.
  pose proof (mint_publishes (M := ref_machinery) (L := ref_machinery_laws) (X := ref_x509)
    (H := ref_hashing) (C := ref_codec) "CA" example_runtime false pretty join_req
    (example_join None None "") (kput (example_join None None "") empty_cluster) example_mintable) as Hm.
  apply mem_run in Hm; [|by intros s].
  assert (match run mem (mint (M := ref_machinery) (X := ref_x509) (H := ref_hashing) (C := ref_codec)
                   "CA" example_runtime false pretty (example_join None None ""))
          (kput (example_join None None "") empty_cluster) with
          | Some (inl _, _) => true | _ => false end = true) as E by (vm_compute; reflexivity).
  destruct (run mem _ _) as [[[after|] s']|]; [|done..].
  destruct (Hm after eq_refl) as (H1 & t & _ & H2 & _). split; [exact H1|]. exists t. exact H2.
Defined.

(** A cluster in which a token is published. *)
Definition example_published : cluster :=
  default empty_cluster (snd <$> run mem example_token_Reconcile
                                   (kput (example_join None None "") empty_cluster)).

Lemma published_token_stable_witness :
  wp (api_spec (X := ref_x509) {| rely := eq; allowed := λ _ _, False; may_panic := False |})
    example_token_Reconcile example_published (λ res s', s' = example_published).
Proof.
  assert (∃ jt t, c_tokens example_published !! join_req = Some jt ∧
    om_deletion (wj_meta jt) = None ∧ workerJoinTokenFinalizer ∈ om_finalizers (wj_meta jt) ∧
    published (X := ref_x509) (H := ref_hashing) "CA" example_runtime example_published
      join_req t 10800) as (jt & t & Hj & Hd & Hf & Hp).
  { eexists _, {| tok_ID := "5a5a5a"; tok_Secret := "5a5a5a5a5a5a5a5a" |}.
    split; [vm_compute; reflexivity|]. split; [reflexivity|]. split; [vm_compute; set_solver|].
    eexists _, _, _. repeat (split; [vm_compute; reflexivity|]). vm_compute. reflexivity. }
  eapply wp_mono; [apply api_spec_mono|apply (published_token_stable (M := ref_machinery)
    (L := ref_machinery_laws) (X := ref_x509) (H := ref_hashing) (C := ref_codec) "CA" example_runtime
    false pretty join_req jt t 10800 example_published Hp Hj Hd Hf)|].
  - vm_compute. reflexivity.
  - intros res s' [-> _]. reflexivity.
Defined.

Lemma deleted_token_revoked_witness :
  let jt := example_join (Some 5%Z) (Some 10800%Z) "5a5a5a" in
  let s := kput jt (kput (NewSecret (C := ref_codec) 0
             {| tok_ID := "5a5a5a"; tok_Secret := "x" |} 10800) empty_cluster) in
  ∃ s', run mem example_token_Reconcile s = Some (inl 0%Z, s') ∧
    c_tokens s' !! join_req = None ∧
    c_secrets s' !! NN "kube-system" "bootstrap-token-5a5a5a" = None.
Proof.
  intros jt s.
  destruct (deleted_token_revoked (M := ref_machinery) (L := ref_machinery_laws) (X := ref_x509)
    (H := ref_hashing) (C := ref_codec) "CA" example_runtime false pretty join_req jt s)
    as (s' & H1 & H2 & H3 & _); try reflexivity; [by eexists|discriminate| |].
  - intros o. vm_compute. by intros [= <-].
  - exists s'. split; [exact H1|]. split; [exact H2|exact H3].
Defined.

(** The token is documented as one-shot, and an expired one is reported as such
    with the advice to recreate the resource; but when the published Secret is
    gone, an expired resource is served a fresh token with a new expiry. *)
Example expired_token_reminted :
  let jt := example_join None (Some 10%Z) "aaaaaa" in
  let s := kput jt {| c_runtimes := ∅; c_secrets := ∅; c_configMaps := ∅; c_services := ∅;
    c_deployments := ∅; c_tokens := ∅; c_charts := ∅; c_jobs := ∅; c_accounts := ∅;
    c_bindings := ∅; c_csrs := ∅; c_nodes := ∅; c_slices := ∅; c_crds := ∅; c_now := 1000; c_events := [] |} in
  match run mem example_token_Reconcile s with
  | Some (inl _, s') =>
      option_map (λ j, wjs_expiresAt (wj_status j)) (c_tokens s' !! join_req) =
        Some (Some 11800%Z)
  | _ => False
  end.
Proof. vm_compute. reflexivity. Qed.
