(* ===== verification/HelmChart.v ===== *)
(** * Helm charts

    [pkg/runtime/helmchart.go] (the Job that runs helm for a [HelmChart]) and
    [internal/controller/clusteragent/helmchart_controller.go] (its lifecycle:
    RBAC, install Job, replacement of a stale Job, teardown Job, finalizer). *)

From S2P Require Import Prelude Base64 Effects Kube Api Pki World Token.
From stdpp Require Import options.

(** ** [time.Duration.String] *)

Section duration.
(** [digits] decimal digits of [v], most significant first. *)
Fixpoint pad_digits (digits : nat) (v : Z) : string :=
  match digits with
  | O => ""
  | S k => pad_digits k (v / 10) +:+ pretty (v `mod` 10)%Z
  end.

Fixpoint trim_zeros (s : string) : string :=
  match s with
  | EmptyString => EmptyString
  | String c s' =>
      match trim_zeros s' with
      | EmptyString => if bool_decide (c = Ascii.ascii_of_nat 48) then "" else String c ""
      | t => String c t
      end
  end.

(** [v / 10^prec] with its fraction, trailing zeros dropped. *)
Definition fmt_frac (prec : nat) (v : Z) : string :=
  let f := trim_zeros (pad_digits prec (v `mod` 10 ^ Z.of_nat prec)%Z) in
  pretty (v / 10 ^ Z.of_nat prec)%Z +:+ (if bool_decide (f = "") then "" else "." +:+ f).

Definition micro_sign : string := String (Ascii.ascii_of_nat 194) (String (Ascii.ascii_of_nat 181) "").

Definition Duration_String (d : Z) : string :=
  let u := Z.abs d in
  let text :=
    if bool_decide (u = 0)%Z then "0s"
    else if bool_decide (u < 1000)%Z then pretty u +:+ "ns"
    else if bool_decide (u < 1000000)%Z then fmt_frac 3 u +:+ micro_sign +:+ "s"
    else if bool_decide (u < 1000000000)%Z then fmt_frac 6 u +:+ "ms"
    else
      let s := fmt_frac 9 (u `mod` 60000000000)%Z +:+ "s" in
      let mins := (u / 60000000000)%Z in
      if bool_decide (mins = 0)%Z then s
      else if bool_decide (mins / 60 = 0)%Z then pretty mins +:+ "m" +:+ s
      else pretty (mins / 60)%Z +:+ "h" +:+ pretty (mins `mod` 60)%Z +:+ "m" +:+ s in
  if bool_decide (d < 0)%Z then "-" +:+ text else text.
End duration.

Example Duration_String_examples :
  Duration_String 600000000000 = "10m0s" ∧ Duration_String 5400000000000 = "1h30m0s" ∧
  Duration_String 1500000000 = "1.5s" ∧ Duration_String 2000000 = "2ms".
Proof. repeat split; vm_compute; reflexivity. Qed.

(** ** The Job *)

Definition helmValuesEnvVar : string := "HELM_VALUES".
Definition helmValuesFile : string := "/tmp/values.yaml".
Definition ObservedGenerationLabel : string :=
  "clusteragent.tardigrade.runtime.io/observed-generation".

Inductive JobOperation := JobOperationInstall | JobOperationTeardown.

#[export] Instance JobOperation_eq_dec : EqDecision JobOperation.
Proof. solve_decision. Defined.

Definition operation_text (o : JobOperation) : string :=
  match o with JobOperationInstall => "install" | JobOperationTeardown => "teardown" end.

Definition JobName (chartName : string) (operation : JobOperation) : string :=
  "helmchart-" +:+ chartName +:+ "-" +:+ operation_text operation.

Definition ServiceAccountName (chartName : string) : string := "helmchart-" +:+ chartName.

Definition GenerateRBAC (hc : HelmChart) : ServiceAccount * ClusterRoleBinding :=
  let name := ServiceAccountName (om_name (hc_meta hc)) in
  ({| sa_meta := new_meta name (om_namespace (hc_meta hc)) None None |},
   {| crb_meta := new_meta name "" None None;
      crb_roleGroup := "rbac.authorization.k8s.io"; crb_roleKind := "ClusterRole";
      crb_roleName := "cluster-admin";
      crb_subjects := [{| sub_kind := "ServiceAccount"; sub_name := name;
                          sub_namespace := om_namespace (hc_meta hc) |}] |}).

Definition opt (b : bool) (l : list string) : list string := if b then l else [].

(** The [--set] flags; the keys are sorted, [order] is the order of the
    [range]. *)
Definition set_flags (order : list string) (values : gmap string string) : list string :=
  k ← Sort order; ["--set"; k +:+ "=" +:+ default "" (values !! k)].

Definition Command (order : list string) (hc : HelmChart) (operation : JobOperation)
    : list (list string) :=
  let chart := hcs_chart (hc_spec hc) in
  let helm := hcs_helm (hc_spec hc) in
  let values := hcs_values (hc_spec hc) in
  let timeout := opt (bool_decide (ho_timeout helm > 0)%Z)
                   ["--timeout"; Duration_String (ho_timeout helm)] in
  match operation with
  | JobOperationTeardown =>
      [["helm"; "uninstall"; om_name (hc_meta hc); "--namespace"; cs_targetNamespace chart] ++ timeout]
  | JobOperationInstall =>
      let chartRef := cs_name chart +:+ "/" +:+ cs_name chart in
      let insecure := opt (ho_insecureSkipTLSVerify helm) ["--insecure-skip-tls-verify"] in
      let upgrade :=
        ["helm"; "upgrade"; om_name (hc_meta hc); chartRef; "--install"; "--namespace";
         cs_targetNamespace chart] ++
        opt (cs_createNamespace chart) ["--create-namespace"] ++
        opt (bool_decide (cs_version chart ≠ "")) ["--version"; cs_version chart] ++
        insecure ++ timeout ++
        opt (ho_atomic helm) ["--atomic"] ++
        set_flags order (vs_set values) ++
        opt (bool_decide (vs_content values ≠ "")) ["--values"; helmValuesFile] in
      let repoAdd := ["helm"; "repo"; "add"; cs_name chart; cs_repo chart] ++ insecure in
      [repoAdd; upgrade]
  end.

Definition quote_char : Ascii.ascii := Ascii.ascii_of_nat 39.
Definition backslash : Ascii.ascii := Ascii.ascii_of_nat 92.

(** [strings.ReplaceAll(arg, "'", `'\''`)]. *)
Fixpoint escape_quotes (s : string) : string :=
  match s with
  | EmptyString => EmptyString
  | String c s' =>
      if bool_decide (c = quote_char)
      then String quote_char (String backslash (String quote_char (String quote_char (escape_quotes s'))))
      else String c (escape_quotes s')
  end.

Definition quoted (arg : string) : string :=
  String quote_char (escape_quotes arg +:+ String quote_char "").

Definition shellJoin (args : list string) : string := Join (quoted <$> args) " ".

Definition containerCommand (decode : string) (steps : list (list string)) : list string :=
  if bool_decide (decode = "") && bool_decide (length steps = 1) then
    default [] (head steps)
  else
    ["sh"; "-c";
     Join (opt (bool_decide (decode ≠ "")) [decode] ++ (shellJoin <$> steps)) " && "].

Definition chart_labels (hc : HelmChart) : gmap string string :=
  {[ "app.kubernetes.io/name" := om_name (hc_meta hc); "app.kubernetes.io/managed-by" := "heir" ]}.

Definition dquote : string := String (Ascii.ascii_of_nat 34) "".
Definition decode_script : string :=
  "echo " +:+ dquote +:+ "$" +:+ helmValuesEnvVar +:+ dquote +:+ " | base64 -d > " +:+ helmValuesFile.

Definition GenerateJob (order : list string) (hc : HelmChart) (operation : JobOperation) : Job :=
  let labels := chart_labels hc in
  let rtm := hcs_runtime (hc_spec hc) in
  let content := vs_content (hcs_values (hc_spec hc)) in
  let withValues := bool_decide (content ≠ "") && negb (bool_decide (operation = JobOperationTeardown)) in
  let env :=
    {| ev_name := "HELM_VERSION"; ev_source := EnvValue (ho_version (hcs_helm (hc_spec hc))) |} ::
    (if withValues then [{| ev_name := helmValuesEnvVar; ev_source := EnvValue (base64 content) |}]
     else []) in
  {| job_meta := new_meta (JobName (om_name (hc_meta hc)) operation) (om_namespace (hc_meta hc))
       (Some (<[ObservedGenerationLabel := FormatInt (om_generation (hc_meta hc))]> labels)) None;
     job_spec := {|
       js_backoffLimit := ho_backOffLimit (hcs_helm (hc_spec hc));
       js_completions := Some 1%Z; js_completionMode := "NonIndexed"; js_parallelism := Some 1%Z;
       js_labels := labels; js_restartPolicy := "Never";
       js_serviceAccountName := ServiceAccountName (om_name (hc_meta hc));
       js_securityContext := ro_securityContext rtm; js_hostNetwork := ro_bootstrap rtm;
       js_tolerations :=
         if ro_bootstrap rtm
         then [{| tol_operator := "Exists"; tol_effect := "NoSchedule" |};
               {| tol_operator := "Exists"; tol_effect := "NoExecute" |}]
         else [];
       js_containers := [{| ct_name := "helm"; ct_image := ro_image rtm;
         ct_command := containerCommand (if withValues then decode_script else "")
                         (Command order hc operation);
         ct_args := []; ct_ports := []; ct_env := env; ct_mounts := []; ct_resources := None |}] |};
     job_conditions := [] |}.

(** ** What a shell makes of the script

    The part of the POSIX shell grammar the script uses: words of quoted
    ('...') and escaped characters, separated by blanks, commands separated by
    [&&].  Any other unquoted character is refused, so a script that is accepted
    contains no expansion, redirection or other operator. *)

Definition blank : Ascii.ascii := Ascii.ascii_of_nat 32.
Definition ampersand : Ascii.ascii := Ascii.ascii_of_nat 38.

Definition end_word (cur : option string) (ws : list string) : list string :=
  match cur with Some w => ws ++ [w] | None => ws end.

Fixpoint sh_lex (s : string) (q : bool) (cur : option string) (ws : list string)
    (cs : list (list string)) : option (list (list string)) :=
  match s with
  | EmptyString => if q then None else Some (cs ++ [end_word cur ws])
  | String c s' =>
      if q then
        if bool_decide (c = quote_char) then sh_lex s' false cur ws cs
        else sh_lex s' true (Some (default "" cur +:+ String c "")) ws cs
      else if bool_decide (c = quote_char) then sh_lex s' true (Some (default "" cur)) ws cs
      else if bool_decide (c = backslash) then
        match s' with
        | EmptyString => None
        | String d s'' => sh_lex s'' false (Some (default "" cur +:+ String d "")) ws cs
        end
      else if bool_decide (c = blank) then sh_lex s' false None (end_word cur ws) cs
      else if bool_decide (c = ampersand) then
        match s' with
        | EmptyString => None
        | String d s'' =>
            if bool_decide (d = ampersand)
            then sh_lex s'' false None [] (cs ++ [end_word cur ws]) else None
        end
      else None
  end.

Definition sh_commands (script : string) : option (list (list string)) :=
  sh_lex script false None [] [].

(** Decide equalities of character constants. *)
Ltac chars :=
  repeat match goal with
  | |- context [bool_decide (?a = ?b :> Ascii.ascii)] =>
      let v := eval vm_compute in (bool_decide (a = b)) in
      lazymatch v with
      | true => change (bool_decide (a = b)) with true
      | false => change (bool_decide (a = b)) with false
      end
  end; cbv iota.

Lemma sh_lex_escaped a rest w ws cs :
  sh_lex (escape_quotes a +:+ String quote_char rest) true (Some w) ws cs =
  sh_lex rest false (Some (w +:+ a)) ws cs.
Proof.
  revert w. induction a as [|c a IH]; intros w.
  { rewrite string_app_nil_r. done. }
  cbn [escape_quotes]. case_bool_decide as E; [subst c|].
  - rewrite !string_app_cons. cbn [sh_lex]. chars.
    rewrite IH. simpl default. by rewrite string_app_assoc.
  - rewrite string_app_cons. cbn [sh_lex]. rewrite bool_decide_false by done.
    rewrite IH. simpl default. by rewrite string_app_assoc.
Qed.

Lemma sh_lex_word a rest ws cs :
  sh_lex (quoted a +:+ rest) false None ws cs = sh_lex rest false (Some a) ws cs.
Proof.
  unfold quoted. rewrite string_app_cons, string_app_assoc, string_app_cons. cbn [sh_lex]. chars.
  rewrite sh_lex_escaped. done.
Qed.

Lemma sh_lex_args args rest ws cs :
  args ≠ [] →
  sh_lex (shellJoin args +:+ rest) false None ws cs =
  sh_lex rest false (list.last args) (ws ++ take (length args - 1) args) cs.
Proof.
  unfold shellJoin. revert ws. induction args as [|a [|b args] IH]; intros ws Hne; [done|..].
  - change (Join (quoted <$> [a]) " ") with (quoted a). rewrite sh_lex_word.
    simpl. by rewrite app_nil_r.
  - change (Join (quoted <$> a :: b :: args) " ") with
      (quoted a +:+ String blank (Join (quoted <$> b :: args) " ")).
    rewrite string_app_assoc, sh_lex_word, string_app_cons. cbn [sh_lex]. chars. cbn [end_word].
    rewrite IH by done. simpl. rewrite Nat.sub_0_r. f_equal. by rewrite <- app_assoc.
Qed.

Lemma end_word_last args :
  args ≠ [] → end_word (list.last args) (take (length args - 1) args) = args.
Proof.
  destruct args as [|x args _] using rev_ind; [done|]. intros _.
  rewrite last_snoc, length_app. simpl. replace (length args + 1 - 1) with (length args) by lia.
  by rewrite take_app_length.
Qed.

Lemma sh_commands_steps steps cs :
  steps ≠ [] → Forall (λ args, args ≠ []) steps →
  sh_lex (Join (shellJoin <$> steps) " && ") false None [] cs = Some (cs ++ steps).
Proof.
  revert cs. induction steps as [|x [|y steps] IH]; intros cs Hne Hall; [done|..].
  - apply Forall_cons in Hall as [Hx _]. simpl. rewrite <- (string_app_nil_r (shellJoin x)).
    rewrite sh_lex_args by done. simpl. by rewrite end_word_last.
  - apply Forall_cons in Hall as [Hx Hall].
    change (Join (shellJoin <$> x :: y :: steps) " && ") with
      (shellJoin x +:+ String blank (String ampersand (String ampersand
         (String blank (Join (shellJoin <$> y :: steps) " && "))))).
    rewrite sh_lex_args by done. cbn [sh_lex]. chars. cbn [end_word app].
    rewrite end_word_last by done. rewrite IH by done. by rewrite <- app_assoc.
Qed.

(** C16.  No shell injection.  The script of the install Job, read by a shell
    after the step that decodes the values file, runs exactly the commands of
    [Command], argument by argument, whatever characters the chart's name,
    repository, versions and values contain; a single command without a values
    file is run directly. *)
Theorem containerCommand_runs_steps decode steps :
  steps ≠ [] → Forall (λ args, args ≠ []) steps →
  (decode = "" ∧ steps = [containerCommand decode steps]) ∨
  ∃ script, containerCommand decode steps = ["sh"; "-c"; script] ∧
    sh_commands (if bool_decide (decode = "") then script
                 else TrimPrefix script (decode +:+ " && ")) = Some steps.
Proof.
  intros Hne Hall. unfold containerCommand. case_bool_decide as Ed; cbn [andb].
  - subst. case_bool_decide as El; simpl.
    + left. split; [done|]. by destruct steps as [|x [|]].
    + right. eexists. split; [done|]. by apply sh_commands_steps.
  - right. eexists. split; [done|]. rewrite (bool_decide_true (decode ≠ "")) by done. cbn [opt].
    destruct steps as [|x steps]; [done|].
    change (Join ([decode] ++ (shellJoin <$> x :: steps)) " && ") with
      (decode +:+ " && " +:+ Join (shellJoin <$> x :: steps) " && ").
    rewrite <- (string_app_assoc decode " && "), TrimPrefix_app. by apply sh_commands_steps.
Qed.

Lemma containerCommand_runs_steps_witness :
  sh_commands (Join (shellJoin <$> [["helm"; "it's"]; ["a b"; "$(x)"; ""]]) " && ") =
    Some [["helm"; "it's"]; ["a b"; "$(x)"; ""]].
Proof.
  destruct (containerCommand_runs_steps "" [["helm"; "it's"]; ["a b"; "$(x)"; ""]])
    as [[_ E]|(script & E & Hs)]; [discriminate|repeat constructor; discriminate|discriminate|].
  vm_compute in E. injection E as <-. exact Hs.
Defined.
