(* ===== verification/HelmController.v ===== *)
(** * The HelmChart controller

    [internal/controller/clusteragent/helmchart_controller.go]: one
    reconciliation of a [HelmChart].  Log lines are left out; the result is the
    error, if any. *)

From S2P Require Import Prelude Effects Kube Api Pki World Token HelmChart.
From stdpp Require Import options.

Definition helmChartFinalizer : string := "clusteragent.tardigrade.runtime.io/helmchart".
Definition typeReadyHelmChart : string := "Ready".
Definition JobComplete : string := "Complete".
Definition JobFailed : string := "Failed".

(** [jobCondition(job, t) != nil]: a True condition of the type. *)
Fixpoint has_condition (cs : list JobCondition) (t : string) : bool :=
  match cs with
  | [] => false
  | c :: cs' =>
      if bool_decide (jc_type c = t) && bool_decide (jc_status c = ConditionTrue) then true
      else has_condition cs' t
  end.

Definition jobCondition (job : Job) (t : string) : bool := has_condition (job_conditions job) t.

Definition with_hc_meta (hc : HelmChart) (m : ObjectMeta) : HelmChart :=
  {| hc_meta := m; hc_spec := hc_spec hc; hc_conditions := hc_conditions hc |}.
Definition with_job_meta (j : Job) (m : ObjectMeta) : Job :=
  {| job_meta := m; job_spec := job_spec j; job_conditions := job_conditions j |}.

Definition job_key (hc : HelmChart) (operation : JobOperation) : NamespacedName :=
  NN (om_namespace (hc_meta hc)) (JobName (om_name (hc_meta hc)) operation).

Section controller.
Context `{M : Machinery}.

(** [r.Create(ctx, o)] where an existing object is fine: whether it failed. *)
Definition create_missing {O} {K : Kind O} (o : O) : prog op bool :=
  let! c := create o in
  match c with
  | inr AlreadyExists => Ret true
  | inr _ => Ret false
  | inl _ => Ret true
  end.

Definition removeFinalizer (hc : HelmChart) : prog op (option string) :=
  let! u := update (with_hc_meta hc (RemoveFinalizer (hc_meta hc) helmChartFinalizer)) in
  match u with
  | inr _ => Ret (Some "failed to remove finalizer")
  | inl _ => Ret None
  end.

(** Failures are only logged. *)
Definition deleteJobRBAC (hc : HelmChart) : prog op unit :=
  let name := ServiceAccountName (om_name (hc_meta hc)) in
  let! _ := delete_obj ClusterRoleBinding (NN "" name) in
  let! _ := delete_obj ServiceAccount (NN (om_namespace (hc_meta hc)) name) in
  Ret tt.

(** [r.deleteJobRBAC(...); return r.removeFinalizer(...)]. *)
Definition finish_delete (hc : HelmChart) : prog op (option string) :=
  let! _ := deleteJobRBAC hc in removeFinalizer hc.

Definition installJobSucceeded (hc : HelmChart) : prog op (bool + string) :=
  let! got := get (O := Job) (job_key hc JobOperationInstall) in
  match got with
  | inr e => if IsNotFound e then Ret (inl false) else Ret (inr "get install job")
  | inl job => Ret (inl (jobCondition job JobComplete))
  end.

(** [GenerateJob]; the order of the [range] over the values comes from the
    runtime. *)
Definition generate_job (hc : HelmChart) (operation : JobOperation) : prog op Job :=
  let! order := trigger (MapOrder (vs_set (hcs_values (hc_spec hc)))) in
  Ret (GenerateJob order.*1 hc operation).

Definition reconcileDelete (hc : HelmChart) : prog op (option string) :=
  if negb (ContainsFinalizer (hc_meta hc) helmChartFinalizer) then Ret None
  else
    let! got := get (O := Job) (job_key hc JobOperationTeardown) in
    match got with
    | inr NotFound =>
        let! s := installJobSucceeded hc in
        match s with
        | inr e => Ret (Some e)
        | inl false => finish_delete hc
        | inl true =>
            let! job := generate_job hc JobOperationTeardown in
            match SetControllerReference (hc_meta hc) (job_meta job) with
            | inr _ => finish_delete hc
            | inl m =>
                let! ok := create_missing (with_job_meta job m) in
                if negb ok then finish_delete hc else Ret None
            end
        end
    | inr _ => Ret (Some "get teardown job")
    | inl teardownJob =>
        if jobCondition teardownJob JobComplete then finish_delete hc
        else if jobCondition teardownJob JobFailed then finish_delete hc
        else Ret None
    end.

Definition ready_condition (hc : HelmChart) (st : ConditionStatus) (reason message : string)
    : Condition :=
  {| cond_type := typeReadyHelmChart; cond_status := st; cond_reason := reason;
     cond_message := message; cond_generation := om_generation (hc_meta hc) |}.

Definition updateReadyCondition (hc : HelmChart) (installJob : Job) : prog op (option string) :=
  let name := om_name (job_meta installJob) in
  let set_ready c :=
    let '(cs, changed) := SetStatusCondition (hc_conditions hc) c in
    if negb changed then Ret None
    else
      let! u := update_status {| hc_meta := hc_meta hc; hc_spec := hc_spec hc; hc_conditions := cs |} in
      match u with
      | inr _ => Ret (Some "failed to update helmchart status")
      | inl _ => Ret None
      end in
  if jobCondition installJob JobComplete then
    set_ready (ready_condition hc ConditionTrue "InstallSucceeded"
                 ("install job " +:+ name +:+ " completed successfully"))
  else if jobCondition installJob JobFailed then
    set_ready (ready_condition hc ConditionFalse "InstallFailed"
                 ("install job " +:+ name +:+ " failed"))
  else Ret None.

(** The part of [Reconcile] after the RBAC objects. *)
Definition reconcile_install (hc : HelmChart) : prog op (option string) :=
  let! got := get (O := Job) (job_key hc JobOperationInstall) in
  match got with
  | inr NotFound =>
      let! job := generate_job hc JobOperationInstall in
      match SetControllerReference (hc_meta hc) (job_meta job) with
      | inr _ => Ret (Some "failed to set owner reference on install job")
      | inl m =>
          let! ok := create_missing (with_job_meta job m) in
          if negb ok then Ret (Some "failed to create install job") else Ret None
      end
  | inr _ => Ret (Some "get install job")
  | inl installJob =>
      let wantGeneration := FormatInt (om_generation (hc_meta hc)) in
      if bool_decide (default "" (mget (om_labels (job_meta installJob)) ObservedGenerationLabel)
                      ≠ wantGeneration) then
        if negb (jobCondition installJob JobComplete) && negb (jobCondition installJob JobFailed)
        then Ret None
        else
          let! d := delete_obj Job (meta_key (job_meta installJob)) in
          match d with
          | Some e => if IsNotFound e then Ret None
                      else Ret (Some "failed to delete stale install job")
          | None => Ret None
          end
      else updateReadyCondition hc installJob
  end.

Definition chart_Reconcile (req : NamespacedName) : prog op (option string) :=
  let! got := get (O := HelmChart) req in
  match got with
  | inr e => if IsNotFound e then Ret None else Ret (Some "get")
  | inl hc =>
      if bool_decide (is_Some (om_deletion (hc_meta hc))) then reconcileDelete hc
      else if negb (ContainsFinalizer (hc_meta hc) helmChartFinalizer) then
        let! u := update (with_hc_meta hc (AddFinalizer (hc_meta hc) helmChartFinalizer)) in
        match u with
        | inr _ => Ret (Some "failed to add finalizer")
        | inl _ => Ret None
        end
      else
        let '(serviceAccount, clusterRoleBinding) := GenerateRBAC hc in
        match SetControllerReference (hc_meta hc) (sa_meta serviceAccount) with
        | inr _ => Ret (Some "failed to set owner reference on serviceaccount")
        | inl m =>
            let! ok := create_missing {| sa_meta := m |} in
            if negb ok then Ret (Some "failed to create serviceaccount")
            else
              let! ok := create_missing clusterRoleBinding in
              if negb ok then Ret (Some "failed to create clusterrolebinding")
              else reconcile_install hc
        end
  end.
End controller.

(** ** What a reconciliation may write *)

Definition terminal (j : Job) : bool := jobCondition j JobComplete || jobCondition j JobFailed.

(** The Job was generated from the current spec. *)
Definition current (hc : HelmChart) (j : Job) : Prop :=
  default "" (mget (om_labels (job_meta j)) ObservedGenerationLabel) =
    FormatInt (om_generation (hc_meta hc)).

(** A teardown Job that has not finished. *)
Definition tearing_down (s : cluster) (hc : HelmChart) : Prop :=
  ∃ j, c_jobs s !! job_key hc JobOperationTeardown = Some j ∧ terminal j = false.

Section safety.
Context `{M : Machinery} `{L : !MachineryLaws} `{X : X509} (hc : HelmChart).

Definition deleting : Prop := is_Some (om_deletion (hc_meta hc)).

Inductive chart_write : write → cluster → Prop :=
| cw_add_finalizer s :
    ¬ deleting →
    chart_write (WUpdate kind_HelmChart
      (with_hc_meta hc (AddFinalizer (hc_meta hc) helmChartFinalizer))) s
| cw_account (o : ServiceAccount) s :
    ¬ deleting → om_namespace (sa_meta o) = om_namespace (hc_meta hc) →
    chart_write (WCreate kind_ServiceAccount o) s
| cw_binding s :
    ¬ deleting → chart_write (WCreate kind_ClusterRoleBinding (GenerateRBAC hc).2) s
| cw_install (j : Job) s :
    ¬ deleting → c_jobs s !! job_key hc JobOperationInstall = None →
    meta_key (job_meta j) = job_key hc JobOperationInstall → current hc j →
    chart_write (WCreate kind_Job j) s
(** A Job is deleted only when it is out of date and has finished. *)
| cw_stale (j : Job) s :
    ¬ deleting → c_jobs s !! job_key hc JobOperationInstall = Some j →
    ¬ current hc j → terminal j = true →
    chart_write (WDelete kind_Job (job_key hc JobOperationInstall)) s
| cw_status (j : Job) cs s :
    ¬ deleting → c_jobs s !! job_key hc JobOperationInstall = Some j →
    current hc j → terminal j = true →
    FindStatusCondition cs typeReadyHelmChart = Some
      (if jobCondition j JobComplete
       then ready_condition hc ConditionTrue "InstallSucceeded"
              ("install job " +:+ om_name (job_meta j) +:+ " completed successfully")
       else ready_condition hc ConditionFalse "InstallFailed"
              ("install job " +:+ om_name (job_meta j) +:+ " failed")) →
    chart_write (WStatus kind_HelmChart
      {| hc_meta := hc_meta hc; hc_spec := hc_spec hc; hc_conditions := cs |}) s
| cw_teardown (j i : Job) s :
    deleting → c_jobs s !! job_key hc JobOperationTeardown = None →
    c_jobs s !! job_key hc JobOperationInstall = Some i → jobCondition i JobComplete = true →
    meta_key (job_meta j) = job_key hc JobOperationTeardown →
    chart_write (WCreate kind_Job j) s
(** The permissions of the Jobs and the finalizer go only when no teardown
    Job needs them. *)
| cw_unbind s :
    deleting → ¬ tearing_down s hc →
    chart_write (WDelete kind_ClusterRoleBinding
      (NN "" (ServiceAccountName (om_name (hc_meta hc))))) s
| cw_unaccount s :
    deleting → ¬ tearing_down s hc →
    chart_write (WDelete kind_ServiceAccount
      (NN (om_namespace (hc_meta hc)) (ServiceAccountName (om_name (hc_meta hc))))) s
| cw_release s :
    deleting → ¬ tearing_down s hc →
    chart_write (WUpdate kind_HelmChart
      (with_hc_meta hc (RemoveFinalizer (hc_meta hc) helmChartFinalizer))) s.

Definition chart_env : env := {| rely := eq; allowed := chart_write; may_panic := False |}.

Context (jobs : gmap NamespacedName Job).
Context (Hkeys : map_Forall (λ n j, meta_key (job_meta j) = n) jobs).

(** The Jobs are those of the start until the reconciliation writes one. *)
Definition same_jobs (s : cluster) : Prop := c_jobs s = jobs.

Lemma chart_rely s s' : rely chart_env s s' → same_jobs s → same_jobs s'.
Proof. by intros ->. Qed.

Ltac go1 := wp_call chart_env same_jobs chart_rely ltac:(done).

(** Nothing is claimed about the final state. *)
#[local] Abbreviation safe p s := (wp (api_spec chart_env) p s (λ _ _, True)).

Lemma safe_finish s :
  deleting → ¬ tearing_down s hc → same_jobs s → safe (finish_delete hc) s.
Proof.
  intros Hd Ht Hs. unfold finish_delete, deleteJobRBAC, removeFinalizer.
  assert (∀ s', same_jobs s' → ¬ tearing_down s' hc) as Ht'.
  { intros s' Hs'. unfold tearing_down. by rewrite Hs', <- Hs. }
  apply wp_bind; [apply _|].
  eapply (wp_mono _ _ _ (λ _, same_jobs)).
  - repeat go1; try done; try (constructor; auto).
  - intros _ s' Hs'. repeat go1; try done. constructor; auto.
Qed.

Lemma wp_generate_job operation s (Q : Job → cluster → Prop) :
  (∀ order, Q (GenerateJob order hc operation) s) →
  wp (api_spec chart_env) (generate_job hc operation) s Q.
Proof. intros HQ l _. apply HQ. Qed.

(** [create_missing] answers a boolean; what it wrote is of no interest here. *)
Lemma safe_create_missing {O} {K : Kind O} (o : O) s (P : bool → cluster → Prop) :
  same_jobs s → (∀ s1, same_jobs s1 → chart_write (WCreate K o) s1) →
  (∀ b s1, same_jobs s1 → P b s1) →
  (∀ s1 o', same_jobs s1 → P true (kput o' s1)) →
  wp (api_spec chart_env) (create_missing o) s P.
Proof. intros Hs Ha He Hok. unfold create_missing. go1; try (cbv beta iota; apply wp_ret); auto. by apply Ha. Qed.

Lemma job_meta_key order operation m :
  SetControllerReference (hc_meta hc) (job_meta (GenerateJob order hc operation)) = inl m →
  meta_key m = job_key hc operation ∧
  mget (om_labels m) ObservedGenerationLabel = Some (FormatInt (om_generation (hc_meta hc))).
Proof using L.
  intros E. apply scr_frame in E as (E1 & E2 & _ & E3 & _). unfold meta_key, job_key.
  rewrite E1, E2, E3. split; [done|]. unfold mget, entries; simpl. apply lookup_insert_eq.
Qed.

Lemma safe_reconcileDelete s : deleting → same_jobs s → safe (reconcileDelete hc) s.
Proof using All.
  intros Hd Hs. unfold reconcileDelete, installJobSucceeded.
  destruct (ContainsFinalizer _ _); cbn [negb]; [|done].
  assert (∀ s', same_jobs s' → (∀ j, jobs !! job_key hc JobOperationTeardown = Some j →
    terminal j = true) → ¬ tearing_down s' hc) as Hnot.
  { intros s' Hs' Hj (j & Hl & Ht). rewrite Hs' in Hl. specialize (Hj j Hl). congruence. }
  go1; [done| |].
  - simpl in Hn. rewrite Hs0 in Hn. cbv beta iota.
    assert (∀ s', same_jobs s' → ¬ tearing_down s' hc) as Hnot'.
    { intros s' Hs'. apply Hnot; [done|]. intros j. congruence. }
    apply wp_bind; [apply _|]. go1; [done|by apply wp_ret, safe_finish; auto|].
    apply wp_ret. destruct (jobCondition o JobComplete) eqn:Ec; [|by apply safe_finish; auto].
    apply wp_bind; [apply _|]. apply wp_generate_job. intros order.
    destruct (SetControllerReference _ _) as [m|] eqn:Em; [|by apply safe_finish; auto].
    apply job_meta_key in Em as [Hk _]. apply wp_bind; [apply _|].
    apply safe_create_missing; [done|..].
    + intros s2 Hs2. simpl in Ho. rewrite Hs1 in Ho.
      apply (cw_teardown _ o); [done|by rewrite Hs2|by rewrite Hs2|done|done].
    + intros [] s2 Hs2; [done|]. by apply safe_finish; auto.
    + done.
  - simpl in Ho. rewrite Hs0 in Ho. cbv beta iota.
    destruct (jobCondition o JobComplete) eqn:Ec.
    { apply safe_finish; [done| |done]. apply Hnot; [done|]. intros j Hj.
      rewrite Ho in Hj. injection Hj as <-. unfold terminal. by rewrite Ec. }
    destruct (jobCondition o JobFailed) eqn:Ef; [|done].
    apply safe_finish; [done| |done]. apply Hnot; [done|]. intros j Hj.
    rewrite Ho in Hj. injection Hj as <-. unfold terminal. by rewrite Ef, orb_true_r.
Qed.

Lemma safe_updateReadyCondition s j :
  ¬ deleting → jobs !! job_key hc JobOperationInstall = Some j → current hc j → same_jobs s →
  safe (updateReadyCondition hc j) s.
Proof using All.
  intros Hd Hj Hc Hs. unfold updateReadyCondition.
  assert (∀ c s, same_jobs s → terminal j = true → cond_type c = typeReadyHelmChart →
    c = (if jobCondition j JobComplete
         then ready_condition hc ConditionTrue "InstallSucceeded"
              ("install job " +:+ om_name (job_meta j) +:+ " completed successfully")
         else ready_condition hc ConditionFalse "InstallFailed"
              ("install job " +:+ om_name (job_meta j) +:+ " failed")) →
    safe (let '(cs, changed) := SetStatusCondition (hc_conditions hc) c in
      if negb changed then Ret None
      else
        let! u := update_status
          {| hc_meta := hc_meta hc; hc_spec := hc_spec hc; hc_conditions := cs |} in
        match u with
        | inr _ => Ret (Some "failed to update helmchart status")
        | inl _ => Ret None
        end) s) as Hset.
  { intros c s0 Hs0 Ht Hty Hce. pose proof (find_set (hc_conditions hc) c) as Hfind.
    rewrite Hty in Hfind. destruct (SetStatusCondition (hc_conditions hc) c) as [cs [|]]; [|done].
    cbn [negb fst] in *. go1; try done. apply (cw_status j); [done|by rewrite Hs1|done|done|].
    by rewrite Hfind, Hce. }
  destruct (jobCondition j JobComplete) eqn:Ec.
  - apply Hset; [done| |done|done]. unfold terminal. by rewrite Ec.
  - destruct (jobCondition j JobFailed) eqn:Ef; [|done].
    apply Hset; [done| |done|done]. unfold terminal. by rewrite Ef, orb_true_r.
Qed.

Lemma safe_reconcile_install s : ¬ deleting → same_jobs s → safe (reconcile_install hc) s.
Proof using All.
  intros Hd Hs. unfold reconcile_install. go1; [done| |].
  - simpl in Hn. rewrite Hs0 in Hn. cbv beta iota. apply wp_bind; [apply _|].
    apply wp_generate_job. intros order.
    destruct (SetControllerReference _ _) as [m|] eqn:Em; [|done].
    apply job_meta_key in Em as [Hk Hl]. apply wp_bind; [apply _|].
    apply safe_create_missing; [done| | |done].
    + intros s2 Hs2. apply cw_install; [done|by rewrite Hs2|done|].
      unfold current. simpl. by rewrite Hl.
    + by intros [] s2 _.
  - simpl in Ho. rewrite Hs0 in Ho. cbv beta iota. case_bool_decide as Ecur.
    + destruct (negb (jobCondition o JobComplete) && negb (jobCondition o JobFailed)) eqn:Et; [done|].
      rewrite (Hkeys _ _ Ho). go1; try done.
      apply (cw_stale o); [done|by rewrite Hs1|done|].
      unfold terminal. by destruct (jobCondition o JobComplete), (jobCondition o JobFailed).
    + apply safe_updateReadyCondition; by auto.
Qed.

Lemma safe_chart_Reconcile req s :
  same_jobs s → c_charts s !! req = Some hc → safe (chart_Reconcile req) s.
Proof using All.
  intros Hs Hc. unfold chart_Reconcile.
  eapply (wp_get chart_env (λ s', s' = s)); [by intros ?? <-|done|by intros; subst..|].
  intros ? o -> Ho. simpl in Ho. rewrite Hc in Ho. injection Ho as <-. cbv beta iota.
  case_bool_decide as Hd; [by apply safe_reconcileDelete|].
  destruct (ContainsFinalizer _ _); cbn [negb].
  2: { go1; try done. by constructor. }
  unfold GenerateRBAC. cbv beta iota zeta. cbn [sa_meta].
  destruct (SetControllerReference _ _) as [m|] eqn:Em; [|done].
  apply scr_frame in Em as (_ & Hns & _).
  apply wp_bind; [apply _|]. apply safe_create_missing; [done|by constructor|..].
  all: intros; match goal with |- wp _ (if negb ?b then _ else _) _ _ => destruct b; cbn [negb] | _ => cbn [negb] end; try done.
  all: apply wp_bind; [apply _|]; apply safe_create_missing; [done|by intros; apply cw_binding|..].
  all: intros; match goal with |- wp _ (if negb ?b then _ else _) _ _ => destruct b; cbn [negb] | _ => cbn [negb] end; try done.
  all: by apply safe_reconcile_install.
Qed.
End safety.

(** C13.  The lifecycle of a chart is safe.  When nobody interferes, whatever
    calls fail, the only writes of a reconciliation are: while the chart is not
    being deleted, its finalizer, its RBAC objects, one install Job carrying the
    current generation, the deletion of an install Job that is out of date and
    has finished (a running Job is never deleted), and a Ready condition that
    says what the current install Job came to; while it is being deleted, one
    teardown Job if the install Job completed, and the removal of the RBAC
    objects and of the finalizer, never while a teardown Job is running. *)
Theorem chart_Reconcile_safe `{M : Machinery} `{L : !MachineryLaws} `{X : X509} hc req s :
  c_charts s !! req = Some hc →
  map_Forall (λ n j, meta_key (job_meta j) = n) (c_jobs s) →
  wp (api_spec {| rely := eq; allowed := chart_write hc; may_panic := False |})
    (chart_Reconcile req) s (λ _ _, True).
Proof. intros Hc Hk. by apply (safe_chart_Reconcile hc (c_jobs s) Hk). Qed.

Definition example_chart (namespace : string) (deletion : option Z) : HelmChart := {|
  hc_meta := {| om_name := "cni"; om_namespace := namespace; om_uid := "uid-9"; om_generation := 2;
    om_labels := None; om_annotations := None; om_owners := [];
    om_finalizers := [helmChartFinalizer]; om_deletion := deletion |};
  hc_spec := {|
    hcs_chart := {| cs_name := "flannel"; cs_targetNamespace := "kube-flannel";
      cs_createNamespace := true; cs_version := ""; cs_repo := "https://charts" |};
    hcs_helm := {| ho_version := "v3"; ho_insecureSkipTLSVerify := false; ho_atomic := true;
      ho_backOffLimit := None; ho_timeout := 600000000000 |};
    hcs_runtime := {| ro_bootstrap := true; ro_image := "helm:1"; ro_securityContext := None |};
    hcs_values := {| vs_set := {[ "a" := "1" ]}; vs_content := "" |} |};
  hc_conditions := [] |}.

Lemma chart_Reconcile_safe_witness :
  let hc := example_chart "kube-system" None in
  let s := kput hc empty_cluster in
  wp (api_spec (X := ref_x509) {| rely := eq; allowed := chart_write (M := ref_machinery) hc;
                                  may_panic := False |})
    (chart_Reconcile (M := ref_machinery) (NN "kube-system" "cni")) s (λ _ _, True) ∧
  match run mem (chart_Reconcile (M := ref_machinery) (NN "kube-system" "cni")) s with
  | Some (None, s') => is_Some (c_jobs s' !! NN "kube-system" "helmchart-cni-install")
  | _ => False
  end.
Proof.
  intros hc s. split.
  - apply (chart_Reconcile_safe (M := ref_machinery) (L := ref_machinery_laws) (X := ref_x509)).
    + vm_compute. reflexivity.
    + apply map_Forall_empty.
  - vm_compute. by eexists.
Defined.

(** ** Two concrete runs *)

(** The ClusterRoleBinding is named after the chart alone: of two charts with
    the same name in two namespaces, only the first one's ServiceAccount gets
    bound, although both reconciliations report success. *)
Example same_name_charts_share_binding :
  let s := kput (example_chart "team-b" None) (kput (example_chart "team-a" None) empty_cluster) in
  match run mem (let! a := chart_Reconcile (M := ref_machinery) (NN "team-a" "cni") in
                 let! b := chart_Reconcile (M := ref_machinery) (NN "team-b" "cni") in
                 Ret (a, b)) s with
  | Some ((None, None), s') =>
      option_map (λ b, sub_namespace <$> crb_subjects b)
        (c_bindings s' !! NN "" "helmchart-cni") = Some ["team-a"] ∧
      is_Some (c_accounts s' !! NN "team-b" "helmchart-cni")
  | _ => False
  end.
Proof. vm_compute. split; [reflexivity|by eexists]. Qed.

(** A release that was installed by an earlier generation is orphaned: the
    install Job of the new generation is still running when the chart is
    deleted, so the controller takes it that nothing was ever installed, creates
    no teardown Job and lets the chart go. *)
Example upgraded_chart_orphaned :
  let hc := example_chart "kube-system" (Some 7%Z) in
  let running := GenerateJob ["a"] hc JobOperationInstall in
  match run mem (chart_Reconcile (M := ref_machinery) (NN "kube-system" "cni"))
          (kput running (kput hc empty_cluster)) with
  | Some (None, s') =>
      c_charts s' !! NN "kube-system" "cni" = None ∧
      c_jobs s' !! job_key hc JobOperationTeardown = None
  | _ => False
  end.
Proof. vm_compute. split; reflexivity. Qed.
