(* ===== verification/Addons.v ===== *)
(** * Addons

    [pkg/runtime/component/addons.go] (which HelmCharts a Runtime asks for) and
    [internal/controller/clusteragent/addons.go] (bringing the cluster in line
    with it once the replica is leader).  The versions of the built-in charts
    come from a file embedded at build time, [strconv.Quote] quotes a value; both
    are parameters. *)

From S2P Require Import Prelude Effects Kube Api Pki World PkiAuth Templates.
From stdpp Require Import options.

Definition addonManagedByLabel : string := "clusteragent.tardigrade.runtime.io/managed-by".
Definition addonLabelValue : string := "tardigrade-addon".

Record buildInChart := {
  bc_enabled : bool;
  bc_chart : HelmChart;
  bc_values : option (Runtime → ValuesSpec);
}.

Section addons.
Context (CorednsChart FlannelChart : string) (Quote : string → string).

Definition defaultCorednsValues : string :=
  nl +:+ "replicaCount: 1" +:+ nl +:+ "service:" +:+ nl +:+
  "  clusterIP: " +:+ Quote clusterDNSIP +:+ nl.

Definition flannelValues (r : Runtime) : ValuesSpec :=
  {| vs_set := ∅;
     vs_content :=
       nl +:+ "flannel:" +:+ nl +:+
       "  podCidr: " +:+ Quote (net_podCIDR (cl_network (rt_cluster r))) +:+ nl +:+
       "  nodeSelector:" +:+ nl +:+ "    kubernetes.io/os: linux" +:+ nl +:+
       "  healthz:" +:+ nl +:+ "    port: 0" +:+ nl |}.

(** The fields the two built-in charts have in common. *)
Definition builtin_chart (name repo version ns : string) (createNamespace : bool)
    (content : string) : HelmChart :=
  {| hc_meta := new_meta name "kube-system" None None;
     hc_spec := {|
       hcs_chart := {| cs_name := name; cs_repo := repo; cs_version := version;
                       cs_createNamespace := createNamespace; cs_targetNamespace := ns |};
       hcs_runtime := {| ro_bootstrap := true; ro_image := ""; ro_securityContext := None |};
       hcs_helm := {| ho_version := ""; ho_insecureSkipTLSVerify := false; ho_atomic := true;
                      ho_backOffLimit := Some 1000%Z; ho_timeout := 600000000000 |};
       hcs_values := {| vs_set := ∅; vs_content := content |} |};
     hc_conditions := [] |}.

Definition buildInAddons : gmap string buildInChart :=
  {[ "coredns" := {| bc_enabled := true; bc_values := None;
       bc_chart := builtin_chart "coredns" "https://coredns.github.io/helm" CorednsChart
                     "kube-system" false defaultCorednsValues |};
     "flannel" := {| bc_enabled := true; bc_values := Some flannelValues;
       bc_chart := builtin_chart "flannel" "https://flannel-io.github.io/flannel/" FlannelChart
                     "kube-flannel" true "" |} ]}.

Definition withValues (c : HelmChart) (v : ValuesSpec) : HelmChart :=
  {| hc_meta := hc_meta c;
     hc_spec := {| hcs_chart := hcs_chart (hc_spec c); hcs_helm := hcs_helm (hc_spec c);
                   hcs_runtime := hcs_runtime (hc_spec c); hcs_values := v |};
     hc_conditions := hc_conditions c |}.

Definition installedChart (name : string) (spec : HelmChartSpec) : HelmChart :=
  {| hc_meta := new_meta name "kube-system" None None; hc_spec := spec; hc_conditions := [] |}.

(** [declared]: the last entry with a name wins. *)
Definition declared_addons (r : Runtime) : gmap string AddonChartSpec :=
  foldl (λ m c, <[ac_name c := c]> m) ∅ (ha_charts (cl_addons (rt_cluster r))).

(** One iteration of the loop over the built-in charts. *)
Definition builtin_step (r : Runtime) (name : string) (b : buildInChart) : list HelmChart :=
  let declared := declared_addons r !! name in
  match declared ≫= ac_install with
  | Some spec => [installedChart name spec]
  | None =>
      match declared ≫= ac_enabled with
      | Some false => []
      | _ =>
          if negb (bc_enabled b) then []
          else
            let chart := match bc_values b with
                         | Some f => withValues (bc_chart b) (f r)
                         | None => bc_chart b
                         end in
            match declared ≫= ac_override with
            | Some o => [withValues chart (ao_values o)]
            | None => [chart]
            end
      end
  end.

(** One iteration of the loop over the declared charts. *)
Definition declared_step (name : string) (a : AddonChartSpec) : list HelmChart :=
  match buildInAddons !! name with
  | Some _ => []
  | None => match ac_install a with Some spec => [installedChart name spec] | None => [] end
  end.

Definition with_image (image : string) (c : HelmChart) : HelmChart :=
  {| hc_meta := hc_meta c;
     hc_spec := {| hcs_chart := hcs_chart (hc_spec c); hcs_helm := hcs_helm (hc_spec c);
       hcs_runtime := {| ro_bootstrap := ro_bootstrap (hcs_runtime (hc_spec c)); ro_image := image;
         ro_securityContext := ro_securityContext (hcs_runtime (hc_spec c)) |};
       hcs_values := hcs_values (hc_spec c) |};
     hc_conditions := hc_conditions c |}.

(** [ConsolidateAddons]; [o1] and [o2] are the orders in which the two [range]
    loops visit the maps. *)
Definition ConsolidateAddons (o1 : list (string * buildInChart))
    (o2 : list (string * AddonChartSpec)) (r : Runtime) : list HelmChart :=
  let charts := (o1 ≫= λ '(n, b), builtin_step r n b) ++ (o2 ≫= λ '(n, a), declared_step n a) in
  let image := ha_runtimeImage (cl_addons (rt_cluster r)) in
  if bool_decide (image = "") then charts else with_image image <$> charts.

(** ** The one-shot reconciler *)

Definition chart_key (c : HelmChart) : NamespacedName := meta_key (hc_meta c).

(** [chart.Labels[addonManagedByLabel] = addonLabelValue], after making the
    map. *)
Definition labelled (c : HelmChart) : HelmChart :=
  let m := hc_meta c in
  {| hc_meta := {| om_name := om_name m; om_namespace := om_namespace m; om_uid := om_uid m;
       om_generation := om_generation m;
       om_labels := Some (<[addonManagedByLabel := addonLabelValue]> (entries (om_labels m)));
       om_annotations := om_annotations m; om_owners := om_owners m;
       om_finalizers := om_finalizers m; om_deletion := om_deletion m |};
     hc_spec := hc_spec c; hc_conditions := hc_conditions c |}.

(** [Start] once elected, for the desired charts. *)
Definition start_with (desired : list HelmChart) : prog op (option string) :=
  let! c := for_each desired (λ chart,
    let! r := create (labelled chart) in
    match r with
    | inr AlreadyExists => Ret (inr tt)
    | inr _ => Ret (inl "failed to create helmchart")
    | inl _ => Ret (inr tt)
    end) in
  match c with
  | inl e => Ret (Some e)
  | inr _ =>
      let! existing := trigger (ListObjects kind_HelmChart None
        (Some (addonManagedByLabel, addonLabelValue))) in
      match existing with
      | inr _ => Ret (Some "failed to list addon-managed helmcharts")
      | inl items =>
          let! d := for_each items (λ chart,
            if bool_decide (chart_key chart ∈ chart_key <$> desired) then Ret (inr tt)
            else
              let! x := delete_obj HelmChart (chart_key chart) in
              match x with
              | Some NotFound => Ret (inr tt)
              | Some _ => Ret (inl "failed to delete stale helmchart")
              | None => Ret (inr tt)
              end) in
          match d with
          | inl e => Ret (Some e)
          | inr _ => Ret None
          end
      end
  end.

(** [elected] is false when the context ends before the election. *)
Definition Start (elected : bool) (o1 : list (string * buildInChart))
    (o2 : list (string * AddonChartSpec)) (r : Runtime) : prog op (option string) :=
  if negb elected then Ret (Some "context done")
  else start_with (ConsolidateAddons o1 o2 r).
End addons.

(** ** Properties *)

Lemma elem_of_option_list {A} (x : A) o : x ∈ option_list o ↔ o = Some x.
Proof. destruct o; simpl; rewrite ?list_elem_of_singleton, ?elem_of_nil; naive_solver. Qed.

(** A loop over a map whose iterations give at most one chart, under the key
    of the entry, gives charts with distinct keys. *)
Lemma NoDup_bind_keys {V} (l : list (string * V)) (f : string * V → list HelmChart) (g : string → option HelmChart) :
  NoDup l.*1 →
  (∀ p, p ∈ l → f p = [] ∨ f p = option_list (g p.1)) →
  (∀ n c, g n = Some c → chart_key c = NN "kube-system" n) →
  NoDup (chart_key <$> (l ≫= f)) ∧
  ∀ k, k ∈ chart_key <$> (l ≫= f) → ∃ n, k = NN "kube-system" n ∧ n ∈ l.*1.
Proof.
  intros Hnd Hf Hg. induction l as [|[n v] l IH]; [by split; [apply NoDup_nil_2|set_solver]|].
  apply NoDup_cons in Hnd as [Hn Hnd]. destruct (IH Hnd) as [IH1 IH2]; [set_solver|].
  rewrite bind_cons, fmap_app. assert ((n, v) ∈ (n, v) :: l) as Hp by set_solver.
  assert (∀ k, k ∈ chart_key <$> f (n, v) → k = NN "kube-system" n) as Hk.
  { intros k (c & -> & Hc)%list_elem_of_fmap. destruct (Hf (n, v) Hp) as [E|E];
      rewrite E in Hc; [by apply elem_of_nil in Hc|]. by apply Hg, elem_of_option_list. }
  split.
  - apply NoDup_app. split; [|split; [|done]].
    + destruct (Hf (n, v) Hp) as [->| ->]; [apply NoDup_nil_2|].
      cbn [fst]. destruct (g n); [apply NoDup_singleton|apply NoDup_nil_2].
    + intros k Hk1%Hk Hk2. destruct (IH2 k Hk2) as (n' & -> & Hn'). injection Hk1 as ->. by apply Hn.
  - intros k [Hk1|Hk2]%elem_of_app.
    + exists n. split; [by apply Hk|]. simpl. set_solver.
    + destruct (IH2 k Hk2) as (n' & -> & Hn'). exists n'. simpl. set_solver.
Qed.

(** The last entry wins; with distinct names there is one. *)
Lemma foldl_declared (l : list AddonChartSpec) (m : gmap string AddonChartSpec) n c :
  NoDup (ac_name <$> l) →
  foldl (λ m c, <[ac_name c := c]> m) m l !! n = Some c ↔
  (c ∈ l ∧ ac_name c = n) ∨ (m !! n = Some c ∧ n ∉ ac_name <$> l).
Proof.
  revert m. induction l as [|x l IH]; intros m Hnd; simpl; [set_solver|].
  apply NoDup_cons in Hnd as [Hx Hnd]. rewrite (IH _ Hnd), lookup_insert_Some.
  assert (∀ y, y ∈ l → ac_name y ≠ ac_name x) as Hne.
  { intros y Hy E. apply Hx. rewrite <- E. by apply list_elem_of_fmap_2. }
  setoid_rewrite elem_of_cons. split.
  - intros [[H1 H2]|[[[<- <-]|[Hn Hm]] Hl]]; [by auto|by auto|]. right. split; [done|].
    intros [->|?]; done.
  - intros [[[->|H1] H2]|[H1 H2]]; [|by auto|].
    + right. subst n. split; [by left|done].
    + right. split; [|tauto]. right. split; [|done]. intros <-. apply H2. by left.
Qed.

Section facts.
Context (CorednsChart FlannelChart : string) (Quote : string → string).
#[local] Abbreviation builtin := (buildInAddons CorednsChart FlannelChart Quote).
#[local] Abbreviation consolidate := (ConsolidateAddons CorednsChart FlannelChart Quote).

(** The chart a Runtime asks for under a name, if any: the specification. *)
Definition addon_chart (r : Runtime) (name : string) : option HelmChart :=
  let d := declared_addons r !! name in
  match builtin !! name, d ≫= ac_install with
  | _, Some spec => Some (installedChart name spec)
  | None, None => None
  | Some b, None =>
      if bool_decide (d ≫= ac_enabled = Some false) then None
      else Some (match d ≫= ac_override, bc_values b with
                 | Some o, _ => withValues (bc_chart b) (ao_values o)
                 | None, Some f => withValues (bc_chart b) (f r)
                 | None, None => bc_chart b
                 end)
  end.

(** With the image of the Runtime, when it names one. *)
Definition wanted_chart (r : Runtime) (name : string) : option HelmChart :=
  let image := ha_runtimeImage (cl_addons (rt_cluster r)) in
  (λ c, if bool_decide (image = "") then c else with_image image c) <$> addon_chart r name.

Lemma withValues_twice c v w : withValues (withValues c v) w = withValues c w.
Proof. done. Qed.

Lemma builtin_enabled n b : builtin !! n = Some b → bc_enabled b = true ∧ hc_meta (bc_chart b) = new_meta n "kube-system" None None.
Proof.
  unfold buildInAddons. rewrite lookup_insert_Some, lookup_singleton_Some.
  intros [[<- <-]|[_ [<- <-]]]; done.
Qed.

Lemma builtin_step_spec r n b :
  builtin !! n = Some b → builtin_step r n b = option_list (addon_chart r n).
Proof.
  intros Hb. unfold builtin_step, addon_chart. rewrite Hb.
  destruct (builtin_enabled n b Hb) as [-> _].
  destruct (declared_addons r !! n ≫= ac_install); [done|]. cbn [negb].
  destruct (declared_addons r !! n ≫= ac_enabled) as [[]|]; cbn;
    destruct (declared_addons r !! n ≫= ac_override), (bc_values b); done.
Qed.

Lemma declared_step_spec r n a :
  declared_addons r !! n = Some a →
  declared_step CorednsChart FlannelChart Quote n a =
    if decide (is_Some (builtin !! n)) then [] else option_list (addon_chart r n).
Proof.
  intros Ha. unfold declared_step, addon_chart. rewrite Ha. simpl.
  destruct (builtin !! n); [by rewrite decide_True by eauto|].
  rewrite decide_False by (by intros []). by destruct (ac_install a).
Qed.

Lemma addon_chart_key r n c :
  addon_chart r n = Some c → chart_key c = NN "kube-system" n.
Proof.
  unfold addon_chart. intros H. repeat case_match; simplify_eq/=; try done;
    match goal with H : builtin !! _ = Some _ |- _ => apply builtin_enabled in H as [_ Hm] end;
    unfold chart_key; simpl; by rewrite Hm.
Qed.

(** The charts before the image is applied. *)
Lemma elem_of_charts r o1 o2 c :
  o1 ≡ₚ map_to_list builtin → o2 ≡ₚ map_to_list (declared_addons r) →
  c ∈ (o1 ≫= λ '(n, b), builtin_step r n b) ++
      (o2 ≫= λ '(n, a), declared_step CorednsChart FlannelChart Quote n a) ↔
  ∃ n, addon_chart r n = Some c.
Proof.
  intros H1 H2. rewrite elem_of_app, !list_elem_of_bind. split.
  - intros [([n b] & Hc & Hin)|([n a] & Hc & Hin)].
    + rewrite H1 in Hin. apply elem_of_map_to_list in Hin.
      rewrite (builtin_step_spec r n b Hin), elem_of_option_list in Hc. eauto.
    + rewrite H2 in Hin. apply elem_of_map_to_list in Hin.
      rewrite (declared_step_spec r n a Hin) in Hc. case_decide; [by apply elem_of_nil in Hc|].
      rewrite elem_of_option_list in Hc. eauto.
  - intros [n Hn]. destruct (builtin !! n) as [b|] eqn:Eb.
    + left. exists (n, b). rewrite H1, elem_of_map_to_list. split; [|done].
      by rewrite (builtin_step_spec r n b Eb), elem_of_option_list.
    + right. unfold addon_chart in Hn. rewrite Eb in Hn.
      destruct (declared_addons r !! n) as [a|] eqn:Ea; [|done].
      exists (n, a). rewrite H2, elem_of_map_to_list. split; [|done].
      rewrite (declared_step_spec r n a Ea), decide_False by (rewrite Eb; by intros []).
      apply elem_of_option_list. unfold addon_chart. by rewrite Eb, Ea.
Qed.

Lemma charts_NoDup r o1 o2 :
  o1 ≡ₚ map_to_list builtin → o2 ≡ₚ map_to_list (declared_addons r) →
  NoDup (chart_key <$> ((o1 ≫= λ '(n, b), builtin_step r n b) ++
      (o2 ≫= λ '(n, a), declared_step CorednsChart FlannelChart Quote n a))).
Proof.
  intros H1 H2. rewrite fmap_app.
  assert (NoDup o1.*1 ∧ NoDup o2.*1) as [N1 N2].
  { split; [rewrite H1|rewrite H2]; apply NoDup_fst_map_to_list. }
  destruct (NoDup_bind_keys o1 (λ '(n, b), builtin_step r n b) (addon_chart r) N1) as [A1 A2].
  { intros [n b] Hp. right. rewrite H1 in Hp. by apply builtin_step_spec, elem_of_map_to_list. }
  { apply addon_chart_key. }
  set (g := λ n, if decide (is_Some (builtin !! n)) then None else addon_chart r n).
  assert (∀ p, p ∈ o2 → (λ '(n, a), declared_step CorednsChart FlannelChart Quote n a) p =
            option_list (g p.1)) as Hg2.
  { intros [n a] Hp. rewrite H2 in Hp. apply elem_of_map_to_list in Hp. simpl.
    rewrite (declared_step_spec r n a Hp). unfold g. by case_decide. }
  destruct (NoDup_bind_keys o2 (λ '(n, a), declared_step CorednsChart FlannelChart Quote n a) g N2)
    as [B1 B2]; [auto| |].
  { intros n c. unfold g. case_decide; [done|]. apply addon_chart_key. }
  apply NoDup_app. split; [done|]. split; [|done].
  intros k Hk1 Hk2. destruct (A2 k Hk1) as (n & -> & Hn).
  apply list_elem_of_fmap in Hk2 as (c & Hc & Hin).
  apply list_elem_of_bind in Hin as ([m a] & Hin & Hp). rewrite (Hg2 (m, a) Hp) in Hin.
  apply elem_of_option_list in Hin. unfold g in Hin. simpl in Hin. case_decide as Hd; [done|].
  apply addon_chart_key in Hin. rewrite Hin in Hc. injection Hc as <-. apply Hd.
  apply list_elem_of_fmap in Hn as ([m' b] & -> & Hb). rewrite H1 in Hb.
  apply elem_of_map_to_list in Hb. eauto.
Qed.
(** The charts the reconciler gets are the wanted ones, each once. *)
Lemma ConsolidateAddons_spec r o1 o2 :
  o1 ≡ₚ map_to_list builtin → o2 ≡ₚ map_to_list (declared_addons r) →
  NoDup (chart_key <$> consolidate o1 o2 r) ∧
  ∀ c, c ∈ consolidate o1 o2 r ↔ ∃ n, wanted_chart r n = Some c.
Proof.
  intros H1 H2.
  pose proof (charts_NoDup r o1 o2 H1 H2) as Hnd.
  pose proof (λ c, elem_of_charts r o1 o2 c H1 H2) as Hel.
  unfold ConsolidateAddons, wanted_chart. set (l := _ ++ _) in *. case_bool_decide.
  - split; [done|]. intros c. rewrite Hel. split; intros [n Hn]; exists n.
    + by rewrite Hn.
    + by apply fmap_Some in Hn as (c' & -> & ->).
  - split.
    + rewrite <- list_fmap_compose. exact Hnd.
    + intros c. rewrite list_elem_of_fmap. split.
      * intros (c' & -> & [n Hn]%Hel). exists n. by rewrite Hn.
      * intros [n Hn]. apply fmap_Some in Hn as (c' & Hc & ->). exists c'. split; [done|].
        apply Hel. eauto.
Qed.

Lemma wanted_chart_key r n c : wanted_chart r n = Some c → chart_key c = NN "kube-system" n.
Proof.
  unfold wanted_chart. intros (c' & Hc & ->)%fmap_Some.
  apply addon_chart_key in Hc. by case_bool_decide.
Qed.

Lemma flannel_wanted r :
  NoDup (ac_name <$> ha_charts (cl_addons (rt_cluster r))) →
  (∀ a, a ∈ ha_charts (cl_addons (rt_cluster r)) → ac_name a = "flannel" → ac_install a = None) →
  is_Some (addon_chart r "flannel") ↔ cniProvider r = "flannel".
Proof.
  intros Hnd Hin. unfold addon_chart, cniProvider.
  assert (∀ a, declared_addons r !! "flannel" = Some a ↔
            a ∈ ha_charts (cl_addons (rt_cluster r)) ∧ ac_name a = "flannel") as Hd.
  { intros a. unfold declared_addons. rewrite (foldl_declared _ _ _ _ Hnd), lookup_empty. naive_solver. }
  destruct (builtin !! "flannel") eqn:Eb; [clear Eb|by vm_compute in Eb].
  destruct (existsb _ _) eqn:Ex.
  - apply existsb_exists in Ex as (a & Ha & Hb). apply list_elem_of_In in Ha.
    apply andb_true_iff in Hb as [Hn%bool_decide_eq_true He%bool_decide_eq_true].
    rewrite (proj2 (Hd a)) by done. simpl. rewrite (Hin a Ha Hn), bool_decide_true by done.
    split; [by intros []|done].
  - split; [done|]. intros _. destruct (declared_addons r !! "flannel") as [a|] eqn:Ea; simpl; [|by eexists].
    destruct (proj1 (Hd a) eq_refl) as [Ha Hn]. rewrite (Hin a Ha Hn), bool_decide_false; [by eexists|].
    intros He. apply not_true_iff_false in Ex. apply Ex, existsb_exists.
    exists a. split; [by apply list_elem_of_In|]. by rewrite !bool_decide_true.
Qed.
(** ** What a Runtime asks for, in full

    The entry that counts for a name is the last one that declares it; an
    install is taken as it is, the two built-in charts unless they are disabled, with the
    values of an override instead of their own; the image of the addons
    replaces that of every chart. *)

Definition last_entry (r : Runtime) (name : string) : option AddonChartSpec :=
  last (filter (λ a, ac_name a = name) (ha_charts (cl_addons (rt_cluster r)))).

Definition asked_builtin (r : Runtime) (name : string) (override : option AddonOverrideSpec)
    : option HelmChartSpec :=
  let spec repo version ns mk content := {|
    hcs_chart := {| cs_name := name; cs_repo := repo; cs_version := version;
                    cs_createNamespace := mk; cs_targetNamespace := ns |};
    hcs_runtime := {| ro_bootstrap := true; ro_image := ""; ro_securityContext := None |};
    hcs_helm := {| ho_version := ""; ho_insecureSkipTLSVerify := false; ho_atomic := true;
                   ho_backOffLimit := Some 1000%Z; ho_timeout := 10 * 60 * 1000000000 |};
    hcs_values := match override with
                  | Some o => ao_values o
                  | None => {| vs_set := ∅; vs_content := content |}
                  end |} in
  if bool_decide (name = "coredns") then
    Some (spec "https://coredns.github.io/helm" CorednsChart "kube-system" false
      (String.concat nl [""; "replicaCount: 1"; "service:";
         "  clusterIP: " +:+ Quote "10.96.0.10"; ""]))
  else if bool_decide (name = "flannel") then
    Some (spec "https://flannel-io.github.io/flannel/" FlannelChart "kube-flannel" true
      (String.concat nl [""; "flannel:";
         "  podCidr: " +:+ Quote (net_podCIDR (cl_network (rt_cluster r)));
         "  nodeSelector:"; "    kubernetes.io/os: linux"; "  healthz:"; "    port: 0"; ""]))
  else None.

Definition asked_spec (r : Runtime) (name : string) : option HelmChartSpec :=
  let entry := last_entry r name in
  let spec := match entry ≫= ac_install with
              | Some spec => Some spec
              | None => if bool_decide (entry ≫= ac_enabled = Some false) then None
                        else asked_builtin r name (entry ≫= ac_override)
              end in
  let image := ha_runtimeImage (cl_addons (rt_cluster r)) in
  (λ spec, if bool_decide (image = "") then spec else {|
     hcs_chart := hcs_chart spec; hcs_helm := hcs_helm spec; hcs_values := hcs_values spec;
     hcs_runtime := {| ro_bootstrap := ro_bootstrap (hcs_runtime spec); ro_image := image;
                       ro_securityContext := ro_securityContext (hcs_runtime spec) |} |}) <$> spec.

Lemma declared_last r n : declared_addons r !! n = last_entry r n.
Proof.
  unfold declared_addons, last_entry. induction (ha_charts _) as [|x l IH] using rev_ind; [done|].
  rewrite foldl_snoc, filter_app. destruct (decide (ac_name x = n)) as [<-|Hne].
  - rewrite lookup_insert_eq, (filter_cons_True _ _ []) by done. by rewrite filter_nil, last_snoc.
  - rewrite lookup_insert_ne by done. rewrite (filter_cons_False _ _ []) by done.
    by rewrite filter_nil, app_nil_r.
Qed.

Lemma wanted_asked r n : wanted_chart r n = installedChart n <$> asked_spec r n.
Proof.
  unfold wanted_chart, asked_spec. rewrite <- option_fmap_compose.
  assert (addon_chart r n = installedChart n <$>
    match last_entry r n ≫= ac_install with
    | Some spec => Some spec
    | None => if bool_decide (last_entry r n ≫= ac_enabled = Some false) then None
              else asked_builtin r n (last_entry r n ≫= ac_override)
    end) as ->.
  { unfold addon_chart, asked_builtin, buildInAddons. rewrite declared_last.
    destruct (last_entry r n ≫= ac_install); [by case_match|].
    destruct (decide (n = "coredns")) as [->|H1]; [|destruct (decide (n = "flannel")) as [->|H2]].
    - rewrite lookup_insert_eq. case_bool_decide; [done|]. simpl. by case_match.
    - rewrite lookup_insert_ne, lookup_singleton_eq by done. case_bool_decide; [done|]. simpl. by case_match.
    - rewrite lookup_insert_ne, lookup_singleton_ne by congruence.
      rewrite (bool_decide_false (n = "coredns")), (bool_decide_false (n = "flannel")) by done.
      by case_bool_decide. }
  rewrite <- option_fmap_compose. apply option_fmap_ext. intros spec. unfold compose. by case_bool_decide.
Qed.
End facts.

(** The set of addons does not depend on the order in which Go visits its
    maps: for every order of the two loops, the charts are exactly those the
    specification gives for some name (a declared install replaces a built-in
    chart, a disabled one is left out, an override replaces only its values),
    each once, with distinct keys in kube-system. *)
Theorem ConsolidateAddons_correct CorednsChart FlannelChart Quote r o1 o2 :
  o1 ≡ₚ map_to_list (buildInAddons CorednsChart FlannelChart Quote) →
  o2 ≡ₚ map_to_list (declared_addons r) →
  let charts := ConsolidateAddons CorednsChart FlannelChart Quote o1 o2 r in
  NoDup (chart_key <$> charts) ∧
  ∀ c, c ∈ charts ↔ ∃ n, wanted_chart CorednsChart FlannelChart Quote r n = Some c.
Proof. intros H1 H2. by apply ConsolidateAddons_spec. Qed.

(** The witness of the example: one user chart, one disabled built-in. *)
Definition example_install : HelmChartSpec :=
  {| hcs_chart := {| cs_name := "cilium"; cs_targetNamespace := "kube-system";
       cs_createNamespace := false; cs_version := ""; cs_repo := "https://helm.cilium.io" |};
     hcs_helm := {| ho_version := "v3"; ho_insecureSkipTLSVerify := false; ho_atomic := false;
       ho_backOffLimit := None; ho_timeout := 0 |};
     hcs_runtime := {| ro_bootstrap := false; ro_image := "x"; ro_securityContext := None |};
     hcs_values := {| vs_set := ∅; vs_content := "" |} |}.

Definition example_addons : HelmAddonsSpec :=
  {| ha_runtimeImage := "helm:2";
     ha_charts := [
       {| ac_name := "flannel"; ac_enabled := Some false; ac_install := None; ac_override := None |};
       {| ac_name := "cilium"; ac_enabled := None; ac_override := None;
          ac_install := Some example_install |};
       {| ac_name := "metrics-server"; ac_enabled := None; ac_install := None;
          ac_override := Some {| ao_values := {| vs_set := ∅; vs_content := "replicas: 2" |} |} |} ] |}.

Definition with_addons (r : Runtime) (a : HelmAddonsSpec) : Runtime :=
  let cl := rt_cluster r in
  {| rt_type := rt_type r; rt_meta := rt_meta r; rt_status := rt_status r;
     rt_spec := {| rts_controlPlane := rt_controlPlane r;
       rts_cluster := {| cl_endpoint := cl_endpoint cl; cl_apiServer := cl_apiServer cl;
         cl_controllerManager := cl_controllerManager cl; cl_scheduler := cl_scheduler cl;
         cl_network := cl_network cl; cl_storage := cl_storage cl; cl_kubelet := cl_kubelet cl;
         cl_addons := a |} |} |}.

Definition addons_runtime : Runtime := with_addons example_runtime example_addons.
Definition example_builtin := map_to_list (buildInAddons "1.0" "0.9" id).
Definition example_charts : list HelmChart :=
  ConsolidateAddons "1.0" "0.9" id example_builtin (map_to_list (declared_addons addons_runtime))
    addons_runtime.

Lemma ConsolidateAddons_correct_witness :
  (om_name ∘ hc_meta <$> example_charts) ≡ₚ ["coredns"; "cilium"] ∧
  NoDup (chart_key <$> example_charts).
Proof.
  split; [vm_compute; reflexivity|].
  apply (ConsolidateAddons_correct "1.0" "0.9" id addons_runtime); reflexivity.
Defined.

(** An override of a chart that is neither built in nor installed has no
    effect, as the example above shows for metrics-server. *)
Example override_of_unknown_ignored :
  declared_addons addons_runtime !! "metrics-server" ≠ None ∧
  wanted_chart "1.0" "0.9" id addons_runtime "metrics-server" = None.
Proof. split; [vm_compute; discriminate|vm_compute; reflexivity]. Qed.

(** ** The reconciler *)

Definition managed (c : HelmChart) : Prop :=
  mget (om_labels (hc_meta c)) "clusteragent.tardigrade.runtime.io/managed-by" = Some "tardigrade-addon".

(** The object for the addon [name], as it is sent to the server. *)
Definition addon_object (name : string) (spec : HelmChartSpec) : HelmChart :=
  {| hc_meta := {| om_name := name; om_namespace := "kube-system"; om_uid := ""; om_generation := 0;
       om_labels := Some {[ "clusteragent.tardigrade.runtime.io/managed-by" := "tardigrade-addon" ]};
       om_annotations := None; om_owners := []; om_finalizers := []; om_deletion := None |};
     hc_spec := spec; hc_conditions := [] |}.

(** Create only the charts asked for, with their specification and the label; delete only
    charts that are not asked for and were not somebody else's. *)
Inductive addon_write (asked : string → option HelmChartSpec) (s0 : cluster) : write → cluster → Prop :=
| aw_create name spec s :
    asked name = Some spec →
    addon_write asked s0 (WCreate kind_HelmChart (addon_object name spec)) s
| aw_delete n s :
    (∀ name, n = NN "kube-system" name → asked name = None) →
    (∀ c, c_charts s0 !! n = Some c → managed c) →
    addon_write asked s0 (WDelete kind_HelmChart n) s.

#[export] Instance managed_dec c : Decision (managed c).
Proof. unfold managed. apply _. Defined.

Section start.
Context `{X : X509} (asked : string → option HelmChartSpec) (desired : list HelmChart) (s0 : cluster).
Context (Hasked : ∀ c, c ∈ desired ↔ ∃ name spec, asked name = Some spec ∧ c = installedChart name spec).

Definition addons_env : env :=
  {| rely s s' := c_charts s' = c_charts s; allowed := addon_write asked s0; may_panic := False |}.

(** Charts are stored under their key, and those of others are untouched. *)
Definition kept (s : cluster) : Prop :=
  map_Forall (λ n c, chart_key c = n) (c_charts s) ∧
  ∀ n c, c_charts s0 !! n = Some c → ¬ managed c → c_charts s !! n = Some c.

(** The chart asked for under a key: the one that was there, untouched, or a new one with
    the specification asked for. *)
Definition installed (n : NamespacedName) (spec : HelmChartSpec) (s : cluster) : Prop :=
  match c_charts s0 !! n with
  | Some old => c_charts s !! n = Some old
  | None => ∃ o, c_charts s !! n = Some o ∧ hc_spec o = spec ∧ managed o ∧ om_deletion (hc_meta o) = None
  end.

Definition present (l : list HelmChart) (s : cluster) : Prop :=
  ∀ c, c ∈ l → installed (chart_key c) (hc_spec c) s.

(** While charts are created: nothing is changed, and what is new is what was asked for. *)
Definition created (s : cluster) : Prop :=
  (∀ n o, c_charts s0 !! n = Some o → c_charts s !! n = Some o) ∧
  (∀ n o, c_charts s !! n = Some o → c_charts s0 !! n = Some o ∨
     c_charts s0 !! n = None ∧ managed o ∧ om_deletion (hc_meta o) = None ∧
     ∀ c, c ∈ desired → chart_key c = n → hc_spec o = hc_spec c).

Lemma created_installed c s :
  created s → c ∈ desired → is_Some (c_charts s !! chart_key c) → installed (chart_key c) (hc_spec c) s.
Proof using All.
  intros [Hc1 Hc2] Hc [o Ho]. unfold installed. destruct (c_charts s0 !! chart_key c) as [old|] eqn:E; [auto|].
  destruct (Hc2 _ _ Ho) as [E'|(_ & Hm & Hd & Hs)]; [congruence|]. exists o. auto.
Qed.

Lemma desired_spec c c' : c ∈ desired → c' ∈ desired → chart_key c = chart_key c' → hc_spec c = hc_spec c'.
Proof using Hasked.
  intros (n & sp & Hn & ->)%Hasked (n' & sp' & Hn' & ->)%Hasked [= ->]. simpl. congruence.
Qed.

Lemma desired_key n : n ∈ chart_key <$> desired ↔ ∃ name, n = NN "kube-system" name ∧ is_Some (asked name).
Proof using Hasked.
  rewrite list_elem_of_fmap. setoid_rewrite Hasked. split.
  - intros (c & -> & name & spec & Hs & ->). eauto.
  - intros (name & -> & [spec Hs]). exists (installedChart name spec). eauto.
Qed.

Lemma labelled_object c : c ∈ desired → ∃ name spec, asked name = Some spec ∧ labelled c = addon_object name spec.
Proof using Hasked. intros (name & spec & Hs & ->)%Hasked. by exists name, spec. Qed.

Lemma kept_frame s s' : c_charts s' = c_charts s → kept s → kept s'.
Proof. unfold kept. by intros ->. Qed.

Lemma present_frame l s s' : c_charts s' = c_charts s → present l s → present l s'.
Proof. unfold present, installed. by intros ->. Qed.

Lemma created_frame s s' : c_charts s' = c_charts s → created s → created s'.
Proof. unfold created. by intros ->. Qed.

Lemma managed_labelled c : managed (labelled c).
Proof. unfold managed, mget, entries; simpl. apply lookup_insert_eq. Qed.

Lemma kept_put c s :
  kept s → (∀ o, c_charts s0 !! chart_key c = Some o → managed o ∨ c_charts s !! chart_key c = None) →
  kept (kput c s).
Proof.
  intros [Hk Ho] Hc. split; simpl.
  - by apply map_Forall_insert_2.
  - intros n o Hn Hm. destruct (decide (n = chart_key c)) as [->|Hne].
    + destruct (Hc o Hn) as [?|Hnone]; [done|]. rewrite (Ho _ _ Hn Hm) in Hnone. done.
    + by rewrite lookup_insert_ne by (symmetry; done); auto.
Qed.

Lemma kept_del n s :
  kept s → (∀ u, c_charts s0 !! n = Some u → managed u) → kept (kdel HelmChart n s).
Proof.
  intros [Hk Ho] Hm. split; simpl.
  - by apply map_Forall_delete.
  - intros n' u Hu Hn. rewrite lookup_delete_ne; [auto|]. intros ->. auto.
Qed.

(** Outside the keys asked for, the store may change. *)
Lemma present_other s s' :
  (∀ n, n ∈ chart_key <$> desired → c_charts s' !! n = c_charts s !! n) →
  present desired s → present desired s'.
Proof using All.
  intros He Hp c Hc. specialize (Hp c Hc). unfold installed in *.
  by rewrite He by (by apply list_elem_of_fmap_2).
Qed.

Lemma created_put o c s :
  c ∈ desired → kadmit (labelled c) o → c_charts s !! chart_key c = None → created s → created (kput o s).
Proof using All.
  intros Hc ((E1 & E2 & El & _ & _ & _ & Ed) & Hs & _) Hn [H1 H2].
  assert (meta_key (hc_meta o) = chart_key c) as Hk by (unfold chart_key, meta_key; simpl in *; congruence).
  split; intros n x; simpl; rewrite Hk.
  - intros Hx. rewrite lookup_insert_ne; [auto|]. intros <-. rewrite (H1 _ _ Hx) in Hn. done.
  - intros [[<- <-]|[_ Hx]]%lookup_insert_Some; [|by apply H2]. right.
    split; [|split; [|split]].
    + destruct (c_charts s0 !! chart_key c) as [old|] eqn:E; [|done]. rewrite (H1 _ _ E) in Hn. done.
    + unfold managed. rewrite El. apply managed_labelled.
    + rewrite Ed. apply Hasked in Hc as (? & ? & _ & ->). done.
    + intros c' Hc' E. rewrite Hs. apply (desired_spec c c'); [done..|]. by symmetry.
Qed.

Lemma wp_create_loop :
  kept s0 →
  wp (api_spec addons_env)
    (for_each desired (λ chart,
       let! r := create (labelled chart) in
       match r with
       | inr AlreadyExists => Ret (inr tt)
       | inr _ => Ret (inl "failed to create helmchart")
       | inl _ => Ret (inr tt)
       end)) s0
    (λ r s', kept s' ∧ match r with inl _ => True | inr _ => present desired s' end).
Proof using All.
  intros Hs. apply (wp_for_each_prefix _ _ _ (λ before s', kept s' ∧ created s' ∧
    ∀ c, c ∈ before → is_Some (c_charts s' !! chart_key c))).
  - split; [done|]. split; [split; auto|]. intros c Hc. by apply elem_of_nil in Hc.
  - intros before x s1 Hx (Hk & Hc & Hp).
    assert (∀ s2, (∀ n, is_Some (c_charts s1 !! n) → is_Some (c_charts s2 !! n)) →
      is_Some (c_charts s2 !! chart_key x) →
      ∀ c, c ∈ before ++ [x] → is_Some (c_charts s2 !! chart_key c)) as Hpres.
    { intros s2 Hmono Hx2 c [Hc'|Hc']%elem_of_app; [by apply Hmono, Hp|].
      apply list_elem_of_singleton in Hc' as ->. done. }
    intros s2 Hr. change (c_charts s2 = c_charts s1) in Hr.
    apply (kept_frame _ s2 Hr) in Hk. apply (created_frame _ s2 Hr) in Hc.
    rewrite <- Hr in Hpres. clear Hp. change (kmeta (labelled x)) with (hc_meta (labelled x)).
    assert (meta_key (hc_meta (labelled x)) = chart_key x) as Hkey by done.
    split; [|split; [intros m; cbn; auto|]].
    { destruct (labelled_object x Hx) as (name & spec & Hn & ->). by apply aw_create. }
    rewrite Hkey. destruct (kmap s2 !! chart_key x) as [o|] eqn:Eo; simpl in Eo.
    + split; [done|]. split; [done|]. apply Hpres; [done|]. by rewrite Eo.
    + intros o' Ha. pose proof Ha as (Hm & _). assert (chart_key o' = chart_key x) as Hk'.
      { destruct Hm as (E1 & E2 & _). unfold chart_key, meta_key. simpl in *. congruence. }
      split; [apply kept_put; [done|]; rewrite Hk'; eauto|]. split; [by apply (created_put _ x)|].
      apply Hpres; simpl; fold (chart_key o'); rewrite Hk'.
      * intros n Hn. destruct (decide (n = chart_key x)) as [->|];
          [by rewrite lookup_insert_eq|by rewrite lookup_insert_ne].
      * by rewrite lookup_insert_eq.
  - intros s1 (Hk & Hc & Hp). split; [done|]. intros c Hd. by apply created_installed, Hp.
Qed.

(** The charts of a listing are the managed ones of the store. *)
Lemma listed_charts items c s :
  kept s →
  items ≡ₚ filter (λ o, selected None (Some (addonManagedByLabel, addonLabelValue)) (kmeta o))
             (map_to_list (kmap s)).*2 →
  c ∈ items ↔ c_charts s !! chart_key c = Some c ∧ managed c.
Proof.
  intros [Hk _] Hl. rewrite (elem_of_listed _ _ _ _ _ Hl). split.
  - intros [[_ Hm] [n Hin]]. split; [|done]. by rewrite (Hk n c Hin).
  - intros [Hc Hm]. split; [by split|]. by exists (chart_key c).
Qed.

(** Since the charts were listed, those that remain are unchanged or marked
    for deletion, and the ones already visited that remain are desired. *)
Definition swept (listed : gmap NamespacedName HelmChart) (before : list HelmChart) (s : cluster) : Prop :=
  kept s ∧ present desired s ∧
  ∀ n c, c_charts s !! n = Some c →
    om_deletion (hc_meta c) ≠ None ∨
    listed !! n = Some c ∧ (n ∈ chart_key <$> before → n ∈ chart_key <$> desired).

Lemma swept_step listed before x s s' :
  swept listed before s →
  kept s' → present desired s' →
  (∀ n c, c_charts s' !! n = Some c →
     om_deletion (hc_meta c) ≠ None ∨
     c_charts s !! n = Some c ∧ (n = chart_key x → n ∈ chart_key <$> desired)) →
  swept listed (before ++ [x]) s'.
Proof.
  intros (_ & _ & Hs) Hk Hp Hc. split; [done|]. split; [done|]. intros n c Hn.
  destruct (Hc n c Hn) as [?|[Hn1 Hx]]; [by left|].
  destruct (Hs n c Hn1) as [?|[Hl Hb]]; [by left|]. right. split; [done|].
  rewrite fmap_app, elem_of_app. intros [?|Hin]; [auto|].
  apply Hx. by apply list_elem_of_singleton in Hin.
Qed.

Lemma wp_delete_loop items s :
  kept s → present desired s →
  (∀ c, c ∈ items → c_charts s !! chart_key c = Some c ∧ managed c) →
  wp (api_spec addons_env)
    (for_each items (λ chart,
       if bool_decide (chart_key chart ∈ chart_key <$> desired) then Ret (inr tt)
       else
         let! x := delete_obj HelmChart (chart_key chart) in
         match x with
         | Some NotFound => Ret (inr tt)
         | Some _ => Ret (inl "failed to delete stale helmchart")
         | None => Ret (inr tt)
         end)) s
    (λ r s', kept s' ∧ match r with inl _ => True | inr _ => swept (c_charts s) items s' end).
Proof using All.
  intros Hk0 Hp0 Hit. apply (wp_for_each_prefix _ _ _ (swept (c_charts s))).
  - split; [done|]. split; [done|]. intros n c Hn. right. split; [done|]. by intros ?%elem_of_nil.
  - intros before x s1 Hx Hs1. pose proof Hs1 as (Hk & Hp & Hc).
    case_bool_decide as Hd.
    { apply (swept_step _ _ _ s1); [done..|]. intros n c Hn. right. split; [done|]. by intros ->. }
    destruct (Hit x Hx) as [Hl Hm].
    assert (∀ u, c_charts s0 !! chart_key x = Some u → managed u) as Hmine.
    { intros u Hu. destruct (decide (managed u)) as [|Hn]; [done|].
      pose proof (proj2 Hk0 _ _ Hu Hn) as E. rewrite E in Hl. by injection Hl as ->. }
    apply (wp_delete addons_env (λ s', c_charts s' = c_charts s1)); try done.
    { intros ? ? Hr ?; simpl in Hr. congruence. }
    + intros s2 _. apply aw_delete; [|done]. intros name E. destruct (asked name) eqn:Ea; [|done].
      destruct Hd. apply desired_key. eauto.
    + intros s2 m E. split; [|done]. by apply (kept_frame s1).
    + intros s2 E Hn. apply (swept_step _ _ _ s1); [done|by apply (kept_frame s1)|by apply (present_frame _ s1)|].
      simpl in Hn. intros n c Hc'. right. rewrite E in Hc', Hn. split; [done|]. intros ->. congruence.
    + intros s2 o E Ho _. apply (swept_step _ _ _ s1); [done|..].
      * apply kept_del; [by apply (kept_frame s1)|done].
      * apply (present_other s1); [|done]. intros n Hn. simpl. rewrite lookup_delete_ne by congruence.
        by rewrite E.
      * simpl. intros n c [Hne Hn]%lookup_delete_Some. rewrite E in Hn. right. split; [done|]. by intros ->.
    + intros s2 o o' E Ho Hdel Hkey. apply (swept_step _ _ _ s1); [done|..].
      * apply kept_put; [by apply (kept_frame s1)|]. intros u. change (chart_key o') with (meta_key (kmeta o')).
        rewrite Hkey. eauto.
      * apply (present_other s1); [|done]. intros n Hn. simpl.
        change (meta_key (hc_meta o') = chart_key x) in Hkey. rewrite Hkey, lookup_insert_ne by congruence.
        by rewrite E.
      * change (chart_key o' = chart_key x) in Hkey. simpl. fold (chart_key o'). rewrite Hkey, E.
        intros n c [[<- <-]|[Hne Hn]]%lookup_insert_Some; [by left|].
        right. split; [done|]. by intros ->.
  - intros s1 Hs1. split; [apply Hs1|done].
Qed.

Lemma wp_start_with :
  kept s0 →
  wp (api_spec addons_env) (start_with desired) s0
    (λ r s', kept s' ∧
       match r with
       | Some _ => True
       | None => present desired s' ∧
           ∀ n c, c_charts s' !! n = Some c → managed c →
             n ∈ chart_key <$> desired ∨ om_deletion (hc_meta c) ≠ None
       end).
Proof using All.
  intros Hk. eapply (wp_seq _ _); [by apply wp_create_loop|].
  intros [err|[]] s1 [Hk1 Hp1]; [by split|].
  intros s2 Hr. change (c_charts s2 = c_charts s1) in Hr.
  split; [intros m; split; [by apply (kept_frame s1)|done]|].
  intros items Hperm. eapply (wp_seq _ (for_each items _)).
  - apply wp_delete_loop; [by apply (kept_frame s1)|by apply (present_frame _ s1)|].
    intros c Hc. revert Hc. apply listed_charts; [by apply (kept_frame s1)|done].
  - intros [err|[]] s3 [Hk3 Hs3]; [by split|]. split; [done|].
    destruct Hs3 as (_ & Hp3 & Hc3). split; [done|]. intros n c Hn Hm.
    destruct (Hc3 n c Hn) as [?|[Hl Hin]]; [by right|]. left. apply Hin.
    pose proof (kept_frame _ _ Hr Hk1) as Hk2. rewrite <- (proj1 Hk2 n c Hl) in Hl |- *.
    apply list_elem_of_fmap_2. by apply (listed_charts _ _ s2).
Qed.
End start.

(** C17.  The one-shot reconciler converges and never touches a stranger's
    chart.  As long as nobody else changes the charts, whatever calls fail, the
    only writes are the creation of a chart that the Runtime asks for, with exactly the
    specification asked for ([asked_spec]: chart, repository, version, options and values)
    and the managed-by label, and the deletion of a chart that is not asked for and is
    nobody else's; every chart without the label stays as it was.  When [Start]
    returns nil, every chart asked for is stored: the one that was there before,
    unchanged, or else a new one with that specification, labelled and not marked for
    deletion; and every chart that carries the label is asked for or marked for
    deletion.  The order in which the two maps are visited does not matter. *)
Theorem Start_converges `{X : X509} CorednsChart FlannelChart Quote elected o1 o2 r s :
  map_Forall (λ n c, meta_key (hc_meta c) = n) (c_charts s) →
  o1 ≡ₚ map_to_list (buildInAddons CorednsChart FlannelChart Quote) →
  o2 ≡ₚ map_to_list (declared_addons r) →
  let asked := asked_spec CorednsChart FlannelChart Quote r in
  wp (api_spec (addons_env asked s)) (Start CorednsChart FlannelChart Quote elected o1 o2 r) s
    (λ e s',
       (∀ n c, c_charts s !! n = Some c → ¬ managed c → c_charts s' !! n = Some c) ∧
       (e = None →
          (∀ name spec, asked name = Some spec → installed s (NN "kube-system" name) spec s') ∧
          ∀ n c, c_charts s' !! n = Some c → managed c →
            (∃ name, n = NN "kube-system" name ∧ is_Some (asked name)) ∨ om_deletion (hc_meta c) ≠ None)).
Proof.
  intros Hk H1 H2 asked. unfold Start. destruct elected; [|by split].
  set (desired := ConsolidateAddons _ _ _ _ _ _).
  assert (∀ c, c ∈ desired ↔ ∃ name spec, asked name = Some spec ∧ c = installedChart name spec) as Ha.
  { intros c. unfold desired. rewrite (proj2 (ConsolidateAddons_spec _ _ _ r o1 o2 H1 H2)).
    setoid_rewrite wanted_asked. setoid_rewrite fmap_Some. naive_solver. }
  assert (kept s s) as Hs by (split; auto).
  eapply wp_mono; [apply _|exact (wp_start_with asked desired s Ha Hs)|].
  intros [err|] s' [[_ Ho] H]; [by split|]. destruct H as [Hp Hm]. split; [done|]. intros _. split.
  - intros name spec E. apply (Hp (installedChart name spec)). apply Ha. eauto.
  - intros n c Hn Hc. rewrite <- (desired_key asked desired Ha). by apply Hm.
Qed.

(** A stale addon chart and a chart of the user, before the reconciler runs. *)
Definition addon_example_cluster : cluster :=
  kput (labelled (installedChart "stale" example_install))
    (kput (installedChart "mine" example_install) empty_cluster).

(** The stale chart is deleted, the chart of the user stays, and coredns and the chart
    declared by the Runtime are installed as asked. *)
Lemma Start_converges_witness :
  match run mem (Start "1.0" "0.9" id true example_builtin
                   (map_to_list (declared_addons addons_runtime)) addons_runtime)
          addon_example_cluster with
  | Some (e, s') =>
      e = None ∧ c_charts s' !! NN "kube-system" "stale" = None ∧
      is_Some (c_charts s' !! NN "kube-system" "mine") ∧
      ∀ name spec, asked_spec "1.0" "0.9" id addons_runtime name = Some spec →
        installed addon_example_cluster (NN "kube-system" name) spec s'
  | None => False
  end.
Proof.
  pose proof (Start_converges (X := ref_x509) "1.0" "0.9" id true example_builtin
    (map_to_list (declared_addons addons_runtime)) addons_runtime addon_example_cluster) as H.
  specialize (H ltac:(apply (bool_decide_unpack _); vm_compute; reflexivity)
    (Permutation_refl _) (Permutation_refl _)).
  apply mem_run in H; [|by intros s].
  assert ((λ x, (x.1, c_charts x.2 !! NN "kube-system" "stale")) <$>
            run mem (Start "1.0" "0.9" id true example_builtin
              (map_to_list (declared_addons addons_runtime)) addons_runtime) addon_example_cluster
          = Some (None, None)) as E by (vm_compute; reflexivity).
  destruct (run mem _ _) as [[e s']|]; [|exact H]. destruct H as [Hm Hok].
  cbn in E. injection E as -> Es. split; [done|]. split; [done|]. split; [|by apply Hok].
  erewrite Hm; [by eexists|vm_compute; reflexivity|]. vm_compute. discriminate.
Defined.

(** The node profile and the addons agree on the network plugin: when every
    declared chart has its own name and flannel is not replaced by a user's
    chart, nodes are told to prepare flannel exactly when the flannel chart is
    installed. *)
Theorem cniProvider_agrees CorednsChart FlannelChart Quote r o1 o2 :
  o1 ≡ₚ map_to_list (buildInAddons CorednsChart FlannelChart Quote) →
  o2 ≡ₚ map_to_list (declared_addons r) →
  NoDup (ac_name <$> ha_charts (cl_addons (rt_cluster r))) →
  (∀ a, a ∈ ha_charts (cl_addons (rt_cluster r)) → ac_name a = "flannel" → ac_install a = None) →
  NN "kube-system" "flannel" ∈ chart_key <$> ConsolidateAddons CorednsChart FlannelChart Quote o1 o2 r
  ↔ cniProvider r = "flannel".
Proof.
  intros H1 H2 Hnd Hin. rewrite <- (flannel_wanted CorednsChart FlannelChart Quote r Hnd Hin).
  destruct (ConsolidateAddons_spec CorednsChart FlannelChart Quote r o1 o2 H1 H2) as [_ Hel].
  rewrite list_elem_of_fmap. setoid_rewrite Hel. split.
  - intros (c & Hk & n & Hn). pose proof (wanted_chart_key _ _ _ _ _ _ Hn) as Hk'.
    rewrite Hk' in Hk. injection Hk as <-. unfold wanted_chart in Hn.
    by apply fmap_Some in Hn as (c' & -> & _).
  - intros [c Hc]. eexists. split; [|exists "flannel"; unfold wanted_chart; by rewrite Hc].
    symmetry. apply (wanted_chart_key CorednsChart FlannelChart Quote r).
    unfold wanted_chart. by rewrite Hc.
Qed.

Lemma cniProvider_agrees_witness :
  cniProvider addons_runtime = "custom" ∧
  NN "kube-system" "flannel" ∉ chart_key <$> example_charts.
Proof.
  split; [vm_compute; reflexivity|]. intros Hin.
  apply (cniProvider_agrees "1.0" "0.9" id addons_runtime) in Hin.
  - vm_compute in Hin. discriminate.
  - reflexivity.
  - reflexivity.
  - apply (bool_decide_unpack _). vm_compute. reflexivity.
  - apply (proj1 (Forall_forall (λ a, ac_name a = "flannel" → ac_install a = None) _)). cbn.
    repeat constructor; intros E; try reflexivity; discriminate E.
Defined.

(** Without the hypothesis on flannel they differ: a replaced and disabled
    flannel is installed, but nodes are told not to prepare it. *)
Definition replaced_flannel : Runtime := with_addons example_runtime
  {| ha_runtimeImage := "";
     ha_charts := [ {| ac_name := "flannel"; ac_enabled := Some false; ac_override := None;
                       ac_install := Some example_install |} ] |}.

Example cniProvider_disagrees :
  cniProvider replaced_flannel = "custom" ∧
  NN "kube-system" "flannel" ∈ chart_key <$>
    ConsolidateAddons "1.0" "0.9" id example_builtin
      (map_to_list (declared_addons replaced_flannel)) replaced_flannel.
Proof.
  split; [vm_compute; reflexivity|]. apply (bool_decide_unpack _). vm_compute. reflexivity.
Qed.
