(* ===== verification/Version.v ===== *)
(** * Version numbers

    The parser, printer and comparison of pkg/version/version.go, a
    package that depends on no other part of the repository.

    A version is the record of the source: the numeric components (Go's [uint],
    here 64 bits wide), the flag saying whether it was read as a semantic
    version, and the two text parts.  The two regular expressions are matched by
    the functions [versionMatchRE] and [extraMatchRE]; both expressions are
    deterministic (each character decides how the match goes on), so the match
    that Go's leftmost-first search returns is the longest one computed here.
    Strings are byte strings: every class of the expressions is a class of ASCII
    bytes, apart from the dot, which stands for everything but a line feed. *)

From Stdlib Require Import Ascii.
From S2P Require Import Prelude Numbers.
From stdpp Require Import options.

Record Version := MkVersion {
  components : list N;
  semver : bool;
  preRelease : string;
  buildMetadata : string;
}.

#[export] Instance Version_eq_dec : EqDecision Version.
Proof. solve_decision. Defined.

(** The errors of [parse], one for each message. *)
Inductive parse_error :=
| ErrNoMatch (str : string)
| ErrIllegal (str : string)
| ErrZeroPrefixed (comp str : string)
| ErrNonNumeric (comp str : string)
| ErrExtra (extra str : string).

#[export] Instance parse_error_eq_dec : EqDecision parse_error.
Proof. solve_decision. Defined.

(** ** Character classes *)

Definition LF : Ascii.ascii := "010"%char.

(** The class [[0-9A-Za-z-]]. *)
Definition is_ident (c : Ascii.ascii) : bool :=
  let n := Ascii.nat_of_ascii c in
  is_digit c || bool_decide (65 ≤ n ≤ 90) || bool_decide (97 ≤ n ≤ 122) || bool_decide (n = 45).

(** The class [\s]: tab, line feed, form feed, carriage return, space. *)
Definition is_space (c : Ascii.ascii) : bool :=
  let n := Ascii.nat_of_ascii c in
  bool_decide (n = 9) || bool_decide (n = 10) || bool_decide (n = 12)
  || bool_decide (n = 13) || bool_decide (n = 32).

(** ** The regular expressions *)

(** The longest prefix made of characters of a class and of dots that a character
    of the class follows, and the rest. *)
Fixpoint dots (p : Ascii.ascii → bool) (s : string) : string * string :=
  match s with
  | EmptyString => (EmptyString, EmptyString)
  | String c r =>
      if p c then let '(a, b) := dots p r in (String c a, b)
      else if decide (c = "."%char) then
        match r with
        | String d _ => if p d then let '(a, b) := dots p r in (String c a, b) else (EmptyString, s)
        | EmptyString => (EmptyString, s)
        end
      else (EmptyString, s)
  end.

(** The longest prefix that is one or more non-empty runs of the class, separated
    by dots. *)
Definition dotted (p : Ascii.ascii → bool) (s : string) : option (string * string) :=
  match s with
  | String c _ => if p c then Some (dots p s) else None
  | EmptyString => None
  end.

Fixpoint skip_spaces (s : string) : string :=
  match s with
  | String c r => if is_space c then skip_spaces r else s
  | EmptyString => EmptyString
  end.

(** Leading spaces, an optional v, the dotted numbers (first group), then
    anything up to the end of the text that holds no line feed (second group). *)
Definition versionMatchRE (str : string) : option (string * string) :=
  '(numbers, extra) ← dotted is_digit (TrimPrefix (skip_spaces str) "v");
  if all_chars (λ c, negb (bool_decide (c = LF))) extra then Some (numbers, extra) else None.

(** An optional part: the character [c] and dotted identifiers, the group; the
    group is empty when the part is absent. *)
Definition optional_group (c : Ascii.ascii) (s : string) : string * string :=
  match s with
  | String d t => if decide (d = c) then default (EmptyString, s) (dotted is_ident t) else (EmptyString, s)
  | EmptyString => (EmptyString, s)
  end.

Definition extraMatchRE (extra : string) : option (string * string) :=
  let '(pre, r) := optional_group "-"%char extra in
  let '(build, r') := optional_group "+"%char r in
  if all_chars is_space r' then Some (pre, build) else None.

(** ** [parse] *)

(** The loop over the components; [i] is the index of the first of [comps]. *)
Fixpoint parse_components (str : string) (sv : bool) (i : nat) (comps : list string)
  : list N + parse_error :=
  match comps with
  | [] => inl []
  | comp :: comps' =>
      if (bool_decide (i = 0) || sv) && zero_prefixed comp then inr (ErrZeroPrefixed comp str)
      else match ParseUint comp with
           | None => inr (ErrNonNumeric comp str)
           | Some num =>
               match parse_components str sv (S i) comps' with
               | inl nums => inl (num :: nums)
               | inr e => inr e
               end
           end
  end.

(** The loop over the pre-release identifiers: the first offending one. *)
Fixpoint bad_identifier (comps : list string) : option string :=
  match comps with
  | [] => None
  | comp :: comps' =>
      match ParseUint comp with
      | Some _ => if zero_prefixed comp then Some comp else bad_identifier comps'
      | None => bad_identifier comps'
      end
  end.

Definition parse (str : string) (sv : bool) : Version + parse_error :=
  match versionMatchRE str with
  | None => inr (ErrNoMatch str)
  | Some (numbers, extra) =>
      let comps := Split "."%char numbers in
      if (sv && negb (bool_decide (length comps = 3)))
         || (negb sv && bool_decide (length comps < 2))
      then inr (ErrIllegal str)
      else match parse_components str sv 0 comps with
           | inr e => inr e
           | inl nums =>
               if sv && negb (bool_decide (extra = "")) then
                 match extraMatchRE extra with
                 | None => inr (ErrExtra extra str)
                 | Some (pre, build) =>
                     match bad_identifier (Split "."%char pre) with
                     | Some comp => inr (ErrZeroPrefixed comp str)
                     | None => inl (MkVersion nums sv pre build)
                     end
                 end
               else inl (MkVersion nums sv "" "")
           end
  end.

Definition ParseGeneric (str : string) : Version + parse_error := parse str false.

Definition ParseSemantic (str : string) : Version + parse_error := parse str true.

(** [None] is the panic. *)
Definition MustParseGeneric (str : string) : option Version :=
  match ParseGeneric str with inl v => Some v | inr _ => None end.

Definition MustParseSemantic (str : string) : option Version :=
  match ParseSemantic str with inl v => Some v | inr _ => None end.

(** ** Accessors

    [None] is the panic of an index out of range. *)

Definition Major (v : Version) : option N := components v !! 0.

Definition Minor (v : Version) : option N := components v !! 1.

Definition Patch (v : Version) : option N :=
  if bool_decide (length (components v) < 3) then Some 0%N else components v !! 2.

Definition with_components (v : Version) (l : list N) : Version :=
  MkVersion l (semver v) (preRelease v) (buildMetadata v).

Definition WithMajor (v : Version) (major : N) : option Version :=
  minor ← Minor v; patch ← Patch v; Some (with_components v [major; minor; patch]).

Definition WithMinor (v : Version) (minor : N) : option Version :=
  major ← Major v; patch ← Patch v; Some (with_components v [major; minor; patch]).

Definition WithPatch (v : Version) (patch : N) : option Version :=
  major ← Major v; minor ← Minor v; Some (with_components v [major; minor; patch]).

Definition WithPreRelease (v : Version) (pre : string) : option Version :=
  major ← Major v; minor ← Minor v; patch ← Patch v;
  Some (MkVersion [major; minor; patch] (semver v) pre (buildMetadata v)).

Definition WithBuildMetadata (v : Version) (build : string) : option Version :=
  major ← Major v; minor ← Minor v; patch ← Patch v;
  Some (MkVersion [major; minor; patch] (semver v) (preRelease v) build).

(** ** [String] *)

Definition render_extra (pre build : string) : string :=
  (if decide (pre = "") then "" else "-" +:+ pre)
  +:+ (if decide (build = "") then "" else "+" +:+ build).

Definition render_numbers (nums : list N) : string := Join (pretty <$> nums) ".".

(** The receiver may be nil. *)
Definition Version_String (v : option Version) : string :=
  match v with
  | None => "<nil>"
  | Some v => render_numbers (components v) +:+ render_extra (preRelease v) (buildMetadata v)
  end.

(** ** Comparison *)

Definition onlyZeros (array : list N) : bool := forallb (λ num, bool_decide (num = 0%N)) array.

(** The loop over the common indices: [Some] is the early return. *)
Fixpoint cmp_common (v o : list N) : option Z :=
  match v, o with
  | x :: v', y :: o' =>
      if bool_decide (y < x)%N then Some 1%Z
      else if bool_decide (x < y)%N then Some (-1)%Z
      else cmp_common v' o'
  | _, _ => None
  end.

(** Go's [<] on strings. *)
Definition string_lt (a b : string) : bool := String.ltb a b.

(** One turn of the loop over the pre-release identifiers. *)
Definition cmp_identifier (x y : string) : option Z :=
  let by_text :=
    if string_lt y x then Some 1%Z else if string_lt x y then Some (-1)%Z else None in
  match ParseUint x, ParseUint y with
  | Some vNum, Some oNum =>
      if bool_decide (oNum < vNum)%N then Some 1%Z
      else if bool_decide (vNum < oNum)%N then Some (-1)%Z
      else None
  | _, _ => by_text
  end.

Fixpoint cmp_identifiers (v o : list string) : option Z :=
  match v, o with
  | x :: v', y :: o' =>
      match cmp_identifier x y with Some r => Some r | None => cmp_identifiers v' o' end
  | _, _ => None
  end.

Definition cmp_preRelease (v o : string) : Z :=
  if bool_decide (v = "") && negb (bool_decide (o = "")) then 1
  else if negb (bool_decide (v = "")) && bool_decide (o = "") then -1
  else if bool_decide (v = o) then 0
  else
    let vPR := Split "."%char v in
    let oPR := Split "."%char o in
    match cmp_identifiers vPR oPR with
    | Some r => r
    | None =>
        if bool_decide (length oPR < length vPR) then 1
        else if bool_decide (length vPR < length oPR) then -1
        else 0
    end.

Definition compareInternal (v other : Version) : Z :=
  let vc := components v in
  let oc := components other in
  match cmp_common vc oc with
  | Some r => r
  | None =>
      if bool_decide (length oc < length vc) && negb (onlyZeros (drop (length oc) vc)) then 1
      else if bool_decide (length vc < length oc) && negb (onlyZeros (drop (length vc) oc)) then -1
      else if negb (semver v) || negb (semver other) then 0
      else cmp_preRelease (preRelease v) (preRelease other)
  end.

Definition AtLeast (v min : Version) : bool := negb (bool_decide (compareInternal v min = -1)%Z).

Definition LessThan (v other : Version) : bool := bool_decide (compareInternal v other = -1)%Z.

Definition Compare (v : Version) (other : string) : Z + parse_error :=
  match parse other (semver v) with
  | inl ov => inl (compareInternal v ov)
  | inr e => inr e
  end.

(** ** The matchers *)

Section dotted.

Variable p : Ascii.ascii → bool.
Hypothesis p_dot : p "."%char = false.

(** A non-empty run of the class. *)
Definition run_of (h : string) : Prop := h ≠ "" ∧ all_chars p h = true.

(** What [dots] consumes: the first run may be empty. *)
Definition dots_ok (a : string) : Prop :=
  match Split "."%char a with h :: t => all_chars p h = true ∧ Forall run_of t | [] => False end.

(** Where the longest match ends. *)
Definition stops (b : string) : Prop :=
  match b with
  | EmptyString => True
  | String c r =>
      p c = false ∧
      (c = "."%char → match r with String d _ => p d = false | EmptyString => True end)
  end.

Lemma run_of_head h t a :
  Split "."%char a = h :: t → run_of h → ∃ d r, a = String d r ∧ p d = true.
Proof.
  destruct a as [|d a]; simpl; [by intros [= <- <-] [[] _]|].
  intros H [Hne Hh]. exists d, a. split; [done|].
  case_decide; [by simplify_eq|]. case_match; simplify_eq/=; by apply andb_true_iff in Hh as [? _].
Qed.

Lemma dots_complete a b : dots_ok a → stops b → dots p (a +:+ b) = (a, b).
Proof using p_dot.
  induction a as [|c a IH]; intros Ha Hb.
  { destruct b as [|c r]; [done|]. destruct Hb as [Hc Hr]. simpl. rewrite Hc.
    case_decide; [|done]. specialize (Hr H). destruct r as [|d r]; [done|]. by rewrite Hr. }
  rewrite string_app_cons. unfold dots_ok in Ha. cbn [Split] in Ha. simpl.
  destruct (decide (c = "."%char)) as [->|Hc].
  - destruct Ha as [_ Ha]. rewrite p_dot.
    destruct (Split "."%char a) as [|h t] eqn:Es; [by destruct (Split_nonempty "."%char a)|].
    inversion Ha as [|?? Hh Ht]; subst.
    destruct (run_of_head h t a Es Hh) as (d & r & -> & Hd).
    rewrite string_app_cons in IH |- *. rewrite Hd. rewrite IH; [done| |done].
    unfold dots_ok. rewrite Es. by destruct Hh.
  - destruct (Split "."%char a) as [|h t] eqn:Es; [by destruct (Split_nonempty "."%char a)|].
    destruct Ha as [Hh Ht]. simpl in Hh. apply andb_true_iff in Hh as [-> Hh].
    rewrite IH; [done| |done]. unfold dots_ok. by rewrite Es.
Qed.

Lemma dots_sound s a b : dots p s = (a, b) → s = a +:+ b ∧ dots_ok a ∧ stops b.
Proof using p_dot.
  revert a b. induction s as [|c s IH]; intros a b; [by intros [= <- <-]|].
  cbn [dots]. destruct (p c) eqn:Hc.
  - destruct (dots p s) as [a' b'] eqn:Ed. intros [= <- <-].
    destruct (IH a' b' eq_refl) as (-> & Ha & Hb). repeat split; [|done].
    unfold dots_ok in *. cbn [Split]. rewrite decide_False by congruence.
    destruct (Split "."%char a') as [|h t]; [done|]. destruct Ha as [Hh Ht].
    simpl. by rewrite Hc, Hh.
  - case_decide as Hd; [|by intros [= <- <-]].
    destruct s as [|d s]; [by intros [= <- <-]|].
    destruct (p d) eqn:Hpd; [|by intros [= <- <-]].
    destruct (dots p (String d s)) as [a' b'] eqn:Ed. intros [= <- <-].
    destruct (IH a' b' eq_refl) as (Es & Ha & Hb).
    split; [by rewrite string_app_cons, <- Es|]. split; [|done].
    unfold dots_ok in *. cbn [Split]. rewrite decide_True by done. split; [done|].
    destruct (Split "."%char a') as [|h t] eqn:Ea; [done|]. destruct Ha as [Hh Ht].
    constructor; [|done]. split; [|done]. intros ->.
    destruct a' as [|x a']; [change ("" +:+ b') with b' in Es; rewrite <- Es in Hb; destruct Hb; congruence|].
    rewrite string_app_cons in Es. simplify_eq/=.
    rewrite decide_False in Ea by congruence. by destruct (Split "."%char a').
Qed.

Lemma dotted_iff s a b :
  dotted p s = Some (a, b) ↔ s = a +:+ b ∧ Forall run_of (Split "."%char a) ∧ stops b.
Proof using p_dot.
  unfold dotted. split.
  - destruct s as [|c s'] eqn:Es; [done|]. destruct (p c) eqn:Hc; [|done].
    rewrite <- Es. intros [= Hd]. apply dots_sound in Hd as (Hs & Ha & Hb).
    repeat split; [done| |done]. unfold dots_ok in Ha.
    destruct (Split "."%char a) as [|h t] eqn:Ea; [done|]. destruct Ha as [Hh Ht].
    constructor; [|done]. split; [|done]. intros ->.
    destruct a as [|x a]; [change ("" +:+ b) with b in Hs; rewrite <- Hs, Es in Hb; destruct Hb; congruence|].
    rewrite string_app_cons, Es in Hs. simplify_eq/=.
    rewrite decide_False in Ea by congruence. by destruct (Split "."%char a).
  - intros (-> & Ha & Hb).
    assert (dots_ok a) as Hok.
    { unfold dots_ok. destruct (Split "."%char a) eqn:Ea; [by destruct (Split_nonempty "."%char a)|].
      inversion Ha as [|?? [_ ?] ?]; subst. done. }
    destruct (Split "."%char a) as [|h t] eqn:Ea; [by destruct (Split_nonempty "."%char a)|].
    inversion Ha as [|?? Hh ?]; subst. destruct (run_of_head h t a Ea Hh) as (d & r & -> & Hd).
    rewrite string_app_cons. rewrite Hd. rewrite <- string_app_cons. by rewrite dots_complete.
Qed.

End dotted.

Lemma skip_spaces_app lead s :
  all_chars is_space lead = true → skip_spaces (lead +:+ s) = skip_spaces s.
Proof.
  induction lead as [|c lead IH]; [done|]. rewrite string_app_cons. simpl.
  intros [-> Hl]%andb_true_iff. auto.
Qed.

Lemma skip_spaces_inv s :
  ∃ lead, s = lead +:+ skip_spaces s ∧ all_chars is_space lead = true.
Proof.
  induction s as [|c s (lead & Hs & Hl)]; simpl; [by exists ""|].
  destruct (is_space c) eqn:Hc; [|by exists ""].
  exists (String c lead). rewrite string_app_cons, <- Hs. simpl. by rewrite Hc.
Qed.

(** Dot-separated non-empty identifiers. *)
Definition idents (s : string) : Prop := Forall (run_of is_ident) (Split "."%char s).

Lemma idents_nonempty s : idents s → s ≠ "".
Proof. intros H ->. apply Forall_cons_1 in H as [[Hne _] _]. by apply Hne. Qed.

Lemma optional_group_sound c s a r :
  optional_group c s = (a, r) → (a = "" ∧ r = s) ∨ (s = String c (a +:+ r) ∧ idents a).
Proof.
  destruct s as [|d t]; simpl; [by intros [= <- <-]; left|].
  case_decide as Hd; [|by intros [= <- <-]; left].
  destruct (dotted is_ident t) as [[a' r']|] eqn:Ed; simpl; intros [= <- <-]; [right|by left].
  apply dotted_iff in Ed as (-> & Ha & _); [|done]. by subst.
Qed.

Lemma optional_group_complete c a r :
  idents a → stops is_ident r → optional_group c (String c (a +:+ r)) = (a, r).
Proof.
  intros Ha Hr. simpl. rewrite decide_True by done.
  assert (dotted is_ident (a +:+ r) = Some (a, r)) as -> by (by apply dotted_iff). done.
Qed.

Lemma optional_group_absent c s : HasPrefix s (String c "") = false → optional_group c s = ("", s).
Proof.
  destruct s as [|d t]; [done|]. unfold HasPrefix. simpl.
  case_decide as Hd; [subst d|done]. destruct (Ascii.ascii_dec c c); [by destruct t|done].
Qed.

(** The first character of trailing spaces ends every match and opens no group. *)
Lemma spaces_head ws c r :
  all_chars is_space ws = true → ws = String c r →
  is_ident c = false ∧ is_digit c = false ∧ c ≠ "."%char ∧ c ≠ "-"%char ∧ c ≠ "+"%char.
Proof.
  intros Hw ->. simpl in Hw. apply andb_true_iff in Hw as [Hc _]. revert Hc.
  destruct c as [[] [] [] [] [] [] [] []]; vm_compute; intros H; try discriminate H;
    repeat split; done.
Qed.

Lemma spaces_stops ws : all_chars is_space ws = true → stops is_ident ws ∧ stops is_digit ws.
Proof.
  destruct ws as [|c r]; [done|]. intros H.
  destruct (spaces_head _ c r H eq_refl) as (Hi & Hd & Hdot & _). by repeat split.
Qed.

Lemma spaces_no_group ws c :
  all_chars is_space ws = true → c = "-"%char ∨ c = "+"%char → HasPrefix ws (String c "") = false.
Proof.
  destruct ws as [|d r]; [done|]. intros H Hc.
  destruct (spaces_head _ d r H eq_refl) as (_ & _ & _ & Hm & Hp).
  unfold HasPrefix. simpl. destruct (Ascii.ascii_dec c d); [|done]. naive_solver.
Qed.

Lemma render_extra_cases pre build ws :
  render_extra pre build +:+ ws =
    (if decide (pre = "") then "" else "-" +:+ pre)
    +:+ ((if decide (build = "") then "" else "+" +:+ build) +:+ ws).
Proof. unfold render_extra. by rewrite string_app_assoc. Qed.

Lemma build_group build ws :
  build = "" ∨ idents build → all_chars is_space ws = true →
  optional_group "+"%char ((if decide (build = "") then "" else "+" +:+ build) +:+ ws) = (build, ws).
Proof.
  intros Hb Hw. case_decide as E.
  - subst. apply optional_group_absent, spaces_no_group; auto.
  - destruct Hb as [?|Hb]; [done|]. rewrite string_app_cons.
    apply (optional_group_complete "+"%char build ws); [done|]. by apply spaces_stops.
Qed.

Lemma build_stops build ws :
  all_chars is_space ws = true →
  let r := (if decide (build = "") then "" else "+" +:+ build) +:+ ws in
  stops is_ident r ∧ stops is_digit r ∧ HasPrefix r "-" = false.
Proof.
  intros Hw r. unfold r. case_decide.
  - destruct (spaces_stops ws Hw). repeat split; [done..|]. apply spaces_no_group; auto.
  - rewrite string_app_cons. repeat split; done.
Qed.

(** The second expression matches exactly the rendered extras followed by spaces. *)
Lemma extraMatchRE_iff s pre build :
  extraMatchRE s = Some (pre, build) ↔
  (pre = "" ∨ idents pre) ∧ (build = "" ∨ idents build) ∧
  ∃ ws, s = render_extra pre build +:+ ws ∧ all_chars is_space ws = true.
Proof.
  unfold extraMatchRE. split.
  - destruct (optional_group "-"%char s) as [a r] eqn:E1.
    destruct (optional_group "+"%char r) as [b r'] eqn:E2.
    case_match eqn:Hw; [|done]. intros [= <- <-].
    apply optional_group_sound in E1, E2.
    assert (b = "" ∨ idents b) by (destruct E2 as [[-> _]|[_ ?]]; auto).
    assert (a = "" ∨ idents a) by (destruct E1 as [[-> _]|[_ ?]]; auto).
    do 2 (split; [done|]). exists r'. split; [|done]. rewrite render_extra_cases.
    assert (r = (if decide (b = "") then "" else "+" +:+ b) +:+ r') as <-.
    { destruct E2 as [[-> ->]|[-> Hb]]; [done|].
      rewrite decide_False by (by apply idents_nonempty). by rewrite string_app_cons. }
    destruct E1 as [[-> ->]|[-> Ha]]; [done|].
    rewrite decide_False by (by apply idents_nonempty). by rewrite string_app_cons.
  - intros (Hp & Hb & ws & -> & Hw). rewrite render_extra_cases.
    destruct (build_stops build ws Hw) as (Hs & _ & Hn).
    assert (optional_group "-"%char
      ((if decide (pre = "") then "" else "-" +:+ pre) +:+
       ((if decide (build = "") then "" else "+" +:+ build) +:+ ws)) =
      (pre, (if decide (build = "") then "" else "+" +:+ build) +:+ ws)) as ->.
    { destruct (decide (pre = "")) as [->|Hne]; [by apply optional_group_absent|].
      destruct Hp as [?|Hp]; [done|]. rewrite string_app_cons.
      by apply (optional_group_complete "-"%char pre). }
    rewrite build_group by done. by rewrite Hw.
Qed.

(** Decorations that [parse] ignores before the number. *)
Definition lead_ok (lead opt_v : string) : Prop :=
  all_chars is_space lead = true ∧ (opt_v = "" ∨ opt_v = "v").

Definition no_LF (s : string) : bool := all_chars (λ c, negb (bool_decide (c = LF))) s.

Lemma digits_head numbers rest :
  Forall (run_of is_digit) (Split "."%char numbers) →
  ∃ d r, numbers +:+ rest = String d r ∧ is_digit d = true.
Proof.
  intros H. destruct (Split "."%char numbers) as [|h t] eqn:E; [by destruct (Split_nonempty "."%char numbers)|].
  apply Forall_cons_1 in H as [Hh _].
  destruct (run_of_head is_digit h t numbers E Hh) as (d & r & -> & Hd).
  exists d, (r +:+ rest). by rewrite string_app_cons.
Qed.

Lemma digit_head_kept d r opt_v :
  is_digit d = true → opt_v = "" ∨ opt_v = "v" →
  TrimPrefix (skip_spaces (opt_v +:+ String d r)) "v" = String d r.
Proof.
  intros Hd [-> | ->]; [|done].
  change ("" +:+ String d r) with (String d r). simpl.
  assert (is_space d = false ∧ d ≠ "v"%char) as [-> Hv].
  { revert Hd. destruct d as [[] [] [] [] [] [] [] []]; vm_compute; intros H; try discriminate H; done. }
  unfold TrimPrefix. simpl. by rewrite decide_False by congruence.
Qed.

Lemma TrimPrefix_v s : ∃ opt_v, s = opt_v +:+ TrimPrefix s "v" ∧ (opt_v = "" ∨ opt_v = "v").
Proof.
  unfold TrimPrefix. destruct (drop_prefix "v" s) as [t|] eqn:E; simpl.
  - apply drop_prefix_Some in E. exists "v". auto.
  - exists "". auto.
Qed.

Lemma versionMatchRE_iff str numbers extra :
  versionMatchRE str = Some (numbers, extra) ↔
  (∃ lead opt_v, str = lead +:+ (opt_v +:+ (numbers +:+ extra)) ∧ lead_ok lead opt_v) ∧
  Forall (run_of is_digit) (Split "."%char numbers) ∧ stops is_digit extra ∧ no_LF extra = true.
Proof.
  unfold versionMatchRE. split.
  - intros H. apply bind_Some in H as ([n e] & Hd & H). case_match eqn:Hlf; [|done].
    simplify_eq. apply dotted_iff in Hd as (Hs & Hn & He); [|done].
    split; [|done].
    destruct (skip_spaces_inv str) as (lead & E1 & Hl).
    destruct (TrimPrefix_v (skip_spaces str)) as (ov & E2 & Hov).
    exists lead, ov. rewrite <- Hs, <- E2. done.
  - intros ((lead & ov & -> & Hl & Hov) & Hn & He & Hlf).
    rewrite skip_spaces_app by done.
    destruct (digits_head numbers extra Hn) as (d & r & E & Hd).
    rewrite E, digit_head_kept, <- E by done.
    assert (dotted is_digit (numbers +:+ extra) = Some (numbers, extra)) as ->
      by (by apply dotted_iff).
    simpl. unfold no_LF in Hlf. by rewrite Hlf.
Qed.

Lemma parse_components_sound str sv i comps nums :
  parse_components str sv i comps = inl nums →
  Forall2 (λ c n, ParseUint c = Some n) comps nums ∧
  (sv = true → Forall (λ c, zero_prefixed c = false) comps).
Proof.
  revert i nums. induction comps as [|c comps IH]; intros i nums; simpl.
  { intros [= <-]. by split. }
  case_match eqn:Hz; [done|]. destruct (ParseUint c) eqn:Hc; [|done].
  destruct (parse_components _ _ _ _) eqn:Hr; [|done]. intros [= <-].
  apply IH in Hr as [H1 H2]. split; [by constructor|].
  intros ->. constructor; [|auto]. by rewrite orb_true_r in Hz.
Qed.

Lemma parse_components_complete str sv i (nums : list N) :
  Forall (λ n, n < 2 ^ 64)%N nums → parse_components str sv i (pretty <$> nums) = inl nums.
Proof.
  revert i. induction nums as [|n nums IH]; intros i; [done|].
  intros [Hn Hl]%Forall_cons_1. cbn [fmap list_fmap parse_components].
  by rewrite zero_prefixed_pretty, andb_false_r, ParseUint_pretty, IH.
Qed.

Lemma parse_components_bounded comps nums :
  Forall2 (λ c n, ParseUint c = Some n) comps nums → Forall (λ n, n < 2 ^ 64)%N nums.
Proof. induction 1; constructor; [|done]. by eapply ParseUint_Some. Qed.

Lemma parse_components_printed comps (nums : list N) :
  Forall2 (λ c n, ParseUint c = Some n) comps nums →
  Forall (λ c, zero_prefixed c = false) comps → comps = pretty <$> nums.
Proof.
  induction 1 as [|c n comps nums Hc _ IH]; [done|]. intros [Hz Hl]%Forall_cons_1.
  cbn [fmap list_fmap]. f_equal; [|auto]. by apply ParseUint_Some.
Qed.

(** No pre-release identifier is a number with leading zeroes. *)
Definition no_zero_prefixed (pre : string) : Prop :=
  Forall (λ c, is_Some (ParseUint c) → zero_prefixed c = false) (Split "."%char pre).

Lemma bad_identifier_None pre :
  bad_identifier (Split "."%char pre) = None ↔ no_zero_prefixed pre.
Proof.
  unfold no_zero_prefixed. generalize (Split "."%char pre) as l.
  induction l as [|c l IH]; simpl; [by split|].
  rewrite Forall_cons, <- IH. destruct (ParseUint c) as [n|] eqn:Hn.
  - destruct (zero_prefixed c); [|naive_solver].
    split; [done|]. intros [Hz _]. assert (true = false) by eauto. done.
  - assert (¬ is_Some (@None N)) as Hno by (by intros []). naive_solver.
Qed.

(** The printed numbers split back into their printed components. *)
Lemma Split_render (nums : list N) :
  nums ≠ [] →
  Split "."%char (render_numbers nums) = pretty <$> nums ∧
  Forall (run_of is_digit) (Split "."%char (render_numbers nums)).
Proof.
  intros Hne. assert (Split "."%char (render_numbers nums) = pretty <$> nums) as ->.
  { unfold render_numbers. apply Split_Join; [by destruct nums|].
    apply Forall_fmap, Forall_forall. intros n _. simpl.
    eapply all_chars_impl, (pretty_digits n). intros a Ha.
    apply negb_true_iff, bool_decide_eq_false. by intros ->. }
  split; [done|]. apply Forall_fmap, Forall_forall. intros n _.
  destruct (pretty_digits n). by split.
Qed.

(** ** What [parse] accepts *)

Definition bounded (v : Version) : Prop := Forall (λ n, n < 2 ^ 64)%N (components v).

(** The versions that the semantic parser can return. *)
Definition semantic_ok (v : Version) : Prop :=
  semver v = true ∧ length (components v) = 3 ∧ bounded v ∧
  (preRelease v = "" ∨ idents (preRelease v)) ∧
  (buildMetadata v = "" ∨ idents (buildMetadata v)) ∧
  no_zero_prefixed (preRelease v).

(** The versions that the generic parser can return. *)
Definition generic_ok (v : Version) : Prop :=
  semver v = false ∧ 2 ≤ length (components v) ∧ bounded v ∧
  preRelease v = "" ∧ buildMetadata v = "".

Lemma idents_no_LF s : idents s → no_LF s = true.
Proof.
  unfold idents, no_LF. rewrite <- (Join_Split "."%char s) at 2.
  generalize (Split "."%char s) as l. induction l as [|h l IH]; [done|].
  intros [[_ Hh] Hl]%Forall_cons_1.
  assert (no_LF h = true) as Hh'.
  { eapply all_chars_impl, Hh. intros a Ha. apply negb_true_iff, bool_decide_eq_false. by intros ->. }
  destruct l as [|h' l]; [done|].
  change (Join (h :: h' :: l) ".") with (h +:+ String "." (Join (h' :: l) ".")).
  rewrite all_chars_app. unfold no_LF in Hh'. rewrite Hh'. apply (IH Hl).
Qed.

Lemma render_extra_no_LF pre build trail :
  pre = "" ∨ idents pre → build = "" ∨ idents build → no_LF trail = true →
  no_LF (render_extra pre build +:+ trail) = true.
Proof.
  assert (∀ (s : string) c, c ≠ LF → s = "" ∨ idents s →
    no_LF (if decide (s = "") then "" else String c "" +:+ s) = true) as Hpart.
  { intros s c Hc [->|Hs]; [done|]. case_decide; [done|].
    rewrite string_app_cons. unfold no_LF. simpl.
    rewrite bool_decide_false by done. by apply idents_no_LF. }
  assert ("-"%char ≠ LF ∧ "+"%char ≠ LF) as [Hm Hq] by done.
  intros Hp Hb Ht. unfold no_LF, render_extra in *. rewrite !all_chars_app, Ht.
  by rewrite (Hpart pre "-"%char Hm Hp), (Hpart build "+"%char Hq Hb).
Qed.

Lemma render_extra_stops pre build trail :
  all_chars is_space trail = true → stops is_digit (render_extra pre build +:+ trail).
Proof.
  intros Ht. rewrite render_extra_cases. destruct (build_stops build trail Ht) as (_ & Hs & _).
  destruct (decide (pre = "")); [done|]. rewrite string_app_cons. by split.
Qed.

Lemma no_zero_prefixed_empty : no_zero_prefixed "".
Proof. constructor; [|done]. by intros []. Qed.

(** The number part of [parse], for both kinds of version. *)
Lemma parse_numbers str sv v :
  parse str sv = inl v →
  ∃ numbers extra,
    versionMatchRE str = Some (numbers, extra) ∧
    parse_components str sv 0 (Split "."%char numbers) = inl (components v) ∧
    semver v = sv ∧
    (if sv then length (components v) = 3 else 2 ≤ length (components v)) ∧
    (if sv then
       (extra = "" ∧ preRelease v = "" ∧ buildMetadata v = "") ∨
       (extraMatchRE extra = Some (preRelease v, buildMetadata v) ∧ no_zero_prefixed (preRelease v))
     else preRelease v = "" ∧ buildMetadata v = "").
Proof.
  unfold parse. destruct (versionMatchRE str) as [[numbers extra]|]; [|done].
  case_match eqn:Hlen; [done|].
  destruct (parse_components _ _ _ _) as [nums|] eqn:Hc; [|done]. intros H.
  destruct (parse_components_sound _ _ _ _ _ Hc) as [Hf _]. apply Forall2_length in Hf.
  assert (if sv then length nums = 3 else 2 ≤ length nums) as Hl.
  { clear H. rewrite <- Hf. destruct sv; simpl in Hlen; case_bool_decide; try done; lia. }
  exists numbers, extra. destruct sv; simpl in H; [|by simplify_eq/=].
  case_bool_decide; simpl in H; [simplify_eq/=; by auto 10|].
  destruct (extraMatchRE extra) as [[pre build]|] eqn:He; [|done].
  destruct (bad_identifier _) eqn:Hb; [done|]. apply bad_identifier_None in Hb.
  simplify_eq/=. by auto 10.
Qed.

(** Parsing the printed form, with spaces and a v before it and spaces after. *)
Lemma parse_semantic_printed v lead opt_v trail :
  semantic_ok v → lead_ok lead opt_v → all_chars is_space trail = true → no_LF trail = true →
  parse (lead +:+ (opt_v +:+ (Version_String (Some v) +:+ trail))) true = inl v.
Proof.
  destruct v as [nums sv pre build]. intros (Hsv & Hlen & Hb & Hp & Hm & Hz) Hl Ht Hlf.
  simpl in *. subst sv. unfold parse. rewrite string_app_assoc.
  assert (nums ≠ []) as Hne by (by intros ->).
  destruct (Split_render nums Hne) as [Hs Hr].
  set (str := lead +:+ _).
  assert (versionMatchRE str = Some (render_numbers nums, render_extra pre build +:+ trail)) as ->.
  { apply versionMatchRE_iff. split; [by exists lead, opt_v|].
    auto using render_extra_stops, render_extra_no_LF. }
  rewrite Hs, length_fmap, Hlen, parse_components_complete by done. simpl.
  case_bool_decide as He; simpl.
  - assert (pre = "" ∧ build = "") as [-> ->]; [|done].
    rewrite render_extra_cases in He. destruct (decide (pre = "")); [|done].
    by destruct (decide (build = "")).
  - assert (extraMatchRE (render_extra pre build +:+ trail) = Some (pre, build)) as ->
      by (apply extraMatchRE_iff; eauto).
    by apply bad_identifier_None in Hz as ->.
Qed.

(** Everything the semantic parser returns is well-formed, and was read from its
    own printed form. *)
Lemma parse_semantic_sound str v :
  parse str true = inl v →
  semantic_ok v ∧
  ∃ lead opt_v trail,
    str = lead +:+ (opt_v +:+ (Version_String (Some v) +:+ trail)) ∧
    lead_ok lead opt_v ∧ all_chars is_space trail = true ∧ no_LF trail = true.
Proof.
  intros H. destruct (parse_numbers str true v H) as (numbers & extra & Hm & Hc & Hsv & Hlen & He).
  apply versionMatchRE_iff in Hm as ((lead & opt_v & -> & Hl) & Hn & _ & Hlf).
  destruct (parse_components_sound _ _ _ _ _ Hc) as [Hf Hz].
  assert (numbers = render_numbers (components v)) as ->.
  { rewrite <- (Join_Split "."%char numbers). unfold render_numbers.
    by rewrite (parse_components_printed _ _ Hf (Hz eq_refl)). }
  apply parse_components_bounded in Hf.
  destruct He as [(-> & Hp & Hb)|[Hx Hz']].
  - split; [by repeat split; auto; rewrite Hp; apply no_zero_prefixed_empty|].
    exists lead, opt_v, "". simpl. by rewrite Hp, Hb, !string_app_assoc.
  - apply extraMatchRE_iff in Hx as (Hp & Hb & ws & -> & Hw).
    split; [by repeat split|]. exists lead, opt_v, ws. simpl. rewrite string_app_assoc.
    repeat split; try done; try apply Hl.
    unfold no_LF in *. rewrite all_chars_app in Hlf. by apply andb_true_iff in Hlf as [_ ?].
Qed.

Lemma parse_generic_sound str v : parse str false = inl v → generic_ok v.
Proof.
  intros H. destruct (parse_numbers str false v H) as (numbers & extra & _ & Hc & Hsv & Hlen & Hp & Hb).
  apply parse_components_sound in Hc as [Hf _]. apply parse_components_bounded in Hf.
  by repeat split.
Qed.

Lemma parse_generic_printed v :
  generic_ok v → parse (Version_String (Some v)) false = inl v.
Proof.
  destruct v as [nums sv pre build]. intros (Hsv & Hlen & Hb & Hp & Hm). simpl in *. subst.
  assert (nums ≠ []) as Hne by (intros ->; simpl in Hlen; lia).
  destruct (Split_render nums Hne) as [Hs Hr]. unfold parse.
  change (render_extra "" "") with "". rewrite string_app_nil_r.
  assert (versionMatchRE (render_numbers nums) = Some (render_numbers nums, "")) as ->.
  { apply versionMatchRE_iff. split; [|done]. exists "", "".
    rewrite string_app_nil_r. repeat split; auto. }
  rewrite Hs, length_fmap, parse_components_complete by done. simpl.
  by rewrite bool_decide_false by lia.
Qed.

(** [ParseSemantic] accepts exactly the strings that print a version with
    three components of 64 bits, well-formed extras and no zero-prefixed number,
    preceded by spaces and an optional v and followed by spaces other than a line
    feed; and it returns that version. *)
Theorem ParseSemantic_ok_iff str v :
  ParseSemantic str = inl v ↔
  semantic_ok v ∧
  ∃ lead opt_v trail,
    str = lead +:+ (opt_v +:+ (Version_String (Some v) +:+ trail)) ∧
    lead_ok lead opt_v ∧ all_chars is_space trail = true ∧ no_LF trail = true.
Proof.
  unfold ParseSemantic. split; [by apply parse_semantic_sound|].
  intros (Hv & lead & opt_v & trail & -> & Hl & Ht & Hlf). by apply parse_semantic_printed.
Qed.

(** Printing a parsed version and parsing it again, in the same mode, gives
    the same version: the printed form is canonical and always accepted, for
    semantic versions (extras included) and for generic ones. *)
Theorem parse_round_trip str sv v :
  parse str sv = inl v → parse (Version_String (Some v)) sv = inl v.
Proof.
  destruct sv; intros H.
  - apply parse_semantic_sound in H as [Hv _].
    rewrite <- (string_app_nil_r (Version_String (Some v))).
    apply (parse_semantic_printed v "" "" ""); [done| |done..]. by split; auto.
  - by apply parse_generic_printed, (parse_generic_sound str).
Qed.

Lemma parse_round_trip_witness :
  parse " v1.02.3-rc1" false = inl (MkVersion [1; 2; 3]%N false "" "") ∧
  parse "1.2.3" false = inl (MkVersion [1; 2; 3]%N false "" "").
Proof.
  split; [vm_compute; reflexivity|].
  apply (parse_round_trip " v1.02.3-rc1" false (MkVersion [1; 2; 3]%N false "" "")).
  vm_compute; reflexivity.
Defined.

(** Trailing spaces are ignored, a trailing line feed is not. *)
Example trailing_newline_rejected :
  ParseSemantic "1.2.3 " = inl (MkVersion [1; 2; 3]%N true "" "") ∧
  (let s := "1.2.3" +:+ String LF "" in
   ParseSemantic s = inr (ErrNoMatch s) ∧ ParseGeneric s = inr (ErrNoMatch s)).
Proof. vm_compute. repeat split. Qed.

(** A parsed version has the components that the accessors index: none of them
    panics. *)
Lemma accessors_total str sv v :
  parse str sv = inl v → is_Some (Major v) ∧ is_Some (Minor v) ∧ is_Some (Patch v).
Proof.
  intros H. assert (2 ≤ length (components v)) as Hl.
  { destruct sv; [apply parse_semantic_sound in H as [(_ & -> & _) _]; lia|].
    by apply parse_generic_sound in H as (_ & ? & _). }
  unfold Major, Minor, Patch. rewrite !lookup_lt_is_Some.
  repeat split; [lia..|]. case_bool_decide; [done|]. apply lookup_lt_is_Some. lia.
Qed.

(** ** Comparison *)

(** Component [i], absent components counting as zero. *)
Definition comp_at (l : list N) (i : nat) : N := default 0%N (l !! i).

(** The comparison of the numbers as one recursion. *)
Fixpoint cmp_numbers (v o : list N) : option Z :=
  match v, o with
  | [], _ => if onlyZeros o then None else Some (-1)%Z
  | _, [] => if onlyZeros v then None else Some 1%Z
  | x :: v', y :: o' =>
      if bool_decide (y < x)%N then Some 1%Z
      else if bool_decide (x < y)%N then Some (-1)%Z
      else cmp_numbers v' o'
  end.

Lemma cmp_numbers_eq v o :
  cmp_numbers v o =
    match cmp_common v o with
    | Some r => Some r
    | None =>
        if bool_decide (length o < length v) && negb (onlyZeros (drop (length o) v)) then Some 1%Z
        else if bool_decide (length v < length o) && negb (onlyZeros (drop (length v) o))
        then Some (-1)%Z
        else None
    end.
Proof.
  revert o. induction v as [|x v IH]; intros [|y o].
  - done.
  - cbn [cmp_numbers cmp_common length drop].
    rewrite (bool_decide_false (S (length o) < 0)), (bool_decide_true (0 < S (length o))) by lia.
    cbn [andb]. by destruct (onlyZeros (y :: o)).
  - cbn [cmp_numbers cmp_common length drop].
    rewrite (bool_decide_false (S (length v) < 0)), (bool_decide_true (0 < S (length v))) by lia.
    cbn [andb]. by destruct (onlyZeros (x :: v)).
  - cbn [cmp_numbers cmp_common length drop]. rewrite IH.
    rewrite (bool_decide_ext (S (length o) < S (length v)) (length o < length v)) by lia.
    rewrite (bool_decide_ext (S (length v) < S (length o)) (length v < length o)) by lia.
    by repeat case_match.
Qed.

Lemma compareInternal_eq v o :
  compareInternal v o =
    match cmp_numbers (components v) (components o) with
    | Some r => r
    | None => if semver v && semver o then cmp_preRelease (preRelease v) (preRelease o) else 0%Z
    end.
Proof.
  unfold compareInternal. rewrite cmp_numbers_eq.
  destruct (cmp_common _ _); [done|]. repeat (case_match; try done); by destruct (semver v), (semver o).
Qed.

Lemma onlyZeros_iff l : onlyZeros l = true ↔ ∀ i, comp_at l i = 0%N.
Proof.
  unfold onlyZeros, comp_at. rewrite <- Is_true_true, forallb_True, Forall_lookup. split.
  - intros H i. destruct (l !! i) as [n|] eqn:E; [|done]. apply H in E. by apply bool_decide_unpack in E.
  - intros H i n E. specialize (H i). rewrite E in H. simpl in H. by rewrite bool_decide_true.
Qed.

(** The sign of the first difference between two component sequences. *)
Definition numbers_spec (v o : list N) (r : option Z) : Prop :=
  match r with
  | None => ∀ i, comp_at v i = comp_at o i
  | Some c => ∃ i, (∀ j, j < i → comp_at v j = comp_at o j) ∧
      ((c = 1%Z ∧ (comp_at o i < comp_at v i)%N) ∨ (c = (-1)%Z ∧ (comp_at v i < comp_at o i)%N))
  end.

(** A sequence that is not all zeroes has a first component that is not. *)
Lemma first_nonzero l :
  onlyZeros l = false → ∃ i, (∀ j, j < i → comp_at l j = 0%N) ∧ (0 < comp_at l i)%N.
Proof.
  induction l as [|x l IH]; simpl; [done|].
  destruct (decide (x = 0%N)) as [->|Hx]; simpl.
  - intros H. destruct (IH H) as (i & Hj & Hi). exists (S i). split; [|done].
    intros [|j] Hlt; [done|]. apply Hj. lia.
  - intros _. exists 0. split; [lia|]. unfold comp_at. simpl. lia.
Qed.

Lemma numbers_spec_cons x y v o r :
  x = y → numbers_spec v o r → numbers_spec (x :: v) (y :: o) r.
Proof.
  intros ->. destruct r as [c|]; simpl.
  - intros (i & Hj & Hi). exists (S i). split; [|done]. intros [|j] ?; [done|]. apply Hj. lia.
  - by intros H [|i]; [|apply H].
Qed.

Lemma cmp_numbers_spec v o : numbers_spec v o (cmp_numbers v o).
Proof.
  revert o. induction v as [|x v IH]; intros o.
  { simpl. destruct (onlyZeros o) eqn:E.
    - intros i. by rewrite (proj1 (onlyZeros_iff o) E i).
    - destruct (first_nonzero o E) as (i & Hj & Hi). exists i. split; [|by right].
      intros j Hlt. by rewrite Hj. }
  destruct o as [|y o].
  { cbn [cmp_numbers]. destruct (onlyZeros (x :: v)) eqn:E.
    - intros i. by rewrite (proj1 (onlyZeros_iff (x :: v)) E i).
    - destruct (first_nonzero (x :: v) E) as (i & Hj & Hi). exists i. split; [|by left].
      intros j Hlt. by rewrite Hj. }
  cbn [cmp_numbers]. case_bool_decide; [exists 0; split; [lia|]; by left|].
  case_bool_decide; [exists 0; split; [lia|]; by right|].
  apply numbers_spec_cons; [lia|done].
Qed.

(** The first difference is unique: the specification determines the result. *)
Lemma numbers_spec_unique v o r r' : numbers_spec v o r → numbers_spec v o r' → r = r'.
Proof.
  destruct r as [c|], r' as [c'|]; simpl.
  - intros (i & Hj & Hi) (i' & Hj' & Hi').
    assert (i = i') as <-.
    { destruct (Nat.lt_trichotomy i i') as [Hl|[->|Hl]]; [|done|];
        [specialize (Hj' i Hl)|specialize (Hj i' Hl)]; destruct_or!; lia. }
    f_equal. destruct_or!; lia.
  - intros (i & _ & Hi) H. specialize (H i). destruct_or!; lia.
  - intros H (i & _ & Hi). specialize (H i). destruct_or!; lia.
  - done.
Qed.

Lemma numbers_spec_flip v o r : numbers_spec v o r → numbers_spec o v (Z.opp <$> r).
Proof.
  destruct r as [c|]; simpl; [|done].
  intros (i & Hj & Hi). exists i. split; [by intros j Hl; rewrite Hj|].
  destruct Hi as [[-> ?]|[-> ?]]; auto.
Qed.

Lemma cmp_numbers_flip v o : cmp_numbers o v = Z.opp <$> cmp_numbers v o.
Proof. eapply numbers_spec_unique; [apply cmp_numbers_spec|]. apply numbers_spec_flip, cmp_numbers_spec. Qed.

Lemma string_lt_asym a b : string_lt a b = true → string_lt b a = false.
Proof.
  unfold string_lt, String.ltb. rewrite (String.compare_antisym b a).
  by destruct (String.compare a b).
Qed.

Lemma cmp_identifier_flip x y : cmp_identifier y x = Z.opp <$> cmp_identifier x y.
Proof.
  assert ((if string_lt x y then Some 1%Z else if string_lt y x then Some (-1)%Z else None) =
    Z.opp <$> (if string_lt y x then Some 1%Z else if string_lt x y then Some (-1)%Z else None)) as Ht.
  { destruct (string_lt x y) eqn:E1, (string_lt y x) eqn:E2; try done.
    by rewrite (string_lt_asym _ _ E1) in E2. }
  unfold cmp_identifier. destruct (ParseUint x), (ParseUint y); try done.
  repeat case_bool_decide; try done; lia.
Qed.

Lemma cmp_identifiers_flip v o : cmp_identifiers o v = Z.opp <$> cmp_identifiers v o.
Proof.
  revert o. induction v as [|x v IH]; intros [|y o]; simpl; try done.
  rewrite (cmp_identifier_flip x y). by destruct (cmp_identifier x y); simpl.
Qed.

Lemma cmp_preRelease_flip v o : cmp_preRelease o v = (- cmp_preRelease v o)%Z.
Proof.
  unfold cmp_preRelease. rewrite (cmp_identifiers_flip (Split _ v)).
  destruct (cmp_identifiers _ _); simpl; repeat case_bool_decide; simplify_eq; simpl; try done; lia.
Qed.

(** The numeric comparison: [compareInternal] has the sign of the first
    component in which the versions differ, absent components counting as zero
    (so 1.4 equals 1.4.0); without a difference it is the comparison of the
    pre-releases for two semantic versions and zero otherwise.  It is
    antisymmetric in all cases, so exactly one of [LessThan] and [AtLeast]
    holds, and two versions are never each less than the other. *)
Theorem compareInternal_correct v o :
  let vc := components v in
  let oc := components o in
  (∀ i, (∀ j, j < i → comp_at vc j = comp_at oc j) →
     ((comp_at oc i < comp_at vc i)%N → compareInternal v o = 1%Z) ∧
     ((comp_at vc i < comp_at oc i)%N → compareInternal v o = (-1)%Z)) ∧
  ((∀ i, comp_at vc i = comp_at oc i) →
     compareInternal v o =
       if semver v && semver o then cmp_preRelease (preRelease v) (preRelease o) else 0%Z) ∧
  compareInternal o v = (- compareInternal v o)%Z ∧
  AtLeast v o = negb (LessThan v o) ∧
  (LessThan v o = true → LessThan o v = false ∧ AtLeast o v = true).
Proof.
  intros vc oc.
  assert (compareInternal o v = (- compareInternal v o)%Z) as Hflip.
  { rewrite !compareInternal_eq, (cmp_numbers_flip (components v)), (andb_comm (semver o)),
      (cmp_preRelease_flip (preRelease v)).
    destruct (cmp_numbers _ _); simpl; [done|]. by destruct (_ && _). }
  assert (∀ r, numbers_spec vc oc r → cmp_numbers vc oc = r) as Hn.
  { intros r Hr. eapply numbers_spec_unique; [apply cmp_numbers_spec|done]. }
  split_and!; [|..|done|done|].
  - intros i Hj. split; intros Hi; rewrite compareInternal_eq; fold vc oc.
    + rewrite (Hn (Some 1%Z)); [done|]. exists i. auto.
    + rewrite (Hn (Some (-1)%Z)); [done|]. exists i. auto.
  - intros Hi. rewrite compareInternal_eq. fold vc oc. by rewrite (Hn None).
  - unfold AtLeast, LessThan. rewrite Hflip. intros ->%bool_decide_eq_true. done.
Qed.

(** The comparison of pre-releases is not an order: a number and a text are
    compared as texts, two numbers as numbers, which makes a cycle of three
    versions each less than the next. *)
Example preRelease_cycle :
  let v s := match ParseSemantic s with inl v => v | inr _ => MkVersion [] true "" "" end in
  LessThan (v "1.0.0-9") (v "1.0.0-10") = true ∧
  LessThan (v "1.0.0-10") (v "1.0.0-2a") = true ∧
  LessThan (v "1.0.0-2a") (v "1.0.0-9") = true.
Proof. vm_compute. repeat split. Qed.
