(* ===== verification/Proxy.v ===== *)
(** * The worker's local proxy

    pkg/provision/worker/proxy: a registry of named upstreams (pools of backend
    endpoints) and named downstreams (local listeners), linked by name.

    Upstreams, downstreams and handles are shared by pointer, so the model keeps a
    store per type and the maps of the manager hold positions in these stores.  A
    call of [Link] runs until its downstream stops: the model keeps the calls in
    progress with their phase, and one label of [step] is one critical section of
    the manager or one action of such a call between its critical sections.

    The accepted connections themselves are forwarded by tcpproxy; what the
    program decides is whom it dials: [dial_downstream] is the dial function that
    [Run] hands to tcpproxy, over a network given by the parameter [dialer]. *)

From Stdlib Require Import Ascii.
From S2P Require Import Prelude Numbers.
From stdpp Require Import options.

(** ** Data *)

Record Endpoint := MkEndpoint { Host : string; Port : Z }.

Record Upstream := MkUpstream { u_name : string; u_endpoints : list Endpoint }.

Record Downstream := MkDownstream {
  d_name : string;
  d_listenAddr : string;
  d_upstream : option nat;
}.

Record dsHandle := MkHandle { h_cancelled : bool; h_done : bool }.

(** Where a call of [Link] that started its downstream stands: before
    [proxy.Start] returns, waiting for its context, and after [close(h.done)]
    but before the handle is deleted. *)
Inductive link_phase := Starting | Listening | Finished.

#[export] Instance link_phase_eq_dec : EqDecision link_phase.
Proof. solve_decision. Defined.

Record link_call := MkCall { lc_name : string; lc_ds : nat; lc_phase : link_phase }.

Record Manager := MkManager {
  upstream_store : list Upstream;
  downstream_store : list Downstream;
  handle_store : list dsHandle;
  upstreams : gmap string nat;
  downstreams : gmap string nat;
  handles : gmap string nat;
  ctx_cancelled : bool;
  calls : gmap nat link_call;
}.

Definition NewManager : Manager := MkManager [] [] [] ∅ ∅ ∅ false ∅.

Definition set_upstreams (m : Manager) (st : list Upstream) (ups : gmap string nat) : Manager :=
  MkManager st (downstream_store m) (handle_store m) ups (downstreams m) (handles m)
    (ctx_cancelled m) (calls m).

Definition set_downstreams (m : Manager) (st : list Downstream) (dss : gmap string nat) : Manager :=
  MkManager (upstream_store m) st (handle_store m) (upstreams m) dss (handles m)
    (ctx_cancelled m) (calls m).

Definition set_handles (m : Manager) (st : list dsHandle) (hs : gmap string nat)
    (cs : gmap nat link_call) : Manager :=
  MkManager (upstream_store m) (downstream_store m) st (upstreams m) (downstreams m) hs
    (ctx_cancelled m) cs.

(** ** Upstreams and downstreams *)

(** [net.JoinHostPort]: a host with a colon is bracketed. *)
Definition JoinHostPort (host port : string) : string :=
  if all_chars (λ c, negb (bool_decide (c = ":"%char))) host then host +:+ ":" +:+ port
  else "[" +:+ host +:+ "]:" +:+ port.

Definition Addr (e : Endpoint) : string := JoinHostPort (Host e) (FormatInt (Port e)).

Definition Update (u : Upstream) (endpoints : list Endpoint) : Upstream :=
  MkUpstream (u_name u) endpoints.

Definition with_upstream (d : Downstream) (u : option nat) : Downstream :=
  MkDownstream (d_name d) (d_listenAddr d) u.

(** [Downstream.Link] on the downstream at position [d]: the pointer is swapped;
    [None] is nil. *)
Definition ds_Link (m : Manager) (d : nat) (u : option nat) : Manager :=
  set_downstreams m (alter (λ ds, with_upstream ds u) d (downstream_store m)) (downstreams m).

Definition ds_Unlink (m : Manager) (d : nat) : Manager := ds_Link m d None.

(** The upstream a downstream points to. *)
Definition ds_Upstream (m : Manager) (d : nat) : option Upstream :=
  ds ← downstream_store m !! d; u ← d_upstream ds; upstream_store m !! u.

Inductive dial_error :=
| NoUpstream (downstream : string)
| NoEndpoints (upstream : string)
| Exhausted (upstream : string) (last : string).

Section dialing.

(** The network: a connection or the error of a dial, by address. *)
Context {conn : Type} (dialer : string → conn + string).

(** The loop over the snapshot of the endpoints. *)
Fixpoint dial_loop (name : string) (eps : list Endpoint) (lastErr : string) : conn + dial_error :=
  match eps with
  | [] => inr (Exhausted name lastErr)
  | ep :: eps' =>
      match dialer (Addr ep) with
      | inl c => inl c
      | inr err => dial_loop name eps' err
      end
  end.

Definition DialContext (u : Upstream) : conn + dial_error :=
  match u_endpoints u with
  | [] => inr (NoEndpoints (u_name u))
  | eps => dial_loop (u_name u) eps ""
  end.

(** The [DialContext] field that [Run] sets. *)
Definition dial_downstream (m : Manager) (d : nat) : option (conn + dial_error) :=
  ds ← downstream_store m !! d;
  Some match ds_Upstream m d with
       | None => inr (NoUpstream (d_name ds))
       | Some u => DialContext u
       end.

End dialing.

(** ** The manager *)

Definition NewUpstream (name : string) (endpoints : list Endpoint) : Upstream := MkUpstream name endpoints.

(** [Endpoints]: a snapshot, which later updates do not change. *)
Definition Endpoints (u : Upstream) : list Endpoint := u_endpoints u.

Definition NewDownstream (name listenAddr : string) (upstream : option nat) : Downstream :=
  MkDownstream name listenAddr upstream.

Definition AddUpstream (name : string) (endpoints : list Endpoint) (m : Manager) : Manager :=
  match upstreams m !! name with
  | Some u => set_upstreams m (alter (λ up, Update up endpoints) u (upstream_store m)) (upstreams m)
  | None =>
      set_upstreams m (upstream_store m ++ [NewUpstream name endpoints])
        (<[name := length (upstream_store m)]> (upstreams m))
  end.

Definition GetUpstream (name : string) (m : Manager) : option Upstream :=
  u ← upstreams m !! name; upstream_store m !! u.

(** One turn of the loop of [RemoveUpstream]. *)
Definition unlink_if (name : string) (m : Manager) (d : nat) : Manager :=
  match ds_Upstream m d with
  | Some u => if decide (u_name u = name) then ds_Unlink m d else m
  | None => m
  end.

Definition RemoveUpstream (name : string) (m : Manager) : Manager :=
  match upstreams m !! name with
  | None => m
  | Some _ =>
      let m1 := set_upstreams m (upstream_store m) (delete name (upstreams m)) in
      foldl (unlink_if name) m1 (map_to_list (downstreams m1)).*2
  end.

Definition AddDownstream (name listenAddr : string) (m : Manager) : Manager :=
  match downstreams m !! name with
  | Some _ => m
  | None =>
      set_downstreams m (downstream_store m ++ [NewDownstream name listenAddr None])
        (<[name := length (downstream_store m)]> (downstreams m))
  end.

Definition GetDownstream (name : string) (m : Manager) : option Downstream :=
  d ← downstreams m !! name; downstream_store m !! d.

Definition cancel (st : list dsHandle) (h : nat) : list dsHandle :=
  alter (λ x, MkHandle true (h_done x)) h st.

(** The critical section of [RemoveDownstream]; the handle it then waits for is
    the one registered under the name. *)
Definition RemoveDownstream (name : string) (m : Manager) : Manager :=
  let st := match handles m !! name with
            | Some h => cancel (handle_store m) h
            | None => handle_store m
            end in
  set_downstreams (set_handles m st (delete name (handles m)) (calls m))
    (downstream_store m) (delete name (downstreams m)).

Inductive link_result :=
| DownstreamNotFound
| UpstreamNotFound
| AlreadyRunning
| Started (h : nat).

(** The critical section of [Link], up to the call of [Run]. *)
Definition Link (downstreamName upstreamName : string) (m : Manager) : link_result * Manager :=
  match downstreams m !! downstreamName with
  | None => (DownstreamNotFound, m)
  | Some ds =>
      match upstreams m !! upstreamName with
      | None => (UpstreamNotFound, m)
      | Some u =>
          let m1 := ds_Link m ds (Some u) in
          match handles m1 !! downstreamName with
          | Some _ => (AlreadyRunning, m1)
          | None =>
              let h := length (handle_store m1) in
              (Started h,
               set_handles m1 (handle_store m1 ++ [MkHandle false false])
                 (<[downstreamName := h]> (handles m1))
                 (<[h := MkCall downstreamName ds Starting]> (calls m1)))
          end
      end
  end.

Definition Unlink (downstreamName : string) (m : Manager) : option Manager :=
  ds ← downstreams m !! downstreamName; Some (ds_Unlink m ds).

(** The context of the call with handle [h] is done: its own or the manager's. *)
Definition ctx_done (m : Manager) (h : nat) : bool :=
  ctx_cancelled m || match handle_store m !! h with Some x => h_cancelled x | None => false end.

(** [proxy.Start] returned without error. *)
Definition start_ok (h : nat) (m : Manager) : option Manager :=
  c ← calls m !! h;
  guard (lc_phase c = Starting);;
  Some (set_handles m (handle_store m) (handles m)
          (<[h := MkCall (lc_name c) (lc_ds c) Listening]> (calls m))).

(** [Run] returns and the deferred function closes [done]: after an error of
    [proxy.Start], or once the context is done. *)
Definition run_returns (h : nat) (m : Manager) : option Manager :=
  c ← calls m !! h;
  guard (lc_phase c = Starting ∨ (lc_phase c = Listening ∧ ctx_done m h = true));;
  Some (set_handles m (alter (λ x, MkHandle (h_cancelled x) true) h (handle_store m)) (handles m)
          (<[h := MkCall (lc_name c) (lc_ds c) Finished]> (calls m))).

(** The second half of the deferred function: the handle registered under the
    name is deleted, and the call is over. *)
Definition cleanup (h : nat) (m : Manager) : option Manager :=
  c ← calls m !! h;
  guard (lc_phase c = Finished);;
  Some (set_handles m (handle_store m) (delete (lc_name c) (handles m)) (delete h (calls m))).

(** [Close]: the cancellation, then its critical section. *)
Definition close_cancel (m : Manager) : Manager :=
  MkManager (upstream_store m) (downstream_store m) (handle_store m) (upstreams m)
    (downstreams m) (handles m) true (calls m).

Definition close_section (m : Manager) : Manager := set_handles m (handle_store m) ∅ (calls m).

Inductive label :=
| LAddUpstream (name : string) (endpoints : list Endpoint)
| LRemoveUpstream (name : string)
| LAddDownstream (name listenAddr : string)
| LRemoveDownstream (name : string)
| LLink (downstreamName upstreamName : string)
| LUnlink (downstreamName : string)
| LStartOk (h : nat)
| LRunReturns (h : nat)
| LCleanup (h : nat)
| LCloseCancel
| LCloseSection.

Definition step (l : label) (m : Manager) : option Manager :=
  match l with
  | LAddUpstream name endpoints => Some (AddUpstream name endpoints m)
  | LRemoveUpstream name => Some (RemoveUpstream name m)
  | LAddDownstream name addr => Some (AddDownstream name addr m)
  | LRemoveDownstream name => Some (RemoveDownstream name m)
  | LLink dn un => Some (Link dn un m).2
  | LUnlink dn => Some (default m (Unlink dn m))
  | LStartOk h => start_ok h m
  | LRunReturns h => run_returns h m
  | LCleanup h => cleanup h m
  | LCloseCancel => Some (close_cancel m)
  | LCloseSection => Some (close_section m)
  end.

Fixpoint steps (ls : list label) (m : Manager) : option Manager :=
  match ls with
  | [] => Some m
  | l :: ls' => m' ← step l m; steps ls' m'
  end.

(** ** The routing table *)

(** What the manager promises, by name only: the endpoints of every upstream and
    the upstream every downstream forwards to. *)
Record routes := MkRoutes {
  r_ups : gmap string (list Endpoint);
  r_downs : gmap string (option string);
}.

Definition spec_step (l : label) (a : routes) : routes :=
  match l with
  | LAddUpstream name eps => MkRoutes (<[name := eps]> (r_ups a)) (r_downs a)
  | LRemoveUpstream name =>
      MkRoutes (delete name (r_ups a))
        ((λ o, if decide (o = Some name) then None else o) <$> r_downs a)
  | LAddDownstream name _ =>
      match r_downs a !! name with
      | Some _ => a
      | None => MkRoutes (r_ups a) (<[name := None]> (r_downs a))
      end
  | LRemoveDownstream name => MkRoutes (r_ups a) (delete name (r_downs a))
  | LLink dn un =>
      match r_downs a !! dn, r_ups a !! un with
      | Some _, Some _ => MkRoutes (r_ups a) (<[dn := Some un]> (r_downs a))
      | _, _ => a
      end
  | LUnlink dn =>
      match r_downs a !! dn with
      | Some _ => MkRoutes (r_ups a) (<[dn := None]> (r_downs a))
      | None => a
      end
  | _ => a
  end.

Definition spec_steps (ls : list label) (a : routes) : routes := foldl (flip spec_step) a ls.

(** The table a manager implements. *)
Definition endpoints_of (m : Manager) (u : nat) : list Endpoint :=
  default [] (u_endpoints <$> upstream_store m !! u).

Definition target_of (m : Manager) (d : nat) : option string := u_name <$> ds_Upstream m d.

Definition abs (m : Manager) : routes :=
  MkRoutes (endpoints_of m <$> upstreams m) (target_of m <$> downstreams m).

(** Registered names point to objects of that name, and a registered downstream
    points to nothing or to an upstream that is still the registered one. *)
Definition live (m : Manager) (u : nat) : Prop :=
  ∃ U, upstream_store m !! u = Some U ∧ upstreams m !! u_name U = Some u.

Record routes_ok (m : Manager) : Prop := {
  ok_ups n u : upstreams m !! n = Some u → ∃ U, upstream_store m !! u = Some U ∧ u_name U = n;
  ok_downs n d : downstreams m !! n = Some d → ∃ D, downstream_store m !! d = Some D ∧ d_name D = n;
  ok_links n d D u :
    downstreams m !! n = Some d → downstream_store m !! d = Some D →
    d_upstream D = Some u → live m u;
}.

Lemma downstreams_inj m n n' d :
  routes_ok m → downstreams m !! n = Some d → downstreams m !! n' = Some d → n = n'.
Proof.
  intros Hok H1 H2. destruct (ok_downs _ Hok _ _ H1) as (D & HD & <-).
  destruct (ok_downs _ Hok _ _ H2) as (D' & HD' & <-). congruence.
Qed.

Lemma upstreams_inj m n n' u :
  routes_ok m → upstreams m !! n = Some u → upstreams m !! n' = Some u → n = n'.
Proof.
  intros Hok H1 H2. destruct (ok_ups _ Hok _ _ H1) as (D & HD & <-).
  destruct (ok_ups _ Hok _ _ H2) as (D' & HD' & <-). congruence.
Qed.

(** A change of the handles or the calls alone leaves the routes as they are. *)
Lemma same_routes m m' :
  upstream_store m' = upstream_store m → downstream_store m' = downstream_store m →
  upstreams m' = upstreams m → downstreams m' = downstreams m →
  routes_ok m → routes_ok m' ∧ abs m' = abs m.
Proof.
  destruct m, m'; simpl; intros -> -> -> -> [H1 H2 H3]. split; [by split|done].
Qed.

(** Upstreams added or updated in place keep every link. *)
Lemma set_upstreams_routes m st ups :
  routes_ok m →
  (∀ u U, upstream_store m !! u = Some U → ∃ U', st !! u = Some U' ∧ u_name U' = u_name U) →
  upstreams m ⊆ ups →
  (∀ n u, ups !! n = Some u → ∃ U, st !! u = Some U ∧ u_name U = n) →
  routes_ok (set_upstreams m st ups) ∧
  r_downs (abs (set_upstreams m st ups)) = r_downs (abs m).
Proof.
  intros Hok Hst Hsub Hups. split; [split; simpl|].
  - done.
  - apply (ok_downs _ Hok).
  - intros n d D u Hd HD Hu. destruct (ok_links _ Hok _ _ _ _ Hd HD Hu) as (U & HU & Hreg).
    destruct (Hst _ _ HU) as (U' & HU' & E). exists U'. simpl. split; [done|].
    rewrite E. by eapply lookup_weaken.
  - apply map_fmap_ext. intros n d Hd. unfold target_of, ds_Upstream. simpl.
    destruct (downstream_store m !! d) as [D|] eqn:HD; [|done]. simpl.
    destruct (d_upstream D) as [u|] eqn:Hu; [|done]. simpl.
    destruct (ok_links _ Hok _ _ _ _ Hd HD Hu) as (U & HU & _).
    destruct (Hst _ _ HU) as (U' & HU' & E). rewrite HU, HU'. simpl. by rewrite E.
Qed.

Lemma AddUpstream_update name eps m u :
  routes_ok m → upstreams m !! name = Some u →
  let m' := set_upstreams m (alter (λ up, Update up eps) u (upstream_store m)) (upstreams m) in
  routes_ok m' ∧ abs m' = spec_step (LAddUpstream name eps) (abs m).
Proof.
  intros Hok Hu m'. destruct (ok_ups _ Hok _ _ Hu) as (U & HU & Hn).
  assert (∀ v V, upstream_store m !! v = Some V →
    ∃ V', alter (λ up, Update up eps) u (upstream_store m) !! v = Some V' ∧ u_name V' = u_name V) as Hst.
  { intros v V HV. rewrite list_lookup_alter. case_decide; [subst v|by eauto].
    rewrite HV. by eexists. }
  destruct (set_upstreams_routes m _ (upstreams m) Hok Hst) as [Hok' Hd]; [done| |].
  { intros n v Hv. destruct (ok_ups _ Hok _ _ Hv) as (V & HV & <-). auto. }
  split; [done|]. unfold abs in *. simpl in *. f_equal; [|done].
  apply map_eq. intros n. rewrite lookup_fmap, lookup_insert. case_decide as Hne.
  { subst n. rewrite Hu. simpl. unfold endpoints_of. simpl. by rewrite list_lookup_alter_eq, HU. }
  rewrite lookup_fmap. destruct (upstreams m !! n) as [v|] eqn:Hv; [|done]. simpl. f_equal.
  unfold endpoints_of. simpl. rewrite list_lookup_alter_ne; [done|].
  intros <-. by apply Hne, (upstreams_inj m name n u).
Qed.

Lemma AddUpstream_fresh name eps m :
  routes_ok m → upstreams m !! name = None →
  let m' := set_upstreams m (upstream_store m ++ [MkUpstream name eps])
              (<[name := length (upstream_store m)]> (upstreams m)) in
  routes_ok m' ∧ abs m' = spec_step (LAddUpstream name eps) (abs m).
Proof.
  intros Hok Hu m'. set (u := length (upstream_store m)).
  assert (∀ v V, upstream_store m !! v = Some V →
    (upstream_store m ++ [MkUpstream name eps]) !! v = Some V) as Hkeep
    by (intros; by apply lookup_app_l_Some).
  assert ((upstream_store m ++ [MkUpstream name eps]) !! u = Some (MkUpstream name eps)) as Hnew
    by (by apply list_lookup_middle).
  destruct (set_upstreams_routes m (upstream_store m ++ [MkUpstream name eps])
    (<[name := u]> (upstreams m)) Hok) as [Hok' Hd].
  - intros v V HV. exists V. auto.
  - by apply insert_subseteq.
  - intros n v. rewrite lookup_insert_Some. intros [[<- <-]|[Hne H]]; [by eexists|].
    destruct (ok_ups _ Hok _ _ H) as (V & HV & ?). eauto.
  - split; [done|]. unfold abs in *. simpl in *. f_equal; [|done].
    rewrite fmap_insert. unfold endpoints_of at 1. simpl. fold u. rewrite Hnew. simpl. f_equal.
    apply map_fmap_ext. intros n v H. destruct (ok_ups _ Hok _ _ H) as (V & HV & ?).
    unfold endpoints_of. simpl. by rewrite HV, (Hkeep _ _ HV).
Qed.

(** A new pointer of one registered downstream. *)
Lemma ds_Link_routes m n d o :
  routes_ok m → downstreams m !! n = Some d →
  (∀ u, o = Some u → live m u) →
  routes_ok (ds_Link m d o) ∧
  abs (ds_Link m d o) =
    MkRoutes (r_ups (abs m))
      (<[n := u ← o; u_name <$> upstream_store m !! u]> (r_downs (abs m))).
Proof.
  intros Hok Hd Ho. destruct (ok_downs _ Hok _ _ Hd) as (D & HD & Hn).
  assert (∀ d', d_name <$> downstream_store (ds_Link m d o) !! d' = d_name <$> downstream_store m !! d')
    as Hnames.
  { intros d'. simpl. rewrite list_lookup_alter. case_decide; [|done]. subst d'. by rewrite HD. }
  split; [split|].
  - apply (ok_ups _ Hok).
  - intros n' d' Hd'. destruct (ok_downs _ Hok _ _ Hd') as (D' & HD' & <-).
    specialize (Hnames d'). rewrite HD' in Hnames. by apply fmap_Some in Hnames as (D'' & ? & ->); eauto.
  - intros n' d' D' u Hd'. simpl. rewrite list_lookup_alter. case_decide as E.
    + subst d'. rewrite HD. simpl. intros [= <-]. simpl. apply Ho.
    + by apply (ok_links _ Hok n').
  - unfold abs. simpl. f_equal. apply map_eq. intros n'.
    rewrite lookup_fmap, lookup_insert. simpl. case_decide as E.
    + subst n'. rewrite Hd. simpl. unfold target_of, ds_Upstream. simpl.
      rewrite list_lookup_alter_eq, HD. simpl. by destruct o.
    + rewrite lookup_fmap. destruct (downstreams m !! n') as [d'|] eqn:Hd'; [|done]. simpl. f_equal.
      unfold target_of, ds_Upstream. simpl. rewrite list_lookup_alter_ne; [done|].
      intros <-. by apply E, (downstreams_inj m n n' d).
Qed.

(** [RemoveUpstream] on the downstream store. *)
Lemma unlink_if_store name m d d' :
  downstream_store (unlink_if name m d) !! d' =
    if decide (d' = d ∧ target_of m d = Some name)
    then (λ D, with_upstream D None) <$> downstream_store m !! d'
    else downstream_store m !! d'.
Proof.
  unfold unlink_if, target_of. destruct (ds_Upstream m d) as [U|] eqn:HU; simpl.
  - destruct (decide (u_name U = name)) as [Hn|Hn]; simpl.
    + rewrite list_lookup_alter. case_decide as E; [subst d'|].
      * by rewrite decide_True by (by rewrite Hn).
      * by rewrite decide_False by naive_solver.
    + by rewrite decide_False by naive_solver.
  - by rewrite decide_False by naive_solver.
Qed.

Lemma unlink_if_frame name m d :
  upstream_store (unlink_if name m d) = upstream_store m ∧
  upstreams (unlink_if name m d) = upstreams m ∧
  downstreams (unlink_if name m d) = downstreams m.
Proof. unfold unlink_if. repeat case_match; done. Qed.

Lemma unlink_if_target name m d d' :
  target_of (unlink_if name m d) d' =
    if decide (d' = d ∧ target_of m d = Some name) then None else target_of m d'.
Proof.
  unfold target_of at 1, ds_Upstream. rewrite unlink_if_store.
  destruct (unlink_if_frame name m d) as (-> & _ & _).
  case_decide; [|done]. by destruct (downstream_store m !! d').
Qed.

(** The whole loop: it unlinks exactly the listed downstreams that forward to the
    upstream, in whatever order the map is walked. *)
Lemma unlink_loop name l m :
  let m' := foldl (unlink_if name) m l in
  (upstream_store m' = upstream_store m ∧ upstreams m' = upstreams m ∧
   downstreams m' = downstreams m) ∧
  (∀ d, target_of m' d =
     if decide (d ∈ l ∧ target_of m d = Some name) then None else target_of m d) ∧
  (∀ d, ∃ f, downstream_store m' !! d = f <$> downstream_store m !! d ∧
     ∀ D, d_name (f D) = d_name D ∧ (d_upstream (f D) = None ∨ d_upstream (f D) = d_upstream D)).
Proof.
  revert m. induction l as [|x l IH]; intros m; cbn zeta; cbn [foldl].
  { split; [done|]. split.
    - intros d. rewrite decide_False; [done|]. by intros [?%elem_of_nil _].
    - intros d. exists id. split; [by destruct (_ !! d)|auto]. }
  destruct (IH (unlink_if name m x)) as ((E1 & E2 & E3) & Ht & Hs).
  destruct (unlink_if_frame name m x) as (F1 & F2 & F3).
  split; [by rewrite E1, E2, E3|]. split.
  - intros d. rewrite Ht, unlink_if_target.
    destruct (decide (d = x ∧ target_of m x = Some name)) as [[-> Hx]|Hx].
    + rewrite (decide_False (P := _ ∧ None = Some name)) by naive_solver.
      rewrite decide_True; [done|]. split; [left|done].
    + apply decide_ext. rewrite elem_of_cons. naive_solver.
  - intros d. destruct (Hs d) as (f & Hf & Hp). rewrite Hf, unlink_if_store.
    case_decide; [|by exists f]. exists (λ D, f (with_upstream D None)).
    split; [by rewrite <- option_fmap_compose|]. intros D.
    destruct (Hp (with_upstream D None)) as [-> [-> | ->]]; auto.
Qed.

Lemma target_live m n d :
  routes_ok m → downstreams m !! n = Some d →
  ∀ t, target_of m d = Some t → is_Some (upstreams m !! t).
Proof.
  intros Hok Hd t. unfold target_of, ds_Upstream.
  destruct (downstream_store m !! d) as [D|] eqn:HD; [|done]. simpl.
  destruct (d_upstream D) as [u|] eqn:Hu; [|done]. simpl.
  destruct (ok_links _ Hok _ _ _ _ Hd HD Hu) as (U & -> & Hreg). simpl. intros [= <-]. by eexists.
Qed.

Lemma RemoveUpstream_routes name m :
  routes_ok m →
  routes_ok (RemoveUpstream name m) ∧
  abs (RemoveUpstream name m) = spec_step (LRemoveUpstream name) (abs m).
Proof.
  intros Hok. unfold RemoveUpstream. destruct (upstreams m !! name) as [u0|] eqn:Hu0.
  2:{ split; [done|]. unfold abs. simpl. f_equal.
      - rewrite delete_id; [done|]. by rewrite lookup_fmap, Hu0.
      - rewrite <- map_fmap_compose. apply map_fmap_ext. intros n d Hd. simpl. case_decide as E; [|done].
        destruct (target_live m n d Hok Hd _ E). congruence. }
  set (m1 := set_upstreams _ _ _).
  destruct (unlink_loop name (map_to_list (downstreams m1)).*2 m1) as ((E1 & E2 & E3) & Ht & Hs).
  set (m2 := foldl _ _ _) in *. simpl in E1, E2, E3.
  assert (∀ n d, downstreams m !! n = Some d → d ∈ (map_to_list (downstreams m1)).*2) as Hin.
  { intros n d Hd. apply list_elem_of_fmap. exists (n, d). split; [done|]. by apply elem_of_map_to_list. }
  split; [split|].
  - intros n u. rewrite E1, E2. intros [_ H]%lookup_delete_Some. by apply (ok_ups _ Hok).
  - intros n d. rewrite E3. intros Hd. destruct (Hs d) as (f & -> & Hf).
    destruct (ok_downs _ Hok _ _ Hd) as (D & HD & <-). simpl. rewrite HD. simpl.
    exists (f D). by destruct (Hf D).
  - intros n d D' u. rewrite E3. intros Hd HD' Hu. destruct (Hs d) as (f & Hf & Hp).
    rewrite HD' in Hf. symmetry in Hf. apply fmap_Some in Hf as (D & HD & HfD).
    destruct (Hp D) as [_ [Hnone|Heq]]; [congruence|]. rewrite <- HfD, Hu in Heq. symmetry in Heq.
    destruct (ok_links _ Hok _ _ _ _ Hd HD Heq) as (U & HU & Hreg).
    exists U. rewrite E1, E2. split; [done|]. apply lookup_delete_Some. split; [|done].
    intros Hname. specialize (Ht d). rewrite decide_True in Ht.
    + unfold target_of, ds_Upstream in Ht. rewrite HD' in Ht. simpl in Ht.
      rewrite Hu in Ht. simpl in Ht. by rewrite E1, HU in Ht.
    + split; [by eapply Hin|]. unfold target_of, ds_Upstream. simpl in *. rewrite HD. simpl.
      rewrite Heq. simpl. rewrite HU. simpl. by rewrite Hname.
  - unfold abs. simpl. rewrite E2, E3. f_equal.
    + rewrite <- fmap_delete. apply map_fmap_ext. intros n u _. unfold endpoints_of. by rewrite E1.
    + rewrite <- map_fmap_compose. apply map_fmap_ext. intros n d Hd. rewrite Ht. simpl.
      apply decide_ext. split; [by intros [_ ?]|]. intros H. split; [by eapply Hin|done].
Qed.

Lemma AddDownstream_routes name addr m :
  routes_ok m →
  routes_ok (AddDownstream name addr m) ∧
  abs (AddDownstream name addr m) = spec_step (LAddDownstream name addr) (abs m).
Proof.
  intros Hok. unfold AddDownstream. simpl. rewrite lookup_fmap.
  destruct (downstreams m !! name) as [d0|] eqn:Hd0; [done|]. simpl.
  set (d := length (downstream_store m)). set (st := downstream_store m ++ _).
  assert (∀ v V, downstream_store m !! v = Some V → st !! v = Some V) as Hkeep
    by (intros; by apply lookup_app_l_Some).
  assert (st !! d = Some (MkDownstream name addr None)) as Hnew by (by apply list_lookup_middle).
  split; [split; simpl|].
  - apply (ok_ups _ Hok).
  - intros n v. rewrite lookup_insert_Some. intros [[<- <-]|[_ H]]; [by eexists|].
    destruct (ok_downs _ Hok _ _ H) as (V & HV & ?). eauto.
  - intros n v V u. rewrite lookup_insert_Some. intros [[<- <-]|[_ H]] HV Hu; [by simplify_eq|].
    destruct (ok_downs _ Hok _ _ H) as (V' & HV' & ?).
    pose proof (Hkeep _ _ HV') as HV''. rewrite HV'' in HV. simplify_eq.
    by apply (ok_links _ Hok _ _ _ _ H HV').
  - unfold abs. simpl. f_equal. rewrite fmap_insert. f_equal.
    + unfold target_of, ds_Upstream. simpl. by rewrite Hnew.
    + apply map_fmap_ext. intros n v H. destruct (ok_downs _ Hok _ _ H) as (V & HV & _).
      unfold target_of, ds_Upstream. simpl. by rewrite HV, (Hkeep _ _ HV).
Qed.

Lemma RemoveDownstream_routes name m :
  routes_ok m →
  routes_ok (RemoveDownstream name m) ∧
  abs (RemoveDownstream name m) = spec_step (LRemoveDownstream name) (abs m).
Proof.
  intros Hok. split; [split; simpl|].
  - apply (ok_ups _ Hok).
  - intros n d [_ H]%lookup_delete_Some. by apply (ok_downs _ Hok).
  - intros n d D u [_ H]%lookup_delete_Some. by apply (ok_links _ Hok n).
  - unfold abs. simpl. f_equal. by rewrite fmap_delete.
Qed.

Lemma upstream_live m n u : routes_ok m → upstreams m !! n = Some u → live m u.
Proof. intros Hok Hu. destruct (ok_ups _ Hok _ _ Hu) as (U & HU & <-). by exists U. Qed.

Lemma Link_routes dn un m :
  routes_ok m →
  routes_ok (Link dn un m).2 ∧ abs (Link dn un m).2 = spec_step (LLink dn un) (abs m).
Proof.
  intros Hok. unfold Link. simpl. rewrite !lookup_fmap.
  destruct (downstreams m !! dn) as [d|] eqn:Hd; [|done]. simpl.
  destruct (upstreams m !! un) as [u|] eqn:Hu; [|done]. simpl.
  destruct (ds_Link_routes m dn d (Some u) Hok Hd) as [H1 H2].
  { intros u' [= <-]. by eapply upstream_live. }
  destruct (ok_ups _ Hok _ _ Hu) as (U & HU & Hn). simpl in H2. rewrite HU in H2. simpl in H2.
  rewrite Hn in H2.
  destruct (handles m !! dn); simpl; [by split|].
  rewrite <- H2. by apply same_routes.
Qed.

Lemma Unlink_routes dn m :
  routes_ok m →
  routes_ok (default m (Unlink dn m)) ∧
  abs (default m (Unlink dn m)) = spec_step (LUnlink dn) (abs m).
Proof.
  intros Hok. unfold Unlink. simpl. rewrite lookup_fmap.
  destruct (downstreams m !! dn) as [d|] eqn:Hd; [|done]. simpl.
  by apply (ds_Link_routes m dn d None Hok Hd).
Qed.

#[export] Hint Resolve AddUpstream_update AddUpstream_fresh RemoveUpstream_routes
  AddDownstream_routes RemoveDownstream_routes Link_routes Unlink_routes : heir.

(** Every step of the manager is the step of the table, and keeps the pointers
    consistent. *)
Lemma step_routes l m m' :
  step l m = Some m' → routes_ok m → routes_ok m' ∧ abs m' = spec_step l (abs m).
Proof.
  intros H Hok. destruct l; simpl in H; simplify_eq; auto with heir.
  { unfold AddUpstream. destruct (upstreams m !! name) eqn:E; auto with heir. }
  all: unfold start_ok, run_returns, cleanup in *; simplify_option_eq;
    by apply same_routes.
Qed.

Lemma routes_ok_new : routes_ok NewManager.
Proof. split; intros *; by rewrite ?lookup_empty. Qed.

Lemma steps_routes ls m m' :
  steps ls m = Some m' → routes_ok m → routes_ok m' ∧ abs m' = spec_steps ls (abs m).
Proof.
  revert m. induction ls as [|l ls IH]; intros m; simpl; [by intros [= ->]|].
  intros (m1 & H1 & H)%bind_Some Hok. destruct (step_routes _ _ _ H1 Hok) as [Hok1 Ha1].
  destruct (IH _ H Hok1) as [Hok' Ha]. split; [done|]. by rewrite Ha, Ha1.
Qed.

Section dial_spec.

Context {conn : Type} (dialer : string → conn + string).

(** The first endpoint that answers, in order. *)
Definition first_answer (eps : list Endpoint) (c : conn) : Prop :=
  ∃ pre ep post, eps = pre ++ ep :: post ∧
    Forall (λ e, ∃ err, dialer (Addr e) = inr err) pre ∧ dialer (Addr ep) = inl c.

Lemma first_answer_cons ep eps c :
  first_answer (ep :: eps) c ↔
    dialer (Addr ep) = inl c ∨ ((∃ err, dialer (Addr ep) = inr err) ∧ first_answer eps c).
Proof.
  split.
  - intros ([|x pre] & y & post & E & Hpre & Hc); simplify_eq/=; [by left|].
    apply Forall_cons_1 in Hpre as [Hx Hpre]. right. split; [done|]. by exists pre, y, post.
  - intros [Hc|[Hx (pre & y & post & -> & Hpre & Hc)]]; [by exists [], ep, eps|].
    exists (ep :: pre), y, post. split_and!; [done|by constructor|done].
Qed.

Lemma dial_loop_inl name eps err c :
  dial_loop dialer name eps err = inl c ↔ first_answer eps c.
Proof.
  revert err. induction eps as [|ep eps IH]; intros err; simpl.
  { split; [done|]. by intros ([] & ? & ? & ? & _). }
  rewrite first_answer_cons. destruct (dialer (Addr ep)) as [c'|e] eqn:E.
  - naive_solver.
  - rewrite IH. naive_solver.
Qed.

Lemma DialContext_inl u c : DialContext dialer u = inl c ↔ first_answer (u_endpoints u) c.
Proof.
  unfold DialContext. destruct (u_endpoints u) as [|ep eps]; [|apply dial_loop_inl].
  split; [done|]. by intros ([] & ? & ? & ? & _).
Qed.

End dial_spec.

(** C39.  Whatever operations were performed, in whatever order and interleaved with
    whatever progress of the running [Link] calls, the manager implements the
    table of names: its maps are the table, and a registered downstream reaches
    a backend exactly when the table links it to an upstream one of whose current
    endpoints answers; it then reaches the first that answers, in the order the
    endpoints were given.  In particular replacing the endpoints of an upstream
    redirects the downstreams linked to it, and removing the upstream stops them. *)
Theorem proxy_routes_by_name {conn} (dialer : string → conn + string) ls m :
  steps ls NewManager = Some m →
  let a := spec_steps ls (MkRoutes ∅ ∅) in
  abs m = a ∧
  ∀ n d, downstreams m !! n = Some d →
    ∃ res, dial_downstream dialer m d = Some res ∧
      ∀ c, res = inl c ↔
        ∃ un eps, r_downs a !! n = Some (Some un) ∧ r_ups a !! un = Some eps ∧
          first_answer dialer eps c.
Proof.
  intros H a. destruct (steps_routes _ _ _ H routes_ok_new) as [Hok Ha].
  change (abs NewManager) with (MkRoutes (endpoints_of NewManager <$> ∅) (target_of NewManager <$> ∅)) in Ha.
  rewrite !fmap_empty in Ha. fold a in Ha. split; [done|]. rewrite <- Ha.
  intros n d Hd. destruct (ok_downs _ Hok _ _ Hd) as (D & HD & Hn).
  unfold dial_downstream. rewrite HD. simpl. eexists. split; [done|]. intros c.
  rewrite lookup_fmap, Hd. simpl. unfold target_of, ds_Upstream. rewrite HD. simpl.
  destruct (d_upstream D) as [u|] eqn:Hu; simpl; [|naive_solver].
  destruct (ok_links _ Hok _ _ _ _ Hd HD Hu) as (U & HU & Hreg). rewrite HU. simpl.
  rewrite DialContext_inl. split.
  - intros Hf. exists (u_name U), (u_endpoints U). split_and!; [done| |done].
    rewrite lookup_fmap, Hreg. simpl. unfold endpoints_of. by rewrite HU.
  - intros (un & eps & [= <-] & He & Hf). rewrite lookup_fmap, Hreg in He. simpl in He.
    unfold endpoints_of in He. rewrite HU in He. by simplify_eq/=.
Qed.

Definition demo : list label :=
  [LAddUpstream "api" [MkEndpoint "10.0.0.1" 6443; MkEndpoint "10.0.0.2" 6443];
   LAddDownstream "local" "127.0.0.1:6443"; LLink "local" "api"; LStartOk 0;
   LAddUpstream "api" [MkEndpoint "10.0.0.3" 6443; MkEndpoint "fd00::4" 6443]].

Definition demo_dialer (addr : string) : string + string :=
  if decide (addr = "[fd00::4]:6443") then inl addr else inr "refused".

Lemma proxy_routes_by_name_witness :
  ∃ m, steps demo NewManager = Some m ∧
    abs m = spec_steps demo (MkRoutes ∅ ∅) ∧
    dial_downstream demo_dialer m 0 = Some (inl "[fd00::4]:6443").
Proof.
  eexists. split; [vm_compute; reflexivity|].
  split; [eapply (proxy_routes_by_name demo_dialer demo); vm_compute; reflexivity|].
  vm_compute. reflexivity.
Defined.

(** ** Stopping *)

(** A handle that is not done belongs to a call that has not finished. *)
Record calls_ok (m : Manager) : Prop := {
  ok_pending h x : handle_store m !! h = Some x → h_done x = false →
    ∃ c, calls m !! h = Some c ∧ lc_phase c ≠ Finished;
  ok_registered n h : handles m !! n = Some h → h < length (handle_store m);
}.

Lemma calls_ok_new : calls_ok NewManager.
Proof. split; simpl; intros *; rewrite ?lookup_nil, ?lookup_empty; done. Qed.

(** The operations on the routes leave handles and calls as they are. *)
Lemma same_calls m m' :
  handle_store m' = handle_store m → handles m' = handles m → calls m' = calls m →
  calls_ok m → calls_ok m'.
Proof. destruct m, m'; simpl; intros -> -> -> [H1 H2]. by split. Qed.

Lemma unlink_loop_calls name l m :
  let m' := foldl (unlink_if name) m l in
  handle_store m' = handle_store m ∧ handles m' = handles m ∧ calls m' = calls m ∧
  ctx_cancelled m' = ctx_cancelled m.
Proof.
  revert m. induction l as [|d l IH]; intros m; simpl; [done|].
  destruct (IH (unlink_if name m d)) as (-> & -> & -> & ->). unfold unlink_if. repeat case_match; done.
Qed.

Lemma Link_calls dn un m : calls_ok m → calls_ok (Link dn un m).2.
Proof.
  intros Hok. unfold Link. destruct (downstreams m !! dn) as [d|]; [|done].
  destruct (upstreams m !! un) as [u|]; [|done]. simpl.
  destruct (handles m !! dn); simpl; [by apply (same_calls m)|]. split; simpl.
  - intros h x [Hh|[Hlen Hx]]%lookup_app_Some Hd.
    + destruct (ok_pending _ Hok _ _ Hh Hd) as (c & Hc & Hp). exists c. split; [|done].
      rewrite lookup_insert_ne; [done|]. apply lookup_lt_Some in Hh. lia.
    + apply list_lookup_singleton_Some in Hx as [Hz <-].
      assert (h = length (handle_store m)) as -> by lia.
      rewrite lookup_insert_eq. by eexists.
  - intros n h. rewrite length_app, lookup_insert_Some. simpl.
    intros [[_ <-]|[_ H]]; [lia|]. apply (ok_registered _ Hok) in H. lia.
Qed.

Lemma RemoveDownstream_calls name m : calls_ok m → calls_ok (RemoveDownstream name m).
Proof.
  intros Hok. unfold RemoveDownstream. split; simpl.
  - intros h x Hx Hd.
    assert (∃ x', handle_store m !! h = Some x' ∧ h_done x' = false) as (x' & ? & ?);
      [|by eapply (ok_pending _ Hok)].
    destruct (handles m !! name) as [h0|]; [|by eauto].
    unfold cancel in Hx. rewrite list_lookup_alter in Hx. case_decide; [subst h0|by eauto].
    apply fmap_Some in Hx as (x' & ? & ->). eauto.
  - intros n h [_ H]%lookup_delete_Some. apply (ok_registered _ Hok) in H.
    destruct (handles m !! name); [|done]. unfold cancel. by rewrite length_alter.
Qed.

Lemma start_ok_calls h m m' : start_ok h m = Some m' → calls_ok m → calls_ok m'.
Proof.
  unfold start_ok. intros H Hok. simplify_option_eq. split; simpl; [|apply (ok_registered _ Hok)].
  intros h' x Hx Hd. destruct (ok_pending _ Hok _ _ Hx Hd) as (c & Hc & Hp).
  rewrite lookup_insert. case_decide; [|by eauto]. by eexists.
Qed.

Lemma run_returns_calls h m m' : run_returns h m = Some m' → calls_ok m → calls_ok m'.
Proof.
  unfold run_returns. intros H Hok. destruct (calls m !! h) as [c|]; [|done].
  simpl in H. case_guard; simplify_eq/=. split; simpl.
  - intros h' x. rewrite list_lookup_alter. case_decide as E.
    + intros (y & _ & ->)%fmap_Some. done.
    + intros Hx Hd. rewrite lookup_insert_ne by done. by apply (ok_pending _ Hok _ _ Hx).
  - intros n h'. rewrite length_alter. apply (ok_registered _ Hok).
Qed.

Lemma cleanup_calls h m m' : cleanup h m = Some m' → calls_ok m → calls_ok m'.
Proof.
  unfold cleanup. intros H Hok. simplify_option_eq. split; simpl.
  - intros h' x Hx Hd. destruct (ok_pending _ Hok _ _ Hx Hd) as (c & Hc & Hp).
    exists c. split; [|done]. rewrite lookup_delete_ne; [done|]. intros <-. congruence.
  - intros n h' [_ ?]%lookup_delete_Some. by eapply (ok_registered _ Hok).
Qed.

Lemma step_calls l m m' : step l m = Some m' → calls_ok m → calls_ok m'.
Proof.
  intros H Hok. destruct l; simpl in H; simplify_eq;
    eauto using Link_calls, RemoveDownstream_calls, start_ok_calls, run_returns_calls, cleanup_calls.
  - unfold AddUpstream. case_match; by apply (same_calls m).
  - unfold RemoveUpstream. case_match; [|done].
    set (m1 := set_upstreams _ _ _).
    destruct (unlink_loop_calls name (map_to_list (downstreams m1)).*2 m1) as (? & ? & ? & _).
    by apply (same_calls m).
  - unfold AddDownstream. case_match; [done|]. by apply (same_calls m).
  - unfold Unlink. destruct (downstreams m !! downstreamName); [|done]. by apply (same_calls m).
  - by apply (same_calls m).
  - split; simpl; [apply (ok_pending _ Hok)|]. intros n h. by rewrite lookup_empty.
Qed.

(** No step takes back a cancellation, forgets a handle or reopens [done]. *)
Definition stopping (m : Manager) (h : nat) : Prop :=
  is_Some (handle_store m !! h) ∧ ctx_done m h = true.

Lemma stopping_store m m' h :
  (ctx_cancelled m = true → ctx_cancelled m' = true) →
  (∀ x, handle_store m !! h = Some x →
     ∃ x', handle_store m' !! h = Some x' ∧ (h_cancelled x = true → h_cancelled x' = true)) →
  stopping m h → stopping m' h.
Proof.
  intros Hc Hs [[x Hx] Hd]. destruct (Hs x Hx) as (x' & Hx' & Hi).
  split; [by eexists|]. unfold ctx_done in *. rewrite Hx in Hd. rewrite Hx'.
  apply orb_true_iff in Hd as [Hd|Hd]; [by rewrite Hc|]. by rewrite Hi, orb_true_r.
Qed.

(** The result of a step of a running call. *)
Ltac call_step H :=
  unfold start_ok, run_returns, cleanup in H;
  try match type of H with
      | (calls ?m !! ?h ≫= _) = _ =>
          let E := fresh "Hc" in destruct (calls m !! h) eqn:E; [|done]; simpl in H; case_guard
      end;
  simplify_eq/=.

Lemma step_stopping l m m' h : step l m = Some m' → stopping m h → stopping m' h.
Proof.
  intros H. apply stopping_store.
  - destruct l; simpl in H; call_step H; try done.
    + unfold AddUpstream. by case_match.
    + unfold RemoveUpstream. case_match; [|done]. by rewrite (proj2 (proj2 (proj2 (unlink_loop_calls _ _ _)))).
    + unfold AddDownstream. by case_match.
    + unfold Link. repeat case_match; done.
    + unfold Unlink. by destruct (downstreams m !! downstreamName).
  - intros x Hx. destruct l; simpl in H; call_step H.
    + unfold AddUpstream. case_match; by eauto.
    + unfold RemoveUpstream. case_match; [|by eauto]. rewrite (proj1 (unlink_loop_calls _ _ _)). by eauto.
    + unfold AddDownstream. case_match; by eauto.
    + unfold RemoveDownstream. simpl. case_match; [|by eauto]. unfold cancel.
      rewrite list_lookup_alter. case_decide; [subst; rewrite Hx; by eexists|by eauto].
    + unfold Link. repeat case_match; simpl; try by eauto.
      exists x. split; [|done]. by apply lookup_app_l_Some.
    + unfold Unlink. destruct (downstreams m !! downstreamName); by eauto.
    + by eauto.
    + simpl. rewrite list_lookup_alter. case_decide; [subst; rewrite Hx; by eexists|by eauto].
    + by eauto.
    + by eauto.
    + by eauto.
Qed.

Lemma steps_keep (P : Manager → Prop) ls m m' :
  (∀ l m m', step l m = Some m' → P m → P m') → steps ls m = Some m' → P m → P m'.
Proof.
  intros Hstep. revert m. induction ls as [|l ls IH]; intros m; simpl; [by intros [= ->]|].
  intros (m1 & H1 & H)%bind_Some HP. by eapply IH, Hstep.
Qed.

(** A call whose context is done closes its [done] channel by its own steps. *)
Lemma stopping_finishes m h :
  calls_ok m → stopping m h →
  ∃ ls m', Forall (λ l, l = LStartOk h ∨ l = LRunReturns h) ls ∧ length ls ≤ 2 ∧
    steps ls m = Some m' ∧ h_done <$> handle_store m' !! h = Some true.
Proof.
  intros Hok [[x Hx] Hd]. destruct (h_done x) eqn:Hdone.
  { exists [], m. split_and!; [done|simpl; lia|done|]. rewrite Hx. simpl. by rewrite Hdone. }
  destruct (ok_pending _ Hok _ _ Hx Hdone) as (c & Hc & Hp).
  assert (∀ m1 c1, handle_store m1 !! h = Some x → calls m1 !! h = Some c1 → lc_phase c1 = Listening →
    ctx_done m1 h = true → ∃ m', run_returns h m1 = Some m' ∧
      h_done <$> handle_store m' !! h = Some true) as Hret.
  { intros m1 c1 Hx1 Hc1 Hl Hd1. unfold run_returns. rewrite Hc1. simpl.
    rewrite option_guard_True by auto. eexists. split; [done|]. simpl.
    by rewrite list_lookup_alter_eq, Hx1. }
  destruct (lc_phase c) eqn:Hph; [| |done].
  - set (m1 := set_handles m (handle_store m) (handles m)
                 (<[h := MkCall (lc_name c) (lc_ds c) Listening]> (calls m))).
    destruct (Hret m1 (MkCall (lc_name c) (lc_ds c) Listening)) as (m' & Hr & Hf); [done| |done|done|].
    { unfold m1. simpl. by rewrite lookup_insert_eq. }
    exists [LStartOk h; LRunReturns h], m'.
    split_and!; [by repeat constructor; auto|simpl; lia| |done].
    simpl. unfold start_ok. rewrite Hc. simpl. rewrite option_guard_True by done. simpl.
    fold m1. by rewrite Hr.
  - destruct (Hret m c Hx Hc Hph Hd) as (m' & Hr & Hf). exists [LRunReturns h], m'.
    split_and!; [by repeat constructor; auto|simpl; lia| |done]. simpl. by rewrite Hr.
Qed.

(** C40.  The waits of [RemoveDownstream] and [Close] are released: once a handle has
    been cancelled by the removal of its downstream, or every handle by [Close],
    then after any further steps of the other calls the [Link] call that owns the
    handle can close its [done] channel by at most two steps of its own, with
    nothing it waits for and no step of the others that could prevent it. *)
Theorem stop_is_released ls m l h ls' m' :
  steps ls NewManager = Some m →
  (∃ n, l = LRemoveDownstream n ∧ handles m !! n = Some h) ∨
  (l = LCloseCancel ∧ h < length (handle_store m)) →
  steps (l :: ls') m = Some m' →
  ∃ own m'', Forall (λ x, x = LStartOk h ∨ x = LRunReturns h) own ∧ length own ≤ 2 ∧
    steps own m' = Some m'' ∧ h_done <$> handle_store m'' !! h = Some true.
Proof.
  intros H Hl H'. assert (calls_ok m) as Hok by (eapply steps_keep; eauto using step_calls, calls_ok_new).
  apply stopping_finishes.
  { by eapply steps_keep; [exact step_calls|exact H'|]. }
  simpl in H'. apply bind_Some in H' as (m1 & H1 & H').
  eapply (steps_keep (λ m, stopping m h)); [intros; by eapply step_stopping|done|].
  destruct Hl as [(n & -> & Hn)|[-> Hlt]]; simpl in H1; injection H1 as <-.
  - apply (ok_registered _ Hok) in Hn as Hlt. apply lookup_lt_is_Some in Hlt as [x Hx].
    unfold stopping, ctx_done, RemoveDownstream. rewrite Hn. simpl. unfold cancel.
    rewrite list_lookup_alter_eq, Hx. simpl. by rewrite orb_true_r.
  - by apply lookup_lt_is_Some in Hlt.
Qed.

Lemma stop_is_released_witness :
  ∃ m m', steps demo NewManager = Some m ∧
    steps [LRemoveDownstream "local"; LAddDownstream "local" "127.0.0.1:6443"] m = Some m' ∧
    ∃ own m'', Forall (λ x, x = LStartOk 0 ∨ x = LRunReturns 0) own ∧ length own ≤ 2 ∧
      steps own m' = Some m'' ∧ h_done <$> handle_store m'' !! 0 = Some true.
Proof.
  eexists _, _. split; [vm_compute; reflexivity|]. split; [vm_compute; reflexivity|].
  eapply (stop_is_released demo _ (LRemoveDownstream "local") 0
    [LAddDownstream "local" "127.0.0.1:6443"]).
  - vm_compute; reflexivity.
  - left. exists "local". split; [reflexivity|vm_compute; reflexivity].
  - vm_compute; reflexivity.
Defined.

(** The deferred function of [Link] deletes the handle registered under the name
    without looking whose it is.  When the downstream is removed, added and linked
    again between the two halves of the deferred function, the handle of the new
    call is deleted: the next removal finds no handle and cancels nothing, and the
    listener goes on with no name left to stop it by. *)
Example handle_of_newer_call_lost :
  let trace := demo ++
    [LRemoveDownstream "local"; LRunReturns 0;
     LAddDownstream "local" "127.0.0.1:6443"; LLink "local" "api"; LStartOk 1;
     LCleanup 0; LRemoveDownstream "local"] in
  ∃ m, steps trace NewManager = Some m ∧
    calls m !! 1 = Some (MkCall "local" 1 Listening) ∧ ctx_done m 1 = false ∧
    handles m !! "local" = None ∧ downstreams m !! "local" = None.
Proof. eexists. split; [vm_compute; reflexivity|]. vm_compute. repeat split. Qed.

(** ** Host and port of a URL

    [HostPort]; [parse] is url.Parse with the scheme, the host name and the port of
    the result, [num_error] the text of the error of Atoi, [Quote] strconv.Quote.  Nothing in the program calls it: worker.go takes URLs apart itself. *)
Section hostport.
Context (parse : string → (string * string * string) + string) (num_error Quote : string → string).

Definition HostPort (rawURL : string) : (string * Z) + string :=
  match parse rawURL with
  | inr e => inr e
  | inl (scheme, host, port) =>
      if bool_decide (host = "") then inr "missing host"
      else if bool_decide (port ≠ "") then
        match Atoi port with
        | None => inr ("invalid port: " +:+ num_error port)
        | Some n => inl (host, n)
        end
      else if bool_decide (scheme = "http") then inl (host, 80%Z)
      else if bool_decide (scheme = "https") then inl (host, 443%Z)
      else inr ("missing port and unknown scheme " +:+ Quote scheme)
  end.

(** The endpoint it gives: the port that is written, or that of the scheme. *)
Lemma HostPort_ok_iff rawURL host n :
  HostPort rawURL = inl (host, n) ↔
  host ≠ "" ∧ ∃ scheme port, parse rawURL = inl (scheme, host, port) ∧
    (port ≠ "" ∧ Atoi port = Some n ∨ port = "" ∧ (scheme = "http" ∧ n = 80%Z ∨ scheme = "https" ∧ n = 443%Z)).
Proof.
  unfold HostPort. destruct (parse rawURL) as [[[scheme h] port]|e]; [|naive_solver].
  repeat case_bool_decide; destruct (Atoi port) eqn:E; naive_solver.
Qed.
End hostport.
