(* ===== verification/Endpoints.v ===== *)
(** * The cluster agent's synchronisers

    src/pkg/clusteragent: [k8s_endpoint.go] keeps the EndpointSlice of the
    tenant's [kubernetes] Service at the addresses of the external API server;
    [crds.go] installs the CustomResourceDefinitions found in a directory.

    Both are clients of the API server ([op]).  DNS, the directory and the YAML
    decoder are parameters; addresses are parsed by the functions of Net.v. *)

From Stdlib Require Import Ascii.
From S2P Require Import Prelude Effects Kube Api Pki World PkiAuth Net.
From stdpp Require Import options.

(** ** Endpoints *)

Definition k8sSvcNamespace : string := "default".
Definition k8sSvcName : string := "kubernetes".
Definition serviceNameLabel : string := "kubernetes.io/service-name".

Record resolvedEndpoint := { re_ip : string; re_port : Z }.

Section endpoints.
(** [net.LookupHost] at the time of the call. *)
Variable LookupHost : string → list string + string.

(** The filter of the loop: an address that parses and has an IPv4 form. *)
Definition is_ipv4 (ip : string) : bool :=
  match ParseIP ip with
  | None => false
  | Some parsed => bool_decide (is_Some (To4 parsed))
  end.

Definition resolveIPv4Endpoints (host : string) (port : Z) : list resolvedEndpoint + string :=
  let candidates : list string + string :=
    match ParseIP host with
    | Some _ => inl [host]
    | None =>
        if bool_decide (host ≠ "") then
          match LookupHost host with
          | inr _ => inr ("resolve host " +:+ host)
          | inl ips => inl ips
          end
        else inl []
    end in
  match candidates with
  | inr e => inr e
  | inl ips =>
      inl ((λ ip, {| re_ip := ip; re_port := port |}) <$> filter (λ ip, is_ipv4 ip = true) ips)
  end.

Definition slice_endpoints (resolved : list resolvedEndpoint) : list SliceEndpoint :=
  (λ r, {| se_addresses := [re_ip r]; se_ready := Some true |}) <$> resolved.

Definition slice_ports (port : Z) : list SlicePort :=
  [{| slp_name := Some "https"; slp_protocol := Some "TCP"; slp_port := Some port |}].

Definition applyEndpointSlice (endpoints : list SliceEndpoint) (ports : list SlicePort) :
    prog op (option string) :=
  let! slices := trigger (ListObjects kind_EndpointSlice (Some k8sSvcNamespace)
                            (Some (serviceNameLabel, k8sSvcName))) in
  match slices with
  | inr _ => Ret (Some "list endpoint slices")
  | inl [] =>
      let! r := create {| es_meta := new_meta k8sSvcName k8sSvcNamespace
                            (Some {[serviceNameLabel := k8sSvcName]}) None;
                          es_addressType := "IPv4"; es_endpoints := endpoints;
                          es_ports := ports |} in
      match r with
      | inr _ => Ret (Some "create endpoint slice")
      | inl _ => Ret None
      end
  | inl (existing :: _) =>
      let! r := update {| es_meta := es_meta existing; es_addressType := es_addressType existing;
                          es_endpoints := endpoints; es_ports := ports |} in
      match r with
      | inr _ => Ret (Some "update endpoint slice")
      | inl _ => Ret None
      end
  end.

Definition doSyncEndpoints (runtimeObj : Runtime) : prog op (option string) :=
  let cpe := cl_endpoint (rts_cluster (rt_spec runtimeObj)) in
  let host := ce_host (cpe_apiServer cpe) in
  let port := ce_port (cpe_apiServer cpe) in
  match resolveIPv4Endpoints host port with
  | inr err => Ret (Some err)
  | inl [] => Ret (Some ("no IPv4 endpoints resolved from host " +:+ host))
  | inl resolved => applyEndpointSlice (slice_endpoints resolved) (slice_ports port)
  end.
End endpoints.

(** The loop of the goroutine: a synchronisation at the start and one for every
    tick until the context ends, each with the answer DNS gives then; errors are
    logged. *)
Fixpoint sync_ticks (runtimeObj : Runtime) (dns : list (string → list string + string)) :
    prog op unit :=
  match dns with
  | [] => Ret tt
  | d :: dns' => let! _ := doSyncEndpoints d runtimeObj in sync_ticks runtimeObj dns'
  end.

Definition SyncKubernetesEndpoints (runtimeObj : Runtime)
    (first : string → list string + string) (ticks : list (string → list string + string)) :
    prog op (option string) :=
  let! _ := doSyncEndpoints first runtimeObj in
  let! _ := sync_ticks runtimeObj ticks in
  Ret (Some "context canceled").

(** ** CustomResourceDefinitions *)

Definition DefaultCRDDir : string := "/etc/kubernetes/crd".

(** [filepath.Ext] of a file name: from its last dot on. *)
Fixpoint Ext (name : string) : string :=
  match name with
  | EmptyString => EmptyString
  | String c r =>
      match Ext r with
      | EmptyString => if decide (c = "."%char) then name else EmptyString
      | e => e
      end
  end.

Section crds.
Context `{Retry}.
(** [os.ReadDir]: the names of the entries and whether they are directories. *)
Variable ReadDir : string → list (string * bool) + string.
(** The YAML documents of a file of the directory, as the decoder gives them up
    to the end of the file: a definition or the error it stops at. *)
Variable documents : string → string → list (CustomResourceDefinition + string) + string.
(** [equality.Semantic.DeepEqual] on specifications. *)
Variable DeepEqual : json → json → bool.

Fixpoint decode_documents (ds : list (CustomResourceDefinition + string)) :
    list CustomResourceDefinition + string :=
  match ds with
  | [] => inl []
  | inr err :: _ => inr err
  | inl crd :: ds' =>
      match decode_documents ds' with
      | inr err => inr err
      | inl crds => inl (if bool_decide (om_name (crd_meta crd) = "") then crds else crd :: crds)
      end
  end.

Definition readCRDDocuments (dir name : string) : list CustomResourceDefinition + string :=
  match documents dir name with
  | inr err => inr err
  | inl ds => decode_documents ds
  end.

(** The entries that are read, in order. *)
Definition crd_files (entries : list (string * bool)) : list string :=
  Sort (fst <$> filter (λ e, e.2 = false ∧ (Ext e.1 = ".yaml" ∨ Ext e.1 = ".yml")) entries).

Fixpoint read_files (dir : string) (names : list string) : list CustomResourceDefinition + string :=
  match names with
  | [] => inl []
  | name :: names' =>
      match readCRDDocuments dir name with
      | inr _ => inr ("failed to parse " +:+ name)
      | inl docs =>
          match read_files dir names' with
          | inr err => inr err
          | inl crds => inl (docs ++ crds)
          end
      end
  end.

Definition readCRDFiles (dir : string) : list CustomResourceDefinition + string :=
  match ReadDir dir with
  | inr _ => inr ("failed to read CRD directory " +:+ dir)
  | inl entries => read_files dir (crd_files entries)
  end.

Definition with_spec (existing : CustomResourceDefinition) (spec : json) : CustomResourceDefinition :=
  {| crd_meta := crd_meta existing; crd_spec := spec |}.

(** CustomResourceDefinitions are cluster-scoped. *)
Definition applyCRD (desired : CustomResourceDefinition) : prog op (option api_error) :=
  let! g := get (O := CustomResourceDefinition) (NN "" (om_name (crd_meta desired))) in
  match g with
  | inr NotFound =>
      let! c := create desired in
      match c with inr e => Ret (Some e) | inl _ => Ret None end
  | inr e => Ret (Some e)
  | inl existing =>
      if DeepEqual (crd_spec existing) (crd_spec desired) then Ret None
      else
        let! u := update (with_spec existing (crd_spec desired)) in
        match u with inr e => Ret (Some e) | inl _ => Ret None end
  end.

Definition applyCRDWithBackoff (crd : CustomResourceDefinition) : prog op (unit + string) :=
  retry_do 4 (let! r := applyCRD crd in
              match r with
              | Some _ => Ret (Failed "apply")
              | None => Ret (Succeeded tt)
              end).

(** [client] is false when the client cannot be built from the configuration. *)
Definition ApplyCRDs (client : bool) (dir : string) : prog op (option string) :=
  match readCRDFiles dir with
  | inr err => Ret (Some err)
  | inl crds =>
      if negb client then Ret (Some "failed to build apiextensions client")
      else
        let! r := for_each crds (λ crd,
          let! a := applyCRDWithBackoff crd in
          match a with
          | inr _ => Ret (inl ("failed to apply CRD " +:+ om_name (crd_meta crd)))
          | inl _ => Ret (inr tt)
          end) in
        match r with inl e => Ret (Some e) | inr _ => Ret None end
  end.
End crds.

(** ** Endpoints: properties *)

(** An address that Go's parser takes and that has an IPv4 form. *)
Definition ipv4 (ip : string) : Prop :=
  match ParseIP ip with Some a => is_Some (To4 a) | None => False end.

#[export] Instance ipv4_dec ip : Decision (ipv4 ip).
Proof. unfold ipv4. destruct (ParseIP ip); apply _. Defined.

Lemma is_ipv4_iff ip : is_ipv4 ip = true ↔ ipv4 ip.
Proof. unfold is_ipv4, ipv4. destruct (ParseIP ip); [apply bool_decide_eq_true|done]. Qed.

(** The IPv4 addresses a host stands for: its own when it is an address, or those that DNS
    answers for it; none when DNS fails. *)
Definition ipv4_addresses (LookupHost : string → list string + string) (host : string) : list string :=
  filter ipv4
    match ParseIP host with
    | Some _ => [host]
    | None => if bool_decide (host = "") then []
              else match LookupHost host with inl ips => ips | inr _ => [] end
    end.

(** What belongs into the slice: a ready endpoint per address and the port of the API server. *)
Definition wanted_endpoints (LookupHost : string → list string + string) (host : string) : list SliceEndpoint :=
  (λ ip, {| se_addresses := [ip]; se_ready := Some true |}) <$> ipv4_addresses LookupHost host.

Definition wanted_ports (port : Z) : list SlicePort :=
  [{| slp_name := Some "https"; slp_protocol := Some "TCP"; slp_port := Some port |}].

Lemma filter_ipv4 (ips : list string) : filter (λ ip, is_ipv4 ip = true) ips = filter ipv4 ips.
Proof.
  induction ips as [|ip ips IH]; [done|]. rewrite !filter_cons, IH.
  destruct (decide (ipv4 ip)) as [H|H]; [rewrite decide_True by (by apply is_ipv4_iff); done|].
  by rewrite decide_False by (by rewrite is_ipv4_iff).
Qed.

Lemma resolveIPv4Endpoints_spec LookupHost host port :
  match resolveIPv4Endpoints LookupHost host port with
  | inl l => slice_endpoints l = wanted_endpoints LookupHost host
  | inr _ => wanted_endpoints LookupHost host = []
  end.
Proof.
  unfold resolveIPv4Endpoints, wanted_endpoints, ipv4_addresses, slice_endpoints.
  destruct (ParseIP host).
  - rewrite <- list_fmap_compose. by rewrite filter_ipv4.
  - case_bool_decide as Hh.
    + rewrite (bool_decide_false (host = "")) by done. destruct (LookupHost host) as [ips|]; [|done].
      rewrite <- list_fmap_compose. by rewrite filter_ipv4.
    + by rewrite bool_decide_true by (by destruct (decide (host = ""))).
Qed.

(** The writes of the synchroniser: the slice of the [kubernetes] Service, with the wanted
    endpoints, at least one, and ports. *)
Inductive sync_write (eps : list SliceEndpoint) (ports : list SlicePort) : write → cluster → Prop :=
| sync_create o s :
    meta_key (es_meta o) = NN "default" "kubernetes" →
    om_labels (es_meta o) = Some {[ "kubernetes.io/service-name" := "kubernetes" ]} →
    es_addressType o = "IPv4" → es_endpoints o = eps → eps ≠ [] → es_ports o = ports →
    sync_write eps ports (WCreate kind_EndpointSlice o) s
| sync_update o s :
    om_namespace (es_meta o) = "default" →
    mget (om_labels (es_meta o)) "kubernetes.io/service-name" = Some "kubernetes" →
    es_endpoints o = eps → eps ≠ [] → es_ports o = ports →
    sync_write eps ports (WUpdate kind_EndpointSlice o) s.

(** Slices are stored under their key, and a slice whose deletion is complete is
    not stored. *)
Definition slices_ok (s : cluster) : Prop :=
  map_Forall (λ n o, meta_key (es_meta o) = n ∧ gone (es_meta o) = false) (c_slices s).

Lemma gone_admit m m' : meta_admit m m' → gone m' = gone m.
Proof. intros (_ & _ & _ & _ & _ & Hf & Hd). unfold gone. by rewrite Hf, Hd. Qed.

Lemma key_admit m m' : meta_admit m m' → meta_key m' = meta_key m.
Proof. intros (Hn & Hs & _). unfold meta_key. by rewrite Hn, Hs. Qed.

Section sync.
Context `{X : X509}.

(** What a successful synchronisation leaves: one slice written, of that Service. *)
Definition published (s : cluster) (eps : list SliceEndpoint) (ports : list SlicePort)
    (res : option string) (s' : cluster) : Prop :=
  match res with
  | Some _ => s' = s
  | None => ∃ n sl, s' = kset (<[n := sl]> (c_slices s)) s ∧
      om_namespace (es_meta sl) = "default" ∧
      mget (om_labels (es_meta sl)) "kubernetes.io/service-name" = Some "kubernetes" ∧
      es_endpoints sl = eps ∧ es_ports sl = ports
  end.

Lemma wp_applyEndpointSlice R eps ports s :
  eps ≠ [] →
  wp (api_spec {| rely := R; allowed := sync_write eps ports; may_panic := False |})
    (applyEndpointSlice eps ports) s (λ _ _, True).
Proof.
  intros Hne. unfold applyEndpointSlice.
  set (e := {| rely := R; allowed := _; may_panic := _ |}).
  assert (∀ s s', rely e s s' → True → True) as Hr by done.
  wp_call e (λ _ : cluster, True) Hr ltac:(done); [done|].
  destruct os as [|o os].
  - wp_call e (λ _ : cluster, True) Hr ltac:(done); [|done..]. by constructor.
  - wp_call e (λ _ : cluster, True) Hr ltac:(done); [|done..].
    destruct (proj1 (elem_of_listed (K := kind_EndpointSlice) _ _ _ o _ Hl) (list_elem_of_here _ _)) as [[Hns Hlab] _].
    by constructor.
Qed.

Lemma wp_applyEndpointSlice_quiet eps ports s :
  slices_ok s →
  wp (api_spec {| rely := eq; allowed := λ _ _, True; may_panic := False |})
    (applyEndpointSlice eps ports) s (published s eps ports).
Proof.
  intros Hok. unfold applyEndpointSlice.
  set (e := {| rely := eq; allowed := _; may_panic := _ |}).
  assert (∀ s1 s2, rely e s1 s2 → s1 = s → s2 = s) as Hr by (by intros ?? <-).
  wp_call e (λ s1 : cluster, s1 = s) Hr ltac:(done); [done|]. subst s1.
  destruct os as [|o os].
  - wp_call e (λ s1 : cluster, s1 = s) Hr ltac:(done); [done|by subst..|]. subst s1.
    destruct Ha as (Hm & _ & He & Hp). apply wp_ret. eexists _, o'. split; [done|].
    split; [by destruct Hm as (_ & -> & _)|]. split; [by destruct Hm as (_ & _ & -> & _)|done].
  - destruct (proj1 (elem_of_listed (K := kind_EndpointSlice) _ _ _ o s Hl)) as [Hsel [n Hn]]; [by left|].
    destruct (Hok n o Hn) as [Hk Hg].
    wp_call e (λ s1 : cluster, s1 = s) Hr ltac:(done); [done|by subst..|]. subst s1.
    destruct Ha as (Hm & _ & He & Hp). apply wp_ret.
    cbn [kmeta kind_EndpointSlice]. rewrite (gone_admit _ _ Hm). cbn [es_meta]. rewrite Hg.
    eexists _, o'. split; [done|]. destruct Hsel as [Hns Hlab]. destruct Hm as (_ & En & El & _).
    rewrite En, El. by split_and!.
Qed.
End sync.

(** The calls that the synchroniser needs to succeed. *)
Definition sync_up : ∀ R, op R → R → Prop := λ R o,
  match o in op R return R → Prop with
  | ListObjects _ _ _ | Create _ _ | Update _ _ => λ r, match r with inl _ => True | inr _ => False end
  | _ => λ _, True
  end.

Lemma applyEndpointSlice_answers eps ports :
  answers sync_up (applyEndpointSlice eps ports) (λ r, r = None).
Proof. by intros [[|o os]|] H; [intros [x|] Hx..|]. Qed.

(** C32.  The endpoints of the tenant's kubernetes Service.  Whatever other actors
    do and whichever calls fail, a synchronisation writes nothing but a slice of
    that Service (in the namespace default, with its label), with exactly the wanted content: one
    endpoint, marked ready, for every IPv4 address the host of the external API server stands for
    (itself, or what DNS answers), at least one, and one port, https over TCP, the external
    one.  When it succeeds on a cluster nobody else changes, such a slice is stored and
    nothing else has changed; when it fails nothing has changed.  With no such address it
    fails without a call; with one it succeeds when no call fails. *)
Theorem doSyncEndpoints_correct `{X : X509} LookupHost r s :
  let host := ce_host (cpe_apiServer (cl_endpoint (rts_cluster (rt_spec r)))) in
  let port := ce_port (cpe_apiServer (cl_endpoint (rts_cluster (rt_spec r)))) in
  let eps := wanted_endpoints LookupHost host in
  (∀ R, wp (api_spec {| rely := R; allowed := sync_write eps (wanted_ports port); may_panic := False |})
          (doSyncEndpoints LookupHost r) s (λ _ _, True)) ∧
  (slices_ok s →
   wp (api_spec {| rely := eq; allowed := λ _ _, True; may_panic := False |})
     (doSyncEndpoints LookupHost r) s (published s eps (wanted_ports port))) ∧
  (eps = [] → ∃ m, doSyncEndpoints LookupHost r = Ret (Some m)) ∧
  (eps ≠ [] → answers sync_up (doSyncEndpoints LookupHost r) (λ res, res = None)).
Proof.
  intros host port eps. unfold doSyncEndpoints. fold host port.
  pose proof (resolveIPv4Endpoints_spec LookupHost host port) as Hr. fold eps in Hr.
  destruct (resolveIPv4Endpoints LookupHost host port) as [[|x l]|m].
  - cbn in Hr. rewrite <- Hr. split_and!; [done..| |done]. intros _. by eexists.
  - rewrite Hr. assert (eps ≠ []) as Hne by (by rewrite <- Hr). split_and!.
    + intros R. by apply wp_applyEndpointSlice.
    + intros Hok. by apply wp_applyEndpointSlice_quiet.
    + done.
    + intros _. apply applyEndpointSlice_answers.
  - rewrite Hr. split_and!; [done..| |done]. intros _. by eexists.
Qed.

(** The slice of the example Runtime: of the three answers the two IPv4 ones. *)
Lemma doSyncEndpoints_correct_witness :
  let dns host := if bool_decide (host = "api.example.com") then inl ["10.0.0.1"; "fd00::1"; "10.0.0.2"] else inr "no such host" in
  ∃ s', run mem (doSyncEndpoints dns example_runtime) empty_cluster = Some (None, s') ∧
    published empty_cluster
      [{| se_addresses := ["10.0.0.1"]; se_ready := Some true |}; {| se_addresses := ["10.0.0.2"]; se_ready := Some true |}]
      (wanted_ports 6443) None s'.
Proof.
  intros dns. destruct (doSyncEndpoints_correct (X := ref_x509) dns example_runtime empty_cluster) as (_ & Hq & _ & Ha).
  specialize (Hq (map_Forall_empty _)). apply mem_run in Hq; [|by intros s].
  assert (match run mem (doSyncEndpoints dns example_runtime) empty_cluster with Some (None, _) => true | _ => false end = true)
    as E by (vm_compute; reflexivity).
  destruct (run mem _ empty_cluster) as [[[m|] s']|]; [discriminate E| |discriminate E].
  exists s'. split; [reflexivity|]. exact Hq.
Defined.

(** An IPv4-mapped IPv6 literal passes the filter as it is written, and goes into
    a slice of address type IPv4. *)
Example mapped_address_accepted :
  resolveIPv4Endpoints (λ _, inr "unused") "::ffff:10.0.0.1" 6443 =
    inl [{| re_ip := "::ffff:10.0.0.1"; re_port := 6443 |}] ∧
  resolveIPv4Endpoints (λ _, inl ["10.0.0.1"; "fd00::1"; "10.0.0.2"]) "api.example.com" 6443 =
    inl [{| re_ip := "10.0.0.1"; re_port := 6443 |}; {| re_ip := "10.0.0.2"; re_port := 6443 |}].
Proof. vm_compute. repeat split. Qed.

(** ** CustomResourceDefinitions: properties *)

Definition crd_key (d : CustomResourceDefinition) : NamespacedName := NN "" (om_name (crd_meta d)).

(** The specification each name ends with when the list is applied in order: that
    of its last entry. *)
Definition wanted_specs (crds : list CustomResourceDefinition) : gmap NamespacedName json :=
  foldl (λ m d, <[crd_key d := crd_spec d]> m) ∅ crds.

(** The only definitions written are those of the directory, and an existing one
    only gets a specification of the directory. *)
Inductive crd_write (crds : list CustomResourceDefinition) : write → cluster → Prop :=
| crd_create d s : d ∈ crds → crd_write crds (WCreate kind_CustomResourceDefinition d) s
| crd_update d o s :
    d ∈ crds → crd_write crds (WUpdate kind_CustomResourceDefinition (with_spec o (crd_spec d))) s.

(** Definitions are cluster-scoped, stored under their name, and not stored once
    their deletion is complete. *)
Definition crds_ok (s : cluster) : Prop :=
  map_Forall (λ n o, meta_key (crd_meta o) = n ∧ gone (crd_meta o) = false) (c_crds s).

Section crds.
Context `{X : X509} `{RL : RetryLaws} (DeepEqual : json → json → bool).

Lemma wp_applyCRD R crds d s :
  d ∈ crds →
  wp (api_spec {| rely := R; allowed := crd_write crds; may_panic := False |})
    (applyCRD DeepEqual d) s (λ _ _, True).
Proof using X.
  intros Hd. unfold applyCRD. set (e := {| rely := R; allowed := _; may_panic := _ |}).
  assert (∀ s s', rely e s s' → True → True) as Hr by done.
  repeat (wp_call e (λ _ : cluster, True) Hr ltac:(done); try done); by constructor.
Qed.

(** The specification of [n] is the wanted one, or one that counts as equal. *)
Definition has_spec (s : cluster) (n : NamespacedName) (sp : json) : Prop :=
  ∃ o, c_crds s !! n = Some o ∧ (crd_spec o = sp ∨ DeepEqual (crd_spec o) sp = true).

(** One definition applied: the others are untouched. *)
Definition applied (s : cluster) (d : CustomResourceDefinition) (s' : cluster) : Prop :=
  crds_ok s' ∧ has_spec s' (crd_key d) (crd_spec d) ∧
  ∀ n, n ≠ crd_key d → c_crds s' !! n = c_crds s !! n.

Definition untouched (s s' : cluster) : Prop := c_crds s' = c_crds s.

Lemma crds_ok_put o s :
  crds_ok s → gone (crd_meta o) = false → crds_ok (kput o s).
Proof. intros Hok Hg. by apply map_Forall_insert_2. Qed.

Lemma applied_put s o d :
  crds_ok s → meta_key (crd_meta o) = crd_key d → gone (crd_meta o) = false →
  crd_spec o = crd_spec d → applied s d (kput o s).
Proof.
  intros Hok Hk Hg Hsp. split; [by apply crds_ok_put|]. split.
  - exists o. simpl. rewrite Hk, lookup_insert_eq. auto.
  - intros n Hn. simpl. rewrite Hk. by rewrite lookup_insert_ne.
Qed.

Lemma wp_applyCRD_quiet ok d s :
  crds_ok s → meta_key (crd_meta d) = crd_key d → gone (crd_meta d) = false →
  (∀ w s, ok w s) →
  wp (api_spec {| rely := eq; allowed := ok; may_panic := False |})
    (applyCRD DeepEqual d) s (λ r s',
       match r with None => applied s d s' | Some _ => s' = s end).
Proof using X.
  intros Hok Hk Hg Hall. unfold applyCRD. set (e := {| rely := eq; allowed := _; may_panic := _ |}).
  assert (∀ s1 s2, rely e s1 s2 → s1 = s → s2 = s) as Hr by (by intros ?? <-).
  wp_call e (λ s1 : cluster, s1 = s) Hr ltac:(done); subst; [done| |].
  - wp_call e (λ s1 : cluster, s1 = s) Hr ltac:(done); subst; [apply Hall|done..|].
    destruct Ha as [Hm Hsp]. apply wp_ret.
    apply applied_put; [done|by rewrite (key_admit _ _ Hm)|by rewrite (gone_admit _ _ Hm)|done].
  - destruct (Hok _ _ Ho) as [Hko Hgo]. destruct (DeepEqual _ _) eqn:Ed.
    + apply wp_ret. split; [done|]. split; [|done]. exists o. auto.
    + wp_call e (λ s1 : cluster, s1 = s) Hr ltac:(done); subst; [apply Hall|done..|].
      destruct Ha as [Hm Hsp]. apply wp_ret. cbn [kmeta kind_CustomResourceDefinition].
      rewrite (gone_admit _ _ Hm). cbn [with_spec crd_meta]. rewrite Hgo.
      apply applied_put; [done|by rewrite (key_admit _ _ Hm)|by rewrite (gone_admit _ _ Hm)|done].
Qed.

Lemma wp_applyCRDWithBackoff_quiet d s :
  crds_ok s → meta_key (crd_meta d) = crd_key d → gone (crd_meta d) = false →
  wp (api_spec {| rely := eq; allowed := λ _ _, True; may_panic := False |})
    (applyCRDWithBackoff DeepEqual d) s (λ r s',
       match r with inl _ => applied s d s' | inr _ => s' = s end).
Proof using X RL.
  intros Hok Hk Hg. unfold applyCRDWithBackoff.
  apply (wp_retry _ _ _ (λ s', s' = s)); [done| |by intros ? m ->].
  intros s1 ->. eapply wp_seq; [apply _|by apply wp_applyCRD_quiet|].
  by intros [m|] s'.
Qed.

Lemma wanted_specs_snoc l d : wanted_specs (l ++ [d]) = <[crd_key d := crd_spec d]> (wanted_specs l).
Proof. unfold wanted_specs. by rewrite foldl_app. Qed.

Lemma wanted_specs_None l n : wanted_specs l !! n = None ↔ n ∉ crd_key <$> l.
Proof.
  induction l as [|d l IH] using rev_ind.
  { split; [intros _; apply not_elem_of_nil|intros _; apply lookup_empty]. }
  rewrite wanted_specs_snoc, fmap_app, lookup_insert_None, elem_of_app, IH.
  change (crd_key <$> [d]) with [crd_key d]. rewrite list_elem_of_singleton. naive_solver.
Qed.

(** The loop: what was applied so far, and that nothing else was touched. *)
Lemma wp_apply_all crds s :
  crds_ok s →
  (∀ d, d ∈ crds → meta_key (crd_meta d) = crd_key d ∧ gone (crd_meta d) = false) →
  wp (api_spec {| rely := eq; allowed := λ _ _, True; may_panic := False |})
    (for_each crds (λ crd,
       let! a := applyCRDWithBackoff DeepEqual crd in
       match a with
       | inr _ => Ret (inl ("failed to apply CRD " +:+ om_name (crd_meta crd)))
       | inl _ => Ret (inr tt)
       end)) s
    (λ res s', (res = inr tt → ∀ n sp, wanted_specs crds !! n = Some sp → has_spec s' n sp) ∧
       ∀ n, wanted_specs crds !! n = None → c_crds s' !! n = c_crds s !! n).
Proof using X RL.
  intros Hok Hscope.
  apply (wp_for_each_prefix _ _ _ (λ before s',
    crds_ok s' ∧ (∀ n sp, wanted_specs before !! n = Some sp → has_spec s' n sp) ∧
    ∀ n, wanted_specs crds !! n = None → c_crds s' !! n = c_crds s !! n)); [| |by intros s' (_ & ? & ?)].
  { split; [done|]. split; [|done]. intros n sp Hn. unfold wanted_specs in Hn. simpl in Hn.
    by rewrite lookup_empty in Hn. }
  intros before d s1 Hd (Hok1 & Hsp & Hsame). destruct (Hscope d Hd) as [Hk Hg].
  eapply wp_seq; [apply _|by apply wp_applyCRDWithBackoff_quiet|].
  intros [[]|m] s2; simpl; [|by intros ->]. intros (Hok2 & Hnew & Hother). split; [done|]. split.
  - intros n sp. rewrite wanted_specs_snoc, lookup_insert_Some. intros [[<- <-]|[Hne Hn]]; [done|].
    destruct (Hsp n sp Hn) as (o & Ho & Heq). exists o. split; [|done]. by rewrite Hother.
  - intros n Hn. rewrite Hother; [auto|]. intros ->.
    apply wanted_specs_None in Hn. by apply Hn, list_elem_of_fmap_2.
Qed.
End crds.

(** The definitions of a directory, none when it cannot be read. *)
Definition found (files : list CustomResourceDefinition + string) : list CustomResourceDefinition :=
  match files with inl crds => crds | inr _ => [] end.

Lemma wp_ApplyCRDs_quiet `{X : X509} `{RL : RetryLaws} ReadDir documents DeepEqual client dir s :
  let files := readCRDFiles ReadDir documents dir in
  crds_ok s →
  (∀ d, d ∈ found files → meta_key (crd_meta d) = crd_key d ∧ gone (crd_meta d) = false) →
  wp (api_spec {| rely := eq; allowed := λ _ _, True; may_panic := False |})
    (ApplyCRDs ReadDir documents DeepEqual client dir) s (λ res s',
       (res = None → files = inl (found files) ∧
          ∀ n sp, wanted_specs (found files) !! n = Some sp → has_spec DeepEqual s' n sp) ∧
       ∀ n, wanted_specs (found files) !! n = None → c_crds s' !! n = c_crds s !! n).
Proof.
  intros files Hok Hscope. unfold ApplyCRDs. fold files.
  destruct files as [crds|m]; [|apply wp_ret; by split].
  destruct client; [|apply wp_ret; by split]. cbn [negb found] in *.
  eapply wp_seq; [apply _|by apply wp_apply_all|].
  intros [m|[]] s' [H1 H2]; apply wp_ret; split; [done|done| |done]. by intros _; split; [|apply H1].
Qed.

(** Installing the definitions of a directory.  Whatever other actors do and
    whichever calls fail and are retried, only definitions found in the directory
    are written, and nothing is written unless the whole directory was read.  When
    the installation succeeds on a cluster nobody else changes, every name has the
    specification of its last document in the order of the sorted file names, or
    one that counts as equal; definitions of other names are untouched, also when
    it fails. *)
Theorem ApplyCRDs_correct `{X : X509} `{RL : RetryLaws} ReadDir documents DeepEqual client dir s :
  let files := readCRDFiles ReadDir documents dir in
  (∀ R, wp (api_spec {| rely := R; allowed := crd_write (found files); may_panic := False |})
          (ApplyCRDs ReadDir documents DeepEqual client dir) s (λ _ _, True)) ∧
  (crds_ok s →
   (∀ d, d ∈ found files → meta_key (crd_meta d) = crd_key d ∧ gone (crd_meta d) = false) →
   wp (api_spec {| rely := eq; allowed := λ _ _, True; may_panic := False |})
     (ApplyCRDs ReadDir documents DeepEqual client dir) s (λ res s',
        (res = None → files = inl (found files) ∧
           ∀ n sp, wanted_specs (found files) !! n = Some sp → has_spec DeepEqual s' n sp) ∧
        ∀ n, wanted_specs (found files) !! n = None → c_crds s' !! n = c_crds s !! n)).
Proof.
  intros files. split.
  - intros R. unfold ApplyCRDs. fold files. destruct files as [crds|m]; [|done]. destruct client; [|done]. cbn [negb found].
    eapply (wp_seq _ _ _ _ (λ _ _, True)); [|by intros [] ? _].
    apply (wp_for_each _ _ _ (λ _, True)); [done| |done]. intros d s1 Hd _.
    eapply (wp_seq _ _ _ _ (λ _ _, True)); [|by intros [] ? _].
    unfold applyCRDWithBackoff. apply (wp_retry _ _ _ (λ _, True)); [done| |done]. intros s2 _.
    eapply (wp_seq _ _ _ _ (λ _ _, True)); [by apply wp_applyCRD|]. by intros [] ? _.
  - apply wp_ApplyCRDs_quiet.
Qed.

Definition demo_crd (name spec : string) : CustomResourceDefinition :=
  {| crd_meta := new_meta name "" None None; crd_spec := Json spec |}.

(** A directory with two files and a subdirectory; the file sorted last has a
    document without a name and redefines a name of the first. *)
Definition demo_dir (dir : string) : list (string * bool) + string :=
  inl [("b.yml", false); ("a.yaml", false); ("old", true); ("notes.txt", false)].

Definition demo_documents (dir name : string) : list (CustomResourceDefinition + string) + string :=
  if decide (name = "a.yaml") then inl [inl (demo_crd "charts" "v1"); inl (demo_crd "tokens" "v1")]
  else inl [inl (demo_crd "" "ignored"); inl (demo_crd "charts" "v2")].

Lemma ApplyCRDs_correct_witness :
  readCRDFiles demo_dir demo_documents DefaultCRDDir =
    inl [demo_crd "charts" "v1"; demo_crd "tokens" "v1"; demo_crd "charts" "v2"] ∧
  ∃ s', run mem (ApplyCRDs (H := ref_retry) demo_dir demo_documents (λ a b, bool_decide (a = b)) true
                   DefaultCRDDir) empty_cluster = Some (None, s') ∧
    has_spec (λ a b, bool_decide (a = b)) s' (NN "" "charts") (Json "v2").
Proof.
  split; [vm_compute; reflexivity|].
  destruct (ApplyCRDs_correct (X := ref_x509) (RL := ref_retry_laws) demo_dir demo_documents
    (λ a b, bool_decide (a = b)) true DefaultCRDDir empty_cluster) as [_ H].
  assert (crds_ok empty_cluster) as Hok by apply map_Forall_empty.
  specialize (H Hok).
  assert (∀ d, d ∈ found (readCRDFiles demo_dir demo_documents DefaultCRDDir) →
    meta_key (crd_meta d) = crd_key d ∧ gone (crd_meta d) = false) as Hd.
  { apply Forall_forall. vm_compute. repeat constructor. }
  apply mem_run in H; [|by intros s|exact Hd].
  destruct (run mem _ empty_cluster) as [[res s']|] eqn:E; [|done].
  assert (res = None) as -> by (revert E; vm_compute; congruence).
  exists s'. split; [done|]. apply H; [done|]. vm_compute. reflexivity.
Defined.
