(* ===== verification/Startup.v ===== *)
(** * The binaries of the managers

    What src/cmd/main.go (the controllers of the management cluster) and
    src/cmd/clusteragent/app.go (those of a tenant cluster) do from their parsed flags
    to the start of the controller-runtime manager, and the pod the second one runs in.

    The calls are those on controller-runtime (building a manager, registering its
    parts, starting it), on the files of the container and on the API server.  A
    program ends with the exit status of its process.  Parsing of flags and the
    manager itself are not the program's own. *)

From stdpp Require Import gmap.
From S2P Require Import Prelude Effects Kube Api Pki World PkiAuth Templates Generate Endpoints JoinToken RuntimeController.
From stdpp Require Import options.

(** ** Servers of a manager *)

Record tls_Config := { NextProtos : list string }.

Definition disableHTTP2 (c : tls_Config) : tls_Config := {| NextProtos := ["http/1.1"] |}.

Record managerFlags := {
  metricsAddr : string;
  probeAddr : string;
  enableLeaderElection : bool;
  secureMetrics : bool;
  webhookCertPath : string;
  webhookCertName : string;
  webhookCertKey : string;
  metricsCertPath : string;
  metricsCertName : string;
  metricsCertKey : string;
  enableHTTP2 : bool;
}.

(** When nothing is given on the command line. *)
Definition default_managerFlags : managerFlags := {|
  metricsAddr := "0"; probeAddr := ":8081"; enableLeaderElection := true; secureMetrics := true;
  webhookCertPath := ""; webhookCertName := "tls.crt"; webhookCertKey := "tls.key";
  metricsCertPath := ""; metricsCertName := "tls.crt"; metricsCertKey := "tls.key";
  enableHTTP2 := false |}.

(** Directory and names of a certificate and its key; without them controller-runtime
    has its own. *)
Record serverCert := { CertDir : string; CertName : string; KeyName : string }.

Record webhookOptions := { wh_TLSOpts : list (tls_Config → tls_Config); wh_cert : option serverCert }.

Record metricsOptions := {
  BindAddress : string;
  SecureServing : bool;
  mt_TLSOpts : list (tls_Config → tls_Config);
  (** [filters.WithAuthenticationAndAuthorization]. *)
  FilterProvider : bool;
  mt_cert : option serverCert;
}.

Definition tlsOpts (f : managerFlags) : list (tls_Config → tls_Config) :=
  if enableHTTP2 f then [] else [disableHTTP2].

Definition webhookServerOptions (f : managerFlags) : webhookOptions := {|
  wh_TLSOpts := tlsOpts f;
  wh_cert :=
    if bool_decide (webhookCertPath f = "") then None
    else Some {| CertDir := webhookCertPath f; CertName := webhookCertName f; KeyName := webhookCertKey f |} |}.

Definition metricsServerOptions (f : managerFlags) : metricsOptions := {|
  BindAddress := metricsAddr f;
  SecureServing := secureMetrics f;
  mt_TLSOpts := tlsOpts f;
  FilterProvider := secureMetrics f;
  mt_cert :=
    if bool_decide (metricsCertPath f = "") then None
    else Some {| CertDir := metricsCertPath f; CertName := metricsCertName f; KeyName := metricsCertKey f |} |}.

(** Groups of types in a scheme. *)
Inductive group := ClientGo | ControlPlaneV1alpha1 | ClusterAgentV1alpha1.

#[export] Instance group_eq_dec : EqDecision group.
Proof. solve_decision. Defined.

Record managerOptions := {
  Scheme : list group;
  Metrics : metricsOptions;
  WebhookServer : webhookOptions;
  HealthProbeBindAddress : string;
  LeaderElection : bool;
  LeaderElectionID : string;
}.

Definition manager_options (scheme : list group) (id : string) (f : managerFlags) : managerOptions := {|
  Scheme := scheme; Metrics := metricsServerOptions f; WebhookServer := webhookServerOptions f;
  HealthProbeBindAddress := probeAddr f; LeaderElection := enableLeaderElection f; LeaderElectionID := id |}.

(** ** Parts of a manager *)

Inductive watched_kind :=
| WRuntime | WHelmChart | WWorkerJoinToken | WCertificateSigningRequest
| WDeployment | WService | WConfigMap | WSecret | WJob.

Definition kind_group (k : watched_kind) : group :=
  match k with
  | WRuntime => ControlPlaneV1alpha1
  | WHelmChart | WWorkerJoinToken => ClusterAgentV1alpha1
  | _ => ClientGo
  end.

(** The reconcilers, with the fields that are not handles of the manager. *)
Inductive reconciler :=
| RuntimeReconciler (WrkCtx : WorkerContext)
| WorkerJoinTokenReconciler (CA : string) (rt : Runtime)
| CSRApproverReconciler
| HelmChartReconciler.

(** [SetupWithManager]: the name of the controller, the kind it is [For], those it
    [Owns]. *)
Definition SetupWithManager (r : reconciler) : string * watched_kind * list watched_kind :=
  match r with
  | RuntimeReconciler _ => ("runtime", WRuntime, [WDeployment; WService; WConfigMap; WSecret])
  | WorkerJoinTokenReconciler _ _ => ("clusteragent-workerjointoken", WWorkerJoinToken, [WSecret])
  | CSRApproverReconciler => ("clusteragent-csrapprover", WCertificateSigningRequest, [])
  | HelmChartReconciler => ("clusteragent-helmchart", WHelmChart, [WJob])
  end.

Definition watches (r : reconciler) : list watched_kind :=
  let '(_, k, owned) := SetupWithManager r in k :: owned.

Inductive part :=
| Controller (r : reconciler)
| AddonsReconciler (rt : Runtime)
| HealthzCheck (name : string)
| ReadyzCheck (name : string).

Inductive sop : Type → Type :=
(** The host of the kubeconfig. *)
| GetConfig : sop (string + string)
| ReadFile (p : string) : sop (string + string)
| NewManager (host : string) (o : managerOptions) : sop (option string)
| NewForConfig (host : string) : sop (option string)
| AddPart (p : part) : sop (option string)
(** A goroutine that runs [SyncKubernetesEndpoints] beside the manager. *)
| GoSync (rt : Runtime) : sop unit
| Start : sop (option string)
| Api {R} (o : op R) : sop R.

Definition on_api {A} (p : prog op A) : prog sop A := embed (@Api) p.

(** A call whose error ends the process. *)
Definition or_exit (p : prog sop (option string)) (k : prog sop Z) : prog sop Z :=
  let! r := p in match r with Some _ => Ret 1%Z | None => k end.

Fixpoint add_parts (ps : list part) (k : prog sop Z) : prog sop Z :=
  match ps with
  | [] => k
  | p :: ps' => or_exit (trigger (AddPart p)) (add_parts ps' k)
  end.

Definition GetConfigOrDie (k : string → prog sop Z) : prog sop Z :=
  let! c := trigger GetConfig in match c with inr _ => Ret 1%Z | inl host => k host end.

(** ** cmd/main.go *)

Definition main_scheme : list group := [ClientGo; ControlPlaneV1alpha1; ClusterAgentV1alpha1].

Definition main_parts (wrkCtx : WorkerContext) : list part :=
  [Controller (RuntimeReconciler wrkCtx); HealthzCheck "healthz"; ReadyzCheck "readyz"].

Definition main (f : managerFlags) : prog sop Z :=
  GetConfigOrDie (λ host,
  or_exit (trigger (NewManager host (manager_options main_scheme "385b3a92.tardigrade.runtime.io" f)))
  (add_parts (main_parts NewWorkerContextWithDefaults)
  (or_exit (trigger Start) (Ret 0%Z)))).

(** ** cmd/clusteragent/app.go *)

Record clusteragentFlags := {
  ca_manager : managerFlags;
  caCertPath : string;
  runtimeManifestPath : string;
  crdDir : string;
}.

(** The defaults of its own three flags come from the environment. *)
Definition default_clusteragentFlags (getenv : string → string) : clusteragentFlags := {|
  ca_manager := default_managerFlags;
  caCertPath := getenv "HEIR_CLUSTERAGENT_CA_CERT_PATH";
  runtimeManifestPath := getenv "HEIR_CLUSTERAGENT_RUNTIME_MANIFEST_PATH";
  crdDir := getenv "HEIR_CLUSTERAGENT_CRD_DIR" |}.

Definition or_default (v d : string) : string := if bool_decide (v = "") then d else v.

Definition clusteragent_scheme : list group := [ClientGo; ClusterAgentV1alpha1].

Definition clusteragent_parts (ca : string) (rt : Runtime) : list part :=
  [Controller (WorkerJoinTokenReconciler ca rt); Controller CSRApproverReconciler; Controller HelmChartReconciler;
   AddonsReconciler rt; HealthzCheck "healthz"; ReadyzCheck "readyz"].

Definition apiserver_host (rt : Runtime) : string :=
  "https://" +:+ rt_name rt +:+ "." +:+ rt_namespace rt +:+ ".svc.cluster.local:6443".

Section clusteragent.
Context `{Retry}.
(** As in Endpoints.v, with whether a client for the definitions can be built. *)
Context (ReadDir : string → list (string * bool) + string).
Context (documents : string → string → list (CustomResourceDefinition + string) + string).
Context (DeepEqual : json → json → bool) (client : string → bool).
(** [yaml.Unmarshal] into a Runtime. *)
Context (unmarshal_runtime : string → option Runtime).

Definition loadClusterInfo (caCertPath runtimeManifestPath : string) : prog sop ((string * Runtime) + string) :=
  let! c := trigger (ReadFile caCertPath) in
  match c with
  | inr e => Ret (inr ("failed to read CA cert from " +:+ caCertPath +:+ ": " +:+ e))
  | inl caData =>
      let! m := trigger (ReadFile runtimeManifestPath) in
      match m with
      | inr e => Ret (inr ("failed to read runtime manifest from " +:+ runtimeManifestPath +:+ ": " +:+ e))
      | inl manifest =>
          match unmarshal_runtime manifest with
          | None => Ret (inr ("failed to parse runtime manifest " +:+ runtimeManifestPath))
          | Some runtimeObj => Ret (inl (caData, runtimeObj))
          end
      end
  end.

Definition clusteragent_Run (f : clusteragentFlags) : prog sop Z :=
  GetConfigOrDie (λ _,
  let layout := NewControlPlaneLayout in
  let caCertPath := or_default (caCertPath f) (MountPath (CACert (lay_pki layout))) in
  let runtimeManifestPath := or_default (runtimeManifestPath f) (MountPath (lay_runtimeManifest layout)) in
  let crdDir := or_default (crdDir f) DefaultCRDDir in
  let! i := loadClusterInfo caCertPath runtimeManifestPath in
  match i with
  | inr _ => Ret 1%Z
  | inl (caData, runtimeObj) =>
      let host := apiserver_host runtimeObj in
      or_exit (trigger (NewManager host
                 (manager_options clusteragent_scheme "clusteragent.tardigrade.runtime.io" (ca_manager f))))
      (or_exit (on_api (ApplyCRDs ReadDir documents DeepEqual (client host) crdDir))
      (or_exit (trigger (NewForConfig host))
      (add_parts (clusteragent_parts caData runtimeObj)
      (let! _ := trigger (GoSync runtimeObj) in
      or_exit (trigger Start) (Ret 0%Z)))))
  end).
End clusteragent.

(** ** The interface *)

Record process := {
  ps_files : string → option string;
  ps_cluster : cluster;
  (** The host and options of the manager that was built, and the parts added to it. *)
  ps_manager : option (string * managerOptions);
  ps_parts : list part;
  ps_syncing : option Runtime;
  ps_started : bool;
}.

Definition with_manager (m : string * managerOptions) (s : process) : process := {|
  ps_files := ps_files s; ps_cluster := ps_cluster s; ps_manager := Some m; ps_parts := ps_parts s;
  ps_syncing := ps_syncing s; ps_started := ps_started s |}.
Definition with_parts (ps : list part) (s : process) : process := {|
  ps_files := ps_files s; ps_cluster := ps_cluster s; ps_manager := ps_manager s; ps_parts := ps;
  ps_syncing := ps_syncing s; ps_started := ps_started s |}.
Definition with_syncing (rt : Runtime) (s : process) : process := {|
  ps_files := ps_files s; ps_cluster := ps_cluster s; ps_manager := ps_manager s; ps_parts := ps_parts s;
  ps_syncing := Some rt; ps_started := ps_started s |}.
Definition with_started (s : process) : process := {|
  ps_files := ps_files s; ps_cluster := ps_cluster s; ps_manager := ps_manager s; ps_parts := ps_parts s;
  ps_syncing := ps_syncing s; ps_started := true |}.
Definition with_pcluster (c : cluster) (s : process) : process := {|
  ps_files := ps_files s; ps_cluster := c; ps_manager := ps_manager s; ps_parts := ps_parts s;
  ps_syncing := ps_syncing s; ps_started := ps_started s |}.

Section interface.
(** What the controllers need of the cluster when they are registered. *)
Context `{X : X509} (installed : cluster → Prop).

(** A controller can be added to a manager whose scheme has the kinds it watches, on a
    cluster that has their definitions. *)
Definition ready (p : part) (s : process) : Prop :=
  ∃ host o, ps_manager s = Some (host, o) ∧
    match p with
    | Controller r => (∀ k, k ∈ watches r → kind_group k ∈ Scheme o) ∧ installed (ps_cluster s)
    | _ => True
    end.

Definition startup_spec : op_spec sop process := λ R o,
  match o in sop R return process → (R → process → Prop) → Prop with
  | GetConfig => λ s Q, ∀ r, Q r s
  | ReadFile p => λ s Q, (∀ m, Q (inr m) s) ∧ ∀ d, ps_files s p = Some d → Q (inl d) s
  | NewManager host o => λ s Q, (∀ m, Q (Some m) s) ∧ Q None (with_manager (host, o) s)
  | NewForConfig _ => λ s Q, ∀ r, Q r s
  | AddPart p => λ s Q, ready p s ∧ (∀ m, Q (Some m) s) ∧ Q None (with_parts (ps_parts s ++ [p]) s)
  | GoSync rt => λ s Q, Q tt (with_syncing rt s)
  | Start => λ s Q, ∀ r, Q r (with_started s)
  | @Api R o => λ s Q, api_spec calm R o (ps_cluster s) (λ r c, Q r (with_pcluster c s))
  end.

#[global] Instance startup_spec_mono : Monotone startup_spec.
Proof using Type.
  intros R o s Q Q' HQ H. destruct o; simpl in *; try (eapply api_spec_mono; [|exact H]); naive_solver.
Qed.

Lemma wp_process_api {A} (p : prog op A) s (Q : A → process → Prop) :
  wp (api_spec calm) p (ps_cluster s) (λ a c, Q a (with_pcluster c s)) → wp startup_spec (on_api p) s Q.
Proof using Type.
  apply (wp_embed _ _ _ ps_cluster with_pcluster (λ _, True)); try done; [apply _|by intros []].
Qed.

Lemma wp_or_exit p k s (Q : Z → process → Prop) :
  wp startup_spec p s (λ r s', match r with Some _ => Q 1%Z s' | None => wp startup_spec k s' Q end) →
  wp startup_spec (or_exit p k) s Q.
Proof using Type. intros H. eapply (wp_seq _ p); [exact H|]. by intros [m|] s'. Qed.

Lemma wp_GetConfigOrDie k s (Q : Z → process → Prop) :
  Q 1%Z s → (∀ host, wp startup_spec (k host) s Q) → wp startup_spec (GetConfigOrDie k) s Q.
Proof using Type. intros H1 Hk. simpl. by intros [host|m]. Qed.

(** Registering the parts in order, each when the manager is ready for it. *)
Lemma wp_add_parts ps k s (Q : Z → process → Prop) :
  (∀ p acc, p ∈ ps → ready p (with_parts acc s)) →
  (∀ acc, Q 1%Z (with_parts acc s)) →
  wp startup_spec k (with_parts (ps_parts s ++ ps) s) Q →
  wp startup_spec (add_parts ps k) s Q.
Proof using Type.
  revert s. induction ps as [|p ps IH]; intros s Hr Hf Hk; simpl.
  { rewrite app_nil_r in Hk. by destruct s. }
  split; [|split].
  - specialize (Hr p (ps_parts s) ltac:(set_solver)). by destruct s.
  - intros m. specialize (Hf (ps_parts s)). by destruct s.
  - apply IH.
    + intros q acc Hq. specialize (Hr q acc ltac:(set_solver)). by destruct s.
    + intros acc. apply Hf.
    + cbn. by rewrite <- app_assoc.
Qed.

(** How the process may end: with status 0 only after the manager ran, and the manager
    runs only when it is complete. *)
Definition starts_only (complete : process → Prop) (code : Z) (s : process) : Prop :=
  (code = 0%Z ∨ code = 1%Z) ∧ (code = 0%Z → ps_started s = true) ∧ (ps_started s = true → complete s).

Lemma starts_only_failed complete s : ps_started s = false → starts_only complete 1 s.
Proof using Type. intros Hs. split; [by right|]. split; [done|]. by rewrite Hs. Qed.

Lemma wp_Start complete s :
  complete (with_started s) →
  wp startup_spec (or_exit (trigger Start) (Ret 0%Z)) s (starts_only complete).
Proof using Type. intros Hc. simpl. intros [m|]; split; [by right|done|by left|done]. Qed.
End interface.

(** The servers of a manager: HTTP/2 only when asked for, metrics over HTTPS only to
    authorized clients. *)
Definition configured (opts : list (tls_Config → tls_Config)) (c : tls_Config) : tls_Config :=
  foldl (λ c f, f c) c opts.

Definition hardened (f : managerFlags) (o : managerOptions) : Prop :=
  (enableHTTP2 f = false → ∀ c, NextProtos (configured (mt_TLSOpts (Metrics o)) c) = ["http/1.1"] ∧
     NextProtos (configured (wh_TLSOpts (WebhookServer o)) c) = ["http/1.1"]) ∧
  (SecureServing (Metrics o) = true → FilterProvider (Metrics o) = true) ∧
  LeaderElection o = enableLeaderElection f.

Lemma manager_options_hardened scheme id f : hardened f (manager_options scheme id f).
Proof. split; [|done]. intros Hf c. cbn. unfold tlsOpts. by rewrite Hf. Qed.

(** The manager of [main]. *)
Lemma wp_main `{X : X509} f s :
  ps_started s = false → ps_parts s = [] →
  wp (startup_spec (λ _, True)) (main f) s (starts_only (λ s', ∃ host o,
    ps_manager s' = Some (host, o) ∧ hardened f o ∧ ps_parts s' = main_parts NewWorkerContextWithDefaults)).
Proof.
  intros Hs Hp. apply wp_GetConfigOrDie; [by apply starts_only_failed|]. intros host.
  apply wp_or_exit. split; [intros m; by apply starts_only_failed|].
  apply wp_add_parts; [|intros acc; by apply starts_only_failed|].
  - intros p acc Hin. eexists _, _. split; [done|]. unfold main_parts in Hin.
    rewrite !elem_of_cons, elem_of_nil in Hin. destruct Hin as [->|[->|[->|[]]]]; [|done..].
    split; [|done]. intros k Hk. destruct k; cbn; set_solver.
  - apply wp_Start. eexists _, _. split; [done|]. split; [apply manager_options_hardened|]. cbn. by rewrite Hp.
Qed.

(** ** The cluster agent *)

Section agent.
Context `{X : X509} `{RL : RetryLaws}.
Context (ReadDir : string → list (string * bool) + string).
Context (documents : string → string → list (CustomResourceDefinition + string) + string).
Context (DeepEqual : json → json → bool) (client : string → bool).
Context (unmarshal_runtime : string → option Runtime).
Context (dir : string).

Let files := readCRDFiles ReadDir documents dir.

(** The definitions of the directory are in the cluster. *)
Definition crds_installed (c : cluster) : Prop :=
  files = inl (found files) ∧ ∀ n sp, wanted_specs (found files) !! n = Some sp → has_spec DeepEqual c n sp.

(** The agent is complete. *)
Definition agent_complete (f : clusteragentFlags) (ca : string) (rt : Runtime) (s : process) : Prop :=
  ∃ o, ps_manager s = Some (apiserver_host rt, o) ∧ hardened (ca_manager f) o ∧
    ps_parts s = clusteragent_parts ca rt ∧ ps_syncing s = Some rt ∧ crds_installed (ps_cluster s).

(** What the two files of the agent hold. *)
Record agent_files (f : clusteragentFlags) (ca : string) (rt : Runtime) (s : process) : Prop := {
  af_ca : ps_files s (or_default (caCertPath f) (MountPath (CACert (lay_pki NewControlPlaneLayout)))) = Some ca;
  af_manifest : ∃ d,
    ps_files s (or_default (runtimeManifestPath f) (MountPath (lay_runtimeManifest NewControlPlaneLayout))) = Some d ∧
    unmarshal_runtime d = Some rt;
  af_dir : or_default (crdDir f) DefaultCRDDir = dir;
}.

Lemma wp_loadClusterInfo caPath manifestPath ca d rt s (Q : (string * Runtime) + string → process → Prop) :
  ps_files s caPath = Some ca → ps_files s manifestPath = Some d → unmarshal_runtime d = Some rt →
  (∀ m, Q (inr m) s) → Q (inl (ca, rt)) s →
  wp (startup_spec crds_installed) (loadClusterInfo unmarshal_runtime caPath manifestPath) s Q.
Proof using Type.
  intros Hca Hd Hu Hm HQ. simpl. split; [intros m; apply Hm|]. rewrite Hca. intros c [= <-].
  split; [intros m; apply Hm|]. rewrite Hd. intros d' [= <-]. by rewrite Hu.
Qed.

Lemma wp_clusteragent_Run f ca rt s :
  agent_files f ca rt s → ps_started s = false → ps_parts s = [] → crds_ok (ps_cluster s) →
  (∀ d, d ∈ found files → meta_key (crd_meta d) = crd_key d ∧ gone (crd_meta d) = false) →
  wp (startup_spec crds_installed) (clusteragent_Run ReadDir documents DeepEqual client unmarshal_runtime f) s
    (starts_only (agent_complete f ca rt)).
Proof using RL.
  intros Hf Hs Hp Hok Hscope. apply wp_GetConfigOrDie; [by apply starts_only_failed|]. intros _. cbv zeta.
  destruct (af_manifest _ _ _ _ Hf) as (d & Hd & Hu).
  eapply (wp_seq _ (loadClusterInfo _ _ _)).
  { eapply (wp_loadClusterInfo _ _ ca d rt s (λ r s', s' = s ∧ ∀ i, r = inl i → i = (ca, rt)));
      [apply Hf|exact Hd|exact Hu|done|]. split; [done|by intros i [= <-]]. }
  intros [[ca' rt']|m] s' [-> Hi]; [|by apply starts_only_failed]. injection (Hi _ eq_refl) as -> ->.
  rewrite (af_dir _ _ _ _ Hf).
  apply wp_or_exit. split; [intros m; by apply starts_only_failed|]. apply wp_or_exit, wp_process_api.
  eapply (wp_mono _ (ApplyCRDs _ _ _ _ _)); [by apply wp_ApplyCRDs_quiet|].
  intros [m|] c [Hc _]; [by apply starts_only_failed|]. specialize (Hc eq_refl).
  apply wp_or_exit. intros [m|]; [by apply starts_only_failed|].
  apply wp_add_parts; [|intros acc; by apply starts_only_failed|].
  - intros p acc Hin. eexists _, _. split; [done|]. unfold clusteragent_parts in Hin.
    rewrite !elem_of_cons, elem_of_nil in Hin.
    destruct Hin as [->|[->|[->|[->|[->|[->|[]]]]]]]; try done; (split; [|exact Hc]); intros k Hk;
      destruct k; cbn; set_solver.
  - apply wp_Start. eexists. split; [done|]. split; [apply manager_options_hardened|]. cbn. by rewrite Hp.
Qed.
End agent.

(** ** The pod of the cluster agent *)

(** The file a container finds at [path], from the Secrets of its namespace. *)
Definition pod_file (secrets : gmap NamespacedName Secret) (ns : string) (p : PodSpec) (c : Container)
    (path : string) : option string :=
  match head (filter (λ m, vm_mountPath m = path) (ct_mounts c)) with
  | None => None
  | Some m =>
      match head (filter (λ v, vol_name v = vm_name m) (ps_volumes p)) with
      | Some {| vol_source := VSecret name |} =>
          match secrets !! NN ns name with Some s => mget (sec_data s) (vm_subPath m) | None => None end
      | _ => None
      end
  end.

(** The environment of a container: its literal values. *)
Definition pod_env (c : Container) (name : string) : string :=
  match head (filter (λ v, ev_name v = name) (ct_env c)) with
  | Some {| ev_source := EnvValue v |} => v
  | _ => ""
  end.

(** The address of the first port of a Service, inside the cluster. *)
Definition service_url (svc : Service) : option string :=
  match ss_ports (svc_spec svc) with
  | port :: _ => Some ("https://" +:+ om_name (svc_meta svc) +:+ "." +:+ om_namespace (svc_meta svc) +:+
                       ".svc.cluster.local:" +:+ FormatInt (sp_port port))
  | [] => None
  end.

Lemma apiserver_host_service r : service_url (GenerateService r) = Some (apiserver_host r).
Proof. reflexivity. Qed.

(** The pod that the runtime controller generates gives the agent the CA of the PKI
    Secret, the Runtime of the manifest Secret and the admin kubeconfig, with no flags
    and no variables of its own. *)
Lemma cluster_agent_pod `{R : Render} r opts secrets pki ca manifest :
  let p := pt_spec (ds_template (dep_spec (GenerateClusterAgentDeployment r NewControlPlaneLayout opts))) in
  let ns := rt_namespace r in
  secrets !! NN ns (rt_name r) = Some pki →
  mget (sec_data pki) "ca.crt" = Some ca →
  (∃ sec, secrets !! NN ns (ClusterAgentRuntimeSecretName (rt_name r)) = Some sec ∧
     mget (sec_data sec) "runtime.yaml" = Some manifest) →
  ∃ c, ps_containers p = [c] ∧
    pod_file secrets ns p c (MountPath (CACert (lay_pki NewControlPlaneLayout))) = Some ca ∧
    pod_file secrets ns p c (MountPath (lay_runtimeManifest NewControlPlaneLayout)) = Some manifest ∧
    pod_file secrets ns p c (pod_env c "KUBECONFIG") = mget (sec_data pki) "admin.conf" ∧
    default_clusteragentFlags (pod_env c) =
      {| ca_manager := default_managerFlags; caCertPath := ""; runtimeManifestPath := ""; crdDir := "" |}.
Proof.
  intros p ns Hpki Hca (sec & Hsec & Hm). eexists. split; [reflexivity|].
  set (in_secret name key := match secrets !! NN ns name with Some s => mget (sec_data s) key | None => None end).
  assert (∀ key, in_secret (rt_name r) key = mget (sec_data pki) key) as Hin by (intros key; unfold in_secret; by rewrite Hpki).
  split_and!; [|..|reflexivity].
  - change (in_secret (rt_name r) "ca.crt" = Some ca). by rewrite Hin.
  - change (in_secret (ClusterAgentRuntimeSecretName (rt_name r)) "runtime.yaml" = Some manifest).
    unfold in_secret. by rewrite Hsec.
  - change (in_secret (rt_name r) "admin.conf" = mget (sec_data pki) "admin.conf"). apply Hin.
Qed.

(** C18.  The cluster agent in the pod generated for a Runtime.  With the PKI Secret and
    the manifest Secret that the runtime controller makes for [r], whichever calls fail,
    the process ends with status 1 or its manager runs; the manager runs only when it is
    complete: it talks to the API server through the first port of the Service generated
    for [r], and it has exactly these parts: the controller of the worker join tokens (with
    the CA of the PKI Secret and the Runtime without its status), which watches the tokens
    and their Secrets, the approver of certificate signing requests, the controller of
    the Helm charts and their Jobs, the addons of that Runtime, and the two probes; the
    endpoints of the Runtime are kept in sync beside it, and the definitions of the image
    are in the cluster.  A controller is registered only when the kinds it watches are in
    the scheme and these definitions are installed. *)
Theorem cluster_agent_boots `{X : X509} `{RL : RetryLaws} `{R : Render}
    ReadDir documents DeepEqual client unmarshal_runtime r opts secrets pki ca rs c tenant :
  let p := pt_spec (ds_template (dep_spec (GenerateClusterAgentDeployment r NewControlPlaneLayout opts))) in
  let files := readCRDFiles ReadDir documents DefaultCRDDir in
  let rt := cluster_agent_manifest r in
  secrets !! NN (rt_namespace r) (rt_name r) = Some pki →
  mget (sec_data pki) "ca.crt" = Some ca →
  GenerateClusterAgentRuntimeSecret r NewControlPlaneLayout = inl rs →
  (∃ sec, secrets !! meta_key (sec_meta rs) = Some sec ∧ sec_data sec = sec_data rs) →
  (∀ d, yaml_runtime rt = Some d → unmarshal_runtime d = Some rt) →
  crds_ok tenant →
  (∀ d, d ∈ found files → meta_key (crd_meta d) = crd_key d ∧ gone (crd_meta d) = false) →
  ps_containers p = [c] →
  wp (startup_spec (crds_installed ReadDir documents DeepEqual DefaultCRDDir))
    (clusteragent_Run ReadDir documents DeepEqual client unmarshal_runtime (default_clusteragentFlags (pod_env c)))
    {| ps_files := pod_file secrets (rt_namespace r) p c; ps_cluster := tenant; ps_manager := None; ps_parts := [];
       ps_syncing := None; ps_started := false |}
    (starts_only (λ s', ∃ host o, ps_manager s' = Some (host, o) ∧ service_url (GenerateService r) = Some host ∧
       host = "https://" +:+ rt_name r +:+ "." +:+ rt_namespace r +:+ ".svc.cluster.local:6443" ∧
       hardened default_managerFlags o ∧
       ps_parts s' = [Controller (WorkerJoinTokenReconciler ca rt); Controller CSRApproverReconciler;
         Controller HelmChartReconciler; AddonsReconciler rt; HealthzCheck "healthz"; ReadyzCheck "readyz"] ∧
       watches <$> [WorkerJoinTokenReconciler ca rt; CSRApproverReconciler; HelmChartReconciler] =
         [[WWorkerJoinToken; WSecret]; [WCertificateSigningRequest]; [WHelmChart; WJob]] ∧
       (rt_meta rt = rt_meta r ∧ rt_spec rt = rt_spec r ∧ rst_conditions (rt_status rt) = []) ∧
       ps_syncing s' = Some rt ∧
       crds_installed ReadDir documents DeepEqual DefaultCRDDir (ps_cluster s'))).
Proof.
  intros p files rt Hpki Hca Hrs (sec & Hsec & Hdata) Hyaml Hok Hscope Hc.
  unfold GenerateClusterAgentRuntimeSecret in Hrs. destruct (yaml_runtime (cluster_agent_manifest r)) as [d|] eqn:E; [|done].
  injection Hrs as <-. cbn in Hsec, Hdata.
  destruct (cluster_agent_pod r opts secrets pki ca d Hpki Hca) as (c' & Hc' & Hf1 & Hf2 & _ & Hflags).
  { exists sec. split; [exact Hsec|]. rewrite Hdata. apply lookup_singleton_eq. }
  fold p in Hc', Hf1, Hf2. rewrite Hc in Hc'. injection Hc' as <-. rewrite Hflags.
  eapply (wp_mono _ (clusteragent_Run _ _ _ _ _ _)).
  { apply (wp_clusteragent_Run ReadDir documents DeepEqual client unmarshal_runtime DefaultCRDDir _ ca rt); try done.
    split; [exact Hf1|exists d; split; [exact Hf2|by apply Hyaml]|reflexivity]. }
  intros code s' (H1 & H2 & H3). split; [done|]. split; [done|]. intros Hst.
  destruct (H3 Hst) as (o & Hm & Hh & Hp & Hsy & Hi). exists (apiserver_host rt), o. by split_and!.
Qed.

(** ** Witness *)

(** A container whose manager accepts all parts; the kubeconfig names [host]. *)
Definition container (host : string) : handler sop process := λ R o,
  match o in sop R return process → option (R * process) with
  | GetConfig => λ s, Some (inl host, s)
  | ReadFile p => λ s, Some (match ps_files s p with Some d => inl d | None => inr "no such file or directory" end, s)
  | NewManager host o => λ s, Some (None, with_manager (host, o) s)
  | NewForConfig _ => λ s, Some (None, s)
  | AddPart p => λ s, Some (None, with_parts (ps_parts s ++ [p]) s)
  | GoSync rt => λ s, Some (tt, with_syncing rt s)
  | Start => λ s, Some (None, with_started s)
  | Api o => λ s, match mem _ o (ps_cluster s) with Some (r, c) => Some (r, with_pcluster c s) | None => None end
  end.

#[export] Instance container_implements host installed :
  Implements (container host) (startup_spec (X := ref_x509) installed) False.
Proof.
  intros R o s Q H. destruct o; simpl in *; try apply H; try done.
  - destruct H as [Hm Hd]. destruct (ps_files s p) eqn:E; [by apply Hd|apply Hm].
  - apply (mem_implements calm ltac:(by intros ?)) in H. by destruct (mem _ o (ps_cluster s)) as [[r c]|].
Qed.

Definition example_manifest_secret : Secret :=
  match GenerateClusterAgentRuntimeSecret (R := ref_render) example_runtime NewControlPlaneLayout with
  | inl s => s | inr _ => empty_secret (NN "" "") end.

Definition example_secrets : gmap NamespacedName Secret :=
  {[ example_key := example_owned_secret; meta_key (sec_meta example_manifest_secret) := example_manifest_secret ]}.

Definition example_agent_pod : PodSpec :=
  pt_spec (ds_template (dep_spec (GenerateClusterAgentDeployment example_runtime NewControlPlaneLayout []))).

Definition example_agent_container : Container :=
  match ps_containers example_agent_pod with
  | c :: _ => c
  | [] => {| ct_name := ""; ct_image := ""; ct_command := []; ct_args := []; ct_ports := []; ct_env := [];
             ct_mounts := []; ct_resources := None |}
  end.

Definition example_boot : option (Z * process) :=
  run (container "https://127.0.0.1:6443")
    (clusteragent_Run (H := ref_retry) demo_dir demo_documents (λ a b, bool_decide (a = b)) (λ _, true)
       (λ d, if decide (d = "demo") then Some (cluster_agent_manifest example_runtime) else None)
       (default_clusteragentFlags (pod_env example_agent_container)))
    {| ps_files := pod_file example_secrets "default" example_agent_pod example_agent_container;
       ps_cluster := empty_cluster; ps_manager := None; ps_parts := []; ps_syncing := None; ps_started := false |}.

Lemma cluster_agent_boots_witness :
  ∃ s' o, example_boot = Some (0%Z, s') ∧
    ps_manager s' = Some ("https://demo.default.svc.cluster.local:6443", o) ∧
    ps_parts s' = (let rt := cluster_agent_manifest example_runtime in
      [Controller (WorkerJoinTokenReconciler "CA" rt); Controller CSRApproverReconciler;
       Controller HelmChartReconciler; AddonsReconciler rt; HealthzCheck "healthz"; ReadyzCheck "readyz"]) ∧
    has_spec (λ a b, bool_decide (a = b)) (ps_cluster s') (NN "" "charts") (Json "v2").
Proof.
  assert (match example_boot with Some (code, _) => Z.eqb code 0 | None => false end = true) as E
    by (vm_compute; reflexivity).
  destruct example_boot as [[code s']|] eqn:Eb; [|discriminate E]. apply Z.eqb_eq in E as ->.
  assert (∀ d, d ∈ found (readCRDFiles demo_dir demo_documents DefaultCRDDir) →
    meta_key (crd_meta d) = crd_key d ∧ gone (crd_meta d) = false) as Hd.
  { apply Forall_forall. vm_compute. repeat constructor. }
  assert (∀ d, yaml_runtime (Render := ref_render) (cluster_agent_manifest example_runtime) = Some d →
    (if decide (d = "demo") then Some (cluster_agent_manifest example_runtime) else None) =
      Some (cluster_agent_manifest example_runtime)) as Hy by (intros d [= <-]; reflexivity).
  assert (∃ sec, example_secrets !! meta_key (sec_meta example_manifest_secret) = Some sec ∧
    sec_data sec = sec_data example_manifest_secret) as Hsec.
  { exists example_manifest_secret. split; [vm_compute; reflexivity|reflexivity]. }
  pose proof (cluster_agent_boots (X := ref_x509) (RL := ref_retry_laws) (R := ref_render)
    demo_dir demo_documents (λ a b, bool_decide (a = b)) (λ _, true)
    (λ d, if decide (d = "demo") then Some (cluster_agent_manifest example_runtime) else None)
    example_runtime [] example_secrets example_owned_secret "CA" example_manifest_secret example_agent_container
    empty_cluster eq_refl eq_refl eq_refl Hsec Hy (map_Forall_empty _) Hd eq_refl) as Hwp.
  apply (wp_run _ (container "https://127.0.0.1:6443") False) in Hwp.
  unfold example_boot in Eb.
  change (rt_namespace example_runtime) with "default" in Hwp. fold example_agent_pod in Hwp.
  rewrite Eb in Hwp. destruct Hwp as (_ & Hstart & Hcomplete).
  destruct (Hcomplete (Hstart eq_refl)) as (host & o & Hm & Hu & _ & _ & Hp & _ & _ & _ & _ & Hcrd).
  injection Hu as <-. exists s', o. split; [reflexivity|]. split; [exact Hm|]. split; [exact Hp|].
  apply Hcrd. vm_compute. reflexivity.
Defined.
