(* ===== verification/Strvals.v ===== *)
(** * Value assignments

    src/pkg/strvals: the parser of assignments such as a.b[0]=x,c={1,2} that the
    provisioning command applies to the specification of a Runtime ([ParseInto]),
    and its siblings that force strings, read JSON or files, or take the value
    literally.

    The buffer is the list of the runes still to be read, each with its bytes.
    The parser updates the nested maps and slices of its destination in place,
    also when it fails half-way, so every function returns the updated map or
    list: [key] the map it was given, [listItem] the elements of the slice it was
    given (the slice it returns when it succeeds).  A failed type assertion is a
    panic that the nearest [key] recovers ([Panicked]).  The recursion of [key]
    and [listItem] is by fuel; every recursive call follows the reading of a rune,
    so the number of bytes is enough, and running out of it is the result [None].
    encoding/json is a parameter. *)

From Stdlib Require Import Ascii.
From S2P Require Import Prelude Numbers Utf8.
From stdpp Require Import options.

(** ** Values *)

(** [interface{}] as this package produces and inspects it; a floating-point
    number only comes from JSON and is kept as its text. *)
Inductive value :=
| VNil
| VBool (b : bool)
| VInt (z : Z)
| VFloat (text : string)
| VString (s : string)
| VList (l : list value)
| VMap (m : gmap string value).

Abbreviation object := (gmap string value).

Inductive error :=
| EOF
| NoValue (key : string)
| NoValueComma (key : string)
| EmptyKeyMap (key : string)
| BadIndex
| NestedTooDeep
| Recovered
| NegativeIndex (i : Z)
| IndexTooLarge (i : Z)
| UnexpectedData
| UnterminatedList
| JSONError
| ReaderError (msg : string).

Definition MaxIndex : Z := 65536.
Definition MaxNestedNameLevel : nat := 30.

(** ** The buffer *)

Definition tok : Type := rune * string.

Definition runes (k : list rune) : string := encode_runes k.

Definition R (c : Ascii.ascii) : rune := Ascii.N_of_ascii c.

(** The result of reading up to a stop rune: the runes before it, and the stop
    rune with the rest of the buffer, or the end of the buffer. *)
Inductive until :=
| Stop (k : list rune) (last : rune) (rest : list tok)
| End (k : list rune).

Definition prepend (r : rune) (u : until) : until :=
  match u with
  | Stop k last rest => Stop (r :: k) last rest
  | End k => End (r :: k)
  end.

(** A backslash takes the next rune as it is; at the end it is an end. *)
Fixpoint runesUntil (stop : list rune) (sc : list tok) : until :=
  match sc with
  | [] => End []
  | (r, _) :: sc' =>
      if decide (r ∈ stop) then Stop [] r sc'
      else if decide (r = R "\"%char) then
        match sc' with
        | [] => End []
        | (next, _) :: sc'' => prepend next (runesUntil stop sc'')
        end
      else prepend r (runesUntil stop sc')
  end.

Fixpoint runesUntilLiteral (stop : list rune) (sc : list tok) : until :=
  match sc with
  | [] => End []
  | (r, _) :: sc' =>
      if decide (r ∈ stop) then Stop [] r sc' else prepend r (runesUntilLiteral stop sc')
  end.

(** The bytes left in the buffer. *)
Definition buffer_string (sc : list tok) : string := foldr (λ t s, t.2 +:+ s) "" sc.

Definition size (sc : list tok) : nat := String.length (buffer_string sc).

(** [unicode.IsSpace]. *)
Definition IsSpace (r : rune) : bool :=
  bool_decide (9 ≤ r ≤ 13 ∨ r = 32 ∨ r = 133 ∨ r = 160 ∨ r = 5760 ∨ 8192 ≤ r ≤ 8202 ∨
    r = 8232 ∨ r = 8233 ∨ r = 8239 ∨ r = 8287 ∨ r = 12288)%N.

(** ** Values of a scalar *)

(** The simple case folding of a rune to lower-case ASCII, where it has one: the
    long s and the Kelvin sign fold to letters. *)
Definition fold_rune (r : rune) : rune :=
  if bool_decide (65 ≤ r ≤ 90)%N then (r + 32)%N
  else if bool_decide (r = 383)%N then 115%N
  else if bool_decide (r = 8490)%N then 107%N
  else r.

(** [strings.EqualFold(val, w)] for a lower-case ASCII word. *)
Definition EqualFold (v : list rune) (w : string) : bool :=
  bool_decide (fold_rune <$> v = R <$> String.list_ascii_of_string w).

Definition typedVal (v : list rune) (st : bool) : value :=
  let val := runes v in
  if st then VString val
  else if EqualFold v "true" then VBool true
  else if EqualFold v "false" then VBool false
  else if EqualFold v "null" then VNil
  else if EqualFold v "0" then VInt 0
  else if negb (bool_decide (val = "")) && negb (HasPrefix val "0") then
    match ParseInt val with
    | Some iv => VInt iv
    | None => VString val
    end
  else VString val.

(** ** Updating maps and lists *)

Definition set (data : object) (key : string) (val : value) : object :=
  if bool_decide (key = "") then data else <[key := val]> data.

(** The list after the call, and the error. *)
Definition setIndex (l : list value) (index : Z) (val : value) : list value * option error :=
  if bool_decide (index < 0)%Z then (l, Some (NegativeIndex index))
  else if bool_decide (MaxIndex < index)%Z then (l, Some (IndexTooLarge index))
  else
    let i := Z.to_nat index in
    let l' := if bool_decide (length l ≤ i) then l ++ repeat VNil (S i - length l) else l in
    (<[i := val]> l', None).

(** The state of a call of [key]: its error, the map it was given, the rest of the
    buffer. *)
Definition key_result : Type := option error * object * list tok.

(** The end of a call of [listItem]: an error or none, with the list, or a panic. *)
Inductive item_result :=
| Item (l : list value) (e : option error) (sc : list tok)
| Panicked (sc : list tok).

Definition setIndex_item (l : list value) (i : Z) (v : value) (sc : list tok) : item_result :=
  let '(l', e) := setIndex l i v in Item l' e sc.

(** What is left in the map under [kk] when the slice taken from there has become
    [l']: [set] unless the key is empty; a slice that was not replaced by a longer
    one is updated in place in any case. *)
Definition store_list (data : object) (kk : string) (old l' : list value) : object :=
  if bool_decide (kk = "") then
    match data !! kk with
    | Some _ => if bool_decide (length l' = length old) then <[kk := VList l']> data else data
    | None => data
    end
  else <[kk := VList l']> data.

(** What is left under [k] when the map taken from there, or a new one, has become
    [inner']: in place if it was there, [set] if it is not empty. *)
Definition store_map (data : object) (k : string) (inner' : object) : object :=
  let data1 := match data !! k with Some _ => <[k := VMap inner']> data | None => data end in
  if bool_decide (inner' = ∅) then data1 else set data1 k (VMap inner').

(** ** The parser *)

Section parser.
(** [parser.reader]: a value and an error. *)
Variable reader : list rune → value * option error.
Variable isjsonval : bool.
(** [json.Decoder.Decode] on the rest of the buffer: the value and the offset
    after it. *)
Variable json_decode : string → option (value * nat).

(** [io.CopyN(io.Discard, sc, n)]. *)
Definition discard (sc : list tok) (n : nat) : option (list tok) :=
  let s := buffer_string sc in
  if bool_decide (String.length s < n) then None
  else Some (decode_runes (String.substring n (String.length s - n) s)).

(** Whether there is no value before the next comma, and the rest. *)
Fixpoint emptyVal (sc : list tok) : bool * list tok :=
  match sc with
  | [] => (true, [])
  | (r, b) :: sc' =>
      if decide (r = R ","%char) then (true, sc')
      else if IsSpace r then emptyVal sc' else (false, sc)
  end.

(** [val]: an end of the buffer is not an error for its callers. *)
Definition val (sc : list tok) : list rune * list tok :=
  match runesUntil [R ","%char] sc with
  | Stop v _ rest => (v, rest)
  | End v => (v, [])
  end.

Inductive val_list :=
| IsList (l : list value) (sc : list tok)
| NotList
| ListError (e : error) (sc : list tok).

(** The loop of [valList] after the opening brace; [None] is a loop that did not
    finish within the fuel, the length of the buffer. *)
Fixpoint val_list_loop (n : nat) (acc : list value) (sc : list tok) : option val_list :=
  match n with
  | 0 => None
  | S n' =>
      match runesUntil [R ","%char; R "}"%char] sc with
      | End _ => Some (ListError UnterminatedList [])
      | Stop rs last rest =>
          if decide (last = R "}"%char) then
            let rest' := match rest with
                         | (r, b) :: sc' => if decide (r = R ","%char) then sc' else rest
                         | [] => rest
                         end in
            let '(v, e) := reader rs in
            match e with
            | None => Some (IsList (acc ++ [v]) rest')
            | Some e => Some (ListError e rest')
            end
          else
            let '(v, e) := reader rs in
            match e with
            | Some e => Some (ListError e rest)
            | None => val_list_loop n' (acc ++ [v]) rest
            end
      end
  end.

Definition valList (sc : list tok) : option val_list :=
  match sc with
  | [] => Some (ListError EOF [])
  | (r, _) :: sc' =>
      if decide (r = R "{"%char) then val_list_loop (S (length sc')) [] sc' else Some NotList
  end.

Definition keyIndex (sc : list tok) : option Z * list tok :=
  match runesUntil [R "]"%char] sc with
  | End _ => (None, [])
  | Stop v _ rest => (Atoi (runes v), rest)
  end.

(** The part of [key] after the equals sign. *)
Definition key_value (data : object) (k : list rune) (sc : list tok) : option key_result :=
  if isjsonval then
    let '(empval, sc1) := emptyVal sc in
    if empval then Some (None, set data (runes k) VNil, sc1)
    else match json_decode (buffer_string sc1) with
         | None => Some (Some JSONError, data, sc1)
         | Some (jsonval, off) =>
             let data1 := set data (runes k) jsonval in
             match discard sc1 off with
             | None => Some (Some EOF, data1, [])
             | Some sc2 => Some (None, data1, (emptyVal sc2).2)
             end
         end
  else
    match valList sc with
    | None => None
    | Some (IsList vl rest) => Some (None, set data (runes k) (VList vl), rest)
    | Some (ListError EOF rest) => Some (Some EOF, set data (runes k) (VString ""), rest)
    | Some (ListError e rest) => Some (Some e, data, rest)
    | Some NotList =>
        let '(rs, rest) := val sc in
        let '(v, e) := reader rs in
        Some (e, set data (runes k) v, rest)
    end.

(** The part of [listItem] after the equals sign. *)
Definition item_value (l : list value) (i : Z) (sc : list tok) : option item_result :=
  if isjsonval then
    let '(empval, sc1) := emptyVal sc in
    if empval then Some (setIndex_item l i VNil sc1)
    else match json_decode (buffer_string sc1) with
         | None => Some (Item l (Some JSONError) sc1)
         | Some (jsonval, off) =>
             match setIndex l i jsonval with
             | (l', Some e) => Some (Item l' (Some e) sc1)
             | (l', None) =>
                 match discard sc1 off with
                 | None => Some (Item l' (Some EOF) [])
                 | Some sc2 => Some (Item l' None (emptyVal sc2).2)
                 end
             end
         end
  else
    match valList sc with
    | None => None
    | Some (IsList vl rest) => Some (setIndex_item l i (VList vl) rest)
    | Some (ListError EOF rest) => Some (setIndex_item l i (VString "") rest)
    | Some (ListError e rest) => Some (Item l (Some e) rest)
    | Some NotList =>
        let '(rs, rest) := val sc in
        let '(v, e) := reader rs in
        match e with
        | Some e => Some (Item l (Some e) rest)
        | None => Some (setIndex_item l i v rest)
        end
    end.

Fixpoint key (n : nat) (data : object) (nestedNameLevel : nat) (sc : list tok) {struct n} :
    option key_result :=
  match n with
  | 0 => None
  | S n' =>
      match runesUntil [R "="%char; R "["%char; R ","%char; R "."%char] sc with
      | End k =>
          Some (Some (match k with [] => EOF | _ => NoValue (runes k) end), data, [])
      | Stop k last rest =>
          if decide (last = R "["%char) then
            match keyIndex rest with
            | (None, rest1) => Some (Some BadIndex, data, rest1)
            | (Some i, rest1) =>
                let kk := runes k in
                match (match data !! kk with
                       | None => Some []
                       | Some (VList l) => Some l
                       | Some _ => None
                       end) with
                | None => Some (Some Recovered, data, rest1)
                | Some l =>
                    match listItem n' l i nestedNameLevel rest1 with
                    | None => None
                    | Some (Panicked rest2) => Some (Some Recovered, data, rest2)
                    | Some (Item l' e rest2) => Some (e, store_list data kk l l', rest2)
                    end
                end
            end
          else if decide (last = R "="%char) then key_value data k rest
          else if decide (last = R ","%char) then
            Some (Some (NoValueComma (runes k)), set data (runes k) (VString ""), rest)
          else
            let level := S nestedNameLevel in
            if bool_decide (MaxNestedNameLevel < level) then Some (Some NestedTooDeep, data, rest)
            else
              match (match data !! runes k with
                     | None => Some ∅
                     | Some (VMap inner) => Some inner
                     | Some _ => None
                     end) with
              | None => Some (Some Recovered, data, rest)
              | Some inner =>
                  match key n' inner level rest with
                  | None => None
                  | Some (e, inner', rest1) =>
                      let data' := store_map data (runes k) inner' in
                      if bool_decide (e = None) && bool_decide (inner' = ∅)
                      then Some (Some (EmptyKeyMap (runes k)), data', rest1)
                      else Some (e, data', rest1)
                  end
              end
      end
  end
with listItem (n : nat) (l : list value) (i : Z) (nestedNameLevel : nat) (sc : list tok) {struct n} :
    option item_result :=
  match n with
  | 0 => None
  | S n' =>
      if bool_decide (i < 0)%Z then Some (Item l (Some (NegativeIndex i)) sc)
      else
        let existing := l !! Z.to_nat i in
        match runesUntil [R "["%char; R "."%char; R "="%char] sc with
        | Stop (_ :: _) _ rest => Some (Item l (Some UnexpectedData) rest)
        | End (_ :: _) => Some (Item l (Some UnexpectedData) [])
        | End [] => Some (Item l (Some EOF) [])
        | Stop [] last rest =>
            if decide (last = R "="%char) then item_value l i rest
            else if decide (last = R "["%char) then
              match keyIndex rest with
              | (None, rest1) => Some (Item l (Some BadIndex) rest1)
              | (Some nextI, rest1) =>
                  match (match existing with
                         | None | Some VNil => Some []
                         | Some (VList crt) => Some crt
                         | Some _ => None
                         end) with
                  | None => Some (Panicked rest1)
                  | Some crtList =>
                      match listItem n' crtList nextI nestedNameLevel rest1 with
                      | None => None
                      | Some (Panicked rest2) => Some (Panicked rest2)
                      | Some (Item list2 None rest2) => Some (setIndex_item l i (VList list2) rest2)
                      | Some (Item list2 (Some e) rest2) =>
                          (* the nested slice was updated in place, unless a longer one
                             was made *)
                          let l' := match existing with
                                    | Some (VList crt) =>
                                        if bool_decide (length list2 = length crt)
                                        then <[Z.to_nat i := VList list2]> l else l
                                    | _ => l
                                    end in
                          Some (Item l' (Some e) rest2)
                      end
                  end
              end
            else
              let inner := match existing with Some (VMap m) => m | _ => ∅ end in
              match key n' inner nestedNameLevel rest with
              | None => None
              | Some (None, inner', rest1) => Some (setIndex_item l i (VMap inner') rest1)
              | Some (Some e, inner', rest1) =>
                  (* an element that was there is the map just updated *)
                  let l' := match existing with
                            | Some _ => <[Z.to_nat i := VMap inner']> l
                            | None => l
                            end in
                  Some (Item l' (Some e) rest1)
              end
        end
  end.

(** The loop of [parse]: until the end of the buffer or an error. *)
Fixpoint parse_loop (n : nat) (data : object) (sc : list tok) : option (option error * object) :=
  match n with
  | 0 => None
  | S n' =>
      match key (S (size sc)) data 0 sc with
      | None => None
      | Some (None, data', sc') => parse_loop n' data' sc'
      | Some (Some EOF, data', _) => Some (None, data')
      | Some (Some e, data', _) => Some (Some e, data')
      end
  end.

Definition parse (data : object) (s : string) : option (option error * object) :=
  parse_loop (S (String.length s)) data (decode_runes s).
End parser.

(** ** The entry points

    The result is the error, if any, and the map; the first [None] is a parser
    that did not finish. *)

(** The reader of [newParser]. *)
Definition stringConverter (stringBool : bool) (rs : list rune) : value * option error :=
  (typedVal rs stringBool, None).

Definition no_json (s : string) : option (value * nat) := None.

Definition ParseInto (s : string) (dest : object) : option (option error * object) :=
  parse (stringConverter false) false no_json dest s.

Definition ParseIntoString (s : string) (dest : object) : option (option error * object) :=
  parse (stringConverter true) false no_json dest s.

Definition ParseIntoFile (reader : list rune → value * option error) (s : string) (dest : object) :
    option (option error * object) :=
  parse reader false no_json dest s.

Definition ParseJSON (json_decode : string → option (value * nat)) (s : string) (dest : object) :
    option (option error * object) :=
  parse (stringConverter false) true json_decode dest s.

Definition Parse (s : string) : option (option error * object) := ParseInto s ∅.

Definition ParseString (s : string) : option (option error * object) := ParseIntoString s ∅.

Definition ParseFile (reader : list rune → value * option error) (s : string) :
    option (option error * object) := ParseIntoFile reader s ∅.

(** [yaml.Marshal] is a parameter; a final line feed is cut off. *)
Definition ToYAML (Marshal : object → string * option string) (s : string) :
    option (string * option string) :=
  match Parse s with
  | None => None
  | Some (Some e, _) => Some ("", Some "parse")
  | Some (None, m) =>
      let '(d, err) := Marshal m in
      let n := String.length d in
      let lf := String (Ascii.ascii_of_nat 10) "" in
      Some (if bool_decide (n ≠ 0 ∧ String.substring (n - 1) 1 d = lf)
            then String.substring 0 (n - 1) d else d, err)
  end.

(** ** The literal parser

    No escapes, and the value is the rest of the line. *)

Definition keyIndexLiteral (sc : list tok) : option Z * list tok :=
  match runesUntilLiteral [R "]"%char] sc with
  | End _ => (None, [])
  | Stop v _ rest => (Atoi (runes v), rest)
  end.

Definition valLiteral (sc : list tok) : list rune * list tok :=
  match runesUntilLiteral [] sc with
  | Stop v _ rest => (v, rest)
  | End v => (v, [])
  end.

Fixpoint keyLiteral (n : nat) (data : object) (nestedNameLevel : nat) (sc : list tok) {struct n} :
    option key_result :=
  match n with
  | 0 => None
  | S n' =>
      match runesUntilLiteral [R "="%char; R "["%char; R "."%char] sc with
      | End k =>
          Some (Some (match k with [] => EOF | _ => NoValue (runes k) end), data, [])
      | Stop k last rest =>
          if decide (last = R "="%char) then
            let '(v, rest1) := valLiteral rest in
            Some (None, set data (runes k) (VString (runes v)), rest1)
          else if decide (last = R "."%char) then
            let level := S nestedNameLevel in
            if bool_decide (MaxNestedNameLevel < level) then Some (Some NestedTooDeep, data, rest)
            else
              match (match data !! runes k with
                     | None => Some ∅
                     | Some (VMap inner) => Some inner
                     | Some _ => None
                     end) with
              | None => Some (Some Recovered, data, rest)
              | Some inner =>
                  match keyLiteral n' inner level rest with
                  | None => None
                  | Some (e, inner', rest1) =>
                      let data' := store_map data (runes k) inner' in
                      if bool_decide (e = None) && bool_decide (inner' = ∅)
                      then Some (Some (EmptyKeyMap (runes k)), data', rest1)
                      else Some (e, data', rest1)
                  end
              end
          else
            match keyIndexLiteral rest with
            | (None, rest1) => Some (Some BadIndex, data, rest1)
            | (Some i, rest1) =>
                let kk := runes k in
                match (match data !! kk with
                       | None => Some []
                       | Some (VList l) => Some l
                       | Some _ => None
                       end) with
                | None => Some (Some Recovered, data, rest1)
                | Some l =>
                    match listItemLiteral n' l i nestedNameLevel rest1 with
                    | None => None
                    | Some (Panicked rest2) => Some (Some Recovered, data, rest2)
                    | Some (Item l' e rest2) => Some (e, store_list data kk l l', rest2)
                    end
                end
            end
      end
  end
with listItemLiteral (n : nat) (l : list value) (i : Z) (nestedNameLevel : nat) (sc : list tok)
    {struct n} : option item_result :=
  match n with
  | 0 => None
  | S n' =>
      if bool_decide (i < 0)%Z then Some (Item l (Some (NegativeIndex i)) sc)
      else
        let existing := l !! Z.to_nat i in
        match runesUntilLiteral [R "["%char; R "."%char; R "="%char] sc with
        | Stop (_ :: _) _ rest => Some (Item l (Some UnexpectedData) rest)
        | End (_ :: _) => Some (Item l (Some UnexpectedData) [])
        | End [] => Some (Item l (Some EOF) [])
        | Stop [] last rest =>
            if decide (last = R "="%char) then
              let '(v, rest1) := valLiteral rest in
              Some (setIndex_item l i (VString (runes v)) rest1)
            else if decide (last = R "."%char) then
              let inner := match existing with Some (VMap m) => m | _ => ∅ end in
              match keyLiteral n' inner nestedNameLevel rest with
              | None => None
              | Some (None, inner', rest1) => Some (setIndex_item l i (VMap inner') rest1)
              | Some (Some e, inner', rest1) =>
                  let l' := match existing with
                            | Some _ => <[Z.to_nat i := VMap inner']> l
                            | None => l
                            end in
                  Some (Item l' (Some e) rest1)
              end
            else
              match keyIndexLiteral rest with
              | (None, rest1) => Some (Item l (Some BadIndex) rest1)
              | (Some nextI, rest1) =>
                  match (match existing with
                         | None | Some VNil => Some []
                         | Some (VList crt) => Some crt
                         | Some _ => None
                         end) with
                  | None => Some (Panicked rest1)
                  | Some crtList =>
                      match listItemLiteral n' crtList nextI nestedNameLevel rest1 with
                      | None => None
                      | Some (Panicked rest2) => Some (Panicked rest2)
                      | Some (Item list2 None rest2) => Some (setIndex_item l i (VList list2) rest2)
                      | Some (Item list2 (Some e) rest2) =>
                          let l' := match existing with
                                    | Some (VList crt) =>
                                        if bool_decide (length list2 = length crt)
                                        then <[Z.to_nat i := VList list2]> l else l
                                    | _ => l
                                    end in
                          Some (Item l' (Some e) rest2)
                      end
                  end
              end
        end
  end.

Fixpoint parse_literal_loop (n : nat) (data : object) (sc : list tok) :
    option (option error * object) :=
  match n with
  | 0 => None
  | S n' =>
      match keyLiteral (S (size sc)) data 0 sc with
      | None => None
      | Some (None, data', sc') => parse_literal_loop n' data' sc'
      | Some (Some EOF, data', _) => Some (None, data')
      | Some (Some e, data', _) => Some (Some e, data')
      end
  end.

Definition ParseLiteralInto (s : string) (dest : object) : option (option error * object) :=
  parse_literal_loop (S (String.length s)) dest (decode_runes s).

Definition ParseLiteral (s : string) : option (option error * object) := ParseLiteralInto s ∅.

(** ** Executions *)

Example parse_nested :
  Parse "a.b=1,a.c=true,l[1].x=y,l[0]={p,2},s=\{z\,,n=null,v=" =
    Some (None, {["a" := VMap {["b" := VInt 1; "c" := VBool true]};
                  "l" := VList [VList [VString "p"; VInt 2]; VMap {["x" := VString "y"]}];
                  "s" := VString "{z,"; "n" := VNil; "v" := VString ""]}).
Proof. vm_compute. reflexivity. Qed.
