(* ===== verification/StrvalsProps.v ===== *)
(** * Value assignments: properties

    Termination, bounds and the meaning of dotted assignments for the parser of
    Strvals.v. *)

From Stdlib Require Import Ascii.
From S2P Require Import Prelude Numbers Utf8 Strvals.
From stdpp Require Import options.

(** ** Reading consumes the buffer *)

Definition toks_ok (sc : list tok) : Prop := Forall (λ t, t.2 ≠ "") sc.

(** [sc'] is what is left of [sc]. *)
Definition left_of (sc' sc : list tok) : Prop := toks_ok sc' ∧ size sc' ≤ size sc.
Definition less_of (sc' sc : list tok) : Prop := toks_ok sc' ∧ size sc' < size sc.

Lemma left_of_refl sc : toks_ok sc → left_of sc sc.
Proof. by split. Qed.

Lemma left_of_nil sc : left_of [] sc.
Proof. split; [by constructor|]. apply Nat.le_0_l. Qed.

Lemma less_left sc' sc : less_of sc' sc → left_of sc' sc.
Proof. intros [? ?]. split; [done|lia]. Qed.

Lemma left_trans a b c : left_of a b → left_of b c → left_of a c.
Proof. intros [? ?] [? ?]. split; [done|lia]. Qed.

Lemma left_less_trans a b c : left_of a b → less_of b c → less_of a c.
Proof. intros [? ?] [? ?]. split; [done|lia]. Qed.

Lemma size_cons t sc : size (t :: sc) = String.length t.2 + size sc.
Proof. unfold size. simpl. apply string_length_app. Qed.

Lemma less_tail t sc : toks_ok (t :: sc) → less_of sc (t :: sc).
Proof.
  intros [Ht Hsc]%Forall_cons_1. split; [done|]. rewrite size_cons.
  destruct t as [r []]; simpl in *; [done|lia].
Qed.

#[export] Hint Resolve left_of_refl left_of_nil less_left left_trans left_less_trans less_tail : heir.

Lemma toks_ok_tail t sc : toks_ok (t :: sc) → toks_ok sc.
Proof. intros H. by apply Forall_cons_1 in H as [_ ?]. Qed.

Lemma prepend_Stop r u k last rest :
  prepend r u = Stop k last rest → ∃ k', u = Stop k' last rest.
Proof. destruct u; simpl; [intros [= <- <- <-]; eauto|done]. Qed.

Lemma runesUntil_less stop sc k last rest :
  toks_ok sc → runesUntil stop sc = Stop k last rest → less_of rest sc.
Proof.
  revert k. induction sc as [sc IH] using (induction_ltof1 _ length); unfold ltof in IH.
  intros k Hok H. destruct sc as [|[r b] sc]; [done|]. cbn [runesUntil runesUntilLiteral] in H.
  assert (less_of sc ((r, b) :: sc)) as Hl by auto with heir.
  destruct (decide (r ∈ stop)); [by simplify_eq|].
  destruct (decide (r = R "\"%char)).
  - destruct sc as [|[nx b'] sc']; [done|]. apply prepend_Stop in H as [k' H].
    apply IH in H; [|simpl; lia|by apply toks_ok_tail in Hok; apply toks_ok_tail in Hok].
    apply toks_ok_tail in Hok. eapply left_less_trans; [|exact Hl].
    apply less_left. eapply left_less_trans; [by apply less_left|]. by apply less_tail.
  - apply prepend_Stop in H as [k' H]. apply IH in H; [|simpl; lia|by apply toks_ok_tail in Hok].
    eauto with heir.
Qed.

Lemma runesUntilLiteral_less stop sc k last rest :
  toks_ok sc → runesUntilLiteral stop sc = Stop k last rest → less_of rest sc.
Proof.
  revert k. induction sc as [|[r b] sc IH]; intros k Hok H; [done|]. cbn [runesUntil runesUntilLiteral] in H.
  assert (less_of sc ((r, b) :: sc)) as Hl by auto with heir.
  destruct (decide (r ∈ stop)); [by simplify_eq|].
  apply prepend_Stop in H as [k' H]. apply IH in H; [|by apply toks_ok_tail in Hok].
  eauto with heir.
Qed.

Lemma runesUntil_last stop sc k last rest :
  runesUntil stop sc = Stop k last rest → last ∈ stop.
Proof.
  revert k. induction sc as [sc IH] using (induction_ltof1 _ length); unfold ltof in IH.
  intros k H. destruct sc as [|[r b] sc]; [done|]. cbn [runesUntil runesUntilLiteral] in H.
  destruct (decide (r ∈ stop)); [by simplify_eq|].
  destruct (decide (r = R "\"%char)).
  - destruct sc as [|[nx b'] sc']; [done|]. apply prepend_Stop in H as [k' H].
    apply IH in H; [done|simpl; lia].
  - apply prepend_Stop in H as [k' H]. apply IH in H; [done|simpl; lia].
Qed.

Lemma decode_runes_ok s : toks_ok (decode_runes s).
Proof.
  unfold decode_runes. generalize (String.length s) as n. intros n. revert s.
  induction n as [|n IH]; intros s; cbn [decode_loop]; [by constructor|].
  destruct (decode_rune s) as [[r rest]|] eqn:E; [|by constructor].
  apply decode_rune_shorter in E. constructor; [|apply IH]. simpl.
  destruct s as [|c s]; [simpl in E; lia|]. simpl in *.
  destruct (String.length rest); [done|]. destruct (_ - _) eqn:Em; [lia|done].
Qed.

Lemma substring_drop n s : String.length (String.substring n (String.length s - n) s) = String.length s - n.
Proof.
  revert n. induction s as [|c s IH]; intros n; simpl; [by destruct n|].
  destruct n as [|n]; simpl; [|apply IH].
  f_equal. specialize (IH 0). rewrite Nat.sub_0_r in IH. done.
Qed.

Lemma buffer_decode s : size (decode_runes s) ≤ String.length s.
Proof.
  unfold decode_runes, size. generalize (String.length s) at 1 as n. intros n. revert s.
  induction n as [|n IH]; intros s; cbn [decode_loop]; [simpl; lia|].
  destruct (decode_rune s) as [[r rest]|] eqn:E; [|simpl; lia].
  apply decode_rune_shorter in E. simpl. rewrite string_length_app.
  specialize (IH rest).
  assert (∀ k t, String.length (String.substring 0 k t) ≤ k) as Hsub.
  { intros k t. revert k. induction t as [|c t IHt]; intros [|k]; simpl; try lia.
    specialize (IHt k). lia. }
  specialize (Hsub (String.length s - String.length rest) s). lia.
Qed.

Lemma discard_left sc n sc' : discard sc n = Some sc' → left_of sc' sc.
Proof.
  unfold discard. case_bool_decide; [done|]. intros [= <-]. split; [apply decode_runes_ok|].
  etrans; [apply buffer_decode|]. rewrite substring_drop. unfold size. lia.
Qed.

Lemma emptyVal_left sc : toks_ok sc → left_of (emptyVal sc).2 sc.
Proof.
  induction sc as [|[r b] sc IH]; intros Hok; [apply left_of_nil|]. cbn [emptyVal].
  pose proof (less_tail _ _ Hok) as Hl. apply toks_ok_tail in Hok as Hok'.
  case_decide; [by apply less_left|]. case_match; [|by apply left_of_refl].
  eapply left_trans; [by apply IH|]. by apply less_left.
Qed.

Lemma val_left sc : toks_ok sc → left_of (val sc).2 sc.
Proof.
  intros Hok. unfold val. destruct (runesUntil _ _) eqn:E; [|apply left_of_nil].
  by eapply less_left, runesUntil_less.
Qed.

Lemma keyIndex_left sc : toks_ok sc → left_of (keyIndex sc).2 sc.
Proof.
  intros Hok. unfold keyIndex. destruct (runesUntil _ _) eqn:E; [|apply left_of_nil].
  by eapply less_left, runesUntil_less.
Qed.

Definition val_list_rest (sc : list tok) (v : val_list) : list tok :=
  match v with IsList _ rest => rest | NotList => sc | ListError _ rest => rest end.

Lemma runesUntil_length stop sc k last rest :
  runesUntil stop sc = Stop k last rest → length rest < length sc.
Proof.
  revert k. induction sc as [sc IH] using (induction_ltof1 _ length); unfold ltof in IH.
  intros k H. destruct sc as [|[r b] sc]; [done|]. cbn [runesUntil] in H.
  destruct (decide (r ∈ stop)); [simplify_eq; simpl; lia|].
  destruct (decide (r = R "\"%char)).
  - destruct sc as [|[nx b'] sc']; [done|]. apply prepend_Stop in H as [k' H].
    apply IH in H; simpl in *; lia.
  - apply prepend_Stop in H as [k' H]. apply IH in H; simpl in *; lia.
Qed.

(** The loop ends within its fuel, because every round reads something. *)
Lemma val_list_loop_left reader n acc sc :
  toks_ok sc → length sc < n →
  ∃ v, val_list_loop reader n acc sc = Some v ∧ left_of (val_list_rest sc v) sc.
Proof.
  revert acc sc. induction n as [|n IH]; intros acc sc Hok Hn; [lia|]. cbn [val_list_loop].
  destruct (runesUntil _ _) as [rs last rest|] eqn:E; [|eexists; split; [done|apply left_of_nil]].
  apply runesUntil_length in E as Hlen.
  apply runesUntil_less in E as Hl; [|done]. apply less_left in Hl as Hl'. destruct Hl as [Hr _].
  destruct (decide (last = R "}"%char)) as [Hc|Hc].
  - assert (left_of match rest with
              | (r, b) :: sc' => if decide (r = R ","%char) then sc' else rest
              | [] => rest end sc) as Hrest.
    { destruct rest as [|[r b] sc']; [done|]. case_decide; [|done].
      eapply left_trans; [|exact Hl']. by apply less_left, less_tail. }
    destruct (reader rs) as [v [e|]]; by eexists.
  - destruct (reader rs) as [v [e|]]; [by eexists|].
    destruct (IH (acc ++ [v]) rest Hr ltac:(lia)) as (vl & -> & Hvl). eexists; split; [done|].
    destruct vl; simpl in *; [by eapply left_trans|by apply left_of_refl|by eapply left_trans].
Qed.

Lemma valList_left reader sc :
  toks_ok sc → ∃ v, valList reader sc = Some v ∧ left_of (val_list_rest sc v) sc.
Proof.
  intros Hok. unfold valList. destruct sc as [|[r b] sc']; [eexists; split; [done|apply left_of_nil]|].
  case_decide; [|eexists; split; [done|by apply left_of_refl]].
  pose proof (less_left _ _ (less_tail _ _ Hok)) as Hl. apply toks_ok_tail in Hok as Hok'.
  destruct (val_list_loop_left reader (S (length sc')) [] sc' Hok' ltac:(lia)) as (v & -> & Hv).
  eexists; split; [done|].
  destruct v; simpl in *; [by eapply left_trans|by apply left_of_refl|by eapply left_trans].
Qed.

(** ** Termination *)

Definition item_rest (r : item_result) : list tok :=
  match r with Item _ _ sc => sc | Panicked sc => sc end.

Lemma setIndex_item_rest l i v sc : item_rest (setIndex_item l i v sc) = sc.
Proof. unfold setIndex_item. by destruct (setIndex l i v). Qed.

Section termination.
Variable reader : list rune → value * option error.
Variable isjsonval : bool.
Variable json_decode : string → option (value * nat).

Lemma key_value_left data k sc :
  toks_ok sc → ∃ r, key_value reader isjsonval json_decode data k sc = Some r ∧ left_of r.2 sc.
Proof.
  intros Hok. unfold key_value. destruct isjsonval.
  - pose proof (emptyVal_left sc Hok) as He. destruct (emptyVal sc) as [[] sc1]; [by eexists|].
    simpl in He. destruct (json_decode _) as [[v off]|]; [|by eexists].
    destruct (discard sc1 off) as [sc2|] eqn:Ed; eexists; (split; [done|]); [|apply left_of_nil].
    apply discard_left in Ed. cbn [snd].
    eapply left_trans; [apply emptyVal_left, Ed|]. by eapply left_trans.
  - destruct (valList_left reader sc Hok) as (vl & -> & Hv). pose proof (val_left sc Hok) as Hw.
    destruct vl as [vl rest| |e rest]; [by eexists| |destruct e; by eexists].
    destruct (val sc) as [rs rest]. destruct (reader rs). by eexists.
Qed.

Lemma item_value_left l i sc :
  toks_ok sc → ∃ r, item_value reader isjsonval json_decode l i sc = Some r ∧ left_of (item_rest r) sc.
Proof.
  intros Hok. unfold item_value. destruct isjsonval.
  - pose proof (emptyVal_left sc Hok) as He. destruct (emptyVal sc) as [[] sc1]; simpl in He.
    { eexists; split; [done|]. by rewrite setIndex_item_rest. }
    destruct (json_decode _) as [[v off]|]; [|by eexists].
    destruct (setIndex l i v) as [l' [e|]]; [by eexists|].
    destruct (discard sc1 off) as [sc2|] eqn:Ed; eexists; (split; [done|]); [|apply left_of_nil].
    apply discard_left in Ed. cbn [item_rest].
    eapply left_trans; [apply emptyVal_left, Ed|]. by eapply left_trans.
  - destruct (valList_left reader sc Hok) as (vl & -> & Hv). pose proof (val_left sc Hok) as Hw.
    destruct vl as [vl rest| |e rest]; simpl in Hv.
    + eexists; split; [done|]. by rewrite setIndex_item_rest.
    + destruct (val sc) as [rs rest]. destruct (reader rs) as [v [e|]]; eexists; (split; [done|]); [done|].
      by rewrite setIndex_item_rest.
    + destruct e; eexists; (split; [done|]); rewrite ?setIndex_item_rest; done.
Qed.

(** With as much fuel as there are bytes left, a call finishes and leaves a
    buffer that is not longer; a [key] without error has read something. *)
Lemma key_listItem_total n :
  (∀ data lv sc, toks_ok sc → size sc < n →
     ∃ r, key reader isjsonval json_decode n data lv sc = Some r ∧ left_of r.2 sc ∧
       (r.1.1 = None → less_of r.2 sc)) ∧
  (∀ l i lv sc, toks_ok sc → size sc < n →
     ∃ r, listItem reader isjsonval json_decode n l i lv sc = Some r ∧ left_of (item_rest r) sc).
Proof.
  induction n as [|n [IHk IHl]]; [split; intros; lia|]. split.
  - intros data lv sc Hok Hsz. cbn [key listItem]. fold (key reader isjsonval json_decode) (listItem reader isjsonval json_decode).
    destruct (runesUntil _ sc) as [k last rest|k] eqn:E; [|by eexists; split; [done|]; split; [apply left_of_nil|]; destruct k].
    apply runesUntil_less in E as Hl; [|done]. destruct Hl as [Hr Hlt].
    assert (∀ sc', left_of sc' rest → left_of sc' sc ∧ less_of sc' sc) as Hle.
    { intros sc' [? ?]. split; split; auto; lia. }
    case_decide.
    + pose proof (keyIndex_left rest Hr) as Hi. destruct (keyIndex rest) as [[i|] rest1]; simpl in Hi;
        [|by eexists; split; [done|]; split; [apply Hle|]].
      destruct (match data !! runes k with None => _ | Some _ => _ end) as [l|];
        [|by eexists; split; [done|]; split; [apply Hle|]].
      destruct (IHl l i lv rest1) as (r & -> & Hrest); [apply Hi|destruct Hi; lia|].
      assert (left_of (item_rest r) rest) as Hr2 by (by eapply left_trans).
      destruct r as [l' e rest2|rest2]; simpl in Hr2; eexists; (split; [done|]); split; intros; by apply Hle.
    + case_decide; [destruct (key_value_left data k rest Hr) as (r & -> & Hkv); eexists; split; [done|];
        split; intros; by apply Hle|].
      case_decide; [eexists; split; [done|]; split; [|done]; apply Hle; by apply left_of_refl|].
      case_bool_decide; [eexists; split; [done|]; split; [|done]; apply Hle; by apply left_of_refl|].
      destruct (match data !! runes k with None => _ | Some _ => _ end) as [inner|];
        [|eexists; split; [done|]; split; [|done]; apply Hle; by apply left_of_refl].
      destruct (IHk inner (S lv) rest) as ([[e inner'] rest1] & -> & Hrest & _); [done|lia|].
      simpl in Hrest. case_match; eexists; (split; [done|]); split; intros; by apply Hle.
  - intros l i lv sc Hok Hsz. cbn [key listItem]. fold (key reader isjsonval json_decode) (listItem reader isjsonval json_decode).
    case_bool_decide; [eexists; split; [done|]; by apply left_of_refl|].
    destruct (runesUntil _ sc) as [[|? k] last rest|[|? k]] eqn:E;
      try (eexists; split; [done|]; apply left_of_nil).
    2:{ eexists; split; [done|]. by eapply less_left, runesUntil_less. }
    apply runesUntil_less in E as Hl; [|done]. destruct Hl as [Hr Hlt].
    assert (∀ sc', left_of sc' rest → left_of sc' sc) as Hle by (intros sc' [? ?]; split; auto; lia).
    case_decide; [destruct (item_value_left l i rest Hr) as (r & -> & Hiv); eexists; split; [done|];
      by apply Hle|].
    case_decide.
    + pose proof (keyIndex_left rest Hr) as Hi. destruct (keyIndex rest) as [[nextI|] rest1]; simpl in Hi;
        [|eexists; split; [done|]; by apply Hle].
      destruct (match l !! Z.to_nat i with None => _ | Some _ => _ end) as [crt|];
        [|eexists; split; [done|]; by apply Hle].
      destruct (IHl crt nextI lv rest1) as (r & -> & Hrest); [apply Hi|destruct Hi; lia|].
      assert (left_of (item_rest r) rest) as Hr2 by (by eapply left_trans).
      destruct r as [l' [e|] rest2|rest2]; simpl in Hr2; eexists; (split; [done|]);
        rewrite ?setIndex_item_rest; by apply Hle.
    + set (inner := match l !! Z.to_nat i with Some (VMap m) => m | _ => ∅ end).
      destruct (IHk inner lv rest) as ([[e inner'] rest1] & -> & Hrest & _); [done|lia|].
      simpl in Hrest. destruct e; eexists; (split; [done|]); rewrite ?setIndex_item_rest; by apply Hle.
Qed.

Lemma parse_loop_total n data sc :
  toks_ok sc → size sc < n → is_Some (parse_loop reader isjsonval json_decode n data sc).
Proof using Type.
  revert data sc. induction n as [|n IH]; intros data sc Hok Hsz; [lia|]. cbn [parse_loop].
  destruct (key_listItem_total (S (size sc))) as [Hk _].
  destruct (Hk data 0 sc) as ([[e data'] sc'] & -> & _ & Hless); [done|lia|].
  destruct e as [[]|]; eauto. destruct (Hless eq_refl) as [? ?]. apply IH; simpl in *; [done|lia].
Qed.

Lemma parse_total data s : is_Some (parse reader isjsonval json_decode data s).
Proof using Type.
  apply parse_loop_total; [apply decode_runes_ok|]. pose proof (buffer_decode s). lia.
Qed.
End termination.

Lemma keyIndexLiteral_left sc : toks_ok sc → left_of (keyIndexLiteral sc).2 sc.
Proof.
  intros Hok. unfold keyIndexLiteral. destruct (runesUntilLiteral _ _) eqn:E; [|apply left_of_nil].
  by eapply less_left, runesUntilLiteral_less.
Qed.

Lemma valLiteral_left sc : toks_ok sc → left_of (valLiteral sc).2 sc.
Proof.
  intros Hok. unfold valLiteral. destruct (runesUntilLiteral _ _) eqn:E; [|apply left_of_nil].
  by eapply less_left, runesUntilLiteral_less.
Qed.

Lemma keyLiteral_listItemLiteral_total n :
  (∀ data lv sc, toks_ok sc → size sc < n →
     ∃ r, keyLiteral n data lv sc = Some r ∧ left_of r.2 sc ∧ (r.1.1 = None → less_of r.2 sc)) ∧
  (∀ l i lv sc, toks_ok sc → size sc < n →
     ∃ r, listItemLiteral n l i lv sc = Some r ∧ left_of (item_rest r) sc).
Proof.
  induction n as [|n [IHk IHl]]; [split; intros; lia|]. split.
  - intros data lv sc Hok Hsz. cbn [keyLiteral]. fold keyLiteral listItemLiteral.
    destruct (runesUntilLiteral _ sc) as [k last rest|k] eqn:E;
      [|by eexists; split; [done|]; split; [apply left_of_nil|]; destruct k].
    apply runesUntilLiteral_less in E as Hl; [|done]. destruct Hl as [Hr Hlt].
    assert (∀ sc', left_of sc' rest → left_of sc' sc ∧ less_of sc' sc) as Hle.
    { intros sc' [? ?]. split; split; auto; lia. }
    case_decide.
    { pose proof (valLiteral_left rest Hr) as Hv. destruct (valLiteral rest) as [v rest1].
      eexists; split; [done|]; split; intros; by apply Hle. }
    case_decide.
    + case_bool_decide; [eexists; split; [done|]; split; [|done]; apply Hle; by apply left_of_refl|].
      destruct (match data !! runes k with None => _ | Some _ => _ end) as [inner|];
        [|eexists; split; [done|]; split; [|done]; apply Hle; by apply left_of_refl].
      destruct (IHk inner (S lv) rest) as ([[e inner'] rest1] & -> & Hrest & _); [done|lia|].
      simpl in Hrest. case_match; eexists; (split; [done|]); split; intros; by apply Hle.
    + pose proof (keyIndexLiteral_left rest Hr) as Hi.
      destruct (keyIndexLiteral rest) as [[i|] rest1]; simpl in Hi;
        [|by eexists; split; [done|]; split; [apply Hle|]].
      destruct (match data !! runes k with None => _ | Some _ => _ end) as [l|];
        [|by eexists; split; [done|]; split; [apply Hle|]].
      destruct (IHl l i lv rest1) as (r & -> & Hrest); [apply Hi|destruct Hi; lia|].
      assert (left_of (item_rest r) rest) as Hr2 by (by eapply left_trans).
      destruct r as [l' e rest2|rest2]; simpl in Hr2; eexists; (split; [done|]); split; intros; by apply Hle.
  - intros l i lv sc Hok Hsz. cbn [listItemLiteral]. fold keyLiteral listItemLiteral.
    case_bool_decide; [eexists; split; [done|]; by apply left_of_refl|].
    destruct (runesUntilLiteral _ sc) as [[|? k] last rest|[|? k]] eqn:E;
      try (eexists; split; [done|]; apply left_of_nil).
    2:{ eexists; split; [done|]. by eapply less_left, runesUntilLiteral_less. }
    apply runesUntilLiteral_less in E as Hl; [|done]. destruct Hl as [Hr Hlt].
    assert (∀ sc', left_of sc' rest → left_of sc' sc) as Hle by (intros sc' [? ?]; split; auto; lia).
    case_decide.
    { pose proof (valLiteral_left rest Hr) as Hv. destruct (valLiteral rest) as [v rest1].
      eexists; split; [done|]. rewrite setIndex_item_rest. by apply Hle. }
    case_decide.
    + set (inner := match l !! Z.to_nat i with Some (VMap m) => m | _ => ∅ end).
      destruct (IHk inner lv rest) as ([[e inner'] rest1] & -> & Hrest & _); [done|lia|].
      simpl in Hrest. destruct e; eexists; (split; [done|]); rewrite ?setIndex_item_rest; by apply Hle.
    + pose proof (keyIndexLiteral_left rest Hr) as Hi.
      destruct (keyIndexLiteral rest) as [[nextI|] rest1]; simpl in Hi;
        [|eexists; split; [done|]; by apply Hle].
      destruct (match l !! Z.to_nat i with None => _ | Some _ => _ end) as [crt|];
        [|eexists; split; [done|]; by apply Hle].
      destruct (IHl crt nextI lv rest1) as (r & -> & Hrest); [apply Hi|destruct Hi; lia|].
      assert (left_of (item_rest r) rest) as Hr2 by (by eapply left_trans).
      destruct r as [l' [e|] rest2|rest2]; simpl in Hr2; eexists; (split; [done|]);
        rewrite ?setIndex_item_rest; by apply Hle.
Qed.

Lemma parse_literal_loop_total n data sc :
  toks_ok sc → size sc < n → is_Some (parse_literal_loop n data sc).
Proof.
  revert data sc. induction n as [|n IH]; intros data sc Hok Hsz; [lia|]. cbn [parse_literal_loop].
  destruct (keyLiteral_listItemLiteral_total (S (size sc))) as [Hk _].
  destruct (Hk data 0 sc) as ([[e data'] sc'] & -> & _ & Hless); [done|lia|].
  destruct e as [[]|]; eauto. destruct (Hless eq_refl) as [? ?]. apply IH; simpl in *; [done|lia].
Qed.

(** C30.  The value parsers terminate: on every input string, destination, file
    reader and JSON decoder, each of them ends with a map and an error or none, within
    a fuel that is the length of the input (the loops over keys, over list items and over the
    values of a braced list, each of which reports when it did not finish).  The reason: a
    [key] that returns without an error has consumed at least one byte of the
    buffer, and no call gives bytes back. *)
Theorem parsers_terminate reader json_decode s dest :
  (is_Some (ParseInto s dest) ∧ is_Some (ParseIntoString s dest) ∧
   is_Some (ParseIntoFile reader s dest) ∧ is_Some (ParseJSON json_decode s dest) ∧
   is_Some (ParseLiteralInto s dest)) ∧
  ∀ isjsonval level sc, toks_ok sc →
    (∃ e data sc', key reader isjsonval json_decode (S (size sc)) dest level sc = Some (e, data, sc') ∧
       size sc' ≤ size sc ∧ (e = None → size sc' < size sc)) ∧
    (∃ e data sc', keyLiteral (S (size sc)) dest level sc = Some (e, data, sc') ∧
       size sc' ≤ size sc ∧ (e = None → size sc' < size sc)).
Proof.
  split.
  - repeat split; try apply parse_total.
    apply parse_literal_loop_total; [apply decode_runes_ok|]. pose proof (buffer_decode s). lia.
  - intros isjsonval level sc Hok. split.
    + destruct (key_listItem_total reader isjsonval json_decode (S (size sc))) as [Hk _].
      destruct (Hk dest level sc Hok ltac:(lia)) as ([[e data] sc'] & E & [_ Hl] & Hless).
      exists e, data, sc'. split; [done|]. split; [done|]. intros He. by destruct (Hless He).
    + destruct (keyLiteral_listItemLiteral_total (S (size sc))) as [Hk _].
      destruct (Hk dest level sc Hok ltac:(lia)) as ([[e data] sc'] & E & [_ Hl] & Hless).
      exists e, data, sc'. split; [done|]. split; [done|]. intros He. by destruct (Hless He).
Qed.

(** ** Bounds on the lists *)

(** Every list within the value, at any depth, has at most [N] elements. *)
Inductive bounded (N : nat) : value → Prop :=
| bounded_nil : bounded N VNil
| bounded_bool b : bounded N (VBool b)
| bounded_int z : bounded N (VInt z)
| bounded_float t : bounded N (VFloat t)
| bounded_string s : bounded N (VString s)
| bounded_list l : length l ≤ N → Forall (bounded N) l → bounded N (VList l)
| bounded_map m : map_Forall (λ _, bounded N) m → bounded N (VMap m).

Definition list_bounded (N : nat) (l : list value) : Prop := length l ≤ N ∧ Forall (bounded N) l.
Definition object_bounded (N : nat) (m : object) : Prop := map_Forall (λ _, bounded N) m.

#[export] Hint Constructors bounded : heir.

Section bounds.
Context (N : nat) (HN : (MaxIndex < Z.of_nat N)%Z).

Lemma list_bounded_nil : list_bounded N [].
Proof using Type. split; [simpl; lia|constructor]. Qed.

Lemma object_bounded_empty : object_bounded N ∅.
Proof using Type. apply map_Forall_empty. Qed.

Lemma VList_bounded l : bounded N (VList l) ↔ list_bounded N l.
Proof using Type. split; [by inv 1|intros [? ?]; by constructor]. Qed.

Lemma VMap_bounded m : bounded N (VMap m) ↔ object_bounded N m.
Proof using Type. split; [by inv 1|by constructor]. Qed.

Lemma insert_bounded m k v : object_bounded N m → bounded N v → object_bounded N (<[k := v]> m).
Proof using Type. intros. by apply map_Forall_insert_2. Qed.

Lemma set_bounded m k v : object_bounded N m → bounded N v → object_bounded N (set m k v).
Proof using Type. intros. unfold set. case_bool_decide; [done|]. by apply insert_bounded. Qed.

Lemma list_insert_bounded l i v :
  list_bounded N l → bounded N v → list_bounded N (<[i := v]> l).
Proof using Type.
  intros [? ?] ?. split; [by rewrite length_insert|]. by apply Forall_insert.
Qed.

Lemma setIndex_bounded l i v :
  list_bounded N l → bounded N v → list_bounded N (setIndex l i v).1.
Proof using HN.
  intros Hl Hv. unfold setIndex. case_bool_decide as Hneg; [done|]. case_bool_decide as Hbig; [done|]. cbn [fst].
  apply list_insert_bounded; [|done]. case_bool_decide as Hlen; [|done]. destruct Hl as [H1 H2].
  split; [rewrite length_app, repeat_length; lia|].
  apply Forall_app. split; [done|]. apply Forall_forall. intros x Hx.
  apply list_elem_of_In, repeat_spec in Hx as ->. constructor.
Qed.

Definition item_bounded (r : item_result) : Prop :=
  match r with Item l _ _ => list_bounded N l | Panicked _ => True end.

Lemma setIndex_item_bounded l i v sc :
  list_bounded N l → bounded N v → item_bounded (setIndex_item l i v sc).
Proof using HN.
  intros Hl Hv. pose proof (setIndex_bounded l i v Hl Hv) as H. unfold setIndex_item.
  by destruct (setIndex l i v).
Qed.

Lemma store_list_bounded data kk old l' :
  object_bounded N data → list_bounded N l' → object_bounded N (store_list data kk old l').
Proof using Type.
  intros Hd Hl%VList_bounded. unfold store_list. case_bool_decide; [|by apply insert_bounded].
  case_match; [|done]. case_bool_decide; [by apply insert_bounded|done].
Qed.

Lemma store_map_bounded data k inner :
  object_bounded N data → object_bounded N inner → object_bounded N (store_map data k inner).
Proof using Type.
  intros Hd Hi%VMap_bounded. unfold store_map.
  assert (object_bounded N (match data !! k with Some _ => <[k := VMap inner]> data | None => data end)).
  { case_match; [by apply insert_bounded|done]. }
  case_bool_decide; [done|]. by apply set_bounded.
Qed.

Lemma taken_list_bounded (o : option value) l :
  (∀ v, o = Some v → bounded N v) →
  (match o with None => Some [] | Some (VList l) => Some l | Some _ => None end) = Some l →
  list_bounded N l.
Proof using Type.
  intros Hb H. destruct o as [[]|]; simplify_eq; [|by apply list_bounded_nil]. by apply VList_bounded, Hb.
Qed.

Lemma taken_item_bounded (o : option value) l :
  (∀ v, o = Some v → bounded N v) →
  (match o with None | Some VNil => Some [] | Some (VList l) => Some l | Some _ => None end) = Some l →
  list_bounded N l.
Proof using Type.
  intros Hb H. destruct o as [[]|]; simplify_eq; try apply list_bounded_nil. by apply VList_bounded, Hb.
Qed.

Lemma taken_map_bounded (o : option value) m :
  (∀ v, o = Some v → bounded N v) →
  (match o with None => Some ∅ | Some (VMap m) => Some m | Some _ => None end) = Some m →
  object_bounded N m.
Proof using Type.
  intros Hb H. destruct o as [[]|]; simplify_eq; [|by apply object_bounded_empty]. by apply VMap_bounded, Hb.
Qed.

Lemma inner_map_bounded (o : option value) :
  (∀ v, o = Some v → bounded N v) →
  object_bounded N (match o with Some (VMap m) => m | _ => ∅ end).
Proof using Type.
  intros Hb. destruct o as [[]|]; try apply object_bounded_empty. by apply VMap_bounded, Hb.
Qed.

Section parser_bounds.
Variable reader : list rune → value * option error.
Variable isjsonval : bool.
Variable json_decode : string → option (value * nat).
Hypothesis reader_bounded : ∀ rs, bounded N (reader rs).1.
Hypothesis json_bounded : ∀ s v off, json_decode s = Some (v, off) → bounded N v.

Lemma val_list_loop_bounded n acc sc vl rest :
  toks_ok sc → length acc + size sc ≤ N → Forall (bounded N) acc →
  val_list_loop reader n acc sc = Some (IsList vl rest) → list_bounded N vl.
Proof using reader_bounded.
  revert acc sc. induction n as [|n IH]; intros acc sc Hok Hlen Hacc H; [done|]. cbn [val_list_loop] in H.
  destruct (runesUntil _ _) as [rs last sc'|] eqn:E; [|done].
  apply runesUntil_less in E as [Hok' Hlt]; [|done].
  pose proof (reader_bounded rs) as Hrd. destruct (reader rs) as [v e].
  assert (Forall (bounded N) (acc ++ [v])) by (apply Forall_app; by repeat constructor).
  destruct (decide (last = R "}"%char)) as [Hc|Hc].
  - destruct e; simplify_eq. split; [|done]. rewrite length_app. simpl. lia.
  - destruct e; [done|]. apply IH in H; [done..| |done]. rewrite length_app. simpl. lia.
Qed.

Lemma valList_bounded sc vl rest :
  toks_ok sc → size sc ≤ N → valList reader sc = Some (IsList vl rest) → list_bounded N vl.
Proof using reader_bounded.
  intros Hok Hsz. unfold valList. destruct sc as [|[r b] sc']; [done|]. case_decide; [|done].
  apply less_tail in Hok as [? ?]. apply val_list_loop_bounded; simpl; [done|lia|constructor].
Qed.

Lemma key_value_bounded data k sc r :
  toks_ok sc → size sc ≤ N → object_bounded N data →
  key_value reader isjsonval json_decode data k sc = Some r → object_bounded N r.1.2.
Proof using reader_bounded json_bounded.
  intros Hok Hsz Hd. unfold key_value. destruct isjsonval.
  - destruct (emptyVal sc) as [[] sc1]; [intros [= <-]; apply set_bounded; [done|constructor]|].
    destruct (json_decode _) as [[v off]|] eqn:Ej; [|by intros [= <-]]. apply json_bounded in Ej.
    destruct (discard sc1 off); intros [= <-]; by apply set_bounded.
  - destruct (valList reader sc) as [[vl rest| |e rest]|] eqn:Ev; [| | |done].
    + intros [= <-]. apply valList_bounded in Ev; [|done..]. apply set_bounded; [done|]. by apply VList_bounded.
    + destruct (val sc) as [rs rest]. pose proof (reader_bounded rs). destruct (reader rs).
      intros [= <-]. by apply set_bounded.
    + destruct e; intros [= <-]; try done. apply set_bounded; [done|constructor].
Qed.

Lemma item_value_bounded l i sc r :
  toks_ok sc → size sc ≤ N → list_bounded N l →
  item_value reader isjsonval json_decode l i sc = Some r → item_bounded r.
Proof using HN reader_bounded json_bounded.
  intros Hok Hsz Hl. unfold item_value. destruct isjsonval.
  - destruct (emptyVal sc) as [[] sc1]; [intros [= <-]; apply setIndex_item_bounded; [done|constructor]|].
    destruct (json_decode _) as [[v off]|] eqn:Ej; [|by intros [= <-]]. apply json_bounded in Ej.
    pose proof (setIndex_bounded l i v Hl Ej) as Hs. destruct (setIndex l i v) as [l' [e|]]; [by intros [= <-]|].
    by destruct (discard sc1 off); intros [= <-].
  - destruct (valList reader sc) as [[vl rest| |e rest]|] eqn:Ev; [| | |done].
    + intros [= <-]. apply valList_bounded in Ev; [|done..]. apply setIndex_item_bounded; [done|]. by apply VList_bounded.
    + destruct (val sc) as [rs rest]. pose proof (reader_bounded rs). destruct (reader rs) as [v [e|]]; intros [= <-]; [done|].
      by apply setIndex_item_bounded.
    + destruct e; intros [= <-]; try done. apply setIndex_item_bounded; [done|constructor].
Qed.

Lemma key_listItem_bounded n :
  (∀ data lv sc r, toks_ok sc → size sc ≤ N → object_bounded N data →
     key reader isjsonval json_decode n data lv sc = Some r → object_bounded N r.1.2) ∧
  (∀ l i lv sc r, toks_ok sc → size sc ≤ N → list_bounded N l →
     listItem reader isjsonval json_decode n l i lv sc = Some r → item_bounded r).
Proof using HN reader_bounded json_bounded.
  induction n as [|n [IHk IHl]]; [by split|]. split.
  - intros data lv sc r Hok Hsz Hd. cbn [key listItem].
    fold (key reader isjsonval json_decode) (listItem reader isjsonval json_decode).
    destruct (runesUntil _ sc) as [k last rest|k] eqn:E; [|by intros [= <-]].
    apply runesUntil_less in E as [Hr Hlt]; [|done].
    case_decide.
    + pose proof (keyIndex_left rest Hr) as [Hi1 Hi2].
      destruct (keyIndex rest) as [[i|] rest1]; simpl in *; [|by intros [= <-]].
      destruct (match data !! runes k with None => _ | Some _ => _ end) as [l|] eqn:El; [|by intros [= <-]].
      apply taken_list_bounded in El; [|by apply Hd].
      destruct (listItem _ _ _ n l i lv rest1) as [[l' e rest2|rest2]|] eqn:Ei; intros [= <-]; [|done].
      apply IHl in Ei; [|done|lia|done]. by apply store_list_bounded.
    + case_decide; [apply key_value_bounded; [done|lia|done]|].
      case_decide; [intros [= <-]; by apply set_bounded; [|constructor]|].
      case_bool_decide; [by intros [= <-]|].
      destruct (match data !! runes k with None => _ | Some _ => _ end) as [inner|] eqn:El; [|by intros [= <-]].
      apply taken_map_bounded in El; [|by apply Hd].
      destruct (key _ _ _ n inner (S lv) rest) as [[[e inner'] rest1]|] eqn:Ek; [|done].
      apply IHk in Ek; [|done|lia|done]. case_match; intros [= <-]; by apply store_map_bounded.
  - intros l i lv sc r Hok Hsz Hl. cbn [key listItem].
    fold (key reader isjsonval json_decode) (listItem reader isjsonval json_decode).
    case_bool_decide; [by intros [= <-]|].
    assert (∀ v, l !! Z.to_nat i = Some v → bounded N v) as Hex
      by (intros v Hv; eapply Forall_lookup_1; [apply Hl|done]).
    destruct (runesUntil _ sc) as [[|? k] last rest|[|? k]] eqn:E; try by intros [= <-].
    apply runesUntil_less in E as [Hr Hlt]; [|done].
    case_decide; [apply item_value_bounded; [done|lia|done]|].
    case_decide.
    + pose proof (keyIndex_left rest Hr) as [Hi1 Hi2].
      destruct (keyIndex rest) as [[nextI|] rest1]; simpl in *; [|by intros [= <-]].
      destruct (match l !! Z.to_nat i with None => _ | Some _ => _ end) as [crt|] eqn:El; [|by intros [= <-]].
      apply taken_item_bounded in El; [|done].
      destruct (listItem _ _ _ n crt nextI lv rest1) as [[l' e rest2|rest2]|] eqn:Ei; [| |done]; [|by intros [= <-]].
      apply IHl in Ei; [|done|lia|done].
      apply VList_bounded in Ei. destruct e; intros [= <-]; [|by apply setIndex_item_bounded].
      simpl. repeat case_match; try done; by apply list_insert_bounded.
    + pose proof (inner_map_bounded _ Hex) as Hin.
      destruct (key _ _ _ n _ lv rest) as [[[e inner'] rest1]|] eqn:Ek; [|done].
      apply IHk in Ek; [|done|lia|done]. apply VMap_bounded in Ek.
      destruct e; intros [= <-]; [|by apply setIndex_item_bounded].
      simpl. case_match; [by apply list_insert_bounded|done].
Qed.

Lemma parse_loop_bounded n data sc r :
  toks_ok sc → size sc ≤ N → object_bounded N data →
  parse_loop reader isjsonval json_decode n data sc = Some r → object_bounded N r.2.
Proof using HN reader_bounded json_bounded.
  revert data sc. induction n as [|n IH]; intros data sc Hok Hsz Hd; [done|]. cbn [parse_loop].
  destruct (key_listItem_total reader isjsonval json_decode (S (size sc))) as [Hk _].
  destruct (Hk data 0 sc) as ([[e data'] sc'] & Ek & [Hok' Hsz'] & _); [done|lia|].
  destruct (key_listItem_bounded (S (size sc))) as [Hb _]. rewrite Ek.
  apply Hb in Ek; [|done..]. simpl in *.
  destruct e as [e|]; [|apply IH; [done|lia|done]]. by destruct e; intros [= <-].
Qed.

Lemma parse_bounded data s r :
  String.length s ≤ N → object_bounded N data →
  parse reader isjsonval json_decode data s = Some r → object_bounded N r.2.
Proof using HN reader_bounded json_bounded.
  intros Hs Hd. apply parse_loop_bounded; [apply decode_runes_ok| |done].
  pose proof (buffer_decode s). lia.
Qed.
End parser_bounds.

Lemma keyLiteral_listItemLiteral_bounded n :
  (∀ data lv sc r, object_bounded N data → keyLiteral n data lv sc = Some r → object_bounded N r.1.2) ∧
  (∀ l i lv sc r, list_bounded N l → listItemLiteral n l i lv sc = Some r → item_bounded r).
Proof using HN.
  induction n as [|n [IHk IHl]]; [by split|]. split.
  - intros data lv sc r Hd. cbn [keyLiteral]. fold keyLiteral listItemLiteral.
    destruct (runesUntilLiteral _ sc) as [k last rest|k] eqn:E; [|by intros [= <-]].
    case_decide; [destruct (valLiteral rest); intros [= <-]; by apply set_bounded; [|constructor]|].
    case_decide.
    + case_bool_decide; [by intros [= <-]|].
      destruct (match data !! runes k with None => _ | Some _ => _ end) as [inner|] eqn:El; [|by intros [= <-]].
      apply taken_map_bounded in El; [|by apply Hd].
      destruct (keyLiteral n inner (S lv) rest) as [[[e inner'] rest1]|] eqn:Ek; [|done].
      apply IHk in Ek; [|done]. case_match; intros [= <-]; by apply store_map_bounded.
    + destruct (keyIndexLiteral rest) as [[i|] rest1]; [|by intros [= <-]].
      destruct (match data !! runes k with None => _ | Some _ => _ end) as [l|] eqn:El; [|by intros [= <-]].
      apply taken_list_bounded in El; [|by apply Hd].
      destruct (listItemLiteral n l i lv rest1) as [[l' e rest2|rest2]|] eqn:Ei; intros [= <-]; [|done].
      apply IHl in Ei; [|done]. by apply store_list_bounded.
  - intros l i lv sc r Hl. cbn [listItemLiteral]. fold keyLiteral listItemLiteral.
    case_bool_decide; [by intros [= <-]|].
    assert (∀ v, l !! Z.to_nat i = Some v → bounded N v) as Hex
      by (intros v Hv; eapply Forall_lookup_1; [apply Hl|done]).
    destruct (runesUntilLiteral _ sc) as [[|? k] last rest|[|? k]] eqn:E; try by intros [= <-].
    case_decide; [destruct (valLiteral rest); intros [= <-]; apply setIndex_item_bounded; [done|constructor]|].
    case_decide.
    + pose proof (inner_map_bounded _ Hex) as Hin.
      destruct (keyLiteral n _ lv rest) as [[[e inner'] rest1]|] eqn:Ek; [|done].
      apply IHk in Ek; [|done]. apply VMap_bounded in Ek.
      destruct e; intros [= <-]; [|by apply setIndex_item_bounded].
      simpl. case_match; [by apply list_insert_bounded|done].
    + destruct (keyIndexLiteral rest) as [[nextI|] rest1]; [|by intros [= <-]].
      destruct (match l !! Z.to_nat i with None => _ | Some _ => _ end) as [crt|] eqn:El; [|by intros [= <-]].
      apply taken_item_bounded in El; [|done].
      destruct (listItemLiteral n crt nextI lv rest1) as [[l' e rest2|rest2]|] eqn:Ei; [| |done]; [|by intros [= <-]].
      apply IHl in Ei; [|done].
      apply VList_bounded in Ei. destruct e; intros [= <-]; [|by apply setIndex_item_bounded].
      simpl. repeat case_match; try done; by apply list_insert_bounded.
Qed.

Lemma parse_literal_loop_bounded n data sc r :
  object_bounded N data → parse_literal_loop n data sc = Some r → object_bounded N r.2.
Proof using HN.
  revert data sc. induction n as [|n IH]; intros data sc Hd; [done|]. cbn [parse_literal_loop].
  destruct (keyLiteral (S (size sc)) data 0 sc) as [[[e data'] sc']|] eqn:Ek; [|done].
  destruct (keyLiteral_listItemLiteral_bounded (S (size sc))) as [Hb _].
  apply Hb in Ek; [|done]. destruct e as [e|]; [|by apply IH]. by destruct e; intros [= <-].
Qed.
End bounds.

Lemma typedVal_bounded N rs st : bounded N (stringConverter st rs).1.
Proof. unfold stringConverter, typedVal. repeat case_match; constructor. Qed.

(** C31.  No input makes a list grow beyond the index limit: if the lists of the
    destination have at most [MaxIndex + 1] elements (65537) and the input has at
    most as many bytes, then whatever the value parsers leave in the destination,
    also when they stop with an error, has only lists of at most that many
    elements; a longer input allows a list of as many elements as it has bytes. *)
Theorem parsers_bounded N s dest e m :
  (MaxIndex < Z.of_nat N)%Z → String.length s ≤ N → object_bounded N dest →
  ParseInto s dest = Some (e, m) ∨ ParseIntoString s dest = Some (e, m) ∨
    ParseLiteralInto s dest = Some (e, m) →
  object_bounded N m.
Proof.
  intros HN Hs Hd [H|[H|H]].
  1,2: apply (parse_bounded N HN) in H; try done; intros; apply typedVal_bounded.
  by apply (parse_literal_loop_bounded N HN) in H.
Qed.

Lemma parsers_bounded_witness :
  ParseInto "a[2]=x" ∅ = Some (None, {["a" := VList [VNil; VNil; VString "x"]]}) ∧
  object_bounded (Z.to_nat 65537) {["a" := VList [VNil; VNil; VString "x"]]}.
Proof.
  assert (ParseInto "a[2]=x" ∅ = Some (None, {["a" := VList [VNil; VNil; VString "x"]]})) as H
    by (vm_compute; reflexivity).
  split; [exact H|].
  apply (parsers_bounded (Z.to_nat 65537) "a[2]=x" ∅ None);
    [unfold MaxIndex; lia|simpl; lia|apply map_Forall_empty|by left].
Defined.

(** ** The meaning of dotted assignments *)

(** The reference: walking down a path of keys, making the maps that are missing;
    [None] when something other than a map is in the way. *)
Fixpoint assign (m : object) (path : list string) (v : value) : option object :=
  match path with
  | [] => None
  | [k] => Some (<[k := v]> m)
  | k :: path' =>
      match m !! k with
      | None => (λ inner, <[k := VMap inner]> m) <$> assign ∅ path' v
      | Some (VMap inner0) => (λ inner, <[k := VMap inner]> m) <$> assign inner0 path' v
      | Some _ => None
      end
  end.

(** One after the other, up to the first that is not possible. *)
Fixpoint assign_all (m : object) (l : list (list string * value)) : option error * object :=
  match l with
  | [] => (None, m)
  | (path, v) :: l' =>
      match assign m path v with
      | Some m' => assign_all m' l'
      | None => (Some Recovered, m)
      end
  end.

(** An assignment as it is written: special runes of the keys and of the value are
    escaped with a backslash. *)
Definition special : list rune :=
  [R "="%char; R "["%char; R ","%char; R "."%char; R "\"%char; R "{"%char].

Definition escape (k : list rune) : list rune :=
  k ≫= λ r, if decide (r ∈ special) then [R "\"%char; r] else [r].

Fixpoint print_path (path : list (list rune)) : list rune :=
  match path with
  | [] => []
  | [k] => escape k
  | k :: path' => escape k ++ R "."%char :: print_path path'
  end.

Definition assignment : Type := list (list rune) * list rune.

Definition print_assignment (a : assignment) : list rune :=
  print_path a.1 ++ R "="%char :: escape a.2.

Fixpoint print_assignments (l : list assignment) : list rune :=
  match l with
  | [] => []
  | [a] => print_assignment a
  | a :: l' => print_assignment a ++ R ","%char :: print_assignments l'
  end.

Definition text (l : list assignment) : string := runes (print_assignments l).

(** What can be written: a path of at most 31 non-empty keys, of Unicode runes. *)
Definition writable (a : assignment) : Prop :=
  a.1 ≠ [] ∧ length a.1 ≤ S MaxNestedNameLevel ∧ Forall (λ k, k ≠ []) a.1 ∧
  Forall (Forall (λ r, valid_rune r = true)) a.1 ∧ Forall (λ r, valid_rune r = true) a.2.

Definition meaning (st : bool) (a : assignment) : list string * value :=
  (runes <$> a.1, typedVal a.2 st).

Definition toks (rs : list rune) : list tok := (λ r, (r, encode_rune r)) <$> rs.

Lemma toks_app a b : toks (a ++ b) = toks a ++ toks b.
Proof. apply fmap_app. Qed.

Lemma toks_cons r a : toks (r :: a) = (r, encode_rune r) :: toks a.
Proof. done. Qed.

Lemma runesUntil_escape stop k sc :
  stop ⊆ special → R "\"%char ∉ stop →
  runesUntil stop (toks (escape k) ++ sc) = foldr prepend (runesUntil stop sc) k.
Proof.
  intros Hsub Hbs. induction k as [|r k IH]; [done|]. unfold escape in *. cbn [mbind list_bind foldr].
  unfold toks in *. rewrite fmap_app, <-app_assoc, <-IH. case_decide as Hr; cbn [fmap list_fmap app runesUntil].
  - rewrite decide_False by done. by rewrite decide_True by done.
  - rewrite decide_False by (intros ?; by apply Hr, Hsub).
    rewrite decide_False; [done|]. intros ->. apply Hr. unfold special. set_solver.
Qed.

Lemma runesUntil_escape_stop stop k r sc :
  stop ⊆ special → R "\"%char ∉ stop → r ∈ stop →
  runesUntil stop (toks (escape k) ++ (r, encode_rune r) :: sc) = Stop k r sc.
Proof.
  intros. rewrite runesUntil_escape by done. cbn [runesUntil]. rewrite decide_True by done.
  induction k as [|x k IH]; [done|]. cbn [foldr]. by rewrite IH.
Qed.

Lemma runesUntil_escape_end stop k :
  stop ⊆ special → R "\"%char ∉ stop → runesUntil stop (toks (escape k)) = End k.
Proof.
  intros. rewrite <-(app_nil_r (toks _)), runesUntil_escape by done.
  induction k as [|x k IH]; [done|]. cbn [foldr]. by rewrite IH.
Qed.

(** What follows an assignment: nothing, or a comma and the next one. *)
Definition comma : tok := (R ","%char, encode_rune (R ","%char)).

Definition tail_of (next : option (list tok)) : list tok :=
  match next with None => [] | Some sc => comma :: sc end.

Lemma valList_escape reader v next :
  valList reader (toks (escape v) ++ tail_of next) =
    Some match v, next with [], None => ListError EOF [] | _, _ => NotList end.
Proof.
  destruct v as [|r v]; [by destruct next|].
  unfold escape. cbn [mbind list_bind].
  case_decide as Hr; cbn [fmap list_fmap app valList toks]; [by rewrite decide_False|].
  rewrite decide_False; [done|]. intros ->. apply Hr. unfold special. set_solver.
Qed.

Lemma val_escape v next :
  val (toks (escape v) ++ tail_of next) = (v, default [] next).
Proof.
  unfold val. destruct next as [sc|]; cbn [tail_of].
  - unfold comma. rewrite runesUntil_escape_stop; [done|unfold special; set_solver..].
  - rewrite app_nil_r, runesUntil_escape_end; [done|unfold special; set_solver..].
Qed.

Section meaning.
Variable st : bool.

(** The error of the last assignment, when its value is empty. *)
Definition ended (v : list rune) (next : option (list tok)) : option error :=
  match v, next with [], None => Some EOF | _, _ => None end.

Lemma key_value_escape data k v next :
  key_value (stringConverter st) false no_json data k (toks (escape v) ++ tail_of next) =
    Some (ended v next, set data (runes k) (typedVal v st), default [] next).
Proof.
  unfold key_value. rewrite valList_escape, val_escape.
  destruct v as [|r v], next as [sc|]; try done. by destruct st.
Qed.

Lemma runes_nonempty k : k ≠ [] → runes k ≠ "".
Proof.
  destruct k as [|r k]; [done|]. intros _. unfold runes, encode_runes, encode_rune. cbn [foldr].
  repeat case_match; done.
Qed.

Lemma assign_cons m k path v :
  path ≠ [] →
  assign m (k :: path) v =
    match m !! k with
    | None => (λ inner, <[k := VMap inner]> m) <$> assign ∅ path v
    | Some (VMap inner0) => (λ inner, <[k := VMap inner]> m) <$> assign inner0 path v
    | Some _ => None
    end.
Proof. by destruct path. Qed.

Lemma assign_nonempty m path v m' : assign m path v = Some m' → m' ≠ ∅.
Proof.
  destruct path as [|k [|k' path]]; cbn [assign]; [done|intros [= <-]; apply insert_non_empty|].
  intros H. repeat case_match; simplify_eq;
    apply fmap_Some in H as (? & _ & ->); apply insert_non_empty.
Qed.

Lemma assign_empty_map k path v : is_Some (assign ∅ (k :: path) v).
Proof.
  revert k. induction path as [|k' path IH]; intros k; [eauto|].
  rewrite assign_cons by done.
  rewrite (lookup_empty k : (∅ : object) !! k = None). destruct (IH k') as [m ->]. eauto.
Qed.

(** Putting back a map that is unchanged changes nothing; a map that is not empty
    takes the place of the old one. *)
Lemma store_map_same data k inner : data !! k = Some (VMap inner) → store_map data k inner = data.
Proof.
  intros H. unfold store_map, set. rewrite H, insert_id by done. repeat case_bool_decide; try done.
  by apply insert_id.
Qed.

Lemma store_map_set data k inner :
  k ≠ "" → inner ≠ ∅ → store_map data k inner = <[k := VMap inner]> data.
Proof.
  intros Hk Hi. unfold store_map, set. rewrite !bool_decide_eq_false_2 by done.
  case_match; [apply insert_insert_eq|done].
Qed.

Lemma key_path n data lv path v next :
  path ≠ [] → length path ≤ n → lv + length path ≤ S MaxNestedNameLevel →
  Forall (λ k, k ≠ []) path →
  ∃ r, key (stringConverter st) false no_json n data lv
         (toks (print_path path ++ R "="%char :: escape v) ++ tail_of next) = Some r ∧
    match assign data (runes <$> path) (typedVal v st) with
    | Some data' => r = (ended v next, data', default [] next)
    | None => r.1 = (Some Recovered, data)
    end.
Proof.
  revert n data lv. induction path as [|k path IH]; intros n data lv Hne Hn Hlv Hk; [done|].
  apply Forall_cons_1 in Hk as [Hk Hks]. destruct n as [|n]; [simpl in Hn; lia|].
  cbn [key listItem].
  fold (key (stringConverter st) false no_json) (listItem (stringConverter st) false no_json).
  destruct (decide (path = [])) as [->|Hp].
  - cbn [print_path]. rewrite toks_app, <-app_assoc, toks_cons. cbn [app].
    rewrite runesUntil_escape_stop by (unfold special; set_solver).
    rewrite decide_False, decide_True by done. rewrite (key_value_escape data k v next).
    eexists; split; [done|]. cbn. unfold set. by rewrite bool_decide_eq_false_2 by by apply runes_nonempty.
  - assert (print_path (k :: path) = escape k ++ R "."%char :: print_path path) as -> by (by destruct path).
    rewrite <-app_assoc, toks_app, <-app_assoc. cbn [app]. rewrite toks_cons. cbn [app].
    rewrite runesUntil_escape_stop by (unfold special; set_solver).
    assert (0 < length path) as Hpos by (destruct path; [done|cbn [length]; lia]).
    rewrite !decide_False by done.
    rewrite (bool_decide_eq_false_2 (MaxNestedNameLevel < S lv)) by (cbn [length] in Hlv; lia).
    rewrite fmap_cons, assign_cons by (by intros ?%fmap_nil_inv).
    cbn [length] in Hn, Hlv. assert (length path ≤ n ∧ S lv + length path ≤ S MaxNestedNameLevel) as [Hn' Hlv'] by lia.
    specialize (λ d, IH n d (S lv) Hp Hn' Hlv' Hks).
    assert (runes k ≠ "") as Hrk by (by apply runes_nonempty).
    destruct (data !! runes k) as [[| | | | | |inner]|] eqn:Ed; try (by eexists).
    + destruct (IH inner) as ([[e inner'] rest] & -> & Hr).
      destruct (assign inner (runes <$> path) (typedVal v st)) as [m|] eqn:Ea; simplify_eq/=.
      * apply assign_nonempty in Ea. rewrite (bool_decide_eq_false_2 (m = ∅)), andb_false_r by done.
        eexists; split; [done|]. by rewrite store_map_set.
      * eexists; split; [done|]. cbn. by rewrite store_map_same.
    + destruct (IH ∅) as ([[e inner'] rest] & -> & Hr).
      destruct path as [|k' path]; [done|]. rewrite fmap_cons in *.
      destruct (assign_empty_map (runes k') (runes <$> path) (typedVal v st)) as [m Ea].
      rewrite Ea in *. apply assign_nonempty in Ea. simplify_eq/=.
      rewrite (bool_decide_eq_false_2 (m = ∅)), andb_false_r by done.
      eexists; split; [done|]. by rewrite store_map_set.
Qed.
End meaning.

Lemma print_path_length path : length path ≤ S (length (print_path path)).
Proof.
  induction path as [|k [|k' path] IH]; cbn [print_path length]; [lia..|].
  rewrite length_app. cbn [length print_path] in *. lia.
Qed.

Lemma size_length sc : toks_ok sc → length sc ≤ size sc.
Proof.
  induction 1 as [|[r b] sc Hb _ IH]; [done|]. rewrite size_cons. cbn [length snd] in *.
  destruct b; [done|]. cbn [String.length]. lia.
Qed.

Lemma encode_rune_nonempty r : encode_rune r ≠ "".
Proof. unfold encode_rune. repeat case_match; done. Qed.

Lemma toks_toks_ok rs : toks_ok (toks rs).
Proof. induction rs; constructor; [apply encode_rune_nonempty|done]. Qed.

Lemma size_path (path : list (list rune)) rs next :
  toks_ok (tail_of next) → length path ≤ S (size (toks (print_path path ++ rs) ++ tail_of next)).
Proof.
  intros Hok. pose proof (print_path_length path).
  assert (toks_ok (toks (print_path path ++ rs) ++ tail_of next)) as H1%size_length
    by (apply Forall_app; split; [apply toks_toks_ok|done]).
  unfold toks in *. rewrite length_app, length_fmap, length_app in H1. lia.
Qed.

Definition next_of (l : list assignment) : option (list tok) :=
  match l with [] => None | _ => Some (toks (print_assignments l)) end.

Lemma toks_print_cons a l :
  toks (print_assignments (a :: l)) = toks (print_path a.1 ++ R "="%char :: escape a.2) ++ tail_of (next_of l).
Proof.
  destruct l as [|b l]; cbn [print_assignments tail_of next_of]; unfold print_assignment; [by rewrite app_nil_r|].
  by rewrite toks_app, toks_cons.
Qed.

Lemma parse_loop_print st n l data :
  l ≠ [] → Forall writable l → S (length l) ≤ n →
  parse_loop (stringConverter st) false no_json n data (toks (print_assignments l)) =
    Some (assign_all data (meaning st <$> l)).
Proof.
  revert n data. induction l as [|[path v] l IH]; intros n data Hne Hw Hn; [done|].
  apply Forall_cons_1 in Hw as [(Hp & Hlen & Hks & _ & _) Hw]. cbn [fst snd] in *.
  destruct n as [|n]; [lia|]. cbn [parse_loop]. rewrite toks_print_cons. cbn [fst snd].
  destruct (key_path st (S (size (toks (print_path path ++ R "="%char :: escape v) ++ tail_of (next_of l))))
    data 0 path v (next_of l)) as ([[e m] rest] & -> & Hr); [done| |done|done|].
  { apply size_path. destruct l; [constructor|]. constructor; [done|apply toks_toks_ok]. }
  cbn [fmap list_fmap assign_all meaning fst snd].
  destruct (assign data (runes <$> path) (typedVal v st)) as [m'|]; simplify_eq/=; [|done].
  destruct l as [|a l].
  - destruct v; [done|]. cbn [ended next_of]. destruct n; [cbn [length] in Hn; lia|]. done.
  - cbn [next_of default]. replace (ended v (Some _)) with (@None error) by (by destruct v).
    apply IH; [done|done|cbn [length] in *; lia].
Qed.

Lemma print_assignments_length l : Forall writable l → length l ≤ length (print_assignments l).
Proof.
  induction 1 as [|a l Ha _ IH]; [done|].
  assert (0 < length (print_assignment a)) by (unfold print_assignment; rewrite length_app; cbn [length]; lia).
  destruct l as [|b l]; [cbn [print_assignments length]; lia|].
  change (print_assignments (a :: b :: l)) with (print_assignment a ++ R ","%char :: print_assignments (b :: l)).
  rewrite length_app. cbn [length] in *. lia.
Qed.

Lemma escape_valid k : Forall (λ r, valid_rune r = true) k → Forall (λ r, valid_rune r = true) (escape k).
Proof.
  induction 1 as [|r k Hr _ IH]; [constructor|]. unfold escape in *. cbn [mbind list_bind].
  apply Forall_app. split; [|done]. case_decide; by repeat constructor.
Qed.

Lemma print_path_valid path :
  Forall (Forall (λ r, valid_rune r = true)) path → Forall (λ r, valid_rune r = true) (print_path path).
Proof.
  induction 1 as [|k path Hk _ IH]; [constructor|].
  destruct path as [|k' path]; [by apply escape_valid|].
  change (print_path (k :: k' :: path)) with (escape k ++ R "."%char :: print_path (k' :: path)).
  apply Forall_app. split; [by apply escape_valid|]. by constructor.
Qed.

Lemma print_assignments_valid l :
  Forall writable l → Forall (λ r, valid_rune r = true) (print_assignments l).
Proof.
  induction 1 as [|a l (_ & _ & _ & Hp & Hv) _ IH]; [constructor|].
  assert (Forall (λ r, valid_rune r = true) (print_assignment a)).
  { apply Forall_app. split; [by apply print_path_valid|]. constructor; [done|by apply escape_valid]. }
  destruct l as [|b l]; [done|].
  change (print_assignments (a :: b :: l)) with (print_assignment a ++ R ","%char :: print_assignments (b :: l)).
  apply Forall_app. split; [done|]. by constructor.
Qed.

Lemma decode_text l : Forall writable l → decode_runes (text l) = toks (print_assignments l).
Proof.
  intros Hl%print_assignments_valid. unfold text, runes.
  pose proof (decode_encode_runes _ "" Hl) as H. rewrite string_app_nil_r, decode_runes_nil, app_nil_r in H. done.
Qed.

Lemma parse_print st l dest :
  Forall writable l →
  parse (stringConverter st) false no_json dest (text l) = Some (assign_all dest (meaning st <$> l)).
Proof.
  intros Hl. unfold parse. rewrite decode_text by done.
  destruct l as [|a l]; [done|]. apply parse_loop_print; [done|done|].
  pose proof (print_assignments_length _ Hl). pose proof (buffer_decode (text (a :: l))) as Hb.
  rewrite decode_text in Hb by done.
  pose proof (size_length _ (toks_toks_ok (print_assignments (a :: l)))) as Hs.
  unfold toks in Hs at 1. rewrite length_fmap in Hs. lia.
Qed.

(** C29.  What a command line such as a.b=1,c\.d=x means: whatever the keys and
    values, once the special runes in them are escaped, the parser does on every
    destination exactly what assigning the values one after the other along their
    paths of keys does, making missing maps and stopping with the recovered panic
    at the first path that runs into something other than a map, with the
    assignments before it in place; values are typed, or kept as strings. *)
Theorem ParseInto_meaning l dest :
  Forall writable l →
  ParseInto (text l) dest = Some (assign_all dest (meaning false <$> l)) ∧
  ParseIntoString (text l) dest = Some (assign_all dest (meaning true <$> l)).
Proof. intros Hl. split; by apply parse_print. Qed.

Definition rs (s : string) : list rune := R <$> String.list_ascii_of_string s.

Lemma ParseInto_meaning_witness :
  text [([rs "a.b"; rs "c"], rs "1"); ([rs "a.b"; rs "d"], rs "{x,y"); ([rs "a.b"; rs "c"; rs "e"], rs "2")] =
    "a\.b.c=1,a\.b.d=\{x\,y,a\.b.c.e=2" ∧
  ParseInto "a\.b.c=1,a\.b.d=\{x\,y,a\.b.c.e=2" ∅ =
    Some (Some Recovered, {["a.b" := VMap {["c" := VInt 1; "d" := VString "{x,y"]}]}).
Proof.
  assert (text [([rs "a.b"; rs "c"], rs "1"); ([rs "a.b"; rs "d"], rs "{x,y"); ([rs "a.b"; rs "c"; rs "e"], rs "2")] =
    "a\.b.c=1,a\.b.d=\{x\,y,a\.b.c.e=2") as E by (vm_compute; reflexivity).
  split; [exact E|]. rewrite <-E.
  destruct (ParseInto_meaning
    [([rs "a.b"; rs "c"], rs "1"); ([rs "a.b"; rs "d"], rs "{x,y"); ([rs "a.b"; rs "c"; rs "e"], rs "2")] ∅) as [H _].
  - repeat (constructor; [split_and!; [done|simpl; unfold MaxNestedNameLevel; lia|by repeat constructor..]|]). constructor.
  - rewrite H. vm_compute. reflexivity.
Defined.

(** ** Inputs that are accepted or refused unexpectedly *)

(** A path without a value at the end of the input is dropped without an error. *)
Example trailing_dot_ignored : Parse "a=1,b." = Some (None, {["a" := VInt 1]}).
Proof. vm_compute. reflexivity. Qed.

(** An index without a value at the end of the input makes an empty list, without
    an error. *)
Example index_without_value : Parse "a[3]" = Some (None, {["a" := VList []]}).
Proof. vm_compute. reflexivity. Qed.

(** A dotted path of 32 names is refused; with an index after each name it is not,
    whatever its length. *)
Definition deep_path (n : nat) (step : string) : string :=
  Nat.iter n (λ s, "a" +:+ step +:+ s) "a=1".

Example nesting_limited :
  (λ r, fst <$> r) (Parse (deep_path 31 ".")) = Some (Some NestedTooDeep) ∧
  (λ r, fst <$> r) (Parse (deep_path 100 "[0].")) = Some None.
Proof. vm_compute. split; reflexivity. Qed.
