(* ===== verification/Provision.v ===== *)
(** * Provisioning commands

    src/pkg/provision/controlplane and src/pkg/provision/token: what the command
    line does on the management cluster (create a Runtime from the assignments of
    the command line, delete a control plane, fetch its kubeconfig, list and get)
    and on a tenant cluster (the same for worker join tokens).

    The clients are the calls of World.v.  Parameters: building a client
    ([buildClient], the error for a kubeconfig path), the YAML codec ([Yaml]) and
    waiting ([Polling]). *)

From stdpp Require Import sorting.
From S2P Require Import Prelude Base64 Effects Kube Api Pki World PkiAuth Templates Generate.
From S2P Require Import RuntimeController Token JoinToken Numbers Utf8 Strvals StrvalsProps.
From stdpp Require Import options.

(** ** Libraries *)

(** [wait.PollUntilContextTimeout], under a spinner: how it ends. *)
Inductive polled := PollDone | PollTimeout | PollError (err : string).

Class Polling := {
  (** The condition is asked for at once and then again and again, until it
      says yes, fails, or the time (in nanoseconds) is over. *)
  poll_until {E : Type → Type} : Z → prog E (bool + string) → prog E polled;
}.

(** Its promise, as a rule: an invariant that the condition keeps as long as it
    says no holds at the end of the time, and it reports success only after the
    condition said yes. *)
Class PollingLaws `{Polling} : Prop := {
  wp_poll {E S} (spec : op_spec E S) `{!Monotone spec} timeout (cond : prog E (bool + string))
      (I : S → Prop) (Q : polled → S → Prop) s :
    I s →
    (∀ s, I s → wp spec cond s (λ r s',
       match r with
       | inl true => Q PollDone s'
       | inl false => I s'
       | inr err => Q (PollError err) s'
       end)) →
    (∀ s, I s → Q PollTimeout s ∧ ∀ err, Q (PollError err) s) →
    wp spec (poll_until timeout cond) s Q;
}.

(** One such loop, with a fixed number of rounds. *)
Fixpoint poll_rounds {E : Type → Type} (n : nat) (cond : prog E (bool + string)) : prog E polled :=
  match n with
  | 0 => Ret PollTimeout
  | S n' =>
      let! r := cond in
      match r with
      | inl true => Ret PollDone
      | inl false => poll_rounds n' cond
      | inr err => Ret (PollError err)
      end
  end.

Definition ref_polling : Polling := {| poll_until E timeout cond := poll_rounds 3 cond |}.

Lemma ref_polling_laws : @PollingLaws ref_polling.
Proof.
  split. intros E S spec Hm timeout cond I Q s HI Hc HQ. cbn [poll_until ref_polling].
  generalize 3 as n. intros n. revert s HI.
  induction n as [|n IH]; intros s HI; cbn [poll_rounds]; [by apply HQ|].
  eapply (wp_seq spec cond); [exact (Hc s HI)|]. intros [[]|err] s1; simpl; auto.
Qed.

(** [sigs.k8s.io/yaml] on the two types that are used: the specification of a
    Runtime and a generic map. *)
Class Yaml := {
  (** The zero value; some of its parts are known only in serialised form. *)
  zero_spec : RuntimeSpec;
  marshal_spec : RuntimeSpec → string + string;
  unmarshal_map : string → object + string;
  marshal_map : object → string + string;
  (** Into a value that is already there. *)
  unmarshal_spec : string → RuntimeSpec → RuntimeSpec + string;
}.

(** [meta.IsStatusConditionTrue]. *)
Definition IsStatusConditionTrue `{M : Machinery} (cs : list Condition) (t : string) : bool :=
  match FindStatusCondition cs t with
  | Some c => bool_decide (cond_status c = ConditionTrue)
  | None => false
  end.

(** Asking for an object until one of its conditions is true. *)
Definition wait_condition `{P : Polling} `{M : Machinery} {O} {K : Kind O} (n : NamespacedName)
    (conditions : O → list Condition) (t : string) (timeout : Z) : prog op polled :=
  poll_until timeout
    (let! g := get n in
     match g with
     | inr e => Ret (inr (err_text e))
     | inl current => Ret (inl (IsStatusConditionTrue (conditions current) t))
     end).

(** [sort.Slice] by name: the names of a listing are distinct, so that any sorting
    gives the same list. *)
Definition name_le {O} `{K : Kind O} (a b : O) : Prop :=
  String.le (om_name (kmeta a)) (om_name (kmeta b)).

#[export] Instance name_le_dec {O} `{K : Kind O} (a b : O) : Decision (name_le a b).
Proof. unfold name_le. apply _. Defined.

Definition sort_by_name {O} `{K : Kind O} (l : list O) : list O := merge_sort name_le l.

(** Go on unless there was an error. *)
Definition and_then (p q : prog op (option string)) : prog op (option string) :=
  let! r := p in match r with Some e => Ret (Some e) | None => q end.

Module ControlPlane.

(** ** Options: controlplane/options.go *)

Record provisionContext := {
  pc_name : string;
  pc_kubeconfig : string;
  pc_namespace : string;
  pc_set : list string;
  pc_wait : bool;
  pc_timeout : Z;
  pc_server : string;
}.

Definition Option : Type := provisionContext → provisionContext.

Definition WithName (name : string) : Option := λ p,
  {| pc_name := name; pc_kubeconfig := pc_kubeconfig p; pc_namespace := pc_namespace p;
     pc_set := pc_set p; pc_wait := pc_wait p; pc_timeout := pc_timeout p; pc_server := pc_server p |}.
Definition WithKubeconfig (kubeconfig : string) : Option := λ p,
  {| pc_name := pc_name p; pc_kubeconfig := kubeconfig; pc_namespace := pc_namespace p;
     pc_set := pc_set p; pc_wait := pc_wait p; pc_timeout := pc_timeout p; pc_server := pc_server p |}.
Definition WithNamespace (namespace : string) : Option := λ p,
  {| pc_name := pc_name p; pc_kubeconfig := pc_kubeconfig p; pc_namespace := namespace;
     pc_set := pc_set p; pc_wait := pc_wait p; pc_timeout := pc_timeout p; pc_server := pc_server p |}.
Definition WithSet (set : list string) : Option := λ p,
  {| pc_name := pc_name p; pc_kubeconfig := pc_kubeconfig p; pc_namespace := pc_namespace p;
     pc_set := set; pc_wait := pc_wait p; pc_timeout := pc_timeout p; pc_server := pc_server p |}.
Definition WithWait (wait : bool) : Option := λ p,
  {| pc_name := pc_name p; pc_kubeconfig := pc_kubeconfig p; pc_namespace := pc_namespace p;
     pc_set := pc_set p; pc_wait := wait; pc_timeout := pc_timeout p; pc_server := pc_server p |}.
Definition WithTimeout (timeout : Z) : Option := λ p,
  {| pc_name := pc_name p; pc_kubeconfig := pc_kubeconfig p; pc_namespace := pc_namespace p;
     pc_set := pc_set p; pc_wait := pc_wait p; pc_timeout := timeout; pc_server := pc_server p |}.
Definition WithServer (server : string) : Option := λ p,
  {| pc_name := pc_name p; pc_kubeconfig := pc_kubeconfig p; pc_namespace := pc_namespace p;
     pc_set := pc_set p; pc_wait := pc_wait p; pc_timeout := pc_timeout p; pc_server := server |}.

Definition apply_options (opts : list Option) : provisionContext :=
  foldl (λ p o, o p)
    {| pc_name := ""; pc_kubeconfig := ""; pc_namespace := ""; pc_set := []; pc_wait := false;
       pc_timeout := 0; pc_server := "" |} opts.

(** ** Deleting a control plane: controlplane/delete.go *)

Definition labelManagedBy : string := "app.kubernetes.io/managed-by".
Definition annotationDeletionProtection : string :=
  "controlplane.tardigrade.runtime.io/deletion-protection".

Definition isManaged (labels : gomap string) : bool :=
  bool_decide (default "" (mget labels labelManagedBy) = "heir").

Definition isProtected (annotations : gomap string) : bool :=
  bool_decide (default "" (mget annotations annotationDeletionProtection) = "true").

(** The four functions differ in the kind and in the words. *)
Definition delete_managed {O} (K : Kind O) (got what : string) (name ns : string) :
    prog op (option string) :=
  let! r := get (NN ns name) in
  match r with
  | inr NotFound => Ret None
  | inr e => Ret (Some ("failed to get " +:+ got +:+ " " +:+ name +:+ ": " +:+ err_text e))
  | inl o =>
      if negb (isManaged (om_labels (kmeta o))) then Ret None
      else if isProtected (om_annotations (kmeta o)) then Ret None
      else
        let! d := delete_obj O (NN ns name) in
        match d with
        | Some e => Ret (Some ("failed to delete " +:+ what +:+ " " +:+ name +:+ ": " +:+ err_text e))
        | None => Ret None
        end
  end.

Definition deleteDeployment (name ns : string) : prog op (option string) :=
  delete_managed kind_Deployment "deployment" "deployment" name ns.
Definition deleteService (name ns : string) : prog op (option string) :=
  delete_managed kind_Service "service" "service" name ns.
Definition deleteConfigMap (name ns : string) : prog op (option string) :=
  delete_managed kind_ConfigMap "configmap" "cluster configuration storage" name ns.
Definition deleteSecret (name ns : string) : prog op (option string) :=
  delete_managed kind_Secret "secret" "PKI secret storage" name ns.

Section commands.
(** Building a client for a kubeconfig path: the error, if any. *)
Variable buildClient : string → option string.

Definition Delete (opts : list Option) : prog op (option string) :=
  let pCtx := apply_options opts in
  match buildClient (pc_kubeconfig pCtx) with
  | Some e => Ret (Some ("failed to build client: " +:+ e))
  | None =>
      let name := pc_name pCtx in
      let ns := pc_namespace pCtx in
      and_then (deleteDeployment name ns)
        (and_then (deleteService name ns)
          (and_then (deleteConfigMap name ns) (deleteSecret name ns)))
  end.

(** ** Creating a Runtime: controlplane/provision.go *)

Section provision.
Context `{Y : Yaml} `{P : Polling} `{M : Machinery} `{X : X509}.

(** The loop over the assignments; the map is updated in place.  [None] would be a
    parser that does not end. *)
Fixpoint parse_all (assignments : list string) (obj : object) : option (object + string) :=
  match assignments with
  | [] => Some (inl obj)
  | a :: l =>
      match ParseInto a obj with
      | None => None
      | Some (Some _, _) => Some (inr ("--set " +:+ a))
      | Some (None, obj') => parse_all l obj'
      end
  end.

Definition applySetValues (spec : RuntimeSpec) (assignments : list string) :
    option (RuntimeSpec + string) :=
  match assignments with
  | [] => Some (inl spec)
  | _ =>
      match marshal_spec spec with
      | inr e => Some (inr ("failed to marshal runtime spec: " +:+ e))
      | inl raw =>
          match unmarshal_map raw with
          | inr e => Some (inr ("failed to decode runtime spec: " +:+ e))
          | inl obj =>
              match parse_all assignments obj with
              | None => None
              | Some (inr e) => Some (inr e)
              | Some (inl obj') =>
                  match marshal_map obj' with
                  | inr e => Some (inr ("failed to encode merged runtime spec: " +:+ e))
                  | inl merged => Some (unmarshal_spec merged spec)
                  end
              end
          end
      end
  end.

Definition waitAvailable (rt : Runtime) (timeout : Z) : prog op (option string) :=
  let! r := wait_condition (O := Runtime) (meta_key (rt_meta rt))
              (λ current, rst_conditions (rt_status current)) "Available" timeout in
  match r with
  | PollDone => Ret None
  | PollTimeout => Ret (Some ("timed out waiting for runtime " +:+ rt_name rt))
  | PollError e => Ret (Some ("failed waiting for runtime " +:+ rt_name rt +:+ ": " +:+ e))
  end.

Definition new_runtime (pCtx : provisionContext) (spec : RuntimeSpec) : Runtime :=
  {| rt_type := {| tm_apiVersion := "controlplane.tardigrade.runtime.io/v1alpha1"; tm_kind := "Runtime" |};
     rt_meta := new_meta (pc_name pCtx) (pc_namespace pCtx) None None;
     rt_spec := spec;
     rt_status := {| rst_conditions := []; rst_observedGeneration := 0; rst_certificates := [] |} |}.

(** The first [None] is a parser that does not end. *)
Definition Provision (opts : list Option) : option (prog op (option string)) :=
  let pCtx := apply_options opts in
  match buildClient (pc_kubeconfig pCtx) with
  | Some e => Some (Ret (Some ("failed to build client: " +:+ e)))
  | None =>
      match applySetValues zero_spec (pc_set pCtx) with
      | None => None
      | Some (inr e) => Some (Ret (Some ("invalid --set value: " +:+ e)))
      | Some (inl spec) => Some (
          let! c := create (new_runtime pCtx spec) in
          match c with
          | inr e => Ret (Some ("failed to create runtime " +:+ pc_namespace pCtx +:+ "/" +:+
                                pc_name pCtx +:+ ": " +:+ err_text e))
          | inl rt =>
              if pc_wait pCtx then waitAvailable rt (pc_timeout pCtx) else Ret None
          end)
      end
  end.

(** ** The kubeconfig: controlplane/kubeconfig.go *)

Definition rewriteServer (kubeconfigYAML server : string) : string + string :=
  match LoadKubeconfig kubeconfigYAML with
  | None => inr "failed to parse kubeconfig"
  | Some cfg =>
      match WriteKubeconfig
              {| kc_clusters := (λ c, {| kcl_server := server; kcl_caData := kcl_caData c |}) <$> kc_clusters cfg;
                 kc_authInfos := kc_authInfos cfg; kc_contexts := kc_contexts cfg;
                 kc_currentContext := kc_currentContext cfg |} with
      | None => inr "failed to re-encode kubeconfig"
      | Some out => inl out
      end
  end.

Definition FetchKubeconfig (opts : list Option) : prog op (string + string) :=
  let pCtx := apply_options opts in
  match buildClient (pc_kubeconfig pCtx) with
  | Some e => Ret (inr ("failed to build client: " +:+ e))
  | None =>
      let secretName := pc_name pCtx +:+ "-kubeconfig" in
      let! g := get (O := Secret) (NN (pc_namespace pCtx) secretName) in
      match g with
      | inr NotFound =>
          Ret (inr ("failed to generate cluster kubeconfig: cluster " +:+ pc_name pCtx +:+ " was not found"))
      | inr e => Ret (inr ("failed to generate kubeconfig: " +:+ err_text e))
      | inl secret =>
          let secretKey := SecretKey (ClientKubeconfig (lay_auth NewControlPlaneLayout)) in
          match mget (sec_data secret) secretKey with
          | None => Ret (inr ("secret " +:+ pc_namespace pCtx +:+ "/" +:+ secretName +:+ " has no " +:+
                              secretKey +:+ " key"))
          | Some data =>
              if bool_decide (pc_server pCtx = "") then Ret (inl data)
              else Ret (rewriteServer data (pc_server pCtx))
          end
      end
  end.

(** ** Reading: controlplane/list.go *)

Definition List (opts : list Option) : prog op (list Runtime + string) :=
  let pCtx := apply_options opts in
  match buildClient (pc_kubeconfig pCtx) with
  | Some e => Ret (inr ("failed to build client: " +:+ e))
  | None =>
      (* an empty namespace is all of them *)
      let ns := if bool_decide (pc_namespace pCtx = "") then None else Some (pc_namespace pCtx) in
      let! l := trigger (ListObjects kind_Runtime ns None) in
      match l with
      | inr e => Ret (inr ("failed to list runtimes: " +:+ err_text e))
      | inl items => Ret (inl (sort_by_name items))
      end
  end.

Definition Get (opts : list Option) : prog op (Runtime + string) :=
  let pCtx := apply_options opts in
  match buildClient (pc_kubeconfig pCtx) with
  | Some e => Ret (inr ("failed to build client: " +:+ e))
  | None =>
      let! g := get (O := Runtime) (NN (pc_namespace pCtx) (pc_name pCtx)) in
      match g with
      | inr NotFound => Ret (inr ("runtime " +:+ pc_namespace pCtx +:+ "/" +:+ pc_name pCtx +:+ " not found"))
      | inr e => Ret (inr ("failed to get runtime " +:+ pc_namespace pCtx +:+ "/" +:+ pc_name pCtx +:+ ": " +:+
                           err_text e))
      | inl rt => Ret (inl rt)
      end
  end.
End provision.
End commands.
End ControlPlane.

Module JoinTokens.

(** ** Options: token/options.go *)

Record provisionContext := {
  pc_name : string;
  pc_ttl : Z;
  pc_kubeconfig : string;
  pc_wait : bool;
  pc_timeout : Z;
}.

Definition Option : Type := provisionContext → provisionContext.

Definition WithName (name : string) : Option := λ p,
  {| pc_name := name; pc_ttl := pc_ttl p; pc_kubeconfig := pc_kubeconfig p; pc_wait := pc_wait p;
     pc_timeout := pc_timeout p |}.
Definition WithTTL (ttl : Z) : Option := λ p,
  {| pc_name := pc_name p; pc_ttl := ttl; pc_kubeconfig := pc_kubeconfig p; pc_wait := pc_wait p;
     pc_timeout := pc_timeout p |}.
Definition WithKubeconfig (kubeconfig : string) : Option := λ p,
  {| pc_name := pc_name p; pc_ttl := pc_ttl p; pc_kubeconfig := kubeconfig; pc_wait := pc_wait p;
     pc_timeout := pc_timeout p |}.
Definition WithWait (wait : bool) : Option := λ p,
  {| pc_name := pc_name p; pc_ttl := pc_ttl p; pc_kubeconfig := pc_kubeconfig p; pc_wait := wait;
     pc_timeout := pc_timeout p |}.
Definition WithTimeout (timeout : Z) : Option := λ p,
  {| pc_name := pc_name p; pc_ttl := pc_ttl p; pc_kubeconfig := pc_kubeconfig p; pc_wait := pc_wait p;
     pc_timeout := timeout |}.

Definition apply_options (opts : list Option) : provisionContext :=
  foldl (λ p o, o p)
    {| pc_name := ""; pc_ttl := 0; pc_kubeconfig := ""; pc_wait := false; pc_timeout := 0 |} opts.

Section commands.
Variable buildClient : string → option string.
Context `{P : Polling} `{M : Machinery}.

(** ** Minting: token/worker_join_token.go *)

Definition waitReady (token : WorkerJoinToken) (timeout : Z) : prog op (option string) :=
  let name := om_name (wj_meta token) in
  let! r := wait_condition (O := WorkerJoinToken) (meta_key (wj_meta token))
              (λ current, wjs_conditions (wj_status current)) "Ready" timeout in
  match r with
  | PollDone => Ret None
  | PollTimeout => Ret (Some ("timed out waiting for worker join token " +:+ name))
  | PollError e => Ret (Some ("failed waiting for worker join token " +:+ name +:+ ": " +:+ e))
  end.

Definition new_token (pCtx : provisionContext) : WorkerJoinToken :=
  {| wj_meta := new_meta (pc_name pCtx) "" None None; wj_ttl := pc_ttl pCtx;
     wj_status := {| wjs_conditions := []; wjs_tokenID := ""; wjs_expiresAt := None;
                     wjs_secretRef := None; wjs_secretChecksum := "" |} |}.

Definition Provision (opts : list Option) : prog op (option string) :=
  let pCtx := apply_options opts in
  match buildClient (pc_kubeconfig pCtx) with
  | Some e => Ret (Some ("failed to build client: " +:+ e))
  | None =>
      let! c := create (new_token pCtx) in
      match c with
      | inr e => Ret (Some ("failed to create worker join token " +:+ pc_name pCtx +:+ ": " +:+ err_text e))
      | inl token => if pc_wait pCtx then waitReady token (pc_timeout pCtx) else Ret None
      end
  end.

(** ** Deleting: token/delete.go *)

Definition Delete (opts : list Option) : prog op (option string) :=
  let pCtx := apply_options opts in
  match buildClient (pc_kubeconfig pCtx) with
  | Some e => Ret (Some ("failed to build client: " +:+ e))
  | None =>
      let! d := delete_obj WorkerJoinToken (NN "" (pc_name pCtx)) in
      match d with
      | None => Ret None
      | Some NotFound => Ret (Some ("worker join token " +:+ pc_name pCtx +:+ " not found"))
      | Some e => Ret (Some ("failed to delete worker join token " +:+ pc_name pCtx +:+ ": " +:+ err_text e))
      end
  end.

(** ** Reading: token/get.go and token/list.go *)

Definition Get (opts : list Option) : prog op (WorkerJoinToken + string) :=
  let pCtx := apply_options opts in
  match buildClient (pc_kubeconfig pCtx) with
  | Some e => Ret (inr ("failed to build client: " +:+ e))
  | None =>
      let! g := get (O := WorkerJoinToken) (NN "" (pc_name pCtx)) in
      match g with
      | inl tok => Ret (inl tok)
      | inr NotFound => Ret (inr ("worker join token " +:+ pc_name pCtx +:+ " not found"))
      | inr e => Ret (inr ("failed to get worker join token " +:+ pc_name pCtx +:+ ": " +:+ err_text e))
      end
  end.

Definition FetchSecret (opts : list Option) : prog op (string + string) :=
  let pCtx := apply_options opts in
  match buildClient (pc_kubeconfig pCtx) with
  | Some e => Ret (inr ("failed to build client: " +:+ e))
  | None =>
      let secretName := pc_name pCtx +:+ "-jointoken" in
      let! g := get (O := Secret) (NN NamespaceSystem secretName) in
      match g with
      | inr NotFound => Ret (inr ("worker join token secret for " +:+ pc_name pCtx +:+ " was not found"))
      | inr e => Ret (inr ("failed to get worker join token secret " +:+ NamespaceSystem +:+ "/" +:+
                           secretName +:+ ": " +:+ err_text e))
      | inl secret =>
          match mget (sec_data secret) "jointoken" with
          | None => Ret (inr ("secret " +:+ NamespaceSystem +:+ "/" +:+ secretName +:+ " has no jointoken key"))
          | Some data => Ret (inl (base64 data))
          end
      end
  end.

Definition List (opts : list Option) : prog op (list WorkerJoinToken + string) :=
  let pCtx := apply_options opts in
  match buildClient (pc_kubeconfig pCtx) with
  | Some e => Ret (inr ("failed to build client: " +:+ e))
  | None =>
      let! l := trigger (ListObjects kind_WorkerJoinToken None None) in
      match l with
      | inr e => Ret (inr ("failed to list worker join tokens: " +:+ err_text e))
      | inl items => Ret (inl (sort_by_name items))
      end
  end.
End commands.
End JoinTokens.

(** ** Deleting a control plane is safe *)

(** What may be deleted: the object is labelled as managed by heir, and not annotated with the
    deletion protection. *)
Definition removable (m : ObjectMeta) : Prop :=
  mget (om_labels m) "app.kubernetes.io/managed-by" = Some "heir" ∧
  mget (om_annotations m) "controlplane.tardigrade.runtime.io/deletion-protection" ≠ Some "true".

Lemma removable_checked m :
  removable m ↔ ControlPlane.isManaged (om_labels m) = true ∧ ControlPlane.isProtected (om_annotations m) = false.
Proof.
  unfold ControlPlane.isManaged, ControlPlane.isProtected, removable.
  rewrite bool_decide_eq_true, bool_decide_eq_false.
  unfold ControlPlane.labelManagedBy, ControlPlane.annotationDeletionProtection.
  destruct (mget (om_labels m) _), (mget (om_annotations m) _); simpl; naive_solver.
Qed.

(** The calls of the command that fail: reading an object with another error than that there
    is none, and deleting one with any error. *)
Definition call_failed : ∀ R, op R → R → Prop := λ R o,
  match o in op R return R → Prop with
  | Get _ _ => λ r, match r with inl _ | inr NotFound => False | inr _ => True end
  | Delete _ _ => λ r, r ≠ None
  | _ => λ _, False
  end.

(** Nothing of this name that may be deleted is left: what is there is not
    managed, or protected, or on its way out. *)
Definition settled {O} (K : Kind O) (n : NamespacedName) (s : cluster) : Prop :=
  ∀ o, kmap s !! n = Some o → removable (kmeta o) → om_deletion (kmeta o) ≠ None.

(** Others may delete the object meanwhile, but not create it, relabel it or take
    back its deletion. *)
Definition not_remade {O} (K : Kind O) (n : NamespacedName) (s s' : cluster) : Prop :=
  ∀ o', kmap s' !! n = Some o' → ∃ o, kmap s !! n = Some o ∧
    (removable (kmeta o) ↔ removable (kmeta o')) ∧
    (om_deletion (kmeta o) ≠ None → om_deletion (kmeta o') ≠ None).

(** The command: the only writes are deletions of the four objects, and only when
    they may be deleted. *)
Definition deleting (n : NamespacedName) : env := {|
  rely := λ s s', not_remade kind_Deployment n s s' ∧ not_remade kind_Service n s s' ∧
    not_remade kind_ConfigMap n s s' ∧ not_remade kind_Secret n s s';
  allowed := λ w s,
    (w = WDelete kind_Deployment n ∧ ∀ o, c_deployments s !! n = Some o → removable (dep_meta o)) ∨
    (w = WDelete kind_Service n ∧ ∀ o, c_services s !! n = Some o → removable (svc_meta o)) ∨
    (w = WDelete kind_ConfigMap n ∧ ∀ o, c_configMaps s !! n = Some o → removable (cm_meta o)) ∨
    (w = WDelete kind_Secret n ∧ ∀ o, c_secrets s !! n = Some o → removable (sec_meta o));
  may_panic := False |}.

Section delete.
Context `{X : X509} (n : NamespacedName).

Lemma settled_stable {O} (K : Kind O) s s' : not_remade K n s s' → settled K n s → settled K n s'.
Proof. intros Hr Hs o' Ho' Hm. destruct (Hr o' Ho') as (o & Ho & Hrm & Hd). apply Hd. apply (Hs o); [done|]. by apply Hrm. Qed.

Lemma removable_stable {O} (K : Kind O) s s' :
  not_remade K n s s' → (∀ o, kmap s !! n = Some o → removable (kmeta o)) →
  ∀ o, kmap s' !! n = Some o → removable (kmeta o).
Proof. intros Hr Hs o' Ho'. destruct (Hr o' Ho') as (o & Ho & Hrm & _). apply Hrm. by apply Hs. Qed.

Lemma wp_delete_managed {O} (K : Kind O) got what (Rest : cluster → Prop) s :
  (∀ s s', rely (deleting n) s s' → not_remade K n s s') →
  (∀ s s', rely (deleting n) s s' → Rest s → Rest s') →
  (∀ s m, Rest s → Rest (kset m s)) →
  (∀ s, (∀ o, kmap s !! n = Some o → removable (kmeta o)) → allowed (deleting n) (WDelete K n) s) →
  Rest s →
  wp (api_spec (deleting n)) (ControlPlane.delete_managed K got what (nn_name n) (nn_namespace n)) s
    (λ r s', r = None → Rest s' ∧ settled K n s').
Proof using Type.
  intros HK HR HS HA Hs. unfold ControlPlane.delete_managed. destruct n as [ns name] eqn:En. cbn [nn_name nn_namespace].
  rewrite <-En in *.
  apply (wp_get (deleting n) Rest HR); [done|by intros|..].
  { intros s1 Hs1 Hn _. split; [done|]. intros o. by rewrite Hn. }
  intros s1 o Hs1 Ho. cbv beta iota.
  destruct (ControlPlane.isManaged (om_labels (kmeta o))) eqn:Em; cbn [negb].
  2:{ intros _. split; [done|]. intros o1 Ho1 [Hm _]%removable_checked. congruence. }
  destruct (ControlPlane.isProtected (om_annotations (kmeta o))) eqn:Ep.
  { intros _. split; [done|]. intros o1 Ho1 [_ Hp]%removable_checked. congruence. }
  assert (removable (kmeta o)) as Hrem by (by apply removable_checked).
  set (Inv := λ s, Rest s ∧ ∀ o, kmap s !! n = Some o → removable (kmeta o)).
  assert (∀ s s', rely (deleting n) s s' → Inv s → Inv s') as HI.
  { intros s2 s3 Hr [H1 H2]. split; [by eapply HR|]. eapply removable_stable; [by apply HK|done]. }
  assert (Inv s1) as Hs2 by (split; [done|intros o1 Ho1; by simplify_eq]).
  apply (wp_delete (deleting n) Inv HI); [done|by intros s2 [_ H]; apply HA|done..| |].
  - intros s2 o2 [H1 _] _ _ _. split; [by apply HS|]. intros o3. unfold kdel. rewrite kmap_kset.
    by rewrite lookup_delete_eq.
  - intros s2 o2 o3 [H1 _] _ Hd Hk _. split; [by apply HS|]. intros o4. unfold kput. rewrite kmap_kset, Hk.
    rewrite lookup_insert_eq. by intros [= <-].
Qed.

Lemma wp_and_then (p q : prog op (option string)) s (P : cluster → Prop) (Q : option string → cluster → Prop) :
  wp (api_spec (deleting n)) p s (λ r s', r = None → P s') →
  (∀ s' e, Q (Some e) s') →
  (∀ s', P s' → wp (api_spec (deleting n)) q s' Q) →
  wp (api_spec (deleting n)) (and_then p q) s Q.
Proof using Type.
  intros Hp He Hq. eapply (wp_seq _ p); [exact Hp|]. intros [e|] s' H; [by apply He|]. by apply Hq, H.
Qed.
End delete.

(** A failing call ends the command with an error, and nothing else does. *)
Lemma delete_managed_reports {O} (K : Kind O) got what name ns :
  reports call_failed (ControlPlane.delete_managed K got what name ns) (λ r, r ≠ None).
Proof.
  intros [o|[]]; (split; [by intros H|]); simpl; try done.
  destruct (negb _); [done|]. destruct (ControlPlane.isProtected _); [done|].
  intros [e|]; by split.
Qed.

Lemma delete_managed_succeeds {O} (K : Kind O) got what name ns :
  answers (λ R o r, ¬ call_failed R o r) (ControlPlane.delete_managed K got what name ns) (λ r, r = None).
Proof.
  intros [o|[]] Hr; simpl; [|done|by destruct Hr..]. destruct (negb _); [done|].
  destruct (ControlPlane.isProtected _); [done|]. intros [e|] Hd; [|done]. by destruct Hd.
Qed.

Lemma and_then_reports (p q : prog op (option string)) :
  reports call_failed p (λ r, r ≠ None) → reports call_failed q (λ r, r ≠ None) →
  reports call_failed (and_then p q) (λ r, r ≠ None).
Proof.
  intros Hp Hq. eapply reports_bind; [exact Hp| |].
  - by intros [e|] He; [|done].
  - by intros [e|].
Qed.

Lemma and_then_succeeds ok (p q : prog op (option string)) :
  answers ok p (λ r, r = None) → answers ok q (λ r, r = None) → answers ok (and_then p q) (λ r, r = None).
Proof. intros Hp Hq. apply answers_bind. eapply answers_mono; [|exact Hp]. by intros ? ->. Qed.

Lemma Delete_reports buildClient opts :
  reports call_failed (ControlPlane.Delete buildClient opts) (λ r, r ≠ None).
Proof.
  unfold ControlPlane.Delete. destruct (buildClient _); [done|].
  repeat apply and_then_reports; apply delete_managed_reports.
Qed.

Lemma Delete_succeeds buildClient opts :
  buildClient (ControlPlane.pc_kubeconfig (ControlPlane.apply_options opts)) = None →
  answers (λ R o r, ¬ call_failed R o r) (ControlPlane.Delete buildClient opts) (λ r, r = None).
Proof.
  intros Hc. unfold ControlPlane.Delete. rewrite Hc.
  repeat apply and_then_succeeds; apply delete_managed_succeeds.
Qed.

Lemma Delete_no_client buildClient opts :
  buildClient (ControlPlane.pc_kubeconfig (ControlPlane.apply_options opts)) ≠ None →
  ∃ e, ControlPlane.Delete buildClient opts = Ret (Some e).
Proof. intros Hc. unfold ControlPlane.Delete. destruct (buildClient _); [by eexists|done]. Qed.

(** C26.  Deleting a control plane: as long as others do not create or relabel
    objects of its name meanwhile, the command deletes only the Deployment, the
    Service, the ConfigMap and the Secret of that name, each only when it carries the label
    app.kubernetes.io/managed-by=heir and not the annotation that protects it against
    deletion; when it reports success, none of the four that may be deleted is left.
    When a call fails (a read with another error than that there is no such object, any
    failed deletion), or no client can be built, it reports an error, and otherwise it reports
    none. *)
Theorem Delete_safe `{X : X509} buildClient opts s :
  let pCtx := ControlPlane.apply_options opts in
  let n := NN (ControlPlane.pc_namespace pCtx) (ControlPlane.pc_name pCtx) in
  wp (api_spec (deleting n)) (ControlPlane.Delete buildClient opts) s
    (λ r s', r = None →
       settled kind_Deployment n s' ∧ settled kind_Service n s' ∧
       settled kind_ConfigMap n s' ∧ settled kind_Secret n s') ∧
  reports call_failed (ControlPlane.Delete buildClient opts) (λ r, r ≠ None) ∧
  (buildClient (ControlPlane.pc_kubeconfig pCtx) = None →
   answers (λ R o r, ¬ call_failed R o r) (ControlPlane.Delete buildClient opts) (λ r, r = None)) ∧
  (buildClient (ControlPlane.pc_kubeconfig pCtx) ≠ None →
   ∃ e, ControlPlane.Delete buildClient opts = Ret (Some e)).
Proof.
  intros pCtx n. split; [|split; [apply Delete_reports|split; [apply Delete_succeeds|apply Delete_no_client]]].
  unfold ControlPlane.Delete. fold pCtx. destruct (buildClient _); [done|].
  eapply (wp_and_then n _ _ _ (settled kind_Deployment n)); [|done|].
  { eapply (wp_mono (api_spec (deleting n))); [apply (wp_delete_managed n kind_Deployment _ _ (λ _, True)); try done|by intros r s' H [_ ?]%H].
    - by intros s1 s2 (? & _).
    - intros s1 H. by left. }
  intros s1 H1. eapply (wp_and_then n _ _ _ (λ s, settled kind_Deployment n s ∧ settled kind_Service n s)); [|done|].
  { apply (wp_delete_managed n kind_Service); try done.
    - by intros s2 s3 (_ & ? & _).
    - intros s2 s3 (? & _). by apply settled_stable.
    - intros s2 H. right. by left. }
  intros s2 H2.
  eapply (wp_and_then n _ _ _ (λ s, (settled kind_Deployment n s ∧ settled kind_Service n s) ∧ settled kind_ConfigMap n s));
    [|done|].
  { apply (wp_delete_managed n kind_ConfigMap); try done.
    - by intros s3 s4 (_ & _ & ? & _).
    - intros s3 s4 (? & ? & _) [? ?]. split; by eapply settled_stable.
    - intros s3 H. do 2 right. by left. }
  intros s3 H3. eapply (wp_mono (api_spec (deleting n))); [apply (wp_delete_managed n kind_Secret _ _
    (λ s, (settled kind_Deployment n s ∧ settled kind_Service n s) ∧ settled kind_ConfigMap n s)); try done|].
  - by intros s4 s5 (_ & _ & _ & ?).
  - intros s4 s5 (? & ? & ? & _) [[? ?] ?]. split_and!; by eapply settled_stable.
  - intros s4 H. by do 3 right.
  - intros r s4 H Hr. by destruct (H Hr) as [[[? ?] ?] ?].
Qed.

(** ** Creating a Runtime *)

Section provision.
Context `{Y : Yaml} `{P : Polling} `{L : !PollingLaws} `{M : Machinery} `{X : X509}.

(** The specification meant by the assignments: the zero value as a map, the
    assignments one after the other, and back. *)
Definition desired_spec (l : list (list string * value)) : option RuntimeSpec :=
  match marshal_spec zero_spec with
  | inr _ => None
  | inl raw =>
      match unmarshal_map raw with
      | inr _ => None
      | inl obj =>
          match assign_all obj l with
          | (Some _, _) => None
          | (None, obj') =>
              match marshal_map obj' with
              | inr _ => None
              | inl merged => match unmarshal_spec merged zero_spec with inl spec => Some spec | inr _ => None end
              end
          end
      end
  end.

Lemma assign_all_app m l1 l2 :
  assign_all m (l1 ++ l2) =
    match assign_all m l1 with (None, m') => assign_all m' l2 | (Some e, m') => (Some e, m') end.
Proof using Type.
  revert m. induction l1 as [|[path v] l1 IH]; intros m; [done|]. cbn [app assign_all].
  destruct (assign m path v); [apply IH|done].
Qed.

Lemma parse_all_print ls obj :
  Forall (Forall writable) ls →
  ∃ e, ControlPlane.parse_all (text <$> ls) obj =
    Some (match assign_all obj (meaning false <$> concat ls) with
          | (None, obj') => inl obj'
          | (Some _, _) => inr e
          end).
Proof using Type.
  intros Hw. revert obj. induction Hw as [|l ls Hl _ IH]; intros obj; [by exists ""|].
  cbn [fmap list_fmap ControlPlane.parse_all concat]. unfold ParseInto. rewrite parse_print by done.
  change (list_fmap _ _ (meaning false) (l ++ concat ls)) with (meaning false <$> (l ++ concat ls)).
  rewrite fmap_app, assign_all_app.
  destruct (assign_all obj (meaning false <$> l)) as [[e|] obj']; [by eexists|]. apply IH.
Qed.

Lemma applySetValues_desired ls :
  ls ≠ [] → Forall (Forall writable) ls →
  ∃ e, ControlPlane.applySetValues zero_spec (text <$> ls) =
    Some (match desired_spec (meaning false <$> concat ls) with Some spec => inl spec | None => inr e end).
Proof using Type.
  intros Hne Hw. unfold ControlPlane.applySetValues, desired_spec.
  destruct (text <$> ls) as [|a l] eqn:El; [by apply fmap_nil_inv in El|]. rewrite <-El. clear El.
  destruct (marshal_spec zero_spec) as [raw|]; [|by eexists].
  destruct (unmarshal_map raw) as [obj|]; [|by eexists].
  destruct (parse_all_print ls obj Hw) as [e ->].
  destruct (assign_all obj _) as [[err|] obj']; [by eexists|].
  destruct (marshal_map obj') as [merged|]; [|by eexists].
  destruct (unmarshal_spec merged zero_spec) as [spec|err]; by eexists.
Qed.

(** Success of a wait: at the last look the condition was true. *)
Lemma wp_wait_condition {O} {K : Kind O} e n conditions t timeout s :
  wp (api_spec e) (wait_condition (O := O) n conditions t timeout) s
    (λ r s', r = PollDone → ∃ o, kmap s' !! n = Some o ∧ IsStatusConditionTrue (conditions o) t = true).
Proof using L.
  unfold wait_condition. apply (wp_poll (api_spec e) timeout _ (λ _, True)); [done| |done].
  intros s0 _. apply (wp_get e (λ _, True)); try done. intros s1 o _ Ho. simpl.
  destruct (IsStatusConditionTrue (conditions o) t) eqn:E; [|done]. by exists o.
Qed.
End provision.

(** C27.  Provisioning a control plane with assignments on the command line: when
    the keys and values are written with their special characters escaped, the
    command ends, and whatever the cluster does meanwhile its only write is the
    creation of the Runtime of the given name and namespace whose specification is
    the zero value with the assignments made in their order; if one of them is not
    possible nothing is written and an error is reported; and a successful command
    that waits ends with the Runtime seen as Available. *)
Theorem Provision_correct `{Y : Yaml} `{P : Polling} `{L : !PollingLaws} `{M : Machinery} `{X : X509}
    buildClient opts ls :
  let pCtx := ControlPlane.apply_options opts in
  let desired := desired_spec (meaning false <$> concat ls) in
  ControlPlane.pc_set pCtx = text <$> ls → ls ≠ [] → Forall (Forall writable) ls →
  ∃ p, ControlPlane.Provision buildClient opts = Some p ∧
    ∀ rely_ s,
      wp (api_spec {| rely := rely_;
                      allowed := λ w _, ∃ spec, desired = Some spec ∧
                        w = WCreate kind_Runtime (ControlPlane.new_runtime pCtx spec);
                      may_panic := False |}) p s
        (λ r s', r = None → is_Some desired ∧
           (ControlPlane.pc_wait pCtx = true →
            ∃ rt, c_runtimes s' !! NN (ControlPlane.pc_namespace pCtx) (ControlPlane.pc_name pCtx) = Some rt ∧
              IsStatusConditionTrue (rst_conditions (rt_status rt)) "Available" = true)).
Proof.
  intros pCtx desired Hset Hne Hw. unfold ControlPlane.Provision. fold pCtx. rewrite Hset.
  destruct (buildClient _); [by eexists|].
  destruct (applySetValues_desired ls Hne Hw) as [err ->]. fold desired.
  destruct desired as [spec|]; [|by eexists].
  eexists. split; [done|]. intros rely_ s. set (e := {| rely := rely_ |}).
  apply (wp_create e (λ _, True)); try done; [intros; by exists spec|].
  intros s1 rt _ Hn Ha. cbv beta iota. destruct (ControlPlane.pc_wait pCtx); [|by split; eauto].
  unfold ControlPlane.waitAvailable. eapply (wp_seq _ (wait_condition _ _ _ _)); [apply (wp_wait_condition e)|].
  intros [] s2 Hw2; [|done..]. intros _. split; [by eexists|]. intros _.
  destruct Ha as [(Hname & Hns & _) _]. destruct (Hw2 eq_refl) as (o & Ho & Hc). exists o. split; [|done].
  unfold meta_key in Ho. by rewrite Hname, Hns in Ho.
Qed.

(** A codec that knows the image of the control plane. *)
Definition with_image (spec : RuntimeSpec) (image : string) : RuntimeSpec :=
  let cp := rts_controlPlane spec in
  {| rts_controlPlane := {| cp_heirImage := image; cp_clusterAgentImage := cp_clusterAgentImage cp;
       cp_deployment := cp_deployment cp; cp_service := cp_service cp; cp_planeTunnel := cp_planeTunnel cp |};
     rts_cluster := rts_cluster spec |}.

Definition ref_yaml : Yaml := {|
  zero_spec := rt_spec example_runtime;
  marshal_spec := λ spec, inl (cp_heirImage (rts_controlPlane spec));
  unmarshal_map := λ raw, inl {[ "controlPlane" := VMap {[ "heirImage" := VString raw ]} ]};
  marshal_map := λ obj,
    match obj !! "controlPlane" with
    | Some (VMap cp) => match cp !! "heirImage" with Some (VString image) => inl image | _ => inr "type" end
    | _ => inr "type"
    end;
  unmarshal_spec := λ raw spec, inl (with_image spec raw) |}.

Definition example_options (set : list string) : list ControlPlane.Option :=
  [ControlPlane.WithName "demo"; ControlPlane.WithNamespace "default"; ControlPlane.WithSet set].

Definition example_set : list (list assignment) := [[([rs "controlPlane"; rs "heirImage"], rs "heir:2")]].

Lemma Provision_correct_witness :
  let desired := desired_spec (Y := ref_yaml) (meaning false <$> concat example_set) in
  let pCtx := ControlPlane.apply_options (example_options ["controlPlane.heirImage=heir:2"]) in
  desired = Some (with_image (rt_spec example_runtime) "heir:2") ∧
  ∃ p, ControlPlane.Provision (Y := ref_yaml) (P := ref_polling) (M := ref_machinery) (λ _, None)
         (example_options ["controlPlane.heirImage=heir:2"]) = Some p ∧
    wp (api_spec (X := ref_x509) {| rely := eq;
          allowed := λ w _, ∃ spec, desired = Some spec ∧
            w = WCreate kind_Runtime (ControlPlane.new_runtime pCtx spec);
          may_panic := False |}) p empty_cluster (λ r s', r = None → is_Some desired).
Proof.
  intros desired pCtx. split; [vm_compute; reflexivity|].
  destruct (@Provision_correct ref_yaml ref_polling ref_polling_laws ref_machinery ref_x509 (λ _, None)
    (example_options ["controlPlane.heirImage=heir:2"]) example_set) as (p & Hp & Hwp).
  - vm_compute. reflexivity.
  - done.
  - repeat constructor; try done; simpl; unfold MaxNestedNameLevel; lia.
  - exists p. split; [exact Hp|].
    eapply (wp_mono (api_spec (X := ref_x509) _) p); [exact (Hwp eq empty_cluster)|]. by intros r s' H [? _]%H.
Defined.

(** ** The token reaches the worker *)

(** What the command prints for a published token decodes to the kubeconfig of the
    token that the controller minted. *)
Lemma wp_FetchSecret `{M : Machinery} `{X : X509} `{H : Hashing} `{C : Codec} CA rt opts name t expiresAt s :
  JoinTokens.pc_name (JoinTokens.apply_options opts) = name →
  published CA rt s (NN "" name) t expiresAt →
  wp (api_spec calm) (JoinTokens.FetchSecret (λ _, None) opts) s
    (λ r s', s' = s ∧ match r with
       | inl out => ∃ kc, DecodeString out = Some kc ∧
           WriteKubeconfig (bootstrap_kubeconfig t CA
             (endpoint_url (cpe_apiServer (cl_endpoint (rt_cluster rt))))) = Some kc
       | inr e => ∃ m, e = "failed to get worker join token secret kube-system/" +:+ name +:+ "-jointoken: " +:+ m
       end).
Proof.
  intros Hname (jt & sec & kc & _ & _ & _ & _ & Hsec & Hkc & _ & Hw).
  unfold JoinTokens.FetchSecret. rewrite Hname.
  unfold join_secret_name in Hsec. cbn in Hsec.
  apply (wp_get calm (λ s', s' = s) (calm_rely s)); [done| | |].
  - intros s1 m ->. split; [done|]. exists (err_text (OtherError m)). by rewrite string_app_assoc.
  - intros s1 -> Hn. cbn in Hn. rewrite Hsec in Hn. done.
  - intros s1 o -> Ho. cbn in Ho. rewrite Hsec in Ho. injection Ho as <-. rewrite Hkc.
    split; [done|]. exists kc. split; [apply DecodeString_base64|done].
Qed.

(** ** A deleted control plane comes back

    The command does not delete the Runtime, and the controller watches what it
    owns: the next reconciliation makes the four objects again. *)
Definition example_delete : prog op (option string) :=
  ControlPlane.Delete (λ _, None) [ControlPlane.WithName "demo"; ControlPlane.WithNamespace "default"].

(** The objects of the example after a reconciliation, the Secret protected and the Service
    not labelled as heir's. *)
Definition example_protected : cluster :=
  match run mem example_Reconcile (example_cluster ∅ ∅) with
  | Some (_, s) =>
      match c_secrets s !! example_key, c_services s !! example_key with
      | Some sec, Some svc =>
          let annotated m a l := {| om_name := om_name m; om_namespace := om_namespace m; om_uid := om_uid m;
            om_generation := om_generation m; om_labels := l; om_annotations := a;
            om_owners := om_owners m; om_finalizers := om_finalizers m; om_deletion := om_deletion m |} in
          kput {| sec_meta := annotated (sec_meta sec)
                    (Some {[ "controlplane.tardigrade.runtime.io/deletion-protection" := "true" ]}) (om_labels (sec_meta sec));
                  sec_type := sec_type sec; sec_data := sec_data sec; sec_stringData := sec_stringData sec |}
            (kput {| svc_meta := annotated (svc_meta svc) (om_annotations (svc_meta svc)) None; svc_spec := svc_spec svc |} s)
      | _, _ => s
      end
  | None => empty_cluster
  end.

(** The Deployment and the ConfigMap are deleted, the two others are kept. *)
Lemma Delete_safe_witness :
  ∃ s', run mem example_delete example_protected = Some (None, s') ∧
    c_deployments s' !! example_key = None ∧ c_configMaps s' !! example_key = None ∧
    is_Some (c_secrets s' !! example_key) ∧ is_Some (c_services s' !! example_key) ∧
    settled kind_Deployment example_key s' ∧ settled kind_Secret example_key s'.
Proof.
  destruct (Delete_safe (X := ref_x509) (λ _, None)
    [ControlPlane.WithName "demo"; ControlPlane.WithNamespace "default"] example_protected) as [Hwp _].
  apply mem_run in Hwp;
    [|by intros s; split_and!; intros o Ho; exists o; split_and!].
  assert (match run mem example_delete example_protected with
          | Some (None, s') =>
              match c_deployments s' !! example_key, c_configMaps s' !! example_key,
                    c_secrets s' !! example_key, c_services s' !! example_key with
              | None, None, Some _, Some _ => true | _, _, _, _ => false end
          | _ => false end = true) as E by (vm_compute; reflexivity).
  fold example_delete in Hwp.
  destruct (run mem example_delete example_protected) as [[[e|] s']|]; [discriminate E| |discriminate E].
  exists s'. split; [reflexivity|]. destruct (Hwp eq_refl) as (H1 & _ & _ & H2).
  destruct (c_deployments s' !! example_key); [discriminate E|].
  destruct (c_configMaps s' !! example_key); [discriminate E|].
  destruct (c_secrets s' !! example_key); [|discriminate E].
  destruct (c_services s' !! example_key); [|discriminate E].
  split_and!; [reflexivity|reflexivity|by eexists|by eexists|exact H1|exact H2].
Defined.

Definition holds {A} (m : gmap NamespacedName A) (n : NamespacedName) : bool :=
  match m !! n with Some _ => true | None => false end.

(** The error of the command, and whether the Runtime, the Deployment and the PKI
    Secret are there after it and after the next reconciliation. *)
Definition delete_and_reconcile (s : cluster) : option (option string * list bool * list bool) :=
  let left s := [holds (c_runtimes s) example_key; holds (c_deployments s) example_key;
                 holds (c_secrets s) example_key] in
  match run mem example_delete s with
  | Some (r, s1) =>
      match run mem example_Reconcile s1 with
      | Some (_, s2) => Some (r, left s1, left s2)
      | None => None
      end
  | None => None
  end.

Example deleted_control_plane_returns :
  match run mem example_Reconcile (example_cluster ∅ ∅) with
  | Some (_, s) => delete_and_reconcile s
  | None => None
  end = Some (None, [true; false; false], [true; true; true]).
Proof. vm_compute. reflexivity. Qed.
