(* ===== verification/Procmgr.v ===== *)
(** * Process supervision

    src/pkg/provision/worker/procmgr/manager_linux.go: a component is a process that
    is started again when it ends, a limited number of times, until it is torn down.

    The goroutine of [Run] (a loop of [runOnce] under retry.Do), the caller of
    [Teardown], the cancellation of the context and the operating system are
    interleaved: [step] says what each of them may do next, one access of the shared
    fields [proc] and [stopping] at a time.  What the operating system answers is
    chosen by the step.  The delay between two attempts is where the loop is
    [Between]. *)

From S2P Require Import Prelude.
From stdpp Require Import options.

(** ** The component *)

Record Component := {
  Name : string;
  BinPath : string;
  Args : list string;
  Env : list string;
  EnvInherit : bool;
  EnvPrefix : string;
  (** An [int] converted to [uint]: not negative where the program sets it. *)
  MaxRetries : nat;
  (** In seconds. *)
  InitialBackoff : Z;
  MaxBackoff : Z;
  StopTimeout : Z;
}.

(** [buildEnv] on the environment of the parent. *)
Definition buildEnv (c : Component) (environ : list string) : list string :=
  (if EnvInherit c
   then filter (λ e, EnvPrefix c = "" ∨ HasPrefix e (EnvPrefix c) = true) environ else []) ++ Env c.

Definition teardown_timeout (c : Component) : Z :=
  if bool_decide (StopTimeout c = 0%Z) then 10 else StopTimeout c.

(** ** The state *)

(** A process, by the number of its start. *)
Abbreviation pid := nat.

(** Where the loop is; the number of attempts that are left includes the current
    one. *)
Inductive phase :=
| Between (left : nat)
(** [cmd.Start] succeeded, [proc] is not yet set. *)
| Started (left : nat) (p : pid)
(** In [cmd.Wait]. *)
| Waiting (left : nat) (p : pid)
| Finished.

(** The call of [Teardown]. *)
Inductive teardown :=
| NotCalled
(** SIGTERM was sent, waiting for the end. *)
| Stopping (p : pid)
| Returned.

Record state := {
  loop : phase;
  (** [c.proc] and [c.stopping]. *)
  proc : option pid;
  stopping : bool;
  tear : teardown;
  (** The context of [Run] was cancelled. *)
  cancelled : bool;
  (** The process that is running. *)
  alive : option pid;
  (** How many processes were started. *)
  starts : nat;
}.

Definition initial (c : Component) : state := {|
  loop := Between (S (MaxRetries c)); proc := None; stopping := false; tear := NotCalled;
  cancelled := false; alive := None; starts := 0 |}.

(** [proc.Signal] fails when the process has been waited for. *)
Definition waited_for (st : state) (p : pid) : bool :=
  match loop st with
  | Started _ q | Waiting _ q => negb (bool_decide (p = q))
  | _ => true
  end.

(** A failed attempt: retry.Do goes on while there are attempts. *)
Definition failed_attempt (left : nat) : phase :=
  match left with
  | 0 | 1 => Finished
  | S n => Between n
  end.

Inductive event :=
(** [cmd.Start] succeeds or not. *)
| StartOk | StartFails
(** [c.proc = cmd.Process]. *)
| SetProc
(** The process ends, by itself or by a signal. *)
| Exit
(** [cmd.Wait] returns and [c.stopping] is read. *)
| WaitReturns
(** retry.Do sees the cancelled context between two attempts. *)
| GiveUp
| Cancel
(** [Teardown] sets [stopping], reads [proc] and sends SIGTERM. *)
| TeardownCall
(** A probe finds that the process is gone. *)
| TeardownGone
(** The deadline, or the end of the context of [Teardown]: SIGKILL. *)
| TeardownKill.

Definition with_loop (st : state) (ph : phase) : state := {|
  loop := ph; proc := proc st; stopping := stopping st; tear := tear st;
  cancelled := cancelled st; alive := alive st; starts := starts st |}.

Definition with_tear (st : state) (t : teardown) : state := {|
  loop := loop st; proc := proc st; stopping := stopping st; tear := t;
  cancelled := cancelled st; alive := alive st; starts := starts st |}.

Definition with_alive (st : state) (a : option pid) : state := {|
  loop := loop st; proc := proc st; stopping := stopping st; tear := tear st;
  cancelled := cancelled st; alive := a; starts := starts st |}.

(** One attempt: [runOnce]. *)
Definition run_step (st : state) (e : event) : option state :=
  match e, loop st with
  | StartOk, Between (S n) =>
      (* [exec.CommandContext]: no process is started in a cancelled context *)
      if cancelled st then None
      else Some {| loop := Started (S n) (starts st); proc := proc st; stopping := stopping st;
                   tear := tear st; cancelled := cancelled st; alive := Some (starts st);
                   starts := S (starts st) |}
  | StartFails, Between (S n) => Some (with_loop st (failed_attempt (S n)))
  | SetProc, Started n p =>
      Some {| loop := Waiting n p; proc := Some p; stopping := stopping st; tear := tear st;
              cancelled := cancelled st; alive := alive st; starts := starts st |}
  | WaitReturns, Waiting n p =>
      if bool_decide (alive st = None) then
        (* an intentional stop is not retried *)
        Some (with_loop st (if stopping st then Finished else failed_attempt n))
      else None
  | GiveUp, Between _ => if cancelled st then Some (with_loop st Finished) else None
  | _, _ => None
  end.

(** The call of [Teardown]. *)
Definition teardown_step (st : state) (e : event) : option state :=
  match e, tear st with
  | TeardownCall, NotCalled =>
      let st1 := {| loop := loop st; proc := proc st; stopping := true; tear := NotCalled;
                    cancelled := cancelled st; alive := alive st; starts := starts st |} in
      Some (match proc st with
            | None => with_tear st1 Returned
            | Some p => if waited_for st p then with_tear st1 Returned else with_tear st1 (Stopping p)
            end)
  | TeardownGone, Stopping p => if waited_for st p then Some (with_tear st Returned) else None
  | TeardownKill, Stopping p =>
      Some (with_tear (if bool_decide (alive st = Some p) then with_alive st None else st) Returned)
  | _, _ => None
  end.

Definition step (st : state) (e : event) : option state :=
  match e with
  | Exit => match alive st with Some _ => Some (with_alive st None) | None => None end
  | Cancel => Some {| loop := loop st; proc := proc st; stopping := stopping st; tear := tear st;
                      cancelled := true; alive := alive st; starts := starts st |}
  | TeardownCall | TeardownGone | TeardownKill => teardown_step st e
  | _ => run_step st e
  end.

Fixpoint steps (st : state) (es : list event) : option state :=
  match es with
  | [] => Some st
  | e :: es' => match step st e with Some st' => steps st' es' | None => None end
  end.

(** ** Invariant *)

(** The attempts that are left account for the processes that may still be started;
    only the process of the current attempt runs. *)
Definition inv (c : Component) (st : state) : Prop :=
  match loop st with
  | Between n => 1 ≤ n ∧ starts st + n ≤ S (MaxRetries c) ∧ alive st = None
  | Started n p | Waiting n p =>
      1 ≤ n ∧ starts st + n ≤ S (S (MaxRetries c)) ∧ starts st = S p ∧ (alive st = None ∨ alive st = Some p)
  | Finished => starts st ≤ S (MaxRetries c) ∧ alive st = None
  end.

(** Case analysis of a step. *)
Ltac step_cases H :=
  unfold step, run_step, teardown_step, waited_for, failed_attempt in H;
  repeat match type of H with
    | context [match ?x with _ => _ end] => destruct x eqn:?; try discriminate H
    end;
  simplify_eq; cbn in *.

Lemma inv_initial c : inv c (initial c).
Proof. cbn. split_and!; [lia|lia|done]. Qed.

Lemma inv_step c st e st' : inv c st → step st e = Some st' → inv c st'.
Proof.
  intros Hi H. unfold inv in *. destruct st as [ph pr sg te ca al ns]. cbn in *.
  destruct e; step_cases H; repeat case_match; simplify_eq; cbn in *;
    repeat case_bool_decide; simplify_eq; naive_solver lia.
Qed.

Lemma inv_steps c st es st' : inv c st → steps st es = Some st' → inv c st'.
Proof.
  revert st. induction es as [|e es IH]; intros st Hi H; cbn [steps] in H; [by simplify_eq|].
  destruct (step st e) as [st1|] eqn:E; [|done]. eapply IH; [by eapply inv_step|done].
Qed.

(** ** Termination *)

Definition phase_weight (ph : phase) : nat :=
  match ph with
  | Between n => 5 * n
  | Started n _ => 5 * n - 2
  | Waiting n _ => 5 * n - 3
  | Finished => 0
  end.

Definition weight (st : state) : nat :=
  phase_weight (loop st) + (if alive st is Some _ then 1 else 0) +
  match tear st with NotCalled => 2 | Stopping _ => 1 | Returned => 0 end.

Lemma step_weight c st e st' :
  inv c st → step st e = Some st' → e ≠ Cancel → weight st' < weight st.
Proof.
  intros Hi H He. unfold inv, weight in *. destruct st as [ph pr sg te ca al ns]. cbn in *.
  destruct e; step_cases H; repeat case_match; simplify_eq; cbn in *;
    repeat case_bool_decide; simplify_eq; naive_solver lia.
Qed.

Lemma cancel_weight st st' : step st Cancel = Some st' → weight st' = weight st.
Proof. intros [= <-]. done. Qed.

#[export] Instance event_eq_dec : EqDecision event.
Proof. solve_decision. Defined.

Lemma steps_weight c st es st' :
  inv c st → steps st es = Some st' → length (filter (λ e, e ≠ Cancel) es) + weight st' ≤ weight st.
Proof.
  revert st. induction es as [|e es IH]; intros st Hi H; cbn [steps] in H; [simplify_eq; cbn; lia|].
  destruct (step st e) as [st1|] eqn:E; [|done].
  pose proof (IH st1 (inv_step _ _ _ _ Hi E) H) as Hl. rewrite filter_cons.
  case_decide as He; cbn [length].
  - pose proof (step_weight _ _ _ _ Hi E He). lia.
  - subst e. apply cancel_weight in E. lia.
Qed.

(** Supervision is bounded: in every interleaving of the loop, the operating
    system, cancellations and a teardown, at most [MaxRetries + 1] processes are
    started, never two of them run at the same time, and after a bounded number of
    steps (cancelling again and again apart) nothing happens any more. *)
Theorem supervision_bounded c es st :
  steps (initial c) es = Some st →
  starts st ≤ S (MaxRetries c) ∧
  (∀ p, alive st = Some p → S p = starts st) ∧
  length (filter (λ e, e ≠ Cancel) es) ≤ 5 * S (MaxRetries c) + 2.
Proof.
  intros H. pose proof (inv_steps c _ _ _ (inv_initial c) H) as Hi.
  pose proof (steps_weight c _ _ _ (inv_initial c) H) as Hw.
  unfold weight in Hw at 2. cbn [initial loop alive tear phase_weight] in Hw.
  unfold inv in Hi. split_and!; [| |lia]; destruct (loop st); naive_solver lia.
Qed.

(** ** After a teardown *)

(** Whether one more process may be started once the component is being stopped. *)
Definition one_more (st : state) : nat :=
  if cancelled st then 0 else match loop st with Between _ => 1 | _ => 0 end.

Lemma stop_step st e st' :
  step st e = Some st' →
  (stopping st = true → stopping st' = true ∧ starts st' + one_more st' ≤ starts st + one_more st) ∧
  (cancelled st = true → cancelled st' = true ∧ starts st' = starts st) ∧
  starts st ≤ starts st'.
Proof.
  intros H. unfold one_more. destruct st as [ph pr sg te ca al ns]. cbn in *.
  destruct e; step_cases H; repeat case_match; simplify_eq; cbn in *;
    repeat case_bool_decide; simplify_eq; naive_solver lia.
Qed.

Lemma stop_steps st es st' :
  steps st es = Some st' →
  (stopping st = true → starts st' + one_more st' ≤ starts st + one_more st) ∧
  (cancelled st = true → starts st' = starts st) ∧ starts st ≤ starts st'.
Proof.
  revert st. induction es as [|e es IH]; intros st H; cbn [steps] in H; [simplify_eq; lia|].
  destruct (step st e) as [st1|] eqn:E; [|done]. apply stop_step in E as (Hs & Hc & Hl).
  apply IH in H as (IHs & IHc & IHl). split_and!; [| |lia].
  - intros [? ?]%Hs. assert (starts st' + one_more st' ≤ starts st1 + one_more st1) by auto. lia.
  - intros [? ?]%Hc. rewrite IHc; auto.
Qed.

(** Stopping is final: once the context of the loop is cancelled no process is
    started any more; once [Teardown] was called, none is started any more either,
    except for one when the call came between two attempts in a context that was
    not cancelled. *)
Theorem teardown_final st es st' :
  steps st es = Some st' →
  (cancelled st = true → starts st' = starts st) ∧
  (stopping st = true →
     starts st' ≤ S (starts st) ∧
     ((∀ n, loop st ≠ Between n) → starts st' = starts st)).
Proof.
  intros H. apply stop_steps in H as (Hs & Hc & Hl). split; [done|]. intros Hst.
  specialize (Hs Hst). unfold one_more in Hs at 2. split; [repeat case_match; lia|].
  intros Hb. destruct (cancelled st), (loop st); try lia. by destruct (Hb left).
Qed.

(** ** The teardown of the kubelet and of containerd

    They cancel the context of the process, then call [Teardown] of the component;
    between the two the process and its loop go on.  A component whose [Run] has not been
    called is left alone. *)
Definition component_cancel (component : option state) : option state :=
  match component with
  | None => None
  | Some st => step st Cancel
  end.

Definition component_Teardown (component : option state) : option (option state) :=
  match component with
  | None => Some None
  | Some st => Some <$> step st TeardownCall
  end.

(** With the context cancelled, nothing is started again, before and after the second call. *)
Lemma component_Teardown_stops st st1 es1 st2 st3 es2 st4 :
  component_cancel (Some st) = Some st1 → steps st1 es1 = Some st2 →
  component_Teardown (Some st2) = Some (Some st3) → steps st3 es2 = Some st4 → starts st4 = starts st.
Proof.
  intros [= <-] H1 H2 H3. cbn [component_Teardown] in H2.
  destruct (step st2 TeardownCall) as [st3'|] eqn:E; [|done]. injection H2 as ->.
  assert (steps {| loop := loop st; proc := proc st; stopping := stopping st; tear := tear st; cancelled := true;
                   alive := alive st; starts := starts st |} (es1 ++ TeardownCall :: es2) = Some st4) as H.
  { revert H1. generalize (Build_state (loop st) (proc st) (stopping st) (tear st) true (alive st) (starts st)).
    induction es1 as [|e es1 IH]; intros st0 H1; cbn [steps app] in *; [by simplify_eq; rewrite E|].
    destruct (step st0 e); [by apply IH|done]. }
  apply stop_steps in H as (_ & H & _). by apply H.
Qed.

(** ** Executions *)

Definition demo : Component := {|
  Name := "kubelet"; BinPath := "/bin/kubelet"; Args := []; Env := ["A=1"]; EnvInherit := true; EnvPrefix := "K";
  MaxRetries := 5; InitialBackoff := 1; MaxBackoff := 30; StopTimeout := 10 |}.

Definition crash_and_teardown : list event :=
  [StartOk; SetProc; Exit; WaitReturns; TeardownCall].

(** A teardown between two attempts returns at once, and the process is started
    again after it. *)
Example started_after_teardown :
  (λ st, (tear st, alive st)) <$> steps (initial demo) (crash_and_teardown ++ [StartOk; SetProc]) =
    Some (Returned, Some 1).
Proof. reflexivity. Qed.

Lemma supervision_bounded_witness :
  ∃ st, steps (initial demo) (crash_and_teardown ++ [StartOk; SetProc]) = Some st ∧ starts st ≤ 6.
Proof.
  eexists. split; [reflexivity|].
  eapply (supervision_bounded demo (crash_and_teardown ++ [StartOk; SetProc])). reflexivity.
Defined.

Lemma teardown_final_witness :
  ∃ st st', steps (initial demo) [StartOk; SetProc; TeardownCall] = Some st ∧
    steps st [Exit; WaitReturns; TeardownGone] = Some st' ∧ starts st' = starts st.
Proof.
  eexists _, _. split; [reflexivity|]. split; [reflexivity|].
  eapply (teardown_final _ [Exit; WaitReturns; TeardownGone]); [reflexivity|reflexivity|done].
Defined.

Example inherited_environment :
  buildEnv demo ["KUBE=x"; "PATH=/bin"] = ["KUBE=x"; "A=1"].
Proof. reflexivity. Qed.
