(* ===== verification/Bootstrap.v ===== *)
(** * Bootstrapping a worker

    src/pkg/provision/worker/bootstrap (tls_bootstrap.go and node_profile.go) and the
    node profile file of src/pkg/provision/worker/typ: from the token of the command
    line to the kubeconfig of the kubelet, and the profile of the node.

    The calls are those of Host.v.  Parameters: the JSON and kubeconfig codecs, the
    key and request functions of client-go, SHA-512/256, and retry.Do. *)

From S2P Require Import Prelude Base64 Effects Kube Api Pki World Host.
From stdpp Require Import options.

(** ** Libraries *)

(** The parts of a client configuration that are read. *)
Record RestConfig := { rc_caFile : string; rc_caData : string; rc_insecure : bool }.

(** The kubeconfig that is written for the kubelet. *)
Record NodeKubeconfig := {
  nk_server : string;
  nk_insecure : bool;
  nk_caFile : string;
  nk_caData : string;
  nk_clientCertificate : string;
  nk_clientKey : string;
  nk_namespace : string;
}.

Record Subject := { sj_organization : list string; sj_commonName : string }.

(** [NodeProfile] of typ/type.go. *)
Record NodeProfile := {
  np_kubeletConfiguration : string;
  np_kubeletExtraArgs : gomap string;
  np_endpoint : ControlPlaneExternalEndpointSpec;
  np_cniProvider : string;
}.

Class NodeLibraries := {
  (** Loading a kubeconfig and flattening it to its current context, and building
      a client from the result. *)
  client_config : string → RestConfig + string;
  new_client : RestConfig → option string;
  (** [clientcmd.Write]. *)
  write_config : NodeKubeconfig → string + string;
  (** [keyutil.ParsePrivateKeyPEM]: whether it is an RSA key, and the public key in
      PKIX form ([x509.MarshalPKIXPublicKey]). *)
  parse_key : string → option (bool * (string + string));
  (** [certutil.MakeCSR] with a key and a subject. *)
  MakeCSR : string → Subject → string + string;
  sha512_256 : string → string;
  (** [json.Marshal] and [json.Unmarshal]. *)
  marshal_profile : NodeProfile → string + string;
  unmarshal_profile : string → NodeProfile + string;
  unmarshal_args : string → gomap string + string;
  unmarshal_endpoint : string → ControlPlaneExternalEndpointSpec + string;
}.

(** ** The name of a certificate request *)

Definition delimiter : Ascii.ascii := Ascii.ascii_of_nat 124.

(** What [write] appends to the hash. *)
Definition digest_field (data : string) : string := raw_url data +:+ String delimiter "".

Definition digest_stream (publicKey : string) (subject : Subject) (usages : list string) : string :=
  foldr (λ data s, digest_field data +:+ s) ""
    (publicKey :: sj_commonName subject :: sj_organization subject ++ usages).

Section bootstrap.
Context `{X : X509} `{N : NodeLibraries} `{RT : Retry}.

Definition digestedName (publicKey : string + string) (subject : Subject) (usages : list string) :
    string + string :=
  match publicKey with
  | inr e => inr e
  | inl data => inl ("node-csr-" +:+ raw_url (sha512_256 (digest_stream data subject usages)))
  end.

(** ** Asking for the certificate *)

Definition node_subject (nodeName : string) : Subject :=
  {| sj_organization := ["system:nodes"]; sj_commonName := "system:node:" +:+ nodeName |}.

Definition requestNodeCertificate (privateKeyData nodeName : string) : prog hop (string + string) :=
  let subject := node_subject nodeName in
  match parse_key privateKeyData with
  | None => Ret (inr "invalid private key for certificate request")
  | Some (rsa, publicKey) =>
      match MakeCSR privateKeyData subject with
      | inr e => Ret (inr ("unable to generate certificate request: " +:+ e))
      | inl csrData =>
          let usages := ["digital signature"; "client auth"] ++
                        (if rsa then ["key encipherment"] else []) in
          match digestedName publicKey subject usages with
          | inr e => Ret (inr e)
          | inl name =>
              let! req := trigger (RequestCertificate {| cr_csr := csrData; cr_name := name;
                cr_signer := "kubernetes.io/kube-apiserver-client-kubelet"; cr_usages := usages |}) in
              match req with
              | inr e => Ret (inr e)
              | inl r => trigger (WaitForCertificate r)
              end
          end
      end
  end.

Definition verifyKeyData (data : string) : bool :=
  if bool_decide (data = "") then false
  else match parse_key data with Some _ => true | None => false end.

(** The path of the store's current pair. *)
Definition CurrentPath (wrkCtx : WorkerContext) : string :=
  JoinPath [KubeletPKIPath wrkCtx; "kubelet-client-current.pem"].

Definition node_kubeconfig (wrkCtx : WorkerContext) (cfg : RestConfig) (pemPath : string) : NodeKubeconfig :=
  {| nk_server := ApiServerLocalAddress wrkCtx; nk_insecure := rc_insecure cfg;
     nk_caFile := rc_caFile cfg;
     nk_caData := if bool_decide (rc_caFile cfg = "") then rc_caData cfg else "";
     nk_clientCertificate := pemPath; nk_clientKey := pemPath; nk_namespace := "default" |}.

Definition writeKubeconfigFromBootstrapping (wrkCtx : WorkerContext) (cfg : RestConfig)
    (kubeconfigPath pemPath : string) : prog hop (option string) :=
  match write_config (node_kubeconfig wrkCtx cfg pemPath) with
  | inr e => Ret (Some e)
  | inl data => trigger (WriteToFile kubeconfigPath data)
  end.

Definition loadRESTClientConfig (kubeconfig : string) : prog hop (RestConfig + string) :=
  let! r := trigger (ReadFile kubeconfig) in
  match r with inr e => Ret (inr e) | inl data => Ret (client_config data) end.

(** The key for the request: that of the current pair when it is valid, or one of
    the temporary file, which a failed request leaves for the next one. *)
Definition client_key (wrkCtx : WorkerContext) (privateKeyPath : string) : prog hop (string + string) :=
  let! cur := trigger StoreCurrentKey in
  let keyData := default "" cur in
  if verifyKeyData keyData then Ret (inl keyData) else trigger (LoadOrGenerateKeyFile privateKeyPath).

Definition LoadClientCert (wrkCtx : WorkerContext) (nodeName : string) : prog hop (option string) :=
  let! c := loadRESTClientConfig (KubeletBootstrapKubeconfigPath wrkCtx) in
  match c with
  | inr e => Ret (Some ("unable to load bootstrap kubeconfig: " +:+ e))
  | inl cfg =>
      match new_client cfg with
      | Some e => Ret (Some ("unable to create certificates signing request client: " +:+ e))
      | None =>
          let! st := trigger (NewFileStore (KubeletPKIPath wrkCtx)) in
          match st with
          | Some _ => Ret (Some "unable to build bootstrap cert store")
          | None =>
              let privateKeyPath := JoinPath [KubeletPKIPath wrkCtx; "kubelet-client.key.tmp"] in
              let! k := client_key wrkCtx privateKeyPath in
              match k with
              | inr e => Ret (Some e)
              | inl keyData =>
                  let! cert := requestNodeCertificate keyData nodeName in
                  match cert with
                  | inr e => Ret (Some e)
                  | inl certData =>
                      let! u := trigger (StoreUpdate certData keyData) in
                      match u with
                      | Some e => Ret (Some e)
                      | None =>
                          (* a failure to remove is only logged *)
                          let! _ := trigger (Remove privateKeyPath) in
                          writeKubeconfigFromBootstrapping wrkCtx cfg (KubeletKubeConfigPath wrkCtx)
                            (CurrentPath wrkCtx)
                      end
                  end
              end
          end
      end
  end.

(** ** The bootstrap kubeconfig *)

Definition SaveBootstrapKubeconfig (b64Kubeconfig dst kubernetesPKICaCrt : string) :
    prog hop (option string) :=
  match DecodeString b64Kubeconfig with
  | None => Ret (Some "failed to decode bootstrap kubeconfig")
  | Some raw =>
      match LoadKubeconfig raw with
      | None => Ret (Some "invalid bootstrap kubeconfig")
      | Some cfg =>
          let! d := trigger (MkdirAll (Dir dst)) in
          match d with
          | Some e => Ret (Some ("failed to create kubeconfig directory: " +:+ e))
          | None =>
              let! w := trigger (WriteFile dst raw) in
              match w with
              | Some e => Ret (Some ("failed to write bootstrap kubeconfig: " +:+ e))
              | None =>
                  match kc_contexts cfg !! kc_currentContext cfg with
                  | None => Ret (Some "bootstrap kubeconfig has no current context")
                  | Some ctx =>
                      let noCA := Ret (Some ("bootstrap kubeconfig cluster " +:+ kx_cluster ctx +:+
                                             " has no CA data")) in
                      match kc_clusters cfg !! kx_cluster ctx with
                      | None => noCA
                      | Some cluster =>
                          if bool_decide (kcl_caData cluster = "") then noCA
                          else
                            let! w2 := trigger (WriteFile kubernetesPKICaCrt (kcl_caData cluster)) in
                            match w2 with
                            | Some e => Ret (Some ("failed to write CA certificate: " +:+ e))
                            | None => Ret None
                            end
                      end
                  end
              end
          end
      end
  end.

(** ** The bootstrap *)

(** Other errors of [os.Stat] leave no file information: a nil dereference. *)
Definition fileExists (filename : string) : prog hop bool :=
  let! r := trigger (Stat filename) in
  match r with
  | NotExist => Ret false
  | IsFile => Ret true
  | IsDir => Ret false
  | StatError _ => hpanic
  end.

Definition bootstrap_client (wrkCtx : WorkerContext) (nodeName : string) : prog hop (option string) :=
  let! r := retry_do 4
    (let! e := LoadClientCert wrkCtx nodeName in
     match e with None => Ret (Succeeded tt) | Some e => Ret (Failed e) end) in
  match r with
  | inr e => Ret (Some ("failed to bootstrap client configuration: " +:+ e))
  | inl _ => Ret None
  end.

Definition BootstrapKubeletClientConfig (wrkCtx : WorkerContext) (nodeName : string) :
    prog hop (option string) :=
  let! have := fileExists (KubeletKubeConfigPath wrkCtx) in
  if have : bool then Ret None
  else
    let! boot := fileExists (KubeletBootstrapKubeconfigPath wrkCtx) in
    if boot : bool then bootstrap_client wrkCtx nodeName
    else if negb (bool_decide (JoinToken wrkCtx = "")) then
      let! e := SaveBootstrapKubeconfig (JoinToken wrkCtx) (KubeletBootstrapKubeconfigPath wrkCtx)
                  (KubeletPKICaCertPath wrkCtx) in
      match e with
      | Some e => Ret (Some ("failed to save bootstrap kubeconfig: " +:+ e))
      | None => bootstrap_client wrkCtx nodeName
      end
    else Ret (Some "neither regular nor bootstrap kubeconfig files exist and no join token given").

(** ** The node profile *)

Definition Save (n : NodeProfile) (path : string) : prog hop (option string) :=
  match marshal_profile n with
  | inr e => Ret (Some ("failed to marshal node profile: " +:+ e))
  | inl data =>
      let! w := trigger (WriteFile path data) in
      match w with
      | Some e => Ret (Some ("failed to write node profile to " +:+ path +:+ ": " +:+ e))
      | None => Ret None
      end
  end.

Definition Load (path : string) : prog hop (NodeProfile + string) :=
  let! r := trigger (ReadFile path) in
  match r with
  | inr e => Ret (inr ("failed to read node profile from " +:+ path +:+ ": " +:+ e))
  | inl data =>
      match unmarshal_profile data with
      | inr e => Ret (inr ("failed to unmarshal node profile: " +:+ e))
      | inl n => Ret (inl n)
      end
  end.

(** The keys of the ConfigMap, in the order they are looked for. *)
Definition read_profile (wrkCtx : WorkerContext) (cm : ConfigMap) : NodeProfile + string :=
  let missing key := "worker profile configmap " +:+ WorkerProfileConfigMapName wrkCtx +:+ " has no " +:+
                     key +:+ " key" in
  let field key := mget (cm_data cm) key in
  match field (KubeletConfigurationNodeProfileConfigmapKey wrkCtx) with
  | None => inr (missing (KubeletConfigurationNodeProfileConfigmapKey wrkCtx))
  | Some kubeletConfig =>
      match field (KubeletExtraArgsNodeProfileConfigmapKey wrkCtx) with
      | None => inr (missing (KubeletExtraArgsNodeProfileConfigmapKey wrkCtx))
      | Some kubeletExtraArgs =>
          match field (ControlPlaneEndpointNodeProfileConfigmapKey wrkCtx) with
          | None => inr (missing (ControlPlaneEndpointNodeProfileConfigmapKey wrkCtx))
          | Some endpointInfo =>
              match field (CNIEnableProviderNodeProfileConfigmapKey wrkCtx) with
              | None => inr (missing (CNIEnableProviderNodeProfileConfigmapKey wrkCtx))
              | Some cniProvider =>
                  match unmarshal_args kubeletExtraArgs with
                  | inr e => inr ("failed to unmarshal kubelet extra args content: " +:+ e)
                  | inl extraArgs =>
                      match unmarshal_endpoint endpointInfo with
                      | inr e => inr ("failed to unmarshal API server external address content: " +:+ e)
                      | inl endpoint =>
                          inl {| np_kubeletConfiguration := kubeletConfig; np_kubeletExtraArgs := extraArgs;
                                 np_endpoint := endpoint; np_cniProvider := cniProvider |}
                      end
                  end
              end
          end
      end
  end.

Definition profileNamespace : string := "kube-system".

Definition ReadWorkerNodeProfile (wrkCtx : WorkerContext) : prog hop (NodeProfile + string) :=
  let! c := loadRESTClientConfig (KubeletKubeConfigPath wrkCtx) in
  match c with
  | inr e => Ret (inr ("failed to load kubeconfig from " +:+ KubeletKubeConfigPath wrkCtx +:+ ": " +:+ e))
  | inl cfg =>
      match new_client cfg with
      | Some e => Ret (inr ("failed to build kubernetes client: " +:+ e))
      | None =>
          let! r := retry_do 4
            (let! g := on_cluster (get (O := ConfigMap)
                         (NN profileNamespace (WorkerProfileConfigMapName wrkCtx))) in
             match g with
             | inr e => Ret (Failed "failed to get worker profile configmap")
             | inl cm =>
                 match read_profile wrkCtx cm with
                 | inr e => Ret (Unrecoverable e)
                 | inl profile => Ret (Succeeded profile)
                 end
             end) in
          match r with
          | inr e => Ret (inr e)
          | inl profile =>
              let! s := Save profile (NodeProfileLocalFilePath wrkCtx) in
              match s with
              | Some e => Ret (inr ("failed to save node profile to " +:+ NodeProfileLocalFilePath wrkCtx +:+
                                    ": " +:+ e))
              | None => Ret (inl profile)
              end
          end
      end
  end.
End bootstrap.

(** ** Different requests have different names *)

Lemma raw_url_free s : all_chars (λ a, negb (bool_decide (a = delimiter))) (raw_url s) = true.
Proof. apply raw_url_chars. vm_compute. reflexivity. Qed.

Lemma digest_stream_split l :
  Split delimiter (foldr (λ data s, digest_field data +:+ s) "" l) = (raw_url <$> l) ++ [""].
Proof.
  induction l as [|x l IH]; [done|]. cbn [foldr]. unfold digest_field.
  rewrite string_app_assoc, string_app_cons.
  rewrite Split_app by apply raw_url_free. cbn [fmap list_fmap app]. f_equal. exact IH.
Qed.

Lemma digest_stream_fields pub sj us :
  digest_stream pub sj us = foldr (λ field rest, raw_url field +:+ "|" +:+ rest) ""
    (pub :: sj_commonName sj :: sj_organization sj ++ us).
Proof.
  unfold digest_stream. induction (pub :: _) as [|x l IH]; [done|]. cbn [foldr]. rewrite <- IH.
  unfold digest_field. by rewrite string_app_assoc.
Qed.

(** What is hashed for the name of a certificate request determines the public
    key, the common name, and the organizations followed by the usages: two requests
    of the same number of organizations that differ in any of them are hashed from
    different texts. *)
Theorem digest_stream_injective pub1 pub2 sj1 sj2 us1 us2 :
  digest_stream pub1 sj1 us1 = digest_stream pub2 sj2 us2 →
  pub1 = pub2 ∧ sj_commonName sj1 = sj_commonName sj2 ∧
  sj_organization sj1 ++ us1 = sj_organization sj2 ++ us2 ∧
  (length (sj_organization sj1) = length (sj_organization sj2) →
   sj_organization sj1 = sj_organization sj2 ∧ us1 = us2).
Proof.
  unfold digest_stream. intros H. apply (f_equal (Split delimiter)) in H.
  rewrite !digest_stream_split in H. apply app_inj_2 in H as [H _]; [|done].
  apply (list_fmap_eq_inj raw_url) in H; [|exact raw_url_inj]. injection H as -> -> H.
  split_and!; [done..|]. intros Hl. by apply app_inj_1.
Qed.

Lemma digest_stream_injective_witness :
  let sj := {| sj_organization := ["system:nodes"]; sj_commonName := "system:node:a" |} in
  digest_stream "key" sj ["client auth"] = digest_stream "key" sj ["client auth"] ∧ ["client auth"] = ["client auth"].
Proof.
  intros sj. split; [reflexivity|].
  apply (digest_stream_injective "key" "key" sj sj ["client auth"] ["client auth"]); reflexivity.
Defined.

(** Organizations and usages are not kept apart. *)
Example organization_or_usage :
  digest_stream "key" {| sj_organization := ["a"]; sj_commonName := "n" |} ["b"] =
  digest_stream "key" {| sj_organization := ["a"; "b"]; sj_commonName := "n" |} [].
Proof. reflexivity. Qed.

(** ** Rules for the calls of the host *)

Section rules.
Context `{X : X509} (e : host_env).

Lemma wp_hop {R A} (o : hop R) (k : R → prog hop A) s Q :
  host_spec e R o s (λ r s', wp (host_spec e) (k r) s' Q) →
  wp (host_spec e) (bind (trigger o) k) s Q.
Proof. done. Qed.

Lemma wp_write {A} p data (k : option string → prog hop A) s Q :
  he_writes e p →
  (∀ m x, wp (host_spec e) (k (Some m)) (with_files (partial_alter (λ _, x) p (h_files s)) s) Q) →
  wp (host_spec e) (k None) (with_files (<[p := data]> (h_files s)) s) Q →
  wp (host_spec e) (bind (trigger (WriteFile p data)) k) s Q.
Proof. intros. apply wp_hop. split; [done|]. split; [done|]. by intros _. Qed.

Lemma wp_stat {A} p (k : stat → prog hop A) s Q :
  (∀ r, (r = IsFile → is_Some (h_files s !! p)) → (r = NotExist → h_files s !! p = None) →
        (r = IsDir → h_files s !! p = None) → wp (host_spec e) (k r) s Q) →
  wp (host_spec e) (bind (trigger (Stat p)) k) s Q.
Proof. intros H. apply wp_hop. cbn [host_spec]. split_and!; intros; by apply H. Qed.

Lemma wp_read {A} p (k : string + string → prog hop A) s Q :
  (∀ m, wp (host_spec e) (k (inr m)) s Q) →
  (∀ data, h_files s !! p = Some data → wp (host_spec e) (k (inl data)) s Q) →
  wp (host_spec e) (bind (trigger (ReadFile p)) k) s Q.
Proof. intros. apply wp_hop. by split. Qed.
End rules.

Lemma wp_fileExists `{X : X509} e p s :
  he_panic e →
  wp (host_spec e) (fileExists p) s (λ b s', s' = s ∧
    if b : bool then is_Some (h_files s !! p) else h_files s !! p = None).
Proof. intros He. apply wp_stat. intros [] Hf Hn Hd; cbn [wp]; auto. Qed.

(** Files other than [ps] are as before. *)
Definition only_files (ps : list string) (s s' : host) : Prop :=
  ∀ p, p ∉ ps → h_files s' !! p = h_files s !! p.

Lemma only_files_alter ps x p s s' :
  p ∈ ps → only_files ps s s' → only_files ps s (with_files (partial_alter (λ _, x) p (h_files s')) s').
Proof. intros Hp H q Hq. cbn. rewrite lookup_partial_alter_ne by set_solver. by apply H. Qed.

Lemma only_files_insert ps x p s s' :
  p ∈ ps → only_files ps s s' → only_files ps s (with_files (<[p := x]> (h_files s')) s').
Proof. intros Hp H. apply (only_files_alter ps (Some x) p s s' Hp H). Qed.

Section save.
Context `{X : X509}.

(** ** Saving the bootstrap kubeconfig *)

Lemma wp_SaveBootstrapKubeconfig e b64 dst ca s :
  he_writes e dst → he_writes e ca → dst ≠ ca →
  wp (host_spec e) (SaveBootstrapKubeconfig b64 dst ca) s (λ r s',
    only_files [dst; ca] s s' ∧
    (r = None → ∃ raw cfg ctx cl, DecodeString b64 = Some raw ∧ LoadKubeconfig raw = Some cfg ∧
       kc_contexts cfg !! kc_currentContext cfg = Some ctx ∧ kc_clusters cfg !! kx_cluster ctx = Some cl ∧
       h_files s' !! dst = Some raw ∧ h_files s' !! ca = Some (kcl_caData cl))).
Proof using Type.
  intros Hd Hc Hne. unfold SaveBootstrapKubeconfig.
  destruct (DecodeString b64) as [raw|] eqn:Ed; [|by split].
  destruct (LoadKubeconfig raw) as [cfg|] eqn:El; [|by split].
  apply wp_hop. split; [by intros m d Hsub; split|].
  assert (∀ x s', only_files [dst; ca] s s' →
    only_files [dst; ca] s (with_files (partial_alter (λ _, x) dst (h_files s')) s')) as Hod
    by (intros; apply only_files_alter; [set_solver|done]).
  assert (∀ x s', only_files [dst; ca] s s' →
    only_files [dst; ca] s (with_files (partial_alter (λ _, x) ca (h_files s')) s')) as Hoc
    by (intros; apply only_files_alter; [set_solver|done]).
  set (s1 := with_dirs _ s). assert (only_files [dst; ca] s s1) as H1 by done.
  apply wp_write; [done|intros m x; split; [by apply Hod|done]|].
  assert (only_files [dst; ca] s (with_files (<[dst := raw]> (h_files s1)) s1)) as H2 by (by apply (Hod (Some raw))).
  cbv beta iota. destruct (kc_contexts cfg !! kc_currentContext cfg) as [ctx|] eqn:Ex; [|by split].
  destruct (kc_clusters cfg !! kx_cluster ctx) as [cl|] eqn:Ec; [|by split].
  case_bool_decide; [by split|].
  apply wp_write; [done|intros m x; split; [by apply Hoc|done]|].
  split; [by apply (Hoc (Some (kcl_caData cl)))|]. intros _. exists raw, cfg, ctx, cl.
  split_and!; try done; cbn; [|by rewrite lookup_insert_eq].
  by rewrite lookup_insert_ne, lookup_insert_eq.
Qed.

(** On a host where writing succeeds, a kubeconfig with a cluster CA is saved. *)
Lemma run_SaveBootstrapKubeconfig b64 dst ca s raw cfg ctx cl :
  DecodeString b64 = Some raw → LoadKubeconfig raw = Some cfg →
  kc_contexts cfg !! kc_currentContext cfg = Some ctx → kc_clusters cfg !! kx_cluster ctx = Some cl →
  kcl_caData cl ≠ "" → Dir dst ∈ ancestors (Dir dst) → Dir ca ∈ h_dirs s →
  ∃ s', run (disk (λ _, false)) (SaveBootstrapKubeconfig b64 dst ca) s = Some (None, s').
Proof using Type.
  intros Hd Hl Hx Hc Hca Hdd Hcd. unfold SaveBootstrapKubeconfig. rewrite Hd, Hl. cbn [bind trigger run disk].
  rewrite decide_True by (cbn [h_dirs with_dirs]; set_solver). rewrite Hx, Hc.
  rewrite bool_decide_eq_false_2 by done. cbn [bind trigger run disk].
  rewrite decide_True by (cbn [h_dirs with_dirs with_files]; set_solver). eauto.
Qed.
End save.

Section profile.
Context `{X : X509} `{N : NodeLibraries} `{RT : Retry} `{RL : !RetryLaws}.

(** The environment of the profile reader: its only write is the profile file. *)
Definition profile_env (wrkCtx : WorkerContext) (rely_ : cluster → cluster → Prop) : host_env := {|
  he_cluster := {| rely := rely_; allowed := λ _ _, False; may_panic := False |};
  he_writes := λ p, p = NodeProfileLocalFilePath wrkCtx;
  he_requests := λ _, False; he_panic := False |}.

Lemma wp_loadRESTClientConfig e p s (Q : RestConfig + string → host → Prop) :
  (∀ m, Q (inr m) s) → (∀ data, h_files s !! p = Some data → Q (client_config data) s) →
  wp (host_spec e) (loadRESTClientConfig p) s Q.
Proof using Type. intros He Hd. apply wp_read; [done|]. intros data H. by apply Hd. Qed.

Lemma wp_read_configmap rely_ wrkCtx s (Q : attempt NodeProfile → host → Prop) :
  (∀ c err, Q (Failed err) (with_cluster c s)) → (∀ c err, Q (Unrecoverable err) (with_cluster c s)) →
  (∀ c cm profile, c_configMaps c !! NN profileNamespace (WorkerProfileConfigMapName wrkCtx) = Some cm →
     read_profile wrkCtx cm = inl profile → Q (Succeeded profile) (with_cluster c s)) →
  wp (host_spec (profile_env wrkCtx rely_))
    (let! g := on_cluster (get (O := ConfigMap) (NN profileNamespace (WorkerProfileConfigMapName wrkCtx))) in
     match g with
     | inr e => Ret (Failed "failed to get worker profile configmap")
     | inl cm =>
         match read_profile wrkCtx cm with
         | inr e => Ret (Unrecoverable e)
         | inl profile => Ret (Succeeded profile)
         end
     end) s Q.
Proof using Type.
  intros Hf Hu Hs c _. cbn [bind on_cluster embed]. split; [intros m; apply Hf|].
  destruct (kmap c !! _) as [cm|] eqn:E; [|apply Hf]. cbn [bind on_cluster embed].
  destruct (read_profile wrkCtx cm) eqn:Er; [by eapply Hs|apply Hu].
Qed.

Lemma wp_ReadWorkerNodeProfile rely_ wrkCtx s :
  wp (host_spec (profile_env wrkCtx rely_)) (ReadWorkerNodeProfile wrkCtx) s (λ r s',
    only_files [NodeProfileLocalFilePath wrkCtx] s s' ∧
    ∀ profile, r = inl profile →
      (∃ cm, c_configMaps (h_cluster s') !! NN profileNamespace (WorkerProfileConfigMapName wrkCtx) = Some cm ∧
         read_profile wrkCtx cm = inl profile) ∧
      ∃ data, marshal_profile profile = inl data ∧
        h_files s' !! NodeProfileLocalFilePath wrkCtx = Some data).
Proof using RL.
  unfold ReadWorkerNodeProfile. set (e := profile_env wrkCtx rely_).
  eapply (wp_seq _ (loadRESTClientConfig _) _ _ (λ _ s', s' = s)); [by apply wp_loadRESTClientConfig|].
  intros [cfg|m] s1 ->; [|by split]. destruct (new_client cfg); [by split|].
  eapply (wp_seq _ (retry_do 4 _) _ _ (λ r s', h_files s' = h_files s ∧ ∀ profile, r = inl profile →
     ∃ cm, c_configMaps (h_cluster s') !! NN profileNamespace (WorkerProfileConfigMapName wrkCtx) = Some cm ∧
       read_profile wrkCtx cm = inl profile)).
  { apply (wp_retry _ _ _ (λ s', h_files s' = h_files s)); [done| |by intros s2 m H2; split].
    intros s2 H2. apply (wp_read_configmap rely_); [done|done|].
    intros c cm profile Hc Hp. split; [done|]. intros p' [= <-]. by exists cm. }
  intros [profile|m] s2 [Hf2 Hp]; [|by split; [intros p _; rewrite Hf2|]].
  unfold Save. destruct (marshal_profile profile) as [data|m] eqn:Em;
    [|cbn [bind]; by split; [intros p _; rewrite Hf2|]].
  cbn [bind]. apply wp_write; [done| |].
  - intros m x. cbv beta iota. split; [|done]. apply only_files_alter; [set_solver|].
    intros p _. by rewrite Hf2.
  - split; [apply only_files_insert; [set_solver|intros p _; by rewrite Hf2]|].
    intros p' [= <-]. split; [by apply Hp|]. exists data. split; [done|]. cbn. by rewrite lookup_insert_eq.
Qed.

(** The profile in a ConfigMap: its four entries, the arguments and the endpoint decoded. *)
Definition profile_in (wrkCtx : WorkerContext) (cm : ConfigMap) (profile : NodeProfile) : Prop :=
  mget (cm_data cm) (KubeletConfigurationNodeProfileConfigmapKey wrkCtx) = Some (np_kubeletConfiguration profile) ∧
  (∃ args, mget (cm_data cm) (KubeletExtraArgsNodeProfileConfigmapKey wrkCtx) = Some args ∧
     unmarshal_args args = inl (np_kubeletExtraArgs profile)) ∧
  (∃ endpoint, mget (cm_data cm) (ControlPlaneEndpointNodeProfileConfigmapKey wrkCtx) = Some endpoint ∧
     unmarshal_endpoint endpoint = inl (np_endpoint profile)) ∧
  mget (cm_data cm) (CNIEnableProviderNodeProfileConfigmapKey wrkCtx) = Some (np_cniProvider profile).

Lemma read_profile_in wrkCtx cm profile :
  read_profile wrkCtx cm = inl profile → profile_in wrkCtx cm profile.
Proof using Type.
  unfold read_profile, profile_in. intros Hr. repeat case_match; simplify_eq/=. eauto 10.
Qed.
End profile.

(** C23.  The profile of a node: whatever the tenant cluster does meanwhile, reading it
    writes nothing but the profile file of the host, and a successful read returns
    what the profile ConfigMap of kube-system held when it was read last, each of its four entries:
    the kubelet configuration and the CNI provider as they are, the extra arguments and the
    endpoint of the control plane decoded; if the JSON codec reads what it writes,
    the file left behind loads to the same profile unless it cannot be read, so
    that the next start of the worker finds the endpoints in it. *)
Theorem profile_survives_restart `{X : X509} `{N : NodeLibraries} `{RT : Retry} `{RL : !RetryLaws}
    rely_ wrkCtx s :
  (∀ n data, marshal_profile n = inl data → unmarshal_profile data = inl n) →
  wp (host_spec (profile_env wrkCtx rely_)) (ReadWorkerNodeProfile wrkCtx) s (λ r s',
    only_files [NodeProfileLocalFilePath wrkCtx] s s' ∧
    ∀ profile, r = inl profile →
      (∃ cm, c_configMaps (h_cluster s') !! NN "kube-system" (WorkerProfileConfigMapName wrkCtx) = Some cm ∧
         profile_in wrkCtx cm profile) ∧
      is_Some (h_files s' !! NodeProfileLocalFilePath wrkCtx) ∧
      wp (host_spec (profile_env wrkCtx rely_)) (Load (NodeProfileLocalFilePath wrkCtx)) s' (λ r2 s2,
        s2 = s' ∧ match r2 with
                  | inl profile2 => profile2 = profile
                  | inr e => ∃ m, e = "failed to read node profile from " +:+ NodeProfileLocalFilePath wrkCtx +:+ ": " +:+ m
                  end)).
Proof.
  intros Hlaw. eapply (wp_mono _ (ReadWorkerNodeProfile wrkCtx)); [apply wp_ReadWorkerNodeProfile|].
  intros r s' [Ho Hp]. split; [done|]. intros profile ->.
  destruct (Hp profile eq_refl) as [(cm & Hc & Hcm) (data & Hm & Hf)].
  split; [exists cm; split; [done|by apply read_profile_in]|]. split; [by exists data|].
  apply wp_read; [intros m; split; [done|by exists m]|]. intros data' Hd. rewrite Hf in Hd. injection Hd as <-.
  cbv beta iota. by rewrite (Hlaw _ _ Hm).
Qed.

(** ** Libraries for the executions *)

Definition profile_fields (n : NodeProfile) : string * gomap string * (string * Z) * (string * Z) * string :=
  (np_kubeletConfiguration n, np_kubeletExtraArgs n,
   (ce_host (cpe_apiServer (np_endpoint n)), ce_port (cpe_apiServer (np_endpoint n))),
   (ce_host (cpe_planeTunnel (np_endpoint n)), ce_port (cpe_planeTunnel (np_endpoint n))),
   np_cniProvider n).

Definition profile_of (f : string * gomap string * (string * Z) * (string * Z) * string) : NodeProfile :=
  let '(cfg, args, (h1, p1), (h2, p2), cni) := f in
  {| np_kubeletConfiguration := cfg; np_kubeletExtraArgs := args;
     np_endpoint := {| cpe_apiServer := {| ce_host := h1; ce_port := p1 |};
                       cpe_planeTunnel := {| ce_host := h2; ce_port := p2 |} |};
     np_cniProvider := cni |}.

Definition ref_libraries : NodeLibraries := {|
  client_config := λ data, inl {| rc_caFile := ""; rc_caData := data; rc_insecure := false |};
  new_client := λ _, None;
  write_config := λ k, inl ("server " +:+ nk_server k +:+ " client " +:+ nk_clientCertificate k);
  parse_key := λ k, if bool_decide (k = "") then None else Some (false, inl ("public " +:+ k));
  MakeCSR := λ k sj, inl ("request of " +:+ sj_commonName sj);
  sha512_256 := λ s, s;
  marshal_profile := λ n, inl (enc (profile_fields n));
  unmarshal_profile := λ data, match dec data with Some f => inl (profile_of f) | None => inr "syntax" end;
  unmarshal_args := λ s, inl (Some {[ "v" := s ]});
  unmarshal_endpoint := λ s, inl {| cpe_apiServer := {| ce_host := s; ce_port := 6443 |};
                                    cpe_planeTunnel := {| ce_host := s; ce_port := 9445 |} |};
|}.

Lemma ref_profile_codec n data :
  @marshal_profile ref_libraries n = inl data → @unmarshal_profile ref_libraries data = inl n.
Proof. cbn. intros [= <-]. rewrite dec_enc. by destruct n as [? ? [[] []] ?]. Qed.

Definition example_profile_map : ConfigMap := {|
  cm_meta := new_meta "worker-profile" "kube-system" None None;
  cm_data := Some {[ "kubelet.configuration" := "kind: KubeletConfiguration"; "kubelet.extraArgs" := "4";
                     "control.plane.endpoint" := "api.example.com"; "cni.provider" := "flannel" ]} |}.

Definition tenant_cluster : cluster := {|
  c_runtimes := ∅; c_secrets := ∅;
  c_configMaps := {[ NN "kube-system" "worker-profile" := example_profile_map ]};
  c_services := ∅; c_deployments := ∅; c_tokens := ∅; c_charts := ∅; c_jobs := ∅; c_accounts := ∅;
  c_bindings := ∅; c_csrs := ∅; c_nodes := ∅; c_slices := ∅; c_crds := ∅; c_now := 0; c_events := [] |}.

Definition example_host (files : gmap string string) : host := {|
  h_files := files; h_dirs := {[ "/"; "/etc"; "/etc/heir"; "/etc/heir/kubelet"; "/etc/heir/pki" ]}; h_pair := None;
  h_running := false; h_cluster := tenant_cluster |}.

#[local] Abbreviation worker_defaults := NewWorkerContextWithDefaults.

Lemma profile_survives_restart_witness :
  ∃ profile s', run (disk (λ _, false)) (ReadWorkerNodeProfile (N := ref_libraries) (RT := ref_retry) worker_defaults)
      (example_host {[ "/etc/heir/kubelet/config.yaml" := "kubeconfig" ]}) = Some (inl profile, s') ∧
    np_cniProvider profile = "flannel" ∧
    profile_in (N := ref_libraries) worker_defaults example_profile_map profile ∧
    run (disk (λ _, false)) (Load (N := ref_libraries) (NodeProfileLocalFilePath worker_defaults)) s' = Some (inl profile, s').
Proof.
  set (s := example_host {[ "/etc/heir/kubelet/config.yaml" := "kubeconfig" ]}).
  pose proof (profile_survives_restart (X := ref_x509) (N := ref_libraries) (RT := ref_retry)
    (RL := ref_retry_laws) eq worker_defaults s ref_profile_codec) as Hwp.
  apply (wp_run _ (disk (λ _, false)) _
    (Implements0 := disk_implements (λ _, false) (profile_env worker_defaults eq) ltac:(done))) in Hwp.
  assert (match run (disk (λ _, false)) (ReadWorkerNodeProfile (N := ref_libraries) (RT := ref_retry) worker_defaults) s with
          | Some (inl p, _) => bool_decide (np_cniProvider p = "flannel") | _ => false end = true) as E
    by (vm_compute; reflexivity).
  assert ((λ x, c_configMaps (h_cluster x.2) !! NN "kube-system" "worker-profile") <$>
    run (disk (λ _, false)) (ReadWorkerNodeProfile (N := ref_libraries) (RT := ref_retry) worker_defaults) s =
      Some (Some example_profile_map)) as Es by (vm_compute; reflexivity).
  destruct (run (disk (λ _, false)) _ s) as [[[profile|] s']|]; [|discriminate E..]. cbn in Es.
  exists profile, s'. split; [reflexivity|]. split; [by apply bool_decide_eq_true in E|].
  destruct Hwp as [_ Hp]. destruct (Hp profile eq_refl) as ((cm & Hc & Hin) & [data Hd] & Hl).
  apply (wp_run _ (disk (λ _, false)) _
    (Implements0 := disk_implements (λ _, false) (profile_env worker_defaults eq) ltac:(done))) in Hl.
  cbn [run Load trigger bind disk] in Hl |- *. rewrite Hd in Hl |- *.
  destruct (@unmarshal_profile ref_libraries data) as [p2|e2]; cbn [run] in Hl |- *.
  - destruct Hl as [_ ->]. split; [|reflexivity].
    cbn in Hc. injection Es as Es. rewrite Es in Hc. by injection Hc as <-.
  - destruct Hl as [_ [m Hm]]. discriminate Hm.
Defined.

(** ** The client certificate of the kubelet *)

Section client.
Context `{X : X509} `{N : NodeLibraries}.
Context (wrkCtx : WorkerContext) (nodeName : string) (rely_ : cluster → cluster → Prop).

Definition tmp_key : string := JoinPath [KubeletPKIPath wrkCtx; "kubelet-client.key.tmp"].

Definition bootstrap_files : list string :=
  [KubeletBootstrapKubeconfigPath wrkCtx; KubeletPKICaCertPath wrkCtx; tmp_key; KubeletKubeConfigPath wrkCtx].

(** The only request: a client certificate of the kubelet signer for the user
    [system:node:<name>] of the group [system:nodes], named after its key, subject and usages. *)
Definition node_request (r : CertificateRequest) : Prop :=
  ∃ key (rsa : bool) pub csr, let usages := ["digital signature"; "client auth"] ++
      (if rsa then ["key encipherment"] else []) in
    let user := "system:node:" +:+ nodeName in
    parse_key key = Some (rsa, inl pub) ∧
    MakeCSR key {| sj_organization := ["system:nodes"]; sj_commonName := user |} = inl csr ∧
    cr_csr r = csr ∧ cr_signer r = "kubernetes.io/kube-apiserver-client-kubelet" ∧ cr_usages r = usages ∧
    cr_name r = "node-csr-" +:+ raw_url (sha512_256
      (foldr (λ field rest, raw_url field +:+ "|" +:+ rest) "" ([pub; user; "system:nodes"] ++ usages))).

(** A panic is possible: see [fileExists]. *)
Definition bootstrap_env : host_env := {|
  he_cluster := {| rely := rely_; allowed := λ _ _, False; may_panic := False |};
  he_writes := λ p, p ∈ bootstrap_files;
  he_requests := node_request; he_panic := True |}.

(** The kubelet can authenticate: its kubeconfig points at the local proxy, trusts the
    CA of the bootstrap kubeconfig (its file, or else its data) and uses the pair of
    the store. *)
Definition bootstrapped (raw : string) (s : host) : Prop :=
  ∃ cfg data cert key k,
    client_config raw = inl cfg ∧ write_config k = inl data ∧
    nk_server k = ApiServerLocalAddress wrkCtx ∧ nk_insecure k = rc_insecure cfg ∧
    nk_caFile k = rc_caFile cfg ∧ (rc_caFile cfg = "" → nk_caData k = rc_caData cfg) ∧
    nk_clientCertificate k = JoinPath [KubeletPKIPath wrkCtx; "kubelet-client-current.pem"] ∧
    nk_clientKey k = JoinPath [KubeletPKIPath wrkCtx; "kubelet-client-current.pem"] ∧
    nk_namespace k = "default" ∧
    h_files s !! KubeletKubeConfigPath wrkCtx = Some data ∧
    h_pair s = Some (cert, key) ∧ is_Some (parse_key key).

Context (Hpaths : NoDup bootstrap_files).

Lemma bootstrap_paths :
  KubeletBootstrapKubeconfigPath wrkCtx ≠ tmp_key ∧
  KubeletBootstrapKubeconfigPath wrkCtx ≠ KubeletKubeConfigPath wrkCtx ∧
  KubeletBootstrapKubeconfigPath wrkCtx ≠ KubeletPKICaCertPath wrkCtx.
Proof using Hpaths.
  unfold bootstrap_files in Hpaths. apply NoDup_cons in Hpaths as [H _]. set_solver.
Qed.

(** Every step keeps the bootstrap kubeconfig. *)
Definition has_boot (raw : string) (s : host) : Prop :=
  h_files s !! KubeletBootstrapKubeconfigPath wrkCtx = Some raw.

Lemma wp_client_key raw s :
  has_boot raw s →
  wp (host_spec bootstrap_env) (client_key wrkCtx tmp_key) s (λ r s', has_boot raw s').
Proof using Hpaths.
  intros Hb. destruct bootstrap_paths as (Hne & _ & _). unfold client_key. apply wp_hop.
  assert (∀ keyData : string, wp (host_spec bootstrap_env)
    (if verifyKeyData keyData then Ret (inl keyData) else trigger (LoadOrGenerateKeyFile tmp_key)) s
    (λ r s', has_boot raw s')) as H; [|by split; [apply (H "")|intros c k _; apply (H k)]].
  intros keyData. destruct (verifyKeyData keyData); [done|].
  cbn [wp trigger host_spec]. split_and!; [cbn; set_solver|done|done|].
  intros _ key. unfold has_boot. cbn. by rewrite lookup_insert_ne.
Qed.

Lemma wp_requestNodeCertificate raw key s :
  has_boot raw s →
  wp (host_spec bootstrap_env) (requestNodeCertificate key nodeName) s
    (λ r s', has_boot raw s' ∧ ∀ cert, r = inl cert → is_Some (parse_key key)).
Proof using Type.
  intros Hb. unfold requestNodeCertificate.
  destruct (parse_key key) as [[rsa pub]|] eqn:Ek; [|by split].
  destruct (MakeCSR key (node_subject nodeName)) as [csr|] eqn:Ec; [|by split].
  destruct pub as [pub|]; [|by split]. cbn [digestedName]. apply wp_hop.
  split; [by exists key, rsa, pub, csr; rewrite digest_stream_fields; split_and!|].
  split; [by split|]. intros req.
  cbn [wp trigger host_spec]. by split; [intros m|intros cert]; split; eauto.
Qed.

Lemma wp_LoadClientCert raw s :
  has_boot raw s →
  wp (host_spec bootstrap_env) (LoadClientCert wrkCtx nodeName) s
    (λ r s', has_boot raw s' ∧ (r = None → bootstrapped raw s')).
Proof using Hpaths.
  intros Hb. destruct bootstrap_paths as (Hne1 & Hne2 & _). unfold LoadClientCert. fold tmp_key.
  eapply (wp_seq _ (loadRESTClientConfig _) _ _ (λ r s', s' = s ∧ ∀ cfg, r = inl cfg → client_config raw = inl cfg)).
  { apply wp_loadRESTClientConfig; [by split|]. intros data Hd. rewrite Hb in Hd. by injection Hd as <-. }
  intros [cfg|m] s1 [-> Hcfg]; [|by split]. specialize (Hcfg cfg eq_refl).
  destruct (new_client cfg); [by split|]. apply wp_hop. split; [by split|].
  cbv beta iota. eapply (wp_seq _ (client_key _ _)); [by apply wp_client_key|].
  intros [key|m] s2 Hb2; [|by split].
  eapply (wp_seq _ (requestNodeCertificate _ _)); [by apply wp_requestNodeCertificate|].
  intros [cert|m] s3 [Hb3 Hk]; [|by split]. specialize (Hk cert eq_refl).
  apply wp_hop. split; [by split|]. cbv beta iota. apply wp_hop. split; [cbn; set_solver|].
  assert (∀ s4, has_boot raw s4 → h_pair s4 = Some (cert, key) →
    wp (host_spec bootstrap_env) (writeKubeconfigFromBootstrapping wrkCtx cfg (KubeletKubeConfigPath wrkCtx)
      (CurrentPath wrkCtx)) s4 (λ r s', has_boot raw s' ∧ (r = None → bootstrapped raw s'))) as Hw.
  { intros s4 Hb4 Hp4. unfold writeKubeconfigFromBootstrapping.
    destruct (write_config _) as [data|m] eqn:Ew; [|by split].
    cbn [wp trigger host_spec]. split; [cbn; set_solver|]. split.
    - intros m x. split; [|done]. unfold has_boot. cbn. by rewrite lookup_partial_alter_ne.
    - split; [unfold has_boot; cbn; by rewrite lookup_insert_ne|]. intros _.
      eexists cfg, data, cert, key, _. cbn. rewrite lookup_insert_eq. split_and!; try done.
      cbn. by intros ->. }
  split; [intros m; by apply Hw|]. apply Hw; [|done]. unfold has_boot. cbn. by rewrite lookup_delete_ne.
Qed.

Section retry.
Context `{RT : Retry} `{RL : !RetryLaws}.

Lemma wp_bootstrap_client raw s :
  has_boot raw s →
  wp (host_spec bootstrap_env) (bootstrap_client wrkCtx nodeName) s
    (λ r s', r = None → has_boot raw s' ∧ bootstrapped raw s').
Proof using Hpaths RL.
  intros Hb. unfold bootstrap_client.
  eapply (wp_seq _ (retry_do 4 _) _ _ (λ r s', r = inl tt → has_boot raw s' ∧ bootstrapped raw s')).
  { apply (wp_retry _ _ _ (has_boot raw)); [done| |done].
    intros s1 Hb1. eapply (wp_seq _ (LoadClientCert _ _)); [by apply wp_LoadClientCert|].
    intros [m|] s2 [Hb2 Hok]; [done|]. by split; [|apply Hok]. }
  intros [[]|m] s1 H; [by intros _; apply H|done].
Qed.
End retry.
End client.

(** C22.  The TLS bootstrap of a node: it writes only the four files it is configured
    with, asks only for a client certificate of the user system:node:<its name> in the group
    system:nodes from the kubelet signer, under a name derived from key, subject and usages, and when it succeeds, either the kubelet had a
    kubeconfig already and nothing was touched, or the kubeconfig written points the
    kubelet at the address of the local proxy with the CA of the bootstrap kubeconfig and
    the file of the current pair, which holds a usable key, where the bootstrap kubeconfig is the file that was there or, without
    one, the decoded join token. *)
Theorem kubelet_bootstrap `{X : X509} `{N : NodeLibraries} `{RT : Retry} `{RL : !RetryLaws}
    wrkCtx nodeName rely_ s :
  NoDup (bootstrap_files wrkCtx) →
  wp (host_spec (bootstrap_env wrkCtx nodeName rely_)) (BootstrapKubeletClientConfig wrkCtx nodeName) s
    (λ r s', r = None →
       (is_Some (h_files s !! KubeletKubeConfigPath wrkCtx) ∧ s' = s) ∨
       ∃ raw, h_files s' !! KubeletBootstrapKubeconfigPath wrkCtx = Some raw ∧ bootstrapped wrkCtx raw s' ∧
         (h_files s !! KubeletBootstrapKubeconfigPath wrkCtx = Some raw ∨
          h_files s !! KubeletBootstrapKubeconfigPath wrkCtx = None ∧ DecodeString (JoinToken wrkCtx) = Some raw)).
Proof.
  intros Hp. destruct (bootstrap_paths wrkCtx Hp) as (_ & _ & Hne).
  assert (∀ raw s1, has_boot wrkCtx raw s1 →
    (h_files s !! KubeletBootstrapKubeconfigPath wrkCtx = Some raw ∨
     h_files s !! KubeletBootstrapKubeconfigPath wrkCtx = None ∧ DecodeString (JoinToken wrkCtx) = Some raw) →
    wp (host_spec (bootstrap_env wrkCtx nodeName rely_)) (bootstrap_client wrkCtx nodeName) s1
      (λ r s', r = None → (is_Some (h_files s !! KubeletKubeConfigPath wrkCtx) ∧ s' = s) ∨
         ∃ raw, h_files s' !! KubeletBootstrapKubeconfigPath wrkCtx = Some raw ∧ bootstrapped wrkCtx raw s' ∧
         (h_files s !! KubeletBootstrapKubeconfigPath wrkCtx = Some raw ∨
          h_files s !! KubeletBootstrapKubeconfigPath wrkCtx = None ∧
          DecodeString (JoinToken wrkCtx) = Some raw))) as Hboot.
  { intros raw s1 Hb Hraw. eapply (wp_mono _ (bootstrap_client wrkCtx nodeName)); [by apply wp_bootstrap_client|].
    intros r s' H Hr. right. destruct (H Hr) as [? ?]. by exists raw. }
  unfold BootstrapKubeletClientConfig.
  eapply (wp_seq _ (fileExists _)); [by apply wp_fileExists|]. intros [] s0 [-> Hk]; [by intros _; left|].
  eapply (wp_seq _ (fileExists _)); [by apply wp_fileExists|]. intros [] s0 [-> Hb].
  { destruct Hb as [raw Hraw]. by apply (Hboot raw); [|left]. }
  case_bool_decide; cbn [negb]; [done|].
  eapply (wp_seq _ (SaveBootstrapKubeconfig _ _ _));
    [apply wp_SaveBootstrapKubeconfig; [cbn; set_solver|cbn; set_solver|done]|].
  intros [m|] s1 [_ Hs]; [done|]. destruct (Hs eq_refl) as (raw & cfg & ctx & cl & Hd & _ & _ & _ & Hf & _).
  apply (Hboot raw); [done|by right].
Qed.

Definition example_bootstrap : prog hop (option string) :=
  BootstrapKubeletClientConfig (X := ref_x509) (N := ref_libraries) (RT := ref_retry) worker_defaults "node-1".

Lemma kubelet_bootstrap_witness :
  ∃ s', run (disk (λ _, false)) example_bootstrap
      (example_host {[ KubeletBootstrapKubeconfigPath worker_defaults := "CA" ]}) = Some (None, s') ∧
    h_files s' !! KubeletKubeConfigPath worker_defaults =
      Some "server https://127.0.0.1:6443 client /etc/heir/kubelet/pki/kubelet-client-current.pem" ∧
    bootstrapped (N := ref_libraries) worker_defaults "CA" s'.
Proof.
  set (s := example_host {[ KubeletBootstrapKubeconfigPath worker_defaults := "CA" ]}).
  assert (NoDup (bootstrap_files worker_defaults)) as Hp by (apply (bool_decide_unpack _); vm_compute; exact I).
  pose proof (kubelet_bootstrap (X := ref_x509) (N := ref_libraries) (RT := ref_retry) (RL := ref_retry_laws)
    worker_defaults "node-1" eq s Hp) as Hwp.
  change (BootstrapKubeletClientConfig worker_defaults "node-1") with example_bootstrap in Hwp.
  apply (wp_run _ (disk (λ _, false)) _
    (Implements0 := disk_implements (λ _, false) (bootstrap_env (N := ref_libraries) worker_defaults "node-1" eq) ltac:(done))) in Hwp.
  assert (match run (disk (λ _, false)) example_bootstrap s with
          | Some (None, s') => bool_decide (h_files s' !! KubeletKubeConfigPath worker_defaults =
              Some "server https://127.0.0.1:6443 client /etc/heir/kubelet/pki/kubelet-client-current.pem")
          | _ => false end = true) as E by (vm_compute; reflexivity).
  destruct (run (disk (λ _, false)) example_bootstrap s) as [[[m|] s']|]; [discriminate E| |discriminate E].
  exists s'. split; [reflexivity|]. split; [by apply bool_decide_eq_true in E|].
  destruct (Hwp eq_refl) as [[[x Hx] _]|(raw & Hb & Hd & Hraw)]; [by vm_compute in Hx|].
  assert (raw = "CA") as ->; [|exact Hd].
  destruct Hraw as [Hr|[Hr _]]; vm_compute in Hr; congruence.
Defined.

(** A kubeconfig that is refused is left on the disk, and is what the next bootstrap
    starts from, whatever token it is given. *)
Definition no_context : KubeConfig := {|
  kc_clusters := ∅; kc_authInfos := ∅; kc_contexts := ∅; kc_currentContext := "none" |}.

Example refused_kubeconfig_kept :
  match run (disk (λ _, false)) (SaveBootstrapKubeconfig (X := ref_x509) (base64 (enc no_context))
          "/etc/heir/kubelet/bootstrap-kubeconfig.conf" "/etc/heir/pki/ca.crt") (example_host ∅) with
  | Some (Some e, s') => Some (e, bool_decide (is_Some (h_files s' !! "/etc/heir/kubelet/bootstrap-kubeconfig.conf")))
  | _ => None
  end = Some ("bootstrap kubeconfig has no current context", true).
Proof. vm_compute. reflexivity. Qed.
