(* ===== verification/Wire.v ===== *)
(** * Connecting an agent to a plane-tunnel server

    The two ends of a connection: the TLS configurations of src/pkg/util/tls.go and of
    src/pkg/tunnel/server/tunnel.go, the identity the server offers
    (src/pkg/tunnel/server/server.go, src/pkg/tunnel/shrd), and [connect] and
    [fetchIdentity] of src/pkg/tunnel/agent/agent.go, which open a connection, ask for
    the identity and must not leave anything open when they fail.

    Parameters: the TLS, X.509 and JSON libraries, and [outbound], whose sessions and
    streams are calls ([wop]). *)

From stdpp Require Import gmap.
From S2P Require Import Prelude Effects Kube Api Pki World Host Bootstrap Tunnel.
From stdpp Require Import options.

(** ** TLS configurations *)

Inductive ClientAuthType := NoClientCert | RequireAndVerifyClientCert.

Record tls_config `{X : X509} := {
  Certificates : list (string * string);
  RootCAs : option CertPool;
  ClientAuth : ClientAuthType;
  ClientCAs : option CertPool;
  MinVersion : Z;
}.

Definition VersionTLS12 : Z := 0x0303.

Section tls.
Context `{X : X509}.
(** [tls.X509KeyPair] on the contents of the two files. *)
Context (X509KeyPair : string → string → option string).

Definition LoadX509KeyPair (certPath keyPath : string) : prog hop ((string * string) + string) :=
  let! c := trigger (ReadFile certPath) in
  match c with
  | inr e => Ret (inr e)
  | inl cert =>
      let! k := trigger (ReadFile keyPath) in
      match k with
      | inr e => Ret (inr e)
      | inl key => match X509KeyPair cert key with Some e => Ret (inr e) | None => Ret (inl (cert, key)) end
      end
  end.

Definition loadCertAndPool (certPath keyPath caCertPath : string) :
    prog hop (((string * string) * CertPool) + string) :=
  let! c := LoadX509KeyPair certPath keyPath in
  match c with
  | inr e => Ret (inr ("failed to load cert/key: " +:+ e))
  | inl cert =>
      let! r := trigger (ReadFile caCertPath) in
      match r with
      | inr e => Ret (inr ("failed to read CA cert: " +:+ e))
      | inl caPEM =>
          match AppendCertsFromPEM caPEM with
          | None => Ret (inr "failed to parse CA cert")
          | Some pool => Ret (inl (cert, pool))
          end
      end
  end.

Definition SetupTLSConfig (certPath keyPath caCertPath : string) : prog hop (tls_config + string) :=
  let! r := loadCertAndPool certPath keyPath caCertPath in
  match r with
  | inr e => Ret (inr e)
  | inl (cert, pool) => Ret (inl {| Certificates := [cert]; RootCAs := Some pool; ClientAuth := NoClientCert;
                                    ClientCAs := None; MinVersion := VersionTLS12 |})
  end.

Definition SetupMTLSServerConfig (certPath keyPath caCertPath : string) : prog hop (tls_config + string) :=
  let! r := loadCertAndPool certPath keyPath caCertPath in
  match r with
  | inr e => Ret (inr e)
  | inl (cert, pool) => Ret (inl {| Certificates := [cert]; RootCAs := None;
                                    ClientAuth := RequireAndVerifyClientCert; ClientCAs := Some pool;
                                    MinVersion := VersionTLS12 |})
  end.

(** [TunnelServer.Serve] up to the listener. *)
Definition tunnel_config (serverCertPath serverKeyPath caCertPath : string) : prog hop (tls_config + string) :=
  let! c := LoadX509KeyPair serverCertPath serverKeyPath in
  match c with
  | inr e => Ret (inr ("failed to load server cert/key: " +:+ e))
  | inl serverCert =>
      let! r := trigger (ReadFile caCertPath) in
      match r with
      | inr e => Ret (inr ("failed to read ca cert: " +:+ e))
      | inl caPEM =>
          match AppendCertsFromPEM caPEM with
          | None => Ret (inr "failed to append ca cert")
          | Some clientCAs => Ret (inl {| Certificates := [serverCert]; RootCAs := None;
                                          ClientAuth := RequireAndVerifyClientCert; ClientCAs := Some clientCAs;
                                          MinVersion := VersionTLS12 |})
          end
      end
  end.
End tls.

(** ** The identity of a server *)

Definition IdentityUpstreamID : Z := 0.
Definition KubeletUpstreamID : Z := 1.

Record PlaneTunnelIdentity := { pti_Id : string; NumberOfInstances : Z }.

Class IdentityCodec := {
  marshal_identity : PlaneTunnelIdentity → string;
  unmarshal_identity : string → option PlaneTunnelIdentity;
}.

(** [encoding/json] reads back what it wrote. *)
Class IdentityCodecLaws `{IdentityCodec} :=
  unmarshal_marshal i : unmarshal_identity (marshal_identity i) = Some i.

(** What the identity upstream of the server [id] sends; [lookup] is the answer of the
    resolver at that time. *)
Definition identity_payload `{IdentityCodec} (id replicaDiscoveryDNS : string)
    (lookup : string → option (list string)) : string :=
  marshal_identity {| pti_Id := id; NumberOfInstances := resolveReplicaCount lookup replicaDiscoveryDNS |}.

(** ** Calls *)

Inductive wop : Type → Type :=
| TlsDial (addr : string) : wop (nat + string)
(** [outbound.Client] makes a session of a connection. *)
| OutboundClient (conn : nat) : wop (option string)
(** [tunnel.Dial]: a stream to an upstream of the peer. *)
| TunnelDial (conn : nat) (upstream : Z) : wop (nat + string)
| ReadAll (stream : nat) : wop (string + string)
| StreamClose (stream : nat) : wop unit
| ConnClose (conn : nat) : wop unit
(** [tunnel.Close] closes the session and its connection. *)
| TunnelClose (conn : nat) : wop unit.

Record wires := {
  open_conns : gset nat;
  (** The open streams with the upstream they were opened for. *)
  open_streams : gmap nat Z;
}.

Section wire_spec.
(** What the upstreams of the peer send. *)
Context (served : Z → string → Prop).

Definition wire_spec : op_spec wop wires := λ R o,
  match o in wop R return wires → (R → wires → Prop) → Prop with
  | TlsDial addr => λ s Q, (∀ m, Q (inr m) s) ∧
      ∀ c, c ∉ open_conns s →
        Q (inl c) {| open_conns := {[c]} ∪ open_conns s; open_streams := open_streams s |}
  | OutboundClient c => λ s Q, c ∈ open_conns s ∧ (∀ m, Q (Some m) s) ∧ Q None s
  | TunnelDial c u => λ s Q, c ∈ open_conns s ∧ (∀ m, Q (inr m) s) ∧
      ∀ st, open_streams s !! st = None →
        Q (inl st) {| open_conns := open_conns s; open_streams := <[st := u]> (open_streams s) |}
  | ReadAll st => λ s Q, ∃ u, open_streams s !! st = Some u ∧ (∀ m, Q (inr m) s) ∧
      ∀ data, served u data → Q (inl data) s
  | StreamClose st => λ s Q,
      Q tt {| open_conns := open_conns s; open_streams := delete st (open_streams s) |}
  | ConnClose c | TunnelClose c => λ s Q,
      Q tt {| open_conns := open_conns s ∖ {[c]}; open_streams := open_streams s |}
  end.

#[global] Instance wire_spec_mono : Monotone wire_spec.
Proof. intros R o s Q Q' HQ H. destruct o; simpl in *; naive_solver. Qed.
End wire_spec.

(** ** The agent *)

Section agent.
Context `{J : IdentityCodec}.

(** Every return closes the stream. *)
Definition fetchIdentity (tunnel : nat) : prog wop (PlaneTunnelIdentity + string) :=
  let! d := trigger (TunnelDial tunnel IdentityUpstreamID) in
  match d with
  | inr e => Ret (inr ("failed to dial identity upstream: " +:+ e))
  | inl stream =>
      let! b := trigger (ReadAll stream) in
      let! _ := trigger (StreamClose stream) in
      match b with
      | inr e => Ret (inr ("failed to read identity response: " +:+ e))
      | inl data =>
          match unmarshal_identity data with
          | None => Ret (inr "failed to unmarshal identity")
          | Some ident => Ret (inl ident)
          end
      end
  end.

Definition connect (tunnelServerAddr : string) : prog wop ((nat * PlaneTunnelIdentity) + string) :=
  let! d := trigger (TlsDial tunnelServerAddr) in
  match d with
  | inr e => Ret (inr ("failed to dial tunnel server: " +:+ e))
  | inl conn =>
      let! c := trigger (OutboundClient conn) in
      match c with
      | Some e =>
          let! _ := trigger (ConnClose conn) in
          Ret (inr ("failed to create outbound session: " +:+ e))
      | None =>
          let! i := fetchIdentity conn in
          match i with
          | inr e => let! _ := trigger (TunnelClose conn) in Ret (inr e)
          | inl ident => Ret (inl (conn, ident))
          end
      end
  end.
End agent.

(** ** Properties *)

Section connecting.
Context `{J : IdentityCodec} (served : Z → string → Prop).

Lemma wp_wop {R A} (o : wop R) (k : R → prog wop A) s Q :
  wire_spec served R o s (λ r s', wp (wire_spec served) (k r) s' Q) →
  wp (wire_spec served) (bind (trigger o) k) s Q.
Proof. done. Qed.

Lemma wp_fetchIdentity tunnel s :
  tunnel ∈ open_conns s →
  wp (wire_spec served) (fetchIdentity tunnel) s (λ r s', s' = s ∧
    ∀ i, r = inl i → ∃ data, served IdentityUpstreamID data ∧ unmarshal_identity data = Some i).
Proof.
  intros Ht. unfold fetchIdentity. apply wp_wop. split; [done|]. split; [done|]. intros stream Hst.
  assert (∀ s1, s1 = {| open_conns := open_conns s; open_streams := delete stream (<[stream := IdentityUpstreamID]> (open_streams s)) |} →
    s1 = s) as Heq by (intros s1 ->; rewrite delete_insert_id by done; by destruct s).
  apply wp_wop. exists IdentityUpstreamID. split; [apply lookup_insert_eq|]. split.
  - intros m. apply wp_wop. cbn. split; [by apply Heq|done].
  - intros data Hd. apply wp_wop. cbn. destruct (unmarshal_identity data) as [i|] eqn:E; cbn.
    + split; [by apply Heq|]. intros i' [= <-]. by exists data.
    + split; [by apply Heq|done].
Qed.

Lemma wp_connect addr s :
  wp (wire_spec served) (connect addr) s (λ r s',
    match r with
    | inr _ => s' = s
    | inl (c, i) => (c ∉ open_conns s) ∧ open_conns s' = {[c]} ∪ open_conns s ∧ open_streams s' = open_streams s ∧
        ∃ data, served IdentityUpstreamID data ∧ unmarshal_identity data = Some i
    end).
Proof.
  unfold connect. apply wp_wop. split; [done|]. intros c Hc. set (s1 := Build_wires _ _).
  assert (c ∈ open_conns s1) as Hin by (cbn; set_solver).
  assert ({| open_conns := open_conns s1 ∖ {[c]}; open_streams := open_streams s1 |} = s) as Hback.
  { destruct s as [o st]. cbn in *. f_equal. set_solver. }
  apply wp_wop. split; [done|]. split; [intros m; apply wp_wop; cbn; exact Hback|].
  eapply (wp_seq _ (fetchIdentity c)); [by apply wp_fetchIdentity|].
  intros [i|m] s2 [-> Hi].
  - cbn. split; [done|]. split; [done|]. split; [done|]. by apply Hi.
  - apply wp_wop. cbn. exact Hback.
Qed.
End connecting.

(** The addresses found under the name for discovery; no name, no addresses. *)
Definition found_instances (lookup : string → option (list string)) (dns : string) : Z :=
  if bool_decide (dns = "") then 0 else Z.of_nat (length (default [] (lookup dns))).

Lemma resolveReplicaCount_found lookup dns :
  resolveReplicaCount lookup dns = Z.max 1 (found_instances lookup dns).
Proof.
  unfold resolveReplicaCount, found_instances. case_bool_decide; [done|].
  destruct (lookup dns) as [addrs|]; [|done]. simpl. case_bool_decide; lia.
Qed.

(** C9.  Connecting to a server: whatever fails on the way, an unsuccessful [connect]
    leaves no connection and no stream open that was not open before; a successful one
    leaves exactly the new connection open, and the identity it returns is the one of
    the server, with as many instances as the resolver of the server had addresses
    when it served this identity ([lookup]), and one when it had none. *)
Theorem connect_identity `{J : IdentityCodec} `{L : !IdentityCodecLaws} id dns lookup addr s :
  let served u data := u = IdentityUpstreamID ∧ data = identity_payload id dns lookup in
  wp (wire_spec served) (connect addr) s (λ r s',
    match r with
    | inr _ => s' = s
    | inl (c, i) => (c ∉ open_conns s) ∧ open_conns s' = {[c]} ∪ open_conns s ∧ open_streams s' = open_streams s ∧
        pti_Id i = id ∧ NumberOfInstances i = Z.max 1 (found_instances lookup dns)
    end).
Proof.
  intros served. eapply (wp_mono _ (connect addr)); [apply wp_connect|].
  intros [[c i]|m] s'; [|done]. intros (Hc & Ho & Hs & data & (_ & ->) & Hu).
  unfold identity_payload in Hu. rewrite unmarshal_marshal in Hu. injection Hu as <-. cbn.
  rewrite resolveReplicaCount_found. by split_and!.
Qed.

(** *** The servers *)

Definition same_result {A S} (r1 r2 : option ((A + string) * S)) : Prop :=
  match r1, r2 with
  | Some (inl a1, s1), Some (inl a2, s2) => a1 = a2 ∧ s1 = s2
  | Some (inr _, s1), Some (inr _, s2) => s1 = s2
  | None, None => True
  | _, _ => False
  end.

(** The tunnel server builds its configuration itself; it is that of
    [SetupMTLSServerConfig], up to the text of an error. *)
Lemma tunnel_config_equivalent `{X : X509} pair cert key ca {S} (h : handler hop S) s :
  same_result (run h (tunnel_config pair cert key ca) s) (run h (SetupMTLSServerConfig pair cert key ca) s).
Proof.
  unfold tunnel_config, SetupMTLSServerConfig, loadCertAndPool. rewrite !run_bind.
  destruct (run h (LoadX509KeyPair pair cert key) s) as [[[c|m] s1]|]; cbn; try done.
  destruct (h _ (ReadFile ca) s1) as [[[pem|m] s2]|]; cbn; try done.
  by destruct (AppendCertsFromPEM pem).
Qed.

(** Both servers take clients only with a certificate of the CA in their file, and an
    agent trusts only that CA; TLS 1.2 is the least. *)
Lemma wp_SetupMTLSServerConfig `{X : X509} e pair cert key ca s :
  wp (host_spec e) (SetupMTLSServerConfig pair cert key ca) s (λ r s', s' = s ∧ ∀ cfg, r = inl cfg →
    ClientAuth cfg = RequireAndVerifyClientCert ∧ MinVersion cfg = VersionTLS12 ∧
    ∃ pem pool, h_files s !! ca = Some pem ∧ AppendCertsFromPEM pem = Some pool ∧ ClientCAs cfg = Some pool).
Proof.
  unfold SetupMTLSServerConfig, loadCertAndPool, LoadX509KeyPair. apply wp_bind; [apply _|].
  apply wp_bind; [apply _|]. apply wp_read; [done|]. intros c _. apply wp_read; [done|]. intros k _.
  destruct (pair c k); [done|]. cbn [wp]. apply wp_read; [done|]. intros pem Hpem.
  destruct (AppendCertsFromPEM pem) as [pool|] eqn:E; cbn; [|done].
  split; [done|]. intros cfg [= <-]. cbn. split; [done|]. split; [done|]. by exists pem, pool.
Qed.

(** ** Witness *)

#[export] Instance pti_eq_dec : EqDecision PlaneTunnelIdentity.
Proof. solve_decision. Defined.

Definition ref_codec_identity : IdentityCodec := {|
  marshal_identity := λ i, enc (pti_Id i, NumberOfInstances i);
  unmarshal_identity := λ data, match dec data with Some (i, n) => Some {| pti_Id := i; NumberOfInstances := n |} | None => None end |}.

Lemma ref_codec_identity_laws : @IdentityCodecLaws ref_codec_identity.
Proof. intros [i n]. cbn -[enc dec]. by rewrite dec_enc. Qed.

(** A network on which every call succeeds; the identity upstream sends [payload]. *)
Definition lab (payload : string) : handler wop wires := λ R o,
  match o in wop R return wires → option (R * wires) with
  | TlsDial addr => λ s, let c := fresh (open_conns s) in
      Some (inl c, {| open_conns := {[c]} ∪ open_conns s; open_streams := open_streams s |})
  | OutboundClient c => λ s, Some (None, s)
  | TunnelDial c u => λ s, let st := fresh (dom (open_streams s)) in
      Some (inl st, {| open_conns := open_conns s; open_streams := <[st := u]> (open_streams s) |})
  | ReadAll st => λ s,
      Some (if decide (open_streams s !! st = Some IdentityUpstreamID) then inl payload else inr "no such upstream", s)
  | StreamClose st => λ s,
      Some (tt, {| open_conns := open_conns s; open_streams := delete st (open_streams s) |})
  | ConnClose c | TunnelClose c => λ s,
      Some (tt, {| open_conns := open_conns s ∖ {[c]}; open_streams := open_streams s |})
  end.

Lemma lab_implements payload (served : Z → string → Prop) :
  served IdentityUpstreamID payload → Implements (lab payload) (wire_spec served) False.
Proof.
  intros Hp R o s Q H. destruct o; simpl in *; try done.
  - destruct H as [_ H]. apply H. apply is_fresh.
  - by destruct H as (_ & _ & H).
  - destruct H as (_ & _ & H). apply H. apply not_elem_of_dom, is_fresh.
  - destruct H as (u & Hu & Hm & Hd). case_decide as E; [|apply Hm]. apply Hd.
    rewrite Hu in E. by injection E as ->.
Qed.

Definition three_replicas (dns : string) : option (list string) := Some ["10.0.0.1"; "10.0.0.2"; "10.0.0.3"].

Lemma connect_identity_witness :
  let s := {| open_conns := {[7]}; open_streams := ∅ |} in
  let payload := identity_payload (H := ref_codec_identity) "server-1" "tunnel.svc" three_replicas in
  ∃ c s', run (lab payload) (connect (J := ref_codec_identity) "tunnel:8443") s =
      Some (inl (c, {| pti_Id := "server-1"; NumberOfInstances := 3 |}), s') ∧
    (c ∉ open_conns s) ∧ open_conns s' = {[c]} ∪ open_conns s ∧ open_streams s' = open_streams s.
Proof.
  intros s payload.
  pose proof (connect_identity (J := ref_codec_identity) (L := ref_codec_identity_laws) "server-1" "tunnel.svc"
    three_replicas "tunnel:8443" s) as Hwp. cbv zeta in Hwp.
  apply (wp_run _ (lab payload) False (Implements0 := lab_implements payload _
    (conj eq_refl eq_refl))) in Hwp.
  assert (match run (lab payload) (connect (J := ref_codec_identity) "tunnel:8443") s with
    | Some (inl (_, i), _) => bool_decide (i = {| pti_Id := "server-1"; NumberOfInstances := 3 |}) | _ => false end = true)
    as E by (vm_compute; reflexivity).
  destruct (run (lab payload) _ s) as [[[[c i]|m] s']|]; [|discriminate E..].
  apply bool_decide_eq_true in E as ->. exists c, s'. split; [reflexivity|].
  destruct Hwp as (H1 & H2 & H3 & _). split; [exact H1|]. split; [exact H2|exact H3].
Defined.

(** ** Clean-up functions: src/pkg/cleanup/cleanup.go

    The list of functions to call, here by what they do: [A] is an action. *)

Module Cleanup.
Record Cleanup (A : Type) := { cleaners : list A }.
Arguments cleaners {A} c.

Definition Make {A} (f : A) : Cleanup A := {| cleaners := [f] |}.

Definition Add {A} (c : Cleanup A) (f : A) : Cleanup A := {| cleaners := cleaners c ++ [f] |}.

(** The loop from the last one down: the calls in their order. *)
Fixpoint clean_from {A} (fs : list A) (i : nat) : list A :=
  match i with
  | 0 => []
  | S j => match fs !! j with Some f => f :: clean_from fs j | None => clean_from fs j end
  end.

Definition clean {A} (fs : list A) : list A := clean_from fs (length fs).

(** The calls that are made, and what is left. *)
Definition Clean {A} (c : Cleanup A) : list A * Cleanup A := (clean (cleaners c), {| cleaners := [] |}).

(** The calls of the function it returns. *)
Definition Release {A} (c : Cleanup A) : list A * Cleanup A := (clean (cleaners c), {| cleaners := [] |}).

Lemma clean_from_app {A} (fs gs : list A) i : i ≤ length fs → clean_from (fs ++ gs) i = clean_from fs i.
Proof.
  induction i as [|i IH]; intros Hi; cbn; [done|]. rewrite lookup_app_l by lia. by rewrite IH by lia.
Qed.

Lemma clean_rev {A} (fs : list A) : clean fs = reverse fs.
Proof.
  induction fs as [|f fs IH] using rev_ind; [done|]. unfold clean. rewrite length_app, Nat.add_comm. cbn.
  rewrite list_lookup_middle by done. rewrite clean_from_app by lia. rewrite reverse_snoc. f_equal. exact IH.
Qed.

(** Every function is called once, the last that was added first; none after
    [Release], which is what keeps a registered connection open. *)
Lemma Clean_once {A} (f : A) (fs : list A) :
  let c := foldl Add (Make f) fs in
  (Clean c).1 = reverse (f :: fs) ∧ (Clean (Clean c).2).1 = [] ∧ (Clean (Release c).2).1 = [] ∧
  (Release c).1 = reverse (f :: fs).
Proof.
  intros c. assert (cleaners c = f :: fs) as Hc.
  { unfold c. clear c. assert (∀ d, cleaners (foldl Add d fs) = cleaners d ++ fs) as H; [|apply H].
    induction fs as [|g fs IH]; intros d; cbn; [by rewrite app_nil_r|]. rewrite IH. cbn. by rewrite <- app_assoc. }
  cbn. rewrite Hc, !clean_rev. done.
Qed.
End Cleanup.
