(* ===== verification/Worker.v ===== *)
(** * Provisioning a worker

    src/pkg/provision/worker: joining a node to a cluster (join.go), starting the
    worker (worker.go: directories, kernel settings, endpoints of the API server,
    bootstrap, profile, set-up of the components), and the set-up of containerd, the
    kubelet and the CNI plugins (component).

    Parameters: [net/url], the archives embedded in the binary, the serialisers of
    systemd units and TOML, and the plane tunnel agent.  A range over a map is a list
    in the order in which the entries are visited. *)

From S2P Require Import Prelude Base64 Numbers Effects Kube Api Pki PkiAuth World Host Bootstrap Proxy Procmgr.
From S2P Require Import Token JoinToken Provision.
From stdpp Require Import options.

Class WorkerLibraries := {
  (** [url.Parse], then [Hostname] and [Port]. *)
  parse_url : string → option (string * string);
  (** An embedded file, decompressed; an embedded tar archive: for each entry its
      name, whether it is a regular file, and its content, and after the last one the
      end of the archive or the error of [tr.Next].  Either may not open.  A
      stream that breaks while a file is copied is a failure of [CopyToFile]. *)
  embedded : string → string + string;
  embedded_tar : string → (list (string * bool * string) * option string) + string;
  GOARCH : string;
  (** [unit.Serialize] and [toml.Marshal] of the containerd configuration. *)
  serialize_unit : list (string * string * string) → string;
  marshal_containerd : string → string + string;
  (** [agent.New] for the address of the tunnel. *)
  new_agent : string → option string;
}.

Section worker.
Context `{X : X509} `{N : NodeLibraries} `{RT : Retry} `{W : WorkerLibraries}.

(** ** Directories *)

Definition directories (wrkCtx : WorkerContext) : list string :=
  [BinDir wrkCtx; KubeletStateDir wrkCtx; KubeletPKIPath wrkCtx; KubeletStaticPodPath wrkCtx;
   ContainerdState wrkCtx; ContainerdRoot wrkCtx; ContainerdDropInConfiguration wrkCtx;
   CNIBinFolderPath wrkCtx; Dir (KubeletPKICaCertPath wrkCtx); Dir (KubeletConfigFile wrkCtx);
   Dir (KubeletLogFile wrkCtx); Dir (ContainerdConfig wrkCtx); Dir (ContainerdAddress wrkCtx)].

Definition createDirectories (wrkCtx : WorkerContext) : prog hop (option string) :=
  let! r := for_each (directories wrkCtx) (λ dir,
    let! e := trigger (MkdirAll dir) in
    match e with
    | Some e => Ret (inl ("failed to create directory " +:+ dir +:+ ": " +:+ e))
    | None => Ret (inr tt)
    end) in
  match r with inl e => Ret (Some e) | inr _ => Ret None end.

(** ** The kernel: sys/setup.go *)

Definition loadKernelModule (moduleName : string) : prog hop unit :=
  let! st := trigger (Stat ("/sys/module/" +:+ moduleName)) in
  match st with
  | IsFile | IsDir => Ret tt
  | _ => let! _ := trigger (Modprobe moduleName) in Ret tt
  end.

Definition kernel_modules : list string :=
  ["overlay"; "nf_conntrack"; "br_netfilter"; "iptable_nat"; "iptable_filter"; "nft-expr-counter";
   "nfnetlink-subsys-11"; "nft-chain-2-nat"].

Definition sysctls : list (string * Z) :=
  [("net/ipv4/conf/all/forwarding", 1%Z); ("net/ipv4/conf/default/forwarding", 1%Z);
   ("net/bridge/bridge-nf-call-iptables", 1%Z)].

Definition set_sysctl (entry : string * Z) : prog hop unit :=
  let! val := trigger (GetSysctl entry.1) in
  if bool_decide (val = entry.2) then Ret tt
  else let! _ := trigger (SetSysctl entry.1 entry.2) in Ret tt.

(** Failures are logged. *)
Definition Configure : prog hop unit :=
  let! _ := for_each (B := unit) kernel_modules (λ m, let! _ := loadKernelModule m in Ret (inr tt)) in
  let! _ := for_each (B := unit) sysctls (λ e, let! _ := set_sysctl e in Ret (inr tt)) in
  Ret tt.

(** ** The endpoints of the API server *)

Definition endpointsFromAddresses (hosts : list string) (port : Z) : list Endpoint :=
  (λ h, MkEndpoint h port) <$> hosts.

(** The loop over the clusters of the kubeconfig, with the hosts seen so far. *)
Fixpoint cluster_endpoints (seen : list string) (servers : list string) : list Endpoint :=
  match servers with
  | [] => []
  | server :: l =>
      if bool_decide (server = "") then cluster_endpoints seen l
      else match parse_url server with
           | None => cluster_endpoints seen l
           | Some (host, p) =>
               if bool_decide (host = "") then cluster_endpoints seen l
               else if bool_decide (host ∈ seen) then cluster_endpoints seen l
               else
                 let port := if bool_decide (p = "") then 443%Z else default 443%Z (Atoi p) in
                 MkEndpoint host port :: cluster_endpoints (host :: seen) l
           end
  end.

(** [order] is the order of the range over the clusters. *)
Definition parseEndpointsFromBootstrapKubeconfig (order : gmap string Cluster → list Cluster)
    (kubeconfigPath : string) : prog hop (list Endpoint + string) :=
  let! r := trigger (ReadFile kubeconfigPath) in
  match r with
  | inr e => Ret (inr ("failed to load bootstrap kubeconfig: " +:+ e))
  | inl data =>
      match LoadKubeconfig data with
      | None => Ret (inr "failed to load bootstrap kubeconfig")
      | Some cfg => Ret (inl (cluster_endpoints [] (kcl_server <$> order (kc_clusters cfg))))
      end
  end.

Definition profile_endpoints (n : NodeProfile) : list Endpoint :=
  endpointsFromAddresses [ce_host (cpe_apiServer (np_endpoint n))] (ce_port (cpe_apiServer (np_endpoint n))).

Definition resolveInitialAPIServerEndpoints (order : gmap string Cluster → list Cluster)
    (wrkCtx : WorkerContext) : prog hop (list Endpoint + string) :=
  let! st := trigger (Stat (NodeProfileLocalFilePath wrkCtx)) in
  match st with
  | IsFile | IsDir =>
      let! p := Load (NodeProfileLocalFilePath wrkCtx) in
      match p with inr e => Ret (inr e) | inl n => Ret (inl (profile_endpoints n)) end
  | NotExist => parseEndpointsFromBootstrapKubeconfig order (KubeletBootstrapKubeconfigPath wrkCtx)
  | StatError e => Ret (inr ("failed to stat node profile: " +:+ e))
  end.

(** ** Extracting the embedded files: component/decompress.go *)

Definition embedPath (src : string) : string :=
  "worker/" +:+ GOARCH +:+ "/" +:+ TrimPrefix src "worker/".

Definition extractStreamed (src dst : string) : prog hop (option string) :=
  let! st := trigger (Stat dst) in
  match st with
  | IsFile | IsDir => Ret None
  | _ =>
      match embedded (embedPath src +:+ ".zst") with
      | inr e => Ret (Some e)
      | inl content => trigger (CopyToFile dst content)
      end
  end.

Definition extractTarZstFrom (src dstDir : string) : prog hop (option string) :=
  match embedded_tar (embedPath src) with
  | inr e => Ret (Some e)
  | inl (entries, next_error) =>
      let! r := for_each entries (λ '(hname, regular, content),
        if negb regular then Ret (inr tt)
        else
          let name := Base hname in
          let dst := JoinPath [dstDir; name] in
          let! st := trigger (Stat dst) in
          match st with
          | IsFile | IsDir => Ret (inr tt)
          | _ =>
              let! e := trigger (CopyToFile dst content) in
              match e with
              | Some e => Ret (inl ("extracting " +:+ name +:+ ": " +:+ e))
              | None => Ret (inr tt)
              end
          end) in
      match r with inl e => Ret (Some e) | inr _ => Ret next_error end
  end.

(** The loop over the binaries of a component. *)
Definition extract_all (binaries : list (string * string)) : prog hop (option string) :=
  let! r := for_each binaries (λ '(src, dst),
    let! e := extractStreamed src dst in
    match e with
    | Some e => Ret (inl ("failed to extract " +:+ src +:+ ": " +:+ e))
    | None => Ret (inr tt)
    end) in
  match r with inl e => Ret (Some e) | inr _ => Ret None end.

(** ** The components *)

Definition newline : string := String (Ascii.ascii_of_nat 10) "".

Definition containerd_header (wrkCtx : WorkerContext) : string :=
  "# This file is managed by Heir. Do not edit it manually; your changes will be overwritten." +:+ newline +:+
  "# Drop additional config files into " +:+ ContainerdDropInConfiguration wrkCtx +:+ " instead." +:+ newline.

Definition Containerd_Setup (wrkCtx : WorkerContext) : prog hop (option string) :=
  let bin name := ("worker/" +:+ name, JoinPath [BinDir wrkCtx; name]) in
  let! e := extract_all [bin "containerd"; bin "containerd-shim-runc-v2"; bin "runc"; bin "crictl"] in
  match e with
  | Some e => Ret (Some e)
  | None =>
      match marshal_containerd (JoinPath [ContainerdDropInConfiguration wrkCtx; "*.toml"]) with
      | inr e => Ret (Some ("failed to marshal cri config: " +:+ e))
      | inl conf =>
          let! w := trigger (WriteFile (ContainerdConfig wrkCtx) (containerd_header wrkCtx +:+ conf)) in
          match w with
          | Some e => Ret (Some ("failed to write containerd config: " +:+ e))
          | None => Ret None
          end
      end
  end.

Definition Kubelet_Setup (wrkCtx : WorkerContext) (nodeProfile : NodeProfile) : prog hop (option string) :=
  let! e := extract_all [("worker/kubelet", JoinPath [BinDir wrkCtx; "kubelet"])] in
  match e with
  | Some e => Ret (Some e)
  | None =>
      let! w := trigger (WriteFile (KubeletConfigFile wrkCtx) (np_kubeletConfiguration nodeProfile)) in
      match w with
      | Some e => Ret (Some ("failed to write containerd config: " +:+ e))
      | None => Ret None
      end
  end.

Definition Cni_Setup (wrkCtx : WorkerContext) : prog hop (option string) :=
  let! e := extractTarZstFrom "worker/cni.tar.zst" (CNIBinFolderPath wrkCtx) in
  match e with
  | Some e => Ret (Some ("failed to extract CNI binaries: " +:+ e))
  | None => Ret None
  end.

Definition containerd_component (wrkCtx : WorkerContext) : Component := {|
  Name := "containerd"; BinPath := JoinPath [BinDir wrkCtx; "containerd"];
  Args := ["--state=" +:+ ContainerdState wrkCtx; "--root=" +:+ ContainerdRoot wrkCtx;
           "--address=" +:+ ContainerdAddress wrkCtx; "--config=" +:+ ContainerdConfig wrkCtx];
  Env := ["PATH=" +:+ BinDir wrkCtx +:+ ":/usr/local/sbin:/usr/local/bin:/usr/sbin:/usr/bin:/sbin:/bin"];
  EnvInherit := false; EnvPrefix := ""; MaxRetries := 5; InitialBackoff := 1; MaxBackoff := 30;
  StopTimeout := 10 |}.

(** The arguments of the kubelet: the worker_defaults, overridden by those of the profile,
    overridden by those of the command line. *)
Definition kubelet_args (wrkCtx : WorkerContext) (nodeProfile : NodeProfile) : gmap string string :=
  entries (KubeletExtraArgs wrkCtx) ∪ entries (np_kubeletExtraArgs nodeProfile) ∪
  {[ "kubeconfig" := KubeletKubeConfigPath wrkCtx; "config" := KubeletConfigFile wrkCtx;
     "containerd" := ContainerdAddress wrkCtx; "cert-dir" := KubeletPKIPath wrkCtx; "v" := "2" ]}.

Definition kubelet_component (wrkCtx : WorkerContext) (args : list (string * string)) : Component := {|
  Name := "kubelet"; BinPath := JoinPath [BinDir wrkCtx; "kubelet"];
  Args := (λ kv, "--" +:+ kv.1 +:+ "=" +:+ kv.2) <$> args;
  Env := []; EnvInherit := false; EnvPrefix := ""; MaxRetries := 5; InitialBackoff := 1; MaxBackoff := 30;
  StopTimeout := 10 |}.

(** ** Joining: join.go *)

Definition unitName : string := "heir.service".
Definition unitPath : string := "/etc/systemd/system/heir.service".

(** [order] are the arguments in the order of the range. *)
Definition serializeExtraArgs (order : list (string * string)) : string :=
  Join ((λ kv, kv.1 +:+ "=" +:+ kv.2) <$> order) ",".

Definition exec_start (wrkCtx : WorkerContext) (order : list (string * string)) : string :=
  let extra := serializeExtraArgs order in
  HeirRuntimeBin wrkCtx +:+ " worker" +:+
  (if bool_decide (extra = "") then "" else " --kubelet-extra-args=" +:+ extra).

Definition unit_options (execStart : string) : list (string * string * string) :=
  [("Unit", "Description", "Heir Worker Node Agent");
   ("Unit", "After", "network-online.target");
   ("Unit", "Wants", "network-online.target");
   ("Service", "ExecStart", execStart);
   ("Service", "Restart", "always");
   ("Service", "RestartSec", "5");
   ("Service", "KillMode", "process");
   ("Service", "Delegate", "yes");
   ("Install", "WantedBy", "multi-user.target")].

Definition installSystemdUnit (wrkCtx : WorkerContext) (order : list (string * string)) :
    prog hop (option string) :=
  let! w := trigger (WriteFile unitPath (serialize_unit (unit_options (exec_start wrkCtx order)))) in
  match w with
  | Some e => Ret (Some ("failed to write unit file: " +:+ e))
  | None =>
      (* the connection to systemd is part of the reload *)
      let! r := trigger Reload in
      match r with
      | Some e => Ret (Some ("systemd daemon-reload failed: " +:+ e))
      | None =>
          let! en := trigger (EnableUnit unitPath) in
          match en with
          | Some e => Ret (Some ("failed to enable unit " +:+ unitName +:+ ": " +:+ e))
          | None =>
              let! st := trigger (StartUnit unitName) in
              match st with
              | inr e => Ret (Some ("failed to start unit " +:+ unitName +:+ ": " +:+ e))
              | inl result =>
                  if bool_decide (result = "done") then Ret None
                  else Ret (Some ("unit " +:+ unitName +:+ " start job finished with result " +:+ result))
              end
          end
      end
  end.

(** An error of [os.Stat] other than that there is no such file is only logged. *)
Definition installSelf (dst : string) : prog hop (option string) :=
  let! st := trigger (Stat dst) in
  match st with
  | IsFile | IsDir => Ret None
  | _ =>
      let! src := trigger Executable in
      match src with
      | inr e => Ret (Some ("could not determine executable path: " +:+ e))
      | inl src =>
          let! d := trigger (MkdirAll (Dir dst)) in
          match d with
          | Some e => Ret (Some ("could not create install directory: " +:+ e))
          | None =>
              let! r := trigger (ReadFile src) in
              match r with
              | inr e => Ret (Some e)
              | inl content => trigger (WriteFile dst content)
              end
          end
      end
  end.

Definition worker_Join (token : string) (wrkCtx : WorkerContext) (order : list (string * string)) :
    prog hop (option string) :=
  let! e := createDirectories wrkCtx in
  match e with
  | Some e => Ret (Some ("failed to create config directories: " +:+ e))
  | None =>
      let! s := SaveBootstrapKubeconfig token (KubeletBootstrapKubeconfigPath wrkCtx) (KubeletPKICaCertPath wrkCtx) in
      match s with
      | Some e => Ret (Some ("failed to save bootstrap kubeconfig: " +:+ e))
      | None =>
          let! i := installSelf (HeirRuntimeBin wrkCtx) in
          match i with
          | Some e => Ret (Some ("failed to install binary: " +:+ e))
          | None =>
              let! u := installSystemdUnit wrkCtx order in
              match u with
              | Some e => Ret (Some ("failed to register systemd unit: " +:+ e))
              | None => Ret None
              end
          end
      end
  end.

(** ** Starting: the part of [Run] up to the start of the components *)

Inductive Runner := RContainerd | RKubelet (profile : NodeProfile) | RCni.

Definition runner_Setup (wrkCtx : WorkerContext) (r : Runner) : prog hop (option string) :=
  match r with
  | RContainerd => Containerd_Setup wrkCtx
  | RKubelet profile => Kubelet_Setup wrkCtx profile
  | RCni => Cni_Setup wrkCtx
  end.

Definition runners (profile : NodeProfile) : list Runner :=
  [RContainerd; RKubelet profile] ++
  (if bool_decide (np_cniProvider profile ∈ ["flannel"]) then [RCni] else []).

Definition setup_all (wrkCtx : WorkerContext) (rs : list Runner) : prog hop (option string) :=
  let! r := for_each rs (λ rn,
    let! e := runner_Setup wrkCtx rn in
    match e with Some e => Ret (inl ("failed to setup: " +:+ e)) | None => Ret (inr tt) end) in
  match r with inl e => Ret (Some e) | inr _ => Ret None end.

(** What runs afterwards: the endpoints the proxy was seeded with, those of the
    profile it was updated to, and the components. *)
Record started := {
  initial_endpoints : list Endpoint;
  final_endpoints : list Endpoint;
  started_runners : list Runner;
}.

Definition tunnel_address (profile : NodeProfile) : string :=
  ce_host (cpe_planeTunnel (np_endpoint profile)) +:+ ":" +:+
  FormatInt (ce_port (cpe_planeTunnel (np_endpoint profile))).

Definition Start (order : gmap string Cluster → list Cluster) (wrkCtx : WorkerContext) (hostname : string) :
    prog hop (started + string) :=
  let! d := createDirectories wrkCtx in
  match d with
  | Some e => Ret (inr ("failed to create config directories: " +:+ e))
  | None =>
      let! _ := Configure in
      let! eps := resolveInitialAPIServerEndpoints order wrkCtx in
      match eps with
      | inr e => Ret (inr ("failed to resolve initial API server endpoints: " +:+ e))
      | inl initialEndpoints =>
          let! b := BootstrapKubeletClientConfig wrkCtx hostname in
          match b with
          | Some e => Ret (inr ("failed to perform TLS bootstrap: " +:+ e))
          | None =>
              let! p := ReadWorkerNodeProfile wrkCtx in
              match p with
              | inr e => Ret (inr ("failed to read worker node profile: " +:+ e))
              | inl profile =>
                  match new_agent (tunnel_address profile) with
                  | Some e => Ret (inr ("failed to setup plane tunnel agent: " +:+ e))
                  | None =>
                      let rs := runners profile in
                      let! s := setup_all wrkCtx rs in
                      match s with
                      | Some e => Ret (inr e)
                      | None => Ret (inl {| initial_endpoints := initialEndpoints;
                                            final_endpoints := profile_endpoints profile;
                                            started_runners := rs |})
                      end
                  end
              end
          end
      end
  end.
End worker.

(** ** Properties: joining *)

Section join.
Context `{X : X509} `{N : NodeLibraries} `{W : WorkerLibraries}.
Context (wrkCtx : WorkerContext).

Definition join_files : list string :=
  [KubeletBootstrapKubeconfigPath wrkCtx; KubeletPKICaCertPath wrkCtx; HeirRuntimeBin wrkCtx; unitPath].

Definition join_env : host_env := {|
  he_cluster := {| rely := eq; allowed := λ _ _, False; may_panic := False |};
  he_writes := λ p, p ∈ join_files; he_requests := λ _, False; he_panic := False |}.

Lemma wp_createDirectories e s :
  wp (host_spec e) (createDirectories wrkCtx) s (λ _ s', h_files s' = h_files s ∧ h_running s' = h_running s).
Proof using Type.
  unfold createDirectories.
  eapply (wp_seq _ (for_each _ _) _ _ (λ _ s', h_files s' = h_files s ∧ h_running s' = h_running s));
    [|by intros [] s'].
  apply (wp_for_each _ _ _ (λ s', h_files s' = h_files s ∧ h_running s' = h_running s)); [done| |done].
  intros dir s1 _ H1. apply wp_hop. by split.
Qed.

Lemma wp_installSelf s :
  wp (host_spec join_env) (installSelf (HeirRuntimeBin wrkCtx)) s
    (λ _ s', only_files [HeirRuntimeBin wrkCtx] s s').
Proof using Type.
  unfold installSelf. apply wp_stat. intros st _ _ _.
  assert (wp (host_spec join_env)
    (let! src := trigger Executable in
      match src with
      | inr e => Ret (Some ("could not determine executable path: " +:+ e))
      | inl src =>
          let! d := trigger (MkdirAll (Dir (HeirRuntimeBin wrkCtx))) in
          match d with
          | Some e => Ret (Some ("could not create install directory: " +:+ e))
          | None =>
              let! r := trigger (ReadFile src) in
              match r with
              | inr e => Ret (Some e)
              | inl content => trigger (WriteFile (HeirRuntimeBin wrkCtx) content)
              end
          end
      end) s (λ _ s', only_files [HeirRuntimeBin wrkCtx] s s')) as Hinstall; [|by destruct st].
  apply wp_hop. split; [done|]. intros src. apply wp_hop. split; [done|].
  apply wp_read; [done|]. intros content _. cbn [wp trigger host_spec]. split; [cbn; set_solver|].
  split; [intros m x|intros _].
  - by apply only_files_alter; [set_solver|].
  - by apply only_files_insert; [set_solver|].
Qed.

Lemma wp_installSystemdUnit order s :
  wp (host_spec join_env) (installSystemdUnit wrkCtx order) s (λ r s',
    only_files [unitPath] s s' ∧
    (r = None → h_running s' = true ∧
       h_files s' !! unitPath = Some (serialize_unit (unit_options (exec_start wrkCtx order))))).
Proof using Type.
  unfold installSystemdUnit.
  apply wp_write; [cbn; set_solver|intros m x; split; [by apply only_files_alter; [set_solver|]|done]|].
  set (s1 := with_files _ s). assert (only_files [unitPath] s s1) as H1 by (by apply only_files_insert; [set_solver|]).
  cbv beta iota. apply wp_hop. split; [by split|]. cbv beta iota. apply wp_hop.
  split; [by split|]. intros _. cbv beta iota. apply wp_hop. split; [by split|]. split.
  - intros r Hr. cbv beta iota. by rewrite bool_decide_eq_false_2.
  - split; [done|]. intros _. split; [done|]. cbn. by rewrite lookup_insert_eq.
Qed.
Context (Hpaths : NoDup join_files).

Lemma join_paths :
  KubeletBootstrapKubeconfigPath wrkCtx ≠ KubeletPKICaCertPath wrkCtx ∧
  (HeirRuntimeBin wrkCtx ∉ [KubeletBootstrapKubeconfigPath wrkCtx; KubeletPKICaCertPath wrkCtx]) ∧
  unitPath ∉ [KubeletBootstrapKubeconfigPath wrkCtx; KubeletPKICaCertPath wrkCtx; HeirRuntimeBin wrkCtx].
Proof using Hpaths.
  unfold join_files in Hpaths. rewrite !NoDup_cons in Hpaths. destruct Hpaths as (H1 & H2 & H3 & _). set_solver.
Qed.

End join.

Section composition.
Context `{X : X509} `{N : NodeLibraries} `{W : WorkerLibraries}.
Context (wrkCtx : WorkerContext).

Lemma wp_worker_Join token order s :
  NoDup (join_files wrkCtx) →
  wp (host_spec (join_env wrkCtx)) (worker_Join token wrkCtx order) s (λ r s',
    only_files (join_files wrkCtx) s s' ∧
    (r = None → ∃ raw cfg ctx cl, DecodeString token = Some raw ∧ LoadKubeconfig raw = Some cfg ∧
       kc_contexts cfg !! kc_currentContext cfg = Some ctx ∧ kc_clusters cfg !! kx_cluster ctx = Some cl ∧
       h_files s' !! KubeletBootstrapKubeconfigPath wrkCtx = Some raw ∧
       h_files s' !! KubeletPKICaCertPath wrkCtx = Some (kcl_caData cl) ∧
       h_files s' !! unitPath = Some (serialize_unit (unit_options (exec_start wrkCtx order))) ∧
       h_running s' = true)).
Proof using Type.
  intros Hp. destruct (join_paths wrkCtx Hp) as (Hne & Hbin & Hunit).
  assert (∀ p s1 s2, p ∈ join_files wrkCtx → only_files (join_files wrkCtx) s s1 → only_files [p] s1 s2 →
    only_files (join_files wrkCtx) s s2) as Htrans.
  { intros p s1 s2 Hin H1 H2 q Hq. rewrite <- (H1 q) by done. apply H2. set_solver. }
  unfold worker_Join. eapply (wp_seq _ (createDirectories _)); [by apply wp_createDirectories|].
  intros [m|] s1 [Hf1 _]; [by split; [intros p _; rewrite Hf1|]|].
  assert (only_files (join_files wrkCtx) s s1) as H1 by (intros p _; by rewrite Hf1).
  eapply (wp_seq _ (SaveBootstrapKubeconfig _ _ _));
    [apply wp_SaveBootstrapKubeconfig; [cbn; set_solver|cbn; set_solver|done]|].
  intros r s2 [H2 Hs2].
  assert (only_files (join_files wrkCtx) s s2) as Ho2.
  { intros q Hq. rewrite <- (H1 q) by done. apply H2. unfold join_files in Hq. set_solver. }
  destruct r as [m|]; [by split|]. destruct (Hs2 eq_refl) as (raw & cfg & ctx & cl & Hd & Hl & Hx & Hc & Hb & Hca).
  eapply (wp_seq _ (installSelf _)); [by apply wp_installSelf|].
  intros r s3 H3. pose proof (Htrans (HeirRuntimeBin wrkCtx) s2 s3 ltac:(set_solver) Ho2 H3) as Ho3.
  destruct r as [m|]; [by split|].
  eapply (wp_seq _ (installSystemdUnit _ _)); [by apply wp_installSystemdUnit|].
  intros r s4 [H4 Hr]. pose proof (Htrans unitPath s3 s4 ltac:(set_solver) Ho3 H4) as Ho4.
  destruct r as [m|]; [by split|]. split; [done|]. intros _. destruct (Hr eq_refl) as [Hrun Hu].
  assert (∀ p, p ∈ [KubeletBootstrapKubeconfigPath wrkCtx; KubeletPKICaCertPath wrkCtx] →
    h_files s4 !! p = h_files s2 !! p) as Hkeep.
  { intros p Hin. rewrite (H4 p) by set_solver. apply H3. set_solver. }
  exists raw, cfg, ctx, cl. split_and!; try done; rewrite Hkeep by set_solver; done.
Qed.

(** The endpoints a worker without a profile starts with are those of its bootstrap
    kubeconfig. *)
Lemma wp_resolve_bootstrap e (visit : gmap string Cluster → list Cluster) raw cfg s :
  h_files s !! NodeProfileLocalFilePath wrkCtx = None →
  h_files s !! KubeletBootstrapKubeconfigPath wrkCtx = Some raw → LoadKubeconfig raw = Some cfg →
  wp (host_spec e) (resolveInitialAPIServerEndpoints visit wrkCtx) s (λ r s', s' = s ∧
    ∀ eps, r = inl eps → eps = cluster_endpoints [] (kcl_server <$> visit (kc_clusters cfg))).
Proof using Type.
  intros Hnone Hb Hl. unfold resolveInitialAPIServerEndpoints. apply wp_stat.
  intros [] Hf Hn Hd; [destruct (Hf eq_refl); congruence| | |by split].
  - eapply (wp_seq _ (Load _) _ _ (λ r s', s' = s ∧ ∃ m, r = inr m)).
    + apply wp_read; [intros m; split; [done|by eexists]|]. intros data Hdata. congruence.
    + by intros r s1 [-> [m ->]].
  - unfold parseEndpointsFromBootstrapKubeconfig. apply wp_read; [by split|].
    intros data Hdata. rewrite Hb in Hdata. injection Hdata as <-. rewrite Hl. split; [done|]. by intros eps [= <-].
Qed.
End composition.

(** A join whose calls succeed accepts every token that decodes to a kubeconfig whose current
    context leads to a cluster with a CA. *)
Lemma worker_Join_accepts `{X : X509} `{W : WorkerLibraries} token wrkCtx order raw cfg ctx cl :
  DecodeString token = Some raw → LoadKubeconfig raw = Some cfg →
  kc_contexts cfg !! kc_currentContext cfg = Some ctx → kc_clusters cfg !! kx_cluster ctx = Some cl →
  kcl_caData cl ≠ "" →
  answers host_up (worker_Join token wrkCtx order) (λ r, r = None).
Proof.
  intros Hd Hl Hx Hc Hca. unfold worker_Join. apply answers_bind.
  apply (answers_mono _ _ (λ r, r = None)).
  2: { unfold createDirectories. apply answers_bind.
       apply (answers_mono _ _ (λ r, r = inr tt)); [by intros ? ->|].
       apply answers_for_each. by intros dir ? ->. }
  intros ? ->. apply answers_bind. unfold SaveBootstrapKubeconfig.
  rewrite Hd, Hl. intros ? ->. intros ? ->. rewrite Hx, Hc, bool_decide_false by done. intros ? ->.
  apply (answers_bind _ (installSelf _)). apply (answers_mono _ _ (λ r, r = None)).
  - intros ? ->. apply (answers_bind _ (installSystemdUnit _ _)). unfold installSystemdUnit.
    intros ? ->. intros ? ->. intros ? ->. intros ? ->. done.
  - unfold installSelf. intros [] Hst; [done..| |done]. intros [src|] Hs; [|done]. intros ? ->.
    intros [content|] Hr; [|done]. by intros ? ->.
Qed.

(** C20.  From the token on the management cluster to the worker.  For a token the
    controller published, the command prints a token unless reading the Secret fails; what it
    prints is accepted by the join of a worker: when no call of the host fails, the
    join returns no error.  The join writes only the four files it is configured
    with, and when it succeeds the worker holds the kubeconfig of that token and the CA
    of its cluster, the unit is written and started, and a worker that has no
    profile yet starts from exactly the API server endpoint of the control plane. *)
Theorem token_reaches_worker `{M : Machinery} `{H : Hashing} `{C : Codec} `{X : X509} `{N : NodeLibraries}
    `{W : WorkerLibraries} CA rt opts t expiresAt c wrkCtx order visit s :
  let req := NN "" (JoinTokens.pc_name (JoinTokens.apply_options opts)) in
  let server := cpe_apiServer (cl_endpoint (rt_cluster rt)) in
  published CA rt c req t expiresAt → CA ≠ "" →
  (∀ kc data, WriteKubeconfig kc = Some data → LoadKubeconfig data = Some kc) →
  parse_url (endpoint_url server) = Some (ce_host server, FormatInt (ce_port server)) →
  (∀ m, visit m ≡ₚ (map_to_list m).*2) →
  (0 ≤ ce_port server < 2 ^ 31)%Z → ce_host server ≠ "" →
  NoDup (NodeProfileLocalFilePath wrkCtx :: join_files wrkCtx) →
  wp (api_spec calm) (JoinTokens.FetchSecret (λ _, None) opts) c (λ out c', c' = c ∧ match out with
    | inr e => ∃ m, e = "failed to get worker join token secret kube-system/" +:+ nn_name req +:+ "-jointoken: " +:+ m
    | inl token =>
    answers host_up (worker_Join token wrkCtx order) (λ r, r = None) ∧
    wp (host_spec (join_env wrkCtx)) (worker_Join token wrkCtx order) s (λ r s',
      only_files (join_files wrkCtx) s s' ∧
      (r = None →
       (∃ raw, WriteKubeconfig (bootstrap_kubeconfig t CA (endpoint_url server)) = Some raw ∧
          h_files s' !! KubeletBootstrapKubeconfigPath wrkCtx = Some raw) ∧
       h_files s' !! KubeletPKICaCertPath wrkCtx = Some CA ∧
       h_files s' !! unitPath = Some (serialize_unit (unit_options (exec_start wrkCtx order))) ∧
       h_running s' = true ∧
       (h_files s !! NodeProfileLocalFilePath wrkCtx = None →
        wp (host_spec (join_env wrkCtx)) (resolveInitialAPIServerEndpoints visit wrkCtx) s' (λ r s'', s'' = s' ∧
          ∀ eps, r = inl eps → eps = [MkEndpoint (ce_host server) (ce_port server)]))))
    end).
Proof.
  intros req server Hpub HCA Hcodec Hurl Hvisit Hport Hhost [Hprof Hp]%NoDup_cons.
  eapply (wp_mono (api_spec calm)); [exact (wp_FetchSecret CA rt opts (nn_name req) t expiresAt c eq_refl Hpub)|].
  intros [token|e] c' [-> Hout]; split; try done. destruct Hout as (raw & Hd & Hw). split.
  { apply (worker_Join_accepts token wrkCtx order raw _ _ _ Hd (Hcodec _ _ Hw)
      (lookup_singleton_eq _ _) (lookup_singleton_eq _ _) HCA). }
  eapply (wp_mono _ (worker_Join token wrkCtx order)); [by apply wp_worker_Join|].
  intros r s' [Honly Hr]. split; [done|]. intros Hnone.
  destruct (Hr Hnone) as (raw' & cfg & ctx & cl & Hd' & Hl & Hx & Hc & Hb & Hca & Hu & Hrun).
  assert (raw' = raw) as -> by congruence.
  assert (cfg = bootstrap_kubeconfig t CA (endpoint_url server)) as ->
    by (apply Hcodec in Hw; fold server in Hw; congruence).
  split; [by exists raw|]. assert (kcl_caData cl = CA) as Ecl.
  { cbn in Hx. rewrite lookup_singleton_eq in Hx. injection Hx as <-. cbn in Hc.
    rewrite lookup_singleton_eq in Hc. by injection Hc as <-. }
  rewrite <- Ecl. do 3 (split; [done|]). intros Hno.
  eapply (wp_mono _ (resolveInitialAPIServerEndpoints visit wrkCtx));
    [apply (wp_resolve_bootstrap wrkCtx _ visit raw); [by rewrite (Honly _ Hprof)|done|done]|].
  intros r2 s2 [-> Heps]. split; [done|]. intros eps ->. rewrite (Heps eps eq_refl). clear Heps.
  specialize (Hvisit (kc_clusters (bootstrap_kubeconfig t CA (endpoint_url server)))). cbn in Hvisit.
  rewrite map_to_list_singleton in Hvisit. cbn in Hvisit. apply Permutation_singleton_r in Hvisit. cbn. rewrite Hvisit.
  cbn [fmap list_fmap kcl_server cluster_endpoints]. rewrite bool_decide_eq_false_2 by done. rewrite Hurl.
  rewrite bool_decide_eq_false_2 by done. rewrite bool_decide_eq_false_2 by set_solver.
  pose proof (Atoi_FormatInt (ce_port server) ltac:(lia)) as Hat. rewrite Hat.
  case_bool_decide as E; [by rewrite E in Hat|done].
Qed.

(** ** Properties: setting the components up *)

Section setup.
Context `{X : X509} `{W : WorkerLibraries}.
Context (wrkCtx : WorkerContext) (profile : NodeProfile).

(** What is to be installed where: the binaries, and with flannel the regular files of
    the archive of the CNI plugins. *)
Definition package (p content : string) : Prop :=
  (∃ name, name ∈ ["containerd"; "containerd-shim-runc-v2"; "runc"; "crictl"; "kubelet"] ∧
     p = JoinPath [BinDir wrkCtx; name] ∧ embedded (embedPath ("worker/" +:+ name) +:+ ".zst") = inl content) ∨
  (np_cniProvider profile = "flannel" ∧ ∃ entries tail hname,
     embedded_tar (embedPath "worker/cni.tar.zst") = inl (entries, tail) ∧ (hname, true, content) ∈ entries ∧
     p = JoinPath [CNIBinFolderPath wrkCtx; Base hname]).

Definition config_files : list string := [ContainerdConfig wrkCtx; KubeletConfigFile wrkCtx].

(** What is there of the package is whole. *)
Definition intact (s : host) : Prop :=
  ∀ p c, package p c → (p ∉ h_dirs s) ∧ ∀ old, h_files s !! p = Some old → old = c.

Definition installed (p : string) (s : host) : Prop := ∃ c, package p c ∧ h_files s !! p = Some c.

Definition setup_env : host_env := {|
  he_cluster := {| rely := eq; allowed := λ _ _, False; may_panic := False |};
  he_writes := λ p, p ∈ config_files ∨ ∃ c, package p c; he_requests := λ _, False; he_panic := False |}.

(** The installation grows: what is installed stays, and nothing else is touched. *)
Definition grows (s s' : host) : Prop :=
  h_dirs s' = h_dirs s ∧ intact s' ∧
  (∀ p, installed p s → installed p s') ∧
  (∀ p, (∀ c, ¬ package p c) → h_files s' !! p = h_files s !! p).

#[local] Instance grows_trans : Transitive grows.
Proof.
  intros s1 s2 s3 (D1 & I1 & G1 & F1) (D2 & I2 & G2 & F2). split_and!; [congruence|done|auto|].
  intros p Hp. by rewrite F2, F1.
Qed.

Lemma grows_refl s : intact s → grows s s.
Proof using Type. intros Hi. unfold grows. by split_and!. Qed.

Context (Hfun : ∀ p c c', package p c → package p c' → c = c').

(** One file: skipped when it is there, else copied. *)
Lemma wp_install {A} p c (k : prog hop A) (kcopy : option string → prog hop A) s (Q : A → host → Prop) :
  package p c → intact s →
  (∀ s', grows s s' → installed p s' → wp (host_spec setup_env) k s' Q ∧ wp (host_spec setup_env) (kcopy None) s' Q) →
  (∀ m s', wp (host_spec setup_env) (kcopy (Some m)) s' Q) →
  wp (host_spec setup_env) (
    let! st := trigger (Stat p) in
    match st with
    | IsFile | IsDir => k
    | _ => let! e := trigger (CopyToFile p c) in kcopy e
    end) s Q.
Proof using Hfun.
  intros Hp Hi Hk Herr.
  assert (wp (host_spec setup_env) (
    let! e := trigger (CopyToFile p c) in kcopy e) s Q) as Hcopy.
  { apply wp_hop. split; [right; by exists c|]. split; [done|]. intros _.
    assert (overwrite c (default "" (h_files s !! p)) = c) as ->.
    { apply overwrite_all. destruct (h_files s !! p) as [old|] eqn:E; cbn; [|lia].
      by rewrite (proj2 (Hi p c Hp) old E). }
    apply Hk.
    - unfold grows. split_and!; [done| | |].
      + intros q d Hq. split; [by apply (Hi q d)|]. cbn. intros old.
        destruct (decide (p = q)) as [<-|]; [rewrite lookup_insert_eq; intros [= <-]; by eapply Hfun|].
        rewrite lookup_insert_ne by done. by apply Hi.
      + intros q (d & Hq & Hf). exists d. split; [done|]. cbn.
        destruct (decide (p = q)) as [<-|]; [|by rewrite lookup_insert_ne].
        rewrite lookup_insert_eq. f_equal. by eapply Hfun.
      + intros q Hq. cbn. rewrite lookup_insert_ne; [done|]. intros <-. by apply (Hq c).
    - exists c. split; [done|]. cbn. by rewrite lookup_insert_eq. }
  apply wp_hop. cbn [host_spec]. split_and!.
  - intros m. exact Hcopy.
  - intros [old Hf]. apply Hk; [by apply grows_refl|]. exists c. split; [done|].
    rewrite <- (proj2 (Hi p c Hp) old Hf). done.
  - intros Hf Hd. destruct (proj1 (Hi p c Hp) Hd).
  - intros _ _. exact Hcopy.
Qed.

Lemma wp_extractStreamed name s :
  name ∈ ["containerd"; "containerd-shim-runc-v2"; "runc"; "crictl"; "kubelet"] → intact s →
  wp (host_spec setup_env) (extractStreamed ("worker/" +:+ name) (JoinPath [BinDir wrkCtx; name])) s
    (λ r s', r = None → grows s s' ∧
       ∀ c, embedded (embedPath ("worker/" +:+ name) +:+ ".zst") = inl c → installed (JoinPath [BinDir wrkCtx; name]) s').
Proof using Hfun.
  intros Hn Hi. unfold extractStreamed. destruct (embedded _) as [c|m] eqn:E.
  - apply (wp_install _ c (Ret None) Ret); [|done| |done]; [left; by exists name|].
    intros s' Hg Hin. by split.
  - apply wp_stat. intros [] _ _ _; cbn; try done; intros _; (split; [by apply grows_refl|done]).
Qed.

(** The binaries of a component. *)
Lemma wp_extract_all names s :
  names ⊆ ["containerd"; "containerd-shim-runc-v2"; "runc"; "crictl"; "kubelet"] → intact s →
  wp (host_spec setup_env)
    (extract_all ((λ name, ("worker/" +:+ name, JoinPath [BinDir wrkCtx; name])) <$> names)) s
    (λ r s', r = None → grows s s' ∧ ∀ name c, name ∈ names →
       embedded (embedPath ("worker/" +:+ name) +:+ ".zst") = inl c → installed (JoinPath [BinDir wrkCtx; name]) s').
Proof using Hfun.
  intros Hsub Hi. unfold extract_all.
  eapply (wp_seq _ (for_each _ _) _ _ (λ r s', r = inr tt → grows s s' ∧ ∀ name c, name ∈ names →
    embedded (embedPath ("worker/" +:+ name) +:+ ".zst") = inl c → installed (JoinPath [BinDir wrkCtx; name]) s'));
    [|by intros [m|[]] s' H; [|intros _; apply H]].
  apply (wp_for_each_prefix _ _ _ (λ before s', grows s s' ∧ ∀ name c,
    ("worker/" +:+ name, JoinPath [BinDir wrkCtx; name]) ∈ before →
    embedded (embedPath ("worker/" +:+ name) +:+ ".zst") = inl c → installed (JoinPath [BinDir wrkCtx; name]) s')).
  - split; [by apply grows_refl|set_solver].
  - intros before [src dst] s1 (name & [= -> ->] & Hn)%list_elem_of_fmap [Hg Hb].
    eapply (wp_seq _ (extractStreamed _ _)); [apply wp_extractStreamed; [by apply Hsub|by apply Hg]|].
    intros [m|] s2 H2; [done|]. destruct (H2 eq_refl) as [Hg2 Hin]. cbn. split; [by trans s1|].
    intros name' c [Hbef|Heq%list_elem_of_singleton]%elem_of_app He.
    + apply Hg2. by eapply Hb.
    + assert (name' = name) as -> by (injection Heq; intros _ Hname; exact Hname). by eapply Hin.
  - intros s1 [Hg Hb] _. split; [done|]. intros name c Hn He. eapply Hb; [|done].
    apply list_elem_of_fmap. by exists name.
Qed.

Lemma wp_Cni_Setup s :
  np_cniProvider profile = "flannel" → intact s →
  wp (host_spec setup_env) (Cni_Setup wrkCtx) s (λ r s', r = None → grows s s' ∧
    ∃ entries, embedded_tar (embedPath "worker/cni.tar.zst") = inl (entries, None) ∧
      ∀ hname c, (hname, true, c) ∈ entries → installed (JoinPath [CNIBinFolderPath wrkCtx; Base hname]) s').
Proof using Hfun.
  intros Hcni Hi. unfold Cni_Setup.
  eapply (wp_seq _ (extractTarZstFrom _ _) _ _ (λ r s', r = None → grows s s' ∧
    ∃ entries, embedded_tar (embedPath "worker/cni.tar.zst") = inl (entries, None) ∧
      ∀ hname c, (hname, true, c) ∈ entries → installed (JoinPath [CNIBinFolderPath wrkCtx; Base hname]) s'));
    [|by intros [m|] s' H; [|intros _; apply H]].
  unfold extractTarZstFrom. destruct (embedded_tar _) as [[entries tail]|m] eqn:E; [|done].
  eapply (wp_seq _ (for_each _ _) _ _ (λ r s', r = inr tt → grows s s' ∧ ∀ hname c, (hname, true, c) ∈ entries →
    installed (JoinPath [CNIBinFolderPath wrkCtx; Base hname]) s'));
    [|intros [m|[]] s' H; [done|]; cbn; intros ->; destruct (H eq_refl); split; [done|]; by exists entries].
  apply (wp_for_each_prefix _ _ _ (λ before s', grows s s' ∧ ∀ hname c, (hname, true, c) ∈ before →
    installed (JoinPath [CNIBinFolderPath wrkCtx; Base hname]) s')); [|  |by intros s1 H _].
  { split; [by apply grows_refl|set_solver]. }
  intros before [[hname regular] content] s1 Hin [Hg Hb].
  destruct regular; cbn [negb].
  - apply (wp_install _ content (Ret (inr tt))); [|by apply Hg| |done].
    + right. split; [done|]. by exists entries, tail, hname.
    + intros s2 Hg2 Hi2. assert (grows s s2 ∧ ∀ hname0 c, (hname0, true, c) ∈ before ++ [(hname, true, content)] →
        installed (JoinPath [CNIBinFolderPath wrkCtx; Base hname0]) s2) as H; [|by split].
      split; [by trans s1|]. intros h c [Hbef|[= -> ->]%list_elem_of_singleton]%elem_of_app; [|done].
      apply Hg2. by eapply Hb.
  - cbn. split; [done|]. intros h c [Hbef|[= ]%list_elem_of_singleton]%elem_of_app. by eapply Hb.
Qed.

Definition binaries_of (rn : Runner) : list string :=
  match rn with
  | RContainerd => ["containerd"; "containerd-shim-runc-v2"; "runc"; "crictl"]
  | RKubelet _ => ["kubelet"]
  | RCni => []
  end.

(** The configuration file of a component. *)
Definition configured (rn : Runner) (p data : string) : Prop :=
  match rn with
  | RContainerd => p = ContainerdConfig wrkCtx ∧ ∃ conf,
      marshal_containerd (JoinPath [ContainerdDropInConfiguration wrkCtx; "*.toml"]) = inl conf ∧
      data = containerd_header wrkCtx +:+ conf
  | RKubelet n => p = KubeletConfigFile wrkCtx ∧ data = np_kubeletConfiguration n
  | RCni => False
  end.

(** A component is ready: its binaries are installed and its configuration is
    written; for the CNI plugins, the archive is extracted. *)
Definition ready (rn : Runner) (s : host) : Prop :=
  (∀ name c, name ∈ binaries_of rn → embedded (embedPath ("worker/" +:+ name) +:+ ".zst") = inl c →
     installed (JoinPath [BinDir wrkCtx; name]) s) ∧
  match rn with
  | RCni => ∃ entries, embedded_tar (embedPath "worker/cni.tar.zst") = inl (entries, None) ∧
      ∀ hname c, (hname, true, c) ∈ entries → installed (JoinPath [CNIBinFolderPath wrkCtx; Base hname]) s
  | _ => ∃ p data, configured rn p data ∧ h_files s !! p = Some data
  end.

Definition advances (s s' : host) : Prop :=
  intact s' ∧ (∀ rn, rn ∈ runners profile → ready rn s → ready rn s') ∧
  (∀ p, p ∉ config_files → (∀ c, ¬ package p c) → h_files s' !! p = h_files s !! p).

#[global] Instance advances_trans : Transitive advances.
Proof.
  intros s1 s2 s3 (I1 & G1 & F1) (I2 & G2 & F2). unfold advances. split_and!; [done|auto|].
  intros p Hp Hc. by rewrite F2, F1.
Qed.

Lemma configured_file rn p data : configured rn p data → p ∈ config_files.
Proof using Type. clear. destruct rn; [intros [-> _]|intros [-> _]|done]; unfold config_files; set_solver. Qed.

Lemma ready_mono rn s s' :
  (∀ p, installed p s → installed p s') →
  (∀ p data, configured rn p data → h_files s !! p = Some data → h_files s' !! p = Some data) →
  ready rn s → ready rn s'.
Proof using Type.
  clear. intros Hin Hcf [Hb Hr]. split; [by eauto|].
  destruct rn; destruct Hr as (x & Hx); [destruct Hx as (y & ? & ?); exists x, y; by auto..|].
  destruct Hx. exists x. eauto.
Qed.

Context (Hconf : ∀ p c, p ∈ config_files → ¬ package p c) (Hdiff : NoDup config_files).

Lemma grows_advances s s' : grows s s' → advances s s'.
Proof using Hconf.
  clear Hfun. intros (_ & Hi & Hin & Hf). unfold advances. split_and!; [done| |auto].
  intros rn _. apply ready_mono; [done|]. intros p data Hp <-. apply Hf. intros c.
  by apply Hconf, (configured_file rn p data).
Qed.

Lemma configured_unique rn rn' p data data' :
  rn ∈ runners profile → rn' ∈ runners profile → configured rn p data → configured rn' p data' → data = data'.
Proof using Hdiff.
  clear Hfun Hconf. intros H1 H2. assert (∀ n, RKubelet n ∈ runners profile → n = profile) as Hk.
  { intros n Hn. unfold runners in Hn. case_bool_decide; cbn in Hn; set_solver. }
  assert (ContainerdConfig wrkCtx ≠ KubeletConfigFile wrkCtx) as Hne.
  { unfold config_files in Hdiff. apply NoDup_cons in Hdiff as [H _]. set_solver. }
  destruct rn, rn'; try done; intros [-> Hd] [He Hd'].
  - destruct Hd as (? & ? & ->), Hd' as (? & ? & ->). congruence.
  - congruence.
  - congruence.
  - rewrite (Hk _ H1) in Hd. rewrite (Hk _ H2) in Hd'. congruence.
Qed.

(** Writing the configuration of a component whose binaries are there makes it
    ready. *)
Lemma wp_configure rn p data s (err : string → string) :
  rn ∈ runners profile → configured rn p data → intact s →
  (∀ name c, name ∈ binaries_of rn → embedded (embedPath ("worker/" +:+ name) +:+ ".zst") = inl c →
     installed (JoinPath [BinDir wrkCtx; name]) s) →
  wp (host_spec setup_env) (
    let! w := trigger (WriteFile p data) in
    match w with Some e => Ret (Some (err e)) | None => Ret None end) s
    (λ r s', r = None → advances s s' ∧ ready rn s').
Proof using Hconf Hdiff.
  clear Hfun. intros Hrn Hc Hi Hb. pose proof (configured_file _ _ _ Hc) as Hp.
  assert (∀ q c, package q c → p ≠ q) as Hne by (intros q c Hq <-; by eapply Hconf).
  apply wp_write; [by left|done|]. cbn [wp]. intros _. set (s' := with_files _ s).
  assert (∀ q, installed q s → installed q s') as Hin.
  { intros q (c & Hq & Hf). exists c. cbn. rewrite lookup_insert_ne by (by eapply Hne). done. }
  split.
  - unfold advances. split_and!.
    + intros q c Hq. cbn. rewrite lookup_insert_ne by (by eapply Hne). by apply Hi.
    + intros rn' Hrn'. apply ready_mono; [done|]. intros q d Hq Hf. cbn.
      destruct (decide (p = q)) as [<-|]; [|by rewrite lookup_insert_ne].
      rewrite lookup_insert_eq. f_equal. by apply (configured_unique rn rn' p).
    + intros q Hq _. cbn. rewrite lookup_insert_ne by set_solver. done.
  - split; [by eauto|]. destruct rn; [..|done]; exists p, data; cbn; by rewrite lookup_insert_eq.
Qed.

Lemma wp_runner_Setup rn s :
  rn ∈ runners profile → intact s →
  wp (host_spec setup_env) (runner_Setup wrkCtx rn) s (λ r s', r = None → advances s s' ∧ ready rn s').
Proof using Hfun Hconf Hdiff.
  intros Hrn Hi.
  assert (∀ s1 (p : prog hop (option string)), grows s s1 →
    wp (host_spec setup_env) p s1 (λ r s', r = None → advances s1 s' ∧ ready rn s') →
    wp (host_spec setup_env) p s1 (λ r s', r = None → advances s s' ∧ ready rn s')) as Htrans.
  { intros s1 p Hg H. eapply (wp_mono _ p); [exact H|]. intros r s' Hs' Hr. destruct (Hs' Hr).
    split; [|done]. trans s1; [by apply grows_advances|done]. }
  destruct rn as [|n|]; cbn [runner_Setup].
  - unfold Containerd_Setup.
    eapply (wp_seq _ (extract_all _)); [apply (wp_extract_all (binaries_of RContainerd)); [cbn; set_solver|done]|].
    intros [m|] s1 H1; [done|]. destruct (H1 eq_refl) as [Hg Hb].
    destruct (marshal_containerd _) as [conf|m] eqn:Em; [|done].
    apply Htrans; [done|]. apply (wp_configure RContainerd); [done| |by apply Hg|done]. split; [done|]. by exists conf.
  - unfold Kubelet_Setup.
    eapply (wp_seq _ (extract_all _)); [apply (wp_extract_all (binaries_of (RKubelet n))); [cbn; set_solver|done]|].
    intros [m|] s1 H1; [done|]. destruct (H1 eq_refl) as [Hg Hb].
    apply Htrans; [done|]. by apply (wp_configure (RKubelet n)); [| |apply Hg|].
  - assert (np_cniProvider profile = "flannel") as Hcni.
    { unfold runners in Hrn. case_bool_decide; cbn in Hrn; set_solver. }
    eapply (wp_mono _ (Cni_Setup wrkCtx)); [by apply wp_Cni_Setup|]. intros r s' H Hr.
    destruct (H Hr) as (Hg & entries & He & Hin). split; [by apply grows_advances|].
    split; [set_solver|]. by exists entries.
Qed.
End setup.

(** C24.  The set-up of the components.  Where what is there of the package is whole,
    the set-up writes only the files of the package and the two configurations, and
    when it succeeds every binary, and with flannel every regular file of the CNI
    archive, is there with the embedded content, the configurations of containerd and
    of the kubelet are those of this profile, and the package is whole again, so that
    the same holds of the set-up at the next start. *)
Theorem setup_installs `{X : X509} `{W : WorkerLibraries} wrkCtx profile s :
  (∀ p c c', package wrkCtx profile p c → package wrkCtx profile p c' → c = c') →
  (∀ p c, p ∈ config_files wrkCtx → ¬ package wrkCtx profile p c) → NoDup (config_files wrkCtx) →
  intact wrkCtx profile s →
  wp (host_spec (setup_env wrkCtx profile)) (setup_all wrkCtx (runners profile)) s (λ r s', r = None →
    (∀ p c, package wrkCtx profile p c → h_files s' !! p = Some c) ∧
    (∃ conf, marshal_containerd (JoinPath [ContainerdDropInConfiguration wrkCtx; "*.toml"]) = inl conf ∧
       h_files s' !! ContainerdConfig wrkCtx = Some (containerd_header wrkCtx +:+ conf)) ∧
    h_files s' !! KubeletConfigFile wrkCtx = Some (np_kubeletConfiguration profile) ∧
    intact wrkCtx profile s' ∧
    (∀ p, p ∉ config_files wrkCtx → (∀ c, ¬ package wrkCtx profile p c) → h_files s' !! p = h_files s !! p)).
Proof.
  intros Hfun Hconf Hdiff Hi. unfold setup_all.
  eapply (wp_seq _ (for_each _ _) _ _ (λ r s', r = inr tt →
    (∀ rn, rn ∈ runners profile → ready wrkCtx profile rn s') ∧ intact wrkCtx profile s' ∧
    ∀ p, p ∉ config_files wrkCtx → (∀ c, ¬ package wrkCtx profile p c) → h_files s' !! p = h_files s !! p)).
  - apply (wp_for_each_prefix _ _ _ (λ before s', before ⊆ runners profile ∧ advances wrkCtx profile s s' ∧
      ∀ rn, rn ∈ before → ready wrkCtx profile rn s')).
    + split_and!; [set_solver| |set_solver]. by unfold advances.
    + intros before rn s1 Hrn (Hsub & Ha & Hb).
      eapply (wp_seq _ (runner_Setup _ _)); [apply (wp_runner_Setup _ profile); [done..|apply Ha]|].
      intros [m|] s2 H2; [done|]. destruct (H2 eq_refl) as [Ha2 Hr]. split_and!; [set_solver|by trans s1|].
      intros rn' [Hin| ->%list_elem_of_singleton]%elem_of_app; [|done]. apply Ha2; [by apply Hsub|auto].
    + intros s1 (_ & (Hi1 & _ & Hf1) & Hb) _. done.
  - intros [m|[]] s' H; [done|]. intros _. destruct (H eq_refl) as (Hr & Hi' & Hf).
    assert (RContainerd ∈ runners profile ∧ RKubelet profile ∈ runners profile) as [Hc Hk]
      by (unfold runners; set_solver).
    destruct (Hr _ Hc) as [Hcb (p & data & [-> (conf & Hm & ->)] & Hpc)].
    destruct (Hr _ Hk) as [Hkb (p & data & [-> ->] & Hpk)].
    split_and!; [|by exists conf|done|done|done]. intros p c Hp.
    assert (installed wrkCtx profile p s') as (c' & Hp' & ->); [|f_equal; by eapply Hfun].
    destruct Hp as [(name & Hn & -> & He)|(Hfl & entries & tail & hname & He & Hin & ->)].
    + assert (name ∈ binaries_of RContainerd ∨ name ∈ binaries_of (RKubelet profile)) as [?|?]
        by (cbn; set_solver); eauto.
    + assert (RCni ∈ runners profile) as Hcni by (unfold runners; rewrite bool_decide_eq_true_2; set_solver).
      destruct (Hr _ Hcni) as [_ (entries' & He' & Hall)].
      assert (entries' = entries) as -> by congruence. by eapply Hall.
Qed.

(** ** Witnesses *)

Definition ref_worker : WorkerLibraries := {|
  parse_url := λ u,
    match Split (Ascii.ascii_of_nat 58) (TrimPrefix u "https://") with
    | [h; p] => Some (h, p) | [h] => Some (h, "") | _ => None
    end;
  embedded := λ p, inl ("content of " +:+ p);
  embedded_tar := λ p, inl ([("./", false, ""); ("./bridge", true, "BRIDGE"); ("./loopback", true, "LOOPBACK")], None);
  GOARCH := "amd64";
  serialize_unit := λ l, Join ((λ '(_, k, v), k +:+ "=" +:+ v) <$> l) newline;
  marshal_containerd := λ imports, inl ("imports = " +:+ imports);
  new_agent := λ _, None;
|}.

(** A machine on which only the binary is there. *)
Definition new_machine : host := {|
  h_files := {[ "/usr/local/bin/heir" := "ELF" ]};
  h_dirs := {[ "/"; "/etc"; "/etc/systemd"; "/etc/systemd/system"; "/usr"; "/usr/local"; "/usr/local/bin" ]};
  h_pair := None; h_running := false; h_cluster := tenant_cluster |}.

#[local] Abbreviation worker_defaults := NewWorkerContextWithDefaults.
#[local] Abbreviation ok := (λ _ : string, false).

Definition visit_all (m : gmap string Cluster) : list Cluster := (map_to_list m).*2.

Definition printed_token : option string :=
  match run mem (JoinTokens.FetchSecret (λ _, None) [JoinTokens.WithName "join"]) example_published with
  | Some (inl out, _) => Some out
  | _ => None
  end.

Definition example_worker_join : option (option string * host) :=
  match printed_token with
  | Some token => run (disk ok) (worker_Join (X := ref_x509) (W := ref_worker) token worker_defaults [("v", "4")]) new_machine
  | None => None
  end.

Lemma token_reaches_worker_witness :
  ∃ s', example_worker_join = Some (None, s') ∧
    h_files s' !! "/etc/heir/pki/ca.crt" = Some "CA" ∧ h_running s' = true ∧
    wp (host_spec (X := ref_x509) (join_env worker_defaults))
      (resolveInitialAPIServerEndpoints (X := ref_x509) (N := ref_libraries) (W := ref_worker) visit_all worker_defaults) s'
      (λ r s'', s'' = s' ∧ ∀ eps, r = inl eps → eps = [MkEndpoint "api.example.com" 6443]).
Proof.
  assert (∃ t, published (X := ref_x509) (H := ref_hashing) "CA" example_runtime example_published
      join_req t 10800) as [t Hpub].
  { exists {| tok_ID := "5a5a5a"; tok_Secret := "5a5a5a5a5a5a5a5a" |}.
    eexists _, _, _. repeat (split; [vm_compute; reflexivity|]). vm_compute. reflexivity. }
  pose proof (token_reaches_worker (M := ref_machinery) (H := ref_hashing) (C := ref_codec) (X := ref_x509)
    (N := ref_libraries) (W := ref_worker) "CA" example_runtime [JoinTokens.WithName "join"] t 10800
    example_published worker_defaults [("v", "4")] visit_all new_machine Hpub) as Hw.
  cbv zeta in Hw.
  specialize (Hw ltac:(done) ltac:(intros kc data [= <-]; apply dec_enc) ltac:(reflexivity) ltac:(intros m; reflexivity)
    ltac:(cbn; lia) ltac:(done) ltac:(apply (bool_decide_unpack _); vm_compute; exact I)).
  apply mem_run in Hw; [|by intros s].
  assert (match example_worker_join with Some (None, _) => true | _ => false end = true) as E
    by (vm_compute; reflexivity).
  unfold example_worker_join, printed_token in *.
  destruct (run mem _ example_published) as [[[token|] c']|]; [|discriminate E..].
  destruct Hw as (_ & _ & Hw).
  apply (wp_run _ (disk ok) _ (Implements0 := disk_implements ok (join_env worker_defaults) ltac:(done))) in Hw.
  destruct (run (disk ok) _ new_machine) as [[[m|] s']|]; [discriminate E| |discriminate E].
  exists s'. split; [reflexivity|]. destruct Hw as [_ Hr].
  destruct (Hr eq_refl) as (_ & Hca & _ & Hrun & Hres). split; [exact Hca|]. split; [exact Hrun|].
  apply Hres. vm_compute. reflexivity.
Defined.

Definition flannel_profile : NodeProfile := {|
  np_kubeletConfiguration := "kind: KubeletConfiguration"; np_kubeletExtraArgs := Some {[ "v" := "4" ]};
  np_endpoint := {| cpe_apiServer := {| ce_host := "api.example.com"; ce_port := 6443 |};
                    cpe_planeTunnel := {| ce_host := "tun.example.com"; ce_port := 9445 |} |};
  np_cniProvider := "flannel" |}.

Definition example_package : list (string * string) :=
  ((λ name, ("/var/lib/heir/bin/" +:+ name, "content of worker/amd64/" +:+ name +:+ ".zst")) <$>
     ["containerd"; "containerd-shim-runc-v2"; "runc"; "crictl"; "kubelet"]) ++
  [("/opt/cni/bin/bridge", "BRIDGE"); ("/opt/cni/bin/loopback", "LOOPBACK")].

Lemma package_example p c :
  package (W := ref_worker) worker_defaults flannel_profile p c → (p, c) ∈ example_package.
Proof.
  intros [(name & Hn & -> & [= <-])|(_ & entries & tail & hname & [= <- <-] & Hin & ->)].
  - rewrite !elem_of_cons, elem_of_nil in Hn. destruct_or! Hn; try done; subst name; vm_compute; set_solver.
  - rewrite !elem_of_cons, elem_of_nil in Hin. destruct_or! Hin; try done; injection Hin as -> ->; vm_compute; set_solver.
Qed.

(** A machine with the directories of the worker. *)
Definition prepared_machine : host :=
  match run (disk ok) (createDirectories worker_defaults) new_machine with
  | Some (_, s) => s
  | None => new_machine
  end.

Lemma setup_installs_witness :
  ∃ s', run (disk ok) (setup_all (W := ref_worker) worker_defaults (runners flannel_profile)) prepared_machine = Some (None, s') ∧
    (∀ p c, package (W := ref_worker) worker_defaults flannel_profile p c → h_files s' !! p = Some c) ∧
    intact (W := ref_worker) worker_defaults flannel_profile s'.
Proof.
  assert (NoDup (example_package.*1)) as Hnd by (apply (bool_decide_unpack _); vm_compute; exact I).
  assert (Forall (λ pc : string * string, (pc.1 ∉ h_dirs prepared_machine) ∧
    h_files prepared_machine !! pc.1 = None ∧ pc.1 ∉ config_files worker_defaults) example_package) as Hfree
    by (apply (bool_decide_unpack _); vm_compute; exact I).
  rewrite Forall_forall in Hfree.
  pose proof (setup_installs (X := ref_x509) (W := ref_worker) worker_defaults flannel_profile prepared_machine) as Hwp.
  specialize (Hwp ltac:(intros p c c' H1%package_example H2%package_example;
      apply (elem_of_list_to_map_1 (M := gmap string)) in H1; [|exact Hnd];
      apply (elem_of_list_to_map_1 (M := gmap string)) in H2; [|exact Hnd]; congruence)
    ltac:(intros p c Hp H1%package_example; by destruct (Hfree _ H1) as (_ & _ & ?))
    ltac:(apply (bool_decide_unpack _); vm_compute; exact I)
    ltac:(intros p c H1%package_example; destruct (Hfree _ H1) as (? & Hn & _); split; [done|];
          cbn [fst] in Hn; rewrite Hn; done)).
  apply (wp_run _ (disk ok) _ (Implements0 := disk_implements ok (setup_env (W := ref_worker) worker_defaults flannel_profile) ltac:(done))) in Hwp.
  assert (match run (disk ok) (setup_all (W := ref_worker) worker_defaults (runners flannel_profile)) prepared_machine with
          | Some (None, _) => true | _ => false end = true) as E by (vm_compute; reflexivity).
  destruct (run (disk ok) _ prepared_machine) as [[[m|] s']|]; [discriminate E| |discriminate E].
  exists s'. split; [reflexivity|]. destruct (Hwp eq_refl) as (H1 & _ & _ & H2 & _). split; [exact H1|exact H2].
Defined.

(** A file that was only half extracted is not extracted again: the next set-up
    succeeds, with half of the kubelet. *)
Example partial_extraction_kept :
  let kubelet := "/var/lib/heir/bin/kubelet" in
  let setup fails := run (disk fails) (setup_all (W := ref_worker) worker_defaults (runners flannel_profile)) in
  match setup (λ p, bool_decide (p = kubelet)) prepared_machine with
  | Some (Some _, s1) =>
      match setup ok s1 with
      | Some (None, s2) => h_files s2 !! kubelet = Some (half "content of worker/amd64/kubelet.zst")
      | _ => False
      end
  | _ => False
  end.
Proof. vm_compute. reflexivity. Qed.

(** A machine joins and its worker starts: from the endpoint of the token to that of
    the profile, with the three components, and again from the file of the profile. *)
Definition example_start : host → option ((started + string) * host) :=
  run (disk ok) (Start (X := ref_x509) (N := ref_libraries) (RT := ref_retry) (W := ref_worker)
    visit_all worker_defaults "node-1").

Definition endpoints_of (r : option ((started + string) * host)) : option (list Endpoint * list Endpoint * nat) :=
  match r with
  | Some (inl st, _) => Some (initial_endpoints st, final_endpoints st, length (started_runners st))
  | _ => None
  end.

Example worker_starts :
  let api := MkEndpoint "api.example.com" 6443 in
  match example_worker_join with
  | Some (None, s) =>
      endpoints_of (example_start s) = Some ([api], [api], 3) ∧
      match example_start s with
      | Some (_, s2) => endpoints_of (example_start s2) = Some ([api], [api], 3)
      | None => False
      end
  | _ => False
  end.
Proof. vm_compute. by split. Qed.

(** The command line has the last word on the arguments of the kubelet, then the
    profile. *)
Lemma kubelet_args_precedence wrkCtx n k :
  kubelet_args wrkCtx n !! k =
    match entries (KubeletExtraArgs wrkCtx) !! k, entries (np_kubeletExtraArgs n) !! k with
    | Some v, _ => Some v
    | None, Some v => Some v
    | None, None =>
        ({[ "kubeconfig" := KubeletKubeConfigPath wrkCtx; "config" := KubeletConfigFile wrkCtx;
            "containerd" := ContainerdAddress wrkCtx; "cert-dir" := KubeletPKIPath wrkCtx; "v" := "2" ]} :
           gmap string string) !! k
    end.
Proof. unfold kubelet_args. rewrite !lookup_union. by do 2 destruct (_ !! k); destruct (_ !! k). Qed.
