(* ===== verification/Shutdown.v ===== *)
(** * Running and shutting down a worker

    The end of [Run] in src/pkg/provision/worker/worker.go: one goroutine per component,
    the select that waits for a reason to stop, and the teardown of all components.
    Each component is a supervised process of Procmgr.v; its steps are interleaved with
    those of [Run].

    [k.component] and [k.cancel] are written when the goroutine of a component begins,
    taken as one step.  Tearing a component down is up to three steps of the loop (the
    cancellation, the call of the supervisor's [Teardown], its return).  [proxyErr] is a nil channel: no case of the select is ever
    ready for it. *)

From S2P Require Import Prelude Api Worker Procmgr.
From stdpp Require Import options.

(** ** The state *)

(** A runner with the supervisor of its process, once its goroutine has begun. *)
Record member := {
  mb_runner : Runner;
  mb_component : option state;
  (** The goroutine has returned. *)
  mb_returned : bool;
}.

(** Where the call of [Teardown] of a runner is: not yet made, after its [cancel()], in the
    [Teardown] of its component. *)
Inductive call_phase := Idle | AfterCancel | InTeardown.

Inductive main_phase :=
| Selecting
(** The teardown loop is at [next]. *)
| Tearing (next : nat) (call : call_phase) (runErr : option string)
| RunReturned (runErr : option string).

Record node := {
  nd_members : list member;
  (** The context of [Run] was cancelled. *)
  nd_ctx : bool;
  (** [errCh], which has room for all components. *)
  nd_errors : list string;
  nd_main : main_phase;
}.

Inductive node_event :=
(** The goroutine of a component begins. *)
| Launch (i : nat)
(** The supervisor or the process of a component takes a step. *)
| Supervise (i : nat) (e : event)
(** [r.Run] returns: [err] is the error of the supervisor. *)
| RunnerReturns (i : nat) (err : string)
| ContextCancelled
(** The three cases of the select that can be ready. *)
| Signalled | ErrorReceived | ContextDone
(** The next teardown is called and cancels the context, calls the [Teardown] of the component,
    which goes on; the loop ends. *)
| TeardownNext | TeardownCalls | TeardownGoes (e : event) | TeardownEnds.

(** The process of a runner; the CNI has none. *)
Definition component_of (wrkCtx : WorkerContext) (args : list (string * string)) (r : Runner) : option Component :=
  match r with
  | RContainerd => Some (containerd_component wrkCtx)
  | RKubelet _ => Some (kubelet_component wrkCtx args)
  | RCni => None
  end.

(** The error that [r.Run] returns for that of the supervisor: containerd logs it. *)
Definition run_error (r : Runner) (err : string) : option string :=
  match r with RKubelet _ => Some err | RContainerd | RCni => None end.

Definition cancel_component (mb : member) : member := {|
  mb_runner := mb_runner mb; mb_returned := mb_returned mb;
  mb_component := component_cancel (mb_component mb) |}.

Definition with_component (st : state) (mb : member) : member := {|
  mb_runner := mb_runner mb; mb_component := Some st; mb_returned := mb_returned mb |}.

Definition with_main (m : main_phase) (n : node) : node := {|
  nd_members := nd_members n; nd_ctx := nd_ctx n; nd_errors := nd_errors n; nd_main := m |}.
Definition with_member (i : nat) (mb : member) (n : node) : node := {|
  nd_members := <[i := mb]> (nd_members n); nd_ctx := nd_ctx n; nd_errors := nd_errors n; nd_main := nd_main n |}.

(** Steps of a supervisor that are not those of its teardown or its context. *)
Definition own_event (e : event) : bool :=
  match e with Cancel | TeardownCall | TeardownGone | TeardownKill => false | _ => true end.

Section worker.
Context (wrkCtx : WorkerContext) (args : list (string * string)).

(** A supervisor in a context. *)
Definition launch (ctx : bool) (c : Component) : option state :=
  if ctx then step (initial c) Cancel else Some (initial c).

Definition node_step (n : node) (e : node_event) : option node :=
  match e with
  | Launch i =>
      match nd_members n !! i with
      | Some {| mb_runner := r; mb_component := None; mb_returned := false |} =>
          match component_of wrkCtx args r with
          | Some c =>
              match launch (nd_ctx n) c with
              | Some st => Some (with_member i {| mb_runner := r; mb_component := Some st; mb_returned := false |} n)
              | None => None
              end
          | None => Some (with_member i {| mb_runner := r; mb_component := None; mb_returned := true |} n)
          end
      | _ => None
      end
  | Supervise i e =>
      match nd_members n !! i with
      | Some mb =>
          match mb_component mb with
          | Some st =>
              if own_event e then
                match step st e with
                | Some st' => Some (with_member i (with_component st' mb) n)
                | None => None
                end
              else None
          | None => None
          end
      | None => None
      end
  | RunnerReturns i err =>
      match nd_members n !! i with
      | Some {| mb_runner := r; mb_component := Some st; mb_returned := false |} =>
          match loop st with
          | Finished =>
              Some {| nd_members := <[i := {| mb_runner := r; mb_component := Some st; mb_returned := true |}]> (nd_members n);
                      nd_ctx := nd_ctx n; nd_main := nd_main n;
                      nd_errors := nd_errors n ++ match run_error r err with Some m => [m] | None => [] end |}
          | _ => None
          end
      | _ => None
      end
  | ContextCancelled =>
      Some {| nd_members := cancel_component <$> nd_members n; nd_ctx := true; nd_errors := nd_errors n;
              nd_main := nd_main n |}
  | Signalled => match nd_main n with Selecting => Some (with_main (Tearing 0 Idle None) n) | _ => None end
  | ErrorReceived =>
      match nd_main n, nd_errors n with
      | Selecting, m :: ms =>
          Some {| nd_members := nd_members n; nd_ctx := nd_ctx n; nd_errors := ms; nd_main := Tearing 0 Idle (Some m) |}
      | _, _ => None
      end
  | ContextDone =>
      match nd_main n, nd_ctx n with
      | Selecting, true => Some (with_main (Tearing 0 Idle None) n)
      | _, _ => None
      end
  | TeardownNext =>
      match nd_main n with
      | Tearing i Idle err =>
          match nd_members n !! i with
          | None => None
          | Some mb => Some (with_main (Tearing i AfterCancel err) (with_member i (cancel_component mb) n))
          end
      | _ => None
      end
  | TeardownCalls =>
      match nd_main n with
      | Tearing i AfterCancel err =>
          match nd_members n !! i with
          | None => None
          | Some mb =>
              match component_Teardown (mb_component mb) with
              | None => None
              | Some None => Some (with_main (Tearing (S i) Idle err) n)
              | Some (Some st) =>
                  let m := match tear st with Stopping _ => Tearing i InTeardown err | _ => Tearing (S i) Idle err end in
                  Some (with_main m (with_member i (with_component st mb) n))
              end
          end
      | _ => None
      end
  | TeardownGoes e =>
      match nd_main n with
      | Tearing i InTeardown err =>
          match nd_members n !! i with
          | Some mb =>
              match mb_component mb, e with
              | Some st, TeardownGone | Some st, TeardownKill =>
                  match step st e with
                  | Some st' => Some (with_main (Tearing (S i) Idle err) (with_member i (with_component st' mb) n))
                  | None => None
                  end
              | _, _ => None
              end
          | None => None
          end
      | _ => None
      end
  | TeardownEnds =>
      match nd_main n with
      | Tearing i Idle err =>
          if bool_decide (i = length (nd_members n)) then Some (with_main (RunReturned err) n) else None
      | _ => None
      end
  end.

Fixpoint node_steps (n : node) (es : list node_event) : option node :=
  match es with
  | [] => Some n
  | e :: es' => match node_step n e with Some n' => node_steps n' es' | None => None end
  end.

(** Where [Run] is when it starts the goroutines. *)
Definition node_start (rs : list Runner) (ctx : bool) : node := {|
  nd_members := (λ r, {| mb_runner := r; mb_component := None; mb_returned := false |}) <$> rs;
  nd_ctx := ctx; nd_errors := []; nd_main := Selecting |}.
End worker.

(** ** Invariant *)

(** Where the teardown loop is for the [i]-th component. *)
Inductive position := Before | Told | During | After.

Definition position_of (m : main_phase) (i : nat) : position :=
  match m with
  | Selecting => Before
  | Tearing k call _ =>
      if bool_decide (i < k) then After
      else if bool_decide (i = k) then
        match call with Idle => Before | AfterCancel => Told | InTeardown => During end
      else Before
  | RunReturned _ => After
  end.

(** The supervisor was told to stop and starts nothing any more. *)
Definition stopped (st : state) : Prop := cancelled st = true ∧ stopping st = true.

Definition component_ok (pos : position) (st : state) : Prop :=
  match pos with
  | Before => tear st = NotCalled
  | Told => cancelled st = true ∧ tear st = NotCalled
  | During => stopped st ∧ ∃ p, tear st = Stopping p
  | After => stopped st ∧ tear st = Returned
  end.

Section invariant.
Context (wrkCtx : WorkerContext) (args : list (string * string)).

Abbreviation node_step := (node_step wrkCtx args).
Abbreviation node_steps := (node_steps wrkCtx args).

(** The goroutines of all processes have begun. *)
Definition member_ok (pos : position) (mb : member) : Prop :=
  match mb_component mb with
  | Some st => component_ok pos st
  | None => component_of wrkCtx args (mb_runner mb) = None ∧ pos ≠ During
  end.

Record begun (n : node) : Prop := {
  bg_members : ∀ i mb, nd_members n !! i = Some mb → member_ok (position_of (nd_main n) i) mb;
  bg_bound : ∀ k call err, nd_main n = Tearing k call err →
    match call with Idle => k ≤ length (nd_members n) | _ => k < length (nd_members n) end;
}.

(** What the steps of a supervisor other than its teardown keep. *)
Lemma own_step st e st' :
  step st e = Some st' → own_event e = true ∨ e = Cancel →
  tear st' = tear st ∧ stopping st' = stopping st ∧ (cancelled st = true → cancelled st' = true).
Proof.
  intros H He. destruct st as [ph pr sg te ca al ns]. cbn in *.
  destruct e; step_cases H; simplify_eq; cbn in *; destruct He; simplify_eq; naive_solver.
Qed.

Lemma component_ok_step pos st e st' :
  step st e = Some st' → own_event e = true ∨ e = Cancel → component_ok pos st → component_ok pos st'.
Proof.
  intros H He. destruct (own_step st e st' H He) as (Ht & Hs & Hc).
  unfold component_ok, stopped. rewrite Ht, Hs. destruct pos; naive_solver.
Qed.

Lemma begun_insert n i mb mb' (m : main_phase) n' :
  begun n → nd_members n !! i = Some mb →
  nd_members n' = <[i := mb']> (nd_members n) → nd_main n' = m →
  member_ok (position_of m i) mb' →
  (∀ j, j ≠ i → position_of m j = position_of (nd_main n) j) →
  (∀ k call err, m = Tearing k call err →
    match call with Idle => k ≤ length (nd_members n) | _ => k < length (nd_members n) end) →
  begun n'.
Proof.
  intros Hn Hi Hm Hmain Hok Hpos Hb. split; rewrite Hm, Hmain.
  - intros j mb1. destruct (decide (j = i)) as [->|Hne].
    + rewrite list_lookup_insert_eq by (by eapply lookup_lt_Some). by intros [= <-].
    + rewrite list_lookup_insert_ne by done. intros Hj. rewrite (Hpos j Hne). by apply Hn.
  - rewrite length_insert. done.
Qed.

Lemma begun_same n i mb mb' n' :
  begun n → nd_members n !! i = Some mb → nd_members n' = <[i := mb']> (nd_members n) → nd_main n' = nd_main n →
  (member_ok (position_of (nd_main n) i) mb → member_ok (position_of (nd_main n) i) mb') → begun n'.
Proof.
  intros Hn Hi Hm Hmain Hok. eapply begun_insert; [done..| |done|by apply Hn]. by apply Hok, Hn.
Qed.

Lemma position_next k c err j :
  j ≠ k → position_of (Tearing (S k) Idle err) j = position_of (Tearing k c err) j.
Proof. intros Hne. unfold position_of. repeat case_bool_decide; try lia; done. Qed.

Lemma position_other k c1 c2 err j :
  j ≠ k → position_of (Tearing k c1 err) j = position_of (Tearing k c2 err) j.
Proof. intros Hne. unfold position_of. by rewrite !(bool_decide_false (j = k)). Qed.

Lemma position_here k c err :
  position_of (Tearing k c err) k = match c with Idle => Before | AfterCancel => Told | InTeardown => During end.
Proof. unfold position_of. by rewrite bool_decide_false, bool_decide_true by lia. Qed.

Lemma teardown_called st st' :
  cancelled st = true → tear st = NotCalled → component_Teardown (Some st) = Some (Some st') →
  stopped st' ∧ (tear st' = Returned ∨ ∃ p, tear st' = Stopping p).
Proof.
  intros Hc Ht H. cbn in H. destruct st as [ph pr sg te ca al ns]. cbn in *. subst te ca. cbn in H.
  unfold stopped. destruct pr as [p|]; cbn in H; [destruct (waited_for _ p)|]; simplify_eq; cbn; eauto 10.
Qed.

Lemma teardown_goes st e st' :
  stopped st → (∃ p, tear st = Stopping p) → step st e = Some st' → e = TeardownGone ∨ e = TeardownKill →
  stopped st' ∧ tear st' = Returned.
Proof.
  intros [Hc Hs] [p Ht] H He. destruct st as [ph pr sg te ca al ns]. unfold stopped. cbn in *. subst te ca sg.
  destruct He as [->| ->]; step_cases H; repeat case_bool_decide; done.
Qed.

Lemma begun_wake n err n' :
  begun n → nd_main n = Selecting → nd_members n' = nd_members n → nd_main n' = Tearing 0 Idle err → begun n'.
Proof.
  intros Hn Hm Hmem Hm'. split; rewrite Hmem, Hm'.
  - intros i mb Hi. pose proof (bg_members n Hn i mb Hi) as Hok. rewrite Hm in Hok.
    unfold position_of. rewrite bool_decide_false by lia. by case_bool_decide.
  - intros k call e [= <- <- <-]. lia.
Qed.

(** The loop goes on to the next component. *)
Lemma begun_next n k call err mb mb' n' :
  begun n → nd_main n = Tearing k call err → nd_members n !! k = Some mb →
  nd_members n' = <[k := mb']> (nd_members n) → nd_main n' = Tearing (S k) Idle err →
  member_ok After mb' → begun n'.
Proof.
  intros Hn Hm Hk Hmem Hm' Hok. eapply (begun_insert n k mb mb'); [done..| | |].
  - cbn. rewrite bool_decide_true by lia. exact Hok.
  - intros j Hj. rewrite Hm. by apply position_next.
  - intros ??? [= <- <- <-]. by apply lookup_lt_Some in Hk.
Qed.

(** The call at the [k]-th component goes on. *)
Lemma begun_here n k c1 c2 err mb mb' n' :
  begun n → nd_main n = Tearing k c1 err → nd_members n !! k = Some mb →
  nd_members n' = <[k := mb']> (nd_members n) → nd_main n' = Tearing k c2 err →
  member_ok (position_of (Tearing k c2 err) k) mb' → begun n'.
Proof.
  intros Hn Hm Hk Hmem Hm' Hok. eapply (begun_insert n k mb mb'); [done..| |].
  - intros j Hj. rewrite Hm. by apply position_other.
  - intros ??? [= <- <- <-]. apply lookup_lt_Some in Hk. destruct c2; lia.
Qed.

(** What is known of the component at which the loop is. *)
Lemma begun_at n k c err mb :
  begun n → nd_main n = Tearing k c err → nd_members n !! k = Some mb →
  member_ok (match c with Idle => Before | AfterCancel => Told | InTeardown => During end) mb.
Proof.
  intros Hn Hm Hk. pose proof (bg_members n Hn k mb Hk) as Hok. by rewrite Hm, position_here in Hok.
Qed.

Lemma begun_TeardownNext n n' : begun n → node_step n TeardownNext = Some n' → begun n'.
Proof.
  intros Hn H. cbn [Shutdown.node_step] in H. destruct (nd_main n) as [|k [] err|] eqn:Em; try done.
  destruct (nd_members n !! k) as [mb|] eqn:Ek; [|done]. injection H as <-.
  pose proof (begun_at _ _ _ _ _ Hn Em Ek) as Hok.
  eapply (begun_here n k Idle AfterCancel err mb (cancel_component mb)); [done..|]. rewrite position_here.
  unfold member_ok in *. cbn. destruct (mb_component mb) as [st|]; [done|by destruct Hok].
Qed.

Lemma begun_TeardownCalls n n' : begun n → node_step n TeardownCalls = Some n' → begun n'.
Proof.
  intros Hn H. cbn [Shutdown.node_step] in H. destruct (nd_main n) as [|k [] err|] eqn:Em; try done.
  destruct (nd_members n !! k) as [mb|] eqn:Ek; [|done].
  pose proof (begun_at _ _ _ _ _ Hn Em Ek) as Hok. unfold member_ok in Hok.
  destruct (mb_component mb) as [st|] eqn:Ec.
  - destruct Hok as [Hc Ht]. destruct (component_Teardown (Some st)) as [[st'|]|] eqn:Et; [| |done].
    + injection H as <-. destruct (teardown_called st st' Hc Ht Et) as [Hst [Ht'|[p Ht']]]; rewrite Ht'.
      * eapply begun_next; [done|done|exact Ek|done..|]. by split.
      * eapply (begun_here n k AfterCancel InTeardown err mb (with_component st' mb)); [done..|].
        rewrite position_here. split; [done|by exists p].
    + unfold component_Teardown in Et. by destruct (step st TeardownCall).
  - cbn in H. injection H as <-. eapply (begun_next n k AfterCancel err mb mb); [done|done|done| |done|].
    + cbn. by rewrite list_insert_id.
    + unfold member_ok. rewrite Ec. by destruct Hok.
Qed.

Lemma begun_TeardownGoes n e n' : begun n → node_step n (TeardownGoes e) = Some n' → begun n'.
Proof.
  intros Hn H. cbn [Shutdown.node_step] in H. destruct (nd_main n) as [|k [] err|] eqn:Em; try done.
  destruct (nd_members n !! k) as [mb|] eqn:Ek; [|done].
  pose proof (begun_at _ _ _ _ _ Hn Em Ek) as Hok. unfold member_ok in Hok.
  destruct (mb_component mb) as [st|] eqn:Ec; [|by destruct Hok]. destruct Hok as [Hst Hp].
  assert (e = TeardownGone ∨ e = TeardownKill) as He by (destruct e; auto; done).
  assert (∃ st', step st e = Some st' ∧ n' = with_main (Tearing (S k) Idle err) (with_member k (with_component st' mb) n))
    as (st' & Es & ->) by (destruct He as [->| ->]; destruct (step st _) as [st'|] eqn:Es; naive_solver).
  eapply begun_next; [done|done|exact Ek|done..|]. by apply (teardown_goes st e st').
Qed.

Lemma begun_step n e n' : begun n → node_step n e = Some n' → begun n'.
Proof.
  intros Hn H. destruct e as [i|i e|i m| | | | | | |e|]; cbn [Shutdown.node_step] in H.
  - destruct (nd_members n !! i) as [[r [st|] []]|] eqn:Ei; try done.
    pose proof (bg_members n Hn i _ Ei) as [Hr Hp]. cbn in Hr. rewrite Hr in H. injection H as <-.
    eapply begun_same; [done|exact Ei|done..].
  - destruct (nd_members n !! i) as [mb|] eqn:Ei; [|done]. destruct (mb_component mb) as [st|] eqn:Ec; [|done].
    destruct (own_event e) eqn:Ee; [|done]. destruct (step st e) as [st'|] eqn:Es; [|done]. injection H as <-.
    eapply begun_same; [done|exact Ei|done..|]. unfold member_ok. rewrite Ec. cbn.
    eapply component_ok_step; [done|by left].
  - destruct (nd_members n !! i) as [[r [st|] []]|] eqn:Ei; try done. destruct (loop st); try done. injection H as <-.
    eapply begun_same; [done|exact Ei|done..].
  - injection H as <-. split; cbn.
    + intros i mb. rewrite list_lookup_fmap. destruct (nd_members n !! i) as [mb0|] eqn:Ei; [|done]. intros [= <-].
      pose proof (bg_members n Hn i _ Ei) as Hok. unfold member_ok, cancel_component in *. cbn in *.
      destruct (mb_component mb0) as [st|]; [|done]. cbn. eapply (component_ok_step _ st Cancel); [done|by right|done].
    + rewrite length_fmap. apply Hn.
  - destruct (nd_main n) eqn:Em; try done. injection H as <-. by eapply begun_wake.
  - destruct (nd_main n) eqn:Em, (nd_errors n); try done. injection H as <-. by eapply begun_wake.
  - destruct (nd_main n) eqn:Em, (nd_ctx n); try done. injection H as <-. by eapply begun_wake.
  - by apply begun_TeardownNext in H.
  - by apply begun_TeardownCalls in H.
  - by apply begun_TeardownGoes in H.
  - destruct (nd_main n) as [|k [] err|] eqn:Em; try done. case_bool_decide as Ek; [|done]. injection H as <-.
    split; [|done]. cbn. intros i mb Hi. pose proof (bg_members n Hn i mb Hi) as Hok. rewrite Em in Hok. cbn in Hok.
    apply lookup_lt_Some in Hi. by rewrite bool_decide_true in Hok by lia.
Qed.

Lemma node_steps_app n es1 es2 n1 : node_steps n es1 = Some n1 → node_steps n (es1 ++ es2) = node_steps n1 es2.
Proof.
  revert n. induction es1 as [|e es1 IH]; intros n H1; cbn in *; [by simplify_eq|].
  destruct (node_step n e); [by apply IH|done].
Qed.

Lemma begun_steps n es n' : begun n → node_steps n es = Some n' → begun n'.
Proof.
  revert n. induction es as [|e es IH]; intros n Hn H; cbn in H; [by simplify_eq|].
  destruct (node_step n e) as [n1|] eqn:E; [|done]. eapply IH; [by eapply begun_step|done].
Qed.

(** ** Nothing is started after the shutdown *)

(** A stopped component stays in its place, and starts nothing. *)
Definition quiet (i : nat) (k : nat) (n : node) : Prop :=
  ∃ mb st, nd_members n !! i = Some mb ∧ mb_component mb = Some st ∧ cancelled st = true ∧ starts st = k.

Lemma quiet_insert i k j mb mb' n n' :
  quiet i k n → nd_members n !! j = Some mb → nd_members n' = <[j := mb']> (nd_members n) →
  (∀ st, mb_component mb = Some st → cancelled st = true →
     ∃ st', mb_component mb' = Some st' ∧ cancelled st' = true ∧ starts st' = starts st) →
  quiet i k n'.
Proof.
  intros (mb0 & st & Hi & Hc & Hcan & Hst) Hj Hm Hkeep. unfold quiet. rewrite Hm.
  destruct (decide (i = j)) as [->|Hne].
  - rewrite list_lookup_insert_eq by (by eapply lookup_lt_Some). rewrite Hi in Hj. injection Hj as ->.
    destruct (Hkeep st Hc Hcan) as (st' & H1 & H2 & H3). exists mb', st'. split_and!; [done..|congruence].
  - rewrite list_lookup_insert_ne by done. by exists mb0, st.
Qed.

Lemma cancelled_step st e st' :
  step st e = Some st' → cancelled st = true → cancelled st' = true ∧ starts st' = starts st.
Proof. intros H Hc. apply stop_step in H as (_ & H & _). by apply H. Qed.

Lemma cancelled_Teardown st st' :
  component_Teardown (Some st) = Some (Some st') → cancelled st = true → cancelled st' = true ∧ starts st' = starts st.
Proof.
  intros H Hc. cbn [component_Teardown] in H. destruct (step st TeardownCall) as [st2|] eqn:E; [|done].
  injection H as ->. by apply (cancelled_step _ _ _ E).
Qed.

Lemma quiet_step i k n e n' : quiet i k n → node_step n e = Some n' → quiet i k n'.
Proof.
  intros Hq H. destruct e as [j|j e|j m| | | | | | |e|]; cbn [Shutdown.node_step] in H.
  - destruct (nd_members n !! j) as [[r [st|] []]|] eqn:Ej; try done.
    destruct (component_of wrkCtx args r); [destruct (launch _ _); [|done]|]; injection H as <-;
      eapply quiet_insert; [done|exact Ej|reflexivity|done|done|exact Ej|reflexivity|done].
  - destruct (nd_members n !! j) as [mb|] eqn:Ej; [|done]. destruct (mb_component mb) as [st|] eqn:Ec; [|done].
    destruct (own_event e); [|done]. destruct (step st e) as [st'|] eqn:Es; [|done]. injection H as <-.
    eapply quiet_insert; [done|exact Ej|reflexivity|]. rewrite Ec. intros ? [= <-] Hc. exists st'.
    split; [done|by apply (cancelled_step st e)].
  - destruct (nd_members n !! j) as [[r [st|] []]|] eqn:Ej; try done. destruct (loop st); try done. injection H as <-.
    eapply quiet_insert; [done|exact Ej|reflexivity|]. intros ? [= <-] Hc. by exists st.
  - injection H as <-. destruct Hq as (mb & st & Hi & Hc & Hcan & Hst).
    exists (cancel_component mb), (default st (step st Cancel)). cbn. rewrite list_lookup_fmap, Hi, Hc. by split_and!.
  - destruct (nd_main n); try done. by injection H as <-.
  - destruct (nd_main n), (nd_errors n); try done. by injection H as <-.
  - destruct (nd_main n), (nd_ctx n); try done. by injection H as <-.
  - destruct (nd_main n) as [|j [] err|]; try done. destruct (nd_members n !! j) as [mb|] eqn:Ej; [|done].
    injection H as <-. eapply quiet_insert; [done|exact Ej|reflexivity|]. intros st Hc Hcan.
    exists (default st (step st Cancel)). cbn. rewrite Hc. by split_and!.
  - destruct (nd_main n) as [|j [] err|]; try done. destruct (nd_members n !! j) as [mb|] eqn:Ej; [|done].
    destruct (component_Teardown (mb_component mb)) as [[st'|]|] eqn:Et; [| |done]; injection H as <-; [|done].
    eapply quiet_insert; [done|exact Ej|reflexivity|]. intros st Hc Hcan. rewrite Hc in Et. exists st'.
    split; [done|by apply cancelled_Teardown].
  - destruct (nd_main n) as [|j [] err|]; try done. destruct (nd_members n !! j) as [mb|] eqn:Ej; [|done].
    destruct (mb_component mb) as [st|] eqn:Ec; [|done].
    assert (∃ st', step st e = Some st' ∧ n' = with_main (Tearing (S j) Idle err) (with_member j (with_component st' mb) n))
      as (st' & Es & ->) by (destruct e; try done; destruct (step st _) as [st'|] eqn:Es; naive_solver).
    eapply quiet_insert; [done|exact Ej|reflexivity|]. rewrite Ec. intros ? [= <-] Hc. exists st'.
    split; [done|by apply (cancelled_step st e)].
  - destruct (nd_main n) as [|j [] err|]; try done. case_bool_decide; [|done]. by injection H as <-.
Qed.

Lemma quiet_steps i k n es n' : quiet i k n → node_steps n es = Some n' → quiet i k n'.
Proof.
  revert n. induction es as [|e es IH]; intros n Hn H; cbn in H; [by simplify_eq|].
  destruct (node_step n e) as [n1|] eqn:E; [|done]. eapply IH; [by eapply quiet_step|done].
Qed.

(** ** The error of [Run] *)

(** The errors that were sent, received or not. *)
Definition pending (n : node) : list string :=
  nd_errors n ++
  match nd_main n with Tearing _ _ (Some m) | RunReturned (Some m) => [m] | _ => [] end.

Lemma pending_step n e n' m :
  node_step n e = Some n' → m ∈ pending n' →
  m ∈ pending n ∨ ∃ i mb, e = RunnerReturns i m ∧ nd_members n !! i = Some mb ∧ run_error (mb_runner mb) m = Some m.
Proof.
  intros H Hm. assert ((∃ i err, e = RunnerReturns i err) ∨ ∀ i err, e ≠ RunnerReturns i err) as [(i & err & ->)|Hother]
    by (destruct e; eauto; by right).
  - cbn [Shutdown.node_step] in H. destruct (nd_members n !! i) as [[r [st|] []]|] eqn:Ei; try done.
    destruct (loop st); try done. injection H as <-. unfold pending in *. cbn in Hm. rewrite !elem_of_app in *.
    destruct Hm as [[Hm|Hm]|Hm]; [by left; left| |by left; right].
    right. exists i. eexists. split_and!; [|exact Ei|]; destruct r; cbn in *; set_solver.
  - left. destruct e as [j|j e|j m'| | | | | | |e|]; cbn [Shutdown.node_step] in H; [| |by destruct (Hother j m')|..].
    all: repeat match type of H with
      | context [match ?x with _ => _ end] => destruct x eqn:?; try discriminate H
      end; simplify_eq/=; unfold pending in *; cbn in Hm; rewrite ?elem_of_app in *;
      repeat match goal with E : nd_main ?x = _ |- _ => rewrite E in * end;
      repeat match goal with E : nd_errors ?x = _ |- _ => rewrite E in * end; set_solver.
Qed.

Lemma runners_insert (l : list member) i mb mb' :
  l !! i = Some mb → mb_runner mb' = mb_runner mb → mb_runner <$> <[i := mb']> l = mb_runner <$> l.
Proof.
  intros Hi Hr. rewrite list_fmap_insert. apply list_insert_id. by rewrite list_lookup_fmap, Hi, Hr.
Qed.

Lemma runners_step n e n' : node_step n e = Some n' → mb_runner <$> nd_members n' = mb_runner <$> nd_members n.
Proof.
  intros H. destruct e as [j|j e|j m'| | | | | | |e|]; cbn [Shutdown.node_step] in H;
    repeat match type of H with
      | context [match ?x with _ => _ end] => destruct x eqn:?; try discriminate H
      end; simplify_eq/=; try done; try (by eapply runners_insert).
  rewrite <- list_fmap_compose. by apply list_fmap_ext.
Qed.

Lemma pending_steps n es n' m :
  node_steps n es = Some n' → m ∈ pending n' →
  m ∈ pending n ∨ ∃ i r, RunnerReturns i m ∈ es ∧ (mb_runner <$> nd_members n) !! i = Some r ∧ run_error r m = Some m.
Proof.
  revert n. induction es as [|e es IH]; intros n H Hm; cbn in H; [simplify_eq; by left|].
  destruct (node_step n e) as [n1|] eqn:E; [|done].
  destruct (IH n1 H Hm) as [Hp|(i & r & Hin & Hr & He)].
  - destruct (pending_step _ _ _ _ E Hp) as [|(i & mb & -> & Hi & He)]; [by left|]. right. exists i, (mb_runner mb).
    split; [set_solver|]. split; [|done]. by rewrite list_lookup_fmap, Hi.
  - right. exists i, r. split; [set_solver|]. split; [|done]. by rewrite <- (runners_step _ _ _ E).
Qed.

(** ** The teardown loop ends *)

Lemma kill_enabled st p : tear st = Stopping p → ∃ st', step st TeardownKill = Some st'.
Proof. intros Ht. cbn. rewrite Ht. by eexists. Qed.

Lemma call_enabled st : tear st = NotCalled → ∃ st', component_Teardown (Some st) = Some (Some st').
Proof. intros Ht. destruct st as [ph pr sg te ca al ns]. cbn in *. subst te. cbn. by eexists. Qed.

(** The steps of the teardown loop itself; the last but one when the deadline has passed. *)
Definition loop_event (e : node_event) : Prop :=
  e ∈ [TeardownNext; TeardownCalls; TeardownGoes TeardownKill; TeardownEnds].

Lemma node_steps_length n es n' : node_steps n es = Some n' → length (nd_members n') = length (nd_members n).
Proof.
  revert n. induction es as [|e es IH]; intros n H; cbn in H; [by simplify_eq|].
  destruct (node_step n e) as [n1|] eqn:E; [|done]. rewrite (IH _ H).
  apply runners_step in E. apply (f_equal length) in E. by rewrite !length_fmap in E.
Qed.

(** What is left of the call at a component: at most three steps, two after [cancel()], one
    in the [Teardown] of the component. *)
Definition left_of (c : call_phase) : nat := match c with Idle => 3 | AfterCancel => 2 | InTeardown => 1 end.

Lemma teardown_in n k err :
  begun n → nd_main n = Tearing k InTeardown err →
  ∃ n', node_steps n [TeardownGoes TeardownKill] = Some n' ∧ nd_main n' = Tearing (S k) Idle err.
Proof.
  intros Hn Hm. pose proof (bg_bound n Hn _ _ _ Hm) as Hk. destruct (lookup_lt_is_Some_2 _ _ Hk) as [mb Hmb].
  pose proof (begun_at _ _ _ _ _ Hn Hm Hmb) as Hok. unfold member_ok in Hok.
  destruct (mb_component mb) as [st|] eqn:Ec; [|by destruct Hok]. destruct Hok as [_ [p Ht]].
  destruct (kill_enabled st p Ht) as [st' Hkill]. eexists. cbn [Shutdown.node_steps Shutdown.node_step].
  by rewrite Hm, Hmb, Ec, Hkill.
Qed.

Lemma teardown_after n k err :
  begun n → nd_main n = Tearing k AfterCancel err →
  ∃ n', node_steps n [TeardownCalls] = Some n' ∧
    (nd_main n' = Tearing (S k) Idle err ∨ nd_main n' = Tearing k InTeardown err).
Proof.
  intros Hn Hm. pose proof (bg_bound n Hn _ _ _ Hm) as Hk. destruct (lookup_lt_is_Some_2 _ _ Hk) as [mb Hmb].
  pose proof (begun_at _ _ _ _ _ Hn Hm Hmb) as Hok. unfold member_ok in Hok.
  cbn [Shutdown.node_steps Shutdown.node_step]. rewrite Hm, Hmb.
  destruct (mb_component mb) as [st|] eqn:Ec; [|cbn; eexists; split; [done|by left]].
  destruct Hok as [Hc Ht]. destruct (call_enabled st Ht) as [st' Et]. rewrite Et.
  destruct (teardown_called st st' Hc Ht Et) as [_ [Ht'|[p Ht']]]; rewrite Ht'; eexists; (split; [done|]); auto.
Qed.

Lemma teardown_idle n k err :
  begun n → nd_main n = Tearing k Idle err → k < length (nd_members n) →
  ∃ n', node_steps n [TeardownNext] = Some n' ∧ nd_main n' = Tearing k AfterCancel err.
Proof.
  intros Hn Hm Hk. destruct (lookup_lt_is_Some_2 _ _ Hk) as [mb Hmb].
  cbn [Shutdown.node_steps Shutdown.node_step]. rewrite Hm, Hmb. by eexists.
Qed.

(** Whatever state the components are in, steps of the loop alone finish the current one. *)
Lemma teardown_one n k c err :
  begun n → nd_main n = Tearing k c err → k < length (nd_members n) →
  ∃ es n', node_steps n es = Some n' ∧ Forall loop_event es ∧ length es ≤ left_of c ∧
    nd_main n' = Tearing (S k) Idle err.
Proof.
  intros Hn Hm Hk.
  assert (∀ n, begun n → nd_main n = Tearing k InTeardown err → ∃ es n', node_steps n es = Some n' ∧
    Forall loop_event es ∧ length es ≤ 1 ∧ nd_main n' = Tearing (S k) Idle err) as H1.
  { intros n1 Hn1 Hm1. destruct (teardown_in n1 k err Hn1 Hm1) as (n2 & H2 & Hm2).
    exists [TeardownGoes TeardownKill], n2. split_and!; [done|repeat constructor; unfold loop_event; set_solver|done|done]. }
  assert (∀ n, begun n → nd_main n = Tearing k AfterCancel err → ∃ es n', node_steps n es = Some n' ∧
    Forall loop_event es ∧ length es ≤ 2 ∧ nd_main n' = Tearing (S k) Idle err) as H2.
  { intros n1 Hn1 Hm1. destruct (teardown_after n1 k err Hn1 Hm1) as (n2 & Hs2 & [Hm2|Hm2]).
    - exists [TeardownCalls], n2. split_and!; [done|repeat constructor; unfold loop_event; set_solver|cbn; lia|done].
    - destruct (H1 n2 (begun_steps _ _ _ Hn1 Hs2) Hm2) as (es & n3 & Hs3 & Hf & Hl & Hm3).
      exists (TeardownCalls :: es), n3. split_and!; [|constructor; [unfold loop_event; set_solver|done]|cbn; lia|done].
      by apply (eq_trans (node_steps_app _ [TeardownCalls] es _ Hs2)). }
  destruct c; [|by apply H2|by apply H1].
  destruct (teardown_idle n k err Hn Hm Hk) as (n2 & Hs2 & Hm2).
  destruct (H2 n2 (begun_steps _ _ _ Hn Hs2) Hm2) as (es & n3 & Hs3 & Hf & Hl & Hm3).
  exists (TeardownNext :: es), n3. split_and!; [|constructor; [unfold loop_event; set_solver|done]|cbn; lia|done].
  by apply (eq_trans (node_steps_app _ [TeardownNext] es _ Hs2)).
Qed.

Lemma teardown_all n k err :
  begun n → nd_main n = Tearing k Idle err →
  ∃ es n', node_steps n es = Some n' ∧ Forall loop_event es ∧
    length es ≤ 3 * (length (nd_members n) - k) + 1 ∧ nd_main n' = RunReturned err.
Proof.
  remember (length (nd_members n) - k) as d eqn:Hd. revert n k Hd. induction d as [|d IH]; intros n k Hd Hn Hm.
  - pose proof (bg_bound n Hn _ _ _ Hm) as Hb. cbn in Hb.
    exists [TeardownEnds], (with_main (RunReturned err) n). cbn. rewrite Hm, bool_decide_true by lia.
    split_and!; [done|repeat constructor; unfold loop_event; set_solver|lia|done].
  - destruct (teardown_one n k Idle err Hn Hm ltac:(lia)) as (es1 & n1 & H1 & Hf1 & Hl1 & Hm1).
    pose proof (node_steps_length _ _ _ H1) as Hlen.
    destruct (IH n1 (S k) ltac:(lia) (begun_steps _ _ _ Hn H1) Hm1) as (es2 & n2 & H2 & Hf2 & Hl2 & Hm2).
    exists (es1 ++ es2), n2. rewrite length_app. cbn in Hl1. split_and!; [|by apply Forall_app|lia|done].
    by rewrite (node_steps_app _ _ _ _ H1).
Qed.

Lemma teardown_from n k c err :
  begun n → nd_main n = Tearing k c err →
  ∃ es n', node_steps n es = Some n' ∧ Forall loop_event es ∧
    length es ≤ 3 * length (nd_members n) + 1 ∧ nd_main n' = RunReturned err.
Proof.
  intros Hn Hm. pose proof (bg_bound n Hn _ _ _ Hm) as Hb.
  destruct (decide (k < length (nd_members n))) as [Hk|Hk].
  - destruct (teardown_one n k c err Hn Hm Hk) as (es1 & n1 & H1 & Hf1 & Hl1 & Hm1).
    destruct (teardown_all n1 (S k) err (begun_steps _ _ _ Hn H1) Hm1) as (es2 & n2 & H2 & Hf2 & Hl2 & Hm2).
    rewrite (node_steps_length _ _ _ H1) in Hl2.
    exists (es1 ++ es2), n2. rewrite length_app. assert (left_of c ≤ 3) by (destruct c; cbn; lia).
    split_and!; [by rewrite (node_steps_app _ _ _ _ H1)|by apply Forall_app|lia|done].
  - destruct c; [|lia..]. destruct (teardown_all n k err Hn Hm) as (es2 & n2 & H2 & Hf2 & Hl2 & Hm2).
    exists es2, n2. split_and!; [done..|lia|done].
Qed.
End invariant.

(** ** The shutdown of a worker *)

(** Before the select, no teardown was called. *)
Lemma selecting_fresh wrkCtx args n es n' :
  node_steps wrkCtx args n es = Some n' →
  (nd_main n = Selecting → ∀ i mb st, nd_members n !! i = Some mb → mb_component mb = Some st → tear st = NotCalled) →
  nd_main n' = Selecting → ∀ i mb st, nd_members n' !! i = Some mb → mb_component mb = Some st → tear st = NotCalled.
Proof.
  revert n. induction es as [|e es IH]; intros n H Hn; cbn in H; [by simplify_eq|].
  destruct (node_step wrkCtx args n e) as [n1|] eqn:E; [|done]. apply (IH n1 H). clear IH H.
  assert (∀ j mb mb', nd_members n !! j = Some mb → nd_main n = Selecting →
    (∀ st, mb_component mb' = Some st → tear st = NotCalled) →
    ∀ i mb0 st, <[j := mb']> (nd_members n) !! i = Some mb0 → mb_component mb0 = Some st → tear st = NotCalled) as Hins.
  { intros j mb mb' Hj Hsel Hmb' i mb0 st. destruct (decide (i = j)) as [->|Hne].
    - rewrite list_lookup_insert_eq by (by eapply lookup_lt_Some). intros [= <-]. apply Hmb'.
    - rewrite list_lookup_insert_ne by done. by apply Hn. }
  intros Hsel. destruct e as [j|j e|j m| | | | | | |e|]; cbn [node_step] in E.
  - destruct (nd_members n !! j) as [[r [st0|] []]|] eqn:Ej; try done.
    destruct (component_of wrkCtx args r); [destruct (launch _ _) as [st1|] eqn:El; [|done]|]; injection E as <-;
      (eapply Hins; [exact Ej|exact Hsel|]); intros st Hst; cbn in Hst; [|done]. injection Hst as <-.
    unfold launch in El. by destruct (nd_ctx n); cbn in El; injection El as <-.
  - destruct (nd_members n !! j) as [mb|] eqn:Ej; [|done]. destruct (mb_component mb) as [st|] eqn:Ec; [|done].
    destruct (own_event e) eqn:Ee; [|done]. destruct (step st e) as [st1|] eqn:Es; [|done]. injection E as <-.
    eapply Hins; [exact Ej|done|]. intros ? [= <-]. rewrite (proj1 (own_step st e st1 Es (or_introl Ee))). by eapply Hn.
  - destruct (nd_members n !! j) as [[r [st|] []]|] eqn:Ej; try done. destruct (loop st); try done. injection E as <-.
    eapply Hins; [exact Ej|done|]. intros ? [= <-]. by eapply Hn.
  - injection E as <-. cbn. intros i mb st. rewrite list_lookup_fmap.
    destruct (nd_members n !! i) as [mb0|] eqn:Ei; [|done]. intros [= <-]. cbn.
    destruct (mb_component mb0) as [st0|] eqn:Ec; [|done]. intros [= <-]. cbn. by eapply Hn.
  - destruct (nd_main n); try done. by injection E as <-.
  - destruct (nd_main n), (nd_errors n); try done. by injection E as <-.
  - destruct (nd_main n), (nd_ctx n); try done. by injection E as <-.
  - destruct (nd_main n) as [|k [] err|]; try done. repeat case_match; try done; by injection E as <-.
  - destruct (nd_main n) as [|k [] err|]; try done. repeat case_match; try done; by injection E as <-.
  - destruct (nd_main n) as [|k [] err|]; try done. repeat case_match; try done; by injection E as <-.
  - destruct (nd_main n) as [|k [] err|]; try done. case_bool_decide; [|done]. by injection E as <-.
Qed.

(** C25.  The shutdown of a worker.  Once the goroutines of its processes have begun,
    whatever the operating system, the supervisors and the callers do and whichever
    reason ends the wait: when [Run] returns, every component has been told to stop and
    its teardown has returned, no component starts a process any more, ever, and an
    error that [Run] returns is one that the supervisor of the kubelet ended with, not that of
    another component.  And [Run] can always get there: by at most three steps of its own loop
    for every component and one more, whatever state the components are in (its
    [cancel()], the call of [Teardown], and the kill at the deadline). *)
Theorem shutdown_complete wrkCtx args rs ctx es0 n es n' :
  node_steps wrkCtx args (node_start rs ctx) es0 = Some n → nd_main n = Selecting →
  (∀ mb, mb ∈ nd_members n → mb_component mb = None → component_of wrkCtx args (mb_runner mb) = None) →
  node_steps wrkCtx args n es = Some n' →
  match nd_main n' with
  | Selecting => True
  | RunReturned err =>
      (∀ i mb st, nd_members n' !! i = Some mb → mb_component mb = Some st →
         cancelled st = true ∧ stopping st = true ∧ tear st = Returned ∧
         ∀ es2 n2, node_steps wrkCtx args n' es2 = Some n2 → ∃ mb2 st2,
           nd_members n2 !! i = Some mb2 ∧ mb_component mb2 = Some st2 ∧ starts st2 = starts st) ∧
      ∀ m, err = Some m → ∃ i profile, RunnerReturns i m ∈ es0 ++ es ∧ rs !! i = Some (RKubelet profile)
  | Tearing k call err =>
      ∃ es2 n2, node_steps wrkCtx args n' es2 = Some n2 ∧
        (∀ e, e ∈ es2 → e ∈ [TeardownNext; TeardownCalls; TeardownGoes TeardownKill; TeardownEnds]) ∧
        length es2 ≤ 3 * length rs + 1 ∧ nd_main n2 = RunReturned err
  end.
Proof.
  intros H0 Hsel Hall H.
  assert (begun wrkCtx args n) as Hn.
  { split; [|by rewrite Hsel]. intros i mb Hi. rewrite Hsel. unfold member_ok. cbn.
    destruct (mb_component mb) as [st|] eqn:Ec; [|split; [|done]; apply Hall; [by eapply list_elem_of_lookup_2|done]].
    eapply (selecting_fresh wrkCtx args _ _ _ H0); [|done..]. intros _ j mb0 st0. cbn. rewrite list_lookup_fmap.
    destruct (rs !! j); [|done]. by intros [= <-]. }
  assert (node_steps wrkCtx args (node_start rs ctx) (es0 ++ es) = Some n') as Hall'
    by (by rewrite (node_steps_app _ _ _ _ _ _ H0)).
  pose proof (begun_steps wrkCtx args _ _ _ Hn H) as Hn'.
  destruct (nd_main n') as [|k call err|err] eqn:Em; [done| |].
  - destruct (teardown_from wrkCtx args n' k call err Hn' Em) as (es2 & n2 & H2 & Hf & Hl & Hm2).
    rewrite (node_steps_length _ _ _ _ _ Hall') in Hl. cbn in Hl. rewrite length_fmap in Hl.
    exists es2, n2. split_and!; [done|by apply Forall_forall|lia|done].
  - split.
    + intros i mb st Hi Hc. pose proof (bg_members _ _ _ Hn' i mb Hi) as Hok. rewrite Em in Hok. unfold member_ok in Hok.
      rewrite Hc in Hok. destruct Hok as [[Hst1 Hst2] Ht]. split_and!; [done..|]. intros es2 n2 H2.
      destruct (quiet_steps wrkCtx args i (starts st) n' es2 n2) as (mb2 & st2 & Hi2 & Hc2 & _ & Hs2); [|done|by exists mb2, st2].
      by exists mb, st.
    + intros m ->. assert (m ∈ pending n') as Hm by (unfold pending; rewrite Em; set_solver).
      destruct (pending_steps wrkCtx args _ _ _ m Hall' Hm) as [Hp|(i & r & Hin & Hr & He)].
      { unfold pending in Hp. cbn in Hp. set_solver. }
      cbn in Hr. rewrite list_lookup_fmap, list_lookup_fmap in Hr. destruct (rs !! i) as [r'|] eqn:Er; [|done].
      injection Hr as ->. destruct r as [|profile|]; [done| |done]. by exists i, profile.
Qed.

(** ** Executions *)

Definition worker_node (es : list node_event) : option node :=
  node_steps NewWorkerContextWithDefaults [] (node_start [RContainerd; RKubelet flannel_profile; RCni] false) es.

(** All three begin, both processes run. *)
Definition all_running : list node_event :=
  [Launch 0; Launch 1; Launch 2; Supervise 0 StartOk; Supervise 0 SetProc; Supervise 1 StartOk; Supervise 1 SetProc].

(** A signal; containerd ends when asked to, the kubelet has to be killed. *)
Definition stop_by_signal : list node_event :=
  [Signalled; TeardownNext; TeardownCalls; Supervise 0 Exit; Supervise 0 WaitReturns; TeardownGoes TeardownGone;
   TeardownNext; TeardownCalls; TeardownGoes TeardownKill; TeardownNext; TeardownCalls; TeardownEnds].

(** How [Run] ends, the processes that run and how many were started. *)
Definition outcome (n : option node) : option (main_phase * list (option (option nat * nat))) :=
  (λ n, (nd_main n, (λ mb, (λ st, (alive st, starts st)) <$> mb_component mb) <$> nd_members n)) <$> n.

Lemma shutdown_complete_witness :
  ∃ n n', worker_node all_running = Some n ∧
    node_steps NewWorkerContextWithDefaults [] n stop_by_signal = Some n' ∧
    nd_main n' = RunReturned None ∧
    ∀ i mb st, nd_members n' !! i = Some mb → mb_component mb = Some st →
      cancelled st = true ∧ stopping st = true ∧ tear st = Returned.
Proof.
  assert (∃ n, worker_node all_running = Some n) as [n H0] by (vm_compute; by eexists).
  assert (match worker_node (all_running ++ stop_by_signal) with
          | Some n' => match nd_main n' with RunReturned None => true | _ => false end
          | None => false end = true) as E by (vm_compute; reflexivity).
  unfold worker_node in H0, E. rewrite (node_steps_app _ _ _ _ _ _ H0) in E.
  destruct (node_steps _ _ n stop_by_signal) as [n'|] eqn:H; [|discriminate E].
  assert (nd_main n = Selecting ∧
    ∀ mb, mb ∈ nd_members n → mb_component mb = None → component_of NewWorkerContextWithDefaults [] (mb_runner mb) = None)
    as [Hsel Hall].
  { vm_compute in H0. injection H0 as <-. split; [reflexivity|]. intros mb Hmb. cbn in Hmb.
    rewrite !elem_of_cons, elem_of_nil in Hmb. destruct Hmb as [->|[->|[->|[]]]]; done. }
  pose proof (shutdown_complete _ _ _ _ _ _ _ _ H0 Hsel Hall H) as Hdone.
  destruct (nd_main n') as [| |err] eqn:Em; [discriminate E..|]. destruct err; [discriminate E|].
  exists n, n'. split; [exact H0|]. split; [exact H|]. split; [exact Em|].
  intros i mb st Hi Hc. destruct Hdone as [Hd _]. destruct (Hd i mb st Hi Hc) as (H1 & H2 & H3 & _). by split_and!.
Defined.

(** A component whose goroutine has not begun when it is torn down starts afterwards. *)
Example started_after_shutdown :
  outcome (worker_node ([Launch 0; Launch 2; Signalled; TeardownNext; TeardownCalls; TeardownNext; TeardownCalls;
                         TeardownNext; TeardownCalls; TeardownEnds] ++
                        [Launch 1; Supervise 1 StartOk])) =
    Some (RunReturned None, [Some (None, 0); Some (Some 0, 1); None]).
Proof. vm_compute. reflexivity. Qed.

(** containerd has used up its restarts, and nothing wakes the worker. *)
Example containerd_gives_up_unnoticed :
  outcome (worker_node (all_running ++
    concat (replicate 5 [Supervise 0 Exit; Supervise 0 WaitReturns; Supervise 0 StartOk; Supervise 0 SetProc]) ++
    [Supervise 0 Exit; Supervise 0 WaitReturns; RunnerReturns 0 "containerd: exit status 1"; ErrorReceived])) = None ∧
  outcome (worker_node (all_running ++
    concat (replicate 5 [Supervise 0 Exit; Supervise 0 WaitReturns; Supervise 0 StartOk; Supervise 0 SetProc]) ++
    [Supervise 0 Exit; Supervise 0 WaitReturns; RunnerReturns 0 "containerd: exit status 1"])) =
    Some (Selecting, [Some (None, 6); Some (Some 0, 1); None]).
Proof. vm_compute. by split. Qed.
