(* ===== verification/Commands.v ===== *)
(** * The command line

    What the commands of src/pkg/cmd do once their flags are parsed: get, provision,
    delete and token generate.  They call the operations of Provision.v, Token.v and
    Worker.v, print, and save credentials into files of the user.

    The calls are those of the API server and those on the terminal of the user: what
    is printed, as rows of cells ([text/tabwriter] only aligns them), and the files,
    with their modes.  Parsing of flags is cobra's. *)

From stdpp Require Import gmap.
From S2P Require Import Prelude Base64 Effects Kube Api Pki World PkiAuth Host Token JoinToken Bootstrap Worker.
From S2P Require Import Strvals Provision.
From stdpp Require Import options.

(** ** Calls *)

Inductive cop : Type → Type :=
| Stdout (rows : list (list string)) : cop unit
(** [os.WriteFile]: the mode is that of a file it creates. *)
| SaveFile (p data : string) (mode : Z) : cop (option string)
| Chmod (p : string) (mode : Z) : cop (option string)
| Api {R} (o : op R) : cop R.

Definition on_api {A} (p : prog op A) : prog cop A := embed (@Api) p.

Record terminal := {
  (** The files with their modes. *)
  t_files : gmap string (string * Z);
  t_out : list (list (list string));
  t_cluster : cluster;
}.

Definition with_tfile (p : string) (f : option (string * Z)) (s : terminal) : terminal := {|
  t_files := partial_alter (λ _, f) p (t_files s); t_out := t_out s; t_cluster := t_cluster s |}.
Definition with_tcluster (c : cluster) (s : terminal) : terminal := {|
  t_files := t_files s; t_out := t_out s; t_cluster := c |}.

(** The mode of a file after [os.WriteFile]. *)
Definition mode_of (p : string) (mode : Z) (s : terminal) : Z :=
  match t_files s !! p with Some (_, old) => old | None => mode end.

Section interface.
(** [I] is to hold after every call. *)
Context `{X : X509} (e : env) (I : terminal → Prop).

Definition cmd_spec : op_spec cop terminal := λ R o,
  match o in cop R return terminal → (R → terminal → Prop) → Prop with
  | Stdout rows => λ s Q,
      let s' := {| t_files := t_files s; t_out := t_out s ++ [rows]; t_cluster := t_cluster s |} in I s' ∧ Q tt s'
  | SaveFile p data mode => λ s Q,
      (∀ m, Q (Some m) s) ∧
      (∀ m part, let s' := with_tfile p (Some (part, mode_of p mode s)) s in I s' ∧ Q (Some m) s') ∧
      (let s' := with_tfile p (Some (data, mode_of p mode s)) s in I s' ∧ Q None s')
  | Chmod p mode => λ s Q,
      (∀ m, Q (Some m) s) ∧
      ∀ data old, t_files s !! p = Some (data, old) →
        let s' := with_tfile p (Some (data, mode)) s in I s' ∧ Q None s'
  | @Api R o => λ s Q, api_spec e R o (t_cluster s) (λ r c, I (with_tcluster c s) ∧ Q r (with_tcluster c s))
  end.

#[global] Instance cmd_spec_mono : Monotone cmd_spec.
Proof.
  intros R o s Q Q' HQ H. destruct o; simpl in *; try (eapply api_spec_mono; [|exact H]); naive_solver.
Qed.

Lemma wp_terminal_api {A} (p : prog op A) s (Q : A → terminal → Prop) :
  (∀ c, I (with_tcluster c s)) →
  wp (api_spec e) p (t_cluster s) (λ a c, Q a (with_tcluster c s)) → wp cmd_spec (on_api p) s Q.
Proof.
  apply (wp_embed _ _ _ t_cluster with_tcluster (λ s, ∀ c, I (with_tcluster c s))); try done; [apply _|by intros []|].
  intros R o s1 Q' HI H. eapply api_spec_mono; [|exact H]. intros r c Hc. by split.
Qed.
End interface.

(** ** Commands *)

(** The options of the flags. *)
Record getFlags := {
  gf_namespace : string;
  gf_kubeconfig : string;
  gf_server : string;
  gf_saveKubeconfig : string;
}.

Record runtimeClusterProvisionFlagpole := {
  rf_namespace : string;
  rf_kubeconfig : string;
  rf_set : list string;
  rf_wait : bool;
  rf_timeout : Z;
}.

Record workerJoinTokenProvisionFlagpole := {
  tf_ttl : Z;
  tf_kubeconfig : string;
  tf_wait : bool;
  tf_timeout : Z;
}.

(** What they are when nothing is given. *)
Definition default_getFlags : getFlags := {|
  gf_namespace := "default"; gf_kubeconfig := ""; gf_server := ""; gf_saveKubeconfig := "" |}.

Definition default_runtimeClusterProvision : runtimeClusterProvisionFlagpole := {|
  rf_namespace := "default"; rf_kubeconfig := ""; rf_set := []; rf_wait := true; rf_timeout := 5 * 60 |}.

Definition default_workerJoinTokenProvision : workerJoinTokenProvisionFlagpole := {|
  tf_ttl := 3 * 3600; tf_kubeconfig := ""; tf_wait := true; tf_timeout := 60 |}.

Definition condition_text (c : ConditionStatus) : string :=
  match c with ConditionTrue => "True" | ConditionFalse => "False" | ConditionUnknown => "Unknown" end.

Section commands.
Context `{M : Machinery} `{X : X509} `{Y : Yaml} `{P : Polling} `{C : Codec}.
Context (buildClient : string → option string).
(** [duration.ShortHumanDuration] of the time since the creation. *)
Context (age : ObjectMeta → string).

Definition runtime_row (rt : Runtime) : list string :=
  let '(available, reason) :=
    match FindStatusCondition (rst_conditions (rt_status rt)) "Available" with
    | Some cond => (condition_text (cond_status cond), cond_reason cond)
    | None => ("Unknown", "")
    end in
  let endpoint := cpe_apiServer (cl_endpoint (rt_cluster rt)) in
  [rt_name rt; available; reason; ce_host endpoint; FormatInt (ce_port endpoint); age (rt_meta rt)].

Definition printRuntimeClusters (runtimes : list Runtime) : prog cop unit :=
  match runtimes with
  | [] => trigger (Stdout [["No runtime clusters found."]])
  | _ => trigger (Stdout (["NAME"; "AVAILABLE"; "REASON"; "HOST"; "PORT"; "AGE"] :: (runtime_row <$> runtimes)))
  end.

Definition token_row (tok : WorkerJoinToken) : list string :=
  let '(ready, reason) :=
    match FindStatusCondition (wjs_conditions (wj_status tok)) "Ready" with
    | Some cond => (condition_text (cond_status cond), cond_reason cond)
    | None => ("Unknown", "")
    end in
  let expires := match wjs_expiresAt (wj_status tok) with Some t => RFC3339 t | None => "<none>" end in
  [om_name (wj_meta tok); ready; reason; expires; age (wj_meta tok)].

Definition printWorkerJoinTokens (tokens : list WorkerJoinToken) : prog cop unit :=
  match tokens with
  | [] => trigger (Stdout [["No worker join tokens found."]])
  | _ => trigger (Stdout (["NAME"; "READY"; "REASON"; "EXPIRES"; "AGE"] :: (token_row <$> tokens)))
  end.

(** 0o600. *)
Definition private_mode : Z := 384.

(** [%q] of a name that an object has, in which nothing is escaped. *)
Definition quoted_name (name : string) : string :=
  let q := String (Ascii.ascii_of_nat 34) "" in q +:+ name +:+ q.

Definition writeKubeconfigFile (path data : string) : prog cop (option string) :=
  let! w := trigger (SaveFile path data private_mode) in
  match w with
  | Some e => Ret (Some ("failed to write kubeconfig to " +:+ path +:+ ": " +:+ e))
  | None =>
      let! c := trigger (Chmod path private_mode) in
      match c with
      | Some e => Ret (Some ("failed to set permissions on " +:+ path +:+ ": " +:+ e))
      | None => Ret None
      end
  end.

(** [get runtimeCluster \[name\]]. *)
Definition runtimeClusterGet (args : list string) (flags : getFlags) : prog cop (option string) :=
  match args with
  | [] =>
      if negb (bool_decide (gf_saveKubeconfig flags = ""))
      then Ret (Some "--save-kubeconfig requires a runtime cluster name")
      else
        let! l := on_api (ControlPlane.List buildClient
          [ControlPlane.WithNamespace (gf_namespace flags); ControlPlane.WithKubeconfig (gf_kubeconfig flags)]) in
        match l with
        | inr e => Ret (Some e)
        | inl runtimes => let! _ := printRuntimeClusters runtimes in Ret None
        end
  | name :: _ =>
      let opts := [ControlPlane.WithName name; ControlPlane.WithNamespace (gf_namespace flags);
                   ControlPlane.WithKubeconfig (gf_kubeconfig flags)] in
      let! g := on_api (ControlPlane.Get buildClient opts) in
      match g with
      | inr e => Ret (Some e)
      | inl rt =>
          let! _ := printRuntimeClusters [rt] in
          if bool_decide (gf_saveKubeconfig flags = "") then Ret None
          else
            let! d := on_api (ControlPlane.FetchKubeconfig buildClient
                                (opts ++ [ControlPlane.WithServer (gf_server flags)])) in
            match d with
            | inr e => Ret (Some e)
            | inl data =>
                let! w := writeKubeconfigFile (gf_saveKubeconfig flags) data in
                match w with
                | Some e => Ret (Some e)
                | None =>
                    let! _ := trigger (Stdout [["wrote admin kubeconfig for cluster " +:+ quoted_name name +:+ " to " +:+
                                                gf_saveKubeconfig flags]]) in
                    Ret None
                end
            end
      end
  end.

(** [get workerJoinToken \[name\]]. *)
Definition workerJoinTokenGet (args : list string) (kubeconfig saveToken : string) : prog cop (option string) :=
  match args with
  | [] =>
      if negb (bool_decide (saveToken = "")) then Ret (Some "--save-token requires a worker join token name")
      else
        let! l := on_api (JoinTokens.List buildClient [JoinTokens.WithKubeconfig kubeconfig]) in
        match l with
        | inr e => Ret (Some e)
        | inl tokens => let! _ := printWorkerJoinTokens tokens in Ret None
        end
  | name :: _ =>
      let opts := [JoinTokens.WithName name; JoinTokens.WithKubeconfig kubeconfig] in
      let! g := on_api (JoinTokens.Get buildClient opts) in
      match g with
      | inr e => Ret (Some e)
      | inl tok =>
          let! _ := printWorkerJoinTokens [tok] in
          if bool_decide (saveToken = "") then Ret None
          else
            let! d := on_api (JoinTokens.FetchSecret buildClient opts) in
            match d with
            | inr e => Ret (Some e)
            | inl data =>
                let! w := trigger (SaveFile saveToken data private_mode) in
                match w with
                | Some e => Ret (Some ("failed to write worker join token to " +:+ saveToken +:+ ": " +:+ e))
                | None =>
                    let! c := trigger (Chmod saveToken private_mode) in
                    match c with
                    | Some e => Ret (Some ("failed to set permissions on " +:+ saveToken +:+ ": " +:+ e))
                    | None =>
                        let! _ := trigger (Stdout [["wrote worker join token " +:+ quoted_name name +:+ " to " +:+ saveToken]]) in
                        Ret None
                    end
                end
            end
      end
  end.

(** [provision runtimeCluster], [provision workerJoinToken]: cobra takes exactly one
    argument. *)
Definition runtimeClusterProvision (name : string) (flags : runtimeClusterProvisionFlagpole) :
    option (prog op (option string)) :=
  ControlPlane.Provision buildClient
    [ControlPlane.WithName name; ControlPlane.WithNamespace (rf_namespace flags);
     ControlPlane.WithKubeconfig (rf_kubeconfig flags); ControlPlane.WithSet (rf_set flags);
     ControlPlane.WithWait (rf_wait flags); ControlPlane.WithTimeout (rf_timeout flags)].

Definition workerJoinTokenProvision (name : string) (flags : workerJoinTokenProvisionFlagpole) :
    prog op (option string) :=
  JoinTokens.Provision buildClient
    [JoinTokens.WithName name; JoinTokens.WithTTL (tf_ttl flags); JoinTokens.WithKubeconfig (tf_kubeconfig flags);
     JoinTokens.WithWait (tf_wait flags); JoinTokens.WithTimeout (tf_timeout flags)].

(** [delete controlplane], [delete workerJoinToken]. *)
Definition controlPlaneDelete (name kubeconfig namespace : string) : prog op (option string) :=
  ControlPlane.Delete buildClient
    [ControlPlane.WithName name; ControlPlane.WithKubeconfig kubeconfig; ControlPlane.WithNamespace namespace].

Definition workerJoinTokenDelete (name kubeconfig : string) : prog op (option string) :=
  JoinTokens.Delete buildClient [JoinTokens.WithName name; JoinTokens.WithKubeconfig kubeconfig].

(** [token generate] on the kubeconfig that was loaded. *)
Definition tokenGenerate (rawConfig : KubeConfig) (context : string) (expiry : Z) : prog cop (option string) :=
  let! t := on_api (CreateBootstrapToken rawConfig context expiry) in
  match t with
  | inr e => Ret (Some ("unable to generate bootstrap token: " +:+ e))
  | inl b64Kubeconfig => let! _ := trigger (Stdout [[b64Kubeconfig]]) in Ret None
  end.
End commands.

(** ** Saved credentials *)

(** Neither the group nor others have a permission. *)
Definition unshared (mode : Z) : Prop := Z.land mode 63 = 0%Z.

Definition kept_private (path : string) (s : terminal) : Prop :=
  ∀ data mode, t_files s !! path = Some (data, mode) → unshared mode.

Section saving.
Context `{M : Machinery} `{X : X509} `{Y : Yaml} `{P : Polling} `{C : Codec}.
Context (buildClient : string → option string) (age : ObjectMeta → string) (path : string) (s0 : terminal).

(** After every call: a file that others could not read before the command cannot be
    read by them now. *)
Definition stays_private (s : terminal) : Prop := kept_private path s0 → kept_private path s.

Local Abbreviation spec := (cmd_spec calm stays_private).

Record saving (s : terminal) : Prop := {
  sv_private : stays_private s;
  sv_cluster : t_cluster s = t_cluster s0;
  sv_files : ∀ p, p ≠ path → t_files s !! p = t_files s0 !! p;
}.

Lemma saving_start : saving s0.
Proof. split; [|done..]. by intros ?. Qed.

Lemma saving_write data mode s :
  saving s → unshared mode →
  saving (with_tfile path (Some (data, mode_of path mode s)) s) ∧
  saving (with_tfile path (Some (data, mode)) s).
Proof.
  intros [Hp Hc Hf] Hm.
  assert (∀ p f, p ≠ path → t_files (with_tfile path f s) !! p = t_files s0 !! p) as Hother.
  { intros p f Hne. cbn. rewrite lookup_partial_alter_ne by done. by apply Hf. }
  split; split; try done; try (intros p; apply Hother).
  - intros H0 d m. cbn. rewrite lookup_partial_alter_eq. intros [= _ <-]. unfold mode_of.
    destruct (t_files s !! path) as [[d' old]|] eqn:E; [|done]. by eapply Hp.
  - intros H0 d m. cbn. rewrite lookup_partial_alter_eq. by intros [= _ <-].
Qed.

Lemma wp_Stdout {A} rows s (k : unit → prog cop A) Q :
  saving s → (∀ s', saving s' → t_files s' = t_files s → wp spec (k tt) s' Q) →
  wp spec (bind (trigger (Stdout rows)) k) s Q.
Proof. intros [Hp Hc Hf] Hk. simpl. split; [done|]. by apply Hk. Qed.

(** Both commands save the same way. *)
Lemma wp_save {A} data s (k1 k2 : string → prog cop A) (k : prog cop A) Q :
  saving s →
  (∀ m s', saving s' → wp spec (k1 m) s' Q) → (∀ m s', saving s' → wp spec (k2 m) s' Q) →
  (∀ s', saving s' → t_files s' !! path = Some (data, private_mode) → wp spec k s' Q) →
  wp spec (let! w := trigger (SaveFile path data private_mode) in
           match w with
           | Some e => k1 e
           | None =>
               let! c := trigger (Chmod path private_mode) in
               match c with Some e => k2 e | None => k end
           end) s Q.
Proof.
  intros Hs H1 H2 Hk. assert (unshared private_mode) as Hm by done. simpl.
  split; [intros m; by apply H1|]. split.
  - intros m part. destruct (saving_write part _ s Hs Hm) as [Hw _]. split; [apply Hw|by apply H1].
  - destruct (saving_write data _ s Hs Hm) as [Hw _]. split; [apply Hw|].
    split; [intros m; by apply H2|]. intros d old. cbn. rewrite lookup_partial_alter_eq. intros [= <- <-].
    destruct (saving_write data _ _ Hw Hm) as [_ Hw']. split; [apply Hw'|]. apply Hk; [done|].
    cbn. by rewrite lookup_partial_alter_eq.
Qed.

(** A read of the cluster changes nothing. *)
Lemma wp_reading {A} (p : prog op A) s (R : A → Prop) (Q : A → terminal → Prop) :
  saving s →
  wp (api_spec calm) p (t_cluster s0) (λ a c, c = t_cluster s0 ∧ R a) →
  (∀ a, R a → Q a s) → wp spec (on_api p) s Q.
Proof.
  intros Hs Hp HQ. apply wp_terminal_api. { intros c. apply Hs. }
  rewrite (sv_cluster _ Hs). eapply (wp_mono _ p); [exact Hp|]. intros a c [-> HR]. rewrite <- (sv_cluster _ Hs).
  destruct s. by apply HQ.
Qed.
End saving.

(** The admin kubeconfig of a control plane, with the server of [--server] if given. *)
Definition admin_kubeconfig `{X : X509} (c : cluster) (namespace name server out : string) : Prop :=
  ∃ sec data, c_secrets c !! NN namespace (name +:+ "-kubeconfig") = Some sec ∧
    mget (sec_data sec) (SecretKey (ClientKubeconfig (lay_auth NewControlPlaneLayout))) = Some data ∧
    if bool_decide (server = "") then out = data else ControlPlane.rewriteServer data server = inl out.

(** What a worker is started with. *)
Definition join_token (c : cluster) (name out : string) : Prop :=
  ∃ sec data, c_secrets c !! NN NamespaceSystem (name +:+ "-jointoken") = Some sec ∧
    mget (sec_data sec) "jointoken" = Some data ∧ out = base64 data.

Section fetching.
Context `{M : Machinery} `{X : X509} (buildClient : string → option string) (c : cluster).

Lemma wp_Get opts :
  wp (api_spec calm) (ControlPlane.Get buildClient opts) c (λ _ c', c' = c ∧ True).
Proof using Type.
  unfold ControlPlane.Get. destruct (buildClient _); [done|].
  apply (wp_get calm (λ s, s = c) (calm_rely c)); [done|by intros ? m ->|by intros ? -> ?|by intros ? o ->].
Qed.

Lemma wp_FetchKubeconfig opts :
  let pCtx := ControlPlane.apply_options opts in
  wp (api_spec calm) (ControlPlane.FetchKubeconfig buildClient opts) c (λ r c', c' = c ∧
    ∀ out, r = inl out →
      admin_kubeconfig c (ControlPlane.pc_namespace pCtx) (ControlPlane.pc_name pCtx) (ControlPlane.pc_server pCtx) out).
Proof using Type.
  intros pCtx. unfold ControlPlane.FetchKubeconfig. fold pCtx. destruct (buildClient _); [done|].
  apply (wp_get calm (λ s, s = c) (calm_rely c)); [done|by intros ? m ->|by intros ? -> ?|].
  intros ? sec -> Hsec. destruct (mget _ _) as [data|] eqn:E; [|done].
  destruct (bool_decide (ControlPlane.pc_server pCtx = "")) eqn:Es; (split; [done|]).
  - intros out [= <-]. exists sec, data. by rewrite Es.
  - intros out Ho. exists sec, data. by rewrite Es.
Qed.

Lemma wp_Get_token opts :
  wp (api_spec calm) (JoinTokens.Get buildClient opts) c (λ _ c', c' = c ∧ True).
Proof using Type.
  unfold JoinTokens.Get. destruct (buildClient _); [done|].
  apply (wp_get calm (λ s, s = c) (calm_rely c)); [done|by intros ? m ->|by intros ? -> ?|by intros ? o ->].
Qed.

Lemma wp_FetchSecret_token opts :
  wp (api_spec calm) (JoinTokens.FetchSecret buildClient opts) c (λ r c', c' = c ∧
    ∀ out, r = inl out → join_token c (JoinTokens.pc_name (JoinTokens.apply_options opts)) out).
Proof using Type.
  unfold JoinTokens.FetchSecret. destruct (buildClient _); [done|].
  apply (wp_get calm (λ s, s = c) (calm_rely c)); [done|by intros ? m ->|by intros ? -> ?|].
  intros ? sec -> Hsec. destruct (mget _ _) as [data|] eqn:E; [|done].
  split; [done|]. intros out [= <-]. by exists sec, data.
Qed.
End fetching.

(** What a successful command that saves credentials leaves. *)
Definition saved (path : string) (s : terminal) (secret : string → Prop) (r : option string) (s' : terminal) : Prop :=
  t_cluster s' = t_cluster s ∧ (∀ p, p ≠ path → t_files s' !! p = t_files s !! p) ∧
  (r = None → ∃ data, secret data ∧ t_files s' !! path = Some (data, private_mode)).

Lemma saved_error path s secret m s' : saving path s s' → saved path s secret (Some m) s'.
Proof. by intros [_ Hc Hf]. Qed.

Section saves.
Context `{M : Machinery} `{X : X509} `{C : Codec}.
Context (buildClient : string → option string) (age : ObjectMeta → string) (path : string) (s : terminal).

Lemma wp_writeKubeconfigFile data s1 :
  saving path s s1 →
  wp (cmd_spec calm (stays_private path s)) (writeKubeconfigFile path data) s1
    (λ r s', saving path s s' ∧ (r = None → t_files s' !! path = Some (data, private_mode))).
Proof using Type. intros Hs. unfold writeKubeconfigFile. by apply (wp_save path s); [done|..]. Qed.

Lemma wp_runtimeClusterGet name flags :
  gf_saveKubeconfig flags = path → path ≠ "" →
  wp (cmd_spec calm (stays_private path s)) (runtimeClusterGet buildClient age [name] flags) s
    (saved path s (admin_kubeconfig (t_cluster s) (gf_namespace flags) name (gf_server flags))).
Proof using Type.
  intros Hpath Hne. pose proof (saving_start path s) as Hs. unfold runtimeClusterGet. rewrite Hpath.
  eapply (wp_seq _ (on_api _)).
  { eapply (wp_reading path s _ s (λ _, True) (λ _ s', s' = s)); [done|apply wp_Get|done]. }
  intros [rt|m] s1 ->; [|by apply saved_error].
  apply (wp_Stdout path s); [done|]. intros s2 Hs2 _. rewrite bool_decide_false by done.
  eapply (wp_seq _ (on_api _)).
  { eapply (wp_reading path s _ s2 _ (λ r s', s' = s2 ∧ _)); [done|apply wp_FetchKubeconfig|].
    intros a Ha. split; [done|exact Ha]. }
  intros [data|m] s3 [-> Hd]; [|by apply saved_error].
  eapply (wp_seq _ (writeKubeconfigFile _ _)); [by apply wp_writeKubeconfigFile|].
  intros [m|] s4 [Hs4 Hf]; [by apply saved_error|].
  apply (wp_Stdout path s); [done|]. intros s5 Hs5 Hsame. destruct Hs5 as [_ Hc Ho].
  split; [done|]. split; [done|]. intros _. exists data. rewrite Hsame. split; [by apply Hd|by apply Hf].
Qed.

Lemma wp_workerJoinTokenGet name kubeconfig :
  path ≠ "" →
  wp (cmd_spec calm (stays_private path s)) (workerJoinTokenGet buildClient age [name] kubeconfig path) s
    (saved path s (join_token (t_cluster s) name)).
Proof using Type.
  intros Hne. pose proof (saving_start path s) as Hs. unfold workerJoinTokenGet.
  eapply (wp_seq _ (on_api _)).
  { eapply (wp_reading path s _ s (λ _, True) (λ _ s', s' = s)); [done|apply wp_Get_token|done]. }
  intros [tok|m] s1 ->; [|by apply saved_error].
  apply (wp_Stdout path s); [done|]. intros s2 Hs2 _. rewrite bool_decide_false by done.
  eapply (wp_seq _ (on_api _)).
  { eapply (wp_reading path s _ s2 _ (λ r s', s' = s2 ∧ _)); [done|apply wp_FetchSecret_token|].
    intros a Ha. split; [done|exact Ha]. }
  intros [data|m] s3 [-> Hd]; [|by apply saved_error].
  apply (wp_save path s); [done|intros; by apply saved_error..|]. intros s4 Hs4 Hf.
  apply (wp_Stdout path s); [done|]. intros s5 Hs5 Hsame. destruct Hs5 as [_ Hc Ho].
  split; [done|]. split; [done|]. intros _. exists data. rewrite Hsame. split; [by apply Hd|done].
Qed.
End saves.

(** C28.  Saving credentials ([get runtimeCluster name --save-kubeconfig], [get
    workerJoinToken name --save-token]): only the file named changes and nothing in the
    cluster; on success it holds the admin kubeconfig of that control plane (with the
    server replaced when asked), or the join token of that name, and only its owner has
    permissions on it.  When others had none on the file before, or it did not exist,
    they have none after any of the calls the command makes, failed ones included.
    Without a name nothing is called. *)
Theorem credentials_saved_private `{M : Machinery} `{X : X509} `{C : Codec} buildClient age name flags tokenPath kubeconfig s :
  gf_saveKubeconfig flags ≠ "" → tokenPath ≠ "" →
  wp (cmd_spec calm (stays_private (gf_saveKubeconfig flags) s)) (runtimeClusterGet buildClient age [name] flags) s
    (saved (gf_saveKubeconfig flags) s
       (admin_kubeconfig (t_cluster s) (gf_namespace flags) name (gf_server flags))) ∧
  wp (cmd_spec calm (stays_private tokenPath s)) (workerJoinTokenGet buildClient age [name] kubeconfig tokenPath) s
    (saved tokenPath s (join_token (t_cluster s) name)) ∧
  (∃ usage, runtimeClusterGet buildClient age [] flags = Ret (Some usage)) ∧
  (∃ usage, workerJoinTokenGet buildClient age [] kubeconfig tokenPath = Ret (Some usage)).
Proof.
  intros Hk Ht. split_and!.
  - by apply wp_runtimeClusterGet.
  - by apply wp_workerJoinTokenGet.
  - unfold runtimeClusterGet. rewrite bool_decide_false by done. by eexists.
  - unfold workerJoinTokenGet. rewrite bool_decide_false by done. by eexists.
Qed.

(** ** Witness *)

(** A machine of the user; [refused] are the files of which it may not change the mode. *)
Definition desk (refused : list string) : handler cop terminal := λ R o,
  match o in cop R return terminal → option (R * terminal) with
  | Stdout rows => λ s,
      Some (tt, {| t_files := t_files s; t_out := t_out s ++ [rows]; t_cluster := t_cluster s |})
  | SaveFile p data mode => λ s, Some (None, with_tfile p (Some (data, mode_of p mode s)) s)
  | Chmod p mode => λ s,
      match t_files s !! p with
      | Some (data, _) =>
          if bool_decide (p ∈ refused) then Some (Some "operation not permitted", s)
          else Some (None, with_tfile p (Some (data, mode)) s)
      | None => Some (Some "no such file or directory", s)
      end
  | Api o => λ s,
      match mem _ o (t_cluster s) with
      | Some (r, c) => Some (r, with_tcluster c s)
      | None => None
      end
  end.

#[export] Instance desk_implements refused e I (Hr : Reflexive (rely e)) :
  Implements (desk refused) (cmd_spec (X := ref_x509) e I) (may_panic e).
Proof.
  intros R o s Q H. destruct o; simpl in *.
  - apply H.
  - apply H.
  - destruct H as [Hm Hd]. destruct (t_files s !! p) as [[d old]|] eqn:E; [|apply Hm].
    case_bool_decide; [apply Hm|by apply (Hd d old)].
  - apply (mem_implements e Hr) in H. destruct (mem _ o (t_cluster s)) as [[r c]|]; [apply H|done].
Qed.

Definition example_admin_secret : Secret := {|
  sec_meta := {| om_name := "demo-kubeconfig"; om_namespace := "default"; om_uid := "uid-9"; om_generation := 1;
    om_labels := None; om_annotations := None; om_owners := []; om_finalizers := []; om_deletion := None |};
  sec_type := ""; sec_data := Some {[ "kubeconfig" := "ADMIN" ]}; sec_stringData := None |}.

(** A cluster with a control plane and a published token; the home of the user has a
    file that all can read. *)
Definition example_terminal (files : gmap string (string * Z)) : terminal := {|
  t_files := files; t_out := [];
  t_cluster := kput example_runtime (kput example_admin_secret example_published) |}.

Definition save_flags (path : string) : getFlags := {|
  gf_namespace := "default"; gf_kubeconfig := ""; gf_server := ""; gf_saveKubeconfig := path |}.

Definition example_save (refused : list string) (path : string) (s : terminal) : option (option string * terminal) :=
  run (desk refused) (runtimeClusterGet (M := ref_machinery) (X := ref_x509) (λ _, None) (λ _, "5d") ["demo"] (save_flags path)) s.

Definition file_after {A} (path : string) (r : option (A * terminal)) : option (string * Z) :=
  match r with Some (_, s) => t_files s !! path | None => None end.

Lemma credentials_saved_private_witness :
  let s := example_terminal {[ "notes" := ("text", 420%Z) ]} in
  ∃ s1 s2, example_save [] "admin.kubeconfig" s = Some (None, s1) ∧
    run (desk []) (workerJoinTokenGet (M := ref_machinery) (C := ref_codec) (λ _, None) (λ _, "5d") ["join"] "" "join.token") s
      = Some (None, s2) ∧
    t_files s1 !! "admin.kubeconfig" = Some ("ADMIN", private_mode) ∧
    (∃ token, printed_token = Some token ∧ t_files s2 !! "join.token" = Some (token, private_mode)) ∧
    t_files s1 !! "notes" = t_files s !! "notes" ∧ t_files s2 !! "notes" = t_files s !! "notes".
Proof.
  intros s.
  assert (gf_saveKubeconfig (save_flags "admin.kubeconfig") ≠ "" ∧ "join.token" ≠ "") as [H1 H2] by (split; discriminate).
  destruct (credentials_saved_private (M := ref_machinery) (X := ref_x509) (C := ref_codec) (λ _, None) (λ _, "5d")
    "demo" (save_flags "admin.kubeconfig") "join.token" "" s H1 H2) as (Hk & _ & _).
  destruct (credentials_saved_private (M := ref_machinery) (X := ref_x509) (C := ref_codec) (λ _, None) (λ _, "5d")
    "join" (save_flags "admin.kubeconfig") "join.token" "" s H1 H2) as (_ & Ht & _).
  apply (wp_run _ (desk []) False (Implements0 := desk_implements [] calm _ ltac:(by intros ?))) in Hk, Ht.
  assert (∃ s1, example_save [] "admin.kubeconfig" s = Some (None, s1)) as [s1 E1] by (vm_compute; by eexists).
  assert (∃ s2, run (desk []) (workerJoinTokenGet (M := ref_machinery) (C := ref_codec) (λ _, None) (λ _, "5d") ["join"] "" "join.token") s
      = Some (None, s2)) as [s2 E2] by (vm_compute; by eexists).
  unfold example_save in E1 |- *. rewrite E1 in Hk. rewrite E2 in Ht. exists s1, s2.
  destruct Hk as (_ & Ho1 & Hd1). destruct Ht as (_ & Ho2 & Hd2).
  destruct (Hd1 eq_refl) as (d1 & (sec & data & Hsec & Hdata & Hout) & Hf1).
  destruct (Hd2 eq_refl) as (d2 & (sec2 & data2 & Hsec2 & Hdata2 & Hout2) & Hf2).
  split; [exact E1|]. split; [exact E2|]. split.
  { change (gf_saveKubeconfig _) with "admin.kubeconfig" in Hf1. rewrite Hf1. vm_compute in Hsec. injection Hsec as <-. vm_compute in Hdata. injection Hdata as <-.
    vm_compute in Hout. by subst d1. }
  split. { exists d2. split; [|exact Hf2]. vm_compute in Hsec2. injection Hsec2 as <-. vm_compute in Hdata2.
    injection Hdata2 as <-. subst d2. vm_compute. reflexivity. }
  split; [by apply Ho1|by apply Ho2].
Defined.

(** A file that all can read keeps its mode while the credentials are written into it:
    they can be read between the two calls, and for good where the second fails, as on
    a file of another user that the group may write. *)
Example saved_into_shared_file :
  let s := example_terminal {[ "shared" := ("text", 436%Z) ]} in
  file_after "shared" (run (desk []) (trigger (SaveFile "shared" "ADMIN" private_mode)) s) = Some ("ADMIN", 436%Z) ∧
  file_after "shared" (example_save ["shared"] "shared" s) = Some ("ADMIN", 436%Z) ∧
  ¬ unshared 436.
Proof. split; [vm_compute; reflexivity|]. split; [vm_compute; reflexivity|]. by vm_compute. Qed.
