(* ===== verification/MasterAgent.v ===== *)
(** * The master agent

    src/pkg/masteragent/readyz.go: the readiness of a control plane, as an aggregate
    of its three components, and the flags of src/cmd/masteragent/app.go and
    src/cmd/tunnel/app.go that the environment overrides.

    One goroutine probes the components in turn, the handler reads what it found; both
    under a lock.  [step] is one of these critical sections: a probe with the answer
    it got, or a request. *)

From stdpp Require Import gmap.
From S2P Require Import Prelude.
From stdpp Require Import options.

(** ** The components *)

Record HealthzConfig := {
  hz_Port : Z;
  APIServerPort : Z;
  ControllerManagerPort : Z;
  SchedulerPort : Z;
  PeriodSeconds : Z;
}.

Record componentState := { cs_name : string; cs_port : Z; healthPath : string; healthy : bool }.

Definition components (cfg : HealthzConfig) : list componentState :=
  [{| cs_name := "kube-apiserver"; cs_port := APIServerPort cfg; healthPath := "/readyz"; healthy := false |};
   {| cs_name := "kube-controller-manager"; cs_port := ControllerManagerPort cfg; healthPath := "/healthz";
      healthy := false |};
   {| cs_name := "kube-scheduler"; cs_port := SchedulerPort cfg; healthPath := "/readyz"; healthy := false |}].

Definition probe_url (c : componentState) : string :=
  "https://localhost:" +:+ FormatInt (cs_port c) +:+ healthPath c.

(** [probeURL] on the status of the answer, [None] when there was none. *)
Definition probeURL (status : option Z) : bool := bool_decide (status = Some 200%Z).

Definition set_healthy (b : bool) (c : componentState) : componentState :=
  {| cs_name := cs_name c; cs_port := cs_port c; healthPath := healthPath c; healthy := b |}.

(** The status and the body of the answer. *)
Definition aggregateHandler (cs : list componentState) : Z * string :=
  match filter (λ c, healthy c = false) cs with
  | [] => (200%Z, "ok")
  | notOK => (503%Z, foldr (λ c s, "[+]" +:+ cs_name c +:+ " not ok" +:+ String (Ascii.ascii_of_nat 10) s) "" notOK)
  end.

(** ** The server *)

Record readyz := {
  rz_components : list componentState;
  (** The component that is probed next. *)
  rz_next : nat;
}.

Definition start (cfg : HealthzConfig) : readyz := {| rz_components := components cfg; rz_next := 0 |}.

Inductive event := Probe (status : option Z) | Request.

(** One critical section: an iteration of [probeComponents], or the handler. *)
Definition step (st : readyz) (e : event) : readyz * option (Z * string) :=
  match e with
  | Probe status =>
      ({| rz_components := alter (set_healthy (probeURL status)) (rz_next st) (rz_components st);
          rz_next := S (rz_next st) `mod` length (rz_components st) |}, None)
  | Request => (st, Some (aggregateHandler (rz_components st)))
  end.

Definition RunReadyz (cfg : HealthzConfig) (es : list event) : readyz :=
  foldl (λ st e, (step st e).1) (start cfg) es.

(** ** The answer is that of the latest probes *)

Definition probes (es : list event) : list (option Z) :=
  omap (λ e, match e with Probe status => Some status | Request => None end) es.

(** The probes of one component: every third. *)
Definition latest (i : nat) (ps : list (option Z)) : option (option Z) :=
  last (omap (λ k, if decide (k `mod` 3 = i) then ps !! k else None) (seq 0 (length ps))).

Definition found_ok (o : option (option Z)) : bool := match o with Some status => probeURL status | None => false end.

(** The state is that of the latest probe of each component. *)
Definition tracks (cfg : HealthzConfig) (ps : list (option Z)) (st : readyz) : Prop :=
  rz_next st = length ps `mod` 3 ∧
  rz_components st = imap (λ i c, set_healthy (found_ok (latest i ps)) c) (components cfg).

Lemma latest_snoc i ps status :
  latest i (ps ++ [status]) = if decide (length ps `mod` 3 = i) then Some status else latest i ps.
Proof.
  unfold latest. rewrite length_app, seq_app, omap_app. cbn [length seq omap list_omap].
  rewrite lookup_app_r, Nat.sub_diag by lia. cbn [lookup list_lookup].
  assert (omap (λ k, if decide (k `mod` 3 = i) then (ps ++ [status]) !! k else None) (seq 0 (length ps)) =
          omap (λ k, if decide (k `mod` 3 = i) then ps !! k else None) (seq 0 (length ps))) as ->.
  { apply list_omap_ext, Forall2_same_length_lookup_2; [done|]. intros j x y Hx Hy.
    assert (x = y) as <- by congruence. apply lookup_seq in Hx as [-> Hj].
    case_decide; [|done]. by rewrite lookup_app_l by lia. }
  rewrite Nat.add_0_l. destruct (decide (length ps `mod` 3 = i)); [by rewrite last_snoc|by rewrite app_nil_r].
Qed.

Lemma tracks_probe cfg ps st status :
  tracks cfg ps st → tracks cfg (ps ++ [status]) (step st (Probe status)).1.
Proof.
  intros [Hn Hc]. unfold tracks. cbn -[Nat.modulo]. rewrite Hc, length_imap, length_app, Hn. cbn [length components].
  assert (length ps `mod` 3 < 3) by (apply Nat.mod_upper_bound; lia).
  split.
  - rewrite <- Nat.add_1_r. by rewrite Nat.Div0.add_mod_idemp_l.
  - cbn [imap components]. rewrite !latest_snoc.
    assert (length ps `mod` 3 = 0 ∨ length ps `mod` 3 = 1 ∨ length ps `mod` 3 = 2) as Hm by lia.
    by destruct_or! Hm; rewrite Hm.
Qed.

Lemma RunReadyz_tracks cfg es : tracks cfg (probes es) (RunReadyz cfg es).
Proof.
  unfold RunReadyz, probes. induction es as [|e es IH] using rev_ind; [done|].
  rewrite foldl_snoc, omap_app. destruct e as [status|]; cbn [omap list_omap].
  - by apply tracks_probe.
  - by rewrite app_nil_r.
Qed.

(** Readiness.  Whatever the probes found and however the requests fall between them,
    the answer is 200 exactly when every component has been probed and its latest
    probe was answered with 200; else it is 503 and names exactly the components of
    which that is not so, in their order. *)
Theorem readyz_latest cfg es :
  let bad := filter (λ i, found_ok (latest i (probes es)) = false) [0; 1; 2] in
  let names := ["kube-apiserver"; "kube-controller-manager"; "kube-scheduler"] in
  (step (RunReadyz cfg es) Request).2 = Some (
    if bool_decide (bad = []) then (200%Z, "ok")
    else (503%Z, foldr (λ i s, "[+]" +:+ (names !!! i) +:+ " not ok" +:+ String (Ascii.ascii_of_nat 10) s) "" bad)).
Proof.
  cbn zeta. destruct (RunReadyz_tracks cfg es) as [_ Hc]. cbn [step snd]. rewrite Hc.
  cbn [imap components]. f_equal.
  by destruct (found_ok (latest 0 (probes es))) eqn:E0, (found_ok (latest 1 (probes es))) eqn:E1,
    (found_ok (latest 2 (probes es))) eqn:E2; unfold aggregateHandler;
    cbn [filter list_filter imap set_healthy healthy compose]; rewrite ?E0, ?E1, ?E2.
Qed.

(** Nothing is ready before every component has been probed. *)
Example not_ready_at_first :
  let cfg := {| hz_Port := 8084; APIServerPort := 6443; ControllerManagerPort := 10257; SchedulerPort := 10259;
                PeriodSeconds := 15 |} in
  let answers es := (step (RunReadyz cfg es) Request).2 in
  (fst <$> answers []) = Some 503%Z ∧ (fst <$> answers [Probe (Some 200%Z); Probe (Some 200%Z)]) = Some 503%Z ∧
  answers [Probe (Some 200%Z); Request; Probe (Some 200%Z); Probe (Some 200%Z)] = Some (200%Z, "ok") ∧
  (probe_url <$> components cfg) =
    ["https://localhost:6443/readyz"; "https://localhost:10257/healthz"; "https://localhost:10259/readyz"].
Proof. vm_compute. by split_and!. Qed.

(** ** Flags from the environment *)

Record flag := { fl_value : string; fl_changed : bool }.

Section flags.
(** [Flags().Set]: the parser of a flag, [None] on an error; and [os.Getenv]. *)
Context (parse_flag : string → string → option string) (getenv : string → string).

(** One iteration; an error of [Set] is dropped. *)
Definition bind_env (flags : gmap string flag) (b : string * string) : gmap string flag :=
  match flags !! b.1 with
  | None => flags
  | Some f =>
      if fl_changed f then flags
      else
        let val := getenv b.2 in
        if bool_decide (val = "") then flags
        else match parse_flag b.1 val with
             | Some v => <[b.1 := {| fl_value := v; fl_changed := true |}]> flags
             | None => flags
             end
  end.

Definition bindEnvs (flags : gmap string flag) (bindings : list (string * string)) : gmap string flag :=
  foldl bind_env flags bindings.

(** The value a flag ends up with. *)
Definition override (flag_name env : string) (f : flag) : flag :=
  if fl_changed f then f
  else if bool_decide (getenv env = "") then f
  else match parse_flag flag_name (getenv env) with
       | Some v => {| fl_value := v; fl_changed := true |}
       | None => f
       end.

Lemma bindEnvs_other flags bindings name :
  name ∉ bindings.*1 → bindEnvs flags bindings !! name = flags !! name.
Proof.
  revert flags. induction bindings as [|b l IH]; intros flags Hn; [done|].
  rewrite fmap_cons, not_elem_of_cons in Hn. destruct Hn as [Hne Hn].
  cbn. rewrite IH by done. unfold bind_env. repeat case_match; try done. by rewrite lookup_insert_ne.
Qed.

(** The command line takes precedence over the environment, the environment over the
    defaults; a variable that is not set, is empty or does not parse changes
    nothing. *)
Theorem bindEnvs_precedence flags bindings name env :
  NoDup bindings.*1 → (name, env) ∈ bindings →
  bindEnvs flags bindings !! name = override name env <$> flags !! name.
Proof.
  revert flags. induction bindings as [|b l IH]; intros flags Hnd Hin; [by apply elem_of_nil in Hin|].
  rewrite fmap_cons, NoDup_cons in Hnd. destruct Hnd as [Hn Hnd]. cbn.
  apply elem_of_cons in Hin as [<-|Hin].
  - rewrite bindEnvs_other by done. unfold bind_env, override. cbn.
    destruct (flags !! name) as [f|] eqn:E; [|by rewrite E]. cbn.
    repeat case_match; rewrite ?E; try done. by rewrite lookup_insert_eq.
  - rewrite IH by done. f_equal. apply (list_elem_of_fmap_2 fst) in Hin. cbn in Hin.
    assert (b.1 ≠ name) by (intros <-; done).
    unfold bind_env. repeat case_match; try done. by rewrite lookup_insert_ne.
Qed.
End flags.
