(* ===== verification/Services.v ===== *)
(** * The commands of the services

    src/cmd/tunnel/app.go ([tunnel agent], [tunnel server]) and
    src/cmd/masteragent/app.go ([master-agent]): their flags, the variables of the
    environment that override them, and what they start.  Parsing the command line is
    pflag's and cobra's: [parsed] are the flags after it, and [given] says what the
    command line of a container stands for. *)

From stdpp Require Import gmap.
From S2P Require Import Prelude Effects Kube Api Pki World PkiAuth Templates Generate MasterAgent.
From stdpp Require Import options.

(** ** Declarations *)

(** A flag with its default and, when it has one, its variable. *)
Record declaration := { dc_name : string; dc_default : string; dc_required : bool; dc_env : string }.

Definition bindings (ds : list declaration) : list (string * string) := (λ d, (dc_name d, dc_env d)) <$> ds.

Definition value (flags : gmap string flag) (name : string) : string :=
  match flags !! name with Some f => fl_value f | None => "" end.

(** Durations are in the text of their flag. *)
Definition tunnel_agent_flags (w : WorkerContext) : list declaration :=
  [{| dc_name := "cert"; dc_default := KubeletPKIPath w +:+ "/kubelet.crt"; dc_required := false; dc_env := "TUNNEL_AGENT_CERT" |};
   {| dc_name := "key"; dc_default := KubeletPKIPath w +:+ "/kubelet.key"; dc_required := false; dc_env := "TUNNEL_AGENT_KEY" |};
   {| dc_name := "ca-cert"; dc_default := KubeletPKICaCertPath w; dc_required := false; dc_env := "TUNNEL_AGENT_CA_CERT" |};
   {| dc_name := "server-addr"; dc_default := ""; dc_required := true; dc_env := "TUNNEL_AGENT_SERVER_ADDR" |};
   {| dc_name := "kubelet-addr"; dc_default := "127.0.0.1:10250"; dc_required := false; dc_env := "TUNNEL_AGENT_KUBELET_ADDR" |};
   {| dc_name := "keep-alive"; dc_default := "12s"; dc_required := false; dc_env := "TUNNEL_AGENT_KEEP_ALIVE" |}].

Definition tunnel_server_flags : list declaration :=
  [{| dc_name := "tunnel-cert"; dc_default := ""; dc_required := true; dc_env := "TUNNEL_SERVER_TUNNEL_CERT" |};
   {| dc_name := "tunnel-key"; dc_default := ""; dc_required := true; dc_env := "TUNNEL_SERVER_TUNNEL_KEY" |};
   {| dc_name := "tunnel-ca-cert"; dc_default := ""; dc_required := true; dc_env := "TUNNEL_SERVER_TUNNEL_CA_CERT" |};
   {| dc_name := "tunnel-addr"; dc_default := ":8443"; dc_required := false; dc_env := "TUNNEL_SERVER_TUNNEL_ADDR" |};
   {| dc_name := "egress-cert"; dc_default := ""; dc_required := true; dc_env := "TUNNEL_SERVER_EGRESS_CERT" |};
   {| dc_name := "egress-key"; dc_default := ""; dc_required := true; dc_env := "TUNNEL_SERVER_EGRESS_KEY" |};
   {| dc_name := "egress-ca-cert"; dc_default := ""; dc_required := true; dc_env := "TUNNEL_SERVER_EGRESS_CA_CERT" |};
   {| dc_name := "egress-addr"; dc_default := ":8444"; dc_required := false; dc_env := "TUNNEL_SERVER_EGRESS_ADDR" |};
   {| dc_name := "keep-alive"; dc_default := "30s"; dc_required := false; dc_env := "TUNNEL_SERVER_KEEP_ALIVE" |};
   {| dc_name := "replica-discovery-dns"; dc_default := ""; dc_required := false;
      dc_env := "TUNNEL_SERVER_REPLICA_DISCOVERY_DNS" |}].

Definition etcdVersion : string := "3.6.14".

Definition master_agent_flags : list declaration :=
  [{| dc_name := "storage-endpoint"; dc_default := ""; dc_required := false; dc_env := "HEIR_STORAGE_ENDPOINT" |};
   {| dc_name := "storage-emulated-etcd-version"; dc_default := etcdVersion; dc_required := false;
      dc_env := "HEIR_STORAGE_EMULATED_ETCD_VERSION" |};
   {| dc_name := "storage-metrics-bind-address"; dc_default := ":8081"; dc_required := false;
      dc_env := "HEIR_STORAGE_METRICS_BIND_ADDRESS" |};
   {| dc_name := "healthz-port"; dc_default := "8084"; dc_required := false; dc_env := "HEIR_HEALTHZ_PORT" |};
   {| dc_name := "healthz-apiserver-port"; dc_default := "6443"; dc_required := false; dc_env := "HEIR_HEALTHZ_APISERVER_PORT" |};
   {| dc_name := "healthz-controller-manager-port"; dc_default := "10257"; dc_required := false;
      dc_env := "HEIR_HEALTHZ_CONTROLLER_MANAGER_PORT" |};
   {| dc_name := "healthz-scheduler-port"; dc_default := "10259"; dc_required := false;
      dc_env := "HEIR_HEALTHZ_SCHEDULER_PORT" |};
   {| dc_name := "healthz-period-seconds"; dc_default := "15"; dc_required := false;
      dc_env := "HEIR_HEALTHZ_PERIOD_SECONDS" |}].

(** ** What the commands start *)

Record ListenerConfig := { CertPath : string; KeyPath : string; CaCertPath : string; Addr : string }.

Record agentConfig := {
  ag_certPath : string;
  ag_keyPath : string;
  ag_caCertPath : string;
  ag_serverAddr : string;
  ag_kubeletAddr : string;
  ag_keepAlive : string;
}.

Record serverConfig := {
  sc_tunnel : ListenerConfig;
  sc_egress : ListenerConfig;
  sc_keepAlive : string;
  sc_replicaDiscoveryDNS : string;
}.

(** *** The servers that [server.New] builds from the two configurations *)

Record TunnelServer := {
  ts_serverCertPath : string;
  ts_serverKeyPath : string;
  ts_caCertPath : string;
  ts_listenAddr : string
}.

Definition NewTunnelServer (serverCertPath serverKeyPath caCertPath listenAddr : string) : TunnelServer :=
  {| ts_serverCertPath := serverCertPath; ts_serverKeyPath := serverKeyPath;
     ts_caCertPath := caCertPath; ts_listenAddr := listenAddr |}.

Record EgressServer := {
  es_addr : string;
  es_serverCertPath : string;
  es_serverKeyPath : string;
  es_caCertPath : string
}.

Definition egress_New (addr serverCertPath serverKeyPath caCertPath : string) : EgressServer :=
  {| es_addr := addr; es_serverCertPath := serverCertPath; es_serverKeyPath := serverKeyPath;
     es_caCertPath := caCertPath |}.

Record Server := { tunnelServer : TunnelServer; egressSelectorServer : EgressServer }.

Definition Server_New (tunnel egressSel : ListenerConfig) : Server :=
  {| tunnelServer := NewTunnelServer (CertPath tunnel) (KeyPath tunnel) (CaCertPath tunnel) (Addr tunnel);
     egressSelectorServer := egress_New (Addr egressSel) (CertPath egressSel) (KeyPath egressSel) (CaCertPath egressSel) |}.

(** The files a server loads and the address it listens on. *)
Definition tunnel_loads (s : Server) : ListenerConfig :=
  {| CertPath := ts_serverCertPath (tunnelServer s); KeyPath := ts_serverKeyPath (tunnelServer s);
     CaCertPath := ts_caCertPath (tunnelServer s); Addr := ts_listenAddr (tunnelServer s) |}.

Definition egress_loads (s : Server) : ListenerConfig :=
  {| CertPath := es_serverCertPath (egressSelectorServer s); KeyPath := es_serverKeyPath (egressSelectorServer s);
     CaCertPath := es_caCertPath (egressSelectorServer s); Addr := es_addr (egressSelectorServer s) |}.

Record storageConfig := { sg_Endpoint : string; EmulatedETCDVersion : string; ServerAddress : string }.

Section commands.
Context (parse_flag : string → string → option string) (getenv : string → string).

(** [RunE] of [tunnel agent]: the arguments of [agent.New]. *)
Definition agentCmd (w : WorkerContext) (parsed : gmap string flag) : agentConfig :=
  let flags := bindEnvs parse_flag getenv parsed (bindings (tunnel_agent_flags w)) in
  {| ag_certPath := value flags "cert"; ag_keyPath := value flags "key"; ag_caCertPath := value flags "ca-cert";
     ag_serverAddr := value flags "server-addr"; ag_kubeletAddr := value flags "kubelet-addr";
     ag_keepAlive := value flags "keep-alive" |}.

(** [RunE] of [tunnel server]: the arguments of [server.New]. *)
Definition serverCmd (parsed : gmap string flag) : serverConfig :=
  let flags := bindEnvs parse_flag getenv parsed (bindings tunnel_server_flags) in
  {| sc_tunnel := {| CertPath := value flags "tunnel-cert"; KeyPath := value flags "tunnel-key";
                     CaCertPath := value flags "tunnel-ca-cert"; Addr := value flags "tunnel-addr" |};
     sc_egress := {| CertPath := value flags "egress-cert"; KeyPath := value flags "egress-key";
                     CaCertPath := value flags "egress-ca-cert"; Addr := value flags "egress-addr" |};
     sc_keepAlive := value flags "keep-alive";
     sc_replicaDiscoveryDNS := value flags "replica-discovery-dns" |}.

(** [PersistentPreRunE] and [RunE] of [master-agent]; [Atoi] is the number a flag of
    type int holds. *)
Definition masterAgentCmd (Atoi : string → Z) (parsed : gmap string flag) : HealthzConfig * storageConfig :=
  let flags := bindEnvs parse_flag getenv parsed (bindings master_agent_flags) in
  ({| hz_Port := Atoi (value flags "healthz-port"); APIServerPort := Atoi (value flags "healthz-apiserver-port");
      ControllerManagerPort := Atoi (value flags "healthz-controller-manager-port");
      SchedulerPort := Atoi (value flags "healthz-scheduler-port");
      PeriodSeconds := Atoi (value flags "healthz-period-seconds") |},
   {| sg_Endpoint := value flags "storage-endpoint";
      EmulatedETCDVersion := value flags "storage-emulated-etcd-version";
      ServerAddress := value flags "storage-metrics-bind-address" |}).
End commands.

(** ** Flags of the command line *)

(** The flags after parsing [args]: those that are given have their value and count as
    changed, the others have their default. *)
Definition given (ds : list declaration) (args : list string) (parsed : gmap string flag) : Prop :=
  ∀ d, d ∈ ds → parsed !! dc_name d = Some
    match flag_value ("--" +:+ dc_name d) args with
    | Some v => {| fl_value := v; fl_changed := true |}
    | None => {| fl_value := dc_default d; fl_changed := false |}
    end.

Section values.
Context (parse_flag : string → string → option string) (getenv : string → string).

(** A flag of the command line is not changed by the environment. *)
Lemma value_given parsed bs name v :
  NoDup bs.*1 → parsed !! name = Some {| fl_value := v; fl_changed := true |} →
  value (bindEnvs parse_flag getenv parsed bs) name = v.
Proof.
  intros Hnd Hp. unfold value. destruct (decide (name ∈ bs.*1)) as [Hin|Hn].
  - apply list_elem_of_fmap in Hin as ([n env] & -> & Hin). cbn in Hp |- *.
    by rewrite (bindEnvs_precedence _ _ _ _ n env Hnd Hin), Hp.
  - by rewrite (bindEnvs_other _ _ _ _ _ Hn), Hp.
Qed.

Lemma value_default parsed bs name env v :
  NoDup bs.*1 → (name, env) ∈ bs → parsed !! name = Some {| fl_value := v; fl_changed := false |} →
  getenv env = "" → value (bindEnvs parse_flag getenv parsed bs) name = v.
Proof.
  intros Hnd Hin Hp He. unfold value. rewrite (bindEnvs_precedence _ _ _ _ name env Hnd Hin), Hp. cbn.
  unfold override. cbn. by rewrite He.
Qed.

(** cobra runs [RunE] only when the required flags were changed before: their variables
    have no effect. *)
Lemma required_env_ignored ds parsed d :
  NoDup (bindings ds).*1 → d ∈ ds → dc_required d = true →
  (∀ d, d ∈ ds → dc_required d = true → ∃ v, parsed !! dc_name d = Some {| fl_value := v; fl_changed := true |}) →
  value (bindEnvs parse_flag getenv parsed (bindings ds)) (dc_name d) = value parsed (dc_name d).
Proof.
  intros Hnd Hd Hr Hc. destruct (Hc d Hd Hr) as [v Hv]. rewrite (value_given _ _ _ v Hnd Hv).
  unfold value. by rewrite Hv.
Qed.
End values.

(** A closed list is searched by computation. *)
Ltac listed := apply (bool_decide_unpack _); vm_compute; exact I.

Lemma server_flags_NoDup : NoDup (bindings tunnel_server_flags).*1.
Proof. listed. Qed.

Lemma serverCmd_given parse_flag getenv parsed args name v :
  given tunnel_server_flags args parsed → name ∈ dc_name <$> tunnel_server_flags →
  flag_value ("--" +:+ name) args = Some v →
  value (bindEnvs parse_flag getenv parsed (bindings tunnel_server_flags)) name = v.
Proof.
  intros Hgiven Hin Hf. apply list_elem_of_fmap in Hin as (d & -> & Hd).
  apply value_given; [apply server_flags_NoDup|]. specialize (Hgiven d Hd). by rewrite Hf in Hgiven.
Qed.

(** The configuration of the generated arguments. *)
Definition generated_server_config (w : WorkerContext) (r : Runtime) (keepAlive : string) : serverConfig :=
  let pki := lay_pki NewControlPlaneLayout in {|
  sc_tunnel := {| CertPath := MountPath (PlaneTunnelCert pki); KeyPath := MountPath (PlaneTunnelKey pki);
                  CaCertPath := MountPath (CACert pki); Addr := ":" +:+ FormatInt (PlaneTunnelServerServer w) |};
  sc_egress := {| CertPath := MountPath (ApiServerPlaneTunnelCert pki); KeyPath := MountPath (ApiServerPlaneTunnelKey pki);
                  CaCertPath := MountPath (CACert pki);
                  Addr := ":" +:+ FormatInt (PlaneTunnelServerEgressSelectorPort w) |};
  sc_keepAlive := keepAlive;
  sc_replicaDiscoveryDNS := PlaneTunnelHeadlessName (rt_name r) +:+ "." +:+ rt_namespace r +:+ ".svc.cluster.local" |}.

Lemma serverCmd_generated w r parse_flag getenv parsed :
  given tunnel_server_flags (plane_tunnel_args w r NewControlPlaneLayout) parsed →
  ∃ keepAlive, serverCmd parse_flag getenv parsed = generated_server_config w r keepAlive.
Proof.
  intros Hgiven. unfold serverCmd, generated_server_config. cbv zeta.
  assert (∀ name v, name ∈ dc_name <$> tunnel_server_flags →
    flag_value ("--" +:+ name) (plane_tunnel_args w r NewControlPlaneLayout) = Some v →
    value (bindEnvs parse_flag getenv parsed (bindings tunnel_server_flags)) name = v) as Hv
    by (intros; by eapply serverCmd_given).
  generalize dependent (bindEnvs parse_flag getenv parsed (bindings tunnel_server_flags)). intros flags Hv. eexists.
  f_equal; [f_equal|f_equal|]; apply Hv; (listed || reflexivity).
Qed.

(** The files of a listener are mounted from the PKI Secret of [r]. *)
Definition mounted_listener (r : Runtime) (p : PodSpec) (c : Container) (l : ListenerConfig) : Prop :=
  ∀ path, path ∈ [CertPath l; KeyPath l; CaCertPath l] → ∃ key, sees_secret_file p c (rt_name r) path key ∧
    ∀ ca tunnel egress api sa ac cc sc,
      is_Some (pki_secret_data NewControlPlaneLayout ca tunnel egress api sa ac cc sc !! key).

(** C19.  The tunnel server in the pod generated for a Runtime.  Whatever the variables of
    the environment say, both listeners load files that the pod mounts from the PKI
    Secret and that [GeneratePKIAuthSecret] fills, each listens on the port that a
    generated Service targets, and the name looked up for the number of servers is that
    of the headless Service. *)
Theorem tunnel_server_configured w r opts parse_flag getenv parsed :
  let p := pt_spec (ds_template (dep_spec (GeneratePlaneTunnelDeployment w r NewControlPlaneLayout opts))) in
  let cfg := serverCmd parse_flag getenv parsed in
  let srv := Server_New (sc_tunnel cfg) (sc_egress cfg) in
  given tunnel_server_flags (plane_tunnel_args w r NewControlPlaneLayout) parsed →
  ∃ c headless tunnel egress, ps_containers p = [c] ∧ ct_args c = plane_tunnel_args w r NewControlPlaneLayout ∧
    GeneratePlaneTunnelService w r = [headless; tunnel; egress] ∧
    mounted_listener r p c (tunnel_loads srv) ∧ mounted_listener r p c (egress_loads srv) ∧
    Addr (tunnel_loads srv) = ":" +:+ FormatInt (PlaneTunnelServerServer w) ∧
    (sp_targetPort <$> ss_ports (svc_spec tunnel)) = [FromInt (to_int32 (PlaneTunnelServerServer w))] ∧
    Addr (egress_loads srv) = ":" +:+ FormatInt (PlaneTunnelServerEgressSelectorPort w) ∧
    (sp_targetPort <$> ss_ports (svc_spec egress)) = [FromInt (to_int32 (PlaneTunnelServerEgressSelectorPort w))] ∧
    ss_clusterIP (svc_spec headless) = "None" ∧
    sc_replicaDiscoveryDNS cfg =
      om_name (svc_meta headless) +:+ "." +:+ om_namespace (svc_meta headless) +:+ ".svc.cluster.local".
Proof.
  intros p cfg srv Hgiven. destruct (serverCmd_generated w r parse_flag getenv parsed Hgiven) as [keepAlive Hcfg].
  unfold srv, cfg. rewrite Hcfg. clear. pose proof (plane_tunnel_paths_mounted w r opts) as Hm. cbv zeta in Hm. fold p in Hm.
  assert (∃ c, ps_containers p = [c] ∧ ct_args c = plane_tunnel_args w r NewControlPlaneLayout) as (c & Hc & Hargs)
    by (eexists; split; reflexivity).
  assert (∀ l, (∀ path, path ∈ [CertPath l; KeyPath l; CaCertPath l] → ∃ f,
      f ∈ ["--tunnel-cert"; "--tunnel-key"; "--tunnel-ca-cert"; "--egress-cert"; "--egress-key"; "--egress-ca-cert"] ∧
      flag_value f (plane_tunnel_args w r NewControlPlaneLayout) = Some path) → mounted_listener r p c l) as Hl.
  { intros l Hf path Hpath. destruct (Hf path Hpath) as (f & Hin & Hv).
    destruct (Hm f path Hin Hv) as (c' & key & Hc' & _ & Hs & Hk).
    rewrite Hc in Hc'. injection Hc' as <-. by exists key. }
  eexists c, _, _, _. split; [exact Hc|]. split; [exact Hargs|]. split; [reflexivity|]. split; [|split].
  - apply Hl. intros path Hp. rewrite !elem_of_cons, elem_of_nil in Hp.
    destruct Hp as [->|[->|[->|[]]]]; [exists "--tunnel-cert"|exists "--tunnel-key"|exists "--tunnel-ca-cert"];
      (split; [listed|reflexivity]).
  - apply Hl. intros path Hp. rewrite !elem_of_cons, elem_of_nil in Hp.
    destruct Hp as [->|[->|[->|[]]]]; [exists "--egress-cert"|exists "--egress-key"|exists "--egress-ca-cert"];
      (split; [listed|reflexivity]).
  - split_and!; reflexivity.
Qed.

(** ** Witness *)

Definition example_parsed (ds : list declaration) (args : list string) : gmap string flag :=
  list_to_map ((λ d, (dc_name d,
    match flag_value ("--" +:+ dc_name d) args with
    | Some v => {| fl_value := v; fl_changed := true |}
    | None => {| fl_value := dc_default d; fl_changed := false |}
    end)) <$> ds).

Definition example_args : list string :=
  plane_tunnel_args NewWorkerContextWithDefaults example_runtime NewControlPlaneLayout.

(** The variable of a flag that is given has no effect, that of the keep-alive has. *)
Definition example_getenv (name : string) : string :=
  if decide (name = "TUNNEL_SERVER_TUNNEL_CERT") then "/tmp/other.crt"
  else if decide (name = "TUNNEL_SERVER_KEEP_ALIVE") then "45s" else "".

Lemma tunnel_server_configured_witness :
  let cfg := serverCmd (λ _ v, Some v) example_getenv (example_parsed tunnel_server_flags example_args) in
  let srv := Server_New (sc_tunnel cfg) (sc_egress cfg) in
  sc_keepAlive cfg = "45s" ∧ Addr (tunnel_loads srv) = ":9445" ∧
  ∃ c, mounted_listener example_runtime
    (pt_spec (ds_template (dep_spec (GeneratePlaneTunnelDeployment NewWorkerContextWithDefaults example_runtime
       NewControlPlaneLayout [])))) c (tunnel_loads srv).
Proof.
  intros cfg srv.
  assert (given tunnel_server_flags example_args (example_parsed tunnel_server_flags example_args)) as Hg.
  { intros d Hd. unfold tunnel_server_flags in Hd. rewrite !elem_of_cons, elem_of_nil in Hd.
    repeat (destruct Hd as [->|Hd]; [vm_compute; reflexivity|]). destruct Hd. }
  destruct (tunnel_server_configured NewWorkerContextWithDefaults example_runtime [] (λ _ v, Some v) example_getenv
    (example_parsed tunnel_server_flags example_args) Hg) as (c & h & t & e & _ & _ & _ & Hm & _ & Ha & _).
  split; [vm_compute; reflexivity|]. split; [exact Ha|]. exists c. exact Hm.
Defined.

(** By default the agent is given a certificate that the bootstrap of the worker does
    not write. *)
Example agent_default_certificate :
  let cfg := agentCmd (λ _ v, Some v) (λ _, "") NewWorkerContextWithDefaults
               (example_parsed (tunnel_agent_flags NewWorkerContextWithDefaults) ["--server-addr"; "tunnel:9445"]) in
  ag_certPath cfg = "/etc/heir/kubelet/pki/kubelet.crt" ∧ ag_serverAddr cfg = "tunnel:9445" ∧
  ag_kubeletAddr cfg = "127.0.0.1:10250".
Proof. vm_compute. by split_and!. Qed.
