(* ===== verification/Lifecycle.v ===== *)
(** * Services: start, first result, shutdown

    The tunnel server (src/pkg/tunnel/server/server.go) and the master agent
    (src/pkg/masteragent/masteragent.go) each start two workers in goroutines of
    their own, take the first result off a channel, cancel the context they share
    and return.  Here the goroutines are interleaved:

    - [worker_step] is what each of the four workers may do next: the accept loop
      of src/pkg/tunnel/server/tunnel.go, Serve of
      src/pkg/tunnel/server/egress_selector/egress_selector.go, runKine, and the
      HTTP server of RunReadyz (src/pkg/masteragent/readyz.go);
    - [step] is one step of a service: of a worker, of its goroutine sending the
      result on [errCh], of the caller receiving it, or the cancellation of the
      context; [run] follows a list of them;
    - [progress] are the steps that need neither a client to connect nor somebody
      to cancel the context.

    Relied on of net/http: Serve and ListenAndServe return ErrServerClosed once
    Shutdown or Close was called, also when they are called after it.  The time
    kine takes to drain is not bounded here: [Drained] may happen at any time. *)

From stdpp Require Import base list gmap strings.
From S2P Require Import Prelude.

(** ** Workers *)

Inductive kind := Tunnel | Egress | Kine | Readyz.

Inductive phase :=
| Setup
| Serving
| Closing
| Finished (r : option string)
| Sent.

Inductive serve_error := ErrServerClosed | ServeError (e : string).

(** [if err != nil && !errors.Is(err, http.ErrServerClosed) { return err }; return nil] *)
Definition serve_result (e : serve_error) : option string :=
  match e with ErrServerClosed => None | ServeError e => Some e end.

Inductive wevent :=
| SetUp (config listen : option string)
| Accepted (conn : nat)
| AcceptFailed (e : string)
| CloseOnDone
| ServeReturns (e : serve_error)
| Drained.

Definition ctx_canceled : string := "context canceled".

(** The errors of the two set-ups, as each worker returns them. *)
Definition setup_result (k : kind) (config listen : option string) : option string :=
  match config, listen with
  | Some e, _ => Some e
  | None, Some e => Some (match k with Tunnel => "failed to start listener: " +:+ e | _ => e end)
  | None, None => None
  end.

Definition after_setup (e : option string) : phase :=
  match e with Some e => Finished (Some e) | None => Serving end.

(** The accept loop, which ends only when it could not be set up. *)
Definition tunnel_Serve (p : phase) (e : wevent) : option phase :=
  match p, e with
  | Setup, SetUp config listen => Some (after_setup (setup_result Tunnel config listen))
  | Serving, (Accepted _ | AcceptFailed _) => Some Serving
  | _, _ => None
  end.

(** Serve of an HTTP server that is shut down by a goroutine of its own once the
    context is cancelled. *)
Definition http_serve (cancelled : bool) (p : phase) (e : wevent) : option phase :=
  match p, e with
  | Serving, Accepted _ => Some Serving
  | Serving, CloseOnDone => if cancelled then Some Closing else None
  | Serving, ServeReturns (ServeError e) => Some (Finished (serve_result (ServeError e)))
  | Closing, ServeReturns e => Some (Finished (serve_result e))
  | _, _ => None
  end.

Definition egress_Serve (cancelled : bool) (p : phase) (e : wevent) : option phase :=
  match p, e with
  | Setup, SetUp config listen => Some (after_setup (setup_result Egress config listen))
  | _, _ => http_serve cancelled p e
  end.

(** The storage; the deferred function waits for it to drain and then asks the context
    for its error. *)
Definition runKine (cancelled : bool) (p : phase) (e : wevent) : option phase :=
  match p, e with
  | Setup, SetUp config listen => Some (after_setup (setup_result Kine config listen))
  | Serving, Drained => Some (Finished (if cancelled then Some ctx_canceled else None))
  | _, _ => None
  end.

Definition readyz_Serve (cancelled : bool) (p : phase) (e : wevent) : option phase := http_serve cancelled p e.

Definition worker_step (k : kind) (cancelled : bool) (p : phase) (e : wevent) : option phase :=
  match k with
  | Tunnel => tunnel_Serve p e
  | Egress => egress_Serve cancelled p e
  | Kine => runKine cancelled p e
  | Readyz => readyz_Serve cancelled p e
  end.

(** RunReadyz has nothing to set up before it serves. *)
Definition first_phase (k : kind) : phase := match k with Readyz => Serving | _ => Setup end.

(** ** Services *)

Inductive service := TunnelService | MasterAgent.

Inductive side := L | R.

#[export] Instance side_eq_dec : EqDecision side.
Proof. solve_decision. Defined.

Definition worker (s : service) (i : side) : kind :=
  match s, i with
  | TunnelService, L => Tunnel
  | TunnelService, R => Egress
  | MasterAgent, L => Kine
  | MasterAgent, R => Readyz
  end.

(** [errCh := make(chan error, 2)] and [errCh := make(chan error, 1)]. *)
Definition capacity (s : service) : nat := match s with TunnelService => 2 | MasterAgent => 1 end.

(** [sent] is every result put on the channel so far, [handled] every connection
    a goroutine was started for. *)
Record state := {
  cancelled : bool;
  phase_of : side → phase;
  errCh : list (option string);
  returned : option (option string);
  sent : list (option string);
  handled : list (side * nat)
}.

Inductive event := Cancel | Work (i : side) (e : wevent) | Send (i : side) | Receive.

Definition start (svc : service) : state :=
  {| cancelled := false; phase_of i := first_phase (worker svc i); errCh := []; returned := None; sent := []; handled := [] |}.

Definition set_phase (i : side) (p : phase) (f : side → phase) : side → phase :=
  λ j, if decide (i = j) then p else f j.

Definition step (svc : service) (s : state) (e : event) : option state :=
  match e with
  | Cancel => Some {| cancelled := true; phase_of := phase_of s; errCh := errCh s; returned := returned s; sent := sent s; handled := handled s |}
  | Work i e =>
      p ← worker_step (worker svc i) (cancelled s) (phase_of s i) e;
      Some {| cancelled := cancelled s; phase_of := set_phase i p (phase_of s); errCh := errCh s; returned := returned s; sent := sent s;
              handled := match e with Accepted c => handled s ++ [(i, c)] | _ => handled s end |}
  | Send i =>
      match phase_of s i with
      | Finished r =>
          if decide (length (errCh s) < capacity svc)
          then Some {| cancelled := cancelled s; phase_of := set_phase i Sent (phase_of s); errCh := errCh s ++ [r];
                       returned := returned s; sent := sent s ++ [r]; handled := handled s |}
          else None
      | _ => None
      end
  | Receive =>
      match returned s, errCh s with
      | None, r :: rest =>
          Some {| cancelled := true; phase_of := phase_of s; errCh := rest; returned := Some r; sent := sent s; handled := handled s |}
      | _, _ => None
      end
  end.

Fixpoint run (svc : service) (s : state) (es : list event) : option state :=
  match es with [] => Some s | e :: es => s ← step svc s e; run svc s es end.

Definition progress (e : event) : bool :=
  match e with Cancel | Work _ (Accepted _) | Work _ (AcceptFailed _) => false | _ => true end.

Definition quiescent (svc : service) (s : state) : Prop := ∀ e, progress e = true → step svc s e = None.

(** ** Logs of the storage

    [kineLogHook.Fire] walks the frames of the caller and marks the entries of
    kine; [contains_kine] is strings.Contains on the name of a frame. *)
Section hook.
Context (contains_kine : string → bool).

Fixpoint walk (frames : list string) (data : gmap string string) : gmap string string :=
  match frames with
  | [] => data
  | f :: fs => if contains_kine f then <["component" := "kine"]> data else walk fs data
  end.

(** At most fifteen frames are looked at. *)
Definition Fire (frames : list string) (data : gmap string string) : gmap string string :=
  walk (take 15 frames) data.

(** An entry is marked when one of those frames is of kine, and is otherwise as it was. *)
Lemma Fire_marks frames data :
  Fire frames data = if existsb contains_kine (take 15 frames) then <["component" := "kine"]> data else data.
Proof using.
  unfold Fire. induction (take 15 frames) as [|f fs IH]; simpl; [done|]. by destruct (contains_kine f).
Qed.
End hook.

(** ** What holds of every run *)

(** Workers whose result went through the channel. *)
Definition is_sent (p : phase) : nat := match p with Sent => 1 | _ => 0 end.

Definition phase_possible (k : kind) (p : phase) : Prop :=
  match p with
  | Setup => k ≠ Readyz
  | Closing => k = Egress ∨ k = Readyz
  | _ => True
  end.

Record inv (svc : service) (s : state) : Prop := {
  inv_sent : sent s = option_list (returned s) ++ errCh s;
  inv_count : length (sent s) = is_sent (phase_of s L) + is_sent (phase_of s R);
  inv_cancelled : is_Some (returned s) → cancelled s = true;
  inv_phase i : phase_possible (worker svc i) (phase_of s i)
}.

Lemma inv_start svc : inv svc (start svc).
Proof. split; simpl; [done|by destruct svc|by intros [? ?]|intros i; by destruct svc, i]. Qed.

(** Every step of every worker. *)
Ltac worker_cases k p e :=
  unfold worker_step, tunnel_Serve, egress_Serve, readyz_Serve, runKine, http_serve, after_setup in *;
  destruct k, p, e as [[] []| | | |[]|]; simplify_eq/=; repeat (case_match; simplify_eq/=).

Lemma worker_step_unsent k c p e p' : worker_step k c p e = Some p' → is_sent p = 0 ∧ is_sent p' = 0 ∧ phase_possible k p'.
Proof.
  intros E. worker_cases k p e; split_and!; auto.
Qed.

Lemma is_sent_set i p f :
  is_sent (set_phase i p f L) + is_sent (set_phase i p f R) + is_sent (f i) = is_sent (f L) + is_sent (f R) + is_sent p.
Proof. unfold set_phase. destruct i; simpl; lia. Qed.

Lemma inv_preserved svc s e s' : inv svc s → step svc s e = Some s' → inv svc s'.
Proof.
  intros [I1 I2 I3 I4] E. destruct e as [|i e|i|]; simplify_eq/=.
  - split; simpl; auto.
  - destruct (worker_step _ _ _ e) as [p|] eqn:W; simplify_eq/=. apply worker_step_unsent in W as (W1 & W2 & W3).
    pose proof (is_sent_set i p (phase_of s)). split; simpl; [done|lia|done|].
    intros j. unfold set_phase. case_decide; [by subst|apply I4].
  - destruct (phase_of s i) as [| | |r|] eqn:P; simplify_eq/=. case_decide; simplify_eq/=.
    pose proof (is_sent_set i Sent (phase_of s)) as C. rewrite P in C. simpl in C. split; simpl.
    + by rewrite I1, app_assoc.
    + rewrite length_app. simpl. lia.
    + done.
    + intros j. unfold set_phase. case_decide; [done|apply I4].
  - destruct (returned s) eqn:Er; simplify_eq/=. destruct (errCh s) as [|r rest] eqn:Ec; simplify_eq/=. by split.
Qed.

Lemma inv_run svc es : ∀ s s', inv svc s → run svc s es = Some s' → inv svc s'.
Proof.
  induction es as [|e es IH]; intros s s' I E; simplify_eq/=; [done|].
  destruct (step svc s e) as [s1|] eqn:E1; simplify_eq/=. eapply IH; [|done]. by eapply inv_preserved.
Qed.

(** ** Progress

    Every step of [progress] takes its worker, or the caller, one step further;
    [distance] counts how many are left. *)
Definition left_of (p : phase) : nat :=
  match p with Setup => 4 | Serving => 3 | Closing => 2 | Finished _ => 1 | Sent => 0 end.

Definition distance (s : state) : nat :=
  left_of (phase_of s L) + left_of (phase_of s R) + match returned s with None => 1 | Some _ => 0 end.

Lemma worker_step_closer k c p e p' :
  worker_step k c p e = Some p' → progress (Work L e) = true → left_of p' < left_of p.
Proof.
  intros E Hp. worker_cases k p e; lia.
Qed.

Lemma left_of_set i p f :
  left_of (set_phase i p f L) + left_of (set_phase i p f R) + left_of (f i) = left_of (f L) + left_of (f R) + left_of p.
Proof. unfold set_phase. destruct i; simpl; lia. Qed.

Lemma progress_closer svc s e s' : step svc s e = Some s' → progress e = true → distance s' < distance s.
Proof.
  unfold distance. intros E Hp. destruct e as [|i e|i|]; simplify_eq/=.
  - destruct (worker_step _ _ _ e) as [p|] eqn:W; simplify_eq/=.
    apply worker_step_closer in W; [|done]. pose proof (left_of_set i p (phase_of s)). lia.
  - destruct (phase_of s i) as [| | |r|] eqn:P; simplify_eq/=. case_decide; simplify_eq/=.
    pose proof (left_of_set i Sent (phase_of s)) as C. rewrite P in C. simpl in C. lia.
  - repeat (case_match; simplify_eq/=). lia.
Qed.

Lemma progress_bound svc es : ∀ s s', run svc s es = Some s' → forallb progress es = true →
  length es + distance s' ≤ distance s.
Proof.
  induction es as [|e es IH]; intros s s' E Hp; simplify_eq/=; [lia|].
  apply andb_prop in Hp as [Hp Hps]. destruct (step svc s e) as [s1|] eqn:E1; simplify_eq/=.
  apply progress_closer in E1; [|done]. specialize (IH _ _ E Hps). lia.
Qed.

Lemma stays_cancelled svc s e s' : step svc s e = Some s' → cancelled s = true → cancelled s' = true.
Proof.
  intros E C. destruct e as [|i e|i|]; simplify_eq/=; [done| |by repeat (case_match; simplify_eq/=)..].
  by destruct (worker_step _ _ _ _); simplify_eq/=.
Qed.

Lemma cancelled_run svc es : ∀ s s', run svc s es = Some s' → cancelled s = true → cancelled s' = true.
Proof.
  induction es as [|e es IH]; intros s s' E C; simplify_eq/=; [done|].
  destruct (step svc s e) as [s1|] eqn:E1; simplify_eq/=. eapply IH; [done|]. by eapply stays_cancelled.
Qed.

(** ** When nothing is left to do *)

Lemma quiescent_worker svc s i : inv svc s → quiescent svc s → cancelled s = true →
  match phase_of s i with
  | Setup | Closing => False
  | Serving => worker svc i = Tunnel
  | Finished _ | Sent => True
  end.
Proof.
  intros I Q C. pose proof (inv_phase _ _ I i) as PP. destruct (phase_of s i) eqn:P; try done.
  - pose proof (Q (Work i (SetUp None None)) eq_refl) as E. simpl in E. rewrite P in E. by destruct (worker svc i).
  - pose proof (Q (Work i CloseOnDone) eq_refl) as E. pose proof (Q (Work i Drained) eq_refl) as E'.
    simpl in E, E'. rewrite P, C in E. rewrite P in E'. by destruct (worker svc i).
  - pose proof (Q (Work i (ServeReturns ErrServerClosed)) eq_refl) as E. simpl in E. rewrite P in E.
    destruct PP as [PP|PP]; by rewrite PP in E.
Qed.

Lemma is_sent_le p : is_sent p ≤ 1.
Proof. destruct p; simpl; lia. Qed.

(** A result waits for the channel only while nobody received: with one of the
    two results taken, even a channel of capacity one has room for the other. *)
Lemma send_possible svc s i r :
  inv svc s → is_Some (returned s) → phase_of s i = Finished r → step svc s (Send i) ≠ None.
Proof.
  intros [I1 I2 _ _] [r0 Hr] P. simpl. rewrite P. case_decide as D; [done|]. exfalso. apply D.
  rewrite Hr in I1. rewrite I1 in I2. simpl in I2.
  assert (length (errCh s) ≤ 0) as -> % Nat.le_0_r; [|by destruct svc; simpl; lia].
  pose proof (is_sent_le (phase_of s L)). pose proof (is_sent_le (phase_of s R)).
  destruct i; rewrite P in *; simpl in *; lia.
Qed.

(** A service that has a result on the channel, or a worker with one to send, returns. *)
Lemma quiescent_returned svc s i : inv svc s → quiescent svc s →
  (∃ r, phase_of s i = Finished r) ∨ phase_of s i = Sent → is_Some (returned s).
Proof.
  intros I Q Hi. destruct (returned s) as [r|] eqn:Er; [done|exfalso].
  pose proof (Q Receive eq_refl) as Hrec. simpl in Hrec. rewrite Er in Hrec.
  destruct (errCh s) as [|r rest] eqn:Ec; [|done]. destruct Hi as [[r P]|P].
  - pose proof (Q (Send i) eq_refl) as E. simpl in E. rewrite P, Ec in E. case_decide as D; [done|].
    apply D. destruct svc; simpl; lia.
  - destruct I as [I1 I2 _ _]. rewrite Er, Ec in I1. rewrite I1 in I2. simpl in I2. destruct i; rewrite P in I2; simpl in I2; lia.
Qed.

Lemma quiescent_done svc s : inv svc s → quiescent svc s → cancelled s = true →
  ∃ r, returned s = Some r ∧ head (sent s) = Some r ∧ phase_of s R = Sent
    ∧ (phase_of s L = Sent ∨ worker svc L = Tunnel ∧ phase_of s L = Serving).
Proof.
  intros I Q C. pose proof (quiescent_worker svc s L I Q C) as HL. pose proof (quiescent_worker svc s R I Q C) as HR.
  assert (∀ i r, is_Some (returned s) → phase_of s i = Finished r → False) as NF.
  { intros i r Hr P. apply (send_possible svc s i r I Hr P). by apply Q. }
  assert (is_Some (returned s)) as Hr.
  { apply (quiescent_returned svc s R I Q). destruct (phase_of s R) as [| | |r|]; try done; eauto.
    by destruct svc. }
  destruct Hr as [r Er]. exists r. rewrite (inv_sent _ _ I), Er. split_and!; [done|done| |].
  - destruct (phase_of s R) as [| | |r'|] eqn:P; try done; [by destruct svc|]. exfalso. by eapply (NF R).
  - destruct (phase_of s L) as [| | |r'|] eqn:P; try done; [by right| |by left]. exfalso. by eapply (NF L).
Qed.

(** The tunnel server does not look at its context: once it accepts connections it
    goes on doing so, whatever happens. *)
Lemma tunnel_serving_forever es : ∀ s s',
  run TunnelService s es = Some s' → phase_of s L = Serving → phase_of s' L = Serving.
Proof.
  induction es as [|e es IH]; intros s s' E P; simplify_eq/=; [done|].
  destruct (step TunnelService s e) as [s1|] eqn:E1; simplify_eq/=. apply (IH _ _ E). clear IH E.
  destruct e as [|i e|i|]; simplify_eq/=.
  - done.
  - destruct i; [rewrite P in E1; by destruct e; simplify_eq/=|].
    destruct (worker_step _ _ (phase_of s R) e); by simplify_eq/=.
  - destruct i; [by rewrite P in E1|]. repeat (case_match; simplify_eq/=). done.
  - repeat (case_match; simplify_eq/=). done.
Qed.

(** The connections accepted along a run, with the worker that did. *)
Definition accepted (es : list event) : list (side * nat) :=
  omap (λ e, match e with Work i (Accepted c) => Some (i, c) | _ => None end) es.

Lemma handled_accepted svc es : ∀ s s', run svc s es = Some s' → handled s' = handled s ++ accepted es.
Proof.
  induction es as [|e es IH]; intros s s' E; simplify_eq/=; [by rewrite app_nil_r|].
  destruct (step svc s e) as [s1|] eqn:E1; simplify_eq/=. rewrite (IH _ _ E). clear IH E.
  destruct e as [|i e|i|]; simplify_eq/=; [done| |by repeat (case_match; simplify_eq/=)..].
  destruct (worker_step _ _ _ e); simplify_eq/=. destruct e; simpl; by rewrite <- ?app_assoc.
Qed.

(** C11.  The shutdown of the tunnel server and of the master agent.  In every run, a
    service that has returned returned the first result one of its workers sent, and its
    context is cancelled; every connection accepted was handed to one handler, in order.
    And from any moment at which the context is cancelled, whatever the goroutines do in
    whatever order, they take at most nine steps of their own; when none is left the
    service has returned, no goroutine waits to send its result, and the workers have
    ended - all but the accept loop of the tunnel server, which keeps running. *)
Theorem service_shutdown svc es s :
  run svc (start svc) es = Some s →
  handled s = accepted es ∧
  (∀ r, returned s = Some r → head (sent s) = Some r ∧ cancelled s = true) ∧
  (cancelled s = true → ∀ es' s', run svc s es' = Some s' → forallb progress es' = true →
     length es' ≤ 9 ∧
     (quiescent svc s' → ∃ r, returned s' = Some r ∧ head (sent s') = Some r ∧ phase_of s' R = Sent ∧
        (phase_of s' L = Sent ∨ svc = TunnelService ∧ phase_of s' L = Serving))).
Proof.
  intros E. pose proof (inv_run _ _ _ _ (inv_start svc) E) as I. split_and!.
  - by rewrite (handled_accepted _ _ _ _ E).
  - intros r Hr. rewrite (inv_sent _ _ I), Hr. split; [done|]. apply (inv_cancelled _ _ I). by exists r.
  - intros C es' s' E' Hp. split.
    + pose proof (progress_bound _ _ _ _ E' Hp). unfold distance in *.
      assert (∀ p, left_of p ≤ 4) as B by (intros []; simpl; lia).
      pose proof (B (phase_of s L)). pose proof (B (phase_of s R)). destruct (returned s); lia.
    + intros Q. pose proof (inv_run _ _ _ _ I E') as I'. pose proof (cancelled_run _ _ _ _ E' C) as C'.
      destruct (quiescent_done svc s' I' Q C') as (r & ? & ? & ? & HL). exists r. split_and!; try done.
      destruct HL as [?|[? ?]]; [by left|right]. by destruct svc.
Qed.

Definition shutdown_events : list event :=
  [Work L (SetUp None None); Work R (SetUp None None); Work L (Accepted 7); Cancel;
   Work R CloseOnDone; Work R (ServeReturns ErrServerClosed); Send R; Receive].

Definition shutdown_state : state :=
  default (start TunnelService) (run TunnelService (start TunnelService) shutdown_events).

Lemma service_shutdown_witness :
  handled shutdown_state = [(L, 7)] ∧ head (sent shutdown_state) = Some None ∧ phase_of shutdown_state L = Serving.
Proof.
  assert (run TunnelService (start TunnelService) shutdown_events = Some shutdown_state) as E by (vm_compute; reflexivity).
  destruct (service_shutdown TunnelService shutdown_events shutdown_state E) as (H1 & H2 & _).
  split; [exact H1|]. split; [apply (H2 None); vm_compute; reflexivity|vm_compute; reflexivity].
Defined.

(** The master agent: the storage drains and reports the cancellation first, the
    readiness server ends after it, and both results fit the channel. *)
Example master_agent_ends :
  (λ s, (returned s, errCh s)) <$> run MasterAgent (start MasterAgent)
    [Work L (SetUp None None); Cancel; Work L Drained; Send L; Work R CloseOnDone;
     Work R (ServeReturns ErrServerClosed); Receive; Send R]
  = Some (Some (Some ctx_canceled), [None]).
Proof. reflexivity. Qed.
