(* ===== verification/Cli.v ===== *)
(** * The tree of commands, and the unit that restarts a worker

    The commands of the binary heir (src/cmd/distro.go, src/pkg/cmd) as a tree with
    their names, aliases, arguments and flags; what each of them does is in Commands.v
    and, for the two worker commands of src/pkg/cmd/provision/worker.go, here.

    [invokes] says which command the words of a command line name.  It does not fix an
    order of search, so that [invokes_unique] holds for any way of looking the words up.

    [heir provision worker] ends by writing a unit file whose ExecStart is the command
    line that systemd runs at every start of the machine.  [unit_restores_args] follows
    the extra arguments of the kubelet through it: the join writes the unit (Worker.v),
    systemd splits its line into words, the words are looked up in the tree, and the
    flag library parses the value.

    Parameters: systemd's splitting of a command line ([words]) and pflag's
    key=value lists ([stringToString]), each given on plain input only, where the latter is
    [flag_pairs]. *)

From Stdlib Require Import Ascii.
From stdpp Require Import gmap.
From S2P Require Import Prelude Numbers Effects Api Pki Host Templates Bootstrap Worker.
From stdpp Require Import options.

(** ** Commands *)

Inductive action :=
| Help
| DeleteControlPlane
| DeleteWorkerJoinToken
| GetWorkerJoinToken
| GetRuntimeCluster
| GenerateToken
| JoinWorker
| RunWorker
| ProvisionRuntimeCluster
| ProvisionWorkerJoinToken
| PrintVersion.

Inductive positional := ArbitraryArgs | ExactArgs (n : nat) | MaximumNArgs (n : nat).

(** A flag: its name, its one-letter form and its default. *)
Record cli_flag := Flag { fg_name : string; fg_short : string; fg_default : string }.

Inductive command := Command {
  use : string;
  aliases : list string;
  args : positional;
  flags : list cli_flag;
  run : action;
  subcommands : list command
}.

(** [Name] of a command: the first word of its use. *)
Definition cmd_name (c : command) : string := default "" (head (Split " "%char (use c))).

Definition generate_NewCommand : command :=
  Command "generate" [] ArbitraryArgs
    [Flag "kubeconfig" "" ""; Flag "context" "" ""; Flag "expiry" "" "1h0m0s"] GenerateToken [].

Definition token_NewCommand : command := Command "token" [] ArbitraryArgs [] Help [generate_NewCommand].

Definition controlPlaneCommand : command :=
  Command "controlplane <cluster-name>" [] (ExactArgs 1)
    [Flag "kubeconfig" "" ""; Flag "namespace" "" "default"] DeleteControlPlane [].

Definition workerJoinTokenDeleteCommand : command :=
  Command "workerJoinToken <name>" ["token"] (ExactArgs 1) [Flag "kubeconfig" "" ""] DeleteWorkerJoinToken [].

Definition delete_NewCommand : command :=
  Command "delete" [] ArbitraryArgs [] Help [controlPlaneCommand; workerJoinTokenDeleteCommand].

Definition workerJoinTokenGetCommand : command :=
  Command "workerJoinToken [name]" ["token"] (MaximumNArgs 1)
    [Flag "kubeconfig" "" ""; Flag "save-token" "o" ""] GetWorkerJoinToken [].

Definition runtimeClusterGetCommand : command :=
  Command "runtimeCluster [name]" ["cluster"] (MaximumNArgs 1)
    [Flag "namespace" "" "default"; Flag "kubeconfig" "" ""; Flag "server" "" ""; Flag "save-kubeconfig" "o" ""]
    GetRuntimeCluster [].

Definition get_NewCommand : command :=
  Command "get" [] ArbitraryArgs [] Help [workerJoinTokenGetCommand; runtimeClusterGetCommand].

Definition runtimeClusterProvisionCommand : command :=
  Command "runtimeCluster <name>" ["cluster"] (ExactArgs 1)
    [Flag "namespace" "" "default"; Flag "kubeconfig" "" ""; Flag "set" "" "[]"; Flag "wait" "" "true";
     Flag "timeout" "" "5m0s"] ProvisionRuntimeCluster [].

Definition workerJoinTokenProvisionCommand : command :=
  Command "workerJoinToken <name>" ["token"] (ExactArgs 1)
    [Flag "ttl" "" "3h0m0s"; Flag "kubeconfig" "" ""; Flag "wait" "" "true"; Flag "timeout" "" "1m0s"]
    ProvisionWorkerJoinToken [].

Definition workerProvisionCommand : command :=
  Command "worker" [] ArbitraryArgs [Flag "token" "" ""; Flag "kubelet-extra-args" "" "[]"] JoinWorker [].

Definition WorkerRunCommand : command :=
  Command "worker" [] ArbitraryArgs [Flag "kubelet-extra-args" "" "[]"] RunWorker [].

Definition provision_NewCommand : command :=
  Command "provision" [] ArbitraryArgs [] Help
    [generate_NewCommand; workerProvisionCommand; runtimeClusterProvisionCommand; workerJoinTokenProvisionCommand].

Definition version_NewCommand : command := Command "version" [] ArbitraryArgs [] PrintVersion [].

Definition root : command :=
  Command "heir" [] ArbitraryArgs [] Help
    [delete_NewCommand; get_NewCommand; token_NewCommand; provision_NewCommand; WorkerRunCommand; version_NewCommand].

(** The result of a command that only groups others. *)
Definition group_RunE (help : option string) : option string :=
  match help with Some e => Some e | None => Some "subcommand is required" end.

(** What [heir version] prints, from the values set at build time. *)
Definition version_text (Version CommitID BuildTime : string) : string :=
  "Version:   " +:+ Version +:+ nl +:+ "Commit:    " +:+ CommitID +:+ nl +:+ "BuildTime: " +:+ BuildTime +:+ nl.

(** ** Looking commands up *)

Definition answers_to (c : command) : list string := cmd_name c :: aliases c.

Inductive invokes : command → list string → command → Prop :=
| invokes_here c : invokes c [] c
| invokes_sub c w sub words c' :
    sub ∈ subcommands c → w ∈ answers_to sub → invokes sub words c' → invokes c (w :: words) c'.

(** No two subcommands answer to the same word, here and below. *)
Fixpoint unambiguous (c : command) : bool :=
  bool_decide (NoDup (subcommands c ≫= answers_to)) && forallb unambiguous (subcommands c).

Lemma answers_to_unique (l : list command) c1 c2 w :
  NoDup (l ≫= answers_to) → c1 ∈ l → c2 ∈ l → w ∈ answers_to c1 → w ∈ answers_to c2 → c1 = c2.
Proof.
  induction l as [|c l IH]; [by intros _ ?%elem_of_nil|].
  rewrite bind_cons, NoDup_app. intros (Hc & Hd & Hl) [->|H1]%elem_of_cons [->|H2]%elem_of_cons W1 W2; try done.
  - destruct (Hd w W1). apply list_elem_of_bind. eauto.
  - destruct (Hd w W2). apply list_elem_of_bind. eauto.
  - by apply IH.
Qed.

Lemma invokes_unique c words c1 c2 : unambiguous c = true → invokes c words c1 → invokes c words c2 → c1 = c2.
Proof.
  intros U H. revert U c2. induction H as [c|c w sub words c' Hs Hw _ IH]; intros U c2 H2; inversion_clear H2; [done|].
  destruct c as [? ? ? ? ? subs]. simpl in *. apply andb_prop in U as [Hn Hu]. apply bool_decide_eq_true in Hn.
  match goal with H : ?s ∈ subs, H' : w ∈ answers_to ?s |- _ =>
    assert (sub = s) as <- by (by eapply (answers_to_unique subs)) end.
  apply IH; [|done]. rewrite forallb_forall in Hu. apply Hu. by apply list_elem_of_In.
Qed.

Lemma worker_invoked : invokes root ["worker"] WorkerRunCommand.
Proof.
  apply (invokes_sub _ _ WorkerRunCommand); [|apply list_elem_of_here|apply invokes_here].
  do 4 apply list_elem_of_further. apply list_elem_of_here.
Qed.

Lemma root_unambiguous : unambiguous root = true.
Proof. vm_compute. reflexivity. Qed.

(** ** The worker commands *)

Definition WithKubeletExtraArgs (t : gomap string) (j : WorkerContext) : WorkerContext := {|
  JoinToken := JoinToken j; WorkerProfileConfigMapName := WorkerProfileConfigMapName j; BinDir := BinDir j;
  HeirRuntimeBin := HeirRuntimeBin j; KubeletStateDir := KubeletStateDir j;
  KubeletBootstrapKubeconfigPath := KubeletBootstrapKubeconfigPath j; KubeletKubeConfigPath := KubeletKubeConfigPath j;
  KubeletPKIPath := KubeletPKIPath j; KubeletPKICaCertPath := KubeletPKICaCertPath j; KubeletExtraArgs := t;
  KubeletConfigFile := KubeletConfigFile j; KubeletLogFile := KubeletLogFile j; KubeletStaticPodPath := KubeletStaticPodPath j;
  ContainerdAddress := ContainerdAddress j; ContainerdState := ContainerdState j; ContainerdRoot := ContainerdRoot j;
  ContainerdConfig := ContainerdConfig j; ContainerdDropInConfiguration := ContainerdDropInConfiguration j;
  ContainerdLogFile := ContainerdLogFile j; ContainerdStartupTimeout := ContainerdStartupTimeout j;
  ApiServerLocalAddress := ApiServerLocalAddress j;
  ControlPlaneEndpointNodeProfileConfigmapKey := ControlPlaneEndpointNodeProfileConfigmapKey j;
  KubeletExtraArgsNodeProfileConfigmapKey := KubeletExtraArgsNodeProfileConfigmapKey j;
  KubeletConfigurationNodeProfileConfigmapKey := KubeletConfigurationNodeProfileConfigmapKey j;
  NodeProfileLocalFilePath := NodeProfileLocalFilePath j;
  CNIEnableProviderNodeProfileConfigmapKey := CNIEnableProviderNodeProfileConfigmapKey j;
  CNIBinFolderPath := CNIBinFolderPath j; ApiServerWorkerProxyServerAddress := ApiServerWorkerProxyServerAddress j;
  PlaneTunnelServerEgressSelectorPort := PlaneTunnelServerEgressSelectorPort j;
  PlaneTunnelServerServer := PlaneTunnelServerServer j |}.

(** The two commands pass one option on. *)
Definition worker_context (kubeletExtraArgs : gmap string string) : WorkerContext :=
  WithKubeletExtraArgs (Some kubeletExtraArgs) NewWorkerContextWithDefaults.

(** An error of what the command runs, under the command's own message. *)
Definition wrapped (what : string) (e : option string) : option string :=
  match e with Some e => Some (what +:+ ": " +:+ e) | None => None end.

(** [heir provision worker]; that it succeeded is also printed. *)
Definition workerProvision `{X : X509} `{W : WorkerLibraries} (token : string)
    (kubeletExtraArgs : gmap string string) (order : list (string * string)) : prog hop (option string) :=
  let! e := worker_Join token (worker_context kubeletExtraArgs) order in
  Ret (wrapped "failed to join worker node" e).

(** [heir worker] around what [worker.Run] returns for the context it is given. *)
Definition workerRun {R} (Run : WorkerContext → prog R (option string)) (kubeletExtraArgs : gmap string string) :
    prog R (option string) :=
  let! e := Run (worker_context kubeletExtraArgs) in
  Ret (wrapped "failed to run worker node" e).

(** ** The command line in the unit *)

Section unit.
(** [words] is how systemd splits ExecStart, [stringToString] the value of a flag
    that holds a list of key=value pairs. *)
Context (words : string → list string) (stringToString : string → option (gmap string string)).

Definition plain_char (c : ascii) : bool :=
  is_digit c || existsb (Ascii.eqb c) (String.list_ascii_of_string
    "abcdefghijklmnopqrstuvwxyzABCDEFGHIJKLMNOPQRSTUVWXYZ-_./:").

Definition plain_key (s : string) : Prop := s ≠ "" ∧ all_chars plain_char s = true.
Definition plain_value (s : string) : Prop := all_chars (λ c, plain_char c || Ascii.eqb c "="%char) s = true.

(** Without quotes, escapes and specifiers, the words of a line are what is between
    its blanks. *)
Definition plain_word (s : string) : Prop :=
  s ≠ "" ∧ all_chars (λ c, plain_char c || Ascii.eqb c "="%char || Ascii.eqb c ","%char) s = true.

Hypothesis words_plain : ∀ l, l ≠ [] → Forall plain_word l → words (Join l " ") = l.

(** The text before and after the first [c]. *)
Fixpoint cut (c : ascii) (s : string) : option (string * string) :=
  match s with
  | EmptyString => None
  | String a s => if decide (a = c) then Some ("", s) else '(x, y) ← cut c s; Some (String a x, y)
  end.

Fixpoint Count (c : ascii) (s : string) : nat :=
  match s with
  | EmptyString => 0
  | String a s => if decide (a = c) then S (Count c s) else Count c s
  end.

(** The value of a flag of key=value pairs when it is set to a text without quotes: a text
    with no equals sign is refused, one with a single equals sign is one pair, whatever commas
    it has, and one with several is split at its commas; each pair is cut at its first equals
    sign, and of two pairs with the same key the last counts. *)
Definition flag_pairs (s : string) : option (gmap string string) :=
  match Count "="%char s with
  | 0 => None
  | 1 => (λ kv, {[ kv.1 := kv.2 ]}) <$> cut "="%char s
  | _ => (λ l, list_to_map (reverse l)) <$> mapM (cut "="%char) (Split ","%char s)
  end.

Hypothesis stringToString_plain : ∀ s, plain_word s → stringToString s = flag_pairs s.

(** The value of the flag in the words after the command. *)
Definition extra_args_flag (ws : list string) : option (gmap string string) :=
  match ws with
  | [] => Some ∅
  | [w] => v ← drop_prefix "--kubelet-extra-args=" w; stringToString v
  | _ => None
  end.

Lemma cut_first c a b : all_chars (λ x, negb (bool_decide (x = c))) a = true → cut c (a +:+ String c b) = Some (a, b).
Proof.
  induction a as [|x a IH]; intros H; [simpl; by rewrite decide_True|].
  rewrite string_app_cons. simpl in *. apply andb_true_iff in H as [Hx Ha].
  rewrite negb_true_iff, bool_decide_eq_false in Hx. by rewrite decide_False, IH.
Qed.

(** A plain text has none of the separators. *)
Lemma plain_char_not c x : plain_char c = false → plain_char x = true → negb (bool_decide (x = c)) = true.
Proof. intros Hc Hx. apply negb_true_iff, bool_decide_eq_false. intros ->. congruence. Qed.

Lemma plain_no c s : plain_char c = false → all_chars plain_char s = true → all_chars (λ x, negb (bool_decide (x = c))) s = true.
Proof. intros Hc. apply all_chars_impl. intros x. by apply plain_char_not. Qed.

Definition pair_text (kv : string * string) : string := kv.1 +:+ "=" +:+ kv.2.

Definition plain_pair (kv : string * string) : Prop := plain_key kv.1 ∧ plain_value kv.2.

Lemma cut_pair kv : plain_pair kv → cut "="%char (pair_text kv) = Some kv.
Proof. intros [[_ Hk] _]. destruct kv as [k v]. apply (cut_first "="%char). by apply plain_no. Qed.

Lemma pair_no_comma kv : plain_pair kv → all_chars (λ x, negb (bool_decide (x = ","%char))) (pair_text kv) = true.
Proof.
  intros [[_ Hk] Hv]. unfold pair_text. rewrite !all_chars_app. apply andb_true_iff. split; [by apply plain_no|].
  apply andb_true_iff. split; [done|]. revert Hv. apply all_chars_impl. intros x [Hx|Hx]%orb_true_iff.
  - by apply plain_char_not.
  - apply Ascii.eqb_eq in Hx as ->. done.
Qed.

Lemma all_chars_Join p l sep :
  Forall (λ s, all_chars p s = true) l → all_chars p sep = true → all_chars p (Join l sep) = true.
Proof.
  intros Hl Hs. induction Hl as [|s l H Hl IH]; [done|]. destruct l as [|s' l]; [done|].
  change (Join (s :: s' :: l) sep) with (s +:+ sep +:+ Join (s' :: l) sep). by rewrite !all_chars_app, H, Hs, IH.
Qed.

Lemma pair_text_word kv : plain_pair kv → all_chars (λ c, plain_char c || Ascii.eqb c "="%char || Ascii.eqb c ","%char) (pair_text kv) = true.
Proof.
  intros [[_ Hk] Hv]. unfold pair_text. rewrite !all_chars_app.
  apply andb_true_iff. split; [|apply andb_true_iff; split; [done|]].
  - revert Hk. apply all_chars_impl. by intros x ->.
  - revert Hv. apply all_chars_impl. by intros x ->.
Qed.

Lemma serialized_word order : order ≠ [] → Forall plain_pair order → plain_word (serializeExtraArgs order).
Proof.
  intros Hne H. unfold serializeExtraArgs. split.
  - destruct order as [|[[|c k] v] order]; [done| |by destruct order].
    apply Forall_cons_1 in H as [[[H _] _] _]. done.
  - apply all_chars_Join; [|done]. apply Forall_fmap. eapply Forall_impl; [exact H|]. apply pair_text_word.
Qed.

Lemma Count_app c a b : Count c (a +:+ b) = Count c a + Count c b.
Proof.
  induction a as [|x a IH]; [done|]. rewrite string_app_cons. simpl. case_decide; simpl; by rewrite IH.
Qed.

(** Every pair has an equals sign of its own. *)
Lemma Count_serialized order : length order ≤ Count "="%char (serializeExtraArgs order).
Proof.
  unfold serializeExtraArgs. induction order as [|kv order IH]; [simpl; lia|].
  assert (1 ≤ Count "="%char (kv.1 +:+ "=" +:+ kv.2)) as H1 by (rewrite !Count_app; simpl; lia).
  destruct order as [|kv' order]; [simpl in *; lia|].
  change (Join _ ",") with ((kv.1 +:+ "=" +:+ kv.2) +:+ "," +:+
    Join ((λ kv, kv.1 +:+ "=" +:+ kv.2) <$> (kv' :: order)) ",").
  rewrite !(Count_app _ (kv.1 +:+ "=" +:+ kv.2)), (Count_app _ ","). simpl length in *. lia.
Qed.

(** Serialized and parsed again, the pairs are the same. *)
Lemma extra_args_round_trip order :
  order ≠ [] → Forall plain_pair order → NoDup order.*1 →
  extra_args_flag ["--kubelet-extra-args=" +:+ serializeExtraArgs order] = Some (list_to_map order).
Proof using stringToString_plain.
  intros Hne H Hnd. unfold extra_args_flag. rewrite (proj2 (drop_prefix_Some _ _ _) eq_refl). simpl.
  rewrite stringToString_plain by (by apply serialized_word). unfold flag_pairs.
  pose proof (Count_serialized order) as Hc.
  assert (mapM (cut "="%char) (Split ","%char (serializeExtraArgs order)) = Some order) as Hall.
  { unfold serializeExtraArgs. rewrite (Split_Join ","%char).
    - change (mapM (cut "="%char) (pair_text <$> order) = Some order).
      clear Hne Hnd Hc. apply mapM_Some. induction H as [|kv order Hkv _ IH]; constructor; [by apply cut_pair|done].
    - by destruct order.
    - apply Forall_fmap. eapply Forall_impl; [exact H|]. apply pair_no_comma. }
  destruct (Count "="%char (serializeExtraArgs order)) as [|[|n]].
  - destruct order; [done|simpl in Hc; lia].
  - destruct order as [|kv [|kv' order]]; [done| |simpl in Hc; lia].
    apply Forall_cons_1 in H as [Hkv _]. change (serializeExtraArgs [kv]) with (pair_text kv).
    by rewrite cut_pair.
  - rewrite Hall. simpl. f_equal. symmetry. apply list_to_map_proper; [done|]. symmetry. apply reverse_Permutation.
Qed.

Lemma plain_bin : plain_word (HeirRuntimeBin NewWorkerContextWithDefaults).
Proof. by split. Qed.

Lemma plain_worker : plain_word "worker".
Proof. by split. Qed.

Lemma plain_flag s : plain_word s → plain_word ("--kubelet-extra-args=" +:+ s).
Proof. intros [_ H]. split; [done|]. rewrite all_chars_app. by rewrite H. Qed.

(** The words of the line, with and without arguments. *)
Lemma exec_start_words m order :
  Forall plain_pair order →
  words (exec_start (worker_context m) order) =
  HeirRuntimeBin NewWorkerContextWithDefaults :: "worker" ::
    match order with [] => [] | _ => ["--kubelet-extra-args=" +:+ serializeExtraArgs order] end.
Proof using words_plain.
  intros H. destruct order as [|kv order].
  { apply (words_plain [_; _]); [done|]. repeat constructor; try done. }
  pose proof (serialized_word (kv :: order) ltac:(done) H) as Hw. unfold exec_start.
  rewrite bool_decide_eq_false_2 by apply Hw.
  apply (words_plain [_; _; "--kubelet-extra-args=" +:+ serializeExtraArgs (kv :: order)]); [done|].
  repeat constructor; try done; by apply plain_flag.
Qed.

(** The line gives the arguments back. *)
Lemma line_restores_args m order :
  order ≡ₚ map_to_list m → map_Forall (λ k v, plain_pair (k, v)) m →
  ∃ ws, words (exec_start (worker_context m) order) = HeirRuntimeBin NewWorkerContextWithDefaults :: "worker" :: ws ∧
    extra_args_flag ws = Some m.
Proof using words_plain stringToString_plain.
  intros P H.
  assert (Forall plain_pair order) as F.
  { apply Forall_forall. intros [k v] Hin. rewrite P in Hin. apply elem_of_map_to_list in Hin. by apply (H k v). }
  eexists. split; [by apply exec_start_words|].
  assert (NoDup order.*1) as Hnd by (rewrite P; apply NoDup_fst_map_to_list).
  assert (list_to_map order = m) as Hm
    by (rewrite (list_to_map_proper order (map_to_list m)); [apply list_to_map_to_list|done|done]).
  destruct order as [|kv order]; [by rewrite <- Hm|]. by rewrite extra_args_round_trip, Hm.
Qed.

Lemma worker_unique c : invokes root ["worker"] c ↔ c = WorkerRunCommand.
Proof.
  split; [intros Hc|intros ->; exact worker_invoked].
  eapply invokes_unique; [exact root_unambiguous|exact Hc|exact worker_invoked].
Qed.

(** C21.  A worker that was joined with extra arguments for the kubelet is restarted
    with them.  Take keys and values of letters, digits and -_./: (values may also
    contain an equals sign), written out in whatever order.  Whenever [heir provision
    worker] succeeds, the unit it installed is started, and its command line is the
    installed binary followed by [worker]; that word names one command of the binary,
    the one that runs the worker, which declares the flag; and the flag has the
    arguments that were given when joining. *)
Theorem unit_restores_args `{X : X509} `{W : WorkerLibraries} token m order s :
  order ≡ₚ map_to_list m → map_Forall (λ k v, plain_pair (k, v)) m →
  wp (host_spec (join_env (worker_context m))) (workerProvision token m order) s (λ r s', r = None →
    h_running s' = true ∧
    ∃ line ws, h_files s' !! unitPath = Some (serialize_unit (unit_options line)) ∧
      words line = HeirRuntimeBin NewWorkerContextWithDefaults :: "worker" :: ws ∧
      (∀ c, invokes root ["worker"] c ↔ c = WorkerRunCommand) ∧
      run WorkerRunCommand = RunWorker ∧ "kubelet-extra-args" ∈ fg_name <$> flags WorkerRunCommand ∧
      extra_args_flag ws = Some m).
Proof using words_plain stringToString_plain.
  intros P H. destruct (line_restores_args m order P H) as (ws & Hw & Hf).
  assert (NoDup (join_files (worker_context m))) as Hnd by (apply (bool_decide_unpack _); vm_compute; exact I).
  unfold workerProvision. eapply (wp_seq _ (worker_Join _ _ _)); [by apply wp_worker_Join|].
  intros [e|] s' [_ Hr]; [done|]. intros _. destruct (Hr eq_refl) as (_ & _ & _ & _ & _ & _ & _ & _ & _ & _ & Hu & Hrun).
  split; [done|]. eexists _, ws. split_and!; [exact Hu|exact Hw|apply worker_unique|done| |exact Hf].
  by apply (bool_decide_unpack _).
Qed.
End unit.

(** ** Concrete lines *)

Definition blank_words : string → list string := Split " "%char.

Lemma blank_words_plain l : l ≠ [] → Forall plain_word l → blank_words (Join l " ") = l.
Proof.
  intros Hne H. apply (Split_Join " "%char); [done|]. eapply Forall_impl; [exact H|].
  intros s [_ Hs]. revert Hs. apply all_chars_impl. intros x Hx. apply negb_true_iff, bool_decide_eq_false.
  intros ->. done.
Qed.

Definition node_args : gmap string string := {[ "v" := "4"; "node-labels" := "zone=a" ]}.

Definition example_provision : option (option string * host) :=
  token ← printed_token;
  Effects.run (disk (λ _, false)) (workerProvision (X := ref_x509) (W := ref_worker) token node_args
    [("node-labels", "zone=a"); ("v", "4")]) new_machine.

Lemma unit_restores_args_witness :
  ∃ s' line ws, example_provision = Some (None, s') ∧
    h_files s' !! "/etc/systemd/system/heir.service" = Some (serialize_unit (WorkerLibraries := ref_worker) (unit_options line)) ∧
    blank_words line = "/var/lib/heir/bin/heir" :: "worker" :: ws ∧ extra_args_flag flag_pairs ws = Some node_args.
Proof.
  assert (match example_provision with Some (None, _) => true | _ => false end = true) as E by (vm_compute; reflexivity).
  unfold example_provision in *. destruct printed_token as [token|]; [|discriminate E].
  pose proof (unit_restores_args blank_words flag_pairs blank_words_plain (λ s _, eq_refl) (X := ref_x509)
    (W := ref_worker) token node_args [("node-labels", "zone=a"); ("v", "4")] new_machine) as Hw.
  specialize (Hw ltac:(apply (bool_decide_unpack _); vm_compute; exact I)).
  specialize (Hw ltac:(apply map_Forall_insert_2; [split; [split|]; done|]; apply map_Forall_singleton; split; [split|]; done)).
  apply (wp_run _ (disk (λ _, false)) _
    (Implements0 := disk_implements (λ _, false) (join_env (worker_context node_args)) ltac:(done))) in Hw.
  simpl option_bind in *. cbn [mbind option_bind] in *.
  destruct (Effects.run (disk _) _ new_machine) as [[[m|] s']|]; [discriminate E| |discriminate E].
  destruct (Hw eq_refl) as (_ & line & ws & Hu & Hl & _ & _ & _ & Hf).
  exists s', line, ws. split; [reflexivity|]. split; [exact Hu|]. split; [exact Hl|exact Hf].
Defined.

(** Beyond plain values the arguments change: a value with a comma and an equals sign in it
    comes back as two arguments. *)
Example comma_lost :
  let m := {[ "node-labels" := "zone=a,disk=ssd" ]} : gmap string string in
  extra_args_flag flag_pairs (drop 2 (blank_words (exec_start (worker_context m) (map_to_list m)))) =
  Some {[ "node-labels" := "zone=a"; "disk" := "ssd" ]}.
Proof. vm_compute. reflexivity. Qed.
