(* ===== verification/Clients.v ===== *)
(** * Clients, logging, templates and embedded versions

    The helpers the commands start with:
    - the client configurations of src/pkg/k8s/k8s.go, and those that
      src/pkg/provision/controlplane and src/pkg/provision/token build beside them,
      with the types each client knows (src/api/*/groupversion_info.go);
    - the log levels of src/pkg/observability/logger.go, src/cmd/distro.go and
      src/cmd/tunnel/app.go;
    - src/pkg/templatewriter/templatewriter.go;
    - src/dependency_versions.go.

    Parameters: client-go (loading a configuration, building a client from it), the
    registration of types, logrus' names of levels, text/template and the YAML
    library. *)

From stdpp Require Import base list strings.
From S2P Require Import Prelude Startup.
From stdpp Require Import options.

(** ** Configurations of clients *)

(** What is set on the default loading rules and on the overrides; empty is unset. *)
Record ClientConfig := { ExplicitPath : string; CurrentContext : string }.

Definition BuildClientConfig (kubeconfig context : string) : ClientConfig :=
  let loadingRules := if bool_decide (kubeconfig ≠ "") then kubeconfig else "" in
  let overrides := if bool_decide (context ≠ "") then context else "" in
  {| ExplicitPath := loadingRules; CurrentContext := overrides |}.

Section clients.
Context {credentials client : Type}.

Record restConfig := { rc_Host : string; rc_CAData : string; rc_rest : credentials }.

(** [ClientConfig()] of a deferred configuration, [kubernetes.NewForConfig],
    [clientcmd.RESTConfigFromKubeConfig]. *)
Context (load : ClientConfig → restConfig + string) (NewForConfig : restConfig → client + string)
        (RESTConfigFromKubeConfig : string → restConfig + string).

Definition BuildClient (kubeconfig contextName : string) : client + string :=
  match load (BuildClientConfig kubeconfig contextName) with
  | inr e => inr ("failed to build rest config: " +:+ e)
  | inl cfg =>
      match NewForConfig cfg with
      | inr e => inr ("build kubernetes client: " +:+ e)
      | inl c => inl c
      end
  end.

Definition BuildClientFromBytes (raw overrideHost : string) : (client * string * string) + string :=
  match RESTConfigFromKubeConfig raw with
  | inr e => inr ("failed to build rest config from kubeconfig bytes: " +:+ e)
  | inl cfg =>
      let cfg := if bool_decide (overrideHost ≠ "")
                 then {| rc_Host := overrideHost; rc_CAData := rc_CAData cfg; rc_rest := rc_rest cfg |} else cfg in
      match NewForConfig cfg with
      | inr e => inr ("failed to build kubernetes client: " +:+ e)
      | inl c => inl (c, rc_CAData cfg, rc_Host cfg)
      end
  end.

(** Of the control-plane commands. *)
Definition buildRestConfig (kubeconfig : string) : restConfig + string :=
  let loadingRules := if bool_decide (kubeconfig ≠ "") then kubeconfig else "" in
  load {| ExplicitPath := loadingRules; CurrentContext := "" |}.

Definition controlplane_buildClient (kubeconfig : string) : client + string :=
  match buildRestConfig kubeconfig with inr e => inr e | inl cfg => NewForConfig cfg end.

(** The groups of types in a scheme; [AddToScheme] of a group may fail.  [New] is
    controller-runtime's [client.New]. *)
Context (AddToScheme : group → list group → list group + string) (New : restConfig → list group → client + string).

Definition register_then (own : group) (own_name : string) (cfg : restConfig) : client + string :=
  match AddToScheme ClientGo [] with
  | inr e => inr ("failed to register core scheme: " +:+ e)
  | inl scheme =>
      match AddToScheme own scheme with
      | inr e => inr ("failed to register " +:+ own_name +:+ " scheme: " +:+ e)
      | inl scheme => New cfg scheme
      end
  end.

Definition controlplane_buildControllerClient (kubeconfig : string) : client + string :=
  match buildRestConfig kubeconfig with
  | inr e => inr e
  | inl cfg => register_then ControlPlaneV1alpha1 "controlplane" cfg
  end.

Definition token_buildControllerClient (kubeconfig : string) : client + string :=
  match load (BuildClientConfig kubeconfig "") with
  | inr e => inr ("failed to build rest config: " +:+ e)
  | inl cfg => register_then ClusterAgentV1alpha1 "clusteragent" cfg
  end.

(** The two ways to load a configuration agree: the commands for control planes and
    those for tokens read the same file, whatever it is. *)
Lemma buildRestConfig_same kubeconfig : buildRestConfig kubeconfig = load (BuildClientConfig kubeconfig "").
Proof using. reflexivity. Qed.

(** A host that is given replaces that of the kubeconfig and nothing else. *)
Lemma BuildClientFromBytes_host raw overrideHost c ca host :
  BuildClientFromBytes raw overrideHost = inl (c, ca, host) →
  ∃ cfg, RESTConfigFromKubeConfig raw = inl cfg ∧ ca = rc_CAData cfg ∧
    host = (if bool_decide (overrideHost = "") then rc_Host cfg else overrideHost) ∧
    NewForConfig {| rc_Host := host; rc_CAData := ca; rc_rest := rc_rest cfg |} = inl c.
Proof using.
  unfold BuildClientFromBytes. destruct (RESTConfigFromKubeConfig raw) as [cfg|]; [|done]. intros E. exists cfg.
  destruct (decide (overrideHost = "")) as [->|Hne].
  - rewrite bool_decide_eq_false_2 in E by auto. destruct (NewForConfig cfg) eqn:En; [|done]. simplify_eq.
    rewrite bool_decide_eq_true_2 by done. by destruct cfg.
  - rewrite bool_decide_eq_true_2 in E by done. destruct (NewForConfig _) eqn:En; [|done]. simplify_eq/=.
    by rewrite bool_decide_eq_false_2.
Qed.

(** When a registration adds its group and keeps the others, a controller client knows
    the core types and the group of the resources its commands handle. *)
Lemma controller_clients_know own own_name cfg c :
  (∀ g s s', AddToScheme g s = inl s' → g ∈ s' ∧ s ⊆ s') →
  register_then own own_name cfg = inl c →
  ∃ scheme, ClientGo ∈ scheme ∧ own ∈ scheme ∧ New cfg scheme = inl c.
Proof using.
  intros Hadd. unfold register_then. destruct (AddToScheme ClientGo []) as [s1|] eqn:E1; [|done].
  destruct (AddToScheme own s1) as [s2|] eqn:E2; [|done]. intros E. exists s2.
  destruct (Hadd _ _ _ E1) as [H1 _]. destruct (Hadd _ _ _ E2) as [H2 H3]. split_and!; [by apply H3|done|done].
Qed.
End clients.

(** ** Group versions and the kinds registered under them *)

Record GroupVersion := { gv_Group : string; gv_Version : string }.

Definition controlplane_GroupVersion : GroupVersion :=
  {| gv_Group := "controlplane.tardigrade.runtime.io"; gv_Version := "v1alpha1" |}.

Definition clusteragent_GroupVersion : GroupVersion :=
  {| gv_Group := "clusteragent.tardigrade.runtime.io"; gv_Version := "v1alpha1" |}.

(** [SchemeBuilder.Register] of the files of types. *)
Definition controlplane_kinds : list string := ["Runtime"; "RuntimeList"].
Definition clusteragent_kinds : list string := ["HelmChart"; "HelmChartList"; "WorkerJoinToken"; "WorkerJoinTokenList"].

(** [GroupVersion.String]. *)
Definition GroupVersion_String (gv : GroupVersion) : string := gv_Group gv +:+ "/" +:+ gv_Version gv.

(** ** Log levels *)

Section logging.
Context {Level : Type} (ParseLevel : string → Level + string) (InfoLevel : Level) (Quote : string → string).

(** The error, if any, and the level after the call. *)
Definition SetLogLevel (logLevel : string) (current : Level) : option string * Level :=
  let logLevel := if bool_decide (logLevel = "") then "info" else logLevel in
  match ParseLevel logLevel with
  | inr e => (Some ("invalid log level " +:+ Quote logLevel +:+ ": " +:+ e), current)
  | inl lvl => (None, lvl)
  end.

(** [init] of the command line: a level that is not one is only warned about. *)
Definition distro_init (getenv : string → string) : Level :=
  let levelStr := if bool_decide (getenv "LOG_LEVEL" = "") then "info" else getenv "LOG_LEVEL" in
  match ParseLevel levelStr with inr _ => InfoLevel | inl level => level end.

(** [PersistentPreRunE] of the tunnel: the flag, then the variable, then info. *)
Definition tunnel_PreRun (logLevel : string) (getenv : string → string) (current : Level) : option string * Level :=
  SetLogLevel (if bool_decide (logLevel = "") then getenv "TUNNEL_LOG_LEVEL" else logLevel) current.

(** Without a level both programs log at info; the command line also does with a level
    that is not one, where the tunnel does not start. *)
Lemma log_levels_default getenv current :
  ParseLevel "info" = inl InfoLevel →
  (getenv "LOG_LEVEL" = "" → distro_init getenv = InfoLevel) ∧
  (getenv "TUNNEL_LOG_LEVEL" = "" → tunnel_PreRun "" getenv current = (None, InfoLevel)) ∧
  (∀ bad e, bad ≠ "" → ParseLevel bad = inr e →
     (getenv "LOG_LEVEL" = bad → distro_init getenv = InfoLevel) ∧
     is_Some (tunnel_PreRun bad getenv current).1).
Proof using.
  intros Hi. unfold distro_init, tunnel_PreRun, SetLogLevel. split_and!.
  - intros ->. by rewrite bool_decide_eq_true_2, Hi.
  - intros E. rewrite (bool_decide_eq_true_2 (EmptyString = "")) by done. by rewrite E, bool_decide_eq_true_2, Hi.
  - intros bad e Hne Hb. split.
    + intros ->. by rewrite bool_decide_eq_false_2, Hb.
    + rewrite (bool_decide_eq_false_2 (bad = "")) by done. rewrite (bool_decide_eq_false_2 (bad = "")) by done.
      rewrite Hb. by eexists.
Qed.
End logging.

(** ** Templates *)

Record TemplateWriter (data : Type) := { tw_Name : string; tw_Template : string; tw_Data : data }.
Arguments tw_Name {_} _.
Arguments tw_Template {_} _.
Arguments tw_Data {_} _.

Section templates.
(** Parsing gives a template to execute; executing one gives what it wrote, in full or
    up to an error. *)
Context {data template : Type} (Parse : string → string → template + string) (Execute : template → data → string * option string).

(** What was written to the buffer, and the error. *)
Definition WriteToBuffer (p : TemplateWriter data) : string * option string :=
  match Parse (tw_Name p) (tw_Template p) with
  | inr e => ("", Some ("failed to parse template for " +:+ tw_Name p +:+ ": " +:+ e))
  | inl t =>
      match Execute t (tw_Data p) with
      | (out, Some e) => (out, Some ("failed to execute template for " +:+ tw_Name p +:+ ": " +:+ e))
      | (out, None) => (out, None)
      end
  end.

Lemma WriteToBuffer_ok_iff p out :
  WriteToBuffer p = (out, None) ↔ ∃ t, Parse (tw_Name p) (tw_Template p) = inl t ∧ Execute t (tw_Data p) = (out, None).
Proof using.
  unfold WriteToBuffer. destruct (Parse _ _) as [t|]; [|split; [done|by intros (t & ? & _)]].
  destruct (Execute t _) as [o [e|]] eqn:E; split; [done| |intros [= ->]; by exists t|];
    intros (t' & [= <-] & E'); rewrite E in E'; by simplify_eq.
Qed.
End templates.

(** ** Versions of dependencies *)

Record DependencyVersions := { CorednsChart : string; FlannelChart : string }.

(** Evaluated when the program starts, on a file embedded at build time: [None] is a
    panic. *)
Definition mustParseDependencyVersions (Unmarshal : string → DependencyVersions + string) (data : string) :
    option DependencyVersions :=
  match Unmarshal data with inl v => Some v | inr _ => None end.
