(* ===== verification/DeepCopy.v ===== *)
(** * Deep copies: Go values in memory and the copy combinators

    The generated functions of src/api/*/v1alpha1/zz_generated.deepcopy.go are
    built from a handful of statement shapes: [*out = *in], [out.F = in.F],
    [in.F.DeepCopyInto(&out.F)], and a nil guard around [new], [make] of a slice
    and [make] of a map.  Here the shapes are functions on a memory ([copier]);
    DeepCopies.v puts them together the way the generated code does.

    - [val] is what a variable or a field holds: a scalar (any value without
      references in it), nil, the address of a pointee, a backing array or a map,
      or a struct, which holds its fields in place.  [heap] holds the cells;
    - [ty] is a type as declared; [reify t h v] follows every reference of [v] as
      its type says, and gives the value as a tree, without addresses, together
      with the set of cells it went through;
    - [Copies t c] is the contract of a copier: it changes no existing cell, the
      result reads as the same tree, and every cell of the result is new;
    - types of the Kubernetes libraries which hold references are the class
      [Library]: how they are read and copied, with the contract of their
      generated DeepCopyInto.  What nothing ever writes, such as the location of a
      time, is read as part of a scalar.

    A slice is the array of its elements: two slices that share a part of one
    array are not told apart from two that share the whole of it. *)

From stdpp Require Import base gmap sets list strings fin_maps.
From S2P Require Import Prelude.

Local Abbreviation loc := positive.

Inductive val := VScalar (s : string) | VNil | VLoc (l : loc) | VStruct (fields : gmap string val).

Inductive cell := CPtr (v : val) | CSlice (vs : list val) | CMap (m : gmap string val).

Abbreviation heap := (gmap positive cell).

Inductive ty :=
| TScalar
| TExt (name : string)
| TPtr (t : ty)
| TSlice (t : ty)
| TMap
| TStruct (fields : list (string * ty)).

(** A value without addresses. *)
Inductive tree :=
| XScalar (s : string)
| XNil
| XPtr (x : tree)
| XSlice (xs : list tree)
| XMap (m : gmap string string)
| XStruct (fields : list (string * tree)).

(** A copier reads a value in a memory and gives its copy and the memory after it. *)
Definition copier := val → heap → val * heap.

(** The induction over types that goes through the fields of a struct. *)
Lemma ty_ind' (P : ty → Prop) :
  P TScalar → (∀ n, P (TExt n)) → (∀ t, P t → P (TPtr t)) → (∀ t, P t → P (TSlice t)) → P TMap →
  (∀ fs, Forall (λ nt : string * ty, P nt.2) fs → P (TStruct fs)) → ∀ t, P t.
Proof.
  intros H1 H2 H3 H4 H5 H6. fix IH 1. intros [|n|t|t| |fs]; [exact H1|apply H2|apply H3, IH|apply H4, IH|exact H5|].
  apply H6. induction fs as [|[n t] fs IHfs]; constructor; [apply IH|exact IHfs].
Qed.

(** ** Allocation *)

Definition new_loc (h : heap) : loc :=
  Pos.succ (map_fold (λ l _ a, Pos.max l a) 1%positive h).

Lemma new_loc_fresh (h : heap) : h !! new_loc h = None.
Proof.
  assert (∀ l c, h !! l = Some c → (l ≤ map_fold (λ l _ a, Pos.max l a) 1 h)%positive) as B.
  { apply (map_fold_weak_ind (λ r m, ∀ l c, m !! l = Some c → (l ≤ r)%positive)).
    - intros l c. by rewrite lookup_empty.
    - intros l c m r _ IH l' c' [[<- _]|[_ E]]%lookup_insert_Some; [lia|]. apply IH in E. lia. }
  destruct (h !! new_loc h) as [c|] eqn:E; [|done]. apply B in E. unfold new_loc in E. lia.
Qed.

Lemma alloc_incl (h : heap) c : h ⊆ <[new_loc h := c]> h.
Proof. apply insert_subseteq, new_loc_fresh. Qed.

(** ** Statements *)

(** [out.F = in.F], and the fields [*out = *in] alone covers. *)
Definition assign : copier := λ v h, (v, h).

(** The elements of a slice copied in order, in one memory. *)
Fixpoint thread (c : copier) (vs : list val) (h : heap) : list val * heap :=
  match vs with
  | [] => ([], h)
  | v :: vs => let '(v', h) := c v h in let '(vs', h) := thread c vs h in (v' :: vs', h)
  end.

(** [*out = make([]T, len( *in))], and each element copied into its place. *)
Definition copy_slice (c : copier) : copier := λ v h,
  match v with
  | VLoc l =>
      match h !! l with
      | Some (CSlice vs) =>
          let out := new_loc h in
          let '(vs', h) := thread c vs (<[out := CSlice (replicate (length vs) VNil)]> h) in
          (VLoc out, <[out := CSlice vs']> h)
      | _ => (v, h)
      end
  | _ => (v, h)
  end.

(** [*out = make(map[string]string, len( *in))], and [( *out)[key] = val] for each entry. *)
Definition copy_map : copier := λ v h,
  match v with
  | VLoc l =>
      match h !! l with
      | Some (CMap m) =>
          (VLoc (new_loc h), <[new_loc h := CMap (foldr (λ kv out, <[kv.1 := kv.2]> out) ∅ (map_to_list m))]> h)
      | _ => (v, h)
      end
  | _ => (v, h)
  end.

(** [*out = new(T); ( *in).DeepCopyInto( *out)], under [in != nil]. *)
Definition copy_ptr (into : copier) : copier := λ v h,
  match v with
  | VLoc l =>
      match h !! l with
      | Some (CPtr v) =>
          let out := new_loc h in
          let '(v', h) := into v (<[out := CPtr VNil]> h) in
          (VLoc out, <[out := CPtr v']> h)
      | _ => (v, h)
      end
  | _ => (v, h)
  end.

(** [*out = *in], then one statement per field of the plan. *)
Definition copy_struct (plan : list (string * copier)) : copier := λ v h,
  match v with
  | VStruct fields =>
      let '(out, h) :=
        foldl (λ '(out, h) '(n, c),
                 match fields !! n with
                 | Some v => let '(v', h) := (c : copier) v h in (<[n := v']> out, h)
                 | None => (out, h)
                 end) (fields, h) plan in
      (VStruct out, h)
  | _ => (v, h)
  end.

(** An interface variable holding a pointer, or nil. *)
Inductive iface := NilInterface | Interface (type : string) (p : val).

(** [if c := in.DeepCopy(); c != nil { return c }; return nil]. *)
Definition copy_object (type : string) (deepcopy : copier) (v : val) (h : heap) : iface * heap :=
  let '(c, h) := deepcopy v h in
  (match c with VNil => NilInterface | _ => Interface type c end, h).

(** ** Reading a value *)

(** Types of the libraries with references in them: reading one follows those
    references; [ext_copy] is its DeepCopyInto. *)
Class LibraryOps := {
  ext_read : string → heap → val → option (tree * gset loc);
  ext_copy : string → copier
}.

Definition scalar_of (v : val) : option string :=
  match v with VScalar s => Some s | _ => None end.

Fixpoint reify `{LibraryOps} (t : ty) (h : heap) (v : val) : option (tree * gset loc) :=
  match t, v with
  | TScalar, VScalar s => Some (XScalar s, ∅)
  | TExt n, _ => ext_read n h v
  | (TPtr _ | TSlice _ | TMap), VNil => Some (XNil, ∅)
  | TPtr t, VLoc l =>
      match h !! l with
      | Some (CPtr v) => '(x, f) ← reify t h v; Some (XPtr x, {[l]} ∪ f)
      | _ => None
      end
  | TSlice t, VLoc l =>
      match h !! l with
      | Some (CSlice vs) => xfs ← mapM (reify t h) vs; Some (XSlice xfs.*1, {[l]} ∪ ⋃ xfs.*2)
      | _ => None
      end
  | TMap, VLoc l =>
      match h !! l with
      | Some (CMap m) =>
          if decide (map_Forall (λ _ v, is_Some (scalar_of v)) m)
          then Some (XMap (omap scalar_of m), {[l]}) else None
      | _ => None
      end
  | TStruct fs, VStruct m =>
      xfs ← mapM (λ '(n, t), v ← m !! n; '(x, f) ← reify t h v; Some ((n, x), f)) fs;
      Some (XStruct xfs.*1, ⋃ xfs.*2)
  | _, _ => None
  end.

Definition Copies `{LibraryOps} (t : ty) (c : copier) : Prop :=
  ∀ h v x f, reify t h v = Some (x, f) →
    h ⊆ (c v h).2 ∧ ∃ f', reify t (c v h).2 (c v h).1 = Some (x, f') ∧ f' ## dom h.

(** What the generated code relies on of the libraries' types. *)
Class Library `{LibraryOps} : Prop := {
  ext_frame n h h' v x f : ext_read n h v = Some (x, f) → (∀ l, l ∈ f → h' !! l = h !! l) →
    ext_read n h' v = Some (x, f);
  ext_dom n h v x f : ext_read n h v = Some (x, f) → f ⊆ dom h;
  ext_copies n : Copies (TExt n) (ext_copy n)
}.

(** A type without references. *)
Fixpoint flat (t : ty) : bool :=
  match t with
  | TScalar => true
  | TStruct fs => forallb (λ '(_, t), flat t) fs
  | _ => false
  end.

(** ** What a successful reading says *)
Section reading.
Context `{LibraryOps}.

Lemma reify_ptr t h v x f :
  reify (TPtr t) h v = Some (x, f) ↔
  (v = VNil ∧ x = XNil ∧ f = ∅) ∨
  ∃ l u y g, v = VLoc l ∧ h !! l = Some (CPtr u) ∧ reify t h u = Some (y, g) ∧ x = XPtr y ∧ f = {[l]} ∪ g.
Proof using All.
  split.
  - destruct v as [| |l|]; intros ?; simplify_eq/=; [by left|right].
    destruct (h !! l) as [[u| |]|] eqn:E; simplify_eq/=.
    destruct (reify t h u) as [[y g]|] eqn:E'; simplify_eq/=. naive_solver.
  - intros [(-> & -> & ->)|(l & u & y & g & -> & E & E' & -> & ->)]; [done|]. simpl. by rewrite E, E'.
Qed.

Lemma reify_slice t h v x f :
  reify (TSlice t) h v = Some (x, f) ↔
  (v = VNil ∧ x = XNil ∧ f = ∅) ∨
  ∃ l vs xfs, v = VLoc l ∧ h !! l = Some (CSlice vs) ∧ Forall2 (λ v xf, reify t h v = Some xf) vs xfs
    ∧ x = XSlice xfs.*1 ∧ f = {[l]} ∪ ⋃ xfs.*2.
Proof using All.
  split.
  - destruct v as [| |l|]; cbn -[mapM]; intros ?; simplify_eq/=; [by left|right].
    destruct (h !! l) as [[|vs|]|] eqn:E; simplify_eq.
    destruct (mapM (reify t h) vs) as [xfs|] eqn:E'; simplify_eq/=.
    apply mapM_Some in E'. naive_solver.
  - intros [(-> & -> & ->)|(l & vs & xfs & -> & E & E'%mapM_Some & -> & ->)]; [done|].
    cbn -[mapM]. by rewrite E, E'.
Qed.

Lemma reify_map h v x f :
  reify TMap h v = Some (x, f) ↔
  (v = VNil ∧ x = XNil ∧ f = ∅) ∨
  ∃ l m, v = VLoc l ∧ h !! l = Some (CMap m) ∧ map_Forall (λ _ v, is_Some (scalar_of v)) m
    ∧ x = XMap (omap scalar_of m) ∧ f = {[l]}.
Proof using All.
  split.
  - destruct v as [| |l|]; intros ?; simplify_eq/=; [by left|right].
    destruct (h !! l) as [[| |m]|] eqn:E; simplify_eq/=. case_decide; naive_solver.
  - intros [(-> & -> & ->)|(l & m & -> & E & E' & -> & ->)]; [done|]. simpl. by rewrite E, decide_True.
Qed.

(** One field of a struct. *)
Definition reads_field (h : heap) (m : gmap string val) (nt : string * ty) (nxf : (string * tree) * gset loc) : Prop :=
  nxf.1.1 = nt.1 ∧ ∃ v, m !! nt.1 = Some v ∧ reify nt.2 h v = Some (nxf.1.2, nxf.2).

Lemma reify_struct fs h v x f :
  reify (TStruct fs) h v = Some (x, f) ↔
  ∃ m xfs, v = VStruct m ∧ Forall2 (reads_field h m) fs xfs ∧ x = XStruct xfs.*1 ∧ f = ⋃ xfs.*2.
Proof using All.
  assert (∀ m nt nxf, (let '(n, t) := nt in v ← m !! n; '(x, f) ← reify t h v; Some ((n, x), f)) = Some nxf
            ↔ reads_field h m nt nxf) as Hf.
  { intros m [n t] [[n' y] g]. unfold reads_field; simpl. split.
    - destruct (m !! n) as [u|]; intros ?; simplify_eq/=.
      destruct (reify t h u) as [[y' g']|] eqn:E; naive_solver.
    - intros (-> & u & E & E'). by rewrite E; simpl; rewrite E'. }
  split.
  - destruct v as [| | |m]; cbn -[mapM]; intros ?; simplify_eq.
    match goal with H : mbind _ ?o = _ |- _ => destruct o as [xfs|] eqn:E end; simplify_eq/=.
    apply mapM_Some in E. exists m, xfs. split_and!; try done.
    eapply Forall2_impl; [exact E|]. intros nt nxf. apply Hf.
  - intros (m & xfs & -> & E & -> & ->). cbn -[mapM].
    match goal with |- mbind _ ?o = _ => assert (o = Some xfs) as ->; [|done] end.
    apply mapM_Some. eapply Forall2_impl; [exact E|]. intros nt nxf. apply Hf.
Qed.
End reading.
#[global] Arguments reify : simpl never.

(** ** The frame and the footprint *)
Section facts.
Context `{Library}.

Lemma reify_frame t : ∀ h h' v x f,
  reify t h v = Some (x, f) → (∀ l, l ∈ f → h' !! l = h !! l) → reify t h' v = Some (x, f).
Proof using All.
  induction t as [|n|t IH|t IH| |fs IH] using ty_ind'; intros h h' v x f R Hl.
  - by destruct v.
  - by eapply ext_frame.
  - rewrite reify_ptr in *. destruct R as [?|(l & u & y & g & -> & E & E' & -> & ->)]; [by left|right].
    exists l, u, y, g. rewrite (Hl l) by set_solver. split_and!; try done.
    eapply IH; [done|]. set_solver.
  - rewrite reify_slice in *. destruct R as [?|(l & vs & xfs & -> & E & E' & -> & ->)]; [by left|right].
    exists l, vs, xfs. rewrite (Hl l) by set_solver. split_and!; try done.
    assert (∀ l, l ∈ ⋃ xfs.*2 → h' !! l = h !! l) as Hl' by set_solver.
    clear -E' IH Hl'. induction E' as [|u [x f] vs xfs Hu _ IHE]; constructor; [|apply IHE; set_solver].
    eapply IH; [done|]. set_solver.
  - rewrite reify_map in *. destruct R as [?|(l & m & -> & E & E' & -> & ->)]; [by left|right].
    exists l, m. by rewrite (Hl l) by set_solver.
  - rewrite reify_struct in *. destruct R as (m & xfs & -> & E & -> & ->).
    exists m, xfs. split_and!; try done.
    induction E as [|[n t] [[n' x] f] fs xfs (En & u & Hu & Eu) _ IHE]; constructor; simpl in *.
    + split; [done|]. exists u. split; [done|]. apply Forall_cons_1 in IH as [IHt _].
      eapply IHt; [done|]. simpl. set_solver.
    + apply IHE; [by apply Forall_cons_1 in IH as [_ ?]|]. set_solver.
Qed.

Lemma reify_dom t : ∀ h v x f, reify t h v = Some (x, f) → f ⊆ dom h.
Proof using All.
  induction t as [|n|t IH|t IH| |fs IH] using ty_ind'; intros h v x f R.
  - unfold reify in R. destruct v; simplify_eq/=. set_solver.
  - by eapply ext_dom.
  - apply reify_ptr in R as [(-> & -> & ->)|(l & u & y & g & -> & E & E' & -> & ->)]; [set_solver|].
    apply IH in E'. apply elem_of_dom_2 in E. set_solver.
  - apply reify_slice in R as [(-> & -> & ->)|(l & vs & xfs & -> & E & E' & -> & ->)]; [set_solver|].
    apply elem_of_dom_2 in E. apply union_subseteq. split; [set_solver|].
    clear -E' IH. induction E' as [|u [x f] vs xfs Hu _ IHE]; simpl; [set_solver|]. apply IH in Hu. set_solver.
  - apply reify_map in R as [(-> & -> & ->)|(l & m & -> & E & E' & -> & ->)]; [set_solver|].
    apply elem_of_dom_2 in E. set_solver.
  - apply reify_struct in R as (m & xfs & -> & E & -> & ->).
    induction E as [|[n t] [[n' x] f] fs xfs (En & u & Hu & Eu) _ IHE]; simpl in *; [set_solver|].
    apply Forall_cons_1 in IH as [IHt IH]. apply IHt in Eu. specialize (IHE IH). set_solver.
Qed.

Lemma reify_mono t h h' v x f : reify t h v = Some (x, f) → h ⊆ h' → reify t h' v = Some (x, f).
Proof using All.
  intros R Hh. eapply reify_frame; [done|]. intros l Hl.
  apply (reify_dom _ _ _ _ _ R), elem_of_dom in Hl as [c Hc]. rewrite Hc. by eapply lookup_weaken.
Qed.

Lemma reify_flat t : flat t = true → ∀ h v x f, reify t h v = Some (x, f) → f = ∅.
Proof using All.
  induction t as [|n|t IH|t IH| |fs IH] using ty_ind'; intros Hf h v x f R; try done.
  - unfold reify in R. destruct v; by simplify_eq/=.
  - apply reify_struct in R as (m & xfs & -> & E & -> & ->). simpl in Hf.
    induction E as [|[n t] [[n' x] f] fs xfs (En & u & Hu & Eu) _ IHE]; simpl in *; [done|].
    apply andb_prop in Hf as [Ht Hf]. apply Forall_cons_1 in IH as [IHt IH].
    rewrite (IHt Ht _ _ _ _ Eu). specialize (IHE IH Hf). set_solver.
Qed.

(** ** The combinators meet the contract *)

Lemma copies_assign t : flat t = true → Copies t assign.
Proof using All.
  intros Hf h v x f R. simpl. split; [done|]. exists f. split; [done|].
  rewrite (reify_flat _ Hf _ _ _ _ R). set_solver.
Qed.

Lemma fill_incl (h h' : heap) c c' :
  <[new_loc h := c]> h ⊆ h' → h ⊆ <[new_loc h := c']> h'.
Proof using.
  intros Hi. apply insert_subseteq_r; [apply new_loc_fresh|]. etrans; [apply alloc_incl|done].
Qed.

Lemma new_loc_notin (h : heap) : new_loc h ∉ dom h.
Proof using. apply not_elem_of_dom, new_loc_fresh. Qed.

(** The cell allocated first and filled last is none of those of its contents. *)
Lemma copy_ptr_fresh t c h l u y g :
  Copies t c → h !! l = Some (CPtr u) → reify t h u = Some (y, g) →
  ∃ out u' g' h', (copy_ptr c (VLoc l) h = (VLoc out, h')) ∧ (h ⊆ h') ∧ h' !! out = Some (CPtr u')
    ∧ reify t h' u' = Some (y, g') ∧ (out ∉ g') ∧ (out ∉ dom h) ∧ g' ## dom h.
Proof using All.
  intros Hc E E'. simpl. rewrite E. set (out := new_loc h). set (h1 := <[out := CPtr VNil]> h).
  destruct (Hc h1 u y g) as (Hi & g' & R' & Hd); [eapply reify_mono; [done|apply alloc_incl]|].
  destruct (c u h1) as [u' h2]. simpl in *.
  assert (out ∉ g') by (intros ?; apply (Hd out); [done|]; unfold h1; set_solver).
  exists out, u', g', (<[out := CPtr u']> h2). pose proof (new_loc_notin h).
  split_and!; [done|by eapply fill_incl|by rewrite lookup_insert_eq| |done|done|unfold h1 in Hd; set_solver].
  eapply reify_frame; [done|]. intros l' Hl'. rewrite lookup_insert_ne; set_solver.
Qed.

Lemma copies_ptr t c : Copies t c → Copies (TPtr t) (copy_ptr c).
Proof using All.
  intros Hc h v x f R. apply reify_ptr in R as [(-> & -> & ->)|(l & u & y & g & -> & E & E' & -> & ->)].
  { simpl. split; [done|]. exists ∅. split; [done|set_solver]. }
  destruct (copy_ptr_fresh t c h l u y g) as (out & u' & g' & h' & -> & Hi & Ho & R & ? & ? & ?); [done..|].
  split; [done|]. exists ({[out]} ∪ g'). split; [|set_solver].
  apply reify_ptr. right. by exists out, u', y, g'.
Qed.

Lemma thread_copies t c : Copies t c → ∀ vs xfs h,
  Forall2 (λ v xf, reify t h v = Some xf) vs xfs →
  h ⊆ (thread c vs h).2 ∧ ∃ xfs', Forall2 (λ v xf, reify t (thread c vs h).2 v = Some xf) (thread c vs h).1 xfs'
    ∧ xfs'.*1 = xfs.*1 ∧ ⋃ xfs'.*2 ## dom h.
Proof using All.
  intros Hc vs xfs h F. revert xfs h F. induction vs as [|v vs IH]; intros xfs h F.
  { inversion F; subst. simpl. split; [done|]. exists []. split_and!; [constructor|done|set_solver]. }
  inversion F as [|? [x f] ? xfs0 Hv F' E1 E2]; subst. simpl.
  destruct (Hc h v x f Hv) as (Hi & f' & R' & Hd). destruct (c v h) as [v' h1]. simpl in *.
  destruct (IH xfs0 h1) as (Hi' & xfs' & F'' & Ex & Hd').
  { eapply Forall2_impl; [exact F'|]. intros u [y g] Hu. by eapply reify_mono. }
  destruct (thread c vs h1) as [vs' h2]. simpl in *.
  split; [by etrans|]. exists ((x, f') :: xfs'). split_and!.
  - constructor; [by eapply reify_mono|done].
  - rewrite !fmap_cons. by f_equal.
  - simpl. apply subseteq_dom in Hi. set_solver.
Qed.

Lemma copies_slice t c : Copies t c → Copies (TSlice t) (copy_slice c).
Proof using All.
  intros Hc h v x f R. apply reify_slice in R as [(-> & -> & ->)|(l & vs & xfs & -> & E & F & -> & ->)].
  { simpl. split; [done|]. exists ∅. split; [done|set_solver]. }
  simpl. rewrite E. set (out := new_loc h). set (h1 := <[out := CSlice (replicate (length vs) VNil)]> h).
  destruct (thread_copies t c Hc vs xfs h1) as (Hi & xfs' & F' & Ex & Hd).
  { eapply Forall2_impl; [exact F|]. intros u [y g] Hu. eapply reify_mono; [done|apply alloc_incl]. }
  destruct (thread c vs h1) as [vs' h2]. simpl in *.
  assert (out ∉ ⋃ xfs'.*2) as Ho by (intros ?; apply (Hd out); [done|]; unfold h1; set_solver).
  split; [by eapply fill_incl|]. exists ({[out]} ∪ ⋃ xfs'.*2). split.
  - apply reify_slice. right. exists out, vs', xfs'. rewrite lookup_insert_eq, <- Ex. split_and!; try done.
    generalize (CSlice vs') as filled. intros filled. clear -F' Ho H0. induction F' as [|u [y g] vs' xfs' Hu _ IH]; constructor; simpl in *.
    + eapply reify_frame; [done|]. intros l' Hl'. rewrite lookup_insert_ne; set_solver.
    + apply IH. set_solver.
  - pose proof (new_loc_notin h). unfold h1 in Hd. set_solver.
Qed.

(** The loop over the entries rebuilds the map, in whatever order it ranges over them. *)
Lemma range_rebuilds (m : gmap string val) order :
  order ≡ₚ map_to_list m → foldr (λ kv out, <[kv.1 := kv.2]> out) ∅ order = m.
Proof using.
  intros P. trans (list_to_map order : gmap string val); [done|].
  rewrite (list_to_map_proper order (map_to_list m)); [apply list_to_map_to_list| |done].
  rewrite P. apply NoDup_fst_map_to_list.
Qed.

Lemma copies_map : Copies TMap copy_map.
Proof using All.
  intros h v x f R. apply reify_map in R as [(-> & -> & ->)|(l & m & -> & E & F & -> & ->)].
  { simpl. split; [done|]. exists ∅. split; [done|set_solver]. }
  unfold copy_map. rewrite E, (range_rebuilds m) by done. simpl. split; [by apply alloc_incl|].
  exists {[new_loc h]}. split.
  - apply reify_map. right. exists (new_loc h), m. by rewrite lookup_insert_eq.
  - pose proof (new_loc_notin h). set_solver.
Qed.

(** A struct: each statement of the plan copies a field of the type, and the
    fields without a statement hold no reference.  [fields_done] is the state
    between two statements: the fields in [done] are copied, the others are those
    of [*in]. *)
Definition plan_ok (fs : list (string * ty)) (plan : list (string * copier)) : Prop :=
  Forall (λ nc : string * copier, ∃ t, (nc.1, t) ∈ fs ∧ Copies t nc.2) plan
  ∧ Forall (λ nt : string * ty, nt.1 ∈ plan.*1 ∨ flat nt.2 = true) fs.

Definition fields_done (h : heap) (m : gmap string val) (done : list string) (out : gmap string val) (h' : heap)
    (nt : string * ty) (nxf : (string * tree) * gset loc) : Prop :=
  nxf.1.1 = nt.1 ∧ ∃ v v', m !! nt.1 = Some v ∧ reify nt.2 h v = Some (nxf.1.2, nxf.2) ∧ out !! nt.1 = Some v'
  ∧ (if decide (nt.1 ∈ done) then ∃ f', reify nt.2 h' v' = Some (nxf.1.2, f') ∧ f' ## dom h else v' = v).

Lemma fields_done_step h m done out h' n t t' c nxf xf v :
  h ⊆ h' → m !! n = Some v → Copies t c → reify t h v = Some xf →
  (n = t'.1 → t = t'.2) →
  fields_done h m done out h' t' nxf →
  fields_done h m (done ++ [n]) (<[n := (c v h').1]> out) (c v h').2 t' nxf.
Proof using All.
  intros Hh Hv Hc R Ht (En & u & u' & Hu & Ru & Ho & D). destruct xf as [x f].
  destruct (Hc h' v x f) as (Hi & f' & R' & Hd); [by eapply reify_mono|].
  split; [done|]. destruct (decide (n = t'.1)) as [->|Hne].
  - specialize (Ht eq_refl) as ->. rewrite Hv in Hu. injection Hu as <-. rewrite R in Ru. injection Ru as -> ->.
    exists v, (c v h').1. rewrite lookup_insert_eq, decide_True by set_solver. split_and!; try done.
    exists f'. split; [done|]. apply subseteq_dom in Hh. set_solver.
  - exists u, u'. rewrite lookup_insert_ne by done. split_and!; try done.
    destruct (decide (t'.1 ∈ done)) as [Hin|Hin].
    + rewrite decide_True by set_solver. destruct D as (f'' & R'' & Hd'').
      exists f''. split; [by eapply reify_mono|done].
    + by rewrite decide_False by set_solver.
Qed.

Lemma plan_runs fs m h xfs plan :
  NoDup fs.*1 → Forall2 (reads_field h m) fs xfs →
  Forall (λ nc : string * copier, ∃ t, (nc.1, t) ∈ fs ∧ Copies t nc.2) plan →
  ∀ done out h', h ⊆ h' → Forall2 (fields_done h m done out h') fs xfs →
  let r := foldl (λ '(out, h) '(n, c),
                 match m !! n with
                 | Some v => let '(v', h) := (c : copier) v h in (<[n := v']> out, h)
                 | None => (out, h)
                 end) (out, h') plan in
  h ⊆ r.2 ∧ Forall2 (fields_done h m (done ++ plan.*1) r.1 r.2) fs xfs.
Proof using All.
  intros Hnd F P. induction P as [|[n c] plan (t & Ht & Hc) _ IH]; intros done out h' Hh D.
  { simpl. by rewrite app_nil_r. }
  destruct (proj1 (list_elem_of_lookup _ _) Ht) as [i Hi]. simpl in Hi.
  destruct (Forall2_lookup_l _ _ _ _ _ F Hi) as ([[n' x] f] & Hx & En & v & Hv & R). simpl in *.
  rewrite Hv. pose proof (fields_done_step h m done out h' n t) as Step.
  destruct (Hc h' v x f) as (Hi' & _); [by eapply reify_mono|].
  specialize (IH (done ++ [n]) (<[n := (c v h').1]> out) (c v h').2).
  rewrite <- app_assoc in IH. destruct (c v h') as [v' h2] eqn:Ec. apply IH; [by etrans|].
  apply Forall2_same_length_lookup. split; [by eapply Forall2_length|].
  intros j t' nxf Hj Hxf. pose proof (Step t' c nxf (x, f) v) as S. rewrite Ec in S. apply S; try done.
  - intros Heq. destruct t' as [n0 t0]. simpl in *. subst n0.
    assert (i = j) as <- by (eapply NoDup_lookup; [exact Hnd|rewrite list_lookup_fmap, Hi|rewrite list_lookup_fmap, Hj]; done).
    rewrite Hi in Hj. by injection Hj.
  - eapply Forall2_lookup_lr; eauto.
Qed.

Lemma copies_struct fs plan : NoDup fs.*1 → plan_ok fs plan → Copies (TStruct fs) (copy_struct plan).
Proof using All.
  intros Hnd [P1 P2] h v x f R. apply reify_struct in R as (m & xfs & -> & F & -> & ->). unfold copy_struct.
  pose proof (plan_runs fs m h xfs plan Hnd F P1 [] m h) as Run. simpl in Run.
  destruct (foldl _ _ plan) as [out h']. simpl in *.
  destruct Run as [Hi D]; [done| |].
  { eapply Forall2_impl; [exact F|]. intros nt nxf (? & v & ? & ?). split; [done|]. exists v, v.
    by rewrite decide_False by set_solver. }
  split; [done|].
  assert (∃ xfs', Forall2 (reads_field h' out) fs xfs' ∧ xfs'.*1 = xfs.*1 ∧ ⋃ xfs'.*2 ## dom h) as (xfs' & F' & Ex & Hd).
  { clear -D Hi H0 P2. induction D as [|[n t] [[n' x] f] fs xfs (En & v & v' & Hv & R & Ho & Hd) _ IH].
    { exists []. split_and!; [constructor|done|set_solver]. }
    apply Forall_cons_1 in P2 as [Hor P2]. destruct (IH P2) as (xfs' & F' & Ex & Hs). simpl in *. subst n'.
    assert (∃ f', reify t h' v' = Some (x, f') ∧ f' ## dom h) as (f' & R' & Hd').
    { case_decide; [done|]. destruct Hor as [?|Hf]; [done|]. subst v'. exists f.
      split; [by eapply reify_mono|]. rewrite (reify_flat _ Hf _ _ _ _ R). set_solver. }
    exists (((n, x), f') :: xfs'). split_and!; [|rewrite !fmap_cons; by f_equal|simpl; set_solver].
    constructor; [|done]. split; [done|]. by exists v'. }
  exists (⋃ xfs'.*2). split; [|done]. apply reify_struct. exists out, xfs'. by rewrite Ex.
Qed.

(** What a copy is good for: the copy and the original read the same, share no
    cell, and no write through one of them shows in the other. *)
Lemma copies_isolated t c : Copies t c → ∀ h v x f, reify t h v = Some (x, f) →
  ∃ f', reify t (c v h).2 (c v h).1 = Some (x, f') ∧ f ## f'
  ∧ (∀ h2, (∀ l, l ∉ f' → h2 !! l = (c v h).2 !! l) → reify t h2 v = Some (x, f))
  ∧ (∀ h2, (∀ l, l ∉ f → h2 !! l = (c v h).2 !! l) → reify t h2 (c v h).1 = Some (x, f')).
Proof using All.
  intros Hc h v x f R. destruct (Hc h v x f R) as (Hi & f' & R' & Hd). exists f'.
  pose proof (reify_dom _ _ _ _ _ R) as Hf. pose proof (reify_mono _ _ _ _ _ _ R Hi) as R2.
  split_and!; [done|set_solver| |]; intros h2 Hw; (eapply reify_frame; [eassumption|]); intros l Hl; apply Hw; set_solver.
Qed.
End facts.

(** ** A reference library

    Every library type as a pointer to a scalar. *)
Module ReferenceLibrary.

#[export] Instance ops : LibraryOps := {|
  ext_read _ h v :=
    match v with
    | VNil => Some (XNil, ∅)
    | VLoc l => match h !! l with Some (CPtr (VScalar s)) => Some (XPtr (XScalar s), {[l]}) | _ => None end
    | _ => None
    end;
  ext_copy _ := copy_ptr assign
|}.

#[export] Instance laws : Library.
Proof.
  split.
  - intros n h h' v x f R Hl. destruct v as [| |l|]; simplify_eq/=; [done|].
    destruct (h !! l) as [[[]| |]|] eqn:E; simplify_eq/=. by rewrite Hl, E by set_solver.
  - intros n h v x f R. destruct v as [| |l|]; simplify_eq/=; [set_solver|].
    destruct (h !! l) as [[[]| |]|] eqn:E; simplify_eq/=. apply elem_of_dom_2 in E. set_solver.
  - intros n h v x f R. unfold reify in *. destruct v as [| |l|]; simplify_eq/=.
    { split; [done|]. exists ∅. split; [done|set_solver]. }
    destruct (h !! l) as [[[]| |]|] eqn:E; simplify_eq/=. rewrite insert_insert_eq.
    split; [apply alloc_incl|]. exists {[new_loc h]}. rewrite lookup_insert_eq. split; [done|].
    pose proof (new_loc_notin h). set_solver.
Qed.
End ReferenceLibrary.
