(* ===== verification/DeepCopies.v ===== *)
(** * The generated deep copies

    One definition per struct of src/api/clusteragent/v1alpha1 and
    src/api/controlplane/v1alpha1 with a generated DeepCopyInto: its type as
    declared ([X_type]), [X_DeepCopyInto] statement by statement, [X_DeepCopy], and
    [X_DeepCopyObject] for the root objects.  [generated] lists them all;
    [generated_copies] is the contract of each, [DeepCopy_isolated] what the
    callers rely on: src/pkg/runtime/clusteragent.go clears the status of a copy of
    the Runtime it was handed by the cache. *)

From stdpp Require Import base gmap sets list strings fin_maps.
From S2P Require Import Prelude DeepCopy.
Local Open Scope string_scope.

Create HintDb copies.
#[export] Hint Resolve copies_assign copies_ptr copies_slice copies_map : copies.
#[export] Hint Resolve ext_copies : copies.
#[export] Hint Extern 1 (flat _ = true) => reflexivity : copies.

Ltac find_field := repeat first [apply list_elem_of_here | apply list_elem_of_further].

(** A struct whose plan names its fields, with the contract of each statement in [copies]. *)
Ltac solve_copies :=
  apply copies_struct;
  [ apply (bool_decide_unpack _); vm_compute; exact I
  | split; [ repeat (apply Forall_cons_2; [eexists; split; [cbn [fst snd]; find_field | cbn [fst snd]; eauto with copies] |]); apply Forall_nil_2
           | repeat (apply Forall_cons_2; [first [right; reflexivity | left; simpl; find_field] |]); apply Forall_nil_2 ] ].

(** ** src/api/clusteragent/v1alpha1 *)
Module Clusteragent.

Definition ChartSpec_type : ty := TStruct
  [("Name", TScalar);
   ("TargetNamespace", TScalar);
   ("CreateNamespace", TScalar);
   ("Version", TScalar);
   ("Repo", TScalar)].
Definition HelmOptions_type : ty := TStruct
  [("Version", TScalar);
   ("InsecureSkipTLSVerify", TScalar);
   ("Atomic", TScalar);
   ("BackOffLimit", TPtr TScalar);
   ("Timeout", TScalar)].
Definition RuntimeOptions_type : ty := TStruct
  [("Bootstrap", TScalar);
   ("Image", TScalar);
   ("SecurityContext", TPtr (TExt "PodSecurityContext"))].
Definition ValuesSpec_type : ty := TStruct
  [("Set", TMap);
   ("Content", TScalar)].
Definition HelmChartSpec_type : ty := TStruct
  [("Chart", ChartSpec_type);
   ("Helm", HelmOptions_type);
   ("Runtime", RuntimeOptions_type);
   ("Values", ValuesSpec_type)].
Definition HelmChartStatus_type : ty := TStruct
  [("Conditions", TSlice (TExt "Condition"))].
Definition HelmChart_type : ty := TStruct
  [("TypeMeta", TScalar);
   ("ObjectMeta", TExt "ObjectMeta");
   ("Spec", HelmChartSpec_type);
   ("Status", HelmChartStatus_type)].
Definition HelmChartList_type : ty := TStruct
  [("TypeMeta", TScalar);
   ("ListMeta", TExt "ListMeta");
   ("Items", TSlice HelmChart_type)].
Definition WorkerJoinTokenSpec_type : ty := TStruct
  [("TTL", TScalar)].
Definition WorkerJoinTokenStatus_type : ty := TStruct
  [("Conditions", TSlice (TExt "Condition"));
   ("TokenID", TScalar);
   ("ExpiresAt", TPtr (TExt "Time"));
   ("SecretRef", TPtr TScalar);
   ("SecretChecksum", TScalar)].
Definition WorkerJoinToken_type : ty := TStruct
  [("TypeMeta", TScalar);
   ("ObjectMeta", TExt "ObjectMeta");
   ("Spec", WorkerJoinTokenSpec_type);
   ("Status", WorkerJoinTokenStatus_type)].
Definition WorkerJoinTokenList_type : ty := TStruct
  [("TypeMeta", TScalar);
   ("ListMeta", TExt "ListMeta");
   ("Items", TSlice WorkerJoinToken_type)].

Section copiers.
Context `{LibraryOps}.

Definition ChartSpec_DeepCopyInto : copier := copy_struct
  [].
Definition ChartSpec_DeepCopy : copier := copy_ptr ChartSpec_DeepCopyInto.

Definition HelmOptions_DeepCopyInto : copier := copy_struct
  [("BackOffLimit", copy_ptr assign);
   ("Timeout", assign)].
Definition HelmOptions_DeepCopy : copier := copy_ptr HelmOptions_DeepCopyInto.

Definition RuntimeOptions_DeepCopyInto : copier := copy_struct
  [("SecurityContext", copy_ptr (ext_copy "PodSecurityContext"))].
Definition RuntimeOptions_DeepCopy : copier := copy_ptr RuntimeOptions_DeepCopyInto.

Definition ValuesSpec_DeepCopyInto : copier := copy_struct
  [("Set", copy_map)].
Definition ValuesSpec_DeepCopy : copier := copy_ptr ValuesSpec_DeepCopyInto.

Definition HelmChartSpec_DeepCopyInto : copier := copy_struct
  [("Chart", assign);
   ("Helm", HelmOptions_DeepCopyInto);
   ("Runtime", RuntimeOptions_DeepCopyInto);
   ("Values", ValuesSpec_DeepCopyInto)].
Definition HelmChartSpec_DeepCopy : copier := copy_ptr HelmChartSpec_DeepCopyInto.

Definition HelmChartStatus_DeepCopyInto : copier := copy_struct
  [("Conditions", copy_slice (ext_copy "Condition"))].
Definition HelmChartStatus_DeepCopy : copier := copy_ptr HelmChartStatus_DeepCopyInto.

Definition HelmChart_DeepCopyInto : copier := copy_struct
  [("TypeMeta", assign);
   ("ObjectMeta", (ext_copy "ObjectMeta"));
   ("Spec", HelmChartSpec_DeepCopyInto);
   ("Status", HelmChartStatus_DeepCopyInto)].
Definition HelmChart_DeepCopy : copier := copy_ptr HelmChart_DeepCopyInto.
Definition HelmChart_DeepCopyObject := copy_object "HelmChart" HelmChart_DeepCopy.

Definition HelmChartList_DeepCopyInto : copier := copy_struct
  [("TypeMeta", assign);
   ("ListMeta", (ext_copy "ListMeta"));
   ("Items", copy_slice HelmChart_DeepCopyInto)].
Definition HelmChartList_DeepCopy : copier := copy_ptr HelmChartList_DeepCopyInto.
Definition HelmChartList_DeepCopyObject := copy_object "HelmChartList" HelmChartList_DeepCopy.

Definition WorkerJoinTokenSpec_DeepCopyInto : copier := copy_struct
  [("TTL", assign)].
Definition WorkerJoinTokenSpec_DeepCopy : copier := copy_ptr WorkerJoinTokenSpec_DeepCopyInto.

Definition WorkerJoinTokenStatus_DeepCopyInto : copier := copy_struct
  [("Conditions", copy_slice (ext_copy "Condition"));
   ("ExpiresAt", copy_ptr (ext_copy "Time"));
   ("SecretRef", copy_ptr assign)].
Definition WorkerJoinTokenStatus_DeepCopy : copier := copy_ptr WorkerJoinTokenStatus_DeepCopyInto.

Definition WorkerJoinToken_DeepCopyInto : copier := copy_struct
  [("TypeMeta", assign);
   ("ObjectMeta", (ext_copy "ObjectMeta"));
   ("Spec", assign);
   ("Status", WorkerJoinTokenStatus_DeepCopyInto)].
Definition WorkerJoinToken_DeepCopy : copier := copy_ptr WorkerJoinToken_DeepCopyInto.
Definition WorkerJoinToken_DeepCopyObject := copy_object "WorkerJoinToken" WorkerJoinToken_DeepCopy.

Definition WorkerJoinTokenList_DeepCopyInto : copier := copy_struct
  [("TypeMeta", assign);
   ("ListMeta", (ext_copy "ListMeta"));
   ("Items", copy_slice WorkerJoinToken_DeepCopyInto)].
Definition WorkerJoinTokenList_DeepCopy : copier := copy_ptr WorkerJoinTokenList_DeepCopyInto.
Definition WorkerJoinTokenList_DeepCopyObject := copy_object "WorkerJoinTokenList" WorkerJoinTokenList_DeepCopy.

End copiers.

Section contracts.
Context `{Library}.

Lemma ChartSpec_copies : Copies ChartSpec_type ChartSpec_DeepCopyInto.
Proof using All. solve_copies. Qed.
#[local] Hint Resolve ChartSpec_copies : copies.

Lemma HelmOptions_copies : Copies HelmOptions_type HelmOptions_DeepCopyInto.
Proof using All. solve_copies. Qed.
#[local] Hint Resolve HelmOptions_copies : copies.

Lemma RuntimeOptions_copies : Copies RuntimeOptions_type RuntimeOptions_DeepCopyInto.
Proof using All. solve_copies. Qed.
#[local] Hint Resolve RuntimeOptions_copies : copies.

Lemma ValuesSpec_copies : Copies ValuesSpec_type ValuesSpec_DeepCopyInto.
Proof using All. solve_copies. Qed.
#[local] Hint Resolve ValuesSpec_copies : copies.

Lemma HelmChartSpec_copies : Copies HelmChartSpec_type HelmChartSpec_DeepCopyInto.
Proof using All. solve_copies. Qed.
#[local] Hint Resolve HelmChartSpec_copies : copies.

Lemma HelmChartStatus_copies : Copies HelmChartStatus_type HelmChartStatus_DeepCopyInto.
Proof using All. solve_copies. Qed.
#[local] Hint Resolve HelmChartStatus_copies : copies.

Lemma HelmChart_copies : Copies HelmChart_type HelmChart_DeepCopyInto.
Proof using All. solve_copies. Qed.
#[local] Hint Resolve HelmChart_copies : copies.

Lemma HelmChartList_copies : Copies HelmChartList_type HelmChartList_DeepCopyInto.
Proof using All. solve_copies. Qed.
#[local] Hint Resolve HelmChartList_copies : copies.

Lemma WorkerJoinTokenSpec_copies : Copies WorkerJoinTokenSpec_type WorkerJoinTokenSpec_DeepCopyInto.
Proof using All. solve_copies. Qed.
#[local] Hint Resolve WorkerJoinTokenSpec_copies : copies.

Lemma WorkerJoinTokenStatus_copies : Copies WorkerJoinTokenStatus_type WorkerJoinTokenStatus_DeepCopyInto.
Proof using All. solve_copies. Qed.
#[local] Hint Resolve WorkerJoinTokenStatus_copies : copies.

Lemma WorkerJoinToken_copies : Copies WorkerJoinToken_type WorkerJoinToken_DeepCopyInto.
Proof using All. solve_copies. Qed.
#[local] Hint Resolve WorkerJoinToken_copies : copies.

Lemma WorkerJoinTokenList_copies : Copies WorkerJoinTokenList_type WorkerJoinTokenList_DeepCopyInto.
Proof using All. solve_copies. Qed.
#[local] Hint Resolve WorkerJoinTokenList_copies : copies.

Definition generated : list (string * ty * copier * copier) :=
  [("ChartSpec", ChartSpec_type, ChartSpec_DeepCopyInto, ChartSpec_DeepCopy);
   ("HelmOptions", HelmOptions_type, HelmOptions_DeepCopyInto, HelmOptions_DeepCopy);
   ("RuntimeOptions", RuntimeOptions_type, RuntimeOptions_DeepCopyInto, RuntimeOptions_DeepCopy);
   ("ValuesSpec", ValuesSpec_type, ValuesSpec_DeepCopyInto, ValuesSpec_DeepCopy);
   ("HelmChartSpec", HelmChartSpec_type, HelmChartSpec_DeepCopyInto, HelmChartSpec_DeepCopy);
   ("HelmChartStatus", HelmChartStatus_type, HelmChartStatus_DeepCopyInto, HelmChartStatus_DeepCopy);
   ("HelmChart", HelmChart_type, HelmChart_DeepCopyInto, HelmChart_DeepCopy);
   ("HelmChartList", HelmChartList_type, HelmChartList_DeepCopyInto, HelmChartList_DeepCopy);
   ("WorkerJoinTokenSpec", WorkerJoinTokenSpec_type, WorkerJoinTokenSpec_DeepCopyInto, WorkerJoinTokenSpec_DeepCopy);
   ("WorkerJoinTokenStatus", WorkerJoinTokenStatus_type, WorkerJoinTokenStatus_DeepCopyInto, WorkerJoinTokenStatus_DeepCopy);
   ("WorkerJoinToken", WorkerJoinToken_type, WorkerJoinToken_DeepCopyInto, WorkerJoinToken_DeepCopy);
   ("WorkerJoinTokenList", WorkerJoinTokenList_type, WorkerJoinTokenList_DeepCopyInto, WorkerJoinTokenList_DeepCopy)].

Lemma clusteragent_copies : Forall (λ '(_, t, into, deepcopy), Copies t into ∧ Copies (TPtr t) deepcopy) generated.
Proof using All. repeat (apply Forall_cons_2; [split; [|apply copies_ptr]; eauto with copies|]). apply Forall_nil_2. Qed.
End contracts.

#[export] Hint Resolve ChartSpec_copies HelmOptions_copies RuntimeOptions_copies ValuesSpec_copies HelmChartSpec_copies HelmChartStatus_copies HelmChart_copies HelmChartList_copies WorkerJoinTokenSpec_copies WorkerJoinTokenStatus_copies WorkerJoinToken_copies WorkerJoinTokenList_copies : copies.

End Clusteragent.

(** ** src/api/controlplane/v1alpha1 *)
Module Controlplane.

Import Clusteragent.

Definition ComponentEndpoint_type : ty := TStruct
  [("Host", TScalar);
   ("Port", TScalar)].
Definition ControlPlaneExternalEndpointSpec_type : ty := TStruct
  [("APIServer", ComponentEndpoint_type);
   ("PlaneTunnel", ComponentEndpoint_type)].
Definition APIServerSpec_type : ty := TStruct
  [("Sans", TSlice TScalar);
   ("ExtraArgs", TMap)].
Definition ControllerManagerSpec_type : ty := TStruct
  [("ExtraArgs", TMap)].
Definition SchedulerSpec_type : ty := TStruct
  [("ExtraArgs", TMap)].
Definition RegistrySettings_type : ty := TStruct
  [("Registry", TScalar);
   ("Image", TScalar);
   ("PullPolicy", TScalar)].
Definition KubeProxyIPTablesConfiguration_type : ty := TStruct
  [("MasqueradeBit", TPtr TScalar);
   ("MasqueradeAll", TScalar);
   ("LocalhostNodePorts", TPtr TScalar);
   ("SyncPeriod", TScalar);
   ("MinSyncPeriod", TScalar)].
Definition KubeProxyIPVSConfiguration_type : ty := TStruct
  [("SyncPeriod", TScalar);
   ("MinSyncPeriod", TScalar);
   ("Scheduler", TScalar);
   ("ExcludeCIDRs", TSlice TScalar);
   ("StrictARP", TScalar);
   ("TCPTimeout", TScalar);
   ("TCPFinTimeout", TScalar);
   ("UDPTimeout", TScalar)].
Definition KubeProxyNFTablesConfiguration_type : ty := TStruct
  [("SyncPeriod", TScalar);
   ("MasqueradeBit", TPtr TScalar);
   ("MasqueradeAll", TScalar);
   ("MinSyncPeriod", TScalar)].
Definition KubeProxySpec_type : ty := TStruct
  [("Disabled", TScalar);
   ("RegistrySettings", RegistrySettings_type);
   ("Mode", TScalar);
   ("MetricsBindAddress", TScalar);
   ("IPTables", KubeProxyIPTablesConfiguration_type);
   ("IPVS", KubeProxyIPVSConfiguration_type);
   ("NFTables", KubeProxyNFTablesConfiguration_type);
   ("NodePortAddresses", TSlice TScalar);
   ("ExtraArgs", TMap)].
Definition NetworkSpec_type : ty := TStruct
  [("PodCIDR", TScalar);
   ("ServiceCIDR", TScalar);
   ("DNSDomain", TScalar);
   ("KubeProxy", KubeProxySpec_type)].
Definition KineSpec_type : ty := TStruct
  [("DataSourceRef", TPtr (TExt "SecretKeySelector"))].
Definition StorageSpec_type : ty := TStruct
  [("Type", TScalar);
   ("Kine", TPtr KineSpec_type)].
Definition KubeletSpec_type : ty := TStruct
  [("ExtraArgs", TMap);
   ("ConfigPatches", TScalar)].
Definition ExtraResourcesSpec_type : ty := TStruct
  [("Objects", TSlice (TExt "RawExtension"))].
Definition AddonsRuntimeSpec_type : ty := TStruct
  [("Image", TScalar)].
Definition AddonOverrideSpec_type : ty := TStruct
  [("Values", ValuesSpec_type)].
Definition AddonChartSpec_type : ty := TStruct
  [("Name", TScalar);
   ("Enabled", TPtr TScalar);
   ("Install", TPtr HelmChartSpec_type);
   ("Override", TPtr AddonOverrideSpec_type)].
Definition HelmAddonsSpec_type : ty := TStruct
  [("Runtime", AddonsRuntimeSpec_type);
   ("Charts", TSlice AddonChartSpec_type)].
Definition AddonsSpec_type : ty := TStruct
  [("Helm", HelmAddonsSpec_type)].
Definition ClusterSpec_type : ty := TStruct
  [("ControlPlaneExternalEndpoint", ControlPlaneExternalEndpointSpec_type);
   ("APIServer", APIServerSpec_type);
   ("ControllerManager", ControllerManagerSpec_type);
   ("Scheduler", SchedulerSpec_type);
   ("Network", NetworkSpec_type);
   ("Storage", StorageSpec_type);
   ("Kubelet", KubeletSpec_type);
   ("ExtraResources", ExtraResourcesSpec_type);
   ("Addons", AddonsSpec_type)].
Definition AdditionalMetadata_type : ty := TStruct
  [("Labels", TMap);
   ("Annotations", TMap)].
Definition DeploymentSpec_type : ty := TStruct
  [("AdditionalMetadata", AdditionalMetadata_type);
   ("Replicas", TPtr TScalar);
   ("RuntimeClassName", TScalar);
   ("Tolerations", TSlice (TExt "Toleration"));
   ("Affinity", TPtr (TExt "Affinity"));
   ("ServiceAccountName", TScalar);
   ("Resources", TPtr (TExt "ResourceRequirements"))].
Definition PlaneTunnelSpecServerSpec_type : ty := TStruct
  [("Image", TScalar);
   ("Deployment", DeploymentSpec_type)].
Definition PlaneTunnelServiceSpec_type : ty := TStruct
  [("AdditionalMetadata", AdditionalMetadata_type);
   ("ServiceType", TScalar);
   ("NodePort", TPtr TScalar)].
Definition PlaneTunnelSpec_type : ty := TStruct
  [("Server", PlaneTunnelSpecServerSpec_type);
   ("Service", PlaneTunnelServiceSpec_type)].
Definition HeirSpec_type : ty := TStruct
  [("Image", TScalar)].
Definition ClusterAgentSpec_type : ty := TStruct
  [("Image", TScalar)].
Definition AdditionalPort_type : ty := TStruct
  [("Name", TScalar);
   ("Protocol", TScalar);
   ("AppProtocol", TPtr TScalar);
   ("Port", TScalar);
   ("TargetPort", TScalar)].
Definition ServiceSpec_type : ty := TStruct
  [("AdditionalMetadata", AdditionalMetadata_type);
   ("AdditionalPorts", TSlice AdditionalPort_type);
   ("ServiceType", TScalar);
   ("ApiServerNodePort", TPtr TScalar)].
Definition ControlPlaneSpec_type : ty := TStruct
  [("Heir", HeirSpec_type);
   ("ClusterAgent", ClusterAgentSpec_type);
   ("Deployment", DeploymentSpec_type);
   ("Service", ServiceSpec_type);
   ("PlaneTunnel", PlaneTunnelSpec_type)].
Definition RuntimeSpec_type : ty := TStruct
  [("ControlPlane", ControlPlaneSpec_type);
   ("Cluster", ClusterSpec_type)].
Definition CertificateStatus_type : ty := TStruct
  [("Name", TScalar);
   ("ExpiresAt", TExt "Time")].
Definition RuntimeStatus_type : ty := TStruct
  [("Conditions", TSlice (TExt "Condition"));
   ("ObservedGeneration", TScalar);
   ("Certificates", TSlice CertificateStatus_type)].
Definition Runtime_type : ty := TStruct
  [("TypeMeta", TScalar);
   ("ObjectMeta", TExt "ObjectMeta");
   ("Spec", RuntimeSpec_type);
   ("Status", RuntimeStatus_type)].
Definition RuntimeList_type : ty := TStruct
  [("TypeMeta", TScalar);
   ("ListMeta", TExt "ListMeta");
   ("Items", TSlice Runtime_type)].

Section copiers.
Context `{LibraryOps}.

Definition ComponentEndpoint_DeepCopyInto : copier := copy_struct
  [].
Definition ComponentEndpoint_DeepCopy : copier := copy_ptr ComponentEndpoint_DeepCopyInto.

Definition ControlPlaneExternalEndpointSpec_DeepCopyInto : copier := copy_struct
  [("APIServer", assign);
   ("PlaneTunnel", assign)].
Definition ControlPlaneExternalEndpointSpec_DeepCopy : copier := copy_ptr ControlPlaneExternalEndpointSpec_DeepCopyInto.

Definition APIServerSpec_DeepCopyInto : copier := copy_struct
  [("Sans", copy_slice assign);
   ("ExtraArgs", copy_map)].
Definition APIServerSpec_DeepCopy : copier := copy_ptr APIServerSpec_DeepCopyInto.

Definition ControllerManagerSpec_DeepCopyInto : copier := copy_struct
  [("ExtraArgs", copy_map)].
Definition ControllerManagerSpec_DeepCopy : copier := copy_ptr ControllerManagerSpec_DeepCopyInto.

Definition SchedulerSpec_DeepCopyInto : copier := copy_struct
  [("ExtraArgs", copy_map)].
Definition SchedulerSpec_DeepCopy : copier := copy_ptr SchedulerSpec_DeepCopyInto.

Definition RegistrySettings_DeepCopyInto : copier := copy_struct
  [].
Definition RegistrySettings_DeepCopy : copier := copy_ptr RegistrySettings_DeepCopyInto.

Definition KubeProxyIPTablesConfiguration_DeepCopyInto : copier := copy_struct
  [("MasqueradeBit", copy_ptr assign);
   ("LocalhostNodePorts", copy_ptr assign);
   ("SyncPeriod", assign);
   ("MinSyncPeriod", assign)].
Definition KubeProxyIPTablesConfiguration_DeepCopy : copier := copy_ptr KubeProxyIPTablesConfiguration_DeepCopyInto.

Definition KubeProxyIPVSConfiguration_DeepCopyInto : copier := copy_struct
  [("SyncPeriod", assign);
   ("MinSyncPeriod", assign);
   ("ExcludeCIDRs", copy_slice assign);
   ("TCPTimeout", assign);
   ("TCPFinTimeout", assign);
   ("UDPTimeout", assign)].
Definition KubeProxyIPVSConfiguration_DeepCopy : copier := copy_ptr KubeProxyIPVSConfiguration_DeepCopyInto.

Definition KubeProxyNFTablesConfiguration_DeepCopyInto : copier := copy_struct
  [("SyncPeriod", assign);
   ("MasqueradeBit", copy_ptr assign);
   ("MinSyncPeriod", assign)].
Definition KubeProxyNFTablesConfiguration_DeepCopy : copier := copy_ptr KubeProxyNFTablesConfiguration_DeepCopyInto.

Definition KubeProxySpec_DeepCopyInto : copier := copy_struct
  [("RegistrySettings", assign);
   ("IPTables", KubeProxyIPTablesConfiguration_DeepCopyInto);
   ("IPVS", KubeProxyIPVSConfiguration_DeepCopyInto);
   ("NFTables", KubeProxyNFTablesConfiguration_DeepCopyInto);
   ("NodePortAddresses", copy_slice assign);
   ("ExtraArgs", copy_map)].
Definition KubeProxySpec_DeepCopy : copier := copy_ptr KubeProxySpec_DeepCopyInto.

Definition NetworkSpec_DeepCopyInto : copier := copy_struct
  [("KubeProxy", KubeProxySpec_DeepCopyInto)].
Definition NetworkSpec_DeepCopy : copier := copy_ptr NetworkSpec_DeepCopyInto.

Definition KineSpec_DeepCopyInto : copier := copy_struct
  [("DataSourceRef", copy_ptr (ext_copy "SecretKeySelector"))].
Definition KineSpec_DeepCopy : copier := copy_ptr KineSpec_DeepCopyInto.

Definition StorageSpec_DeepCopyInto : copier := copy_struct
  [("Kine", copy_ptr KineSpec_DeepCopyInto)].
Definition StorageSpec_DeepCopy : copier := copy_ptr StorageSpec_DeepCopyInto.

Definition KubeletSpec_DeepCopyInto : copier := copy_struct
  [("ExtraArgs", copy_map)].
Definition KubeletSpec_DeepCopy : copier := copy_ptr KubeletSpec_DeepCopyInto.

Definition ExtraResourcesSpec_DeepCopyInto : copier := copy_struct
  [("Objects", copy_slice (ext_copy "RawExtension"))].
Definition ExtraResourcesSpec_DeepCopy : copier := copy_ptr ExtraResourcesSpec_DeepCopyInto.

Definition AddonsRuntimeSpec_DeepCopyInto : copier := copy_struct
  [].
Definition AddonsRuntimeSpec_DeepCopy : copier := copy_ptr AddonsRuntimeSpec_DeepCopyInto.

Definition AddonOverrideSpec_DeepCopyInto : copier := copy_struct
  [("Values", ValuesSpec_DeepCopyInto)].
Definition AddonOverrideSpec_DeepCopy : copier := copy_ptr AddonOverrideSpec_DeepCopyInto.

Definition AddonChartSpec_DeepCopyInto : copier := copy_struct
  [("Enabled", copy_ptr assign);
   ("Install", copy_ptr HelmChartSpec_DeepCopyInto);
   ("Override", copy_ptr AddonOverrideSpec_DeepCopyInto)].
Definition AddonChartSpec_DeepCopy : copier := copy_ptr AddonChartSpec_DeepCopyInto.

Definition HelmAddonsSpec_DeepCopyInto : copier := copy_struct
  [("Runtime", assign);
   ("Charts", copy_slice AddonChartSpec_DeepCopyInto)].
Definition HelmAddonsSpec_DeepCopy : copier := copy_ptr HelmAddonsSpec_DeepCopyInto.

Definition AddonsSpec_DeepCopyInto : copier := copy_struct
  [("Helm", HelmAddonsSpec_DeepCopyInto)].
Definition AddonsSpec_DeepCopy : copier := copy_ptr AddonsSpec_DeepCopyInto.

Definition ClusterSpec_DeepCopyInto : copier := copy_struct
  [("ControlPlaneExternalEndpoint", assign);
   ("APIServer", APIServerSpec_DeepCopyInto);
   ("ControllerManager", ControllerManagerSpec_DeepCopyInto);
   ("Scheduler", SchedulerSpec_DeepCopyInto);
   ("Network", NetworkSpec_DeepCopyInto);
   ("Storage", StorageSpec_DeepCopyInto);
   ("Kubelet", KubeletSpec_DeepCopyInto);
   ("ExtraResources", ExtraResourcesSpec_DeepCopyInto);
   ("Addons", AddonsSpec_DeepCopyInto)].
Definition ClusterSpec_DeepCopy : copier := copy_ptr ClusterSpec_DeepCopyInto.

Definition AdditionalMetadata_DeepCopyInto : copier := copy_struct
  [("Labels", copy_map);
   ("Annotations", copy_map)].
Definition AdditionalMetadata_DeepCopy : copier := copy_ptr AdditionalMetadata_DeepCopyInto.

Definition DeploymentSpec_DeepCopyInto : copier := copy_struct
  [("AdditionalMetadata", AdditionalMetadata_DeepCopyInto);
   ("Replicas", copy_ptr assign);
   ("Tolerations", copy_slice (ext_copy "Toleration"));
   ("Affinity", copy_ptr (ext_copy "Affinity"));
   ("Resources", copy_ptr (ext_copy "ResourceRequirements"))].
Definition DeploymentSpec_DeepCopy : copier := copy_ptr DeploymentSpec_DeepCopyInto.

Definition PlaneTunnelSpecServerSpec_DeepCopyInto : copier := copy_struct
  [("Deployment", DeploymentSpec_DeepCopyInto)].
Definition PlaneTunnelSpecServerSpec_DeepCopy : copier := copy_ptr PlaneTunnelSpecServerSpec_DeepCopyInto.

Definition PlaneTunnelServiceSpec_DeepCopyInto : copier := copy_struct
  [("AdditionalMetadata", AdditionalMetadata_DeepCopyInto);
   ("NodePort", copy_ptr assign)].
Definition PlaneTunnelServiceSpec_DeepCopy : copier := copy_ptr PlaneTunnelServiceSpec_DeepCopyInto.

Definition PlaneTunnelSpec_DeepCopyInto : copier := copy_struct
  [("Server", PlaneTunnelSpecServerSpec_DeepCopyInto);
   ("Service", PlaneTunnelServiceSpec_DeepCopyInto)].
Definition PlaneTunnelSpec_DeepCopy : copier := copy_ptr PlaneTunnelSpec_DeepCopyInto.

Definition HeirSpec_DeepCopyInto : copier := copy_struct
  [].
Definition HeirSpec_DeepCopy : copier := copy_ptr HeirSpec_DeepCopyInto.

Definition ClusterAgentSpec_DeepCopyInto : copier := copy_struct
  [].
Definition ClusterAgentSpec_DeepCopy : copier := copy_ptr ClusterAgentSpec_DeepCopyInto.

Definition AdditionalPort_DeepCopyInto : copier := copy_struct
  [("AppProtocol", copy_ptr assign);
   ("TargetPort", assign)].
Definition AdditionalPort_DeepCopy : copier := copy_ptr AdditionalPort_DeepCopyInto.

Definition ServiceSpec_DeepCopyInto : copier := copy_struct
  [("AdditionalMetadata", AdditionalMetadata_DeepCopyInto);
   ("AdditionalPorts", copy_slice AdditionalPort_DeepCopyInto);
   ("ApiServerNodePort", copy_ptr assign)].
Definition ServiceSpec_DeepCopy : copier := copy_ptr ServiceSpec_DeepCopyInto.

Definition ControlPlaneSpec_DeepCopyInto : copier := copy_struct
  [("Heir", assign);
   ("ClusterAgent", assign);
   ("Deployment", DeploymentSpec_DeepCopyInto);
   ("Service", ServiceSpec_DeepCopyInto);
   ("PlaneTunnel", PlaneTunnelSpec_DeepCopyInto)].
Definition ControlPlaneSpec_DeepCopy : copier := copy_ptr ControlPlaneSpec_DeepCopyInto.

Definition RuntimeSpec_DeepCopyInto : copier := copy_struct
  [("ControlPlane", ControlPlaneSpec_DeepCopyInto);
   ("Cluster", ClusterSpec_DeepCopyInto)].
Definition RuntimeSpec_DeepCopy : copier := copy_ptr RuntimeSpec_DeepCopyInto.

Definition CertificateStatus_DeepCopyInto : copier := copy_struct
  [("ExpiresAt", (ext_copy "Time"))].
Definition CertificateStatus_DeepCopy : copier := copy_ptr CertificateStatus_DeepCopyInto.

Definition RuntimeStatus_DeepCopyInto : copier := copy_struct
  [("Conditions", copy_slice (ext_copy "Condition"));
   ("Certificates", copy_slice CertificateStatus_DeepCopyInto)].
Definition RuntimeStatus_DeepCopy : copier := copy_ptr RuntimeStatus_DeepCopyInto.

Definition Runtime_DeepCopyInto : copier := copy_struct
  [("TypeMeta", assign);
   ("ObjectMeta", (ext_copy "ObjectMeta"));
   ("Spec", RuntimeSpec_DeepCopyInto);
   ("Status", RuntimeStatus_DeepCopyInto)].
Definition Runtime_DeepCopy : copier := copy_ptr Runtime_DeepCopyInto.
Definition Runtime_DeepCopyObject := copy_object "Runtime" Runtime_DeepCopy.

Definition RuntimeList_DeepCopyInto : copier := copy_struct
  [("TypeMeta", assign);
   ("ListMeta", (ext_copy "ListMeta"));
   ("Items", copy_slice Runtime_DeepCopyInto)].
Definition RuntimeList_DeepCopy : copier := copy_ptr RuntimeList_DeepCopyInto.
Definition RuntimeList_DeepCopyObject := copy_object "RuntimeList" RuntimeList_DeepCopy.

End copiers.

Section contracts.
Context `{Library}.

Lemma ComponentEndpoint_copies : Copies ComponentEndpoint_type ComponentEndpoint_DeepCopyInto.
Proof using All. solve_copies. Qed.
#[local] Hint Resolve ComponentEndpoint_copies : copies.

Lemma ControlPlaneExternalEndpointSpec_copies : Copies ControlPlaneExternalEndpointSpec_type ControlPlaneExternalEndpointSpec_DeepCopyInto.
Proof using All. solve_copies. Qed.
#[local] Hint Resolve ControlPlaneExternalEndpointSpec_copies : copies.

Lemma APIServerSpec_copies : Copies APIServerSpec_type APIServerSpec_DeepCopyInto.
Proof using All. solve_copies. Qed.
#[local] Hint Resolve APIServerSpec_copies : copies.

Lemma ControllerManagerSpec_copies : Copies ControllerManagerSpec_type ControllerManagerSpec_DeepCopyInto.
Proof using All. solve_copies. Qed.
#[local] Hint Resolve ControllerManagerSpec_copies : copies.

Lemma SchedulerSpec_copies : Copies SchedulerSpec_type SchedulerSpec_DeepCopyInto.
Proof using All. solve_copies. Qed.
#[local] Hint Resolve SchedulerSpec_copies : copies.

Lemma RegistrySettings_copies : Copies RegistrySettings_type RegistrySettings_DeepCopyInto.
Proof using All. solve_copies. Qed.
#[local] Hint Resolve RegistrySettings_copies : copies.

Lemma KubeProxyIPTablesConfiguration_copies : Copies KubeProxyIPTablesConfiguration_type KubeProxyIPTablesConfiguration_DeepCopyInto.
Proof using All. solve_copies. Qed.
#[local] Hint Resolve KubeProxyIPTablesConfiguration_copies : copies.

Lemma KubeProxyIPVSConfiguration_copies : Copies KubeProxyIPVSConfiguration_type KubeProxyIPVSConfiguration_DeepCopyInto.
Proof using All. solve_copies. Qed.
#[local] Hint Resolve KubeProxyIPVSConfiguration_copies : copies.

Lemma KubeProxyNFTablesConfiguration_copies : Copies KubeProxyNFTablesConfiguration_type KubeProxyNFTablesConfiguration_DeepCopyInto.
Proof using All. solve_copies. Qed.
#[local] Hint Resolve KubeProxyNFTablesConfiguration_copies : copies.

Lemma KubeProxySpec_copies : Copies KubeProxySpec_type KubeProxySpec_DeepCopyInto.
Proof using All. solve_copies. Qed.
#[local] Hint Resolve KubeProxySpec_copies : copies.

Lemma NetworkSpec_copies : Copies NetworkSpec_type NetworkSpec_DeepCopyInto.
Proof using All. solve_copies. Qed.
#[local] Hint Resolve NetworkSpec_copies : copies.

Lemma KineSpec_copies : Copies KineSpec_type KineSpec_DeepCopyInto.
Proof using All. solve_copies. Qed.
#[local] Hint Resolve KineSpec_copies : copies.

Lemma StorageSpec_copies : Copies StorageSpec_type StorageSpec_DeepCopyInto.
Proof using All. solve_copies. Qed.
#[local] Hint Resolve StorageSpec_copies : copies.

Lemma KubeletSpec_copies : Copies KubeletSpec_type KubeletSpec_DeepCopyInto.
Proof using All. solve_copies. Qed.
#[local] Hint Resolve KubeletSpec_copies : copies.

Lemma ExtraResourcesSpec_copies : Copies ExtraResourcesSpec_type ExtraResourcesSpec_DeepCopyInto.
Proof using All. solve_copies. Qed.
#[local] Hint Resolve ExtraResourcesSpec_copies : copies.

Lemma AddonsRuntimeSpec_copies : Copies AddonsRuntimeSpec_type AddonsRuntimeSpec_DeepCopyInto.
Proof using All. solve_copies. Qed.
#[local] Hint Resolve AddonsRuntimeSpec_copies : copies.

Lemma AddonOverrideSpec_copies : Copies AddonOverrideSpec_type AddonOverrideSpec_DeepCopyInto.
Proof using All. solve_copies. Qed.
#[local] Hint Resolve AddonOverrideSpec_copies : copies.

Lemma AddonChartSpec_copies : Copies AddonChartSpec_type AddonChartSpec_DeepCopyInto.
Proof using All. solve_copies. Qed.
#[local] Hint Resolve AddonChartSpec_copies : copies.

Lemma HelmAddonsSpec_copies : Copies HelmAddonsSpec_type HelmAddonsSpec_DeepCopyInto.
Proof using All. solve_copies. Qed.
#[local] Hint Resolve HelmAddonsSpec_copies : copies.

Lemma AddonsSpec_copies : Copies AddonsSpec_type AddonsSpec_DeepCopyInto.
Proof using All. solve_copies. Qed.
#[local] Hint Resolve AddonsSpec_copies : copies.

Lemma ClusterSpec_copies : Copies ClusterSpec_type ClusterSpec_DeepCopyInto.
Proof using All. solve_copies. Qed.
#[local] Hint Resolve ClusterSpec_copies : copies.

Lemma AdditionalMetadata_copies : Copies AdditionalMetadata_type AdditionalMetadata_DeepCopyInto.
Proof using All. solve_copies. Qed.
#[local] Hint Resolve AdditionalMetadata_copies : copies.

Lemma DeploymentSpec_copies : Copies DeploymentSpec_type DeploymentSpec_DeepCopyInto.
Proof using All. solve_copies. Qed.
#[local] Hint Resolve DeploymentSpec_copies : copies.

Lemma PlaneTunnelSpecServerSpec_copies : Copies PlaneTunnelSpecServerSpec_type PlaneTunnelSpecServerSpec_DeepCopyInto.
Proof using All. solve_copies. Qed.
#[local] Hint Resolve PlaneTunnelSpecServerSpec_copies : copies.

Lemma PlaneTunnelServiceSpec_copies : Copies PlaneTunnelServiceSpec_type PlaneTunnelServiceSpec_DeepCopyInto.
Proof using All. solve_copies. Qed.
#[local] Hint Resolve PlaneTunnelServiceSpec_copies : copies.

Lemma PlaneTunnelSpec_copies : Copies PlaneTunnelSpec_type PlaneTunnelSpec_DeepCopyInto.
Proof using All. solve_copies. Qed.
#[local] Hint Resolve PlaneTunnelSpec_copies : copies.

Lemma HeirSpec_copies : Copies HeirSpec_type HeirSpec_DeepCopyInto.
Proof using All. solve_copies. Qed.
#[local] Hint Resolve HeirSpec_copies : copies.

Lemma ClusterAgentSpec_copies : Copies ClusterAgentSpec_type ClusterAgentSpec_DeepCopyInto.
Proof using All. solve_copies. Qed.
#[local] Hint Resolve ClusterAgentSpec_copies : copies.

Lemma AdditionalPort_copies : Copies AdditionalPort_type AdditionalPort_DeepCopyInto.
Proof using All. solve_copies. Qed.
#[local] Hint Resolve AdditionalPort_copies : copies.

Lemma ServiceSpec_copies : Copies ServiceSpec_type ServiceSpec_DeepCopyInto.
Proof using All. solve_copies. Qed.
#[local] Hint Resolve ServiceSpec_copies : copies.

Lemma ControlPlaneSpec_copies : Copies ControlPlaneSpec_type ControlPlaneSpec_DeepCopyInto.
Proof using All. solve_copies. Qed.
#[local] Hint Resolve ControlPlaneSpec_copies : copies.

Lemma RuntimeSpec_copies : Copies RuntimeSpec_type RuntimeSpec_DeepCopyInto.
Proof using All. solve_copies. Qed.
#[local] Hint Resolve RuntimeSpec_copies : copies.

Lemma CertificateStatus_copies : Copies CertificateStatus_type CertificateStatus_DeepCopyInto.
Proof using All. solve_copies. Qed.
#[local] Hint Resolve CertificateStatus_copies : copies.

Lemma RuntimeStatus_copies : Copies RuntimeStatus_type RuntimeStatus_DeepCopyInto.
Proof using All. solve_copies. Qed.
#[local] Hint Resolve RuntimeStatus_copies : copies.

Lemma Runtime_copies : Copies Runtime_type Runtime_DeepCopyInto.
Proof using All. solve_copies. Qed.
#[local] Hint Resolve Runtime_copies : copies.

Lemma RuntimeList_copies : Copies RuntimeList_type RuntimeList_DeepCopyInto.
Proof using All. solve_copies. Qed.
#[local] Hint Resolve RuntimeList_copies : copies.

Definition generated : list (string * ty * copier * copier) :=
  [("ComponentEndpoint", ComponentEndpoint_type, ComponentEndpoint_DeepCopyInto, ComponentEndpoint_DeepCopy);
   ("ControlPlaneExternalEndpointSpec", ControlPlaneExternalEndpointSpec_type, ControlPlaneExternalEndpointSpec_DeepCopyInto, ControlPlaneExternalEndpointSpec_DeepCopy);
   ("APIServerSpec", APIServerSpec_type, APIServerSpec_DeepCopyInto, APIServerSpec_DeepCopy);
   ("ControllerManagerSpec", ControllerManagerSpec_type, ControllerManagerSpec_DeepCopyInto, ControllerManagerSpec_DeepCopy);
   ("SchedulerSpec", SchedulerSpec_type, SchedulerSpec_DeepCopyInto, SchedulerSpec_DeepCopy);
   ("RegistrySettings", RegistrySettings_type, RegistrySettings_DeepCopyInto, RegistrySettings_DeepCopy);
   ("KubeProxyIPTablesConfiguration", KubeProxyIPTablesConfiguration_type, KubeProxyIPTablesConfiguration_DeepCopyInto, KubeProxyIPTablesConfiguration_DeepCopy);
   ("KubeProxyIPVSConfiguration", KubeProxyIPVSConfiguration_type, KubeProxyIPVSConfiguration_DeepCopyInto, KubeProxyIPVSConfiguration_DeepCopy);
   ("KubeProxyNFTablesConfiguration", KubeProxyNFTablesConfiguration_type, KubeProxyNFTablesConfiguration_DeepCopyInto, KubeProxyNFTablesConfiguration_DeepCopy);
   ("KubeProxySpec", KubeProxySpec_type, KubeProxySpec_DeepCopyInto, KubeProxySpec_DeepCopy);
   ("NetworkSpec", NetworkSpec_type, NetworkSpec_DeepCopyInto, NetworkSpec_DeepCopy);
   ("KineSpec", KineSpec_type, KineSpec_DeepCopyInto, KineSpec_DeepCopy);
   ("StorageSpec", StorageSpec_type, StorageSpec_DeepCopyInto, StorageSpec_DeepCopy);
   ("KubeletSpec", KubeletSpec_type, KubeletSpec_DeepCopyInto, KubeletSpec_DeepCopy);
   ("ExtraResourcesSpec", ExtraResourcesSpec_type, ExtraResourcesSpec_DeepCopyInto, ExtraResourcesSpec_DeepCopy);
   ("AddonsRuntimeSpec", AddonsRuntimeSpec_type, AddonsRuntimeSpec_DeepCopyInto, AddonsRuntimeSpec_DeepCopy);
   ("AddonOverrideSpec", AddonOverrideSpec_type, AddonOverrideSpec_DeepCopyInto, AddonOverrideSpec_DeepCopy);
   ("AddonChartSpec", AddonChartSpec_type, AddonChartSpec_DeepCopyInto, AddonChartSpec_DeepCopy);
   ("HelmAddonsSpec", HelmAddonsSpec_type, HelmAddonsSpec_DeepCopyInto, HelmAddonsSpec_DeepCopy);
   ("AddonsSpec", AddonsSpec_type, AddonsSpec_DeepCopyInto, AddonsSpec_DeepCopy);
   ("ClusterSpec", ClusterSpec_type, ClusterSpec_DeepCopyInto, ClusterSpec_DeepCopy);
   ("AdditionalMetadata", AdditionalMetadata_type, AdditionalMetadata_DeepCopyInto, AdditionalMetadata_DeepCopy);
   ("DeploymentSpec", DeploymentSpec_type, DeploymentSpec_DeepCopyInto, DeploymentSpec_DeepCopy);
   ("PlaneTunnelSpecServerSpec", PlaneTunnelSpecServerSpec_type, PlaneTunnelSpecServerSpec_DeepCopyInto, PlaneTunnelSpecServerSpec_DeepCopy);
   ("PlaneTunnelServiceSpec", PlaneTunnelServiceSpec_type, PlaneTunnelServiceSpec_DeepCopyInto, PlaneTunnelServiceSpec_DeepCopy);
   ("PlaneTunnelSpec", PlaneTunnelSpec_type, PlaneTunnelSpec_DeepCopyInto, PlaneTunnelSpec_DeepCopy);
   ("HeirSpec", HeirSpec_type, HeirSpec_DeepCopyInto, HeirSpec_DeepCopy);
   ("ClusterAgentSpec", ClusterAgentSpec_type, ClusterAgentSpec_DeepCopyInto, ClusterAgentSpec_DeepCopy);
   ("AdditionalPort", AdditionalPort_type, AdditionalPort_DeepCopyInto, AdditionalPort_DeepCopy);
   ("ServiceSpec", ServiceSpec_type, ServiceSpec_DeepCopyInto, ServiceSpec_DeepCopy);
   ("ControlPlaneSpec", ControlPlaneSpec_type, ControlPlaneSpec_DeepCopyInto, ControlPlaneSpec_DeepCopy);
   ("RuntimeSpec", RuntimeSpec_type, RuntimeSpec_DeepCopyInto, RuntimeSpec_DeepCopy);
   ("CertificateStatus", CertificateStatus_type, CertificateStatus_DeepCopyInto, CertificateStatus_DeepCopy);
   ("RuntimeStatus", RuntimeStatus_type, RuntimeStatus_DeepCopyInto, RuntimeStatus_DeepCopy);
   ("Runtime", Runtime_type, Runtime_DeepCopyInto, Runtime_DeepCopy);
   ("RuntimeList", RuntimeList_type, RuntimeList_DeepCopyInto, RuntimeList_DeepCopy)].

Lemma controlplane_copies : Forall (λ '(_, t, into, deepcopy), Copies t into ∧ Copies (TPtr t) deepcopy) generated.
Proof using All. repeat (apply Forall_cons_2; [split; [|apply copies_ptr]; eauto with copies|]). apply Forall_nil_2. Qed.
End contracts.

#[export] Hint Resolve ComponentEndpoint_copies ControlPlaneExternalEndpointSpec_copies APIServerSpec_copies ControllerManagerSpec_copies SchedulerSpec_copies RegistrySettings_copies KubeProxyIPTablesConfiguration_copies KubeProxyIPVSConfiguration_copies KubeProxyNFTablesConfiguration_copies KubeProxySpec_copies NetworkSpec_copies KineSpec_copies StorageSpec_copies KubeletSpec_copies ExtraResourcesSpec_copies AddonsRuntimeSpec_copies AddonOverrideSpec_copies AddonChartSpec_copies HelmAddonsSpec_copies AddonsSpec_copies ClusterSpec_copies AdditionalMetadata_copies DeploymentSpec_copies PlaneTunnelSpecServerSpec_copies PlaneTunnelServiceSpec_copies PlaneTunnelSpec_copies HeirSpec_copies ClusterAgentSpec_copies AdditionalPort_copies ServiceSpec_copies ControlPlaneSpec_copies RuntimeSpec_copies CertificateStatus_copies RuntimeStatus_copies Runtime_copies RuntimeList_copies : copies.

End Controlplane.

(** ** All of them *)
Import (hints) Clusteragent Controlplane.

Section all.
Context `{Library}.

Definition generated : list (string * ty * copier * copier) :=
  Clusteragent.generated ++ Controlplane.generated.

Lemma generated_copies : Forall (λ '(_, t, into, deepcopy), Copies t into ∧ Copies (TPtr t) deepcopy) generated.
Proof using All.
  apply Forall_app_2; [apply Clusteragent.clusteragent_copies | apply Controlplane.controlplane_copies].
Qed.

(** The root objects, with the copy the machinery calls through [runtime.Object]. *)
Definition roots : list (string * ty * copier * (val → heap → iface * heap)) :=
  [("HelmChart", Clusteragent.HelmChart_type, Clusteragent.HelmChart_DeepCopy, Clusteragent.HelmChart_DeepCopyObject);
   ("HelmChartList", Clusteragent.HelmChartList_type, Clusteragent.HelmChartList_DeepCopy, Clusteragent.HelmChartList_DeepCopyObject);
   ("WorkerJoinToken", Clusteragent.WorkerJoinToken_type, Clusteragent.WorkerJoinToken_DeepCopy, Clusteragent.WorkerJoinToken_DeepCopyObject);
   ("WorkerJoinTokenList", Clusteragent.WorkerJoinTokenList_type, Clusteragent.WorkerJoinTokenList_DeepCopy, Clusteragent.WorkerJoinTokenList_DeepCopyObject);
   ("Runtime", Controlplane.Runtime_type, Controlplane.Runtime_DeepCopy, Controlplane.Runtime_DeepCopyObject);
   ("RuntimeList", Controlplane.RuntimeList_type, Controlplane.RuntimeList_DeepCopy, Controlplane.RuntimeList_DeepCopyObject)].

Lemma copy_object_iface name t c h v x f :
  Copies (TPtr t) c → reify (TPtr t) h v = Some (x, f) →
  (copy_object name c v h).1 = match x with XNil => NilInterface | _ => Interface name (c v h).1 end.
Proof using All.
  intros Hc R. destruct (Hc h v x f R) as (_ & f' & R' & _). unfold copy_object.
  destruct (c v h) as [v' h']. simpl in *. apply reify_ptr in R'.
  destruct R' as [(-> & -> & _)|(l & u & y & g & -> & _ & _ & -> & _)]; done.
Qed.

(** A nil receiver gives a nil interface and not an interface that holds a nil
    pointer, which callers would take for an object. *)
Lemma DeepCopyObject_spec name t deepcopy object :
  (name, t, deepcopy, object) ∈ roots →
  ∀ h v x f, reify (TPtr t) h v = Some (x, f) →
  (object v h).2 = (deepcopy v h).2 ∧
  (object v h).1 = match x with XNil => NilInterface | _ => Interface name (deepcopy v h).1 end.
Proof using All.
  intros Hin h v x f R.
  assert (object = copy_object name deepcopy ∧ Copies (TPtr t) deepcopy) as [-> Hc].
  { assert (Forall (λ '(name, t, deepcopy, object), object = copy_object name deepcopy ∧ Copies (TPtr t) deepcopy) roots) as F.
    { repeat (apply Forall_cons_2; [split; [done|apply copies_ptr; eauto with copies]|]). apply Forall_nil_2. }
    exact (proj1 (Forall_forall _ _) F _ Hin). }
  split; [|by eapply copy_object_iface]. unfold copy_object. by destruct (deepcopy v h).
Qed.

(** C37.  For every resource type and every struct inside one, the generated copy
    is deep: the copy of a pointer reads as the same value as the original (nil
    stays nil), the two share no memory, whatever is later written to the memory
    of the copy leaves the original as it was, and whatever is written to the
    memory of the original leaves the copy as it was. *)
Theorem DeepCopy_isolated name t into deepcopy :
  (name, t, into, deepcopy) ∈ generated →
  ∀ h v x f, reify (TPtr t) h v = Some (x, f) →
  ∃ f', reify (TPtr t) (deepcopy v h).2 (deepcopy v h).1 = Some (x, f') ∧ f ## f'
  ∧ (∀ h2, (∀ l, l ∉ f' → h2 !! l = (deepcopy v h).2 !! l) → reify (TPtr t) h2 v = Some (x, f))
  ∧ (∀ h2, (∀ l, l ∉ f → h2 !! l = (deepcopy v h).2 !! l) →
       reify (TPtr t) h2 (deepcopy v h).1 = Some (x, f')).
Proof using All.
  intros Hin. destruct (proj1 (Forall_forall _ _) generated_copies _ Hin) as [_ Hc].
  apply copies_isolated, Hc.
Qed.

(** ** The manifest of a cluster agent

    What GenerateClusterAgentRuntimeSecret marshals: a copy of the Runtime with
    its status cleared and its type set. *)
Definition zero_RuntimeStatus : val :=
  VStruct {["Conditions" := VNil; "ObservedGeneration" := VScalar "0"; "Certificates" := VNil]}.

Definition write_field (p : val) (n : string) (u : val) (h : heap) : heap :=
  match p with
  | VLoc l => match h !! l with
              | Some (CPtr (VStruct m)) => <[l := CPtr (VStruct (<[n := u]> m))]> h
              | _ => h
              end
  | _ => h
  end.

Definition runtime_manifest (type_meta : string) (runtime : val) (h : heap) : val * heap :=
  let '(manifest, h) := Controlplane.Runtime_DeepCopy runtime h in
  let h := write_field manifest "Status" zero_RuntimeStatus h in
  (manifest, write_field manifest "TypeMeta" (VScalar type_meta) h).

Lemma write_field_eq l n u h m :
  h !! l = Some (CPtr (VStruct m)) → write_field (VLoc l) n u h = <[l := CPtr (VStruct (<[n := u]> m))]> h.
Proof using. intros E. simpl. by rewrite E. Qed.

(** The two fields overwritten in the cell of the copy, the other two as they were. *)
Lemma manifest_reads tm old_tm om sp st h out c m xfs :
  Forall2 (reads_field h m)
    [("TypeMeta", TScalar); ("ObjectMeta", TExt "ObjectMeta"); ("Spec", Controlplane.RuntimeSpec_type);
     ("Status", Controlplane.RuntimeStatus_type)] xfs →
  XStruct [("TypeMeta", old_tm); ("ObjectMeta", om); ("Spec", sp); ("Status", st)] = XStruct xfs.*1 →
  out ∉ ⋃ xfs.*2 →
  ∃ g, reify Controlplane.Runtime_type (<[out := c]> h)
         (VStruct (<["TypeMeta" := VScalar tm]> (<["Status" := zero_RuntimeStatus]> m)))
     = Some (XStruct [("TypeMeta", XScalar tm); ("ObjectMeta", om); ("Spec", sp);
         ("Status", XStruct [("Conditions", XNil); ("ObservedGeneration", XScalar "0"); ("Certificates", XNil)])], g)
     ∧ g ⊆ ⋃ xfs.*2.
Proof using All.
  intros F. repeat (apply Forall2_cons_inv_l in F as ([[? ?] ?] & ? & (En & ? & ? & ?) & F & ->); simpl in En; subst).
  apply Forall2_nil_inv_l in F as ->. intros [= -> -> -> ->] Hout. simpl in *.
  eexists. split.
  - apply reify_struct. eexists _, [(_, _); (_, _); (_, _); (_, _)]. split_and!; [done| |done|done].
    repeat (apply Forall2_cons_2; [split; [done|]; eexists; simpl|]); [..|apply Forall2_nil_2].
    + rewrite lookup_insert_eq. done.
    + rewrite !lookup_insert_ne by done. split; [done|]. eapply reify_frame; [done|].
      intros. rewrite lookup_insert_ne; set_solver.
    + rewrite !lookup_insert_ne by done. split; [done|]. eapply reify_frame; [done|].
      intros. rewrite lookup_insert_ne; set_solver.
    + rewrite lookup_insert_ne, lookup_insert_eq by done. split; [done|]. reflexivity.
  - simpl. set_solver.
Qed.

(** C38.  The manifest handed to a cluster agent is the Runtime with an empty
    status and its type set, metadata and specification unchanged; the Runtime it
    was made from, which is the one the controller goes on to work with, reads
    as before, its status included. *)
Theorem runtime_manifest_correct tm h p old_tm om sp st f :
  let runtime tm st := XPtr (XStruct [("TypeMeta", tm); ("ObjectMeta", om); ("Spec", sp); ("Status", st)]) in
  reify (TPtr Controlplane.Runtime_type) h p = Some (runtime old_tm st, f) →
  let '(manifest, h') := runtime_manifest tm p h in
  reify (TPtr Controlplane.Runtime_type) h' p = Some (runtime old_tm st, f) ∧
  ∃ f', reify (TPtr Controlplane.Runtime_type) h' manifest =
    Some (runtime (XScalar tm)
           (XStruct [("Conditions", XNil); ("ObservedGeneration", XScalar "0"); ("Certificates", XNil)]), f')
    ∧ f ## f'.
Proof using All.
  intros runtime R. pose proof R as R0. pose proof (reify_dom _ _ _ _ _ R) as Hdom.
  apply reify_ptr in R as [(_ & [=] & _)|(l & u & y & g & -> & E & E' & [= <-] & ->)].
  destruct (copy_ptr_fresh Controlplane.Runtime_type Controlplane.Runtime_DeepCopyInto h l u
    (XStruct [("TypeMeta", old_tm); ("ObjectMeta", om); ("Spec", sp); ("Status", st)]) g)
    as (out & u' & g' & h' & Hcp & Hi & Ho & R & Hg & Hout & Hd); [eauto with copies|done|done|].
  unfold runtime_manifest, Controlplane.Runtime_DeepCopy. rewrite Hcp.
  apply reify_struct in R as (m & xfs & -> & F & Ex & ->).
  rewrite (write_field_eq out "Status" _ h' m) by done.
  rewrite (write_field_eq _ _ _ _ (<["Status" := zero_RuntimeStatus]> m)), insert_insert_eq by (by rewrite lookup_insert_eq).
  split.
  { eapply reify_frame; [exact R0|]. intros l' Hl'. rewrite lookup_insert_ne by set_solver.
    apply Hdom, elem_of_dom in Hl' as [c Hc]. rewrite Hc. by eapply lookup_weaken. }
  edestruct (manifest_reads tm old_tm om sp st h' out) as (g2 & R & Hg2); [exact F|exact Ex|done|]. exists ({[out]} ∪ g2). split.
  - apply reify_ptr. right. eexists out, _, _, g2. by rewrite lookup_insert_eq.
  - set_solver.
Qed.
End all.

(** ** Two concrete copies *)
Import ReferenceLibrary.

(** A status with one condition, an expiry and a secret. *)
Definition status_heap : heap :=
  {[1%positive := CPtr (VStruct {["Conditions" := VLoc 2; "TokenID" := VScalar "abc123"; "ExpiresAt" := VLoc 4;
                                  "SecretRef" := VLoc 6; "SecretChecksum" := VScalar "0f"]});
    2%positive := CSlice [VLoc 3];
    3%positive := CPtr (VScalar "Ready");
    4%positive := CPtr (VLoc 5);
    5%positive := CPtr (VScalar "2026-01-01");
    6%positive := CPtr (VScalar "bootstrap-token-abc123")]}.

Definition status_tree : tree :=
  XPtr (XStruct [("Conditions", XSlice [XPtr (XScalar "Ready")]); ("TokenID", XScalar "abc123");
                 ("ExpiresAt", XPtr (XPtr (XScalar "2026-01-01"))); ("SecretRef", XPtr (XScalar "bootstrap-token-abc123"));
                 ("SecretChecksum", XScalar "0f")]).

Definition status_cells : gset positive := {[1; 2; 3; 4; 5; 6]}%positive.

Lemma status_reads :
  reify (TPtr Clusteragent.WorkerJoinTokenStatus_type) status_heap (VLoc 1) = Some (status_tree, status_cells).
Proof. vm_compute. reflexivity. Qed.

Lemma DeepCopy_isolated_witness :
  ∃ f', reify (TPtr Clusteragent.WorkerJoinTokenStatus_type)
          (Clusteragent.WorkerJoinTokenStatus_DeepCopy (VLoc 1) status_heap).2
          (Clusteragent.WorkerJoinTokenStatus_DeepCopy (VLoc 1) status_heap).1 = Some (status_tree, f')
        ∧ status_cells ## f'.
Proof.
  edestruct (DeepCopy_isolated "WorkerJoinTokenStatus") as (f' & R & D & _);
    [apply elem_of_app; left; unfold Clusteragent.generated; find_field|apply status_reads|].
  by exists f'.
Defined.

(** A Runtime with the zero specification and a status of one certificate. *)
Fixpoint zero_value (t : ty) : val :=
  match t with
  | TScalar => VScalar ""
  | TStruct fs => VStruct (list_to_map ((λ '(n, t), (n, zero_value t)) <$> fs))
  | _ => VNil
  end.

Definition runtime_heap : heap :=
  {[1%positive := CPtr (VStruct {["TypeMeta" := VScalar ""; "ObjectMeta" := VLoc 2; "Spec" := zero_value Controlplane.RuntimeSpec_type;
                                  "Status" := VStruct {["Conditions" := VNil; "ObservedGeneration" := VScalar "4";
                                                        "Certificates" := VLoc 3]}]});
    2%positive := CPtr (VScalar "tenant");
    3%positive := CSlice [VStruct {["Name" := VScalar "apiserver"; "ExpiresAt" := VNil]}]]}.

Definition spec_tree : tree := default XNil (fst <$> reify Controlplane.RuntimeSpec_type runtime_heap (zero_value Controlplane.RuntimeSpec_type)).

Definition runtime_status : tree :=
  XStruct [("Conditions", XNil); ("ObservedGeneration", XScalar "4");
           ("Certificates", XSlice [XStruct [("Name", XScalar "apiserver"); ("ExpiresAt", XNil)]])].

Lemma runtime_manifest_correct_witness :
  let '(manifest, h') := runtime_manifest "Runtime" (VLoc 1) runtime_heap in
  let runtime tm st := XPtr (XStruct [("TypeMeta", tm); ("ObjectMeta", XPtr (XScalar "tenant")); ("Spec", spec_tree); ("Status", st)]) in
  reify (TPtr Controlplane.Runtime_type) h' (VLoc 1) = Some (runtime (XScalar "") runtime_status, {[1; 2; 3]}%positive) ∧
  ∃ f', reify (TPtr Controlplane.Runtime_type) h' manifest =
    Some (runtime (XScalar "Runtime")
           (XStruct [("Conditions", XNil); ("ObservedGeneration", XScalar "0"); ("Certificates", XNil)]), f')
    ∧ {[1; 2; 3]}%positive ## f'.
Proof.
  apply (runtime_manifest_correct "Runtime" runtime_heap (VLoc 1) (XScalar "") (XPtr (XScalar "tenant")) spec_tree runtime_status).
  vm_compute. reflexivity.
Defined.
